(* ===== verification/_CoqProject ===== *)
-Q . S2P
Prelude.v
Memory.v
CLib.v
Support.v
Machine.v
I8259.v
Rtc.v
Pcb.v
Rofs.v
Paging.v
Screen.v
Listing.v
Keyboard.v
TermIO.v
Files.v
Process.v
Launch.v
Halt.v
Syscalls.v
Terminal.v
TermSetup.v
Isolation.v
Desc.v
Idt.v
Handlers.v
Kernel.v
Calls.v
Programs.v
ErrorTests.v
Grep.v
Shell.v
Blink.v
UserMode.v
Commands.v
Session.v
