(* ===== verification/Prelude.v ===== *)
(** * ApollOS, verified

    This library models ApollOS, a small 32-bit operating system with three text
    terminals ([src/student-distrib], in C and assembly), and the programs that run
    on it ([src/syscalls], [src/fish]).  The code is embedded shallowly: a C
    function is a Rocq function of the same name in the monad [M S] below (a
    result or a reason to stop, and the new state), and the theorems are about
    these functions.

    ** The program and its model

    The boot loader jumps to [start], which calls [entry]: the interrupt table, the
    devices, the paging and the terminals are set up, and the first shell is
    started.  From then on the kernel runs when a program traps ([int 0x80]), when a
    key is pressed, when the clock ticks, or when a program faults.  A program is
    started by [execute] and ended by [halt]; in between it owns a window of 4 MB,
    at most eight descriptors, and the keyboard and the screen when its terminal is in front.

    The parts, each in a file, from the bottom up:
    - [Prelude]: C integers at their widths ([u8] to [i32]), the monad, loops, and
      the tactics and hints the other files use.
    - [Memory]: the interface ([Memory], [MemoryOk]) through which all C code loads
      and stores, with pointers and the lemmas on runs of bytes.
    - [CLib] ([lib.c]: strings and memory), [Support] ([ece391support.c]): the
      routines that both sides are written with, over any memory.
    - [Machine]: the state.  The record [machine] has a field for each global of the
      kernel (the tables, [terminal], [term_cur], [processes_flags], the driver
      states), the physical memory, and of the hardware what the code touches: the
      flags and the stack pointer, the TSS, the interrupt table, the ports.  The class
      [Platform] is what the code cannot see: the addresses of the page tables, what a port
      read yields, and how large the compiler makes the frames of the C functions;
      [PlatformOk] is the little that is assumed of it.
    - [I8259] ([i8259.c]), [Rtc] ([rtc.c]), [Pcb] (the process control blocks of
      [syscalls.c]), [Rofs] and [Listing] ([rofs.c]), [Paging] ([paging.c]), [Screen] (the
      output half of [lib.c]), [Keyboard] ([keyboard.c]), [TermIO] (the driver half of
      [terminal.c]), [Files] ([open], [close], [read] and [write] of
      [syscalls.c]).
    - [Process] ([execute], [halt] and what they are made of), with the theorems
      on [execute] in [Launch] and those on [halt], and on both, in [Halt].
    - [Syscalls]: the trap ([interrupt_handlers.S]), word by word on the kernel stack, and
      the other system calls.
    - [Terminal], [TermSetup] ([terminal.c]): three terminals, switching and set-up.
    - [Isolation]: what a program can reach of the physical memory.
    - [Desc] ([x86_desc.h]), [Idt] ([idt.c]): descriptors and gates.
    - [Handlers]: the keyboard interrupt from the request to [iret], and the kernel
      code that waits for it.
    - [Kernel] ([boot.S], [kernel.c], [multiboot.h]): the boot.
    - [Calls]: the user's side of the system calls.  The class [SysCalls] is the trap,
      [SysCallsOk] what the calls promise about a [view] of the system.
    - [Programs] ([hello], [testprint], [cat], [ls], [counter]), [ErrorTests]
      ([syserr]), [Grep] ([grep]): the programs, verified against [SysCallsOk].
    - [Shell] ([shell]): the shell, against [LauncherOk], which is [SysCallsOk] with the two
      promises on [execute] that the shell relies on.
    - [Blink] ([src/fish/blink.S], and the routines of [fish.c] that it calls): the list of
      blinking characters of the fish.
    - [UserMode]: programs on the machine; the kernel implements [SysCallsOk].
    - [Commands]: whole commands, from [execute] through the program to [halt].
    - [Session]: programs in programs.  A program that [execute] starts runs inside the system
      call of its parent; the kernel implements [LauncherOk], so sessions of the shell run
      on the machine.

    ** What is proved

    Each driver refines an abstract object: the file system an [image] (a directory and
    the contents of the files), the screen a [console] (2000 characters and a
    cursor), the keyboard a line editor ([Typed]), a process its table of descriptors.
    - Processes.  [kernel_ok] is the invariant of the whole kernel; [execute] and
      [halt] keep it, [execute] starts exactly what the command line asks for, and
      [halt] returns to exactly the place that [execute] came from.  A process
      is confined to its window and the screens: it reaches no memory of another process,
      and of the kernel only the video memory.  The screens of all terminals are open to
      every program; that is how the code maps them.
    - Files.  Look-up, reading, sequences of reads, and directories refine the image;
      [open] and [close] allocate and release descriptors and keep the table well formed.
    - Screen, keyboard and terminals.  Every byte written shows as on the console; every
      key is edited into the line; a read waits for the line and gets it; switching
      away from a terminal and back restores it.
    - Set-up.  The boot, from the first instruction, ends in the shell in user mode, with
      the invariant; the gates and the descriptors are read back by the processor as meant.
    - Routines.  Copying, formatting and parsing numbers are compared with
      reference definitions.
    - Programs.  The commands are verified end to end: what is on the screen after the
      command is its specification, and control is back in the caller.  [shell_runs] puts
      them together: the lines that are typed, the programs they start, and what each
      of them leaves on the screen, up to the line that ends the shell.
    - The fish.  The list of blinking characters refines a list without pointers:
      requests to add, remove, copy and move characters, and the ticks.

    ** Bounds and fuel

    A loop of the C code without a structural bound is [while], which makes at most
    2^32 iterations (by 32 doublings, so that it also computes) and then stops with [Diverges]; no
    C loop on 32-bit counters that ends makes more.  [execute] and [halt] call each
    other when the last program of a terminal ends; they have fuel, and [execute_unfold]
    and [halt_unfold] show that it is never short.  Kernel code that waits ([rtc_read],
    [terminal_read]) serves the interrupts that are pending, one per turn, and is
    [Blocked] when none is left; the liveness theorems say which requests are
    enough.  All theorems are about total runs: they state that the code comes to its
    end, and in which state.

    ** What is not modelled

    - Interrupts outside the places where the code waits: they are taken there, one per
      turn, and not between two statements of other kernel code or of a program.
    - The frames of the C functions on the kernel stack.  The words that a trap and
      [handle_syscall] put on it are modelled, and so is the frame of [execute], which
      saves the stack pointer below its own local variables (at least [frame_locals]
      bytes, of a size that is the compiler's); elsewhere the stack pointer stands for the
      return address of the function called by the trap, and [call_frames] bounds what the
      functions of one call, and the interrupts it is open to, take.  The handlers of
      interrupts push and pop counted words.
    - The machine code of the programs.  A program is its C code; in [Session] what the
      processor does with a file is a parameter, tied to the C code by [compiled].
    - The load of the GDT in [boot.S] (the table is data of [x86_desc.S]), the
      debugging macros and the test stubs; the programs [pingpong] and [sigtest] and the main
      program of the fish, which need the clock, signals, which the kernel
      has not got, and a page of video memory in user mode; the Linux emulation of the
      system calls ([ece391emulate.c]), which calls libc.  The manifest lists them all. *)

From Stdlib Require Export ZArith Lia.
From stdpp Require Export strings.
From stdpp Require Export base tactics numbers list gmap option.
Set Default Goal Selector "!".

#[global] Open Scope Z_scope.

(** * Machine integers

    A C integer is a [Z]; the functions below are the conversions to the width
    of each type of [student-distrib/types.h] (two's complement). *)

Definition u8 (z : Z) : Z := z mod 256.
Definition u16 (z : Z) : Z := z mod 65536.
Definition u32 (z : Z) : Z := z mod 4294967296.
Definition i8 (z : Z) : Z := (z + 128) mod 256 - 128.
Definition i32 (z : Z) : Z := (z + 2147483648) mod 4294967296 - 2147483648.

(** The bytes of a string literal, without the null byte that ends it. *)
Definition text (s : string) : list Z :=
  (fun a => Z.of_N (Ascii.N_of_ascii a)) <$> String.list_ascii_of_string s.

(** [truth x] is C's truth of an integer expression. *)
Definition truth (z : Z) : bool := negb (z =? 0).

Create HintDb cint discriminated.
Create Rewrite HintDb cint.
Create HintDb mach discriminated.
Create Rewrite HintDb mach.

Lemma u8_range z : 0 <= u8 z < 256.
Proof. apply Z.mod_pos_bound. lia. Qed.

Lemma u16_range z : 0 <= u16 z < 65536.
Proof. apply Z.mod_pos_bound. lia. Qed.

Lemma u32_range z : 0 <= u32 z < 4294967296.
Proof. apply Z.mod_pos_bound. lia. Qed.

Lemma i32_range z : -2147483648 <= i32 z < 2147483648.
Proof. unfold i32. pose proof (Z.mod_pos_bound (z + 2147483648) 4294967296). lia. Qed.

Lemma i8_range z : -128 <= i8 z < 128.
Proof. unfold i8. pose proof (Z.mod_pos_bound (z + 128) 256). lia. Qed.

Lemma u8_small z : 0 <= z < 256 -> u8 z = z.
Proof. intros. by apply Z.mod_small. Qed.

Lemma u16_small z : 0 <= z < 65536 -> u16 z = z.
Proof. intros. by apply Z.mod_small. Qed.

Lemma u32_small z : 0 <= z < 4294967296 -> u32 z = z.
Proof. intros. by apply Z.mod_small. Qed.

Lemma i32_small z : -2147483648 <= z < 2147483648 -> i32 z = z.
Proof. intros. unfold i32. rewrite Z.mod_small; lia. Qed.

Lemma i8_small z : -128 <= z < 128 -> i8 z = z.
Proof. intros. unfold i8. rewrite Z.mod_small; lia. Qed.

Lemma u8_u8 z : u8 (u8 z) = u8 z.
Proof. apply u8_small, u8_range. Qed.

Lemma u32_u32 z : u32 (u32 z) = u32 z.
Proof. apply u32_small, u32_range. Qed.

Lemma u32_add_l a b : u32 (u32 a + b) = u32 (a + b).
Proof. unfold u32. by rewrite Zplus_mod_idemp_l. Qed.

Lemma u32_add_r a b : u32 (a + u32 b) = u32 (a + b).
Proof. unfold u32. by rewrite Zplus_mod_idemp_r. Qed.

Lemma u32_mul_r a b : u32 (a * u32 b) = u32 (a * b).
Proof. unfold u32. by rewrite Zmult_mod_idemp_r. Qed.

#[export] Hint Rewrite u8_u8 u32_u32 u32_add_l u32_add_r u32_mul_r : cint.
#[export] Hint Resolve u8_range u16_range u32_range i32_range i8_range : cint.

(** [u32_lia] removes the width conversions of values that are in range. *)
Ltac csmall :=
  repeat match goal with
  | |- context [u32 ?z] => rewrite (u32_small z) by lia
  | |- context [i32 ?z] => rewrite (i32_small z) by lia
  | |- context [u8 ?z] => rewrite (u8_small z) by lia
  | |- context [i8 ?z] => rewrite (i8_small z) by lia
  end.

(** * The effect monad

    A C function is a computation over a state [S]: it either returns a value
    or stops, and in both cases the state it reached is kept.  Stopping covers
    undefined behaviour, faults, waiting for ever and the transfers of control
    that do not come back to the caller. *)

Inductive stop : Type :=
  | PageFault (a : Z)              (** access to an address that is not mapped *)
  | OutOfBounds                    (** access outside a C array: undefined *)
  | Diverges                       (** 2^32 iterations of an unbounded loop *)
  | Blocked                        (** spinning, and no interrupt is to come *)
  | EnterUser (eip esp : Z)        (** [iret] to user mode *)
  | ReturnTo (eax esp ebp : Z)     (** stack switched to a saved frame *)
  | Halted.                        (** the [hlt] loop that ends [entry] *)

Inductive outcome (A : Type) : Type :=
  | Ok (a : A)
  | Stop (e : stop).
Arguments Ok {A} a.
Arguments Stop {A} e.

#[export] Instance stop_eq_dec : EqDecision stop.
Proof. solve_decision. Defined.
#[export] Instance outcome_eq_dec `{EqDecision A} : EqDecision (outcome A).
Proof. solve_decision. Defined.

Definition M (S A : Type) : Type := S -> outcome A * S.

#[export] Instance M_ret {S} : MRet (M S) := fun A a s => (Ok a, s).
#[export] Instance M_bind {S} : MBind (M S) := fun A B k m s =>
  match m s with
  | (Ok a, s') => k a s'
  | (Stop e, s') => (Stop e, s')
  end.
#[global] Typeclasses Opaque M.

Definition raise {S A} (e : stop) : M S A := fun s => (Stop e, s).
Definition gets {S A} (f : S -> A) : M S A := fun s => (Ok (f s), s).
Definition modify {S} (f : S -> S) : M S unit := fun s => (Ok tt, f s).

Section Monad.
Context {S : Type}.
Implicit Types s : S.

Lemma ret_run {A} (a : A) s : (mret a : M S A) s = (Ok a, s).
Proof. done. Qed.

Lemma gets_run {A} (f : S -> A) s : gets f s = (Ok (f s), s).
Proof. done. Qed.

Lemma modify_run (f : S -> S) s : modify f s = (Ok tt, f s).
Proof. done. Qed.

Lemma raise_run {A} e s : (raise e : M S A) s = (Stop e, s).
Proof. done. Qed.

Lemma bind_ret {A B} (a : A) (k : A -> M S B) s : (mret a ≫= k) s = k a s.
Proof. done. Qed.

Lemma bind_run {A B} (m : M S A) (k : A -> M S B) s :
  (m ≫= k) s = match m s with
               | (Ok a, s') => k a s'
               | (Stop e, s') => (Stop e, s')
               end.
Proof. done. Qed.

Lemma bind_ok {A B} (m : M S A) (k : A -> M S B) s a s' :
  m s = (Ok a, s') -> (m ≫= k) s = k a s'.
Proof. intros H. by rewrite bind_run, H. Qed.

Lemma bind_stop {A B} (m : M S A) (k : A -> M S B) s e s' :
  m s = (Stop e, s') -> (m ≫= k) s = (Stop e, s').
Proof. intros H. by rewrite bind_run, H. Qed.

Lemma bind_assoc {A B C} (m : M S A) (f : A -> M S B) (g : B -> M S C) s :
  ((m ≫= f) ≫= g) s = (m ≫= (fun a => f a ≫= g)) s.
Proof. rewrite !bind_run. by destruct (m s) as [[a|e] s']. Qed.

Lemma bind_ext {A B} (m : M S A) (f g : A -> M S B) s :
  (forall a s', f a s' = g a s') -> (m ≫= f) s = (m ≫= g) s.
Proof. intros H. rewrite !bind_run. destruct (m s) as [[a|e] s']; auto. Qed.
End Monad.

#[export] Hint Rewrite @ret_run @gets_run @modify_run @raise_run @bind_ret : mach.

(** [go H] runs the first computation of the goal with the equation [H],
    [go H by t] proves the hypotheses of [H] with [t]. *)
Tactic Notation "go" uconstr(H) :=
  rewrite ?bind_assoc; first [rewrite bind_run, H | rewrite H]; cbv beta iota.
Tactic Notation "go" uconstr(H) "by" tactic3(t) :=
  rewrite ?bind_assoc; first [rewrite bind_run, H by t | rewrite H by t]; cbv beta iota.

(** Runs the primitive computations at the head of the goal. *)
Ltac mrun :=
  repeat progress (rewrite ?bind_run, ?ret_run, ?gets_run, ?modify_run, ?raise_run;
                   cbv beta iota).

(** Inverts a successful or stopped [bind] in a hypothesis. *)
Ltac minv H :=
  rewrite bind_run in H;
  match type of H with
  | match ?m with _ => _ end = _ =>
      let E := fresh "E" in destruct m as [[?|?] ?] eqn:E
  end.

(** * Loops

    [loop k body a] runs [body] at most [2^k] times from the loop state [a];
    [body] answers [inl] with the next loop state or [inr] with the result.
    The fuel is halved at each level, so the definition runs [2^32] iterations
    without building a unary number. *)

Section Loops.
Context {S : Type}.

Fixpoint loop {A B} (k : nat) (body : A -> M S (A + B)) (a : A) : M S (A + B) :=
  match k with
  | O => body a
  | Datatypes.S k' =>
      r ← loop k' body a;
      match r with
      | inl a' => loop k' body a'
      | inr b => mret (inr b)
      end
  end.

(** A C loop whose number of iterations is bounded by the width of its
    32-bit counter. *)
Definition while {A B} (body : A -> M S (A + B)) (a : A) : M S B :=
  r ← loop 32 body a;
  match r with
  | inl _ => raise Diverges
  | inr b => mret b
  end.

(** [for (i = lo; i < hi; i++) body(i)] *)
Definition for_range (lo hi : Z) (body : Z -> M S unit) : M S unit :=
  while (fun i => if i <? hi then body i;; mret (inl (i + 1)) else mret (inr tt)) lo.

(** The same loops with unary fuel, for reasoning. *)
Fixpoint iter {A B} (n : nat) (body : A -> M S (A + B)) (a : A) : M S (A + B) :=
  match n with
  | O => mret (inl a)
  | Datatypes.S n' =>
      r ← body a;
      match r with
      | inl a' => iter n' body a'
      | inr b => mret (inr b)
      end
  end.

Fixpoint for_n (n : nat) (i : Z) (body : Z -> M S unit) : M S unit :=
  match n with
  | O => mret tt
  | Datatypes.S n' => body i;; for_n n' (i + 1) body
  end.

Lemma iter_add {A B} n1 n2 (body : A -> M S (A + B)) a s :
  iter (n1 + n2) body a s =
  (r ← iter n1 body a;
   match r with inl a' => iter n2 body a' | inr b => mret (inr b) end) s.
Proof.
  revert a s. induction n1 as [|n1 IH]; intros a s; [done|].
  cbn [iter Nat.add]. rewrite bind_assoc. apply bind_ext. intros [a'|b] s'.
  - apply IH.
  - done.
Qed.

Lemma loop_iter {A B} k (body : A -> M S (A + B)) a s :
  loop k body a s = iter (2 ^ k) body a s.
Proof.
  revert a s. induction k as [|k IH]; intros a s.
  - cbn. rewrite !bind_run. destruct (body a s) as [[[?|?]|?] ?]; done.
  - cbn [loop]. replace (2 ^ Datatypes.S k)%nat with (2 ^ k + 2 ^ k)%nat by (cbn; lia).
    rewrite iter_add, !bind_run, IH.
    destruct (iter (2 ^ k) body a s) as [[[a'|b]|e] s']; [apply IH|done|done].
Qed.

(** A loop that has ended after [n] iterations ends alike with more fuel. *)
Lemma iter_more {A B} n n' (body : A -> M S (A + B)) a s r s' :
  (n <= n')%nat -> iter n body a s = (r, s') ->
  (forall a', r <> Ok (inl a')) -> iter n' body a s = (r, s').
Proof.
  intros Hn H Hr. replace n' with (n + (n' - n))%nat by lia.
  rewrite iter_add, bind_run, H. destruct r as [[a'|b]|e]; [|done|done].
  exfalso. by eapply Hr.
Qed.

Lemma nat_pow_32 (n : nat) : Z.of_nat n <= 4294967296 -> (n <= 2 ^ 32)%nat.
Proof.
  intros H. apply Nat2Z.inj_le. rewrite Nat2Z.inj_pow.
  replace (Z.of_nat 2 ^ Z.of_nat 32) with 4294967296 by reflexivity. done.
Qed.

Lemma while_ok {A B} n (body : A -> M S (A + B)) a s b s' :
  Z.of_nat n <= 4294967296 ->
  iter n body a s = (Ok (inr b), s') -> while body a s = (Ok b, s').
Proof.
  intros Hn H. unfold while. rewrite bind_run, loop_iter.
  replace (iter (2 ^ 32) body a s) with (Ok (inr b) : outcome (A + B), s'); [done|]. symmetry. apply (iter_more n); [by apply nat_pow_32|exact H|done].
Qed.

Lemma while_stop {A B} n (body : A -> M S (A + B)) a s e s' :
  Z.of_nat n <= 4294967296 ->
  iter n body a s = (Stop e, s') -> while body a s = (Stop e, s').
Proof.
  intros Hn H. unfold while. rewrite bind_run, loop_iter.
  replace (iter (2 ^ 32) body a s) with (Stop e : outcome (A + B), s'); [done|]. symmetry. apply (iter_more n); [by apply nat_pow_32|exact H|done].
Qed.

(** Total correctness of [while]: an invariant with a number that decreases, and is
    below the fuel at the start. *)
Lemma while_steps {A B} (I : nat -> A -> S -> Prop) (Q : B -> S -> Prop)
    (body : A -> M S (A + B)) k a s :
  I k a s ->
  (forall k a s, I k a s ->
     (exists b s', body a s = (Ok (inr b), s') /\ Q b s') \/
     (exists k' a' s', body a s = (Ok (inl a'), s') /\ I k' a' s' /\ (k' < k)%nat)) ->
  Z.of_nat k < 4294967296 ->
  exists b s', while body a s = (Ok b, s') /\ Q b s'.
Proof.
  intros HI Hstep Hk.
  assert (exists n b s', (n <= Datatypes.S k)%nat /\
            iter n body a s = (Ok (inr b), s') /\ Q b s') as (n & b & s' & Hn & E & HQ).
  { clear Hk. revert a s HI. induction (lt_wf k) as [k _ IH]. intros a s HI.
    destruct (Hstep k a s HI) as [(b & s' & E & HQ)|(k' & a' & s' & E & HI' & Hlt)].
    - exists 1%nat, b, s'. split; [lia|]. split; [|done]. cbn. by go E.
    - destruct (IH k' Hlt a' s' HI') as (n & b & s'' & Hn & E' & HQ).
      exists (Datatypes.S n), b, s''. split; [lia|]. split; [|done]. cbn [iter]. by go E. }
  exists b, s'. split; [|done]. apply (while_ok n); [lia|done].
Qed.

(** The same with a measure of the loop state. *)
Lemma while_inv {A B} (I : A -> S -> Prop) (Q : B -> S -> Prop) (m : A -> nat)
    (body : A -> M S (A + B)) a s :
  I a s ->
  (forall a s, I a s ->
     (exists b s', body a s = (Ok (inr b), s') /\ Q b s') \/
     (exists a' s', body a s = (Ok (inl a'), s') /\ I a' s' /\ (m a' < m a)%nat)) ->
  Z.of_nat (m a) < 4294967296 ->
  exists b s', while body a s = (Ok b, s') /\ Q b s'.
Proof.
  intros HI Hstep. apply (while_steps (fun k a s => I a s /\ k = m a)); [done|].
  intros k a' s' [Ha ->]. destruct (Hstep a' s' Ha) as [?|(a2 & s2 & E & HI2 & Hlt)]; [by left|right].
  by exists (m a2), a2, s2.
Qed.

(** A loop none of whose iterations can end it normally stops. *)
Lemma while_never {A B} (I : A -> S -> Prop) (m : A -> nat) (body : A -> M S (A + B)) a s :
  I a s ->
  (forall a s, I a s ->
     (exists e s', body a s = (Stop e, s')) \/
     (exists a' s', body a s = (Ok (inl a'), s') /\ I a' s' /\ (m a' < m a)%nat)) ->
  Z.of_nat (m a) < 4294967296 ->
  exists e s', while body a s = (Stop e, s').
Proof.
  intros HI Hstep Hm.
  assert (exists n e s', (n <= Datatypes.S (m a))%nat /\ iter n body a s = (Stop e, s'))
    as (n & e & s' & Hn & E).
  { clear Hm. remember (m a) as k eqn:Hk. revert a s HI Hk.
    induction (lt_wf k) as [k _ IH]. intros a s HI ->.
    destruct (Hstep a s HI) as [(e & s' & E)|(a' & s' & E & HI' & Hlt)].
    - exists 1%nat, e, s'. split; [lia|]. cbn. by go E.
    - destruct (IH _ Hlt a' s' HI' eq_refl) as (n & e & s'' & Hn & E').
      exists (Datatypes.S n), e, s''. split; [lia|]. cbn [iter]. by go E. }
  exists e, s'. apply (while_stop n); [lia|done].
Qed.

Lemma for_iter n lo hi body s :
  Z.to_nat (hi - lo) = n ->
  iter (Datatypes.S n)
    (fun i => if i <? hi then body i;; mret (inl (i + 1)) else mret (inr tt)) lo s =
  (for_n n lo body;; mret (inr tt)) s.
Proof.
  revert lo s. induction n as [|n IH]; intros lo s Hn.
  - cbn. rewrite bind_run. by replace (lo <? hi) with false by lia.
  - rewrite bind_run. cbn [iter]. rewrite bind_run.
    replace (lo <? hi) with true by lia. cbn [for_n]. rewrite !bind_run.
    destruct (body lo s) as [[u|e] s1]; [|done]. rewrite ret_run.
    rewrite <- bind_run. apply IH. lia.
Qed.

(** The bounded [for] loop is its unary unfolding, errors included. *)
Lemma for_range_n lo hi body s :
  hi - lo < 4294967296 ->
  for_range lo hi body s = for_n (Z.to_nat (hi - lo)) lo body s.
Proof.
  intros Hb. unfold for_range. pose proof (for_iter _ lo hi body s eq_refl) as H.
  rewrite bind_run in H.
  destruct (for_n (Z.to_nat (hi - lo)) lo body s) as [[[]|e] s'] eqn:E.
  - eapply while_ok; [|exact H]. lia.
  - eapply while_stop; [|exact H]. lia.
Qed.

Lemma for_n_ok (I : Z -> S -> Prop) n lo (body : Z -> M S unit) s :
  I lo s ->
  (forall i s', lo <= i < lo + Z.of_nat n -> I i s' ->
     exists s'', body i s' = (Ok tt, s'') /\ I (i + 1) s'') ->
  exists s', for_n n lo body s = (Ok tt, s') /\ I (lo + Z.of_nat n) s'.
Proof.
  revert lo s. induction n as [|n IH]; intros lo s HI Hb.
  - exists s. split; [done|]. by replace (lo + Z.of_nat 0) with lo by lia.
  - destruct (Hb lo s) as (s1 & E1 & H1); [lia|done|].
    destruct (IH (lo + 1) s1) as (s2 & E2 & H2); [done|intros; apply Hb; [lia|done]|].
    exists s2. split; [cbn [for_n]; by go E1|].
    by replace (lo + Z.of_nat (Datatypes.S n)) with (lo + 1 + Z.of_nat n) by lia.
Qed.
End Loops.

Arguments loop : simpl never.
Arguments while : simpl never.
Arguments for_range : simpl never.

(** Evaluates the integer comparisons of the goal that [lia] decides. *)
Ltac zb :=
  repeat match goal with
  | |- context [?a <? ?b] =>
      first [rewrite (proj2 (Z.ltb_lt a b)) by lia | rewrite (proj2 (Z.ltb_ge a b)) by lia]
  | |- context [?a <=? ?b] =>
      first [rewrite (proj2 (Z.leb_le a b)) by lia | rewrite (proj2 (Z.leb_gt a b)) by lia]
  | |- context [?a =? ?b] =>
      first [rewrite (proj2 (Z.eqb_eq a b)) by lia | rewrite (proj2 (Z.eqb_neq a b)) by lia]
  end; cbn [negb andb orb].

(** Closes conjunctions of equations and arithmetic facts. *)
Ltac fin := repeat first [done | lia | split].

(** [while_by I Q m as W] proves with [while_inv] that the first [while] of the
    goal ends in [Q]; the subgoals are the invariant at entry, the step, the
    measure, and the goal with the conclusion as hypothesis [W]. *)
Tactic Notation "while_by" uconstr(I) uconstr(Q) uconstr(m) "as" simple_intropattern(W) :=
  rewrite ?bind_assoc; try rewrite bind_run;
  match goal with
  | |- context [while ?body ?a ?s] =>
      let H := fresh in
      assert (H : exists b s', while body a s = (Ok b, s') /\ Q b s');
      [apply (while_inv I Q m); cbv beta iota | cbv beta iota in H; destruct H as W]
  end.

(** * Record updates

    [r <| f := v |>] replaces the field [f] of [r], [r <| f ::= g |>] applies [g]
    to it.  A record type only has to declare its eta-expansion ([Eta]). *)

Class Eta (R : Type) := eta : R -> R.
Class Setter {R E : Type} (proj : R -> E) := set_field : (E -> E) -> R -> R.
Arguments set_field {R E} proj {_} f r /.

Ltac build_setter :=
  match goal with
  | |- @Setter ?R ?E ?proj =>
      let f := fresh "f" in let r := fresh "r" in
      exact (fun (f : E -> E) (r : R) => ltac:(
        let e := eval hnf in (_ : Eta R) in
        let b := eval cbv beta in (e r) in
        match b with
        | context C [proj r] => let b' := context C [f (proj r)] in exact b'
        end))
  end.
#[export] Hint Extern 1 (Setter _) => build_setter : typeclass_instances.

Declare Scope update_scope.
Delimit Scope update_scope with update.
Notation "r <| p ::= f |>" := (set_field p f r)
  (at level 1, left associativity, p constr at level 9, f constr at level 99) : update_scope.
Notation "r <| p := v |>" := (set_field p (fun _ => v) r)
  (at level 1, left associativity, p constr at level 9, v constr at level 99) : update_scope.
#[global] Open Scope update_scope.
