(* ===== verification/Memory.v ===== *)
(** Byte-addressed memory: the interface the C code's loads and stores go
    through, C pointers, and the lemmas on runs of bytes.

    [Memory T] is what a state type [T] promises to the code that accesses it:
    a virtual address denotes a location or is not mapped, a location holds a
    byte, and a byte can be written to a location.  [MemoryOk T] states its laws.  Two instances
    exist: [flat] below, where every address is its own location, and the
    machine of [Machine.v], where the location is what the paging unit yields. *)

From S2P Require Import Prelude.

Class Memory (T : Type) := {
  loc : T -> Z -> option Z;
  cell : T -> Z -> Z;
  upd : T -> Z -> Z -> T
}.

Class MemoryOk (T : Type) `{Memory T} : Prop := {
  cell_range t p : 0 <= cell t p < 256;
  loc_upd t p v a : loc (upd t p v) a = loc t a;
  cell_upd_eq t p v : cell (upd t p v) p = u8 v;
  cell_upd_ne t p q v : p <> q -> cell (upd t p v) q = cell t q
}.

(** A C pointer: the address of a byte of the memory, or a position in an array
    object of the kernel whose address the model does not fix (a local array,
    an array member of a structure). *)
Inductive ptr : Type :=
  | Raw (a : Z)
  | Buf (l : list Z) (off : Z).

Section Access.
Context {T : Type} `{Memory T}.

Definition load8 (a : Z) : M T Z := fun t =>
  match loc t (u32 a) with
  | Some p => (Ok (cell t p), t)
  | None => (Stop (PageFault (u32 a)), t)
  end.

Definition store8 (a v : Z) : M T unit := fun t =>
  match loc t (u32 a) with
  | Some p => (Ok tt, upd t p (u8 v))
  | None => (Stop (PageFault (u32 a)), t)
  end.

(** Little-endian 32-bit loads. *)
Definition le32 (b0 b1 b2 b3 : Z) : Z :=
  b0 + 256 * b1 + 65536 * b2 + 16777216 * b3.

Definition load32 (a : Z) : M T Z :=
  b0 ← load8 a; b1 ← load8 (a + 1); b2 ← load8 (a + 2); b3 ← load8 (a + 3);
  mret (le32 b0 b1 b2 b3).

(** [p[i]] and [p[i] = v] *)
Definition rd (p : ptr) (i : Z) : M T Z :=
  match p with
  | Raw a => load8 (a + i)
  | Buf l off =>
      if off + i <? 0 then raise OutOfBounds else
      match l !! Z.to_nat (off + i) with
      | Some b => mret b
      | None => raise OutOfBounds
      end
  end.

Definition wr (p : ptr) (i v : Z) : M T ptr :=
  match p with
  | Raw a => store8 (a + i) v;; mret (Raw a)
  | Buf l off =>
      if (off + i <? 0) || (Z.of_nat (length l) <=? off + i) then raise OutOfBounds
      else mret (Buf (<[Z.to_nat (off + i) := u8 v]> l) off)
  end.
End Access.

(** The contents of an array object, and of the four bytes at an index of it. *)
Definition contents (p : ptr) : list Z :=
  match p with Raw _ => [] | Buf l _ => l end.

Definition byte_at (l : list Z) (i : Z) : Z := l !!! Z.to_nat i.
Definition word_at (l : list Z) (i : Z) : Z :=
  le32 (byte_at l i) (byte_at l (i + 1)) (byte_at l (i + 2)) (byte_at l (i + 3)).

(** * The flat memory *)

Record flat := Flat { flat_cells : gmap Z Z }.

#[export] Instance flat_memory : Memory flat := {
  loc t a := Some a;
  cell t p := u8 (default 0 (flat_cells t !! p));
  upd t p v := Flat (<[p := v]> (flat_cells t))
}.

#[export] Instance flat_memory_ok : MemoryOk flat.
Proof.
  split; intros; cbn.
  - apply u8_range.
  - done.
  - by rewrite lookup_insert_eq.
  - by rewrite lookup_insert_ne.
Qed.

(** * Runs of bytes *)

Section Runs.
Context {T : Type} `{MemoryOk T}.
Implicit Types (t : T) (l : list Z).

(** The virtual range [[a, a+n)] is mapped to the locations [[pa, pa+n)]. *)
Definition maps (t : T) (a pa n : Z) : Prop :=
  forall i, 0 <= i < n -> loc t (u32 (a + i)) = Some (pa + i).

(** The [n] bytes from location [pa]. *)
Definition cells (t : T) (pa : Z) (n : nat) : list Z :=
  (fun i => cell t (pa + Z.of_nat i)) <$> seq 0 n.

(** Writing the bytes [l] from location [pa] on, in increasing order. *)
Fixpoint upds (t : T) (pa : Z) (l : list Z) : T :=
  match l with
  | [] => t
  | v :: l' => upds (upd t pa (u8 v)) (pa + 1) l'
  end.

Lemma maps_mono t a pa n m : maps t a pa n -> m <= n -> maps t a pa m.
Proof. intros Hm Hn i Hi. apply Hm. lia. Qed.

Lemma maps_shift t a pa n k : 0 <= k -> maps t a pa n -> maps t (a + k) (pa + k) (n - k).
Proof.
  intros Hk Hm i Hi. replace (a + k + i) with (a + (k + i)) by lia.
  rewrite Hm by lia. f_equal. lia.
Qed.

Lemma maps_upd t p v a pa n : maps t a pa n -> maps (upd t p v) a pa n.
Proof. intros Hm i Hi. rewrite loc_upd. by apply Hm. Qed.

Lemma maps_loc t t' a pa n :
  (forall x, loc t' x = loc t x) -> maps t a pa n -> maps t' a pa n.
Proof. intros Hl Hm i Hi. rewrite Hl. by apply Hm. Qed.

Lemma loc_upds t pa l a : loc (upds t pa l) a = loc t a.
Proof. revert t pa. induction l as [|v l IH]; intros t pa; [done|]. cbn. by rewrite IH, loc_upd. Qed.

Lemma maps_upds t p l a pa n : maps t a pa n -> maps (upds t p l) a pa n.
Proof. apply maps_loc. intros x. apply loc_upds. Qed.

Lemma upds_app t pa l1 l2 :
  upds t pa (l1 ++ l2) = upds (upds t pa l1) (pa + Z.of_nat (length l1)) l2.
Proof.
  revert t pa. induction l1 as [|v l1 IH]; intros t pa; cbn.
  - by rewrite Z.add_0_r.
  - rewrite IH. f_equal. lia.
Qed.

Lemma cell_upds_out t pa l q :
  q < pa \/ pa + Z.of_nat (length l) <= q -> cell (upds t pa l) q = cell t q.
Proof.
  revert t pa. induction l as [|v l IH]; intros t pa Hq; [done|]. cbn in *.
  rewrite IH by lia. apply cell_upd_ne. lia.
Qed.

Lemma cell_upds_in t pa l i :
  (i < length l)%nat -> cell (upds t pa l) (pa + Z.of_nat i) = u8 (l !!! i).
Proof.
  revert t pa i. induction l as [|v l IH]; intros t pa i Hi; cbn in *; [lia|].
  destruct i as [|i].
  - rewrite cell_upds_out by (cbn; lia). rewrite Z.add_0_r, cell_upd_eq. by rewrite u8_u8.
  - replace (pa + Z.of_nat (S i)) with (pa + 1 + Z.of_nat i) by lia. apply IH. lia.
Qed.

Lemma length_cells t pa n : length (cells t pa n) = n.
Proof. unfold cells. by rewrite length_fmap, length_seq. Qed.

Lemma cells_S t pa n : cells t pa (S n) = cell t pa :: cells t (pa + 1) n.
Proof.
  unfold cells. cbn. f_equal; [f_equal; lia|].
  rewrite <- fmap_S_seq, <- list_fmap_compose. apply list_fmap_ext. intros i x _. cbn. f_equal. lia.
Qed.

Lemma cells_add t pa n m :
  cells t pa (n + m) = cells t pa n ++ cells t (pa + Z.of_nat n) m.
Proof.
  revert pa. induction n as [|n IH]; intros pa.
  - cbn. by rewrite Z.add_0_r.
  - cbn [Nat.add]. rewrite !cells_S, IH. cbn. do 3 f_equal. lia.
Qed.

Lemma cells_lookup t pa n i :
  (i < n)%nat -> cells t pa n !! i = Some (cell t (pa + Z.of_nat i)).
Proof.
  intros Hi. unfold cells. rewrite list_lookup_fmap, lookup_seq_lt by done. done.
Qed.

Lemma cells_ext t t' pa n :
  (forall q, pa <= q < pa + Z.of_nat n -> cell t' q = cell t q) ->
  cells t' pa n = cells t pa n.
Proof.
  intros Hq. unfold cells. apply list_fmap_ext. intros i x Hx.
  apply lookup_seq in Hx as [-> Hx]. apply Hq. lia.
Qed.

Lemma cells_range t pa n b : b ∈ cells t pa n -> 0 <= b < 256.
Proof. intros (i & -> & _)%list_elem_of_fmap. apply cell_range. Qed.

Lemma cells_upds_in t pa l :
  cells (upds t pa l) pa (length l) = u8 <$> l.
Proof.
  apply list_eq. intros i. destruct (decide (i < length l)%nat) as [Hi|Hi].
  - rewrite cells_lookup, list_lookup_fmap, cell_upds_in by done.
    destruct (lookup_lt_is_Some_2 l i Hi) as [x Hx].
    by rewrite Hx, (list_lookup_total_correct _ _ _ Hx).
  - rewrite !lookup_ge_None_2; [done|rewrite length_fmap; lia|rewrite length_cells; lia].
Qed.

Lemma cells_upds_out t pa l qa n :
  qa + Z.of_nat n <= pa \/ pa + Z.of_nat (length l) <= qa ->
  cells (upds t pa l) qa n = cells t qa n.
Proof. intros Hd. apply cells_ext. intros q Hq. apply cell_upds_out. lia. Qed.

Lemma upds_u8 t pa l : upds t pa (u8 <$> l) = upds t pa l.
Proof. revert t pa. induction l as [|v l IH]; intros t pa; [done|]. cbn. by rewrite IH, u8_u8. Qed.

(** Single accesses inside a mapped range. *)
Lemma load8_maps t a pa n i :
  maps t a pa n -> 0 <= i < n -> load8 (a + i) t = (Ok (cell t (pa + i)), t).
Proof. intros Hm Hi. unfold load8. by rewrite Hm. Qed.

Lemma store8_maps t a pa n i v :
  maps t a pa n -> 0 <= i < n -> store8 (a + i) v t = (Ok tt, upd t (pa + i) (u8 v)).
Proof. intros Hm Hi. unfold store8. by rewrite Hm. Qed.

(** A 32-bit little-endian word held at a location. *)
Definition cell32 t pa : Z :=
  le32 (cell t pa) (cell t (pa + 1)) (cell t (pa + 2)) (cell t (pa + 3)).

Lemma load32_maps t a pa n i :
  maps t a pa n -> 0 <= i -> i + 4 <= n ->
  load32 (a + i) t = (Ok (cell32 t (pa + i)), t).
Proof.
  intros Hm Hlo Hi. unfold load32.
  replace (a + i + 1) with (a + (i + 1)) by lia.
  replace (a + i + 2) with (a + (i + 2)) by lia.
  replace (a + i + 3) with (a + (i + 3)) by lia.
  do 4 (rewrite bind_run; erewrite load8_maps by (first [eassumption|lia])).
  rewrite ret_run. unfold cell32. by rewrite !Z.add_assoc.
Qed.

Lemma cell32_range t pa : 0 <= cell32 t pa < 4294967296.
Proof.
  unfold cell32, le32.
  pose proof (cell_range t pa). pose proof (cell_range t (pa + 1)).
  pose proof (cell_range t (pa + 2)). pose proof (cell_range t (pa + 3)). lia.
Qed.
End Runs.

Arguments cells : simpl never.
Arguments upds : simpl never.
#[export] Hint Rewrite @length_cells : mach.
#[export] Hint Resolve maps_upd maps_upds : mach.
