(* ===== verification/CLib.v ===== *)
(** The string and memory routines of [student-distrib/lib.c], for any state
    with a [Memory]: [strlen], [strcpy], [strncpy], [strncmp], [strrev], [itoa],
    and the inline-assembly [memset], [memset_word], [memset_dword], [memcpy]
    and [memmove], translated instruction by instruction.

    An [int32_t] index of an unbounded loop is not reduced: [p[i]] and the
    unsigned comparison [i < n] only depend on it modulo [2^32], and the loops
    run at most that many times. *)

From S2P Require Import Prelude Memory.

(** The bytes of a C string literal, terminator included. *)
Definition cstr (l : list Z) : ptr := Buf (l ++ [0]) 0.

Section Strings.
Context {T : Type} `{Memory T}.

(** [while (s[len] != '\0') len++;] *)
Definition strlen (s : ptr) : M T Z :=
  while (fun len =>
    c ← rd s len;
    if c =? 0 then mret (inr len) else mret (inl (len + 1))) 0.

Definition strcpy (dest src : ptr) : M T ptr :=
  '(d, i) ← while (fun '(d, i) =>
    c ← rd src i;
    if c =? 0 then mret (inr (d, i))
    else d' ← wr d i c; mret (inl (d', i + 1))) (dest, 0);
  wr d i 0.

(** The source byte is read before [i < n] is tested. *)
Definition strncpy (dest src : ptr) (n : Z) : M T ptr :=
  '(d, i) ← while (fun '(d, i) =>
    c ← rd src i;
    if negb (c =? 0) && (i <? u32 n)
    then d' ← wr d i c; mret (inl (d', i + 1))
    else mret (inr (d, i))) (dest, 0);
  while (fun '(d, i) =>
    if i <? u32 n then d' ← wr d i 0; mret (inl (d', i + 1))
    else mret (inr d)) (d, i).

(** [int8_t] is signed: the difference is of sign-extended bytes. *)
Definition strncmp (s1 s2 : ptr) (n : Z) : M T Z :=
  while (fun i =>
    if i <? u32 n then
      c1 ← rd s1 i; c2 ← rd s2 i;
      if negb (c1 =? c2) || (c1 =? 0) then mret (inr (i8 c1 - i8 c2))
      else mret (inl (i + 1))
    else mret (inr 0)) 0.

Definition strrev (s : ptr) : M T ptr :=
  len ← strlen s;
  while (fun '(s, b, e) =>
    if b <? e then
      tmp ← rd s e; x ← rd s b;
      s1 ← wr s e x; s2 ← wr s1 b tmp;
      mret (inl (s2, b + 1, e - 1))
    else mret (inr s)) (s, 0, i32 (len - 1)).

(** ["0123456789ABCDEFGHIJKLMNOPQRSTUVWXYZ"] *)
Definition lookup_digits : list Z :=
  [48;49;50;51;52;53;54;55;56;57;65;66;67;68;69;70;71;72;73;74;75;76;77;78;
   79;80;81;82;83;84;85;86;87;88;89;90].

Definition itoa (value : Z) (buf : ptr) (radix : Z) : M T ptr :=
  if u32 value =? 0 then
    b ← wr buf 0 48; wr b 1 0
  else
    '(b, k) ← while (fun '(b, k, newval) =>
      if 0 <? newval then
        c ← rd (cstr lookup_digits) (newval mod u32 radix);
        b' ← wr b k c;
        mret (inl (b', k + 1, newval / u32 radix))
      else mret (inr (b, k))) (buf, 0, u32 value);
    b' ← wr b k 0;
    strrev b'.
End Strings.

Section Blocks.
Context {T : Type} `{Memory T}.

(** The value of the register that addresses [p[i]]; an array object of the
    kernel is taken to be placed at a multiple of 4. *)
Definition addr (p : ptr) (i : Z) : Z :=
  match p with Raw a => u32 (a + i) | Buf _ off => off + i end.

(** [movb %al, (%edi)]; [stosw]; [stosl] *)
Definition stosb (p : ptr) (i eax : Z) : M T ptr := wr p i (u8 eax).

Definition stosw (p : ptr) (i eax : Z) : M T ptr :=
  p ← wr p i (u8 eax); wr p (i + 1) (u8 (Z.shiftr eax 8)).

Definition stosl (p : ptr) (i eax : Z) : M T ptr :=
  p ← stosw p i eax; stosw p (i + 2) (Z.shiftr eax 16).

(** [rep <op>]: [ecx] repetitions, [edi] advancing by [w]. *)
Definition rep_stos (op : ptr -> Z -> Z -> M T ptr) (w eax : Z) (p : ptr) (i ecx : Z)
    : M T (ptr * Z) :=
  while (fun '(p, i, ecx) =>
    if ecx =? 0 then mret (inr (p, i))
    else p' ← op p i eax; mret (inl (p', i + w, ecx - 1))) (p, i, ecx).

(** [memset]: bytes up to a 4-byte boundary, then double words, then the
    remaining bytes. *)
Definition memset (s : ptr) (c n : Z) : M T ptr :=
  let c := Z.land c 255 in
  let eax := Z.lor (Z.lor (Z.lor (Z.shiftl c 24) (Z.shiftl c 16)) (Z.shiftl c 8)) c in
  '(p, i, ecx) ← while (fun '(p, i, ecx) =>
    if (ecx =? 0) || (Z.land (addr p i) 3 =? 0) then mret (inr (p, i, ecx))
    else p' ← stosb p i eax; mret (inl (p', i + 1, ecx - 1))) (s, 0, u32 n);
  if ecx =? 0 then mret p else
  '(p, i) ← rep_stos stosl 4 eax p i (Z.shiftr ecx 2);
  '(p, _) ← rep_stos stosb 1 eax p i (Z.land ecx 3);
  mret p.

Definition memset_word (s : ptr) (c n : Z) : M T ptr :=
  '(p, _) ← rep_stos stosw 2 c s 0 (u32 n); mret p.

Definition memset_dword (s : ptr) (c n : Z) : M T ptr :=
  '(p, _) ← rep_stos stosl 4 c s 0 (u32 n); mret p.

(** [movb (%esi), %al; movb %al, (%edi)], and [movsl], which reads its four
    bytes before it writes them. *)
Definition movsb (d s : ptr) (i : Z) : M T ptr :=
  b ← rd s i; wr d i b.

Definition movsl (d s : ptr) (i : Z) : M T ptr :=
  b0 ← rd s i; b1 ← rd s (i + 1); b2 ← rd s (i + 2); b3 ← rd s (i + 3);
  d ← wr d i b0; d ← wr d (i + 1) b1; d ← wr d (i + 2) b2; wr d (i + 3) b3.

(** [rep movs]: the direction flag gives the sign of the step [w]. *)
Definition rep_movs (op : ptr -> ptr -> Z -> M T ptr) (w : Z) (d s : ptr) (i ecx : Z)
    : M T (ptr * Z) :=
  while (fun '(d, i, ecx) =>
    if ecx =? 0 then mret (inr (d, i))
    else d' ← op d s i; mret (inl (d', i + w, ecx - 1))) (d, i, ecx).

Definition memcpy (dest src : ptr) (n : Z) : M T ptr :=
  '(d, i, ecx) ← while (fun '(d, i, ecx) =>
    if (ecx =? 0) || (Z.land (addr d i) 3 =? 0) then mret (inr (d, i, ecx))
    else d' ← movsb d src i; mret (inl (d', i + 1, ecx - 1))) (dest, 0, u32 n);
  if ecx =? 0 then mret d else
  '(d, i) ← rep_movs movsl 4 d src i (Z.shiftr ecx 2);
  '(d, _) ← rep_movs movsb 1 d src i (Z.land ecx 3);
  mret d.

(** [memmove] copies backwards when the source starts below the destination.
    The second component is the direction flag it leaves behind. *)
Definition memmove (dest src : ptr) (n : Z) : M T (ptr * bool) :=
  let ecx := u32 n in
  if addr dest 0 <=? addr src 0 then
    '(d, _) ← rep_movs movsb 1 dest src 0 ecx; mret (d, false)
  else
    '(d, _) ← rep_movs movsb (-1) dest src (ecx - 1) ecx; mret (d, true).
End Blocks.

(** * Strings *)

Section StringFacts.
Context {T : Type} `{MemoryOk T}.
Implicit Types (t : T) (l : list Z).

(** The bytes [l] can be read from [p]. *)
Definition reads (t : T) (p : ptr) (l : list Z) : Prop :=
  forall i, 0 <= i < Z.of_nat (length l) -> rd p i t = (Ok (byte_at l i), t).

Lemma reads_maps t a pa n :
  maps t a pa (Z.of_nat n) -> reads t (Raw a) (cells t pa n).
Proof.
  intros Hm i Hi. rewrite length_cells in Hi. cbn.
  erewrite load8_maps by (first [eassumption|lia]). do 2 f_equal.
  unfold byte_at. symmetry. apply list_lookup_total_correct.
  rewrite cells_lookup by lia. do 2 f_equal. lia.
Qed.

Lemma reads_buf t l1 l2 l3 off :
  off = Z.of_nat (length l1) -> reads t (Buf (l1 ++ l2 ++ l3) off) l2.
Proof.
  intros -> i Hi. cbn. zb.
  replace (Z.to_nat (Z.of_nat (length l1) + i)) with (length l1 + Z.to_nat i)%nat by lia.
  rewrite lookup_app_r, lookup_app_l by lia.
  replace (length l1 + Z.to_nat i - length l1)%nat with (Z.to_nat i) by lia.
  destruct (lookup_lt_is_Some_2 l2 (Z.to_nat i)) as [x Hx]; [lia|].
  rewrite Hx. unfold byte_at. by rewrite (list_lookup_total_correct _ _ _ Hx).
Qed.

Lemma reads_buf0 t l : reads t (Buf l 0) l.
Proof. pose proof (reads_buf t [] l [] 0 eq_refl) as Hr. by rewrite app_nil_r in Hr. Qed.

Lemma reads_app_l t p l l' : reads t p (l ++ l') -> reads t p l.
Proof.
  intros Hr i Hi. rewrite Hr by (rewrite length_app; lia). do 2 f_equal.
  unfold byte_at. apply lookup_total_app_l. lia.
Qed.

(** [strlen] finds the first null byte. *)
Lemma strlen_ok t s l :
  reads t s (l ++ [0]) -> Forall (fun b => b <> 0) l ->
  Z.of_nat (length l) < 4294967296 ->
  strlen s t = (Ok (Z.of_nat (length l)), t).
Proof.
  intros Hr Hnz Hl. unfold strlen.
  while_by (fun len t' => t' = t /\ 0 <= len <= Z.of_nat (length l))
    (fun b t' => t' = t /\ b = Z.of_nat (length l))
    (fun len => Z.to_nat (Z.of_nat (length l) - len)) as (b & t' & E & -> & ->);
    [by fin| |lia|exact E].
  intros len t' [-> Hlen].
  go Hr by (rewrite length_app; simpl length; lia).
  destruct (decide (len = Z.of_nat (length l))) as [->|Hne].
  - left. exists (Z.of_nat (length l)), t. unfold byte_at.
    rewrite lookup_total_app_r by lia. rewrite Nat2Z.id, Nat.sub_diag. by cbn.
  - right. exists (len + 1), t. unfold byte_at. rewrite lookup_total_app_l by lia.
    assert (l !!! Z.to_nat len <> 0) as Hb.
    { eapply Forall_lookup_total_1; [done|]. lia. }
    zb. fin.
Qed.
End StringFacts.

(** The C string in a byte list, cut at [n] bytes. *)
Fixpoint cprefix (n : nat) (l : list Z) : list Z :=
  match n, l with
  | S n, c :: l => if c =? 0 then [] else c :: cprefix n l
  | _, _ => []
  end.

(** What [strncmp] compares, when it does not run off either list. *)
Fixpoint strncmp_spec (n : nat) (l1 l2 : list Z) : option Z :=
  match n, l1, l2 with
  | O, _, _ => Some 0
  | S n, c1 :: l1, c2 :: l2 =>
      if negb (c1 =? c2) || (c1 =? 0) then Some (i8 c1 - i8 c2) else strncmp_spec n l1 l2
  | _, _, _ => None
  end.

(** The [n] bytes [strncpy] leaves in the destination. *)
Definition strncpy_spec (n : nat) (l : list Z) : list Z :=
  cprefix n l ++ replicate (n - length (cprefix n l)) 0.

Definition is_byte (b : Z) : Prop := 0 <= b < 256.

(** Out of range too: the default byte is null. *)
Lemma byte_at_is_byte l i : Forall is_byte l -> is_byte (byte_at l i).
Proof.
  intros Hl. unfold byte_at. rewrite list_lookup_total_alt.
  destruct (l !! Z.to_nat i) as [x|] eqn:E; cbn.
  - by eapply Forall_lookup_1.
  - unfold is_byte. cbn. lia.
Qed.

Lemma i8_inj a b : is_byte a -> is_byte b -> i8 a = i8 b -> a = b.
Proof.
  unfold is_byte, i8. intros Ha Hb Hab.
  destruct (Z.lt_ge_cases a 128), (Z.lt_ge_cases b 128);
    repeat match goal with
    | Hx : context [(?x + 128) mod 256] |- _ =>
        first [rewrite (Z.mod_small (x + 128)) in Hx by lia
              |rewrite <- (Z.mod_unique_pos (x + 128) 256 1 (x - 128)) in Hx by lia]
    end; lia.
Qed.

Lemma length_cprefix n l : (length (cprefix n l) <= n)%nat.
Proof. revert l. induction n as [|n IH]; intros [|c l]; cbn; [lia..|]. case_match; cbn; [lia|]. specialize (IH l). lia. Qed.

Lemma cprefix_lookup n l i :
  (i < length (cprefix n l))%nat ->
  exists x, cprefix n l !! i = Some x /\ l !! i = Some x /\ x <> 0.
Proof.
  revert l i. induction n as [|n IH]; intros [|c l] i Hi; cbn in *; [lia..|].
  destruct (Z.eqb_spec c 0) as [->|Hc]; cbn in *; [lia|].
  destruct i as [|i]; cbn; [by exists c|]. apply IH. lia.
Qed.

(** Where the prefix ends: at the bound, at the end of the list, or at a null byte. *)
Lemma cprefix_end n l :
  length (cprefix n l) = n \/ l !! length (cprefix n l) = None \/ l !! length (cprefix n l) = Some 0.
Proof.
  revert l. induction n as [|n IH]; intros l; [by left|].
  destruct l as [|c l]; [by right; left|]. cbn. destruct (Z.eqb_spec c 0) as [->|Hc]; cbn.
  - by right; right.
  - destruct (IH l) as [Hl|Hl]; [left; lia|by right].
Qed.

Lemma length_strncpy_spec n l : length (strncpy_spec n l) = n.
Proof. unfold strncpy_spec. rewrite length_app, length_replicate. pose proof (length_cprefix n l). lia. Qed.

Lemma strncpy_spec_bytes n l : Forall is_byte l -> Forall is_byte (strncpy_spec n l).
Proof.
  intros Hl. unfold strncpy_spec. apply Forall_app. split.
  - revert l Hl. induction n as [|n IH]; intros [|c l] Hl; cbn; auto.
    case_match; [done|]. inversion Hl; subst. auto.
  - apply Forall_replicate. unfold is_byte. lia.
Qed.

(** [strncmp] tells whether the strings, cut at [n] bytes, are equal. *)
Lemma strncmp_spec_zero n l1 l2 r :
  Forall is_byte l1 -> Forall is_byte l2 -> strncmp_spec n l1 l2 = Some r ->
  r = 0 <-> cprefix n l1 = cprefix n l2.
Proof.
  revert l1 l2. induction n as [|n IH]; intros l1 l2 H1 H2 Hr; cbn in *; [by simplify_eq|].
  destruct l1 as [|c1 l1], l2 as [|c2 l2]; [done..|].
  inversion H1; inversion H2; subst.
  destruct (Z.eqb_spec c1 c2) as [->|Hc]; cbn in Hr.
  - destruct (Z.eqb_spec c2 0) as [->|Hz].
    + split; [done|]. intros _. injection Hr. lia.
    + cbn in Hr. rewrite (IH l1 l2 ltac:(done) ltac:(done) Hr). split; [by intros ->|]. by intros [= ->].
  - injection Hr as <-. split.
    + intros Hd. exfalso. apply Hc. apply i8_inj; [done..|lia].
    + destruct (Z.eqb_spec c1 0), (Z.eqb_spec c2 0); [lia|done|done|]. by intros [= ? ?].
Qed.

Section StringFacts2.
Context {T : Type} `{MemoryOk T}.
Implicit Types (t : T) (l : list Z).

Lemma byte_at_S c l i : 0 <= i -> byte_at (c :: l) (i + 1) = byte_at l i.
Proof. intros Hi. unfold byte_at. by replace (Z.to_nat (i + 1)) with (S (Z.to_nat i)) by lia. Qed.

Lemma byte_at_drop l i j : 0 <= i -> 0 <= j -> byte_at (drop (Z.to_nat j) l) i = byte_at l (j + i).
Proof. intros Hi Hj. unfold byte_at. rewrite lookup_total_drop. f_equal. lia. Qed.

Lemma drop_byte l i :
  0 <= i < Z.of_nat (length l) -> drop (Z.to_nat i) l = byte_at l i :: drop (Z.to_nat (i + 1)) l.
Proof.
  intros Hi. destruct (lookup_lt_is_Some_2 l (Z.to_nat i)) as [x Hx]; [lia|].
  rewrite (drop_S _ _ _ Hx). unfold byte_at. rewrite (list_lookup_total_correct _ _ _ Hx).
  do 2 f_equal. lia.
Qed.

Lemma take_byte l i :
  0 <= i < Z.of_nat (length l) -> take (Z.to_nat (i + 1)) l = take (Z.to_nat i) l ++ [byte_at l i].
Proof.
  intros Hi. destruct (lookup_lt_is_Some_2 l (Z.to_nat i)) as [x Hx]; [lia|].
  replace (Z.to_nat (i + 1)) with (S (Z.to_nat i)) by lia.
  rewrite (take_S_r _ _ _ Hx). unfold byte_at. by rewrite (list_lookup_total_correct _ _ _ Hx).
Qed.

Lemma cells_bytes t pa n : Forall is_byte (cells t pa n).
Proof. apply Forall_fmap, Forall_true. intros i. apply cell_range. Qed.

Lemma cells_stored t pa l n : Forall is_byte l -> length l = n -> cells (upds t pa l) pa n = l.
Proof.
  intros Hl <-. rewrite cells_upds_in. rewrite <- (list_fmap_id l) at 2. apply list_fmap_ext.
  intros i b Hi. apply u8_small. exact (Forall_lookup_1 is_byte l i b Hl Hi).
Qed.

Lemma strncmp_ok t s1 s2 l1 l2 n r :
  reads t s1 l1 -> reads t s2 l2 -> 0 <= n < 4294967296 ->
  strncmp_spec (Z.to_nat n) l1 l2 = Some r ->
  strncmp s1 s2 n t = (Ok r, t).
Proof.
  intros Hr1 Hr2 Hn Hs. unfold strncmp.
  while_by (fun i t' => t' = t /\ 0 <= i <= n /\
      strncmp_spec (Z.to_nat (n - i)) (drop (Z.to_nat i) l1) (drop (Z.to_nat i) l2) = Some r)
    (fun b t' => t' = t /\ b = r) (fun i => Z.to_nat (n - i))
    as (b & t' & E & -> & ->); [| |lia|exact E].
  { rewrite Z.sub_0_r. by fin. }
  intros i t' (-> & Hi & Hs'). rewrite (u32_small n) by lia.
  destruct (Z.ltb_spec i n) as [Hlt|Hge]; cycle 1.
  { left. exists 0, t. replace (Z.to_nat (n - i)) with 0%nat in Hs' by lia.
    injection Hs' as <-. by fin. }
  replace (Z.to_nat (n - i)) with (S (Z.to_nat (n - (i + 1)))) in Hs' by lia.
  destruct (decide (i < Z.of_nat (length l1))); cycle 1.
  { by rewrite (drop_ge l1) in Hs' by lia. }
  rewrite (drop_byte l1) in Hs' by lia.
  destruct (decide (i < Z.of_nat (length l2))); cycle 1.
  { by rewrite (drop_ge l2) in Hs' by lia. }
  rewrite (drop_byte l2) in Hs' by lia. cbn [strncmp_spec] in Hs'.
  go Hr1 by lia. go Hr2 by lia. case_match.
  - left. eexists _, t. split; [done|]. split; [done|]. by injection Hs'.
  - right. eexists _, t. split; [done|]. by fin.
Qed.
End StringFacts2.

(** * Copies

    A copy is verified against a predicate [P i d t] ("the first [i] bytes are
    done, the destination pointer is now [d], the state [t]") that the write of
    each next byte advances; the source must stay readable under it. *)

Section Progress.
Context {T : Type} `{MemoryOk T}.
Implicit Types (t : T) (l : list Z).

(** Writing the bytes of [L] one after the other advances [P]. *)
Definition advances (L : list Z) (P : Z -> ptr -> T -> Prop) : Prop :=
  forall i d t, 0 <= i < Z.of_nat (length L) -> P i d t ->
    exists d' t', wr d i (byte_at L i) t = (Ok d', t') /\ P (i + 1) d' t'.

(** Progress into mapped memory, and into an array object. *)
Definition into_raw t0 a pa L i d t : Prop :=
  d = Raw a /\ t = upds t0 pa (take (Z.to_nat i) L).

Definition into_buf t0 l0 L i d t : Prop :=
  d = Buf (take (Z.to_nat i) L ++ drop (Z.to_nat i) l0) 0 /\ t = t0.

Lemma advances_raw t0 a pa L :
  maps t0 a pa (Z.of_nat (length L)) -> advances L (into_raw t0 a pa L).
Proof.
  intros Hm i d t Hi [-> ->]. exists (Raw a). cbn [wr].
  rewrite bind_run. erewrite store8_maps by (first [by apply maps_upds|lia]).
  eexists. split; [done|]. split; [done|].
  rewrite take_byte by done. rewrite upds_app. cbn.
  rewrite length_take. by replace (Z.of_nat (_ `min` _)) with i by lia.
Qed.

Lemma advances_buf t0 l0 L :
  Forall is_byte L -> (length L <= length l0)%nat -> advances L (into_buf t0 l0 L).
Proof.
  intros HL Hl i d t Hi [-> ->]. cbn [wr]. rewrite Z.add_0_l, length_app, length_take, length_drop.
  zb. eexists _, _. split; [done|]. split; [|done]. f_equal.
  rewrite take_byte by done. rewrite <- app_assoc.
  rewrite u8_small by (by apply byte_at_is_byte).
  rewrite (insert_app_r_alt (take _ L)) by (rewrite length_take; lia). f_equal.
  rewrite length_take.
  replace (Z.to_nat i - _ `min` _)%nat with 0%nat by lia.
  rewrite (drop_byte l0) by lia. done.
Qed.

Lemma into_raw_0 t0 a pa L : into_raw t0 a pa L 0 (Raw a) t0.
Proof. done. Qed.

Lemma into_buf_0 t0 l0 L : into_buf t0 l0 L 0 (Buf l0 0) t0.
Proof. done. Qed.

Lemma into_raw_end t0 a pa L n d t :
  n = Z.of_nat (length L) -> into_raw t0 a pa L n d t -> d = Raw a /\ t = upds t0 pa L.
Proof. intros -> [-> ->]. by rewrite Nat2Z.id, firstn_all. Qed.

Lemma into_buf_end t0 l0 L n d t :
  n = Z.of_nat (length L) -> into_buf t0 l0 L n d t ->
  d = Buf (L ++ drop (length L) l0) 0 /\ t = t0.
Proof. intros -> [-> ->]. by rewrite Nat2Z.id, firstn_all. Qed.

(** A source in memory stays readable while bytes are written elsewhere, or
    below the reading point. *)
Lemma raw_source_stable t0 s ps n a pa L i d t j :
  maps t0 s ps n -> 0 <= j < n -> length L = Z.to_nat n ->
  (pa + n <= ps \/ ps + n <= pa \/ (pa <= ps /\ i <= j)) ->
  0 <= i -> into_raw t0 a pa L i d t ->
  rd (Raw s) j t = (Ok (cell t0 (ps + j)), t).
Proof.
  intros Hm Hj HL Hd Hi [-> ->]. cbn [rd].
  erewrite load8_maps by (first [by apply maps_upds|lia]).
  rewrite cell_upds_out; [done|]. rewrite length_take. lia.
Qed.

(** ** [strncpy] *)
Lemma strncpy_ok P dest src l n t :
  advances (strncpy_spec (Z.to_nat n) l) P -> P 0 dest t ->
  0 <= n < 4294967296 ->
  (length (cprefix (Z.to_nat n) l) < length l)%nat ->
  (forall i d t, P i d t -> 0 <= i <= Z.of_nat (length (cprefix (Z.to_nat n) l)) ->
     rd src i t = (Ok (byte_at l i), t)) ->
  exists d' t', strncpy dest src n t = (Ok d', t') /\ P n d' t'.
Proof.
  intros Hadv HP Hn Hlen Hrd. unfold strncpy.
  set (k := Z.of_nat (length (cprefix (Z.to_nat n) l))) in *.
  assert (0 <= k <= n) as Hk by (pose proof (length_cprefix (Z.to_nat n) l); lia).
  assert (forall i, 0 <= i < k -> byte_at (strncpy_spec (Z.to_nat n) l) i = byte_at l i
            /\ byte_at l i <> 0) as Hpre.
  { clear -Hlen. subst k. intros i Hi.
    assert (byte_at (strncpy_spec (Z.to_nat n) l) i = byte_at (cprefix (Z.to_nat n) l) i) as ->.
    { unfold byte_at, strncpy_spec. apply lookup_total_app_l. lia. }
    clear Hlen. revert l i Hi. induction (Z.to_nat n) as [|m IH]; intros [|c l] i Hi; cbn in *; [lia..|].
    destruct (Z.eqb_spec c 0); cbn in *; [lia|].
    destruct (decide (i = 0)) as [->|]; [done|].
    replace i with (i - 1 + 1) by lia. rewrite !byte_at_S by lia. apply IH. lia. }
  assert (k < n -> byte_at l k = 0) as Hend.
  { clear -Hlen. subst k. intros Hi.
    replace (Z.to_nat n) with (Z.to_nat n) in * by lia.
    remember (Z.to_nat n) as m eqn:Hm. assert (length (cprefix m l) < m)%nat as Hi' by lia.
    clear Hi Hm n. revert l Hlen Hi'. induction m as [|m IH]; intros [|c l] Hlen Hi; cbn in *; [lia..|].
    destruct (Z.eqb_spec c 0) as [->|]; cbn in *; [done|].
    replace (Z.of_nat (S _)) with (Z.of_nat (length (cprefix m l)) + 1) by lia.
    rewrite byte_at_S by lia. apply IH; lia. }
  while_by (fun '(d, i) t' => 0 <= i <= k /\ P i d t')
    (fun '(d, i) t' => i = k /\ P i d t') (fun '(d, i) => Z.to_nat (k - i))
    as ([d1 i1] & t1 & E1 & -> & HP1); [by fin| |lia|].
  { intros [d i] t' [Hi HPi]. rewrite (u32_small n) by lia. go (Hrd _ _ _ HPi) by lia.
    destruct (decide (i = k)) as [->|Hne].
    - left. exists (d, k), t'. split; [|done].
      destruct (Z.ltb_spec k n); [rewrite Hend by done; done|by rewrite andb_false_r].
    - right. destruct (Hpre i) as [Hs Hnz]; [lia|]. zb.
      destruct (Hadv i d t') as (d' & t'' & E & HP'); [|done|].
      { rewrite length_strncpy_spec. lia. }
      rewrite Hs in E. exists (d', i + 1), t''. split; [by go E|]. by fin. }
  rewrite E1.
  while_by (fun '(d, i) t' => k <= i <= n /\ P i d t') (fun d t' => P n d t')
    (fun '(d, i) => Z.to_nat (n - i)) as (d2 & t2 & E2 & HP2);
    [by fin| |lia|by exists d2, t2].
  intros [d i] t' [Hi HPi]. rewrite (u32_small n) by lia.
  destruct (Z.ltb_spec i n) as [Hlt|Hge].
  - right. destruct (Hadv i d t') as (d' & t'' & E & HP'); [|done|].
    { rewrite length_strncpy_spec. lia. }
    assert (byte_at (strncpy_spec (Z.to_nat n) l) i = 0) as Hz.
    { unfold byte_at, strncpy_spec. rewrite lookup_total_app_r by lia.
      apply lookup_total_replicate_2. lia. }
    rewrite Hz in E. exists (d', i + 1), t''. split; [by go E|]. by fin.
  - left. exists d, t'. split; [done|]. by replace i with n in HPi by lia.
Qed.
End Progress.

(** * Block routines *)

Section BlockFacts.
Context {T : Type} `{MemoryOk T}.
Implicit Types (t : T) (l : list Z) (P : Z -> ptr -> T -> Prop).

Lemma land3 x : Z.land x 3 = x mod 4.
Proof. change 3 with (Z.ones 2). by rewrite Z.land_ones. Qed.

Lemma shiftr2 x : Z.shiftr x 2 = x / 4.
Proof. by rewrite Z.shiftr_div_pow2. Qed.

(** [ecx] steps of [w] bytes each, from progress [i]. *)
Lemma rep_movs_ok P op w d s i ecx t :
  0 < w -> 0 <= ecx < 4294967296 -> P i d t ->
  (forall j d t, i <= j -> j + w <= i + w * ecx -> P j d t ->
     exists d' t', op d s j t = (Ok d', t') /\ P (j + w) d' t') ->
  exists d' t', rep_movs op w d s i ecx t = (Ok (d', i + w * ecx), t')
                /\ P (i + w * ecx) d' t'.
Proof.
  intros Hw Hn HP Hop. unfold rep_movs.
  while_by (fun '(d, j, c) t' => 0 <= c <= ecx /\ j = i + w * (ecx - c) /\ P j d t')
    (fun '(d, j) t' => j = i + w * ecx /\ P j d t') (fun '(_, _, c) => Z.to_nat c)
    as ([d' j] & t' & E & -> & HP'); [| |lia|by exists d', t'].
  { split; [lia|]. split; [lia|done]. }
  intros [[d1 j] c] t1 (Hc & -> & HP1). destruct (Z.eqb_spec c 0) as [->|Hc0].
  - left. eexists (d1, _), t1. split; [done|]. rewrite Z.sub_0_r in *. done.
  - right. destruct (Hop (i + w * (ecx - c)) d1 t1) as (d2 & t2 & E & HP2); [nia|nia|done|].
    go E. eexists (d2, _, c - 1), t2. split; [done|].
    replace (i + w * (ecx - c) + w) with (i + w * (ecx - (c - 1))) in * by lia. fin.
Qed.

Lemma movsb_ok P (L : list Z) d s j t :
  advances L P -> 0 <= j < Z.of_nat (length L) -> P j d t ->
  rd s j t = (Ok (byte_at L j), t) ->
  exists d' t', movsb d s j t = (Ok d', t') /\ P (j + 1) d' t'.
Proof.
  intros Hadv Hj HP Hr. unfold movsb. go Hr. by apply Hadv.
Qed.

Lemma movsl_ok P (L : list Z) d s j t :
  advances L P -> 0 <= j -> j + 4 <= Z.of_nat (length L) -> P j d t ->
  (forall k, j <= k < Z.of_nat (length L) -> rd s k t = (Ok (byte_at L k), t)) ->
  exists d' t', movsl d s j t = (Ok d', t') /\ P (j + 4) d' t'.
Proof.
  intros Hadv Hj0 Hj HP Hr. unfold movsl. do 4 (go Hr by lia).
  destruct (Hadv j d t) as (d1 & t1 & E1 & H1); [lia|done|]. go E1.
  destruct (Hadv (j + 1) d1 t1) as (d2 & t2 & E2 & H2); [lia|done|]. go E2.
  replace (j + 1 + 1) with (j + 2) in H2 by lia.
  destruct (Hadv (j + 2) d2 t2) as (d3 & t3 & E3 & H3); [lia|done|]. go E3.
  replace (j + 2 + 1) with (j + 3) in H3 by lia.
  destruct (Hadv (j + 3) d3 t3) as (d4 & t4 & E4 & H4); [lia|done|].
  exists d4, t4. by replace (j + 4) with (j + 3 + 1) by lia.
Qed.

(** [memcpy] is the byte-by-byte copy, whatever the alignment: it writes the
    bytes [L] of the source in order, provided that what is still to be read
    is not affected by what has been written. *)
Lemma memcpy_ok P (L : list Z) dest src n t :
  n = Z.of_nat (length L) -> n < 4294967296 -> advances L P -> P 0 dest t ->
  (forall i d t k, P i d t -> 0 <= i <= k -> k < n -> rd src k t = (Ok (byte_at L k), t)) ->
  exists d' t', memcpy dest src n t = (Ok d', t') /\ P n d' t'.
Proof.
  intros Hlen Hn Hadv HP Hr. unfold memcpy. rewrite (u32_small n) by lia.
  while_by (fun '(d, i, c) t' => 0 <= c /\ i + c = n /\ 0 <= i /\ P i d t')
    (fun '(d, i, c) t' => 0 <= c /\ i + c = n /\ 0 <= i /\ P i d t')
    (fun '(_, _, c) => Z.to_nat c)
    as ([[d1 i1] c1] & t1 & E1 & Hc1 & Hs1 & Hi1 & HP1); [by fin| |lia|].
  { intros [[d i] c] t' (Hc & Hs & Hi & HPi).
    destruct ((c =? 0) || (Z.land (addr d i) 3 =? 0)) eqn:Eb.
    - left. by eexists (d, i, c), t'.
    - right. apply orb_false_iff in Eb as [Eb _]. apply Z.eqb_neq in Eb.
      destruct (movsb_ok P L d src i t') as (d' & t'' & E & HP'); [done|lia|done| |].
      { apply (Hr i d); [done|lia|lia]. }
      go E. eexists (d', i + 1, c - 1), t''. by fin. }
  rewrite E1. destruct (Z.eqb_spec c1 0) as [->|Hne].
  { exists d1, t1. by replace n with i1 by lia. }
  rewrite shiftr2, land3.
  destruct (rep_movs_ok P movsl 4 d1 src i1 (c1 / 4) t1) as (d2 & t2 & E2 & HP2);
    [lia|split; [apply Z.div_pos; lia|apply Z.div_lt_upper_bound; lia]|done| |].
  { intros j d t' Hj Hj4 HPj. apply (movsl_ok P L); [done|lia| |done|].
    - pose proof (Z.mul_div_le c1 4). lia.
    - intros k Hk. apply (Hr j d); [done|lia|lia]. }
  go E2. pose proof (Z.mod_pos_bound c1 4). pose proof (Z.div_mod c1 4).
  destruct (rep_movs_ok P movsb 1 d2 src (i1 + 4 * (c1 / 4)) (c1 mod 4) t2)
    as (d3 & t3 & E3 & HP3); [lia|lia|done| |].
  { intros j d t' Hj Hj4 HPj. apply (movsb_ok P L); [done|lia|done|].
    apply (Hr j d); [done|lia|lia]. }
  go E3. exists d3, t3. split; [done|].
  by replace n with (i1 + 4 * (c1 / 4) + 1 * (c1 mod 4)) by lia.
Qed.

(** Between two mapped ranges that are disjoint, or with the destination
    below the source. *)
Lemma memcpy_raw t d pd s ps n :
  maps t d pd (Z.of_nat n) -> maps t s ps (Z.of_nat n) -> Z.of_nat n < 4294967296 ->
  (pd + Z.of_nat n <= ps \/ ps + Z.of_nat n <= pd \/ pd <= ps) ->
  memcpy (Raw d) (Raw s) (Z.of_nat n) t = (Ok (Raw d), upds t pd (cells t ps n)).
Proof.
  intros Hd Hs Hn Hdis.
  destruct (memcpy_ok (into_raw t d pd (cells t ps n)) (cells t ps n) (Raw d) (Raw s)
    (Z.of_nat n) t) as (d' & t' & E & HP);
    [by rewrite length_cells|done|apply advances_raw; by rewrite length_cells|done| |].
  { intros i d' t' k HP Hik Hk.
    rewrite (raw_source_stable t s ps (Z.of_nat n) d pd (cells t ps n) i d' t' k);
      [|done|lia|rewrite length_cells; lia|lia|lia|done].
    do 2 f_equal. unfold byte_at. symmetry. apply list_lookup_total_correct.
    rewrite cells_lookup by lia. do 2 f_equal. lia. }
  rewrite E. apply into_raw_end in HP as [-> ->]; [done|by rewrite length_cells].
Qed.

(** Into an array object, and out of one. *)
Lemma memcpy_to_buf t l0 s ps n :
  maps t s ps (Z.of_nat n) -> Z.of_nat n < 4294967296 -> (n <= length l0)%nat ->
  memcpy (Buf l0 0) (Raw s) (Z.of_nat n) t = (Ok (Buf (cells t ps n ++ drop n l0) 0), t).
Proof.
  intros Hs Hn Hl.
  destruct (memcpy_ok (into_buf t l0 (cells t ps n)) (cells t ps n) (Buf l0 0) (Raw s)
    (Z.of_nat n) t) as (d' & t' & E & HP);
    [by rewrite length_cells|done| |done| |].
  { apply advances_buf; [apply cells_bytes|rewrite length_cells; lia]. }
  { intros i d' t' k [_ ->] Hik Hk.
    apply (reads_maps t s ps n); [done|rewrite length_cells; lia]. }
  rewrite E. apply into_buf_end in HP as [-> ->]; [|by rewrite length_cells].
  by rewrite length_cells.
Qed.

Lemma memcpy_from_buf t d pd l n :
  maps t d pd (Z.of_nat n) -> Z.of_nat n < 4294967296 -> (n <= length l)%nat ->
  memcpy (Raw d) (Buf l 0) (Z.of_nat n) t = (Ok (Raw d), upds t pd (take n l)).
Proof.
  intros Hd Hn Hl. assert (length (take n l) = n) as HL by (rewrite length_take; lia).
  destruct (memcpy_ok (into_raw t d pd (take n l)) (take n l) (Raw d) (Buf l 0)
    (Z.of_nat n) t) as (d' & t' & E & HP);
    [by rewrite HL|done|apply advances_raw; by rewrite HL|done| |].
  { intros i d' t' k _ Hik Hk. rewrite (reads_buf0 t' l) by lia. do 2 f_equal.
    unfold byte_at. by rewrite lookup_total_take_lt by lia. }
  rewrite E. apply into_raw_end in HP as [-> ->]; [done|by rewrite HL].
Qed.
End BlockFacts.

(** * Filling and moving *)

Section FillFacts.
Context {T : Type} `{MemoryOk T}.
Implicit Types (t : T) (l : list Z) (P : Z -> ptr -> T -> Prop).

(** The four bytes of [eax] in [memset] are the byte that is set. *)
Lemma memset_eax c k :
  is_byte c -> 0 <= k < 4 ->
  u8 (Z.shiftr (Z.lor (Z.lor (Z.lor (Z.shiftl c 24) (Z.shiftl c 16)) (Z.shiftl c 8)) c)
        (8 * k)) = c.
Proof.
  intros Hc Hk. unfold u8. change 256 with (2 ^ 8). rewrite <- Z.land_ones by lia.
  apply Z.bits_inj'. intros m Hm. rewrite Z.land_spec, Z.shiftr_spec, !Z.lor_spec by lia.
  rewrite !Z.shiftl_spec by lia.
  assert (forall j, 8 <= j -> Z.testbit c j = false) as Hhi.
  { intros j Hj. rewrite <- (Z.mod_small c (2 ^ 8)) by (unfold is_byte in Hc; lia).
    by apply Z.mod_pow2_bits_high. }
  destruct (Z.lt_ge_cases m 8).
  - rewrite Z.ones_spec_low, andb_true_r by lia.
    assert (k = 0 \/ k = 1 \/ k = 2 \/ k = 3) as [-> | [-> | [-> | ->]]] by lia;
      repeat match goal with
      | |- context [Z.testbit c ?j] =>
          first [rewrite (Z.testbit_neg_r c j) by lia | rewrite (Hhi j) by lia]
      end; rewrite ?orb_false_r, ?orb_false_l; f_equal; lia.
  - rewrite Z.ones_spec_high, andb_false_r by lia. by rewrite Hhi.
Qed.

Lemma rep_stos_ok P op w eax p i ecx t :
  0 < w -> 0 <= ecx < 4294967296 -> P i p t ->
  (forall j p t, i <= j -> j + w <= i + w * ecx -> P j p t ->
     exists p' t', op p j eax t = (Ok p', t') /\ P (j + w) p' t') ->
  exists p' t', rep_stos op w eax p i ecx t = (Ok (p', i + w * ecx), t')
                /\ P (i + w * ecx) p' t'.
Proof.
  intros Hw Hn HP Hop. unfold rep_stos.
  while_by (fun '(p, j, c) t' => 0 <= c <= ecx /\ j = i + w * (ecx - c) /\ P j p t')
    (fun '(p, j) t' => j = i + w * ecx /\ P j p t') (fun '(_, _, c) => Z.to_nat c)
    as ([p' j] & t' & E & -> & HP'); [| |lia|by exists p', t'].
  { split; [lia|]. split; [lia|done]. }
  intros [[p1 j] c] t1 (Hc & -> & HP1). destruct (Z.eqb_spec c 0) as [->|Hc0].
  - left. eexists (p1, _), t1. split; [done|]. rewrite Z.sub_0_r in *. done.
  - right. destruct (Hop (i + w * (ecx - c)) p1 t1) as (p2 & t2 & E & HP2); [nia|nia|done|].
    go E. eexists (p2, _, c - 1), t2. split; [done|].
    replace (i + w * (ecx - c) + w) with (i + w * (ecx - (c - 1))) in * by lia. fin.
Qed.

Lemma stosl_ok P (L : list Z) p j eax t :
  advances L P -> 0 <= j -> j + 4 <= Z.of_nat (length L) -> P j p t ->
  (forall k, 0 <= k < 4 -> u8 (Z.shiftr eax (8 * k)) = byte_at L (j + k)) ->
  exists p' t', stosl p j eax t = (Ok p', t') /\ P (j + 4) p' t'.
Proof.
  intros Hadv Hj0 Hj HP Hb. unfold stosl, stosw.
  destruct (Hadv j p t) as (d1 & t1 & E1 & H1); [lia|done|].
  destruct (Hadv (j + 1) d1 t1) as (d2 & t2 & E2 & H2); [lia|done|].
  replace (j + 1 + 1) with (j + 2) in H2 by lia.
  destruct (Hadv (j + 2) d2 t2) as (d3 & t3 & E3 & H3); [lia|done|].
  replace (j + 2 + 1) with (j + 3) in H3 by lia.
  destruct (Hadv (j + 3) d3 t3) as (d4 & t4 & E4 & H4); [lia|done|].
  pose proof (Hb 0 ltac:(lia)) as B0. pose proof (Hb 1 ltac:(lia)) as B1.
  pose proof (Hb 2 ltac:(lia)) as B2. pose proof (Hb 3 ltac:(lia)) as B3.
  rewrite Z.shiftr_0_r, Z.add_0_r in B0. rewrite Z.shiftr_shiftr by lia.
  change (8 * 1) with 8 in B1. change (8 * 2) with 16 in B2. change (8 * 3) with 24 in B3.
  change (16 + 8) with 24. replace (j + 2 + 1) with (j + 3) by lia.
  rewrite B0, B1, B2, B3. go E1. go E2. go E3.
  exists d4, t4. by replace (j + 4) with (j + 3 + 1) by lia.
Qed.

(** [memset] writes the byte [c] [n] times, whatever the alignment. *)
Lemma memset_ok P s c (n : nat) t :
  Z.of_nat n < 4294967296 -> advances (replicate n (u8 c)) P -> P 0 s t ->
  exists p' t', memset s c (Z.of_nat n) t = (Ok p', t') /\ P (Z.of_nat n) p' t'.
Proof.
  intros Hn Hadv HP. unfold memset. rewrite (u32_small (Z.of_nat n)) by lia.
  assert (Z.land c 255 = u8 c) as ->.
  { change 255 with (Z.ones 8). by rewrite Z.land_ones. }
  set (eax := Z.lor _ (u8 c)).
  assert (forall j, 0 <= j < Z.of_nat n -> byte_at (replicate n (u8 c)) j = u8 c) as Hrep.
  { intros j Hj. unfold byte_at. apply lookup_total_replicate_2. lia. }
  assert (forall k, 0 <= k < 4 -> u8 (Z.shiftr eax (8 * k)) = u8 c) as Heax.
  { intros k Hk. by apply memset_eax; [apply u8_range|]. }
  assert (u8 eax = u8 c) as Heax0 by (by rewrite <- (Heax 0) by lia).
  assert (forall j p t, 0 <= j < Z.of_nat n -> P j p t ->
    exists p' t', stosb p j eax t = (Ok p', t') /\ P (j + 1) p' t') as Hb.
  { intros j p t' Hj HPj. unfold stosb. rewrite Heax0, <- (Hrep j) by lia.
    apply Hadv; [rewrite length_replicate; lia|done]. }
  while_by (fun '(d, i, c) t' => 0 <= c /\ i + c = Z.of_nat n /\ 0 <= i /\ P i d t')
    (fun '(d, i, c) t' => 0 <= c /\ i + c = Z.of_nat n /\ 0 <= i /\ P i d t')
    (fun '(_, _, c) => Z.to_nat c)
    as ([[d1 i1] c1] & t1 & E1 & Hc1 & Hs1 & Hi1 & HP1); [by fin| |lia|].
  { intros [[d i] c'] t' (Hc & Hs & Hi & HPi).
    destruct ((c' =? 0) || (Z.land (addr d i) 3 =? 0)) eqn:Eb.
    - left. by eexists (d, i, c'), t'.
    - right. apply orb_false_iff in Eb as [Eb _]. apply Z.eqb_neq in Eb.
      destruct (Hb i d t') as (d' & t'' & E & HP'); [lia|done|].
      go E. eexists (d', i + 1, c' - 1), t''. by fin. }
  rewrite E1. destruct (Z.eqb_spec c1 0) as [->|Hne].
  { exists d1, t1. by replace (Z.of_nat n) with i1 by lia. }
  rewrite shiftr2, land3.
  pose proof (Z.mod_pos_bound c1 4). pose proof (Z.div_mod c1 4).
  destruct (rep_stos_ok P stosl 4 eax d1 i1 (c1 / 4) t1) as (d2 & t2 & E2 & HP2);
    [lia|lia|done| |].
  { intros j d t' Hj Hj4 HPj.
    apply (stosl_ok P (replicate n (u8 c))); [done|lia|rewrite length_replicate; lia|done|].
    intros k Hk. rewrite Heax, Hrep by lia. done. }
  go E2.
  destruct (rep_stos_ok P stosb 1 eax d2 (i1 + 4 * (c1 / 4)) (c1 mod 4) t2)
    as (d3 & t3 & E3 & HP3); [lia|lia|done| |].
  { intros j d t' Hj Hj4 HPj. apply Hb; [lia|done]. }
  go E3. exists d3, t3. split; [done|].
  by replace (Z.of_nat n) with (i1 + 4 * (c1 / 4) + 1 * (c1 mod 4)) by lia.
Qed.

Lemma memset_raw t d pd c n :
  maps t d pd (Z.of_nat n) -> Z.of_nat n < 4294967296 ->
  memset (Raw d) c (Z.of_nat n) t = (Ok (Raw d), upds t pd (replicate n (u8 c))).
Proof.
  intros Hd Hn.
  destruct (memset_ok (into_raw t d pd (replicate n (u8 c))) (Raw d) c n t)
    as (d' & t' & E & HP); [done| |done|].
  { apply advances_raw. by rewrite length_replicate. }
  rewrite E. apply into_raw_end in HP as [-> ->]; [done|by rewrite length_replicate].
Qed.

Lemma memset_buf t l c n :
  Z.of_nat n < 4294967296 -> (n <= length l)%nat ->
  memset (Buf l 0) c (Z.of_nat n) t = (Ok (Buf (replicate n (u8 c) ++ drop n l) 0), t).
Proof.
  intros Hn Hl.
  destruct (memset_ok (into_buf t l (replicate n (u8 c))) (Buf l 0) c n t)
    as (d' & t' & E & HP); [done| |done|].
  { apply advances_buf; [|by rewrite length_replicate].
    apply Forall_replicate, u8_range. }
  rewrite E. apply into_buf_end in HP as [-> ->]; by rewrite length_replicate.
Qed.
End FillFacts.

(** * Numerals *)

(** The digits of [v] in base [radix], least significant first: what the loop of
    [itoa] stores, with fuel for the number of digits. *)
Fixpoint digits_rev (fuel : nat) (radix v : Z) : list Z :=
  match fuel with
  | O => []
  | S fuel =>
      if 0 <? v then byte_at lookup_digits (v mod radix) :: digits_rev fuel radix (v / radix)
      else []
  end.

(** The numeral [itoa] produces; a 32-bit value has at most 32 digits. *)
Definition numeral (radix v : Z) : list Z :=
  if v =? 0 then [48] else rev (digits_rev 32 radix v).

(** The value of a digit character and of a numeral. *)
Definition digit_val (c : Z) : Z := if c <? 65 then c - 48 else c - 55.
Definition numeral_val (radix : Z) (l : list Z) : Z :=
  fold_left (fun acc c => acc * radix + digit_val c) l 0.

Lemma digit_val_lookup d : 0 <= d < 36 -> digit_val (byte_at lookup_digits d) = d.
Proof.
  revert d. apply (Forall_seqZ _ 0 36). apply (bool_decide_unpack _). vm_compute. done.
Qed.

Lemma length_digits_rev fuel radix v :
  2 <= radix -> 0 <= v < 2 ^ Z.of_nat fuel ->
  (length (digits_rev fuel radix v) <= fuel)%nat.
Proof.
  intros _ _. revert v. induction fuel as [|fuel IH]; intros v; cbn; [lia|].
  case_match; cbn; [|lia]. specialize (IH (v / radix)). lia.
Qed.

Lemma div_pow2_lt v radix (fuel : nat) :
  2 <= radix -> 0 <= v < 2 ^ Z.of_nat (S fuel) -> 0 <= v / radix < 2 ^ Z.of_nat fuel.
Proof.
  intros Hr Hv. split; [apply Z.div_pos; lia|].
  apply Z.div_lt_upper_bound; [lia|].
  rewrite Nat2Z.inj_succ, Z.pow_succ_r in Hv by lia. nia.
Qed.

(** The digits of a numeral determine the value: the reading of what [itoa]
    prints gives back its argument. *)
Lemma digits_rev_val fuel radix v :
  2 <= radix <= 36 -> 0 <= v < 2 ^ Z.of_nat fuel ->
  fold_right (fun c acc => acc * radix + digit_val c) 0 (digits_rev fuel radix v) = v.
Proof.
  intros Hr. revert v. induction fuel as [|fuel IH]; intros v Hv; cbn [digits_rev fold_right].
  - cbn in Hv. lia.
  - destruct (Z.ltb_spec 0 v); cbn [fold_right]; [|lia].
    rewrite IH by (apply div_pow2_lt; lia).
    pose proof (Z.mod_pos_bound v radix). rewrite digit_val_lookup by lia.
    pose proof (Z.div_mod v radix). lia.
Qed.

Lemma numeral_val_numeral radix v :
  2 <= radix <= 36 -> 0 <= v < 4294967296 -> numeral_val radix (numeral radix v) = v.
Proof.
  intros Hr Hv. unfold numeral_val, numeral. destruct (Z.eqb_spec v 0) as [->|Hne]; [done|].
  rewrite <- fold_left_rev_right, rev_involutive. by apply digits_rev_val.
Qed.

(** Digit characters are not null. *)
Lemma lookup_digits_nz d : 0 <= d < 36 -> 0 < byte_at lookup_digits d < 128.
Proof.
  revert d. apply (Forall_seqZ _ 0 36). apply (bool_decide_unpack _). vm_compute. done.
Qed.

Lemma digits_rev_chars fuel radix v :
  2 <= radix <= 36 -> 0 <= v -> Forall (fun c => 0 < c < 128) (digits_rev fuel radix v).
Proof.
  intros Hr. revert v. induction fuel as [|fuel IH]; intros v Hv; cbn; [constructor|].
  case_match; constructor.
  - apply lookup_digits_nz. pose proof (Z.mod_pos_bound v radix). lia.
  - apply IH. apply Z.div_pos; lia.
Qed.

Lemma numeral_chars radix v :
  2 <= radix <= 36 -> 0 <= v -> Forall (fun c => 0 < c < 128) (numeral radix v).
Proof.
  intros Hr Hv. unfold numeral. case_match; [by repeat constructor|].
  apply Forall_rev. by apply digits_rev_chars.
Qed.

Lemma length_numeral radix v :
  2 <= radix -> 0 <= v < 4294967296 -> (1 <= length (numeral radix v) <= 32)%nat.
Proof.
  intros Hr Hv. unfold numeral. destruct (Z.eqb_spec v 0); [cbn; lia|].
  rewrite length_rev. pose proof (length_digits_rev 32 radix v ltac:(lia) ltac:(done)).
  split; [|done]. cbn [digits_rev]. zb. cbn. lia.
Qed.

(** * [strrev] and [itoa] on an array object *)

Section ItoaFacts.
Context {T : Type} `{MemoryOk T}.
Implicit Types (t : T) (l : list Z).

Lemma rd_mid t pre l post i :
  0 <= i < Z.of_nat (length l) ->
  rd (Buf (pre ++ l ++ post) (Z.of_nat (length pre))) i t = (Ok (byte_at l i), t).
Proof. intros Hi. by apply (reads_buf t pre l post). Qed.

Lemma wr_mid t pre l post i v :
  0 <= i < Z.of_nat (length l) -> is_byte v ->
  wr (Buf (pre ++ l ++ post) (Z.of_nat (length pre))) i v t =
  (Ok (Buf (pre ++ <[Z.to_nat i := v]> l ++ post) (Z.of_nat (length pre))), t).
Proof.
  intros Hi Hv. cbn [wr]. rewrite !length_app. zb. rewrite ret_run. do 3 f_equal.
  rewrite u8_small by exact Hv.
  replace (Z.to_nat (Z.of_nat (length pre) + i)) with (length pre + Z.to_nat i)%nat by lia.
  rewrite insert_app_r, insert_app_l by lia. done.
Qed.

(** [s'] is [l] with its first and last [b] characters exchanged. *)
Definition turned (l s' : list Z) (b : Z) : Prop :=
  let n := Z.of_nat (length l) in
  length s' = length l /\
  forall j, 0 <= j < n -> byte_at s' j = if (j <? b) || (n - 1 - b <? j) then byte_at l (n - 1 - j) else byte_at l j.

Lemma turned_start l : turned l l 0.
Proof. split; [done|]. intros j Hj. by zb. Qed.

Lemma turned_step l s' b (e := Z.of_nat (length l) - 1 - b) :
  turned l s' b -> 0 <= b < e ->
  turned l (<[Z.to_nat b := byte_at s' e]> (<[Z.to_nat e := byte_at s' b]> s')) (b + 1).
Proof.
  intros [Hl Hs] Hb. split; [by rewrite !length_insert|]. intros j Hj.
  unfold byte_at at 1. rewrite !list_lookup_total_insert, length_insert.
  pose proof (Hs b ltac:(lia)) as Hb'. pose proof (Hs e ltac:(lia)) as He'. fold e in Hb', He'.
  revert Hb' He'. zb. intros Hb' He'. rewrite Hb', He'.
  destruct (decide (j = b)) as [->|Hjb].
  { zb. rewrite decide_True by lia. done. }
  destruct (decide (j = e)) as [->|Hje].
  { rewrite decide_False by lia. rewrite decide_True by lia. zb. unfold e. f_equal. lia. }
  rewrite !decide_False by lia. change (s' !!! Z.to_nat j) with (byte_at s' j). rewrite Hs by lia. fold e.
  destruct (Z.ltb_spec j b), (Z.ltb_spec e j); zb; first [done|lia].
Qed.

Lemma turned_end l s' b :
  turned l s' b -> 0 <= b -> Z.of_nat (length l) - 1 - b <= b <= Z.of_nat (length l) - 1 - b + 2 -> s' = reverse l.
Proof.
  intros [Hl Hs] Hb He.
  apply list_eq_same_length with (n := length l); [by rewrite length_reverse|done|].
  intros i x y Hi Hx Hy. apply list_lookup_total_correct in Hx, Hy. subst x y.
  pose proof (Hs (Z.of_nat i) ltac:(lia)) as Hi'. unfold byte_at in Hi'. rewrite Nat2Z.id in Hi'. rewrite Hi'.
  rewrite (list_lookup_total_alt (reverse l)), reverse_lookup by lia. rewrite <- list_lookup_total_alt.
  destruct (Z.ltb_spec (Z.of_nat i) b), (Z.ltb_spec (Z.of_nat (length l) - 1 - b) (Z.of_nat i)); cbn [orb]; f_equal; lia.
Qed.

(** [strrev] reverses the string in place. *)
Lemma strrev_buf t pre s post :
  Forall (fun c => 0 < c < 128) s -> Z.of_nat (length s) < 2147483648 ->
  strrev (Buf (pre ++ s ++ 0 :: post) (Z.of_nat (length pre))) t =
  (Ok (Buf (pre ++ reverse s ++ 0 :: post) (Z.of_nat (length pre))), t).
Proof.
  intros Hs Hlen. unfold strrev. rewrite bind_run, (strlen_ok t _ s); [|..|lia].
  2:{ replace (pre ++ s ++ 0 :: post) with (pre ++ (s ++ [0]) ++ post) by by rewrite <- app_assoc.
      by apply reads_buf. }
  2:{ eapply Forall_impl; [|exact Hs]. cbn. lia. }
  set (n := Z.of_nat (length s)). assert (0 <= n < 2147483648) as Hn by lia.
  rewrite (i32_small (n - 1)) by lia.
  while_by (fun '(p, b, e) t' => t' = t /\ 0 <= b /\ e = n - 1 - b /\ 2 * b <= n + 1 /\
      exists s', p = Buf (pre ++ s' ++ 0 :: post) (Z.of_nat (length pre)) /\ Forall is_byte s' /\ turned s s' b)
    (fun p t' => t' = t /\ p = Buf (pre ++ reverse s ++ 0 :: post) (Z.of_nat (length pre)))
    (fun '(_, b, e) => Z.to_nat (e - b)) as (p & t' & E & -> & ->);
    [| |lia|exact E].
  { split; [done|]. split; [lia|]. split; [lia|]. split; [lia|].
    exists s. split; [done|]. split; [|apply turned_start].
    eapply Forall_impl; [|exact Hs]. unfold is_byte. cbn. lia. }
  intros [[p b] e] t' (-> & Hb & -> & Hbn & s' & -> & Hby & Hs'). pose proof (proj1 Hs') as Hl.
  destruct (Z.ltb_spec b (n - 1 - b)) as [Hlt|Hge].
  - right. go rd_mid by lia. go rd_mid by lia.
    go wr_mid by (first [lia|by apply byte_at_is_byte]).
    go wr_mid by (first [rewrite length_insert; lia|by apply byte_at_is_byte]).
    eexists (_, b + 1, n - 1 - b - 1), t. split; [done|]. split; [|lia].
    split; [done|]. split; [lia|]. split; [lia|]. split; [lia|].
    eexists. split; [done|]. split; [by repeat apply Forall_insert; try apply byte_at_is_byte|].
    by apply turned_step.
  - left. eexists _, t. split; [done|]. split; [done|]. by rewrite (turned_end s s' b) by (done || lia).
Qed.

(** More fuel does not change the digits. *)
Lemma digits_rev_more fuel fuel' radix v :
  2 <= radix -> 0 <= v < 2 ^ Z.of_nat fuel -> (fuel <= fuel')%nat ->
  digits_rev fuel' radix v = digits_rev fuel radix v.
Proof.
  intros Hr. revert fuel' v. induction fuel as [|fuel IH]; intros fuel' v Hv Hf.
  - cbn in *. destruct fuel'; cbn; [done|]. by zb.
  - destruct fuel' as [|fuel']; [lia|]. cbn. case_match; [|done]. f_equal.
    apply IH; [apply div_pow2_lt; lia|lia].
Qed.

(** [itoa] leaves the numeral, null-terminated, at the pointer. *)
Lemma itoa_buf t pre rest radix v :
  2 <= radix <= 36 -> 0 <= v < 4294967296 ->
  (length (numeral radix v) < length rest)%nat ->
  itoa v (Buf (pre ++ rest) (Z.of_nat (length pre))) radix t =
  (Ok (Buf (pre ++ numeral radix v ++ 0 :: drop (S (length (numeral radix v))) rest)
        (Z.of_nat (length pre))), t).
Proof.
  intros Hr Hv Hlen. unfold itoa. rewrite (u32_small v), (u32_small radix) by lia.
  destruct (Z.eqb_spec v 0) as [->|Hne].
  { unfold numeral in *. cbn in Hlen. destruct rest as [|r0 [|r1 rest]]; cbn in Hlen; [lia..|].
    pose proof (wr_mid t pre (r0 :: r1 :: rest) [] 0 48) as E. rewrite app_nil_r in E.
    go E by (first [cbn [length]; lia|unfold is_byte; lia]).
    rewrite app_nil_r. change (<[Z.to_nat 0:=48]> (r0 :: r1 :: rest)) with (48 :: r1 :: rest).
    pose proof (wr_mid t pre (48 :: r1 :: rest) [] 1 0) as E'. rewrite app_nil_r in E'.
    rewrite E' by (first [cbn [length]; lia|unfold is_byte; lia]). by rewrite app_nil_r. }
  unfold numeral in *. rewrite (proj2 (Z.eqb_neq v 0)) in * by done.
  rewrite length_rev in *. set (ds := digits_rev 32 radix v) in *.
  assert (length ds <= 32)%nat as Hds by (apply length_digits_rev; lia || done).
  while_by (fun '(b, k, nv) t' => t' = t /\ 0 <= nv /\ 0 <= k /\
      exists d1, b = Buf (pre ++ d1 ++ drop (length d1) rest) (Z.of_nat (length pre)) /\
        k = Z.of_nat (length d1) /\ (length d1 <= 32)%nat /\
        nv < 2 ^ Z.of_nat (32 - length d1) /\
        d1 ++ digits_rev (32 - length d1) radix nv = ds)
    (fun '(b, k) t' => t' = t /\ k = Z.of_nat (length ds) /\
      b = Buf (pre ++ ds ++ drop (length ds) rest) (Z.of_nat (length pre)))
    (fun '(_, k, nv) => Z.to_nat (32 - k))
    as ([b k] & t' & E & -> & -> & ->); [| |lia|].
  { fin. exists []. cbn [length]. change (2 ^ Z.of_nat (32 - 0)) with 4294967296. fin. }
  { intros [[b k] nv] t' (-> & Hnv0 & Hk & d1 & -> & -> & Hd1 & Hnv & Hdd).
    destruct (Z.ltb_spec 0 nv) as [Hpos|Hz].
    - right. destruct (decide (length d1 = 32%nat)) as [He|Hlt].
      { rewrite He in Hnv. cbn in Hnv. lia. }
      replace (32 - length d1)%nat with (S (32 - S (length d1))) in * by lia.
      cbn [digits_rev] in Hdd. revert Hdd. zb. intros Hdd.
      set (c := byte_at lookup_digits (nv mod radix)) in *.
      pose proof (Z.mod_pos_bound nv radix ltac:(lia)) as Hmod.
      assert (0 < c < 128) as Hc by (apply lookup_digits_nz; lia).
      assert (length d1 < length rest)%nat as Hdr.
      { apply (f_equal length) in Hdd. rewrite length_app in Hdd. cbn [length] in Hdd. lia. }
      rewrite bind_run, (reads_buf0 t (lookup_digits ++ [0]));
        [|change (Z.of_nat (length (lookup_digits ++ [0]))) with 37; lia].
      assert (byte_at (lookup_digits ++ [0]) (nv mod radix) = c) as ->.
      { unfold c, byte_at. apply lookup_total_app_l. change (length lookup_digits) with 36%nat. lia. }
      pose proof (wr_mid t pre (d1 ++ drop (length d1) rest) [] (Z.of_nat (length d1)) c) as Ew.
      rewrite app_nil_r in Ew.
      go Ew by (first [rewrite length_app, length_drop; lia|unfold is_byte; lia]).
      eexists (_, _, nv / radix), t. split; [done|].
      assert (nv / radix < 2 ^ Z.of_nat (32 - S (length d1))) as Hq.
      { apply div_pow2_lt; [lia|]. split; [lia|done]. }
      split; [|lia]. split; [done|]. split; [apply Z.div_pos; lia|]. split; [lia|].
      exists (d1 ++ [c]). rewrite length_app, app_nil_r. cbn [length].
      split.
      { do 2 f_equal. rewrite Nat2Z.id, (insert_app_r_alt d1) by lia.
        rewrite Nat.sub_diag, <- app_assoc. f_equal.
        destruct (lookup_lt_is_Some_2 rest (length d1) Hdr) as [x Hx].
        rewrite (drop_S _ _ _ Hx). cbn. do 2 f_equal. lia. }
      replace (length d1 + 1)%nat with (S (length d1)) by lia.
      split; [lia|]. split; [lia|]. split; [exact Hq|]. rewrite <- app_assoc. exact Hdd.
    - left. assert (d1 = ds) as ->.
      { rewrite <- Hdd. destruct (32 - length d1)%nat; cbn; [by rewrite app_nil_r|].
        zb. by rewrite app_nil_r. }
      eexists (_, _), t. fin. }
  rewrite E. pose proof (wr_mid t pre (ds ++ drop (length ds) rest) []
    (Z.of_nat (length ds)) 0) as Ew. rewrite app_nil_r in Ew.
  go Ew by (first [rewrite length_app, length_drop; lia|unfold is_byte; lia]).
  rewrite app_nil_r, Nat2Z.id, (insert_app_r_alt ds) by lia. rewrite Nat.sub_diag.
  destruct (lookup_lt_is_Some_2 rest (length ds) ltac:(lia)) as [x Hx].
  rewrite (drop_S _ _ _ Hx). cbn [insert list_insert].
  rewrite strrev_buf by (first [apply digits_rev_chars; lia|lia]).
  by rewrite rev_alt.
Qed.
End ItoaFacts.

(** * [memmove] *)

Section MoveFacts.
Context {T : Type} `{MemoryOk T}.
Implicit Types (t : T).

(** The bytes [lo, hi) of the source at [ps] have been copied to [pd]. *)
Definition moved (t : T) (pd ps lo hi : Z) (t' : T) : Prop :=
  (forall x, loc t' x = loc t x) /\
  forall q, cell t' q =
    if (pd + lo <=? q) && (q <? pd + hi) then cell t (ps + (q - pd)) else cell t q.

Lemma moved_none t pd ps i : moved t pd ps i i t.
Proof.
  split; [done|]. intros q.
  destruct (Z.leb_spec (pd + i) q), (Z.ltb_spec q (pd + i)); done || lia.
Qed.

(** One more byte, above or below those that are done. *)
Lemma moved_step t d pd s ps n lo hi i t' :
  maps t d pd n -> maps t s ps n -> moved t pd ps lo hi t' ->
  0 <= i < n -> lo <= hi -> (i = hi \/ i = lo - 1) ->
  (ps + i < pd + lo \/ pd + hi <= ps + i) ->
  exists t'', movsb (Raw d) (Raw s) i t' = (Ok (Raw d), t'') /\
              moved t pd ps (lo `min` i) (hi `max` (i + 1)) t''.
Proof.
  intros Hd Hs [Hl Hc] Hi Hlh Hii Hdis. unfold movsb.
  assert (maps t' d pd n) as Hd' by (eapply maps_loc; [|done]; done).
  assert (maps t' s ps n) as Hs' by (eapply maps_loc; [|done]; done).
  cbn [rd wr]. go (load8_maps t' s ps n i) by assumption.
  go (store8_maps t' d pd n i) by assumption. rewrite ret_run.
  eexists. split; [done|]. split; [intros x; by rewrite loc_upd|].
  intros q. destruct (Z.eq_dec q (pd + i)) as [->|Hq].
  - rewrite cell_upd_eq, u8_u8, u8_small by apply cell_range. rewrite Hc. zb.
    replace (ps + (pd + i - pd)) with (ps + i) by lia.
    destruct (Z.leb_spec (pd + lo) (ps + i)), (Z.ltb_spec (ps + i) (pd + hi)); done || lia.
  - rewrite cell_upd_ne, Hc by done.
    destruct (Z.leb_spec (pd + lo) q), (Z.ltb_spec q (pd + hi)),
      (Z.leb_spec (pd + lo `min` i) q), (Z.ltb_spec q (pd + hi `max` (i + 1)));
      cbn [andb]; first [done|lia].
Qed.

Lemma move_up t d pd s ps n :
  maps t d pd n -> maps t s ps n -> 0 <= n < 4294967296 ->
  (pd <= ps \/ ps + n <= pd) ->
  exists r t', rep_movs movsb 1 (Raw d) (Raw s) 0 n t = (Ok (Raw d, r), t') /\
               moved t pd ps 0 n t'.
Proof.
  intros Hd Hs Hn Hdis. unfold rep_movs.
  while_by (fun '(p, i, c) t' => p = Raw d /\ i + c = n /\ 0 <= c /\ 0 <= i /\ moved t pd ps 0 i t')
    (fun '(p, i) t' => p = Raw d /\ moved t pd ps 0 n t') (fun '(_, _, c) => Z.to_nat c)
    as ([p r] & t' & E & -> & Hm); [| |lia|by exists r, t'].
  { fin. apply moved_none. }
  intros [[p i] c] t' (-> & Hs' & Hc & Hi & Hm). destruct (Z.eqb_spec c 0) as [->|Hne].
  - left. eexists (_, _), t'. split; [done|]. by replace n with i by lia.
  - right. destruct (moved_step t d pd s ps n 0 i i t') as (t'' & E & Hm'); try done; try lia.
    go E. eexists (_, i + 1, c - 1), t''. split; [done|]. split; [|lia].
    rewrite Z.min_l, Z.max_r in Hm' by lia. by fin.
Qed.

Lemma move_down t d pd s ps n :
  maps t d pd n -> maps t s ps n -> 0 <= n < 4294967296 ->
  (ps <= pd \/ pd + n <= ps) ->
  exists r t', rep_movs movsb (-1) (Raw d) (Raw s) (n - 1) n t = (Ok (Raw d, r), t') /\
               moved t pd ps 0 n t'.
Proof.
  intros Hd Hs Hn Hdis. unfold rep_movs.
  while_by (fun '(p, i, c) t' => p = Raw d /\ i + 1 = c /\ 0 <= c <= n /\ moved t pd ps c n t')
    (fun '(p, i) t' => p = Raw d /\ moved t pd ps 0 n t') (fun '(_, _, c) => Z.to_nat c)
    as ([p r] & t' & E & -> & Hm); [| |lia|by exists r, t'].
  { fin. apply moved_none. }
  intros [[p i] c] t' (-> & Hs' & Hc & Hm). destruct (Z.eqb_spec c 0) as [->|Hne].
  - left. by eexists (_, _), t'.
  - right. destruct (moved_step t d pd s ps n c n i t') as (t'' & E & Hm'); try done; try lia.
    go E. eexists (_, i + -1, c - 1), t''. split; [done|]. split; [|lia].
    rewrite Z.min_r, Z.max_l in Hm' by lia. replace (c - 1) with i by lia. by fin.
Qed.

Lemma moved_cells t pd ps (n : nat) t' :
  moved t pd ps 0 (Z.of_nat n) t' -> cells t' pd n = cells t ps n.
Proof.
  intros [_ Hc]. unfold cells. apply list_fmap_ext. intros i x Hx.
  apply lookup_seq in Hx as [-> Hx]. rewrite Hc. zb. f_equal. lia.
Qed.
End MoveFacts.

(** [strncmp] stays inside lists that are long enough or terminated. *)
Lemma strncmp_spec_total n l1 l2 :
  ((n <= length l1)%nat \/ 0 ∈ l1) -> ((n <= length l2)%nat \/ 0 ∈ l2) ->
  is_Some (strncmp_spec n l1 l2).
Proof.
  revert l1 l2. induction n as [|n IH]; intros l1 l2 A1 A2; cbn; [by eexists|].
  destruct l1 as [|c1 l1].
  { destruct A1 as [A1|A1]; [cbn in A1; lia|by apply elem_of_nil in A1]. }
  destruct l2 as [|c2 l2].
  { destruct A2 as [A2|A2]; [cbn in A2; lia|by apply elem_of_nil in A2]. }
  destruct (Z.eqb_spec c1 c2) as [->|]; [|by eexists].
  destruct (Z.eqb_spec c2 0) as [->|Hz]; [by eexists|]. cbn. apply IH.
  - destruct A1 as [A1|[A1|A1]%elem_of_cons]; [left; cbn in A1; lia|lia|by right].
  - destruct A2 as [A2|[A2|A2]%elem_of_cons]; [left; cbn in A2; lia|lia|by right].
Qed.

Lemma lookup_digits_alnum d :
  0 <= d < 36 -> let c := byte_at lookup_digits d in
  (48 <= c < 58 \/ 65 <= c < 91) /\ (c = 48 -> d = 0).
Proof.
  revert d. apply (Forall_seqZ _ 0 36). apply (bool_decide_unpack _). vm_compute. done.
Qed.

Lemma digits_rev_alnum fuel radix v :
  2 <= radix <= 36 -> 0 <= v ->
  Forall (fun c => 48 <= c < 58 \/ 65 <= c < 91) (digits_rev fuel radix v).
Proof.
  intros Hr. revert v. induction fuel as [|fuel IH]; intros v Hv; cbn; [constructor|].
  case_match; constructor.
  - apply lookup_digits_alnum. pose proof (Z.mod_pos_bound v radix). lia.
  - apply IH. apply Z.div_pos; lia.
Qed.

Lemma digits_rev_last fuel radix v :
  2 <= radix <= 36 -> 0 <= v < 2 ^ Z.of_nat fuel ->
  list.last (digits_rev fuel radix v) <> Some 48.
Proof.
  intros Hr. revert v. induction fuel as [|fuel IH]; intros v Hv; cbn [digits_rev]; [done|].
  destruct (Z.ltb_spec 0 v); [|done].
  pose proof (div_pow2_lt v radix fuel ltac:(lia) Hv) as Hd. specialize (IH _ Hd).
  destruct (digits_rev fuel radix (v / radix)) as [|c ds] eqn:E; [|done]. cbn. intros [= Hc].
  pose proof (Z.mod_pos_bound v radix ltac:(lia)) as Hm.
  apply lookup_digits_alnum in Hc; [|lia].
  pose proof (digits_rev_val fuel radix (v / radix) Hr Hd) as Hv'. rewrite E in Hv'. cbn in Hv'.
  pose proof (Z.div_mod v radix). lia.
Qed.

Lemma numeral_alnum radix v :
  2 <= radix <= 36 -> 0 <= v -> Forall (fun c => 48 <= c < 58 \/ 65 <= c < 91) (numeral radix v).
Proof.
  intros Hr Hv. unfold numeral. case_match; [repeat constructor; lia|].
  apply Forall_rev. by apply digits_rev_alnum.
Qed.

Lemma numeral_head radix v :
  2 <= radix <= 36 -> 0 <= v < 4294967296 -> v <> 0 -> list.head (numeral radix v) <> Some 48.
Proof.
  intros Hr Hv Hne. unfold numeral. rewrite (proj2 (Z.eqb_neq v 0)) by done.
  rewrite rev_alt. fold (reverse (digits_rev 32 radix v)). rewrite head_reverse. by apply digits_rev_last.
Qed.

(** * Properties *)

(** C30. [memcpy] copies: whatever the alignment of the destination, which picks
    the split into leading bytes, double words and trailing bytes, the bytes of
    the source arrive at the destination and no other byte changes, for ranges
    that do not overlap and for a destination below its source. *)
Theorem memcpy_copies {T : Type} `{MemoryOk T} (t : T) (d pd s ps : Z) (n : nat) :
  maps t d pd (Z.of_nat n) -> maps t s ps (Z.of_nat n) -> Z.of_nat n < 4294967296 ->
  (ps + Z.of_nat n <= pd \/ pd <= ps) ->
  exists t', memcpy (Raw d) (Raw s) (Z.of_nat n) t = (Ok (Raw d), t') /\
    cells t' pd n = cells t ps n /\
    (forall q, ~ pd <= q < pd + Z.of_nat n -> cell t' q = cell t q) /\
    (forall a, loc t' a = loc t a).
Proof.
  intros Hd Hs Hn Hdis. eexists. split; [apply memcpy_raw; try done; lia|].
  split; [|split].
  - pose proof (cells_upds_in t pd (cells t ps n)) as Hc. rewrite length_cells in Hc.
    rewrite Hc. apply list_eq. intros i. rewrite list_lookup_fmap.
    destruct (cells t ps n !! i) as [x|] eqn:E; cbn; [|done].
    f_equal. apply u8_small. eapply cells_range, list_elem_of_lookup_2, E.
  - intros q Hq. apply cell_upds_out. rewrite length_cells. lia.
  - intros a. apply loc_upds.
Qed.

Lemma memcpy_copies_witness :
  exists t', memcpy (Raw 0x1003) (Raw 0x2001) 9 (Flat {[0x2001 := 7]}) = (Ok (Raw 0x1003), t') /\
    cell t' 0x1003 = 7.
Proof.
  destruct (memcpy_copies (Flat {[0x2001 := 7]}) 0x1003 0x1003 0x2001 0x2001 9)
    as (t' & E & Hc & _).
  - intros i Hi. cbn. rewrite u32_small by lia. done.
  - intros i Hi. cbn. rewrite u32_small by lia. done.
  - lia.
  - lia.
  - exists t'. split; [exact E|]. apply (f_equal list.head) in Hc. cbn in Hc. injection Hc. done.
Defined.

(** [memmove] copies overlapping ranges both ways: the destination ends up
    with the bytes the source had, and no other byte changes.  When the source
    starts below the destination the direction flag is left set. *)
Theorem memmove_copies {T : Type} `{MemoryOk T} (t : T) (d pd s ps n : Z) :
  maps t d pd n -> maps t s ps n -> 0 <= n < 4294967296 ->
  (u32 d <= u32 s <-> pd <= ps) ->
  exists t', memmove (Raw d) (Raw s) n t = (Ok (Raw d, u32 s <? u32 d), t') /\
    cells t' pd (Z.to_nat n) = cells t ps (Z.to_nat n) /\
    (forall q, ~ pd <= q < pd + n -> cell t' q = cell t q) /\
    (forall a, loc t' a = loc t a).
Proof.
  intros Hd Hs Hn Hord. unfold memmove. rewrite (u32_small n) by lia. cbn [addr].
  rewrite !Z.add_0_r. 
  assert (forall t', moved t pd ps 0 n t' ->
    cells t' pd (Z.to_nat n) = cells t ps (Z.to_nat n) /\
    (forall q, ~ pd <= q < pd + n -> cell t' q = cell t q) /\
    (forall a, loc t' a = loc t a)) as Hfin.
  { intros t' Hm. split; [apply moved_cells; by rewrite Z2Nat.id by lia|].
    destruct Hm as [Hl Hc]. split; [|done]. intros q Hq. rewrite Hc.
    destruct (Z.leb_spec (pd + 0) q), (Z.ltb_spec q (pd + n)); done || lia. }
  destruct (Z.leb_spec (u32 d) (u32 s)) as [Hle|Hgt].
  - destruct (move_up t d pd s ps n) as (r & t' & E & Hm); [done..|lia|].
    exists t'. split; [|by apply Hfin]. go E. rewrite ret_run. by zb.
  - destruct (move_down t d pd s ps n) as (r & t' & E & Hm); [done..|lia|].
    exists t'. split; [|by apply Hfin]. go E. rewrite ret_run. by zb.
Qed.

Lemma memmove_copies_witness :
  exists t', memmove (Raw 0x1001) (Raw 0x1000) 8 (Flat {[0x1000 := 7]}) = (Ok (Raw 0x1001, true), t') /\
    cells t' 0x1001 8 = [7; 0; 0; 0; 0; 0; 0; 0].
Proof.
  destruct (memmove_copies (Flat {[0x1000 := 7]}) 0x1001 0x1001 0x1000 0x1000 8)
    as (t' & E & Hc & _).
  - intros i Hi. cbn. rewrite u32_small by lia. done.
  - intros i Hi. cbn. rewrite u32_small by lia. done.
  - lia.
  - done.
  - exists t'. split; [exact E|]. exact Hc.
Defined.

(** [memset] fills: whatever the alignment, each of the [n] bytes becomes
    the low byte of [c], and no other byte changes. *)
Theorem memset_fills {T : Type} `{MemoryOk T} (t : T) (d pd c : Z) (n : nat) :
  maps t d pd (Z.of_nat n) -> Z.of_nat n < 4294967296 ->
  exists t', memset (Raw d) c (Z.of_nat n) t = (Ok (Raw d), t') /\
    cells t' pd n = replicate n (u8 c) /\
    (forall q, ~ pd <= q < pd + Z.of_nat n -> cell t' q = cell t q) /\
    (forall a, loc t' a = loc t a).
Proof.
  intros Hd Hn. eexists. split; [by apply memset_raw|]. split; [|split].
  - pose proof (cells_upds_in t pd (replicate n (u8 c))) as Hc.
    rewrite length_replicate in Hc. rewrite Hc, fmap_replicate. by rewrite u8_u8.
  - intros q Hq. apply cell_upds_out. rewrite length_replicate. lia.
  - intros a. apply loc_upds.
Qed.

Lemma memset_fills_witness :
  exists t', memset (Raw 0x1002) 0x120 7 (Flat ∅) = (Ok (Raw 0x1002), t') /\
    cells t' 0x1002 7 = replicate 7 32.
Proof.
  destruct (memset_fills (Flat ∅) 0x1002 0x1002 0x120 7) as (t' & E & Hc & _).
  - intros i Hi. cbn. rewrite u32_small by lia. done.
  - lia.
  - exists t'. split; [exact E|exact Hc].
Defined.

(** [strncmp] decides equality of the strings cut at [n] bytes: its result,
    the difference of the first bytes that differ, is zero exactly when the two
    prefixes are the same. *)
Theorem strncmp_decides {T : Type} `{MemoryOk T} (t : T) (s1 s2 : ptr) (l1 l2 : list Z) (n : Z) :
  reads t s1 l1 -> reads t s2 l2 -> Forall is_byte l1 -> Forall is_byte l2 ->
  0 <= n < 4294967296 -> (n <= Z.of_nat (length l1) \/ 0 ∈ l1) -> (n <= Z.of_nat (length l2) \/ 0 ∈ l2) ->
  exists r, strncmp s1 s2 n t = (Ok r, t) /\
    (r = 0 <-> cprefix (Z.to_nat n) l1 = cprefix (Z.to_nat n) l2).
Proof.
  intros Hr1 Hr2 Hb1 Hb2 Hn Hl1 Hl2.
  destruct (strncmp_spec_total (Z.to_nat n) l1 l2) as [r Hr].
  - destruct Hl1; [left; lia|by right].
  - destruct Hl2; [left; lia|by right].
  - exists r. split; [by eapply strncmp_ok|by apply strncmp_spec_zero].
Qed.

Lemma strncmp_decides_witness :
  exists r, strncmp (cstr [115; 104]) (cstr [115; 104; 101]) 32 (Flat ∅) = (Ok r, Flat ∅) /\ r <> 0.
Proof.
  destruct (strncmp_decides (Flat ∅) (cstr [115; 104]) (cstr [115; 104; 101])
    ([115; 104] ++ [0]) ([115; 104; 101] ++ [0]) 32) as (r & E & Hr).
  - apply reads_buf0.
  - apply reads_buf0.
  - repeat constructor; done.
  - repeat constructor; done.
  - lia.
  - right. set_solver.
  - right. set_solver.
  - exists r. split; [exact E|]. rewrite Hr. done.
Defined.

(** C31. Numerals: [itoa] leaves at [buf] the null-terminated digits of the
    value, most significant first and without leading zero; reading them back in the same
    radix gives the value, and nothing past the terminator is touched. *)
Theorem itoa_roundtrip {T : Type} `{MemoryOk T} (t : T) (rest : list Z) (radix v : Z) :
  2 <= radix <= 36 -> 0 <= v < 4294967296 -> (33 <= length rest)%nat ->
  exists ds, itoa v (Buf rest 0) radix t = (Ok (Buf (ds ++ 0 :: drop (S (length ds)) rest) 0), t) /\
    numeral_val radix ds = v /\
    (1 <= length ds <= 32)%nat /\
    Forall (fun c => 48 <= c < 58 \/ 65 <= c < 91) ds /\
    (v <> 0 -> list.head ds <> Some 48).
Proof.
  intros Hr Hv Hl. exists (numeral radix v).
  pose proof (length_numeral radix v ltac:(lia) Hv) as Hd.
  split; [|split; [|split; [|split]]].
  - apply (itoa_buf t [] rest radix v); [done|done|lia].
  - by apply numeral_val_numeral.
  - done.
  - apply numeral_alnum; lia.
  - intros Hne. by apply numeral_head.
Qed.

Lemma itoa_roundtrip_witness :
  exists ds, itoa 0xB8000 (Buf (replicate 33 0) 0) 16 (Flat ∅) =
      (Ok (Buf (ds ++ 0 :: drop (S (length ds)) (replicate 33 0)) 0), Flat ∅) /\
    numeral_val 16 ds = 0xB8000.
Proof.
  destruct (itoa_roundtrip (Flat ∅) (replicate 33 0) 16 0xB8000) as (ds & E & Hv & _).
  - lia.
  - lia.
  - cbn. lia.
  - exists ds. split; [exact E|exact Hv].
Defined.
