(* ===== verification/Support.v ===== *)
(** The support library of the user programs, [syscalls/ece391support.c] (the one
    of the fish, [fish/ece391support.c], holds the same functions, the last two
    aside), for any state with a [Memory]; and what a program writes to memory. *)

From S2P Require Import Prelude Memory CLib.

Section Support.
Context {T : Type} `{Memory T}.

(** [for (len = 0; '\0' != *s; s++, len++);] *)
Definition ece391_strlen (s : Z) : M T Z :=
  while (fun '(s, len) =>
    c ← load8 s;
    if c =? 0 then mret (inr len) else mret (inl (s + 1, u32 (len + 1)))) (s, 0).

Definition ece391_strcpy (dst src : Z) : M T unit :=
  while (fun '(dst, src) =>
    c ← load8 src;
    store8 dst c;;
    if c =? 0 then mret (inr tt) else mret (inl (dst + 1, src + 1))) (dst, src).

(** The bytes are unsigned here. *)
Definition ece391_strcmp (s1 s2 : Z) : M T Z :=
  while (fun '(s1, s2) =>
    c1 ← load8 s1; c2 ← load8 s2;
    if c1 =? c2 then
      c ← load8 s1;
      if c =? 0 then mret (inr 0) else mret (inl (s1 + 1, s2 + 1))
    else
      c1 ← load8 s1; c2 ← load8 s2;
      mret (inr (c1 - c2))) (s1, s2).

Definition ece391_strncmp (s1 s2 n : Z) : M T Z :=
  if 0 =? u32 n then mret 0
  else
    while (fun '(s1, s2, n) =>
      c1 ← load8 s1; c2 ← load8 s2;
      if c1 =? c2 then
        c ← load8 s1;
        if c =? 0 then mret (inr 0)
        else
          let n := u32 (n - 1) in
          if n =? 0 then mret (inr 0) else mret (inl (s1 + 1, s2 + 1, n))
      else
        c1 ← load8 s1; c2 ← load8 s2;
        mret (inr (c1 - c2))) (s1, s2, u32 n).

Definition ece391_strrev (s : Z) : M T Z :=
  n ← ece391_strlen s;
  let e := i32 (n - 1) in
  if e <=? 0 then mret s
  else
    while (fun '(b, e) =>
      if b <? e then
        tmp ← load8 (s + e);
        x ← load8 (s + b);
        store8 (s + e) x;;
        store8 (s + b) tmp;;
        mret (inl (b + 1, e - 1))
      else mret (inr s)) (0, e).

Definition ece391_itoa (value buf radix : Z) : M T Z :=
  if u32 value =? 0 then
    store8 buf 48;;
    store8 (buf + 1) 0;;
    mret buf
  else
    newbuf ← while (fun '(newbuf, newval) =>
      if 0 <? newval then
        c ← rd (cstr lookup_digits) (newval mod u32 radix);
        store8 newbuf c;;
        mret (inl (newbuf + 1, newval / u32 radix))
      else mret (inr newbuf)) (buf, u32 value);
    store8 newbuf 0;;
    ece391_strrev buf.
End Support.

(** * What a program writes *)

Section Wrote.
Context {T : Type} `{MemoryOk T}.
Implicit Types (t : T) (l : list Z).

(** [t'] is [t] after stores to the [n] locations from [p] on. *)
Inductive wrote (p n : Z) (t : T) : T -> Prop :=
  | wrote_refl : wrote p n t t
  | wrote_upd t' q v : wrote p n t t' -> p <= q < p + n -> wrote p n t (upd t' q v).

Lemma wrote_trans p n t t1 t2 : wrote p n t t1 -> wrote p n t1 t2 -> wrote p n t t2.
Proof. intros H1. induction 1; [done|]. by constructor. Qed.

Lemma wrote_mono p n p' n' t t' : wrote p n t t' -> p' <= p -> p + n <= p' + n' -> wrote p' n' t t'.
Proof. intros Hw Hp Hn. induction Hw; constructor; [done|lia]. Qed.

Lemma wrote_loc p n t t' a : wrote p n t t' -> loc t' a = loc t a.
Proof. induction 1; [done|]. by rewrite loc_upd. Qed.

Lemma wrote_maps p n t t' a pa k : wrote p n t t' -> maps t a pa k -> maps t' a pa k.
Proof. intros Hw. apply maps_loc. intros x. by eapply wrote_loc. Qed.

Lemma wrote_cell p n t t' q : wrote p n t t' -> ~ p <= q < p + n -> cell t' q = cell t q.
Proof. induction 1; intros Hq; [done|]. rewrite cell_upd_ne by lia. auto. Qed.

Lemma wrote_cells p n t t' q k :
  wrote p n t t' -> q + Z.of_nat k <= p \/ p + n <= q -> cells t' q k = cells t q k.
Proof. intros Hw Hd. apply cells_ext. intros x Hx. eapply wrote_cell; [done|lia]. Qed.

Lemma wrote_upds p l t : wrote p (Z.of_nat (length l)) t (upds t p l).
Proof.
  revert p t. induction l as [|v l IH]; intros p t; [constructor|]. unfold upds; fold (upds (T := T)).
  apply (wrote_trans _ _ _ (upd t p (u8 v))); [constructor; [constructor|cbn; lia]|].
  eapply wrote_mono; [apply IH|lia|cbn; lia].
Qed.

(** The bytes from [p] are [l]. *)
Definition holds t (p : Z) (l : list Z) : Prop := cells t p (length l) = l.

Lemma holds_app t p l1 l2 : holds t p (l1 ++ l2) <-> holds t p l1 /\ holds t (p + Z.of_nat (length l1)) l2.
Proof.
  unfold holds. rewrite length_app, cells_add. split.
  - intros He. apply app_inj_1 in He; [done|]. apply length_cells.
  - by intros [-> ->].
Qed.

Lemma holds_nil t p : holds t p [].
Proof. done. Qed.

Lemma holds_byte t p l i : holds t p l -> 0 <= i < Z.of_nat (length l) -> cell t (p + i) = byte_at l i.
Proof.
  intros Hl Hi. unfold byte_at. rewrite <- Hl at 1. symmetry. apply list_lookup_total_correct.
  rewrite cells_lookup by lia. by rewrite Z2Nat.id by lia.
Qed.

Lemma holds_intro t p l : (forall i, 0 <= i < Z.of_nat (length l) -> cell t (p + i) = byte_at l i) -> holds t p l.
Proof.
  intros Hc. unfold holds. apply list_eq. intros i. destruct (decide (i < length l)%nat) as [Hi|Hi].
  - rewrite cells_lookup by done. rewrite Hc by lia. unfold byte_at. rewrite Nat2Z.id.
    symmetry. by apply list_lookup_lookup_total_lt.
  - rewrite !lookup_ge_None_2; [done|lia|rewrite length_cells; lia].
Qed.

Lemma holds_is_bytes t p l : holds t p l -> Forall is_byte l.
Proof. intros <-. apply cells_bytes. Qed.

Lemma holds_wrote p n t t' q l :
  wrote p n t t' -> holds t q l -> q + Z.of_nat (length l) <= p \/ p + n <= q -> holds t' q l.
Proof. intros Hw Hl Hd. unfold holds. by rewrite (wrote_cells p n t t'). Qed.

Lemma holds_upds t p l : Forall is_byte l -> holds (upds t p l) p l.
Proof. intros Hl. by apply cells_stored. Qed.

Lemma holds_reads t a p l : maps t a p (Z.of_nat (length l)) -> holds t p l -> reads t (Raw a) l.
Proof. intros Hm Hl. rewrite <- Hl. apply reads_maps. exact Hm. Qed.

Lemma holds_load t a p l i :
  maps t a p (Z.of_nat (length l)) -> holds t p l -> 0 <= i < Z.of_nat (length l) ->
  load8 (a + i) t = (Ok (byte_at l i), t).
Proof. intros Hm Hl Hi. by apply (holds_reads t a p l Hm Hl). Qed.
End Wrote.

#[export] Hint Constructors wrote : mach.
#[export] Hint Resolve wrote_trans holds_nil : mach.

(** * What the functions do *)

(** The results of the comparisons, as long as neither list is run off. *)
Fixpoint strcmp_spec (l1 l2 : list Z) : option Z :=
  match l1, l2 with
  | c1 :: l1, c2 :: l2 => if c1 =? c2 then if c1 =? 0 then Some 0 else strcmp_spec l1 l2 else Some (c1 - c2)
  | _, _ => None
  end.

Fixpoint ustrncmp_spec (n : nat) (l1 l2 : list Z) : option Z :=
  match n, l1, l2 with
  | O, _, _ => Some 0
  | S n, c1 :: l1, c2 :: l2 =>
      if c1 =? c2 then if c1 =? 0 then Some 0 else ustrncmp_spec n l1 l2 else Some (c1 - c2)
  | _, _, _ => None
  end.

(** Two strings compare equal when they are equal. *)
Lemma strcmp_spec_strings l1 l2 :
  Forall (fun c => c <> 0) l1 -> Forall (fun c => c <> 0) l2 ->
  exists r, strcmp_spec (l1 ++ [0]) (l2 ++ [0]) = Some r /\ (r = 0 <-> l1 = l2).
Proof.
  revert l2. induction l1 as [|c1 l1 IH]; intros l2 H1 H2.
  - destruct l2 as [|c2 l2]; [by exists 0|]. inversion H2; subst. cbn [app strcmp_spec].
    rewrite (proj2 (Z.eqb_neq 0 c2)) by done. eexists. split; [done|]. split; [lia|done].
  - inversion H1; subst. destruct l2 as [|c2 l2]; cbn [app strcmp_spec].
    + rewrite (proj2 (Z.eqb_neq c1 0)) by done. eexists. split; [done|]. split; [lia|done].
    + inversion H2; subst. destruct (Z.eqb_spec c1 c2) as [->|Hne].
      * rewrite (proj2 (Z.eqb_neq c2 0)) by done. destruct (IH l2) as (r & -> & Hr); [done..|]. exists r. split; [done|]. rewrite Hr. split; [by intros ->|by intros [= ->]].
      * eexists. split; [done|]. split; [lia|by intros [= -> _]].
Qed.

(** The [n] bytes at the head of a list, against a string of [n]. *)
Lemma ustrncmp_spec_prefix s : forall l,
  Forall (fun c => c <> 0) s -> (length s <= length l)%nat \/ 0 ∈ l ->
  exists r, ustrncmp_spec (length s) l (s ++ [0]) = Some r /\ (r = 0 <-> s `prefix_of` l).
Proof.
  induction s as [|c s IH]; intros l Hs Hl; [exists 0; split; [done|]; split; [intros _; apply prefix_nil|done]|].
  inversion Hs; subst. cbn [length ustrncmp_spec app]. destruct l as [|b l].
  { exfalso. cbn in Hl. destruct Hl as [?|Hl]; [lia|by apply elem_of_nil in Hl]. }
  destruct (Z.eqb_spec b c) as [->|Hne].
  - rewrite (proj2 (Z.eqb_neq c 0)) by done. destruct (IH l) as (r & -> & Hr); [done| |].
    { cbn in Hl. destruct Hl as [?|[?|?]%elem_of_cons]; [left; lia|congruence|by right]. }
    exists r. split; [done|]. rewrite Hr. split; [apply prefix_cons|apply prefix_cons_inv_2].
  - eexists. split; [done|]. split; [lia|]. intros ?%prefix_cons_inv_1. congruence.
Qed.

(** The bytes of a string and its end. *)
Lemma byte_at_app l l' i : 0 <= i < Z.of_nat (length l) -> byte_at (l ++ l') i = byte_at l i.
Proof. intros Hi. unfold byte_at. apply lookup_total_app_l. lia. Qed.

Lemma byte_at_end l l' x : byte_at (l ++ x :: l') (Z.of_nat (length l)) = x.
Proof. unfold byte_at. by rewrite lookup_total_app_r, Nat2Z.id, Nat.sub_diag by lia. Qed.

Lemma byte_at_nz l i : Forall (fun c => c <> 0) l -> 0 <= i < Z.of_nat (length l) -> byte_at l i <> 0.
Proof. intros Hl Hi. unfold byte_at. apply (Forall_lookup_total_1 _ _ _ Hl). lia. Qed.

Section Facts.
Context {T : Type} `{MemoryOk T}.
Implicit Types (t : T) (l : list Z).

Lemma ece391_strlen_ok t s p l :
  maps t s p (Z.of_nat (length l) + 1) -> holds t p (l ++ [0]) -> Forall (fun c => c <> 0) l ->
  Z.of_nat (length l) < 4294967296 ->
  ece391_strlen s t = (Ok (Z.of_nat (length l)), t).
Proof.
  intros Hm Hl Hnz Hlen. unfold ece391_strlen.
  assert (Z.of_nat (length (l ++ [0])) = Z.of_nat (length l) + 1) as Hlen1 by (rewrite length_app; cbn; lia).
  while_by (fun '(a, len) t' => t' = t /\ a = s + len /\ 0 <= len <= Z.of_nat (length l))
    (fun b t' => t' = t /\ b = Z.of_nat (length l))
    (fun '(_, len) => Z.to_nat (Z.of_nat (length l) - len)) as (b & t' & E & -> & ->); [fin| |lia|exact E].
  intros [a len] t' (-> & -> & Hr).
  go (holds_load t s p (l ++ [0]) len) by (first [done|lia|by rewrite Hlen1]).
  destruct (decide (len = Z.of_nat (length l))) as [->|Hne].
  - left. rewrite byte_at_end. cbn. eauto.
  - right. rewrite byte_at_app by lia. pose proof (byte_at_nz l len Hnz ltac:(lia)) as Hb. zb.
    rewrite u32_small by lia. exists (s + len + 1, len + 1), t. fin.
Qed.

(** A copy onto bytes that come before the source, or that are apart from it. *)
Lemma ece391_strcpy_ok t dst pd src ps l :
  let s := l ++ [0] in
  maps t src ps (Z.of_nat (length s)) -> maps t dst pd (Z.of_nat (length s)) -> holds t ps s ->
  Forall (fun c => c <> 0) l -> Z.of_nat (length s) < 4294967296 ->
  (pd <= ps \/ ps + Z.of_nat (length s) <= pd) ->
  ece391_strcpy dst src t = (Ok tt, upds t pd s).
Proof.
  intros s Hms Hmd Hl Hnz Hlen Hd. unfold ece391_strcpy.
  assert (Z.of_nat (length s) = Z.of_nat (length l) + 1) as Hlen1 by (unfold s; rewrite length_app; cbn; lia).
  while_by (fun '(d, a) t' => exists i, d = dst + i /\ a = src + i /\ 0 <= i <= Z.of_nat (length l) /\
      t' = upds t pd (take (Z.to_nat i) s))
    (fun b t' => t' = upds t pd s)
    (fun '(d, _) => Z.to_nat (Z.of_nat (length l) - (d - dst))) as (b & t' & E & ->); [| |lia|by destruct b].
  { exists 0. fin. }
  intros [d a] t' (i & -> & -> & Hi & ->). set (t' := upds t pd (take (Z.to_nat i) s)).
  assert (length (take (Z.to_nat i) s) = Z.to_nat i) as Ht by (rewrite length_take; lia).
  assert (load8 (src + i) t' = (Ok (byte_at s i), t')) as E.
  { rewrite (load8_maps t' src ps (Z.of_nat (length s)) i) by (first [by apply maps_upds|lia]). unfold t'.
    rewrite cell_upds_out by lia. by rewrite (holds_byte t ps s i) by (done || lia). }
  go E. go (store8_maps t' dst pd (Z.of_nat (length s)) i (byte_at s i)) by (first [by apply maps_upds|lia]).
  assert (upd t' (pd + i) (u8 (byte_at s i)) = upds t pd (take (Z.to_nat (i + 1)) s)) as ->.
  { rewrite (take_byte s) by lia. rewrite upds_app, Ht, Z2Nat.id by lia. done. }
  destruct (decide (i = Z.of_nat (length l))) as [->|Hne].
  - left. unfold s at 1. rewrite byte_at_end. cbn. eexists _, _. split; [done|]. by rewrite firstn_all2 by lia.
  - right. unfold s at 1. rewrite byte_at_app by lia. pose proof (byte_at_nz l i Hnz ltac:(lia)) as Hb. zb.
    eexists (_, _), _. split; [done|]. split; [|lia]. exists (i + 1). fin.
Qed.

Lemma ece391_strcmp_ok t s1 p1 l1 s2 p2 l2 r :
  maps t s1 p1 (Z.of_nat (length l1)) -> maps t s2 p2 (Z.of_nat (length l2)) ->
  holds t p1 l1 -> holds t p2 l2 -> Z.of_nat (length l1) < 4294967296 ->
  strcmp_spec l1 l2 = Some r -> ece391_strcmp s1 s2 t = (Ok r, t).
Proof.
  intros Hm1 Hm2 Hl1 Hl2 Hlen Hr. unfold ece391_strcmp.
  while_by (fun '(a, b) t' => t' = t /\ exists i, a = s1 + i /\ b = s2 + i /\ 0 <= i <= Z.of_nat (length l1) /\
      strcmp_spec (drop (Z.to_nat i) l1) (drop (Z.to_nat i) l2) = Some r)
    (fun x t' => t' = t /\ x = r)
    (fun '(a, _) => Z.to_nat (Z.of_nat (length l1) - (a - s1))) as (x & t' & E & -> & ->); [| |lia|exact E].
  { split; [done|]. exists 0. fin. }
  intros [a b] t' (-> & i & -> & -> & Hi & Hs).
  assert (0 <= i < Z.of_nat (length l1) /\ 0 <= i < Z.of_nat (length l2)) as [Hi1 Hi2].
  { destruct (drop (Z.to_nat i) l1) eqn:E1; [done|]. destruct (drop (Z.to_nat i) l2) eqn:E2; [by cbn in Hs|].
    apply (f_equal length) in E1, E2. rewrite length_drop in E1, E2. cbn in *. lia. }
  rewrite (drop_byte l1), (drop_byte l2) in Hs by done. cbn [strcmp_spec] in Hs.
  go (holds_load t s1 p1 l1 i) by done. go (holds_load t s2 p2 l2 i) by done.
  destruct (byte_at l1 i =? byte_at l2 i).
  - go (holds_load t s1 p1 l1 i) by done. destruct (byte_at l1 i =? 0).
    + left. exists 0, t. split; [done|]. split; [done|]. by injection Hs.
    + right. eexists (_, _), t. split; [done|]. split; [|lia]. split; [done|]. exists (i + 1). fin.
  - left. go (holds_load t s1 p1 l1 i) by done. go (holds_load t s2 p2 l2 i) by done.
    eexists _, t. split; [done|]. split; [done|]. by injection Hs.
Qed.

Lemma ece391_strncmp_ok t s1 p1 l1 s2 p2 l2 (n : nat) r :
  maps t s1 p1 (Z.of_nat (length l1)) -> maps t s2 p2 (Z.of_nat (length l2)) ->
  holds t p1 l1 -> holds t p2 l2 -> Z.of_nat n < 4294967296 ->
  ustrncmp_spec n l1 l2 = Some r -> ece391_strncmp s1 s2 (Z.of_nat n) t = (Ok r, t).
Proof.
  intros Hm1 Hm2 Hl1 Hl2 Hlen Hr. unfold ece391_strncmp. rewrite u32_small by lia.
  destruct (Z.eqb_spec 0 (Z.of_nat n)) as [Hz|Hz].
  { destruct n; [|lia]. cbn in Hr. by injection Hr as <-. }
  while_by (fun '(a, b, k) t' => t' = t /\ exists i, a = s1 + i /\ b = s2 + i /\ k = Z.of_nat n - i /\ 0 <= i < Z.of_nat n /\
      ustrncmp_spec (Z.to_nat k) (drop (Z.to_nat i) l1) (drop (Z.to_nat i) l2) = Some r)
    (fun x t' => t' = t /\ x = r)
    (fun '(_, _, k) => Z.to_nat k) as (x & t' & E & -> & ->); [| |lia|exact E].
  { split; [done|]. exists 0. rewrite Nat2Z.id. fin. }
  intros [[a b] k] t' (-> & i & -> & -> & -> & Hi & Hs).
  replace (Z.to_nat (Z.of_nat n - i)) with (S (Z.to_nat (Z.of_nat n - i - 1))) in Hs by lia. cbn [ustrncmp_spec] in Hs.
  assert (0 <= i < Z.of_nat (length l1) /\ 0 <= i < Z.of_nat (length l2)) as [Hi1 Hi2].
  { destruct (drop (Z.to_nat i) l1) eqn:E1; [done|]. destruct (drop (Z.to_nat i) l2) eqn:E2; [by cbn in Hs|].
    apply (f_equal length) in E1, E2. rewrite length_drop in E1, E2. cbn in *. lia. }
  rewrite (drop_byte l1), (drop_byte l2) in Hs by done.
  go (holds_load t s1 p1 l1 i) by done. go (holds_load t s2 p2 l2 i) by done.
  destruct (byte_at l1 i =? byte_at l2 i).
  - go (holds_load t s1 p1 l1 i) by done. destruct (byte_at l1 i =? 0).
    + left. exists 0, t. split; [done|]. split; [done|]. by injection Hs.
    + rewrite u32_small by lia. destruct (Z.eqb_spec (Z.of_nat n - i - 1) 0) as [He|He].
      * left. exists 0, t. split; [done|]. split; [done|]. rewrite He in Hs. by injection Hs.
      * right. eexists (_, _, _), t. split; [done|]. split; [|lia]. split; [done|]. exists (i + 1). fin.
  - left. go (holds_load t s1 p1 l1 i) by done. go (holds_load t s2 p2 l2 i) by done.
    eexists _, t. split; [done|]. split; [done|]. by injection Hs.
Qed.
End Facts.

(** * Reversing, and printing numbers *)

Section Numbers.
Context {T : Type} `{MemoryOk T}.
Implicit Types (t : T) (l : list Z).

Lemma holds_store t p l i v :
  holds t p l -> 0 <= i < Z.of_nat (length l) -> is_byte v -> holds (upd t (p + i) v) p (<[Z.to_nat i := v]> l).
Proof.
  intros Hl Hi Hv. apply holds_intro. rewrite length_insert. intros j Hj.
  unfold byte_at. rewrite list_lookup_total_insert. destruct (decide (j = i)) as [->|Hne].
  - rewrite decide_True by lia. by rewrite cell_upd_eq, u8_small.
  - rewrite decide_False by lia. rewrite cell_upd_ne by lia. by apply holds_byte.
Qed.

Lemma ece391_strrev_ok t s p l :
  maps t s p (Z.of_nat (length l) + 1) -> holds t p (l ++ [0]) -> Forall (fun c => 0 < c < 128) l ->
  Z.of_nat (length l) < 2147483648 ->
  exists t', ece391_strrev s t = (Ok s, t') /\ wrote p (Z.of_nat (length l)) t t' /\ holds t' p (reverse l ++ [0]).
Proof.
  intros Hm Hl Hc Hlen. unfold ece391_strrev.
  assert (Forall (fun c => c <> 0) l) as Hnz by (eapply Forall_impl; [|exact Hc]; cbn; lia).
  go (ece391_strlen_ok t s p l) by (first [done|lia]).
  set (n := Z.of_nat (length l)) in *. rewrite (i32_small (n - 1)) by lia.
  apply holds_app in Hl as [Hl Hz0].
  destruct (Z.leb_spec (n - 1) 0) as [Hs|Hs].
  { exists t. split; [done|]. split; [constructor|]. apply holds_app. rewrite length_reverse. split; [|done].
    destruct l as [|x [|y l]]; [done|done|cbn in n; lia]. }
  while_by (fun '(b, e) t' => 0 <= b /\ e = n - 1 - b /\ 2 * b <= n + 1 /\ wrote p n t t' /\
      exists l', holds t' p l' /\ turned l l' b)
    (fun r t' => r = s /\ wrote p n t t' /\ holds t' p (reverse l))
    (fun '(b, e) => Z.to_nat (e - b)) as (r & t' & E & -> & Hw & Hr); [| |lia|].
  { split; [lia|]. split; [lia|]. split; [lia|]. split; [constructor|]. exists l. split; [done|apply turned_start]. }
  - intros [b e] t' (Hb & -> & Hbn & Hw & l' & Hl' & Ht). pose proof (proj1 Ht) as Hll. set (e := n - 1 - b).
    destruct (Z.ltb_spec b e) as [Hlt|Hge].
    + right. pose proof (wrote_maps _ _ _ _ _ _ _ Hw Hm) as Hm'.
      assert (maps t' s p (Z.of_nat (length l'))) as Hml by (eapply maps_mono; [exact Hm'|lia]).
      go (holds_load t' s p l' e) by (done || lia). go (holds_load t' s p l' b) by (done || lia).
      pose proof (holds_is_bytes _ _ _ Hl') as Hby.
      go (store8_maps t' s p (n + 1) e) by (done || lia).
      go (fun v => store8_maps (upd t' (p + e) v) s p (n + 1) b) by (first [by apply maps_upd|lia]).
      rewrite !u8_small by by apply byte_at_is_byte. eexists (_, _), _. split; [done|].
      split; [|lia]. split; [lia|]. split; [lia|]. split; [lia|]. split; [constructor; [constructor; [done|lia]|lia]|].
      eexists. split; [|by apply turned_step].
      apply holds_store; [|rewrite length_insert; lia|by apply byte_at_is_byte].
      apply holds_store; [done|lia|by apply byte_at_is_byte].
    + left. exists s, t'. split; [done|]. split; [done|]. split; [done|]. by rewrite <- (turned_end l l' b) by (done || lia).
  - exists t'. split; [exact E|]. split; [done|]. apply holds_app. split; [done|]. rewrite length_reverse.
    eapply holds_wrote; [exact Hw|exact Hz0|]. cbn. lia.
Qed.

(** The digits, least significant first, as far as the loop has come. *)
Definition digits_upto (radix v nv : Z) (ds : list Z) : Prop :=
  0 <= nv < 2 ^ Z.of_nat (32 - length ds) /\ (length ds <= 32)%nat /\
  ds ++ digits_rev (32 - length ds) radix nv = digits_rev 32 radix v.

Lemma digits_upto_step radix v nv ds :
  2 <= radix <= 36 -> digits_upto radix v nv ds -> 0 < nv ->
  digits_upto radix v (nv / radix) (ds ++ [byte_at lookup_digits (nv mod radix)]) /\ (length ds < 32)%nat.
Proof.
  intros Hr (Hnv & Hd & He) Hp.
  assert (length ds < 32)%nat as Hlt.
  { destruct (decide (length ds = 32%nat)) as [Hx|]; [|lia]. rewrite Hx in Hnv. cbn in Hnv. lia. }
  split; [|done]. unfold digits_upto. rewrite length_app. cbn [length].
  replace (32 - length ds)%nat with (S (32 - (length ds + 1))) in * by lia.
  split; [apply div_pow2_lt; lia|]. split; [lia|]. rewrite <- He, <- app_assoc. f_equal. cbn [digits_rev app]. by zb.
Qed.

Lemma digits_upto_end radix v ds : digits_upto radix v 0 ds -> ds = digits_rev 32 radix v.
Proof. intros (_ & _ & <-). destruct (32 - length ds)%nat; cbn; by rewrite app_nil_r. Qed.

Lemma ece391_itoa_ok t buf p radix v :
  let ds := numeral radix v in
  maps t buf p (Z.of_nat (length ds) + 1) -> 2 <= radix <= 36 -> 0 <= v < 4294967296 ->
  exists t', ece391_itoa v buf radix t = (Ok buf, t') /\ wrote p (Z.of_nat (length ds) + 1) t t' /\ holds t' p (ds ++ [0]).
Proof.
  intros ds Hm Hr Hv. unfold ece391_itoa. rewrite (u32_small v), (u32_small radix) by lia. subst ds. unfold numeral in *.
  destruct (Z.eqb_spec v 0) as [Hz|Hne].
  { change (maps t buf p 2) in Hm. pose proof (store8_maps t buf p 2 0 48 Hm ltac:(lia)) as E0. rewrite !Z.add_0_r in E0.
    go E0. go (store8_maps (upd t p (u8 48)) buf p 2 1 0) by (first [by apply maps_upd|lia]).
    eexists. split; [done|]. split; [do 2 (constructor; [|cbn; lia]); constructor|].
    apply (holds_upds t p [48; 0]). by repeat constructor. }
  rewrite length_rev in *. set (ds := digits_rev 32 radix v) in *.
  assert (length ds <= 32)%nat as Hds by (apply length_digits_rev; [lia|done]).
  assert (Forall (fun c => 0 < c < 128) ds) as Hch by (apply digits_rev_chars; lia).
  while_by (fun '(a, nv) t' => exists d1, a = buf + Z.of_nat (length d1) /\ digits_upto radix v nv d1 /\ t' = upds t p d1)
    (fun a t' => a = buf + Z.of_nat (length ds) /\ t' = upds t p ds)
    (fun '(a, _) => Z.to_nat (32 - (a - buf))) as (a & t' & E & -> & ->); [| |lia|].
  { exists []. split; [cbn; lia|]. split; [|done]. split; [|split; [cbn; lia|done]]. exact Hv. }
  { intros [a nv] t' (d1 & -> & Hu & ->). destruct (Z.ltb_spec 0 nv) as [Hp|Hz].
    - right. destruct (digits_upto_step radix v nv d1 Hr Hu Hp) as [Hu' Hlt].
      set (c := byte_at lookup_digits (nv mod radix)) in *.
      pose proof (Z.mod_pos_bound nv radix ltac:(lia)) as Hmod.
      rewrite bind_run, (reads_buf0 _ (lookup_digits ++ [0]));
        [|change (Z.of_nat (length (lookup_digits ++ [0]))) with 37; lia].
      rewrite byte_at_app by (change (Z.of_nat (length lookup_digits)) with 36; lia). fold c.
      assert (Z.of_nat (length d1) < Z.of_nat (length ds)) as Hdl.
      { destruct Hu' as (_ & _ & He). apply (f_equal length) in He. fold ds in He. rewrite !length_app in He. cbn [length] in He. lia. }
      go (store8_maps (upds t p d1) buf p (Z.of_nat (length ds) + 1) (Z.of_nat (length d1))) by
        (first [by apply maps_upds|lia]).
      eexists (_, _), _. split; [done|]. split; [|rewrite <- Z.add_assoc in *; lia].
      exists (d1 ++ [c]). rewrite length_app. cbn [length]. split; [lia|]. split; [done|]. by rewrite upds_app.
    - left. assert (nv = 0) as -> by (destruct Hu; lia). rewrite (digits_upto_end _ _ _ Hu).
      eexists _, _. split; [done|]. done. }
  go E. go (store8_maps (upds t p ds) buf p (Z.of_nat (length ds) + 1) (Z.of_nat (length ds)) 0) by
    (first [by apply maps_upds|lia]).
  change (upd (upds t p ds) (p + Z.of_nat (length ds)) (u8 0)) with (upds (upds t p ds) (p + Z.of_nat (length ds)) [0]).
  rewrite <- upds_app.
  destruct (ece391_strrev_ok (upds t p (ds ++ [0])) buf p ds) as (t' & E' & Hw & Hh).
  - by apply maps_upds.
  - apply holds_upds. apply Forall_app. split; [|by repeat constructor]. eapply Forall_impl; [|exact Hch]. unfold is_byte. cbn. lia.
  - done.
  - lia.
  - exists t'. split; [exact E'|]. rewrite rev_alt. split; [|done].
    eapply wrote_trans; [|eapply wrote_mono; [exact Hw|lia|lia]].
    eapply wrote_mono; [apply wrote_upds|lia|rewrite length_app; cbn; lia].
Qed.
End Numbers.
