(* ===== verification/Machine.v ===== *)
(** The state of the machine: the globals of the kernel, and the parts of the
    processor and of the PC hardware the kernel reads and writes.  Also the
    primitive operations on it: port input and output, the interrupt flag,
    address translation, and the machine as a [Memory]. *)

From S2P Require Import Prelude Memory.

(** * Hardware *)

(** Port traffic, oldest first. *)
Inductive io : Type :=
  | OutB (port v : Z)
  | InB (port v : Z).

(** What the kernel is linked and run with: the addresses the linker gives the
    page tables, what a device answers to a port read, given all the port
    traffic so far, and what the compiler gives the C functions on the stack.  The
    model's stack pointer does not move with the frames of C functions.  Two functions
    read it: [terminal_save], for [terminal_load] to put it back, and [execute], which
    saves it below its local variables and its saved registers for [halt] to put into the
    TSS: [execute_frame] is how far that is below its frame pointer.  [call_frames] is the room that the frames of the
    functions of any one system call, and of the interrupts it is open to, take. *)
Class Platform := {
  addr_pageDir : Z;
  addr_pageTable : Z;
  addr_userTable : Z;
  addr_videoTable : Z;
  device : list io -> Z -> Z;
  execute_frame : Z;
  call_frames : Z
}.

(** The processor: interrupt flag, stack registers, and the selectors and
    tables loaded by [ltr], [lldt] and [lidt]. *)
Record cpu_t := Cpu {
  IF : bool;
  cpu_esp : Z;
  cpu_ebp : Z;
  tr : Z;
  ldtr : Z;
  idt_loaded : bool
}.
#[export] Instance eta_cpu : Eta cpu_t := fun r =>
  Cpu (IF r) (cpu_esp r) (cpu_ebp r) (tr r) (ldtr r) (idt_loaded r).

(** Interrupt requests that the environment raises. *)
Inductive irq : Type := IrqRtc | IrqKeyboard.

(** * Globals *)

(** [i8259.c] *)
Record pic_t := Pic { master_mask : Z; slave_mask : Z }.
#[export] Instance eta_pic : Eta pic_t := fun r => Pic (master_mask r) (slave_mask r).

(** [paging.c].  [tlb] is the copy of the tables the processor translates with:
    it is refreshed when [%cr3] is loaded, and only then. *)
Record tables := Tables {
  pageDir : list Z;
  pageTable : list Z;
  userTable : list Z;
  videoTable : list Z
}.
#[export] Instance eta_tables : Eta tables := fun r =>
  Tables (pageDir r) (pageTable r) (userTable r) (videoTable r).

Record paging_t := Paging { tabs : tables; tlb : tables; paging_on : bool }.
#[export] Instance eta_paging : Eta paging_t := fun r => Paging (tabs r) (tlb r) (paging_on r).

(** [rofs.c] *)
Record rofs_t := Rofs { boot_block : Z; inodes : Z; data_blocks : Z }.
#[export] Instance eta_rofs : Eta rofs_t := fun r => Rofs (boot_block r) (inodes r) (data_blocks r).

(** [lib.c] *)
Record screen_t := Screen { screen_x : Z; screen_y : Z }.
#[export] Instance eta_screen : Eta screen_t := fun r => Screen (screen_x r) (screen_y r).

(** [keyboard.c], and the pointer [key_buffer] of [terminal.c]: the index of the
    terminal whose buffer it points to. *)
Record keyboard_t := Keyboard {
  key_buffer : option nat;
  key_buffer_pos : Z;
  enter_pressed : Z;
  shift_pressed : Z;
  capslock_state : Z;
  ctrl_pressed : Z;
  alt_pressed : Z;
  keys_state : Z;
  right_bound : Z
}.
#[export] Instance eta_keyboard : Eta keyboard_t := fun r =>
  Keyboard (key_buffer r) (key_buffer_pos r) (enter_pressed r) (shift_pressed r)
    (capslock_state r) (ctrl_pressed r) (alt_pressed r) (keys_state r) (right_bound r).

(** [terminal.h] *)
Record terminal_t := Terminal {
  t_num : Z;
  t_key_buffer : list Z;
  t_key_buffer_pos : Z;
  pos_x : Z;
  pos_y : Z;
  t_esp : Z;
  t_ebp : Z;
  term_pid : Z;
  vid_mem : Z;
  num_processes : Z;
  t_init : Z
}.
#[export] Instance eta_terminal : Eta terminal_t := fun r =>
  Terminal (t_num r) (t_key_buffer r) (t_key_buffer_pos r) (pos_x r) (pos_y r) (t_esp r)
    (t_ebp r) (term_pid r) (vid_mem r) (num_processes r) (t_init r).

(** [syscalls.h]: the operations a file descriptor can hold, by name. *)
Inductive fop : Type :=
  | f_fail
  | f_terminal_open | f_terminal_read | f_terminal_write
  | f_rtc_open | f_rtc_close | f_rtc_read | f_rtc_write
  | f_dir_open | f_dir_close | f_dir_read
  | f_file_open | f_file_close | f_file_read
  | f_null.    (** a null function pointer *)

Record fileops_t := Fileops { op_open : fop; op_close : fop; op_read : fop; op_write : fop }.

Record file_t := File { inode : Z; flags : Z; pos : Z; fileops : fileops_t }.
#[export] Instance eta_file : Eta file_t := fun r =>
  File (inode r) (flags r) (pos r) (fileops r).

Record pcb_t := Pcb {
  files : list file_t;
  pid : Z;
  args : list Z;
  pcb_esp : Z;
  pcb_ebp : Z;
  parent_pid : Z;
  parent_esp : Z;
  parent_ebp : Z
}.
#[export] Instance eta_pcb : Eta pcb_t := fun r =>
  Pcb (files r) (pid r) (args r) (pcb_esp r) (pcb_ebp r) (parent_pid r) (parent_esp r) (parent_ebp r).

(** [x86_desc.h]: the fields of the TSS and of the descriptors that are used. *)
Record tss_t := Tss { esp0 : Z; ss0 : Z; ldt_segment_selector : Z }.
#[export] Instance eta_tss : Eta tss_t := fun r => Tss (esp0 r) (ss0 r) (ldt_segment_selector r).

Record seg_desc_t := SegDesc {
  seg_lim_15_00 : Z; base_15_00 : Z; base_23_16 : Z; sd_type : Z; sd_sys : Z; sd_dpl : Z;
  sd_present : Z; seg_lim_19_16 : Z; avail : Z; sd_reserved : Z; opsize : Z;
  granularity : Z; base_31_24 : Z
}.
#[export] Instance eta_seg_desc : Eta seg_desc_t := fun r =>
  SegDesc (seg_lim_15_00 r) (base_15_00 r) (base_23_16 r) (sd_type r) (sd_sys r) (sd_dpl r)
    (sd_present r) (seg_lim_19_16 r) (avail r) (sd_reserved r) (opsize r) (granularity r)
    (base_31_24 r).

Record idt_desc_t := IdtDesc {
  offset_15_00 : Z; seg_selector : Z; reserved4 : Z; reserved3 : Z; reserved2 : Z;
  reserved1 : Z; id_size : Z; reserved0 : Z; id_dpl : Z; id_present : Z; offset_31_16 : Z
}.
#[export] Instance eta_idt_desc : Eta idt_desc_t := fun r =>
  IdtDesc (offset_15_00 r) (seg_selector r) (reserved4 r) (reserved3 r) (reserved2 r)
    (reserved1 r) (id_size r) (reserved0 r) (id_dpl r) (id_present r) (offset_31_16 r).

(** * The machine *)

Record machine := Machine {
  phys : gmap Z Z;            (** physical memory, outside the structured globals *)
  io_log : list io;
  pending : list irq;         (** the interrupt requests to come *)
  cpu : cpu_t;
  pic : pic_t;
  pg : paging_t;
  fs : rofs_t;
  scr : screen_t;
  kbd : keyboard_t;
  terminal : list terminal_t;
  term_cur : Z;
  esp_temp : Z;
  ebp_temp : Z;
  int_occur : Z;
  processes_flags : Z;
  pcbs : gmap Z pcb_t;        (** the process control blocks, by address *)
  tss : tss_t;
  idt : list idt_desc_t;
  tss_desc_ptr : seg_desc_t;
  ldt_desc_ptr : seg_desc_t
}.
#[export] Instance eta_machine : Eta machine := fun r =>
  Machine (phys r) (io_log r) (pending r) (cpu r) (pic r) (pg r) (fs r) (scr r) (kbd r)
    (terminal r) (term_cur r) (esp_temp r) (ebp_temp r) (int_occur r) (processes_flags r)
    (pcbs r) (tss r) (idt r) (tss_desc_ptr r) (ldt_desc_ptr r).

(** [msimp] reads fields of updated records, without unfolding the updates (a
    record update mentions its record once per field). *)
Ltac is_field p :=
  lazymatch p with
  | phys => idtac | io_log => idtac | pending => idtac | cpu => idtac | pic => idtac
  | pg => idtac | fs => idtac | scr => idtac | kbd => idtac | terminal => idtac
  | term_cur => idtac | esp_temp => idtac | ebp_temp => idtac | int_occur => idtac
  | processes_flags => idtac | pcbs => idtac | tss => idtac | idt => idtac
  | tss_desc_ptr => idtac | ldt_desc_ptr => idtac
  | IF => idtac | cpu_esp => idtac | cpu_ebp => idtac | tr => idtac | ldtr => idtac
  | idt_loaded => idtac | master_mask => idtac | slave_mask => idtac
  | pageDir => idtac | pageTable => idtac | userTable => idtac | videoTable => idtac
  | tabs => idtac | tlb => idtac | paging_on => idtac
  | boot_block => idtac | inodes => idtac | data_blocks => idtac
  | screen_x => idtac | screen_y => idtac
  | key_buffer => idtac | key_buffer_pos => idtac | enter_pressed => idtac
  | shift_pressed => idtac | capslock_state => idtac | ctrl_pressed => idtac
  | alt_pressed => idtac | keys_state => idtac | right_bound => idtac
  | t_num => idtac | t_key_buffer => idtac | t_key_buffer_pos => idtac | pos_x => idtac
  | pos_y => idtac | t_esp => idtac | t_ebp => idtac | term_pid => idtac | vid_mem => idtac
  | num_processes => idtac | t_init => idtac
  | inode => idtac | flags => idtac | pos => idtac | fileops => idtac
  | files => idtac | pid => idtac | args => idtac | pcb_esp => idtac | pcb_ebp => idtac
  | parent_pid => idtac | parent_esp => idtac | parent_ebp => idtac
  | esp0 => idtac | ss0 => idtac | ldt_segment_selector => idtac
  end.

Ltac msimp_in_goal :=
  repeat match goal with
  | |- context [?p (@set_field _ _ ?q ?i ?f ?r)] =>
      is_field p;
      first [constr_eq p q; change (p (@set_field _ _ q i f r)) with (f (p r))
            |change (p (@set_field _ _ q i f r)) with (p r)]; cbv beta
  end.

Ltac msimp_in H :=
  repeat match type of H with
  | context [?p (@set_field _ _ ?q ?i ?f ?r)] =>
      is_field p;
      first [constr_eq p q; change (p (@set_field _ _ q i f r)) with (f (p r)) in H
            |change (p (@set_field _ _ q i f r)) with (p r) in H]; cbv beta in H
  end.

Tactic Notation "msimp" := msimp_in_goal.
Tactic Notation "msimp" "in" hyp(H) := msimp_in H.

(** A kernel function. *)
Abbreviation K := (M machine).

(** * Address translation *)

Section Translation.
Context `{Platform}.

(** The table a page directory entry points to. *)
Definition table_at (t : tables) (base : Z) : option (list Z) :=
  if base =? addr_pageTable then Some (pageTable t)
  else if base =? addr_userTable then Some (userTable t)
  else if base =? addr_videoTable then Some (videoTable t)
  else None.

(** One walk of the two-level tables for the 32-bit address [a]: the physical
    address, and whether user mode may use it (bit 2 at both levels). *)
Definition walk (t : tables) (a : Z) : option (Z * bool) :=
  pde ← pageDir t !! Z.to_nat (Z.shiftr a 22);
  if Z.testbit pde 0 then
    if Z.testbit pde 7 then
      Some (Z.land pde 0xFFC00000 + Z.land a 0x3FFFFF, Z.testbit pde 2)
    else
      tab ← table_at t (Z.land pde 0xFFFFF000);
      pte ← tab !! Z.to_nat (Z.land (Z.shiftr a 12) 0x3FF);
      if Z.testbit pte 0 then
        Some (Z.land pte 0xFFFFF000 + Z.land a 0xFFF, Z.testbit pde 2 && Z.testbit pte 2)
      else None
  else None.

Definition translate (p : paging_t) (a : Z) : option Z :=
  if paging_on p then fst <$> walk (tlb p) a else Some a.

(** What a user-mode access to [a] reaches. *)
Definition translate_user (p : paging_t) (a : Z) : option Z :=
  if paging_on p then
    match walk (tlb p) a with Some (pa, true) => Some pa | _ => None end
  else Some a.

#[export] Instance machine_memory : Memory machine := {
  loc m a := translate (pg m) a;
  cell m p := u8 (default 0 (phys m !! p));
  upd m p v := m <| phys ::= <[p := v]> |>
}.

#[export] Instance machine_memory_ok : MemoryOk machine.
Proof.
  split; intros; cbn.
  - apply u8_range.
  - done.
  - by rewrite lookup_insert_eq.
  - by rewrite lookup_insert_ne.
Qed.

(** Storing bytes only changes physical memory. *)
Lemma upds_phys (m : machine) pa l : upds m pa l = m <| phys := phys (upds m pa l) |>.
Proof.
  revert m pa. induction l as [|v l IH]; intros m pa; [by destruct m|].
  unfold upds; fold (upds (T := machine)). rewrite IH. by destruct m.
Qed.

Lemma cells_phys (m m' : machine) pa n : phys m' = phys m -> cells m' pa n = cells m pa n.
Proof. intros Hp. apply cells_ext. intros q _. cbn. by rewrite Hp. Qed.

(** [m'] differs from [m] in physical memory only. *)
Definition only_phys (m m' : machine) : Prop := m' = m <| phys := phys m' |>.

Lemma only_phys_refl m : only_phys m m.
Proof. unfold only_phys. by destruct m. Qed.

Lemma only_phys_upd m m' p v : only_phys m m' -> only_phys m (upd m' p v).
Proof. unfold only_phys. intros ->. by destruct m. Qed.

Lemma only_phys_upds m m' pa l : only_phys m m' -> only_phys m (upds m' pa l).
Proof. intros Hm. rewrite upds_phys. unfold only_phys in *. rewrite Hm. by destruct m. Qed.

Lemma only_phys_trans m m' m'' : only_phys m m' -> only_phys m' m'' -> only_phys m m''.
Proof. unfold only_phys. intros -> ->. by destruct m. Qed.

Lemma only_phys_loc m m' a : only_phys m m' -> loc m' a = loc m a.
Proof. intros ->. done. Qed.
End Translation.

(** * Ports and the interrupt flag *)

Section Ports.
Context `{Platform}.

Definition outb (data port : Z) : K unit :=
  modify (fun m => m <| io_log ::= fun l => l ++ [OutB port (u8 data)] |>).

Definition inb (port : Z) : K Z := fun m =>
  let v := u8 (device (io_log m) port) in
  (Ok v, m <| io_log ::= fun l => l ++ [InB port v] |>).

Definition cli : K unit := modify (fun m => m <| cpu ::= fun c => c <| IF := false |> |>).
Definition sti : K unit := modify (fun m => m <| cpu ::= fun c => c <| IF := true |> |>).
End Ports.

(** * Busy waiting

    [while (!cond) ;] — the body is empty, so only an interrupt can change the
    condition.  [service] accepts the next pending interrupt request and runs its
    handler; the loop stops for good when no request is left. *)

Fixpoint spin_n (n : nat) (cond : machine -> bool) (service : K unit) : K unit :=
  b ← gets cond;
  if b : bool then mret tt else
  match n with
  | O => raise Blocked
  | S n => service;; spin_n n cond service
  end.

Definition spin (cond : machine -> bool) (service : K unit) : K unit :=
  n ← gets (fun m => length (pending m)); spin_n n cond service.

Lemma spin_ready cond service m : cond m = true -> spin cond service m = (Ok tt, m).
Proof. intros H. unfold spin. mrun. destruct (length (pending m)); cbn; mrun; by rewrite H. Qed.

Lemma spin_step cond service m m' :
  cond m = false -> service m = (Ok tt, m') ->
  length (pending m) = S (length (pending m')) ->
  spin cond service m = spin cond service m'.
Proof.
  intros Hc Hs Hp. unfold spin. mrun. rewrite Hp. cbn [spin_n]. mrun. rewrite Hc. go Hs. done.
Qed.

Lemma spin_none cond service m :
  cond m = false -> pending m = [] -> spin cond service m = (Stop Blocked, m).
Proof. intros Hc Hp. unfold spin. mrun. rewrite Hp. cbn. mrun. by rewrite Hc. Qed.

(** * The machine at the entry of the kernel

    Every global is zero, but for the initialised ones; memory is blank. *)

Definition zero_terminal : terminal_t :=
  Terminal 0 (replicate 128 0) 0 0 0 0 0 0 0 0 0.
Definition null_ops : fileops_t := Fileops f_null f_null f_null f_null.
Definition zero_file : file_t := File 0 0 0 null_ops.
Definition zero_pcb : pcb_t := Pcb (replicate 8 zero_file) 0 (replicate 128 0) 0 0 0 0 0.
Definition zero_seg_desc : seg_desc_t := SegDesc 0 0 0 0 0 0 0 0 0 0 0 0 0.
Definition zero_idt_desc : idt_desc_t := IdtDesc 0 0 0 0 0 0 0 0 0 0 0.
Definition zero_tables : tables :=
  Tables (replicate 1024 0) (replicate 1024 0) (replicate 1024 0) (replicate 1024 0).

Definition boot_machine : machine := {|
  phys := ∅;
  io_log := [];
  pending := [];
  cpu := Cpu false 0x800000 0 0 0 false;
  pic := Pic 0xFF 0xFF;
  pg := Paging zero_tables zero_tables false;
  fs := Rofs 0 0 0;
  scr := Screen 0 0;
  kbd := Keyboard None 0 0 0 0 0 0 0 7;
  terminal := replicate 3 zero_terminal;
  term_cur := 0;
  esp_temp := 0;
  ebp_temp := 0;
  int_occur := 0;
  processes_flags := 0;
  pcbs := ∅;
  tss := Tss 0 0 0;
  idt := replicate 256 zero_idt_desc;
  tss_desc_ptr := zero_seg_desc;
  ldt_desc_ptr := zero_seg_desc
|}.

(** A platform for concrete runs: page-aligned tables inside the kernel's
    4 MB, and devices that answer 0. *)
Definition plain_platform : Platform := {|
  addr_pageDir := 0x410000;
  addr_pageTable := 0x411000;
  addr_userTable := 0x412000;
  addr_videoTable := 0x413000;
  device _ _ := 0;
  execute_frame := 0x160;
  call_frames := 0x400
|}.
