(* ===== verification/I8259.v ===== *)
(** [student-distrib/i8259.c]: the two cascaded 8259 interrupt controllers. *)

From S2P Require Import Prelude Memory Machine.

Definition MASTER_8259_PORT : Z := 0x20.
Definition SLAVE_8259_PORT : Z := 0xA0.
Definition ICW1 : Z := 0x11.
Definition ICW2_MASTER : Z := 0x20.
Definition ICW2_SLAVE : Z := 0x28.
Definition ICW3_MASTER : Z := 0x04.
Definition ICW3_SLAVE : Z := 0x02.
Definition ICW4 : Z := 0x01.
Definition EOI : Z := 0x60.
Definition KEYBOARD_IRQ_LINE : Z := 1.
Definition SLAVE_IRQ_LINE : Z := 2.
Definition RTC_IRQ_LINE : Z := 8.

(** [for (i = 0; i < n; i++) mask = (mask << 1) + c;] on a [uint8_t]. *)
Definition shift_mask (n c mask : Z) : Z :=
  Nat.iter (Z.to_nat n) (fun m => u8 (Z.shiftl m 1 + c)) mask.

Definition enable_irq (irq_num : Z) : K unit :=
  if (0 <=? irq_num) && (irq_num <=? 15) then
    if (0 <=? irq_num) && (irq_num <=? 7) then
      let mask := shift_mask irq_num 1 0xFE in
      modify (fun m => m <| pic ::= fun p =>
        p <| master_mask := Z.land (master_mask p) mask |> |>);;
      v ← gets (fun m => master_mask (pic m));
      outb v (MASTER_8259_PORT + 1)
    else if (8 <=? irq_num) && (irq_num <=? 15) then
      let mask := shift_mask (irq_num - 8) 1 0xFE in
      modify (fun m => m <| pic ::= fun p =>
        p <| slave_mask := Z.land (slave_mask p) mask |> |>);;
      v ← gets (fun m => slave_mask (pic m));
      outb v (SLAVE_8259_PORT + 1)
    else mret tt
  else mret tt.

Definition disable_irq (irq_num : Z) : K unit :=
  if (0 <=? irq_num) && (irq_num <=? 15) then
    if (0 <=? irq_num) && (irq_num <=? 7) then
      let mask := shift_mask irq_num 0 0x01 in
      modify (fun m => m <| pic ::= fun p =>
        p <| master_mask := Z.lor (master_mask p) mask |> |>);;
      v ← gets (fun m => master_mask (pic m));
      outb v (MASTER_8259_PORT + 1)
    else if (8 <=? irq_num) && (irq_num <=? 15) then
      let mask := shift_mask (irq_num - 8) 0 0x01 in
      modify (fun m => m <| pic ::= fun p =>
        p <| slave_mask := Z.lor (slave_mask p) mask |> |>);;
      v ← gets (fun m => slave_mask (pic m));
      outb v (SLAVE_8259_PORT + 1)
    else mret tt
  else mret tt.

Definition send_eoi (irq_num : Z) : K unit :=
  (if (0 <=? irq_num) && (irq_num <=? 7)
   then outb (Z.lor EOI irq_num) MASTER_8259_PORT else mret tt);;
  (if (8 <=? irq_num) && (irq_num <=? 15) then
     outb (Z.lor EOI (irq_num - 8)) SLAVE_8259_PORT;;
     outb (EOI + 2) MASTER_8259_PORT
   else mret tt).

Definition i8259_init : K unit :=
  outb ICW1 MASTER_8259_PORT;;
  outb ICW1 SLAVE_8259_PORT;;
  outb ICW2_MASTER (MASTER_8259_PORT + 1);;
  outb ICW2_SLAVE (SLAVE_8259_PORT + 1);;
  outb ICW3_MASTER (MASTER_8259_PORT + 1);;
  outb ICW3_SLAVE (SLAVE_8259_PORT + 1);;
  outb ICW4 (MASTER_8259_PORT + 1);;
  outb ICW4 (SLAVE_8259_PORT + 1);;
  enable_irq SLAVE_IRQ_LINE.

(** * Which lines are masked *)

(** Line [irq] (0 to 15) is masked when its bit of the mask of its controller
    is set. *)
Definition masked (p : pic_t) (irq : Z) : bool :=
  if irq <? 8 then Z.testbit (master_mask p) irq else Z.testbit (slave_mask p) (irq - 8).

(** The masks are bytes. *)
Definition pic_ok (p : pic_t) : Prop :=
  0 <= master_mask p < 256 /\ 0 <= slave_mask p < 256.

(** The data port of the controller of a line, and the mask it holds. *)
Definition mask_port (irq : Z) : Z :=
  if irq <? 8 then MASTER_8259_PORT + 1 else SLAVE_8259_PORT + 1.
Definition mask_of (p : pic_t) (irq : Z) : Z :=
  if irq <? 8 then master_mask p else slave_mask p.

Lemma shift_mask_enable n j :
  0 <= n < 8 -> 0 <= j < 8 ->
  Z.testbit (shift_mask n 1 0xFE) j = negb (j =? n) /\ 0 <= shift_mask n 1 0xFE < 256.
Proof.
  intros Hn Hj. revert n Hn. apply (Forall_seqZ _ 0 8). revert j Hj.
  apply (Forall_seqZ (fun j => Forall _ _) 0 8).
  apply (bool_decide_unpack _). vm_compute. done.
Qed.

Lemma shift_mask_disable n j :
  0 <= n < 8 -> 0 <= j < 8 ->
  Z.testbit (shift_mask n 0 0x01) j = (j =? n) /\ 0 <= shift_mask n 0 0x01 < 256.
Proof.
  intros Hn Hj. revert n Hn. apply (Forall_seqZ _ 0 8). revert j Hj.
  apply (Forall_seqZ (fun j => Forall _ _) 0 8).
  apply (bool_decide_unpack _). vm_compute. done.
Qed.

Lemma land_byte a b : 0 <= a < 256 -> 0 <= b < 256 -> 0 <= Z.land a b < 256.
Proof.
  intros Ha Hb. split; [apply Z.land_nonneg; lia|].
  destruct (Z.eq_dec (Z.land a b) 0) as [->|]; [lia|].
  apply (Z.log2_lt_pow2 _ 8); [pose proof (proj2 (Z.land_nonneg a b)); lia|].
  eapply Z.le_lt_trans; [apply Z.log2_land; lia|].
  apply Z.min_lt_iff. left.
  destruct (Z.eq_dec a 0) as [->|]; [cbn; lia|]. apply Z.log2_lt_pow2; lia.
Qed.

Lemma lor_byte a b : 0 <= a < 256 -> 0 <= b < 256 -> 0 <= Z.lor a b < 256.
Proof.
  intros Ha Hb. split; [apply Z.lor_nonneg; lia|].
  destruct (Z.eq_dec (Z.lor a b) 0) as [->|]; [lia|].
  apply (Z.log2_lt_pow2 _ 8); [pose proof (proj2 (Z.lor_nonneg a b)); lia|].
  rewrite Z.log2_lor by lia. apply Z.max_lub_lt.
  - destruct (Z.eq_dec a 0) as [->|]; [cbn; lia|]. apply Z.log2_lt_pow2; lia.
  - destruct (Z.eq_dec b 0) as [->|]; [cbn; lia|]. apply Z.log2_lt_pow2; lia.
Qed.

Section Irq.
(** [enable_irq] and [disable_irq] set the mask bit of the line, and only it,
    and program the controller with the new mask. *)
Definition irq_effect (irq : Z) (b : bool) (m m' : machine) : Prop :=
  pic_ok (pic m') /\
  (forall j, 0 <= j < 16 -> masked (pic m') j = if j =? irq then b else masked (pic m) j) /\
  m' = m <| pic := pic m' |>
         <| io_log := io_log m ++ [OutB (mask_port irq) (mask_of (pic m') irq)] |>.

Lemma enable_irq_effect m irq :
  pic_ok (pic m) -> 0 <= irq < 16 ->
  exists m', enable_irq irq m = (Ok tt, m') /\ irq_effect irq false m m'.
Proof.
  intros [Hm Hs] Hirq. unfold enable_irq. zb. destruct (Z.leb_spec irq 7).
  - destruct (shift_mask_enable irq 0) as [_ Hr]; [lia..|].
    eexists. split; [done|]. cbn. split; [|split].
    + split; [by apply land_byte|done].
    + intros j Hj. unfold masked. cbn. destruct (Z.ltb_spec j 8).
      * rewrite Z.land_spec, (proj1 (shift_mask_enable irq j ltac:(lia) ltac:(lia))).
        destruct (Z.eqb_spec j irq); cbn; [by rewrite andb_false_r|by rewrite andb_true_r].
      * by zb.
    + unfold mask_port, mask_of. zb. cbn. rewrite u8_small by (by apply land_byte). done.
  - zb. destruct (shift_mask_enable (irq - 8) 0) as [_ Hr]; [lia..|].
    eexists. split; [done|]. cbn. split; [|split].
    + split; [done|by apply land_byte].
    + intros j Hj. unfold masked. cbn. destruct (Z.ltb_spec j 8).
      * by zb.
      * rewrite Z.land_spec, (proj1 (shift_mask_enable (irq - 8) (j - 8) ltac:(lia) ltac:(lia))).
        destruct (Z.eqb_spec j irq); zb; cbn; [by rewrite andb_false_r|by rewrite andb_true_r].
    + unfold mask_port, mask_of. zb. cbn. rewrite u8_small by (by apply land_byte). done.
Qed.

Lemma disable_irq_effect m irq :
  pic_ok (pic m) -> 0 <= irq < 16 ->
  exists m', disable_irq irq m = (Ok tt, m') /\ irq_effect irq true m m'.
Proof.
  intros [Hm Hs] Hirq. unfold disable_irq. zb. destruct (Z.leb_spec irq 7).
  - destruct (shift_mask_disable irq 0) as [_ Hr]; [lia..|].
    eexists. split; [done|]. cbn. split; [|split].
    + split; [by apply lor_byte|done].
    + intros j Hj. unfold masked. cbn. destruct (Z.ltb_spec j 8).
      * rewrite Z.lor_spec, (proj1 (shift_mask_disable irq j ltac:(lia) ltac:(lia))).
        destruct (Z.eqb_spec j irq); cbn; [by rewrite orb_true_r|by rewrite orb_false_r].
      * by zb.
    + unfold mask_port, mask_of. zb. cbn. rewrite u8_small by (by apply lor_byte). done.
  - zb. destruct (shift_mask_disable (irq - 8) 0) as [_ Hr]; [lia..|].
    eexists. split; [done|]. cbn. split; [|split].
    + split; [done|by apply lor_byte].
    + intros j Hj. unfold masked. cbn. destruct (Z.ltb_spec j 8).
      * by zb.
      * rewrite Z.lor_spec, (proj1 (shift_mask_disable (irq - 8) (j - 8) ltac:(lia) ltac:(lia))).
        destruct (Z.eqb_spec j irq); zb; cbn; [by rewrite orb_true_r|by rewrite orb_false_r].
    + unfold mask_port, mask_of. zb. cbn. rewrite u8_small by (by apply lor_byte). done.
Qed.
End Irq.

(** * Properties *)

(** The mask bits: for a line of either controller, [enable_irq] clears and
    [disable_irq] sets the mask bit of that line and of no other line of the two
    controllers, keeps the masks bytes, writes the new mask to the data port of
    the controller of the line, and changes nothing else; for any other number
    both do nothing. *)
Theorem irq_masks (m : machine) (irq : Z) :
  pic_ok (pic m) ->
  (0 <= irq < 16 ->
     (exists m', enable_irq irq m = (Ok tt, m') /\ irq_effect irq false m m') /\
     (exists m', disable_irq irq m = (Ok tt, m') /\ irq_effect irq true m m')) /\
  (~ 0 <= irq < 16 -> enable_irq irq m = (Ok tt, m) /\ disable_irq irq m = (Ok tt, m)).
Proof.
  intros Hok. split.
  - intros Hirq. split; [by apply enable_irq_effect|by apply disable_irq_effect].
  - intros Hirq. unfold enable_irq, disable_irq.
    destruct (Z.leb_spec 0 irq), (Z.leb_spec irq 15); try lia; done.
Qed.

Lemma irq_masks_witness :
  exists m', enable_irq 8 boot_machine = (Ok tt, m') /\
    masked (pic m') 8 = false /\ masked (pic m') 9 = true.
Proof.
  destruct (proj1 (irq_masks boot_machine 8 ltac:(unfold pic_ok; cbn; lia)) ltac:(lia)) as [He _].
  destruct He as (m' & E & _ & Hm & _). exists m'. split; [exact E|].
  rewrite !Hm by lia. split; reflexivity.
Defined.

(** The end of an interrupt is signalled with the specific EOI command of
    its line: to the master for lines 0 to 7; for lines 8 to 15 to the slave, for
    the line within it, and then to the master for line 2, where the slave is
    attached; for any other number nothing is sent. *)
Theorem send_eoi_command (m : machine) (irq : Z) :
  send_eoi irq m =
  (Ok tt, m <| io_log ::= fun l => l ++
     (if (0 <=? irq) && (irq <? 8) then [OutB 0x20 (0x60 + irq)]
      else if (8 <=? irq) && (irq <? 16)
      then [OutB 0xA0 (0x60 + (irq - 8)); OutB 0x20 (0x60 + SLAVE_IRQ_LINE)]
      else []) |>).
Proof.
  assert (forall k, 0 <= k < 8 -> u8 (Z.lor EOI k) = 0x60 + k) as Hk.
  { apply (Forall_seqZ (fun k => u8 (Z.lor EOI k) = 0x60 + k) 0 8).
    apply (bool_decide_unpack _). vm_compute. done. }
  unfold send_eoi.
  destruct (Z.leb_spec 0 irq); cbn [andb]; zb.
  - destruct (Z.leb_spec irq 7); zb.
    + rewrite bind_run. cbn -[u8 Z.lor EOI]. rewrite Hk by lia. done.
    + destruct (Z.leb_spec 8 irq); [|lia]. cbn [andb].
      destruct (Z.leb_spec irq 15); zb.
      * unfold outb. mrun. cbn -[u8 Z.lor EOI]. rewrite Hk, <- app_assoc by lia. done.
      * cbn. rewrite app_nil_r. by destruct m.
  - cbn. rewrite app_nil_r. by destruct m.
Qed.

Lemma i8259_init_ok (m : machine) :
  pic_ok (pic m) ->
  exists m', i8259_init m = (Ok tt, m') /\
    pic_ok (pic m') /\
    (forall j, 0 <= j < 16 -> masked (pic m') j = negb (j =? 2) && masked (pic m) j) /\
    m' = m <| pic := pic m' |>
           <| io_log := io_log m ++
                [OutB 0x20 0x11; OutB 0xA0 0x11; OutB 0x21 0x20; OutB 0xA1 0x28;
                 OutB 0x21 0x04; OutB 0xA1 0x02; OutB 0x21 0x01; OutB 0xA1 0x01;
                 OutB 0x21 (master_mask (pic m'))] |>.
Proof.
  intros Hok.
  set (m1 := m <| io_log ::= fun l => l ++
                [OutB 0x20 0x11; OutB 0xA0 0x11; OutB 0x21 0x20; OutB 0xA1 0x28;
                 OutB 0x21 0x04; OutB 0xA1 0x02; OutB 0x21 0x01; OutB 0xA1 0x01] |>).
  destruct (enable_irq_effect m1 2) as (m' & E & Hok' & Hmask & Hm'); [done|lia|].
  exists m'. split; [|split; [|split]]; [|done| |].
  - unfold i8259_init, outb. mrun. rewrite <- E. unfold SLAVE_IRQ_LINE. f_equal.
    subst m1. cbn. rewrite <- !app_assoc. done.
  - intros j Hj. rewrite Hmask by done. destruct (Z.eqb_spec j 2); done.
  - rewrite Hm' at 1. subst m1. cbn. rewrite <- app_assoc. by destruct m.
Qed.

(** Initialisation sends each controller its four command words in order,
    the vector bases being 0x20 and 0x28, and opens the cascade line only. *)
Theorem i8259_init_programs (m : machine) :
  pic_ok (pic m) ->
  exists m', i8259_init m = (Ok tt, m') /\
    pic_ok (pic m') /\
    (forall j, 0 <= j < 16 -> masked (pic m') j = negb (j =? 2) && masked (pic m) j) /\
    m' = m <| pic := pic m' |>
           <| io_log := io_log m ++
                [OutB 0x20 0x11; OutB 0xA0 0x11; OutB 0x21 0x20; OutB 0xA1 0x28;
                 OutB 0x21 0x04; OutB 0xA1 0x02; OutB 0x21 0x01; OutB 0xA1 0x01;
                 OutB 0x21 (master_mask (pic m'))] |>.
Proof. apply i8259_init_ok. Qed.

Lemma i8259_init_programs_witness :
  exists m', i8259_init boot_machine = (Ok tt, m') /\ masked (pic m') 2 = false.
Proof.
  destruct (i8259_init_programs boot_machine) as (m' & E & _ & Hm & _).
  - unfold pic_ok. cbn. lia.
  - exists m'. split; [exact E|]. rewrite Hm by lia. reflexivity.
Defined.
