(* ===== verification/Rtc.v ===== *)
(** [student-distrib/rtc.c]: the real-time clock driver. *)

From S2P Require Import Prelude Memory CLib Machine I8259.

Definition RTC_PORT : Z := 0x70.
Definition CMOS_PORT : Z := 0x71.
Definition RTC_REG_A : Z := 0x8A.
Definition RTC_REG_B : Z := 0x8B.
Definition RTC_REG_C : Z := 0x8C.
Definition RTC_ENABLE_INTERRUPT : Z := 0x40.
Definition RTC_SET_RATE : Z := 0xF0.

(** [while (freq > 1) { rate--; freq >>= 1; }]; 31 halvings exhaust an [int]. *)
Fixpoint rate_loop (fuel : nat) (rate freq : Z) : Z :=
  match fuel with
  | O => rate
  | S fuel => if 1 <? freq then rate_loop fuel (i8 (rate - 1)) (Z.shiftr freq 1) else rate
  end.

(** The [char rate] of [rtc_write] for the frequency [freq]. *)
Definition rtc_rate (freq : Z) : Z :=
  rate_loop 31 (if freq =? 0 then 0 else 16) freq.

Section Rtc.
Context `{Platform}.

Definition rtc_handler : K unit :=
  cli;;
  modify (fun m => m <| int_occur := 1 |>);;
  outb RTC_REG_C RTC_PORT;;
  inb CMOS_PORT;;
  send_eoi RTC_IRQ_LINE;;
  sti.

Definition rtc_open : K Z :=
  cli;;
  outb RTC_REG_B RTC_PORT;;
  v ← inb CMOS_PORT;
  let prev := i8 v in
  outb RTC_REG_B RTC_PORT;;
  outb (Z.lor prev RTC_ENABLE_INTERRUPT) CMOS_PORT;;
  outb RTC_REG_A RTC_PORT;;
  v ← inb CMOS_PORT;
  let prev := i8 v in
  outb RTC_REG_A RTC_PORT;;
  outb (Z.lor (Z.land prev RTC_SET_RATE) 15) CMOS_PORT;;
  modify (fun m => m <| int_occur := 0 |>);;
  enable_irq RTC_IRQ_LINE;;
  sti;;
  mret 0.

Definition rtc_close (fd : Z) : K Z :=
  disable_irq RTC_IRQ_LINE;;
  outb RTC_REG_A RTC_PORT;;
  v ← inb CMOS_PORT;
  let prev := i8 v in
  outb RTC_REG_A RTC_PORT;;
  outb (Z.lor (Z.land prev RTC_SET_RATE) 0) CMOS_PORT;;
  mret 0.

Definition rtc_read (service : K unit) (fd buf nbytes : Z) : K Z :=
  spin (fun m => truth (int_occur m)) service;;
  modify (fun m => m <| int_occur := 0 |>);;
  mret 0.

Definition rtc_write (fd buf nbytes : Z) : K Z :=
  cli;;
  if (buf =? 0) || (nbytes <? 4) then
    sti;; mret (-1)
  else
    v ← load32 buf;
    let rate := rtc_rate (i32 v) in
    outb RTC_REG_A RTC_PORT;;
    v ← inb CMOS_PORT;
    let prev := i8 v in
    outb RTC_REG_A RTC_PORT;;
    outb (Z.lor (Z.land prev RTC_SET_RATE) rate) CMOS_PORT;;
    sti;;
    mret 0.
End Rtc.

(** [rtc.h]: the rates of the divider for the frequencies it can generate. *)
Definition rtc_freq : list (Z * Z) :=
  [(2, 15); (4, 14); (8, 13); (16, 12); (32, 11); (64, 10); (128, 9); (256, 8);
   (512, 7); (1024, 6); (2048, 5); (4096, 4); (8192, 3); (0, 0)].

(** * The chip as the kernel sees it

    The registers of the chip, as the port traffic leaves them: a write to the
    index port selects a register (its top bit masks the NMI and is not part of
    the index), a write to the data port sets it. *)
Record cmos := Cmos { cmos_index : Z; cmos_regs : gmap Z Z }.

Definition cmos_step (c : cmos) (e : io) : cmos :=
  match e with
  | OutB port v =>
      if port =? RTC_PORT then Cmos (Z.land v 0x7F) (cmos_regs c)
      else if port =? CMOS_PORT then Cmos (cmos_index c) (<[cmos_index c := v]> (cmos_regs c))
      else c
  | InB _ _ => c
  end.

Definition cmos_after (c : cmos) (log : list io) : cmos := fold_left cmos_step log c.

(** A device that behaves as documented: a read of the data port yields the
    selected register, the one [c0] had at reset if it has not been written. *)
Definition cmos_device (c0 : cmos) (dev : list io -> Z -> Z) : Prop :=
  forall log, let c := cmos_after c0 log in
  dev log CMOS_PORT = default 0 (cmos_regs c !! cmos_index c).

Lemma cmos_after_app c l1 l2 : cmos_after c (l1 ++ l2) = cmos_after (cmos_after c l1) l2.
Proof. apply fold_left_app. Qed.

(** The register [r] of the chip in a state of the machine. *)
Definition cmos_reg (c0 : cmos) (m : machine) (r : Z) : Z :=
  default 0 (cmos_regs (cmos_after c0 (io_log m)) !! r).

Lemma rate_loop_log2 fuel rate freq :
  1 <= freq < 2 ^ Z.of_nat (S fuel) -> -128 <= rate - Z.log2 freq -> rate <= 127 ->
  rate_loop fuel rate freq = rate - Z.log2 freq.
Proof.
  revert rate freq. induction fuel as [|fuel IH]; intros rate freq Hf Hr Hr'; cbn [rate_loop].
  - assert (freq = 1) as -> by (cbn in Hf; lia). cbn. lia.
  - destruct (Z.ltb_spec 1 freq) as [Hlt|Hge].
    + assert (Z.log2 freq = Z.succ (Z.log2 (Z.shiftr freq 1))) as Hlog.
      { rewrite Z.log2_shiftr by lia. pose proof (Z.log2_le_mono 2 freq ltac:(lia)) as H2.
        change (Z.log2 2) with 1 in H2. lia. }
      assert (1 <= Z.shiftr freq 1 < 2 ^ Z.of_nat (S fuel)) as Hs.
      { rewrite Z.shiftr_div_pow2 by lia. change (2 ^ 1) with 2.
        rewrite Nat2Z.inj_succ, Z.pow_succ_r in Hf by lia.
        split; [apply Z.div_le_lower_bound; lia|apply Z.div_lt_upper_bound; lia]. }
      pose proof (Z.log2_nonneg (Z.shiftr freq 1)).
      rewrite i8_small by lia. rewrite IH; [lia|done|lia|lia].
    + assert (freq = 1) as -> by lia. cbn. lia.
Qed.

Lemma rtc_rate_log2 freq : 1 <= freq < 2147483648 -> rtc_rate freq = 16 - Z.log2 freq.
Proof.
  intros Hf. unfold rtc_rate. rewrite (proj2 (Z.eqb_neq freq 0)) by lia.
  assert (Z.log2 freq < 31) by (apply Z.log2_lt_pow2; lia).
  apply rate_loop_log2; [|lia|lia].
  change (2 ^ Z.of_nat 32) with 4294967296. lia.
Qed.

Lemma rtc_rate_nonpos freq : freq <= 0 -> rtc_rate freq = if freq =? 0 then 0 else 16.
Proof. intros Hf. unfold rtc_rate. cbn [rate_loop]. by zb. Qed.

Lemma set_rate_byte v r :
  is_byte v -> 0 <= r < 16 ->
  u8 (Z.lor (Z.land (i8 v) RTC_SET_RATE) r) = Z.lor (Z.land v 0xF0) r.
Proof.
  intros Hv Hr. revert v Hv. apply (Forall_seqZ (fun v => _ = Z.lor (Z.land v 0xF0) r) 0 256).
  revert r Hr. apply (Forall_seqZ (fun r => Forall _ _) 0 16).
  apply (bool_decide_unpack _). vm_compute. done.
Qed.

Lemma enable_bit_byte v :
  is_byte v -> u8 (Z.lor (i8 v) RTC_ENABLE_INTERRUPT) = Z.lor v 0x40.
Proof.
  revert v. apply (Forall_seqZ _ 0 256). apply (bool_decide_unpack _). vm_compute. done.
Qed.

(** The port traffic of a read-modify-write of the register selected by [idx],
    with [v] read and [w] written. *)
Definition rmw (idx v w : Z) : list io :=
  [OutB RTC_PORT idx; InB CMOS_PORT v; OutB RTC_PORT idx; OutB CMOS_PORT w].

Lemma cmos_after_rmw c idx v w :
  cmos_after c (rmw idx v w) =
  Cmos (Z.land idx 0x7F) (<[Z.land idx 0x7F := w]> (cmos_regs c)).
Proof. done. Qed.

Section RtcFacts.
Context `{Platform}.
Variable c0 : cmos.
Hypothesis Hdev : cmos_device c0 device.

(** What the data port reads after [idx] has been selected. *)
Lemma device_selected log idx :
  device (log ++ [OutB RTC_PORT idx]) CMOS_PORT =
  default 0 (cmos_regs (cmos_after c0 log) !! Z.land idx 0x7F).
Proof. rewrite Hdev. cbv zeta. rewrite cmos_after_app. done. Qed.
End RtcFacts.

Lemma rtc_rate_fits freq :
  -2147483648 <= freq < 2147483648 ->
  0 <= rtc_rate freq < 16 <-> freq = 0 \/ 2 <= freq < 131072.
Proof.
  intros Hf. destruct (Z.le_gt_cases freq 0) as [Hn|Hp].
  - rewrite rtc_rate_nonpos by done. destruct (Z.eqb_spec freq 0); lia.
  - rewrite rtc_rate_log2 by lia.
    pose proof (Z.log2_lt_pow2 freq 17 ltac:(lia)) as H17. change (2 ^ 17) with 131072 in H17.
    pose proof (Z.log2_le_pow2 freq 1 ltac:(lia)) as H1. change (2 ^ 1) with 2 in H1. lia.
Qed.

(** * Properties *)

(** The divider: the rate is 16 minus the binary logarithm of a positive
    frequency, so the one of [rtc.h] for each frequency it lists, and it fits the
    four bits of the register exactly for 0 and for the frequencies from 2 to
    131071; any other value spills into the upper bits of the register. *)
Theorem rtc_rate_correct (freq : Z) :
  -2147483648 <= freq < 2147483648 ->
  (1 <= freq -> rtc_rate freq = 16 - Z.log2 freq) /\
  (0 <= rtc_rate freq < 16 <-> freq = 0 \/ 2 <= freq < 131072) /\
  Forall (fun '(f, r) => rtc_rate f = r) rtc_freq.
Proof.
  intros Hf. split; [|split].
  - intros Hp. apply rtc_rate_log2. lia.
  - by apply rtc_rate_fits.
  - unfold rtc_freq. repeat constructor.
Qed.

Lemma rtc_rate_correct_witness : rtc_rate 1024 = 6 /\ ~ 0 <= rtc_rate 1 < 16.
Proof.
  split.
  - rewrite (proj1 (rtc_rate_correct 1024 ltac:(lia))) by lia. reflexivity.
  - rewrite (proj1 (proj2 (rtc_rate_correct 1 ltac:(lia)))). lia.
Defined.

(** [rtc_write] with four bytes of a frequency the divider supports reads
    the frequency, replaces the rate field (the low four bits) of register A of
    the chip and keeps its other bits and every other register; it returns 0 with
    interrupts enabled and nothing else changed.  With a null buffer or fewer
    than four bytes it returns -1 and leaves the chip alone. *)
Theorem rtc_write_programs `{Platform} (c0 : cmos) (m : machine) (fd buf pbuf nbytes : Z) :
  cmos_device c0 device -> maps m buf pbuf 4 ->
  let freq := i32 (cell32 m pbuf) in
  (buf = 0 \/ nbytes < 4 ->
     rtc_write fd buf nbytes m = (Ok (-1), m <| cpu ::= fun c => c <| IF := true |> |>)) /\
  (buf <> 0 -> 4 <= nbytes -> freq = 0 \/ 2 <= freq < 131072 ->
     exists log,
       let m' := m <| cpu ::= fun c => c <| IF := true |> |>
                   <| io_log := io_log m ++ log |> in
       rtc_write fd buf nbytes m = (Ok 0, m') /\
       cmos_reg c0 m' 0x0A = Z.lor (Z.land (u8 (cmos_reg c0 m 0x0A)) 0xF0) (rtc_rate freq) /\
       (forall r, r <> 0x0A -> cmos_reg c0 m' r = cmos_reg c0 m r)).
Proof.
  intros Hdev Hmap freq. split.
  - intros Hbad. unfold rtc_write, cli, sti. mrun.
    destruct (Z.eqb_spec buf 0), (Z.ltb_spec nbytes 4); try lia; cbn [orb]; by mrun.
  - intros Hbuf Hn Hfreq. unfold rtc_write, cli, sti, inb, outb. mrun.
    rewrite (proj2 (Z.eqb_neq buf 0)), (proj2 (Z.ltb_ge nbytes 4)) by lia. cbn [orb]. mrun.
    pose proof (load32_maps (m <| cpu ::= fun c => c <| IF := false |> |>) buf pbuf 4 0) as Hl.
    rewrite !Z.add_0_r in Hl. rewrite Hl by (done || lia). clear Hl. mrun.
    change (cell32 _ pbuf) with (cell32 m pbuf). fold freq. msimp.
    rewrite (device_selected c0 Hdev).
    set (v := u8 (default 0 _)). assert (is_byte v) as Hv by apply u8_range.
    assert (0 <= rtc_rate freq < 16) as Hr.
    { apply rtc_rate_fits; [apply i32_range|done]. }
    rewrite set_rate_byte by done. change (u8 RTC_REG_A) with RTC_REG_A.
    exists (rmw RTC_REG_A v (Z.lor (Z.land v 0xF0) (rtc_rate freq))).
    split; [|split].
    + cbn. rewrite <- !app_assoc. by destruct m.
    + unfold cmos_reg. msimp.
      rewrite cmos_after_app, cmos_after_rmw. cbn [cmos_regs].
      change (Z.land RTC_REG_A 127) with 10. by rewrite lookup_insert_eq.
    + intros r Hne. unfold cmos_reg. msimp.
      rewrite cmos_after_app, cmos_after_rmw. cbn [cmos_regs].
      change (Z.land RTC_REG_A 127) with 10. by rewrite lookup_insert_ne.
Qed.

(** A platform whose port 0x71 is such a chip, with all registers zero at reset. *)
Definition cmos_platform : Platform := {|
  addr_pageDir := 0x410000;
  addr_pageTable := 0x411000;
  addr_userTable := 0x412000;
  addr_videoTable := 0x413000;
  device log port := let c := cmos_after (Cmos 0 ∅) log in default 0 (cmos_regs c !! cmos_index c);
  execute_frame := 0x160;
  call_frames := 0x400
|}.

(** The frequency 1024 stored at 0x1000; after the call register A holds rate 6. *)
Lemma rtc_write_programs_witness :
  let P := cmos_platform in
  let m := boot_machine <| phys := {[0x1001 := 4]} |> in
  exists log,
    let m' := m <| cpu ::= fun c => c <| IF := true |> |> <| io_log := io_log m ++ log |> in
    rtc_write 2 0x1000 4 m = (Ok 0, m') /\ cmos_reg (Cmos 0 ∅) m' 0x0A = 6.
Proof.
  intros P m.
  destruct (rtc_write_programs (Cmos 0 ∅) m 2 0x1000 0x1000 4) as [_ Hw].
  - intros log. reflexivity.
  - intros i Hi. unfold loc. cbn. rewrite u32_small by lia. done.
  - destruct Hw as (log & E & Ha & _); [lia|lia|vm_compute; right; split; done|].
    exists log. split; [exact E|]. etransitivity; [exact Ha|]. vm_compute. reflexivity.
Defined.

(** Opening the clock turns its periodic interrupt on (bit 6 of register B),
    selects the slowest rate, unmasks line 8 and forgets past ticks; closing it
    masks the line and stops the divider.  Both keep every other bit of the
    registers and every other line, and return 0. *)
Theorem rtc_open_close `{Platform} (c0 : cmos) (m : machine) (fd : Z) :
  cmos_device c0 device -> pic_ok (pic m) ->
  (exists m', rtc_open m = (Ok 0, m') /\ int_occur m' = 0 /\ IF (cpu m') = true /\
     cmos_reg c0 m' 0x0B = Z.lor (u8 (cmos_reg c0 m 0x0B)) 0x40 /\
     cmos_reg c0 m' 0x0A = Z.lor (Z.land (u8 (cmos_reg c0 m 0x0A)) 0xF0) 15 /\
     forall j, 0 <= j < 16 -> masked (pic m') j = if j =? 8 then false else masked (pic m) j) /\
  (exists m', rtc_close fd m = (Ok 0, m') /\
     cmos_reg c0 m' 0x0A = Z.land (u8 (cmos_reg c0 m 0x0A)) 0xF0 /\
     forall j, 0 <= j < 16 -> masked (pic m') j = if j =? 8 then true else masked (pic m) j).
Proof.
  intros Hdev Hok. split.
  - unfold rtc_open, cli, sti, inb, outb. mrun. msimp.
    change (u8 RTC_REG_A) with RTC_REG_A. change (u8 RTC_REG_B) with RTC_REG_B.
    rewrite !(device_selected c0 Hdev).
    set (vb := u8 (default 0 (cmos_regs (cmos_after c0 (io_log m)) !! Z.land RTC_REG_B 127))).
    rewrite (enable_bit_byte vb) by apply u8_range.
    set (va := u8 (default 0 _)). rewrite (set_rate_byte va 15) by (apply u8_range || lia).
    match goal with |- context [enable_irq _ ?m1] =>
      destruct (enable_irq_effect m1 RTC_IRQ_LINE) as (m2 & E & _ & Hmask & Hm2);
      [exact Hok|unfold RTC_IRQ_LINE; lia|] end.
    rewrite E. mrun. eexists. split; [done|]. msimp.
    rewrite Hm2. msimp. split; [done|]. split; [done|].
    unfold cmos_reg. msimp.
    rewrite !cmos_after_app. cbn -[Z.lor Z.land].
    change (SLAVE_8259_PORT + 1 =? RTC_PORT) with false.
    change (SLAVE_8259_PORT + 1 =? CMOS_PORT) with false. cbn -[Z.lor Z.land].
    change (Z.land RTC_REG_A 127) with 10. change (Z.land RTC_REG_B 127) with 11.
    split; [|split].
    + by rewrite lookup_insert_ne, lookup_insert_eq.
    + rewrite lookup_insert_eq. cbn -[Z.lor Z.land]. subst va. rewrite !cmos_after_app.
      cbn -[Z.lor Z.land]. change (Z.land RTC_REG_A 127) with 10.
      change (Z.land RTC_REG_B 127) with 11. by rewrite lookup_insert_ne.
    + exact Hmask.
  - unfold rtc_close. destruct (disable_irq_effect m RTC_IRQ_LINE) as (m2 & E & _ & Hmask & Hm2);
      [exact Hok|unfold RTC_IRQ_LINE; lia|].
    go E. unfold inb, outb. mrun. msimp.
    change (u8 RTC_REG_A) with RTC_REG_A. rewrite !(device_selected c0 Hdev).
    set (va := u8 (default 0 _)). rewrite (set_rate_byte va 0) by (apply u8_range || lia).
    eexists. split; [done|]. msimp. split; [|exact Hmask].
    unfold cmos_reg. msimp. rewrite !cmos_after_app. cbn -[Z.lor Z.land].
    rewrite lookup_insert_eq, Z.lor_0_r. cbn -[Z.lor Z.land]. subst va.
    rewrite Hm2. msimp. by rewrite cmos_after_app.
Qed.

Lemma rtc_open_close_witness :
  let P := cmos_platform in
  (exists m', rtc_open boot_machine = (Ok 0, m') /\ int_occur m' = 0) /\
  (exists m', rtc_close 2 boot_machine = (Ok 0, m')).
Proof.
  intros P. destruct (rtc_open_close (Cmos 0 ∅) boot_machine 2) as [Ho Hc].
  - intros log. reflexivity.
  - unfold pic_ok. cbn. lia.
  - split.
    + destruct Ho as (m' & E & Ho & _). exists m'. done.
    + destruct Hc as (m' & E & _). exists m'. done.
Defined.
