(* ===== verification/Pcb.v ===== *)
(** The process control blocks of [student-distrib/syscalls.c]: where they lie,
    which one is current, and access to their file arrays. *)

From S2P Require Import Prelude Memory Machine.

Definition MAX_FILES : Z := 8.
Definition MAX_ARGS_LENGTH : Z := 128.
Definition MAX_PROCESSES : Z := 6.
Definition FILE_OPEN : Z := 0x00000001.
Definition EIGHT_KB_BLOCK : Z := 0x2000.
Definition PHYSICAL_START : Z := 0x800000.
Definition PCB_MASK : Z := 0x00FFE000.

Definition stdin_ops : fileops_t := Fileops f_terminal_open f_fail f_terminal_read f_fail.
Definition stdout_ops : fileops_t := Fileops f_terminal_open f_fail f_fail f_terminal_write.
Definition rtc_ops : fileops_t := Fileops f_rtc_open f_rtc_close f_rtc_read f_rtc_write.
Definition dir_ops : fileops_t := Fileops f_dir_open f_dir_close f_dir_read f_fail.
Definition file_ops : fileops_t := Fileops f_file_open f_file_close f_file_read f_fail.
Definition fail_ops : fileops_t := Fileops f_fail f_fail f_fail f_fail.

Definition fail : K Z := mret (-1).

Definition get_pcb (pid : Z) : Z := u32 (PHYSICAL_START - u32 (EIGHT_KB_BLOCK * u32 (pid + 1))).

Definition get_current_pcb : K Z := gets (fun m => Z.land (u32 (cpu_esp (cpu m))) PCB_MASK).

(** The size of a [pcb_t]: eight [file_t] of 28 bytes, the identifier, the
    arguments, and five words after three bytes of padding. *)
Definition sizeof_pcb_t : Z := 8 * 28 + 1 + MAX_ARGS_LENGTH + 3 + 5 * 4.

(** The registers [%ebp] and [%esp] in the body of [execute], entered with the
    stack pointer of [s] at its return address. *)
Definition frame_ebp (s : cpu_t) : Z := u32 (cpu_esp s - 4).
Definition frame_esp `{Platform} (s : cpu_t) : Z := u32 (cpu_esp s - 4 - execute_frame).

(** [leave]: the stack pointer is at the return address again. *)
Definition leave (ebp : Z) : Z := u32 (ebp + 4).

Lemma leave_frame s : leave (frame_ebp s) = u32 (cpu_esp s).
Proof.
  unfold leave, frame_ebp, u32. rewrite Zplus_mod_idemp_l. f_equal. lia.
Qed.

Section Pcb.
Context `{Platform}.

(** [*pcb], and an assignment to members of it. *)
Definition pcb_read (a : Z) : K pcb_t := fun m =>
  match loc m a with
  | Some _ => (Ok (default zero_pcb (pcbs m !! a)), m)
  | None => (Stop (PageFault a), m)
  end.

Definition pcb_write (a : Z) (f : pcb_t -> pcb_t) : K unit := fun m =>
  match loc m a with
  | Some _ => (Ok tt, m <| pcbs ::= fun t => <[a := f (default zero_pcb (t !! a))]> t |>)
  | None => (Stop (PageFault a), m)
  end.

(** [pcb->files[i]], an index outside the array being undefined. *)
Definition file_read_at (a i : Z) : K file_t :=
  p ← pcb_read a;
  if i <? 0 then raise OutOfBounds else
  match files p !! Z.to_nat i with
  | Some f => mret f
  | None => raise OutOfBounds
  end.

Definition file_write_at (a i : Z) (g : file_t -> file_t) : K unit :=
  file_read_at a i;;
  pcb_write a (fun p => p <| files ::= alter g (Z.to_nat i) |>).

(** ** Access to a block that is mapped *)

(** The block at [a] in a state. *)
Definition pcb_of (m : machine) (a : Z) : pcb_t := default zero_pcb (pcbs m !! a).

(** The kernel's own 4 MB are mapped to themselves. *)
Definition kernel_mapped (m : machine) : Prop :=
  forall a, 0x400000 <= a < 0x800000 -> loc m a = Some a.

(** The current block, and that the stack is the kernel stack of a process. *)
Definition current (m : machine) : Z := Z.land (u32 (cpu_esp (cpu m))) PCB_MASK.

Lemma get_current_pcb_run m : get_current_pcb m = (Ok (current m), m).
Proof. done. Qed.

Lemma pcb_read_run m a : is_Some (loc m a) -> pcb_read a m = (Ok (pcb_of m a), m).
Proof. intros [p Hp]. unfold pcb_read. by rewrite Hp. Qed.

Lemma pcb_write_run m a f :
  is_Some (loc m a) -> pcb_write a f m = (Ok tt, m <| pcbs ::= <[a := f (pcb_of m a)]> |>).
Proof. intros [p Hp]. unfold pcb_write. by rewrite Hp. Qed.

Lemma file_read_at_run m a i f :
  is_Some (loc m a) -> 0 <= i -> files (pcb_of m a) !! Z.to_nat i = Some f ->
  file_read_at a i m = (Ok f, m).
Proof. intros Ha Hi Hf. unfold file_read_at. go pcb_read_run by done. zb. by rewrite Hf. Qed.

Lemma file_write_at_run m a i f g :
  is_Some (loc m a) -> 0 <= i -> files (pcb_of m a) !! Z.to_nat i = Some f ->
  file_write_at a i g m =
  (Ok tt, m <| pcbs ::= <[a := (pcb_of m a) <| files := <[Z.to_nat i := g f]> (files (pcb_of m a)) |>]> |>).
Proof.
  intros Ha Hi Hf. unfold file_write_at. go (file_read_at_run m a i f) by done.
  assert (forall l : list file_t, l !! Z.to_nat i = Some f ->
    alter g (Z.to_nat i) l = <[Z.to_nat i := g f]> l) as Halt.
  { intros l Hl. apply list_eq. intros j. destruct (decide (j = Z.to_nat i)) as [->|Hj].
    - rewrite list_lookup_alter_eq, list_lookup_insert_eq, Hl; [done|by eapply lookup_lt_Some].
    - by rewrite list_lookup_alter_ne, list_lookup_insert_ne by done. }
  rewrite pcb_write_run by done. cbn -[alter]. by rewrite Halt.
Qed.

Lemma pcb_of_upd m a p : pcb_of (m <| pcbs ::= <[a := p]> |>) a = p.
Proof. unfold pcb_of. cbn. by rewrite lookup_insert_eq. Qed.

Lemma pcb_of_upd_ne m a b p : a <> b -> pcb_of (m <| pcbs ::= <[a := p]> |>) b = pcb_of m b.
Proof. intros Hab. unfold pcb_of. cbn. by rewrite lookup_insert_ne. Qed.
End Pcb.

(** The blocks of the six processes: distinct, each at the bottom of its own 8 KB
    kernel stack, inside the kernel's 4 MB. *)
Lemma get_pcb_range pid :
  0 <= pid < MAX_PROCESSES -> get_pcb pid = 0x7FE000 - 0x2000 * pid /\ 0x7F4000 <= get_pcb pid < 0x800000.
Proof. unfold get_pcb, MAX_PROCESSES, PHYSICAL_START, EIGHT_KB_BLOCK. intros Hp. csmall. lia. Qed.

Lemma get_pcb_inj pid pid' :
  0 <= pid < MAX_PROCESSES -> 0 <= pid' < MAX_PROCESSES -> get_pcb pid = get_pcb pid' -> pid = pid'.
Proof.
  intros Hp Hp'. rewrite (proj1 (get_pcb_range pid Hp)), (proj1 (get_pcb_range pid' Hp')). lia.
Qed.

(** The mask keeps bits 13 to 23. *)
Lemma land_pcb_mask x : Z.land x PCB_MASK = x / 8192 mod 2048 * 8192.
Proof.
  change PCB_MASK with (Z.shiftl (Z.ones 11) 13). change 8192 with (2 ^ 13). change 2048 with (2 ^ 11).
  rewrite <- Z.shiftr_div_pow2, <- Z.land_ones, <- Z.shiftl_mul_pow2 by lia.
  apply Z.bits_inj'. intros n Hn. rewrite Z.land_spec, !Z.shiftl_spec, Z.land_spec by lia.
  destruct (Z.lt_ge_cases n 13).
  - rewrite (Z.testbit_neg_r (Z.ones 11)) by lia. by rewrite !andb_false_r.
  - rewrite Z.shiftr_spec by lia. by replace (n - 13 + 13) with n by lia.
Qed.

(** Any stack pointer inside the stack of a process finds its block. *)
Lemma stack_pcb pid esp :
  0 <= pid < MAX_PROCESSES -> get_pcb pid <= esp < get_pcb pid + EIGHT_KB_BLOCK ->
  Z.land (u32 esp) PCB_MASK = get_pcb pid.
Proof.
  intros Hp. destruct (get_pcb_range pid Hp) as [-> Hr]. unfold EIGHT_KB_BLOCK, MAX_PROCESSES in *.
  intros He. rewrite u32_small, land_pcb_mask by lia.
  replace (esp / 8192) with (1023 - pid); [rewrite Z.mod_small; lia|].
  apply Z.div_unique with (esp - (8380416 - 8192 * pid)); lia.
Qed.
