(* ===== verification/Rofs.v ===== *)
(** [student-distrib/rofs.c]: the read-only file system.

    The image is read byte by byte from memory, at the addresses the pointer
    arithmetic of the code computes: a boot block with the directory, one 4 KB
    block per index node, and the data blocks.  The abstract view is [image], a
    directory and the contents of the files; [represents] relates the two. *)

From S2P Require Import Prelude Memory CLib Machine Pcb.

Definition FILE_NAME_LENGTH : Z := 32.

(** [file_type_t] *)
Definition rtc : Z := 0.
Definition dir : Z := 1.
Definition file : Z := 2.

(** Sizes, and offsets of the members, of the structures of [rofs.h]. *)
Definition sizeof_dentry_t : Z := 64.
Definition file_type_off : Z := 32.
Definition inode_num_off : Z := 36.
Definition sizeof_boot_block_t : Z := 4096.
Definition num_inodes_off : Z := 4.
Definition dentries_off : Z := 64.
Definition sizeof_inode_t : Z := 4096.
Definition data_block_num_off : Z := 4.
Definition sizeof_data_block_t : Z := 4096.

(** The members of a [dentry_t] held in a local variable. *)
Definition file_type (d : ptr) : Z := word_at (contents d) file_type_off.
Definition inode_num (d : ptr) : Z := word_at (contents d) inode_num_off.
Definition local_dentry : ptr := Buf (replicate 64 0) 0.

Section Rofs.
Context `{Platform}.

Definition init_rofs (base : Z) : K unit :=
  let boot_block_size := sizeof_boot_block_t in
  modify (fun m => m <| fs ::= fun f => f <| boot_block := u32 base |> |>);;
  modify (fun m => m <| fs ::= fun f => f <| inodes := u32 (base + boot_block_size) |> |>);;
  num ← load32 (base + num_inodes_off);
  modify (fun m => m <| fs ::= fun f =>
    f <| data_blocks := u32 (base + boot_block_size + num * sizeof_inode_t) |> |>).

(** [boot_block->num_dir_entries], [boot_block->num_inodes] and
    [&boot_block->dentries[i]] *)
Definition num_dir_entries : K Z :=
  b ← gets (fun m => boot_block (fs m)); load32 b.
Definition num_inodes : K Z :=
  b ← gets (fun m => boot_block (fs m)); load32 (b + num_inodes_off).
Definition dentry_addr (i : Z) : K Z :=
  gets (fun m => boot_block (fs m) + dentries_off + i * sizeof_dentry_t).

Definition read_dentry_by_name (fname dentry : ptr) : K (Z * ptr) :=
  while (fun i =>
    n ← num_dir_entries;
    if i <? n then
      a ← dentry_addr i;
      r ← strncmp fname (Raw a) FILE_NAME_LENGTH;
      if truth r then mret (inl (i + 1))
      else
        d ← memcpy dentry (Raw a) sizeof_dentry_t;
        mret (inr (0, d))
    else mret (inr (-1, dentry))) 0.

Definition read_dentry_by_index (index : Z) (dentry : ptr) : K (Z * ptr) :=
  n ← num_dir_entries;
  if n <=? index then mret (-1, dentry)
  else
    a ← dentry_addr index;
    d ← memcpy dentry (Raw a) sizeof_dentry_t;
    mret (0, d).

(** Arguments are [uint32_t]; [i + offset] and [offset + length] wrap. *)
Definition read_data (inode offset : Z) (buf : ptr) (length : Z) : K (Z * ptr) :=
  n ← num_inodes;
  if n <=? inode then mret (-1, buf)
  else
    node ← gets (fun m => inodes (fs m) + inode * sizeof_inode_t);
    len ← load32 node;
    if len <? offset then mret (-1, buf)
    else
      length ← (if len <? u32 (offset + length) then
                  len ← load32 node; mret (u32 (len - offset))
                else mret length);
      while (fun '(buf, i) =>
        if i <? length then
          let block := Z.shiftr (u32 (i + offset)) 12 in
          let block_offset := Z.land (u32 (i + offset)) 0xFFF in
          data ← gets (fun m => data_blocks (fs m));
          b ← load32 (node + data_block_num_off + block * 4);
          c ← load8 (data + b * sizeof_data_block_t + block_offset);
          buf' ← wr buf i c;
          mret (inl (buf', i + 1))
        else mret (inr (i32 i, buf))) (buf, 0).

Definition file_open (filename : ptr) : K Z :=
  '(r, dentry) ← read_dentry_by_name filename local_dentry;
  if truth r then mret (-1)
  else if negb (file_type dentry =? file) then mret (-1)
  else mret 0.

Definition file_close (fd : Z) : K Z :=
  if (fd <? 0) || (MAX_FILES <? fd) then mret (-1) else mret 0.

Definition file_read (fd buf nbytes : Z) : K Z :=
  if (fd <? 0) || (MAX_FILES <? fd) then mret (-1)
  else
    a ← get_current_pcb;
    f ← file_read_at a fd;
    '(bytes_read, _) ← read_data (u32 (inode f)) (u32 (pos f)) (Raw buf) (u32 nbytes);
    if bytes_read <? 0 then mret (-1)
    else
      for_range 0 bytes_read (fun i =>
        c ← load8 (buf + i);
        if ((c <? 32) || (126 <? c)) && negb (c =? 10) && negb (c =? 9)
        then store8 (buf + i) 32 else mret tt);;
      file_write_at a fd (fun f => f <| pos ::= fun p => i32 (p + bytes_read) |>);;
      mret bytes_read.

Definition dir_open (filename : ptr) : K Z :=
  '(r, dentry) ← read_dentry_by_name filename local_dentry;
  if truth r then mret (-1)
  else if negb (file_type dentry =? dir) then mret (-1)
  else mret 0.

Definition dir_close (fd : Z) : K Z :=
  if (fd <? 0) || (MAX_FILES <? fd) then mret (-1) else mret 0.

Definition dir_read (fd buf nbytes : Z) : K Z :=
  a ← get_current_pcb;
  f ← file_read_at a fd;
  n ← num_dir_entries;
  if n <=? u32 (pos f) then mret 0
  else
    dentry ← dentry_addr (pos f);
    let copy_length := if FILE_NAME_LENGTH <? nbytes then FILE_NAME_LENGTH else nbytes in
    strncpy (Raw buf) (Raw dentry) (u32 copy_length);;
    file_write_at a fd (fun f => f <| pos ::= fun p => i32 (p + 1) |>);;
    n ← strlen (Raw dentry);
    let bytes_read := i32 n in
    mret (if FILE_NAME_LENGTH <? bytes_read then FILE_NAME_LENGTH else bytes_read).
End Rofs.

(** * The abstract file system *)

(** A directory entry: the 32 bytes of the name, the type, the index node. *)
Record dentry_s := Dentry { d_name : list Z; d_type : Z; d_inode : Z }.

(** The directory, and the contents of the file of each index node. *)
Record image := Image { im_dentries : list dentry_s; im_files : list (list Z) }.

(** Names are compared as C strings of at most 32 bytes. *)
Definition name_of (l : list Z) : list Z := cprefix (Z.to_nat FILE_NAME_LENGTH) l.

Definition find_dentry (img : image) (l : list Z) : option dentry_s :=
  snd <$> list_find (fun d => name_of (d_name d) = name_of l) (im_dentries img).

(** What a read of [len] bytes at [off] of the file with contents [f] yields. *)
Definition file_slice (f : list Z) (off len : Z) : list Z :=
  take (Z.to_nat len) (drop (Z.to_nat off) f).

Lemma file_slice_length f off len :
  0 <= off <= Z.of_nat (length f) -> 0 <= len ->
  Z.of_nat (length (file_slice f off len)) = Z.min len (Z.of_nat (length f) - off).
Proof. intros Ho Hl. unfold file_slice. rewrite length_take, length_drop. lia. Qed.

Lemma file_slice_byte f off len i :
  0 <= off -> 0 <= i < Z.of_nat (length (file_slice f off len)) ->
  f !! Z.to_nat (i + off) = Some (byte_at (file_slice f off len) i).
Proof.
  intros Ho Hi. unfold byte_at. rewrite list_lookup_total_alt.
  destruct (lookup_lt_is_Some_2 (file_slice f off len) (Z.to_nat i)) as [x Hx]; [lia|].
  rewrite Hx. cbn. unfold file_slice in Hx. apply lookup_take_Some in Hx as [Hx _].
  rewrite lookup_drop in Hx. rewrite <- Hx. f_equal. lia.
Qed.

Section Layout.
Context `{Platform}.

(** The offset of byte [k] of index node [n] in an image in memory at [pb]. *)
Definition data_offset (m : machine) (pb : Z) (img : image) (n k : nat) : Z :=
  let blk := cell32 m (pb + 4096 + 4096 * Z.of_nat n + 4 + 4 * Z.of_nat (k / 4096)) in
  4096 + 4096 * Z.of_nat (length (im_files img)) + 4096 * blk + Z.of_nat (k mod 4096).

(** The [size] bytes of physical memory from [pb] hold the image [img], and
    the pointers of the driver lead to them. *)
Record represents (pb size : Z) (img : image) (m : machine) : Prop := {
  rep_maps : maps m (boot_block (fs m)) pb size;
  rep_addr : 0 <= boot_block (fs m) /\ boot_block (fs m) + size < 4294967296;
  rep_size : 4096 + 4096 * Z.of_nat (length (im_files img)) <= size;
  rep_inodes : inodes (fs m) = boot_block (fs m) + 4096;
  rep_data_blocks :
    data_blocks (fs m) = boot_block (fs m) + 4096 + 4096 * Z.of_nat (length (im_files img));
  rep_ndir : cell32 m pb = Z.of_nat (length (im_dentries img));
  rep_ninode : cell32 m (pb + 4) = Z.of_nat (length (im_files img));
  rep_dir_max : (length (im_dentries img) <= 63)%nat;
  rep_dentry i d : im_dentries img !! i = Some d ->
    let a := pb + 64 + 64 * Z.of_nat i in
    cells m a 32 = d_name d /\ cell32 m (a + 32) = d_type d /\ cell32 m (a + 36) = d_inode d;
  rep_length n f : im_files img !! n = Some f ->
    cell32 m (pb + 4096 + 4096 * Z.of_nat n) = Z.of_nat (length f) /\
    Z.of_nat (length f) <= 1023 * 4096;
  rep_data n f k b : im_files img !! n = Some f -> f !! k = Some b ->
    data_offset m pb img n k < size /\ cell m (pb + data_offset m pb img n k) = b
}.

Lemma cell32_ext (m m' : machine) a :
  (forall q, a <= q < a + 4 -> cell m' q = cell m q) -> cell32 m' a = cell32 m a.
Proof. intros Hq. unfold cell32. by rewrite !Hq by lia. Qed.

(** Only the image, its mapping and the pointers matter. *)
Lemma represents_frame pb size img m m' :
  maps m' (boot_block (fs m)) pb size -> fs m' = fs m ->
  (forall q, pb <= q < pb + size -> cell m' q = cell m q) ->
  represents pb size img m -> represents pb size img m'.
Proof.
  intros Hl Hf Hc [Hmap Haddr Hsize Hino Hdb Hnd Hni Hmax Hdent Hlen Hdata].
  assert (forall n f, im_files img !! n = Some f -> (n < length (im_files img))%nat) as Hn
    by (intros n f Hf'; by eapply lookup_lt_Some).
  assert (forall n f k b, im_files img !! n = Some f -> f !! k = Some b ->
            data_offset m' pb img n k = data_offset m pb img n k) as Hoff.
  { intros n f k b Hf' Hk. unfold data_offset. do 3 f_equal. apply cell32_ext.
    intros q Hq. apply Hc. apply lookup_lt_Some in Hk.
    pose proof (Hn _ _ Hf'). pose proof (proj2 (Hlen _ _ Hf')).
    pose proof (Nat.Div0.div_lt_upper_bound k 4096 1023). lia. }
  split; rewrite ?Hf; try done.
  - rewrite <- Hnd. apply cell32_ext. intros q Hq. apply Hc. lia.
  - rewrite <- Hni. apply cell32_ext. intros q Hq. apply Hc. lia.
  - intros i d Hd. destruct (Hdent i d Hd) as (Hd1 & Hd2 & Hd3). apply lookup_lt_Some in Hd.
    rewrite <- Hd1, <- Hd2, <- Hd3. split; [|split].
    + apply cells_ext. intros q Hq. apply Hc. lia.
    + apply cell32_ext. intros q Hq. apply Hc. lia.
    + apply cell32_ext. intros q Hq. apply Hc. lia.
  - intros n f Hf'. destruct (Hlen n f Hf') as [Hl1 Hl2]. split; [|done].
    rewrite <- Hl1. apply cell32_ext. intros q Hq. apply Hc. pose proof (Hn _ _ Hf'). lia.
  - intros n f k b Hf' Hk. destruct (Hdata n f k b Hf' Hk) as [Hd1 Hd2].
    rewrite (Hoff n f k b Hf' Hk). split; [done|]. rewrite <- Hd2. apply Hc.
    split; [|lia]. unfold data_offset.
    match goal with |- context [cell32 ?mm ?a] => pose proof (cell32_range mm a) end. lia.
Qed.

Lemma represents_ext pb size img m m' :
  (forall a, loc m' a = loc m a) -> fs m' = fs m ->
  (forall q, pb <= q < pb + size -> cell m' q = cell m q) ->
  represents pb size img m -> represents pb size img m'.
Proof.
  intros Hl Hf Hc Hr. eapply represents_frame; [|done|done|exact Hr].
  eapply maps_loc; [exact Hl|apply (rep_maps _ _ _ _ Hr)].
Qed.

Lemma represents_upds pb size img m pa l :
  represents pb size img m ->
  (pa + Z.of_nat (length l) <= pb \/ pb + size <= pa) ->
  represents pb size img (upds m pa l).
Proof.
  intros Hr Hd. eapply represents_ext; [| | |exact Hr].
  - intros a. apply loc_upds.
  - by rewrite upds_phys.
  - intros q Hq. apply cell_upds_out. lia.
Qed.

(** A 32-bit member of the image. *)
Lemma represents_load32 pb size img m off :
  represents pb size img m -> 0 <= off -> off + 4 <= size ->
  load32 (boot_block (fs m) + off) m = (Ok (cell32 m (pb + off)), m).
Proof. intros Hr Hlo Hhi. eapply load32_maps; [apply (rep_maps _ _ _ _ Hr)|done|done]. Qed.

Lemma num_dir_entries_ok pb size img m :
  represents pb size img m ->
  num_dir_entries m = (Ok (Z.of_nat (length (im_dentries img))), m).
Proof.
  intros Hr. unfold num_dir_entries. mrun. rewrite <- (Z.add_0_r (boot_block _)).
  pose proof (rep_size _ _ _ _ Hr).
  rewrite (represents_load32 pb size img) by (done || lia).
  by rewrite Z.add_0_r, (rep_ndir _ _ _ _ Hr).
Qed.

Lemma num_inodes_ok pb size img m :
  represents pb size img m -> num_inodes m = (Ok (Z.of_nat (length (im_files img))), m).
Proof.
  intros Hr. unfold num_inodes. mrun. pose proof (rep_size _ _ _ _ Hr).
  rewrite (represents_load32 pb size img) by (done || (unfold num_inodes_off; lia)).
  unfold num_inodes_off. by rewrite (rep_ninode _ _ _ _ Hr).
Qed.
End Layout.

Section ReadData.
Context `{Platform}.

(** One byte of a file, as the loop of [read_data] fetches it. *)
Lemma data_byte_ok pb size img m n f i off b :
  represents pb size img m -> im_files img !! n = Some f ->
  0 <= off -> 0 <= i -> f !! Z.to_nat (i + off) = Some b ->
  let node := inodes (fs m) + Z.of_nat n * sizeof_inode_t in
  let j := u32 (i + off) in
  exists blk,
    load32 (node + data_block_num_off + Z.shiftr j 12 * 4) m = (Ok blk, m) /\
    load8 (data_blocks (fs m) + blk * sizeof_data_block_t + Z.land j 0xFFF) m = (Ok b, m).
Proof.
  intros Hr Hf Hoff Hi Hb node j.
  pose proof (lookup_lt_Some _ _ _ Hf) as Hn. pose proof (lookup_lt_Some _ _ _ Hb) as Hk.
  destruct (rep_length _ _ _ _ Hr n f Hf) as [_ Hmax].
  destruct (rep_data _ _ _ _ Hr n f _ _ Hf Hb) as [Hoffs Hcell].
  assert (j = i + off) as Hj by (apply u32_small; lia).
  assert (Z.land j 0xFFF = Z.of_nat (Z.to_nat j mod 4096)) as ->.
  { change 0xFFF with (Z.ones 12). rewrite Z.land_ones by lia. change (2 ^ 12) with 4096.
    rewrite Nat2Z.inj_mod, Z2Nat.id by lia. done. }
  assert (Z.shiftr j 12 = Z.of_nat (Z.to_nat j / 4096)) as ->.
  { rewrite Z.shiftr_div_pow2 by lia. change (2 ^ 12) with 4096.
    rewrite Nat2Z.inj_div, Z2Nat.id by lia. done. }
  pose proof (Nat.Div0.div_lt_upper_bound (Z.to_nat j) 4096 1023) as Hdiv.
  unfold node, sizeof_inode_t, data_block_num_off, sizeof_data_block_t.
  rewrite (rep_inodes _ _ _ _ Hr), (rep_data_blocks _ _ _ _ Hr).
  pose proof (rep_size _ _ _ _ Hr). unfold data_offset in Hoffs, Hcell. rewrite <- Hj in Hoffs, Hcell.
  set (blk := cell32 m _) in *. assert (0 <= blk) by apply cell32_range.
  exists blk. split.
  - rewrite <- !Z.add_assoc, (represents_load32 pb size img) by (done || lia).
    subst blk. do 3 f_equal. lia.
  - rewrite <- !Z.add_assoc, (load8_maps m _ pb size) by (first [apply (rep_maps _ _ _ _ Hr)|lia]).
    do 2 f_equal. rewrite <- Hcell. f_equal. lia.
Qed.

Lemma load_inode_length pb size img m n f :
  represents pb size img m -> im_files img !! n = Some f ->
  load32 (inodes (fs m) + Z.of_nat n * sizeof_inode_t) m = (Ok (Z.of_nat (length f)), m).
Proof.
  intros Hr Hf. pose proof (lookup_lt_Some _ _ _ Hf) as Hn. pose proof (rep_size _ _ _ _ Hr).
  rewrite (rep_inodes _ _ _ _ Hr). unfold sizeof_inode_t.
  rewrite <- Z.add_assoc, (represents_load32 pb size img) by (done || lia).
  destruct (rep_length _ _ _ _ Hr n f Hf) as [<- _]. do 2 f_equal. f_equal. lia.
Qed.

(** [read_data] writes the slice of the file, whatever the destination. *)
Lemma read_data_ok P pb size img m n f off len buf :
  represents pb size img m -> im_files img !! n = Some f ->
  0 <= off <= Z.of_nat (length f) -> 0 <= len -> off + len < 4294967296 ->
  advances (file_slice f off len) P -> P 0 buf m ->
  (forall i d t, P i d t -> represents pb size img t /\ fs t = fs m) ->
  let k := Z.of_nat (length (file_slice f off len)) in
  exists d' t', read_data (Z.of_nat n) off buf len m = (Ok (k, d'), t') /\ P k d' t'.
Proof.
  intros Hr Hf Hoff Hlen Hwrap Hadv HP Hst k. unfold read_data.
  destruct (rep_length _ _ _ _ Hr n f Hf) as [_ Hmax].
  go (num_inodes_ok pb size img) by done. pose proof (lookup_lt_Some _ _ _ Hf) as Hn. zb.
  mrun. go (load_inode_length pb size img m n f) by done. zb.
  assert (k = Z.min len (Z.of_nat (length f) - off)) as Hk by (by apply file_slice_length).
  rewrite (u32_small (off + len)) by lia.
  match goal with |- context [_ ≫= ?kont] => set (body := kont) end.
  assert ((if Z.of_nat (length f) <? off + len
           then len0 ← load32 (inodes (fs m) + Z.of_nat n * sizeof_inode_t); mret (u32 (len0 - off))
           else mret len) m = (Ok k, m)) as E1.
  { destruct (Z.ltb_spec (Z.of_nat (length f)) (off + len)).
    - go (load_inode_length pb size img m n f) by done. rewrite u32_small by lia. rewrite ret_run. do 2 f_equal. lia.
    - rewrite ret_run. do 2 f_equal. lia. }
  go E1. subst body. cbv beta.
  while_by (fun '(d, i) t => 0 <= i <= k /\ P i d t)
    (fun '(r, d) t => r = k /\ P k d t) (fun '(_, i) => Z.to_nat (k - i))
    as ([r d] & t & E & -> & HPk); [by fin| |lia|by exists d, t].
  intros [d i] t [Hi HPi]. destruct (Z.ltb_spec i k) as [Hlt|Hge].
  - right. mrun. destruct (Hst _ _ _ HPi) as [Hrt Hfs].
    destruct (data_byte_ok pb size img t n f i off (byte_at (file_slice f off len) i))
      as (blk & Eb & Ec); [done|done|lia|lia|by apply file_slice_byte; lia|].
    rewrite Hfs in Eb, Ec |- *. go Eb. go Ec. destruct (Hadv i d t) as (d' & t' & Ew & HP'); [lia|done|].
    go Ew. exists (d', i + 1), t'. by fin.
  - left. exists (i32 i, d), t. replace i with k in * by lia. rewrite i32_small by lia. by fin.
Qed.
End ReadData.

(** * The directory *)

Section Directory.
Context `{Platform}.

(** The local copy of the entry at index [i] of the directory. *)
Definition entry_bytes (m : machine) (pb : Z) (i : nat) : list Z :=
  cells m (pb + 64 + 64 * Z.of_nat i) 64.

Lemma byte_at_cells (m : machine) a n i :
  0 <= i < Z.of_nat n -> byte_at (cells m a n) i = cell m (a + i).
Proof.
  intros Hi. unfold byte_at. apply list_lookup_total_correct.
  rewrite cells_lookup by lia. do 2 f_equal. lia.
Qed.

Lemma word_at_cells (m : machine) a n i :
  0 <= i -> i + 4 <= Z.of_nat n -> word_at (cells m a n) i = cell32 m (a + i).
Proof.
  intros Hi Hn. unfold word_at, cell32. rewrite !byte_at_cells by lia. by rewrite !Z.add_assoc.
Qed.

Lemma entry_members pb size img m i d :
  represents pb size img m -> im_dentries img !! i = Some d ->
  file_type (Buf (entry_bytes m pb i) 0) = d_type d /\
  inode_num (Buf (entry_bytes m pb i) 0) = d_inode d.
Proof.
  intros Hr Hd. destruct (rep_dentry _ _ _ _ Hr i d Hd) as (_ & Ht & Hi).
  unfold file_type, inode_num, entry_bytes. cbn [contents].
  by rewrite !word_at_cells, <- Ht, <- Hi by done.
Qed.

Lemma dentry_maps pb size img m i :
  represents pb size img m -> (i < length (im_dentries img))%nat ->
  maps m (boot_block (fs m) + dentries_off + Z.of_nat i * sizeof_dentry_t)
    (pb + 64 + 64 * Z.of_nat i) 64.
Proof.
  intros Hr Hi. pose proof (rep_dir_max _ _ _ _ Hr). pose proof (rep_size _ _ _ _ Hr).
  unfold dentries_off, sizeof_dentry_t.
  pose proof (maps_shift m _ pb size (64 + 64 * Z.of_nat i) ltac:(lia) (rep_maps _ _ _ _ Hr)) as Hs.
  replace (boot_block (fs m) + 64 + Z.of_nat i * 64)
    with (boot_block (fs m) + (64 + 64 * Z.of_nat i)) by lia.
  rewrite <- Z.add_assoc. eapply maps_mono; [exact Hs|lia].
Qed.

Lemma reads_prefix (m : machine) a pa n k :
  maps m a pa (Z.of_nat n) -> (k <= n)%nat -> reads m (Raw a) (cells m pa k).
Proof. intros Hm Hk. apply reads_maps. eapply maps_mono; [exact Hm|lia]. Qed.

(** The comparison with the name of an entry. *)
Lemma entry_compare pb size img m i d fname l :
  represents pb size img m -> im_dentries img !! i = Some d ->
  reads m fname l -> Forall is_byte l -> ((32 <= length l)%nat \/ 0 ∈ l) ->
  exists r,
    strncmp fname (Raw (boot_block (fs m) + dentries_off + Z.of_nat i * sizeof_dentry_t))
      FILE_NAME_LENGTH m = (Ok r, m) /\ (r = 0 <-> name_of (d_name d) = name_of l).
Proof.
  intros Hr Hd Hl Hb Hlen. destruct (rep_dentry _ _ _ _ Hr i d Hd) as (Hn & _ & _).
  destruct (strncmp_spec_total 32 l (d_name d)) as [r Hs]; [done| |].
  { left. by rewrite <- Hn, length_cells. }
  exists r. split.
  - eapply strncmp_ok; [exact Hl| |unfold FILE_NAME_LENGTH; lia|exact Hs].
    rewrite <- Hn. apply (reads_prefix m _ _ 64); [|lia]. eapply dentry_maps; [done|]. by eapply lookup_lt_Some.
  - rewrite (strncmp_spec_zero 32 l (d_name d) r Hb); [split; by symmetry| |exact Hs].
    rewrite <- Hn. apply cells_bytes.
Qed.

(** Copying an entry into a local variable. *)
Lemma entry_copy pb size img m i :
  represents pb size img m -> (i < length (im_dentries img))%nat ->
  memcpy local_dentry (Raw (boot_block (fs m) + dentries_off + Z.of_nat i * sizeof_dentry_t))
    sizeof_dentry_t m = (Ok (Buf (entry_bytes m pb i) 0), m).
Proof.
  intros Hr Hi. pose proof (memcpy_to_buf m (replicate 64 0)
    (boot_block (fs m) + dentries_off + Z.of_nat i * sizeof_dentry_t) (pb + 64 + 64 * Z.of_nat i) 64) as E.
  rewrite app_nil_r in E. apply E; [by eapply dentry_maps|lia|done].
Qed.

Lemma read_dentry_by_name_ok pb size img m fname l :
  represents pb size img m -> reads m fname l -> Forall is_byte l ->
  ((32 <= length l)%nat \/ 0 ∈ l) ->
  read_dentry_by_name fname local_dentry m =
  match list_find (fun d => name_of (d_name d) = name_of l) (im_dentries img) with
  | Some (i, _) => (Ok (0, Buf (entry_bytes m pb i) 0), m)
  | None => (Ok (-1, local_dentry), m)
  end.
Proof.
  intros Hr Hl Hb Hlen. unfold read_dentry_by_name.
  set (P := fun d => name_of (d_name d) = name_of l).
  set (res := match list_find P (im_dentries img) with
              | Some (i, _) => (0, Buf (entry_bytes m pb i) 0) | None => (-1, local_dentry) end).
  while_by (fun i t => t = m /\ 0 <= i <= Z.of_nat (length (im_dentries img)) /\
      forall j d, im_dentries img !! j = Some d -> Z.of_nat j < i -> ~ P d)
    (fun r t => t = m /\ r = res) (fun i => Z.to_nat (Z.of_nat (length (im_dentries img)) - i))
    as (r & t & E & -> & ->); [by fin| | |].
  - intros i t (-> & Hi & Hbefore). go (num_dir_entries_ok pb size img) by done.
    destruct (Z.ltb_spec i (Z.of_nat (length (im_dentries img)))) as [Hlt|Hge].
    + destruct (lookup_lt_is_Some_2 (im_dentries img) (Z.to_nat i)) as [d Hd]; [lia|].
      unfold dentry_addr. mrun.
      destruct (entry_compare pb size img m (Z.to_nat i) d fname l) as (r & E & Hz); try done.
      rewrite Z2Nat.id in E by lia. go E. unfold truth. destruct (Z.eqb_spec r 0) as [Hr0|Hr0]; cbn [negb].
      * left. pose proof (entry_copy pb size img m (Z.to_nat i) Hr ltac:(lia)) as Ec.
        rewrite Z2Nat.id in Ec by lia. go Ec. eexists _, m. split; [done|]. split; [done|].
        unfold res. rewrite (proj2 (list_find_Some P (im_dentries img) (Z.to_nat i) d)); [done|].
        split; [done|]. split; [by apply Hz|]. intros j y Hy Hj. apply (Hbefore j y); [done|lia].
      * right. exists (i + 1), m. split; [done|]. split; [|lia]. split; [done|]. split; [lia|].
        intros j y Hy Hj. destruct (decide (Z.of_nat j < i)) as [?|?]; [by apply (Hbefore j y)|].
        assert (j = Z.to_nat i) as -> by lia. rewrite Hd in Hy. injection Hy as <-. unfold P. by rewrite <- Hz.
    + left. eexists _, m. split; [done|]. split; [done|]. unfold res.
      rewrite (proj2 (list_find_None P (im_dentries img))); [done|].
      apply Forall_lookup_2. intros j y Hy. apply (Hbefore j y); [done|]. apply lookup_lt_Some in Hy. lia.
  - pose proof (rep_dir_max _ _ _ _ Hr). lia.
  - rewrite E. unfold res. by destruct (list_find P (im_dentries img)) as [[i d]|].
Qed.
End Directory.

(** * Reading through a descriptor *)

(** The bytes [file_read] lets through: the visible characters, the newline and
    the tab; any other byte becomes a space. *)
Definition sanitize (c : Z) : Z :=
  if ((c <? 32) || (126 <? c)) && negb (c =? 10) && negb (c =? 9) then 32 else c.

Section FileRead.
Context `{Platform}.

(** The loop that replaces the bytes that are not visible. *)
Lemma sanitize_loop m buf pbuf (k : nat) :
  maps m buf pbuf (Z.of_nat k) -> Z.of_nat k < 4294967296 ->
  exists m', for_range 0 (Z.of_nat k) (fun i =>
      c ← load8 (buf + i);
      if ((c <? 32) || (126 <? c)) && negb (c =? 10) && negb (c =? 9)
      then store8 (buf + i) 32 else mret tt) m = (Ok tt, m') /\
    only_phys m m' /\ cells m' pbuf k = sanitize <$> cells m pbuf k /\
    (forall q, ~ pbuf <= q < pbuf + Z.of_nat k -> cell m' q = cell m q).
Proof.
  intros Hmap Hk. rewrite for_range_n by lia. rewrite Z.sub_0_r, Nat2Z.id.
  destruct (for_n_ok (fun i t => only_phys m t /\ forall q,
      cell t q = if (pbuf <=? q) && (q <? pbuf + i) then sanitize (cell m q) else cell m q)
    k 0 (fun i =>
      c ← load8 (buf + i);
      if ((c <? 32) || (126 <? c)) && negb (c =? 10) && negb (c =? 9)
      then store8 (buf + i) 32 else mret tt) m) as (m' & E & Ho & Hc).
  - split; [apply only_phys_refl|]. intros q. rewrite Z.add_0_r.
    destruct (Z.leb_spec pbuf q), (Z.ltb_spec q pbuf); done || lia.
  - intros i t Hi [Ho Hc].
    assert (maps t buf pbuf (Z.of_nat k)) as Hmt.
    { eapply maps_loc; [|exact Hmap]. intros x. by apply only_phys_loc. }
    go (load8_maps t buf pbuf (Z.of_nat k) i) by (assumption || lia).
    pose proof (Hc (pbuf + i)) as Hci. rewrite (proj2 (Z.ltb_ge (pbuf + i) (pbuf + i))), andb_false_r in Hci by lia.
    rewrite Hci. set (c := cell m (pbuf + i)) in *.
    set (b := ((c <? 32) || (126 <? c)) && negb (c =? 10) && negb (c =? 9)).
    exists (if b then upd t (pbuf + i) (u8 32) else t). split; [|split].
    + destruct b; [|done]. by rewrite (store8_maps t buf pbuf (Z.of_nat k) i) by (assumption || lia).
    + destruct b; [by apply only_phys_upd|done].
    + intros q. destruct (Z.eq_dec q (pbuf + i)) as [->|Hq].
      * zb. cbn [andb]. fold c. unfold sanitize. fold b. destruct b; [|done].
        by rewrite cell_upd_eq.
      * assert (cell (if b then upd t (pbuf + i) (u8 32) else t) q = cell t q) as ->.
        { destruct b; [apply cell_upd_ne; lia|done]. }
        rewrite Hc. destruct (Z.leb_spec pbuf q), (Z.ltb_spec q (pbuf + i)),
          (Z.ltb_spec q (pbuf + (i + 1))); cbn [andb]; done || lia.
  - exists m'. split; [done|]. split; [done|]. split.
    + unfold cells. rewrite <- list_fmap_compose. apply list_fmap_ext. intros j x Hj.
      apply lookup_seq in Hj as [-> Hj]. rewrite Hc. cbn. by zb.
    + intros q Hq. rewrite Hc. destruct (Z.leb_spec pbuf q), (Z.ltb_spec q (pbuf + (0 + Z.of_nat k)));
        cbn [andb]; done || lia.
Qed.

(** The descriptor [fd] of the current process is open on [f]. *)
Definition descriptor (m : machine) (fd : Z) (f : file_t) : Prop :=
  0 <= fd < MAX_FILES /\ is_Some (loc m (current m)) /\
  files (pcb_of m (current m)) !! Z.to_nat fd = Some f.

(** The effect of a read on the state: bytes of memory, and the position of
    the descriptor. *)
Definition read_effect (m m' : machine) (fd : Z) (f' : file_t) : Prop :=
  let p := pcb_of m (current m) in
  m' = m <| phys := phys m' |>
         <| pcbs := <[current m := p <| files := <[Z.to_nat fd := f']> (files p) |>]> (pcbs m) |>.

Lemma file_read_ok pb size img m fd f n c buf pbuf nbytes :
  represents pb size img m -> descriptor m fd f ->
  inode f = Z.of_nat n -> im_files img !! n = Some c ->
  0 <= pos f <= Z.of_nat (length c) -> 0 <= nbytes < 2147483648 ->
  let s := file_slice c (pos f) nbytes in
  maps m buf pbuf (Z.of_nat (length s)) ->
  (pbuf + Z.of_nat (length s) <= pb \/ pb + size <= pbuf) ->
  exists m', file_read fd buf nbytes m = (Ok (Z.of_nat (length s)), m') /\
    read_effect m m' fd (f <| pos := pos f + Z.of_nat (length s) |>) /\
    cells m' pbuf (length s) = sanitize <$> s /\
    (forall q, ~ pbuf <= q < pbuf + Z.of_nat (length s) -> cell m' q = cell m q).
Proof.
  intros Hr (Hfd & Hmap & Hf) Hn Hc Hpos Hnb s Hbuf Hdis. unfold file_read, MAX_FILES in *.
  destruct (rep_length _ _ _ _ Hr n c Hc) as [_ Hmax].
  assert (Z.of_nat (length s) = Z.min nbytes (Z.of_nat (length c) - pos f)) as Hs
    by (apply file_slice_length; lia).
  assert (Forall is_byte s) as Hby.
  { apply Forall_lookup_2. intros i b Hi. unfold s, file_slice in Hi.
    apply lookup_take_Some in Hi as [Hi _]. rewrite lookup_drop in Hi.
    destruct (rep_data _ _ _ _ Hr n c _ b Hc Hi) as [_ <-]. apply cell_range. }
  zb. go get_current_pcb_run. go (file_read_at_run m (current m) fd f) by (done || lia).
  pose proof (lookup_lt_Some _ _ _ Hc) as Hlt. pose proof (rep_size _ _ _ _ Hr). pose proof (rep_addr _ _ _ _ Hr).
  rewrite Hn, (u32_small (Z.of_nat n)), (u32_small (pos f)), (u32_small nbytes) by lia.
  destruct (read_data_ok (into_raw m buf pbuf s) pb size img m n c (pos f) nbytes (Raw buf))
    as (d' & m1 & E1 & HP); try done; try lia.
  { by apply advances_raw. }
  { intros i d t [_ ->]. split; [|by rewrite upds_phys].
    apply represents_upds; [done|]. rewrite length_take. lia. }
  fold s in E1, HP. apply into_raw_end in HP as [-> ->]; [|done].
  go E1. zb.
  destruct (sanitize_loop (upds m pbuf s) buf pbuf (length s)) as (m2 & E2 & Ho & Hin & Hout);
    [by apply maps_upds|lia|].
  go E2. assert (only_phys m m2) as Ho2.
  { eapply only_phys_trans; [|exact Ho]. apply only_phys_upds, only_phys_refl. }
  rewrite cells_upds_in in Hin.
  assert (current m2 = current m /\ pcb_of m2 (current m) = pcb_of m (current m)) as [Hcur Hpcb]
    by (rewrite Ho2; done).
  go (file_write_at_run m2 (current m) fd f) by
    (first [rewrite (only_phys_loc m m2) by done; done|rewrite Hpcb; done|lia]).
  rewrite ret_run. eexists. split; [done|]. split; [|split].
  - unfold read_effect. rewrite Hpcb. cbn -[upds pcb_of i32].
    rewrite i32_small by lia. rewrite Ho2. by destruct m.
  - transitivity (cells m2 pbuf (length s)); [done|]. rewrite Hin.
    f_equal. apply list_eq. intros i. rewrite list_lookup_fmap.
    destruct (s !! i) as [b|] eqn:Eb; cbn; [|done]. f_equal. apply u8_small.
    by eapply Forall_lookup_1 in Hby.
  - intros q Hq. transitivity (cell m2 q); [done|]. rewrite Hout by done.
    apply cell_upds_out. lia.
Qed.
End FileRead.

(** * Reading a directory *)

Lemma cprefix_nz n l : Forall (fun b => b <> 0) (cprefix n l).
Proof.
  revert l. induction n as [|n IH]; intros [|c l]; cbn; try constructor.
  destruct (Z.eqb_spec c 0); by constructor.
Qed.

Lemma cprefix_app n l1 l2 : (n <= length l1)%nat -> cprefix n (l1 ++ l2) = cprefix n l1.
Proof.
  revert l1. induction n as [|n IH]; intros [|c l1] Hn; cbn in *; try done; [lia|].
  rewrite IH by lia. done.
Qed.

Lemma length_cprefix_min n k l :
  (n <= k)%nat -> length (cprefix n l) = Nat.min n (length (cprefix k l)).
Proof.
  revert k l. induction n as [|n IH]; intros k l Hk; [done|].
  destruct k as [|k]; [lia|]. destruct l as [|c l]; cbn; [done|].
  destruct (c =? 0); cbn; [done|]. by rewrite (IH k) by lia.
Qed.

Lemma cprefix_terminated n l :
  0 ∈ take n l -> exists rest, l = cprefix n l ++ 0 :: rest.
Proof.
  revert l. induction n as [|n IH]; intros [|c l] Hin; cbn in *; try by apply elem_of_nil in Hin.
  destruct (Z.eqb_spec c 0) as [->|Hc]; [by exists l|].
  apply elem_of_cons in Hin as [?|Hin]; [lia|].
  destruct (IH l Hin) as [rest Hrest]. exists rest. cbn. by f_equal.
Qed.

Lemma strncpy_spec_app n l1 l2 :
  (n <= length l1)%nat -> strncpy_spec n (l1 ++ l2) = strncpy_spec n l1.
Proof. intros Hn. unfold strncpy_spec. by rewrite cprefix_app. Qed.

Section DirRead.
Context `{Platform}.

(** The name, and the bytes that follow it in the entry. *)
Lemma entry_name pb size img m i d :
  represents pb size img m -> im_dentries img !! i = Some d ->
  entry_bytes m pb i = d_name d ++ cells m (pb + 64 + 64 * Z.of_nat i + 32) 32 /\
  length (d_name d) = 32%nat.
Proof.
  intros Hr Hd. destruct (rep_dentry _ _ _ _ Hr i d Hd) as (Hn & _ & _). unfold entry_bytes.
  change 64%nat with (32 + 32)%nat. rewrite cells_add, Hn. split; [done|].
  by rewrite <- Hn, length_cells.
Qed.

(** A name is terminated, if not by itself then by the type that follows. *)
Lemma entry_terminated pb size img m i d :
  represents pb size img m -> im_dentries img !! i = Some d ->
  0 ∈ d_name d \/ d_type d < 16777216 ->
  0 ∈ take 36 (entry_bytes m pb i).
Proof.
  intros Hr Hd Hz. destruct (entry_name _ _ _ _ _ _ Hr Hd) as [Hn Hlen]. rewrite Hn.
  destruct Hz as [Hz|Hz].
  - rewrite take_app_ge, elem_of_app by lia. by left.
  - rewrite take_app_ge, elem_of_app by lia. right. rewrite Hlen.
    destruct (rep_dentry _ _ _ _ Hr i d Hd) as (_ & Ht & _).
    set (a := pb + 64 + 64 * Z.of_nat i + 32) in *.
    assert (cell m (a + 3) = 0) as Hb.
    { unfold cell32, le32 in Ht. pose proof (cell_range m a). pose proof (cell_range m (a + 1)).
      pose proof (cell_range m (a + 2)). pose proof (cell_range m (a + 3)). lia. }
    rewrite <- Hb. change (36 - 32)%nat with 4%nat.
    apply list_elem_of_lookup_2 with 3%nat. rewrite lookup_take_lt by lia. apply cells_lookup. lia.
Qed.

(** The length of the name, as [strlen] and the bound of 32 give it. *)
Lemma entry_strlen pb size img m i d :
  represents pb size img m -> im_dentries img !! i = Some d ->
  0 ∈ d_name d \/ d_type d < 16777216 ->
  exists n, strlen (Raw (boot_block (fs m) + dentries_off + Z.of_nat i * sizeof_dentry_t)) m =
            (Ok n, m) /\ 0 <= n <= 36 /\
            (if FILE_NAME_LENGTH <? n then FILE_NAME_LENGTH else n) =
              Z.of_nat (length (name_of (d_name d))).
Proof.
  intros Hr Hd Hz. destruct (entry_name _ _ _ _ _ _ Hr Hd) as [Hn Hlen].
  destruct (cprefix_terminated 36 _ (entry_terminated _ _ _ _ _ _ Hr Hd Hz)) as [rest Hrest].
  set (l := cprefix 36 (entry_bytes m pb i)) in *.
  pose proof (length_cprefix 36 (entry_bytes m pb i)) as Hl. fold l in Hl.
  exists (Z.of_nat (length l)). split; [|split; [lia|]].
  - apply strlen_ok; [|apply cprefix_nz|lia].
    apply (reads_app_l _ _ (l ++ [0]) rest). rewrite <- app_assoc. change ([0] ++ rest) with (0 :: rest). rewrite <- Hrest.
    apply reads_maps. eapply dentry_maps; [done|by eapply lookup_lt_Some].
  - unfold name_of, FILE_NAME_LENGTH. change (Z.to_nat 32) with 32%nat.
    rewrite <- (cprefix_app 32 (d_name d) (cells m (pb + 64 + 64 * Z.of_nat i + 32) 32)) by lia.
    rewrite <- Hn. rewrite (length_cprefix_min 32 36) by lia. fold l.
    destruct (Z.ltb_spec 32 (Z.of_nat (length l))); lia.
Qed.

Lemma dir_read_ok pb size img m fd f i d buf pbuf nbytes :
  represents pb size img m -> descriptor m fd f ->
  pos f = Z.of_nat i -> im_dentries img !! i = Some d ->
  0 ∈ d_name d \/ d_type d < 16777216 ->
  0 <= nbytes < 2147483648 ->
  let k := Z.to_nat (Z.min nbytes 32) in
  maps m buf pbuf (Z.of_nat k) ->
  (pbuf + Z.of_nat k <= pb \/ pb + size <= pbuf) ->
  exists m', dir_read fd buf nbytes m = (Ok (Z.of_nat (length (name_of (d_name d)))), m') /\
    read_effect m m' fd (f <| pos := pos f + 1 |>) /\
    cells m' pbuf k = strncpy_spec k (d_name d) /\
    (forall q, ~ pbuf <= q < pbuf + Z.of_nat k -> cell m' q = cell m q).
Proof.
  intros Hr (Hfd & Hmap & Hf) Hpos Hd Hz Hnb k Hbuf Hdis. unfold dir_read, MAX_FILES in *.
  pose proof (lookup_lt_Some _ _ _ Hd) as Hi. pose proof (rep_dir_max _ _ _ _ Hr) as Hmax.
  destruct (entry_name _ _ _ _ _ _ Hr Hd) as [Hn Hlen].
  go get_current_pcb_run. go (file_read_at_run m (current m) fd f) by (done || lia).
  go (num_dir_entries_ok pb size img) by done. rewrite Hpos, (u32_small (Z.of_nat i)) by lia. zb.
  unfold dentry_addr. mrun.
  assert ((if FILE_NAME_LENGTH <? nbytes then FILE_NAME_LENGTH else nbytes) = Z.of_nat k) as ->.
  { unfold FILE_NAME_LENGTH, k. destruct (Z.ltb_spec 32 nbytes); lia. }
  rewrite (u32_small (Z.of_nat k)) by lia.
  set (a := boot_block (fs m) + dentries_off + Z.of_nat i * sizeof_dentry_t).
  assert (strncpy_spec k (entry_bytes m pb i) = strncpy_spec k (d_name d)) as Hspec.
  { rewrite Hn. apply strncpy_spec_app. lia. }
  set (s := strncpy_spec k (d_name d)) in *.
  assert (length s = k) as Hsl by apply length_strncpy_spec.
  destruct (strncpy_ok (into_raw m buf pbuf s) (Raw buf) (Raw a) (entry_bytes m pb i)
    (Z.of_nat k) m) as (d' & m1 & E1 & HP).
  { rewrite Nat2Z.id, Hspec. apply advances_raw. by rewrite Hsl. }
  { done. }
  { lia. }
  { pose proof (length_cprefix (Z.to_nat (Z.of_nat k)) (entry_bytes m pb i)).
    rewrite Hn, length_app, length_cells in *. lia. }
  { intros j d0 t [_ ->] Hj. pose proof (length_cprefix (Z.to_nat (Z.of_nat k)) (entry_bytes m pb i)).
    assert (represents pb size img (upds m pbuf (take (Z.to_nat j) s))) as Hrt.
    { apply represents_upds; [done|]. rewrite length_take. lia. }
    assert (entry_bytes (upds m pbuf (take (Z.to_nat j) s)) pb i = entry_bytes m pb i) as <-.
    { apply cells_upds_out. rewrite length_take. pose proof (rep_size _ _ _ _ Hr). lia. }
    assert (fs (upds m pbuf (take (Z.to_nat j) s)) = fs m) as Hfs by (by rewrite upds_phys).
    unfold a. rewrite <- Hfs. apply (reads_maps _ _ _ 64); [by eapply dentry_maps|].
    rewrite length_cells. lia. }
  apply into_raw_end in HP as [-> ->]; [|by rewrite Hsl]. go E1.
  set (m1 := upds m pbuf s). assert (only_phys m m1) as Ho by apply only_phys_upds, only_phys_refl.
  assert (current m1 = current m /\ pcb_of m1 (current m) = pcb_of m (current m)) as [Hcur Hpcb]
    by (rewrite Ho; done).
  go (file_write_at_run m1 (current m) fd f) by
    (first [rewrite (only_phys_loc m m1) by done; done|rewrite Hpcb; done|lia]).
  rewrite bind_run. match goal with |- context [strlen _ ?mm] => set (m2 := mm) end.
  assert (represents pb size img m2) as Hr2.
  { eapply (represents_ext pb size img m1); [done|done|done|].
    apply represents_upds; [done|]. rewrite Hsl. lia. }
  destruct (entry_strlen pb size img m2 i d Hr2 Hd Hz) as (n & E2 & Hn2 & Hret).
  assert (fs m2 = fs m) as Hfs by (unfold m2; rewrite Ho; done).
  rewrite Hfs in E2. unfold a. go E2. rewrite i32_small, Hret, ret_run by lia.
  exists m2. split; [done|]. split; [|split].
  - unfold read_effect, m2. rewrite Hpcb. cbn -[pcb_of i32]. rewrite i32_small by lia.
    rewrite Ho, Hpos. by destruct m.
  - transitivity (cells m1 pbuf k); [done|]. rewrite <- Hsl at 1. unfold m1.
    rewrite cells_upds_in. apply list_eq. intros j. rewrite list_lookup_fmap.
    destruct (s !! j) as [b|] eqn:Eb; cbn; [|done]. f_equal. apply u8_small.
    assert (Forall is_byte s) as Hby.
    { apply strncpy_spec_bytes. destruct (rep_dentry _ _ _ _ Hr i d Hd) as (<- & _). apply cells_bytes. }
    by eapply Forall_lookup_1 in Hby.
  - intros q Hq. transitivity (cell m1 q); [done|]. apply cell_upds_out. lia.
Qed.

Lemma dir_read_end pb size img m fd f buf nbytes :
  represents pb size img m -> descriptor m fd f ->
  Z.of_nat (length (im_dentries img)) <= pos f < 2147483648 ->
  dir_read fd buf nbytes m = (Ok 0, m).
Proof.
  intros Hr (Hfd & Hmap & Hf) Hpos. unfold dir_read, MAX_FILES in *.
  go get_current_pcb_run. go (file_read_at_run m (current m) fd f) by (done || lia).
  go (num_dir_entries_ok pb size img) by done. rewrite u32_small by lia. by zb.
Qed.
End DirRead.

(** * Reading a whole file *)

Section Sequence.
Context `{Platform}.

(** A client that reads [nbytes] at a time into the same buffer until a read
    returns 0, and collects what each read has left there. *)
Fixpoint read_all (fuel : nat) (fd buf pbuf nbytes : Z) : K (list Z) :=
  match fuel with
  | O => raise Diverges
  | S fuel =>
      r ← file_read fd buf nbytes;
      if r <=? 0 then mret []
      else
        l ← gets (fun m => cells m pbuf (Z.to_nat r));
        rest ← read_all fuel fd buf pbuf nbytes;
        mret (l ++ rest)
  end.

Lemma read_effect_descriptor m m' fd f f' :
  descriptor m fd f -> read_effect m m' fd f' -> descriptor m' fd f'.
Proof.
  intros (Hfd & Hmap & Hf) Heff. assert (current m' = current m) as Hc by (rewrite Heff; done).
  split; [done|]. rewrite Hc. split.
  - assert (loc m' (current m) = loc m (current m)) as -> by (rewrite Heff; done). done.
  - rewrite Heff. unfold pcb_of at 1. cbn -[current pcb_of]. rewrite lookup_insert_eq. cbn -[current pcb_of].
    rewrite list_lookup_insert_eq; [done|]. by eapply lookup_lt_Some.
Qed.

Lemma read_effect_frame pb size img m m' fd f' a pa n q k :
  read_effect m m' fd f' -> (forall x, ~ q <= x < q + k -> cell m' x = cell m x) ->
  (q + k <= pb \/ pb + size <= q) ->
  represents pb size img m -> maps m a pa n ->
  represents pb size img m' /\ maps m' a pa n.
Proof.
  intros Heff Hc Hdis Hr Hm. assert (forall x, loc m' x = loc m x) as Hl by (intros x; rewrite Heff; done).
  split; [|by eapply maps_loc]. eapply represents_ext; [done|by rewrite Heff| |done].
  intros x Hx. apply Hc. lia.
Qed.

Lemma file_slice_drop (c : list Z) off len :
  0 <= off -> 0 <= len ->
  file_slice c off len ++ drop (Z.to_nat off + length (file_slice c off len)) c =
  drop (Z.to_nat off) c.
Proof.
  intros Ho Hl. unfold file_slice. rewrite length_take, length_drop.
  rewrite <- (take_drop (Z.to_nat len) (drop (Z.to_nat off) c)) at 2. f_equal.
  rewrite drop_drop.
  destruct (decide (Z.to_nat len <= length c - Z.to_nat off)%nat).
  - by rewrite Nat.min_l by done.
  - rewrite !drop_ge; [done|lia..].
Qed.

Lemma read_all_ok fuel : forall pb size img m fd f n c buf pbuf nbytes,
  represents pb size img m -> descriptor m fd f ->
  inode f = Z.of_nat n -> im_files img !! n = Some c ->
  0 <= pos f <= Z.of_nat (length c) -> 1 <= nbytes < 2147483648 ->
  maps m buf pbuf nbytes -> (pbuf + nbytes <= pb \/ pb + size <= pbuf) ->
  (Z.of_nat (length c) - pos f < Z.of_nat fuel) ->
  exists m', read_all fuel fd buf pbuf nbytes m =
             (Ok (sanitize <$> drop (Z.to_nat (pos f)) c), m').
Proof.
  induction fuel as [|fuel IH];
    intros pb size img m fd f n c buf pbuf nbytes Hr Hd Hn Hc Hpos Hnb Hbuf Hdis Hfuel; [lia|].
  pose proof (file_slice_length c (pos f) nbytes ltac:(lia) ltac:(lia)) as Hs.
  destruct (file_read_ok pb size img m fd f n c buf pbuf nbytes) as (m1 & E & Heff & Hin & Hout);
    try done; try lia.
  { eapply maps_mono; [exact Hbuf|lia]. }
  cbn [read_all]. go E. set (s := file_slice c (pos f) nbytes) in *.
  destruct (Z.leb_spec (Z.of_nat (length s)) 0) as [Hz|Hz].
  - exists m1. rewrite ret_run. rewrite drop_ge by lia. done.
  - mrun. rewrite Nat2Z.id, Hin.
    destruct (read_effect_frame pb size img m m1 fd _ buf pbuf nbytes pbuf (Z.of_nat (length s))
      Heff Hout ltac:(lia) Hr Hbuf) as [Hr1 Hbuf1].
    destruct (IH pb size img m1 fd (f <| pos := pos f + Z.of_nat (length s) |>) n c buf pbuf nbytes)
      as (m' & E'); try done; cbn [pos inode set_field]; try lia.
    { by eapply read_effect_descriptor. }
    rewrite E', ret_run. exists m'. cbn [pos set_field]. do 2 f_equal.
    rewrite <- fmap_app. f_equal. rewrite Z2Nat.inj_add, Nat2Z.id by lia.
    apply file_slice_drop; lia.
Qed.
End Sequence.

(** * A small file system

    The directory holds the directory itself, ["."], and the file ["f"], whose
    four bytes are [h], [i], the bell and the newline.  It is loaded at 0x20000;
    descriptor 2 of process 0 is open on ["f"], and descriptor 3 on ["."]. *)

Definition demo_image : image := Image
  [Dentry (46 :: replicate 31 0) 1 0; Dentry (102 :: replicate 31 0) 2 0] [[104; 105; 7; 10]].

Definition demo_phys : gmap Z Z := list_to_map
  [(0x20000, 2); (0x20004, 1); (0x20008, 1);
   (0x20040, 46); (0x20060, 1);
   (0x20080, 102); (0x200a0, 2);
   (0x21000, 4);
   (0x22000, 104); (0x22001, 105); (0x22002, 7); (0x22003, 10)].

Definition demo_files : list file_t :=
  [File 0 1 0 stdin_ops; File 0 1 0 stdout_ops; File 0 1 0 file_ops; File 0 1 0 dir_ops] ++
  replicate 4 (File 0 0 0 fail_ops).

Definition demo_machine : machine := boot_machine
  <| phys := demo_phys |> <| fs := Rofs 0x20000 0x21000 0x22000 |>
  <| cpu ::= fun c => c <| cpu_esp := 0x7FFFF0 |> |>
  <| pcbs := {[0x7FE000 := zero_pcb <| files := demo_files |>]} |>.

Section Demo.
Context `{Platform}.

Lemma demo_maps a n : 0 <= a -> a + n <= 4294967296 -> maps demo_machine a a n.
Proof. intros Ha Hn i Hi. unfold loc. cbn. by rewrite u32_small by lia. Qed.

Lemma demo_represents : represents 0x20000 0x3000 demo_image demo_machine.
Proof.
  split.
  - apply demo_maps; cbn; lia.
  - cbn. lia.
  - cbn. lia.
  - reflexivity.
  - reflexivity.
  - vm_compute. reflexivity.
  - vm_compute. reflexivity.
  - cbn. lia.
  - intros [|[|i]] d Hd; [injection Hd as <-..|done]; vm_compute; done.
  - intros [|n] f Hf; [injection Hf as <-|done]. split; [vm_compute; done|cbn; lia].
  - intros [|n] f k b Hf Hk; [injection Hf as <-|done].
    destruct k as [|[|[|[|k]]]]; [injection Hk as <-..|done]; vm_compute; done.
Qed.

Lemma demo_descriptor fd f :
  0 <= fd < 8 -> demo_files !! Z.to_nat fd = Some f -> descriptor demo_machine fd f.
Proof. intros Hfd Hf. split; [exact Hfd|]. split; [by eexists|exact Hf]. Qed.
End Demo.

(** * Properties *)

Section Properties.
Context `{Platform}.

(** What a successful look-up leaves in the local entry. *)
Definition is_entry (dentry : ptr) (d : dentry_s) : Prop :=
  file_type dentry = d_type d /\ inode_num dentry = d_inode d.

(** Entry [i] of the directory, copied out: all of its 64 bytes, which begin with the name. *)
Definition copied (m : machine) (pb : Z) (i : nat) (dentry : ptr) (d : dentry_s) : Prop :=
  dentry = Buf (cells m (pb + 64 + 64 * Z.of_nat i) 64) 0 /\ take 32 (contents dentry) = d_name d /\ is_entry dentry d.

Lemma entry_copied pb size img m i d :
  represents pb size img m -> im_dentries img !! i = Some d -> copied m pb i (Buf (entry_bytes m pb i) 0) d.
Proof.
  intros Hr Hd. split; [done|]. split; [|by eapply entry_members].
  destruct (entry_name _ _ _ _ _ _ Hr Hd) as [Hn Hlen]. cbn [contents]. by rewrite Hn, take_app_length'.
Qed.

(** A C string that names a file. *)
Record names (m : machine) (fname : ptr) (l : list Z) : Prop := {
  nm_reads : reads m fname l;
  nm_bytes : Forall is_byte l;
  nm_end : (32 <= length l)%nat \/ 0 ∈ l
}.

Lemma find_name_ok pb size img m fname l :
  represents pb size img m -> names m fname l ->
  match find_dentry img l with
  | Some d => exists dentry, read_dentry_by_name fname local_dentry m = (Ok (0, dentry), m) /\
                             is_entry dentry d
  | None => read_dentry_by_name fname local_dentry m = (Ok (-1, local_dentry), m)
  end.
Proof.
  intros Hr [Hl Hb Hlen]. rewrite (read_dentry_by_name_ok pb size img m fname l Hr Hl Hb Hlen).
  unfold find_dentry. destruct (list_find _ _) as [[i d]|] eqn:E; cbn; [|done].
  apply list_find_Some in E as (Hd & _). eexists. split; [done|]. by eapply entry_members.
Qed.

Lemma open_kind_ok pb size img m fname l :
  represents pb size img m -> names m fname l ->
  let kind := d_type <$> find_dentry img l in
  file_open fname m = (Ok (if decide (kind = Some file) then 0 else -1), m) /\
  dir_open fname m = (Ok (if decide (kind = Some dir) then 0 else -1), m).
Proof.
  intros Hr Hn kind. pose proof (find_name_ok _ _ _ _ _ _ Hr Hn) as Hf. unfold kind, file_open, dir_open.
  destruct (find_dentry img l) as [d|]; [|by rewrite !bind_run, Hf].
  destruct Hf as (dentry & E & Ht & _). rewrite !bind_run, E. cbn -[file_type]. rewrite Ht. split.
  - destruct (Z.eqb_spec (d_type d) file) as [->|Hne]; cbn; [by rewrite decide_True|].
    rewrite decide_False; [done|]. congruence.
  - destruct (Z.eqb_spec (d_type d) dir) as [->|Hne]; cbn; [by rewrite decide_True|].
    rewrite decide_False; [done|]. congruence.
Qed.
End Properties.

(** Setting up the file system: when the bytes at [base] hold an image,
    [init_rofs] leaves the pointers from which the driver finds the directory,
    the index nodes and the data blocks of that image, and changes nothing else. *)
Theorem init_rofs_represents `{Platform} (m : machine) (base pb size : Z) (img : image) :
  let nodes := base + 4096 in
  let m' := m <| fs := Rofs base nodes (nodes + 4096 * Z.of_nat (length (im_files img))) |> in
  0 <= base < 4294967296 -> represents pb size img m' -> init_rofs base m = (Ok tt, m').
Proof.
  intros nodes m' Hb Hr. subst m' nodes. unfold init_rofs. mrun.
  pose proof (rep_size _ _ _ _ Hr) as Hs. pose proof (rep_addr _ _ _ _ Hr) as Ha.
  pose proof (rep_maps _ _ _ _ Hr) as Hm. cbn in Ha, Hm.
  set (m1 := m <| fs ::= _ |> <| fs ::= _ |>).
  assert (maps m1 base pb size) as Hm1 by (eapply maps_loc; [|exact Hm]; done).
  go (load32_maps m1 base pb size num_inodes_off) by (done || (unfold num_inodes_off; lia)).
  rewrite modify_run. pose proof (rep_ninode _ _ _ _ Hr) as Hn.
  unfold sizeof_boot_block_t, sizeof_inode_t, num_inodes_off.
  change (cell32 m1 (pb + 4)) with (cell32 (m <| fs := Rofs base (base + 4096)
    (base + 4096 + 4096 * Z.of_nat (length (im_files img))) |>) (pb + 4)).
  rewrite Hn. subst m1. cbn [fs set_field boot_block inodes data_blocks]. csmall.
  cbn. do 3 f_equal; unfold sizeof_boot_block_t; csmall; lia.
Qed.

Lemma init_rofs_represents_witness :
  let P := plain_platform in
  init_rofs 0x20000 (demo_machine <| fs := Rofs 0 0 0 |>) = (Ok tt, demo_machine).
Proof.
  intros P.
  exact (init_rofs_represents (demo_machine <| fs := Rofs 0 0 0 |>) 0x20000 0x20000 0x3000 demo_image
    ltac:(lia) demo_represents).
Defined.

(** C8. Look-up by name refines the directory of the abstract image: the first
    entry whose name, cut at 32 bytes and at the first null, is the one asked for
    is copied out, all of its 64 bytes, with result 0; -1, with nothing copied, when there is
    none. *)
Theorem read_dentry_by_name_refines `{Platform} (m : machine) (pb size : Z) (img : image)
    (fname : ptr) (l : list Z) :
  represents pb size img m -> reads m fname l -> Forall is_byte l ->
  (32 <= length l)%nat \/ 0 ∈ l ->
  match find_dentry img l with
  | Some d => exists i dentry, im_dentries img !! i = Some d /\
      (forall j e, (j < i)%nat -> im_dentries img !! j = Some e -> name_of (d_name e) <> name_of l) /\
      read_dentry_by_name fname local_dentry m = (Ok (0, dentry), m) /\ copied m pb i dentry d
  | None => read_dentry_by_name fname local_dentry m = (Ok (-1, local_dentry), m)
  end.
Proof.
  intros Hr Hl Hb Hlen. rewrite (read_dentry_by_name_ok pb size img m fname l Hr Hl Hb Hlen).
  unfold find_dentry. destruct (list_find _ _) as [[i d]|] eqn:E; cbn; [|done].
  apply list_find_Some in E as (Hd & _ & Hfirst). exists i. eexists. split; [exact Hd|].
  split; [intros j e Hj He; by apply (Hfirst j e)|]. split; [done|]. by eapply entry_copied.
Qed.

Lemma read_dentry_by_name_refines_witness :
  let P := plain_platform in
  (exists dentry, read_dentry_by_name (cstr [102]) local_dentry demo_machine =
                    (Ok (0, dentry), demo_machine) /\ file_type dentry = file) /\
  read_dentry_by_name (cstr [103]) local_dentry demo_machine = (Ok (-1, local_dentry), demo_machine).
Proof.
  intros P. split.
  - destruct (read_dentry_by_name_refines demo_machine 0x20000 0x3000 demo_image (cstr [102]) [102; 0])
      as (i & dentry & _ & _ & E & _ & _ & Ht & _).
    + apply demo_represents.
    + apply reads_buf0.
    + repeat constructor; done.
    + right. set_solver.
    + exists dentry. split; [exact E|exact Ht].
  - apply (read_dentry_by_name_refines demo_machine 0x20000 0x3000 demo_image (cstr [103]) [103; 0]).
    + apply demo_represents.
    + apply reads_buf0.
    + repeat constructor; done.
    + right. set_solver.
Defined.

(** C9. Look-up by index: entry [i] of the directory is copied out, all of its 64 bytes, with
    result 0; an index past the last entry gives -1, with nothing copied. *)
Theorem read_dentry_by_index_refines `{Platform} (m : machine) (pb size : Z) (img : image) (i : nat) :
  represents pb size img m ->
  match im_dentries img !! i with
  | Some d => exists dentry, read_dentry_by_index (Z.of_nat i) local_dentry m = (Ok (0, dentry), m) /\
                             copied m pb i dentry d
  | None => read_dentry_by_index (Z.of_nat i) local_dentry m = (Ok (-1, local_dentry), m)
  end.
Proof.
  intros Hr. unfold read_dentry_by_index. rewrite bind_run, (num_dir_entries_ok pb size img) by done.
  destruct (im_dentries img !! i) as [d|] eqn:Hd.
  - pose proof (lookup_lt_Some _ _ _ Hd) as Hi. zb. unfold dentry_addr. mrun.
    go (entry_copy pb size img m i) by done.
    eexists. split; [done|]. by eapply entry_copied.
  - apply lookup_ge_None_1 in Hd. by zb.
Qed.

Lemma read_dentry_by_index_refines_witness :
  let P := plain_platform in
  exists dentry, read_dentry_by_index 1 local_dentry demo_machine = (Ok (0, dentry), demo_machine) /\
    file_type dentry = 2.
Proof.
  intros P.
  destruct (read_dentry_by_index_refines demo_machine 0x20000 0x3000 demo_image 1) as (dentry & E & _ & _ & Ht & _).
  - apply demo_represents.
  - exists dentry. split; [exact E|exact Ht].
Defined.

(** C6. Reading file data refines the abstract contents: the bytes of the file
    from [off], at most [len] of them and none past its end, are stored at the
    buffer and their number is returned, across the scattered data blocks; -1
    for an index node that does not exist and for an offset past the end, with
    nothing stored.  The offset and the length must not wrap around together. *)
Theorem read_data_refines `{Platform} (m : machine) (pb size : Z) (img : image)
    (n : nat) (off buf pbuf len : Z) :
  represents pb size img m -> 0 <= off -> 0 <= len -> off + len < 4294967296 ->
  match im_files img !! n with
  | None => read_data (Z.of_nat n) off (Raw buf) len m = (Ok (-1, Raw buf), m)
  | Some c =>
      if Z.of_nat (length c) <? off
      then read_data (Z.of_nat n) off (Raw buf) len m = (Ok (-1, Raw buf), m)
      else
        let s := file_slice c off len in
        maps m buf pbuf (Z.of_nat (length s)) ->
        (pbuf + Z.of_nat (length s) <= pb \/ pb + size <= pbuf) ->
        read_data (Z.of_nat n) off (Raw buf) len m =
        (Ok (Z.of_nat (length s), Raw buf), upds m pbuf s)
  end.
Proof.
  intros Hr Hoff Hlen Hwrap. destruct (im_files img !! n) as [c|] eqn:Hc.
  - destruct (Z.ltb_spec (Z.of_nat (length c)) off) as [Hgt|Hle].
    + unfold read_data. go (num_inodes_ok pb size img) by done.
      pose proof (lookup_lt_Some _ _ _ Hc). zb. mrun. go (load_inode_length pb size img m n c) by done.
      by zb.
    + intros s Hbuf Hdis.
      destruct (read_data_ok (into_raw m buf pbuf s) pb size img m n c off len (Raw buf))
        as (d' & m1 & E & HP); try done.
      { by apply advances_raw. }
      { intros i d t [_ ->]. split; [|by rewrite upds_phys].
        apply represents_upds; [done|]. rewrite length_take. lia. }
      apply into_raw_end in HP as [-> ->]; done.
  - apply lookup_ge_None_1 in Hc. unfold read_data. go (num_inodes_ok pb size img) by done. by zb.
Qed.

Lemma read_data_refines_witness :
  let P := plain_platform in
  read_data 0 1 (Raw 0x1000) 100 demo_machine =
    (Ok (3, Raw 0x1000), upds demo_machine 0x1000 [105; 7; 10]) /\
  read_data 0 5 (Raw 0x1000) 100 demo_machine = (Ok (-1, Raw 0x1000), demo_machine) /\
  read_data 1 0 (Raw 0x1000) 100 demo_machine = (Ok (-1, Raw 0x1000), demo_machine).
Proof.
  intros P. pose proof demo_represents as Hr. split; [|split].
  - apply (read_data_refines demo_machine 0x20000 0x3000 demo_image 0 1 0x1000 0x1000 100 Hr);
      [lia|lia|lia|apply demo_maps; vm_compute; done|left; vm_compute; done].
  - apply (read_data_refines demo_machine 0x20000 0x3000 demo_image 0 5 0x1000 0x1000 100 Hr); lia.
  - apply (read_data_refines demo_machine 0x20000 0x3000 demo_image 1 0 0x1000 0x1000 100 Hr); lia.
Defined.

(** C7. A whole file: reading a descriptor [nbytes] at a time until a read
    returns 0 yields, in order and without loss or repetition, the rest of the
    file from the position, each byte that is not a visible character, a newline
    or a tab being replaced by a space.  The sequence always ends. *)
Theorem file_read_sequence `{Platform} (m : machine) (pb size : Z) (img : image) (fd : Z)
    (f : file_t) (n : nat) (c : list Z) (buf pbuf nbytes : Z) :
  represents pb size img m -> descriptor m fd f ->
  inode f = Z.of_nat n -> im_files img !! n = Some c ->
  0 <= pos f <= Z.of_nat (length c) -> 1 <= nbytes < 2147483648 ->
  maps m buf pbuf nbytes -> (pbuf + nbytes <= pb \/ pb + size <= pbuf) ->
  exists m', read_all (S (length c)) fd buf pbuf nbytes m =
             (Ok (sanitize <$> drop (Z.to_nat (pos f)) c), m').
Proof.
  intros Hr Hd Hn Hc Hpos Hnb Hbuf Hdis.
  apply (read_all_ok (S (length c)) pb size img m fd f n c buf pbuf nbytes); try done; lia.
Qed.

Lemma file_read_sequence_witness :
  let P := plain_platform in
  exists m', read_all 5 2 0x1000 0x1000 3 demo_machine = (Ok [104; 105; 32; 10], m').
Proof.
  intros P.
  apply (file_read_sequence demo_machine 0x20000 0x3000 demo_image 2 (File 0 1 0 file_ops) 0
    [104; 105; 7; 10] 0x1000 0x1000 3).
  - apply demo_represents.
  - apply demo_descriptor; [lia|reflexivity].
  - reflexivity.
  - reflexivity.
  - cbn. lia.
  - lia.
  - apply demo_maps; lia.
  - lia.
Defined.

(** C24. Reading a directory: each read stores the name of the entry at the
    position, padded with null bytes to the number of bytes asked for (32 at
    most), advances the position by one entry and returns the length of the
    name, not the number of bytes stored; past the last entry it returns 0. *)
Theorem dir_read_entries `{Platform} (m : machine) (pb size : Z) (img : image) (fd : Z)
    (f : file_t) (i : nat) (buf pbuf nbytes : Z) :
  represents pb size img m -> descriptor m fd f -> pos f = Z.of_nat i -> pos f < 2147483648 ->
  0 <= nbytes < 2147483648 ->
  match im_dentries img !! i with
  | None => dir_read fd buf nbytes m = (Ok 0, m)
  | Some d =>
      let k := Z.to_nat (Z.min nbytes 32) in
      0 ∈ d_name d \/ d_type d < 16777216 ->
      maps m buf pbuf (Z.of_nat k) -> (pbuf + Z.of_nat k <= pb \/ pb + size <= pbuf) ->
      exists m', dir_read fd buf nbytes m = (Ok (Z.of_nat (length (name_of (d_name d)))), m') /\
        read_effect m m' fd (f <| pos := pos f + 1 |>) /\
        cells m' pbuf k = strncpy_spec k (d_name d) /\
        (forall q, ~ pbuf <= q < pbuf + Z.of_nat k -> cell m' q = cell m q)
  end.
Proof.
  intros Hr Hd Hpos Hmax Hnb. destruct (im_dentries img !! i) as [d|] eqn:Hi.
  - intros k Hz Hbuf Hdis. by eapply dir_read_ok.
  - apply lookup_ge_None_1 in Hi. eapply dir_read_end; [done|done|lia].
Qed.

Lemma dir_read_entries_witness :
  let P := plain_platform in
  exists m', dir_read 3 0x1000 4 demo_machine = (Ok 1, m') /\ cells m' 0x1000 4 = [46; 0; 0; 0].
Proof.
  intros P.
  destruct (dir_read_entries demo_machine 0x20000 0x3000 demo_image 3 (File 0 1 0 dir_ops) 0
    0x1000 0x1000 4) as (m' & E & _ & Hc & _).
  - apply demo_represents.
  - apply demo_descriptor; [lia|reflexivity].
  - reflexivity.
  - cbn. lia.
  - lia.
  - right. cbn. lia.
  - apply demo_maps; vm_compute; done.
  - left. vm_compute. done.
  - exists m'. split; [exact E|exact Hc].
Defined.

(** Opening checks existence and kind: [file_open] succeeds exactly on the
    names of entries of type 2 and [dir_open] on those of type 1; anything else,
    an unknown name included, is -1, and no state changes. *)
Theorem open_checks_kind `{Platform} (m : machine) (pb size : Z) (img : image)
    (fname : ptr) (l : list Z) :
  represents pb size img m -> reads m fname l -> Forall is_byte l ->
  (32 <= length l)%nat \/ 0 ∈ l ->
  let kind := d_type <$> find_dentry img l in
  file_open fname m = (Ok (if decide (kind = Some file) then 0 else -1), m) /\
  dir_open fname m = (Ok (if decide (kind = Some dir) then 0 else -1), m).
Proof. intros Hr Hl Hb Hlen. by apply (open_kind_ok pb size). Qed.

Lemma open_checks_kind_witness :
  let P := plain_platform in
  file_open (cstr [102]) demo_machine = (Ok 0, demo_machine) /\
  dir_open (cstr [102]) demo_machine = (Ok (-1), demo_machine).
Proof.
  intros P. apply (open_checks_kind demo_machine 0x20000 0x3000 demo_image (cstr [102]) [102; 0]).
  - apply demo_represents.
  - apply reads_buf0.
  - repeat constructor; done.
  - right. set_solver.
Defined.
