(* ===== verification/Paging.v ===== *)
(** [student-distrib/paging.c]: the page directory and the page tables, and what
    the processor translates with them. *)

From S2P Require Import Prelude Memory Machine.

Definition ARR_SIZE : Z := 1024.
Definition FOUR_KB : Z := 4096.
Definition FOUR_MB : Z := 4194304.
Definition VID_MEM_LOC : Z := 0xB8.
Definition RW_FLAGS : Z := 0x87.
Definition PAGE_DIR_FLAGS : Z := 0x83.
Definition RWP_FLAGS : Z := 7.

(** [a[i] = f(a[i])] on an array of 1024 entries. *)
Definition set_table (proj : (list Z -> list Z) -> tables -> tables) (i : Z) (f : Z -> Z) : K unit :=
  if (i <? 0) || (ARR_SIZE <=? i) then raise OutOfBounds
  else modify (fun m => m <| pg ::= fun p => p <| tabs ::= proj (alter f (Z.to_nat i)) |> |>).

Definition set_pageDir (i v : Z) : K unit :=
  set_table (fun g t => t <| pageDir ::= g |>) i (fun _ => v).
Definition set_pageTable (i : Z) (f : Z -> Z) : K unit :=
  set_table (fun g t => t <| pageTable ::= g |>) i f.
Definition set_userTable (i v : Z) : K unit :=
  set_table (fun g t => t <| userTable ::= g |>) i (fun _ => v).
Definition set_videoTable (i v : Z) : K unit :=
  set_table (fun g t => t <| videoTable ::= g |>) i (fun _ => v).

(** Loading [%cr3] drops the cached translations. *)
Definition refresh_tbl : K unit := modify (fun m => m <| pg ::= fun p => p <| tlb := tabs p |> |>).

Section Paging.
Context `{Platform}.

Definition init_paging : K unit :=
  for_range 0 ARR_SIZE (fun i =>
    set_pageDir i 0x00000002;;
    set_pageTable i (fun _ => Z.lor (FOUR_KB * i) 2));;
  set_pageDir 0 (Z.lor addr_pageTable 3);;
  set_pageDir 1 (Z.lor FOUR_MB PAGE_DIR_FLAGS);;
  set_pageTable VID_MEM_LOC (fun e => Z.lor e 3);;
  refresh_tbl;;
  modify (fun m => m <| pg ::= fun p => p <| paging_on := true |> |>).

Definition remap (vAddr pAddr : Z) : K unit :=
  let entry := u32 vAddr / FOUR_MB in
  set_pageDir entry (Z.lor (u32 pAddr) RW_FLAGS);;
  refresh_tbl.

Definition remapWithPageTable (vAddr pAddr : Z) : K unit :=
  let entry := u32 vAddr / FOUR_MB in
  set_pageDir entry (Z.lor addr_userTable RWP_FLAGS);;
  set_userTable 0 (Z.lor (u32 pAddr) RWP_FLAGS);;
  refresh_tbl.

Definition remapVideo (vAddr pAddr : Z) : K unit :=
  let entry := u32 vAddr / FOUR_MB in
  set_pageDir entry (Z.lor addr_videoTable RWP_FLAGS);;
  set_videoTable 0 (Z.lor (u32 pAddr) RWP_FLAGS);;
  refresh_tbl.

Definition remapToPage (vAddr pAddr page : Z) : K unit :=
  let entry := u32 vAddr / FOUR_MB in
  set_pageDir entry (Z.lor addr_userTable RWP_FLAGS);;
  set_userTable page (Z.lor (u32 pAddr) RWP_FLAGS);;
  refresh_tbl.
End Paging.

(** * Entries *)

Lemma land_high_bits x n :
  0 <= n <= 32 -> 0 <= x < 4294967296 -> Z.land x (4294967296 - 2 ^ n) = x / 2 ^ n * 2 ^ n.
Proof.
  intros Hn Hx. rewrite <- Z.shiftr_div_pow2, <- Z.shiftl_mul_pow2 by lia.
  replace (4294967296 - 2 ^ n) with (Z.shiftl (Z.ones (32 - n)) n).
  2:{ rewrite Z.shiftl_mul_pow2, Z.ones_equiv, <- Z.sub_1_r by lia.
      rewrite Z.mul_sub_distr_r, <- Z.pow_add_r by lia.
      replace (32 - n + n) with 32 by lia. lia. }
  apply Z.bits_inj'. intros k Hk. rewrite Z.land_spec, !Z.shiftl_spec by lia.
  destruct (Z.lt_ge_cases k n) as [Hlt|Hge].
  - rewrite (Z.testbit_neg_r (Z.ones _)), (Z.testbit_neg_r (Z.shiftr _ _)) by lia.
    by rewrite andb_false_r.
  - rewrite Z.shiftr_spec by lia. replace (k - n + n) with k by lia.
    destruct (Z.lt_ge_cases k 32).
    + by rewrite Z.ones_spec_low, andb_true_r by lia.
    + rewrite Z.ones_spec_high by lia. rewrite andb_false_r. symmetry.
      rewrite <- (Z.mod_small x (2 ^ 32)) by lia. apply Z.mod_pow2_bits_high. lia.
Qed.

Lemma lor_flags_bit a f n k :
  0 <= k < n -> a mod 2 ^ n = 0 -> Z.testbit (Z.lor a f) k = Z.testbit f k.
Proof.
  intros Hk Ha. rewrite Z.lor_spec. rewrite <- (Z.mod_pow2_bits_low a n k), Ha by lia.
  by rewrite Z.bits_0.
Qed.

Lemma lor_flags_range a f n :
  0 <= n <= 32 -> a mod 2 ^ n = 0 -> 0 <= f < 2 ^ n -> 0 <= a < 4294967296 ->
  Z.lor a f = a + f /\ 0 <= a + f < 4294967296.
Proof.
  intros Hn Ha Hf Har.
  assert (Z.land a f = 0) as Hand.
  { apply Z.bits_inj'. intros k Hk. rewrite Z.land_spec, Z.bits_0.
    destruct (Z.lt_ge_cases k n).
    - by rewrite <- (Z.mod_pow2_bits_low a n k), Ha, Z.bits_0 by lia.
    - rewrite <- (Z.mod_small f (2 ^ n)) by lia.
      by rewrite Z.mod_pow2_bits_high, andb_false_r by lia. }
  assert (Z.lor a f = a + f) as Hlor by (by rewrite <- Z.lxor_lor, <- Z.add_nocarry_lxor).
  split; [done|].
  assert (2 ^ n * 2 ^ (32 - n) = 4294967296) as Hpow.
  { rewrite <- Z.pow_add_r by lia. by replace (n + (32 - n)) with 32 by lia. }
  assert (a / 2 ^ n < 2 ^ (32 - n)) as Hq by (apply Z.div_lt_upper_bound; lia).
  pose proof (Z.div_mod a (2 ^ n) ltac:(lia)) as Hdm. nia.
Qed.

(** The base an entry designates, whatever its flags. *)
Lemma entry_base a f n :
  0 <= n <= 32 -> a mod 2 ^ n = 0 -> 0 <= f < 2 ^ n -> 0 <= a < 4294967296 ->
  Z.land (Z.lor a f) (4294967296 - 2 ^ n) = a.
Proof.
  intros Hn Ha Hf Har. destruct (lor_flags_range a f n) as [-> Hr]; [done..|].
  rewrite land_high_bits by done. apply Z.mod_divide in Ha as [q ->]; [|lia].
  rewrite Z.div_add_l, Z.div_small by lia. lia.
Qed.

(** * Translation of the entries *)

(** The page-aligned, distinct addresses of the three tables; and the frames of
    the C functions: that of [execute] holds its arrays [com_buf], [arg_buf] and
    [buffer] and the entry [dentry], 324 bytes, and the frames of a call, that one
    among them, take at most half of the 8 KB of a kernel stack. *)
Class PlatformOk `{Platform} : Prop := {
  addr_range : 0 <= addr_pageTable < 4294967296 /\ 0 <= addr_userTable < 4294967296 /\
               0 <= addr_videoTable < 4294967296;
  addr_aligned : addr_pageTable mod 4096 = 0 /\ addr_userTable mod 4096 = 0 /\
                 addr_videoTable mod 4096 = 0;
  addr_distinct : addr_pageTable <> addr_userTable /\ addr_pageTable <> addr_videoTable /\
                  addr_userTable <> addr_videoTable;
  frame_locals : 128 + 128 + 4 + 64 <= execute_frame;
  frame_room : execute_frame + 4 <= call_frames <= 4096
}.

#[export] Instance plain_platform_ok : @PlatformOk plain_platform.
Proof. split; vm_compute; repeat split; done. Qed.

(** The arrays have their C length. *)
Definition tables_ok (t : tables) : Prop :=
  length (pageDir t) = 1024%nat /\ length (pageTable t) = 1024%nat /\
  length (userTable t) = 1024%nat /\ length (videoTable t) = 1024%nat.

(** Paging is on and no table was changed since the last refresh. *)
Definition paging_ok (m : machine) : Prop :=
  tables_ok (tabs (pg m)) /\ tlb (pg m) = tabs (pg m) /\ paging_on (pg m) = true.

(** The directory entry and the page of an address. *)
Definition dir_index (a : Z) : Z := a / FOUR_MB.
Definition page_index (a : Z) : Z := a / FOUR_KB mod 1024.
Definition big_offset (a : Z) : Z := a mod FOUR_MB.
Definition page_offset (a : Z) : Z := a mod FOUR_KB.

Section Walk.
Context `{PlatformOk}.

(** [walk], in terms of quotients and remainders. *)
Lemma walk_indices t a :
  walk t a =
  (pde ← pageDir t !! Z.to_nat (dir_index a);
   if Z.testbit pde 0 then
     if Z.testbit pde 7 then Some (Z.land pde 0xFFC00000 + big_offset a, Z.testbit pde 2)
     else
       tab ← table_at t (Z.land pde 0xFFFFF000);
       pte ← tab !! Z.to_nat (page_index a);
       if Z.testbit pte 0 then
         Some (Z.land pte 0xFFFFF000 + page_offset a, Z.testbit pde 2 && Z.testbit pte 2)
       else None
   else None).
Proof.
  unfold walk, dir_index, page_index, big_offset, page_offset, FOUR_MB, FOUR_KB.
  rewrite !Z.shiftr_div_pow2 by lia.
  change 0x3FFFFF with (Z.ones 22). change 0x3FF with (Z.ones 10). change 0xFFF with (Z.ones 12).
  rewrite !Z.land_ones by lia. done.
Qed.

(** A 4 MB page. *)
Lemma walk_big t a p f :
  pageDir t !! Z.to_nat (dir_index a) = Some (Z.lor p f) ->
  0 <= p < 4294967296 -> p mod FOUR_MB = 0 -> 0 <= f < 4096 ->
  Z.testbit f 0 = true -> Z.testbit f 7 = true ->
  walk t a = Some (p + big_offset a, Z.testbit f 2).
Proof.
  intros Hd Hp Ha Hf Hb0 Hb7. rewrite walk_indices, Hd. cbn -[Z.land Z.testbit].
  change FOUR_MB with (2 ^ 22) in Ha.
  rewrite !(lor_flags_bit p f 22), Hb0, Hb7 by (done || lia).
  change 0xFFC00000 with (4294967296 - 2 ^ 22). by rewrite entry_base by (done || lia).
Qed.

(** A page of a table. *)
Lemma walk_table t a base tab e f :
  pageDir t !! Z.to_nat (dir_index a) = Some (Z.lor base f) ->
  0 <= base < 4294967296 -> base mod 4096 = 0 -> 0 <= f < 4096 ->
  Z.testbit f 0 = true -> Z.testbit f 7 = false ->
  table_at t base = Some tab -> tab !! Z.to_nat (page_index a) = Some e ->
  walk t a = if Z.testbit e 0
             then Some (Z.land e 0xFFFFF000 + page_offset a, Z.testbit f 2 && Z.testbit e 2)
             else None.
Proof.
  intros Hd Hp Ha Hf Hb0 Hb7 Ht He. rewrite walk_indices, Hd. cbn -[Z.land Z.testbit].
  rewrite !(lor_flags_bit base f 12), Hb0, Hb7 by (done || lia).
  change 0xFFFFF000 with (4294967296 - 2 ^ 12).
  rewrite entry_base, Ht by (done || lia). cbn -[Z.land Z.testbit]. by rewrite He.
Qed.

Lemma table_at_page t : table_at t addr_pageTable = Some (pageTable t).
Proof. unfold table_at. by rewrite Z.eqb_refl. Qed.

Lemma table_at_user t : table_at t addr_userTable = Some (userTable t).
Proof.
  unfold table_at. destruct addr_distinct as (Hpu & _ & _). rewrite Z.eqb_refl.
  by rewrite (proj2 (Z.eqb_neq addr_userTable addr_pageTable)) by done.
Qed.

Lemma table_at_video t : table_at t addr_videoTable = Some (videoTable t).
Proof.
  unfold table_at. destruct addr_distinct as (_ & Hpv & Huv). rewrite Z.eqb_refl.
  rewrite (proj2 (Z.eqb_neq addr_videoTable addr_pageTable)) by done.
  by rewrite (proj2 (Z.eqb_neq addr_videoTable addr_userTable)) by done.
Qed.

(** The walk only depends on the entry of the address and on the table this
    entry designates. *)
Lemma walk_ext t t' a :
  pageDir t' !! Z.to_nat (dir_index a) = pageDir t !! Z.to_nat (dir_index a) ->
  (forall pde, pageDir t !! Z.to_nat (dir_index a) = Some pde -> Z.testbit pde 0 = true -> Z.testbit pde 7 = false ->
     table_at t' (Z.land pde 0xFFFFF000) = table_at t (Z.land pde 0xFFFFF000)) ->
  walk t' a = walk t a.
Proof.
  intros Hd Ht. rewrite !walk_indices, Hd.
  destruct (pageDir t !! Z.to_nat (dir_index a)) as [pde|] eqn:E; [|done].
  cbn -[Z.land Z.testbit]. destruct (Z.testbit pde 0) eqn:E0; [|done].
  destruct (Z.testbit pde 7) eqn:E7; [done|]. by rewrite Ht.
Qed.
End Walk.

(** * What the operations do to the tables *)

Lemma alter_const {A} (v : A) i (l : list A) : alter (fun _ => v) i l = <[i := v]> l.
Proof. revert i. induction l as [|x l IH]; intros [|i]; cbn; [done..|]. by f_equal. Qed.

(** The state with the tables [t], translated with at once. *)
Definition with_tables (m : machine) (t : tables) : machine :=
  m <| pg := Paging t t (paging_on (pg m)) |>.

Definition put_dir (i v : Z) (t : tables) : tables := t <| pageDir ::= <[Z.to_nat i := v]> |>.
Definition put_user (i v : Z) (t : tables) : tables := t <| userTable ::= <[Z.to_nat i := v]> |>.
Definition put_video (i v : Z) (t : tables) : tables := t <| videoTable ::= <[Z.to_nat i := v]> |>.

Lemma entry_range v : 0 <= u32 v / FOUR_MB < 1024.
Proof.
  pose proof (u32_range v). unfold FOUR_MB.
  split; [apply Z.div_pos; lia|apply Z.div_lt_upper_bound; lia].
Qed.

Lemma set_table_run proj i f m :
  0 <= i < 1024 ->
  set_table proj i f m =
  (Ok tt, m <| pg ::= fun p => p <| tabs ::= proj (alter f (Z.to_nat i)) |> |>).
Proof. intros Hi. unfold set_table, ARR_SIZE. zb. done. Qed.

Section Operations.
Context `{PlatformOk}.

Lemma remap_run v p m :
  remap v p m = (Ok tt, with_tables m (put_dir (u32 v / FOUR_MB) (Z.lor (u32 p) RW_FLAGS) (tabs (pg m)))).
Proof.
  unfold remap, set_pageDir. go set_table_run by apply entry_range.
  unfold refresh_tbl. mrun. destruct m as [? ? ? ? ? [[] ? ?]]. cbn -[alter insert]. by rewrite !alter_const.
Qed.

Lemma remapToPage_run v p page m :
  0 <= page < 1024 ->
  remapToPage v p page m =
  (Ok tt, with_tables m (put_user page (Z.lor (u32 p) RWP_FLAGS)
     (put_dir (u32 v / FOUR_MB) (Z.lor addr_userTable RWP_FLAGS) (tabs (pg m))))).
Proof.
  intros Hp. unfold remapToPage, set_pageDir, set_userTable.
  go set_table_run by apply entry_range. go set_table_run by done.
  unfold refresh_tbl. mrun. destruct m as [? ? ? ? ? [[] ? ?]]. cbn -[alter insert]. by rewrite !alter_const.
Qed.

Lemma remapWithPageTable_page v p m : remapWithPageTable v p m = remapToPage v p 0 m.
Proof. done. Qed.

Lemma remapVideo_run v p m :
  remapVideo v p m =
  (Ok tt, with_tables m (put_video 0 (Z.lor (u32 p) RWP_FLAGS)
     (put_dir (u32 v / FOUR_MB) (Z.lor addr_videoTable RWP_FLAGS) (tabs (pg m))))).
Proof.
  unfold remapVideo, set_pageDir, set_videoTable.
  go set_table_run by apply entry_range. go set_table_run by lia.
  unfold refresh_tbl. mrun. destruct m as [? ? ? ? ? [[] ? ?]]. cbn -[alter insert]. by rewrite !alter_const.
Qed.

Lemma tables_ok_put_dir i v t : tables_ok t -> tables_ok (put_dir i v t).
Proof. intros (H1 & H2 & H3 & H4). unfold tables_ok. cbn. by rewrite length_insert. Qed.

Lemma tables_ok_put_user i v t : tables_ok t -> tables_ok (put_user i v t).
Proof. intros (H1 & H2 & H3 & H4). unfold tables_ok. cbn. by rewrite length_insert. Qed.

Lemma tables_ok_put_video i v t : tables_ok t -> tables_ok (put_video i v t).
Proof. intros (H1 & H2 & H3 & H4). unfold tables_ok. cbn. by rewrite length_insert. Qed.

Lemma with_tables_ok m t : paging_ok m -> tables_ok t -> paging_ok (with_tables m t).
Proof. intros (_ & _ & Hon) Ht. done. Qed.

Lemma translate_with_tables m t a :
  paging_ok m -> translate (pg (with_tables m t)) a = fst <$> walk t a.
Proof. intros (_ & _ & Hon). unfold translate, with_tables. msimp. cbn [paging_on tlb]. by rewrite Hon. Qed.

Lemma translate_user_with_tables m t a :
  paging_ok m -> translate_user (pg (with_tables m t)) a =
  match walk t a with Some (pa, true) => Some pa | _ => None end.
Proof. intros (_ & _ & Hon). unfold translate_user, with_tables. msimp. cbn [paging_on tlb]. by rewrite Hon. Qed.

Lemma translate_ok m a : paging_ok m -> translate (pg m) a = fst <$> walk (tabs (pg m)) a.
Proof. intros (_ & Htlb & Hon). unfold translate. by rewrite Hon, Htlb. Qed.

Lemma translate_user_ok m a :
  paging_ok m -> translate_user (pg m) a =
  match walk (tabs (pg m)) a with Some (pa, true) => Some pa | _ => None end.
Proof. intros (_ & Htlb & Hon). unfold translate_user. by rewrite Hon, Htlb. Qed.

(** Walking with a directory entry replaced. *)
Lemma dir_index_range a : 0 <= a < 4294967296 -> 0 <= dir_index a < 1024.
Proof.
  intros Ha. unfold dir_index, FOUR_MB.
  split; [apply Z.div_pos; lia|apply Z.div_lt_upper_bound; lia].
Qed.

Lemma put_dir_lookup i v t a :
  tables_ok t -> 0 <= i < 1024 -> 0 <= a < 4294967296 ->
  pageDir (put_dir i v t) !! Z.to_nat (dir_index a) =
  if dir_index a =? i then Some v else pageDir t !! Z.to_nat (dir_index a).
Proof.
  intros (Hl & _) Hi Ha. pose proof (dir_index_range a Ha). cbn.
  destruct (Z.eqb_spec (dir_index a) i) as [->|Hne].
  - apply list_lookup_insert_eq. lia.
  - apply list_lookup_insert_ne. lia.
Qed.

Lemma walk_put_dir_ne i v t a :
  tables_ok t -> 0 <= i < 1024 -> 0 <= a < 4294967296 -> dir_index a <> i ->
  walk (put_dir i v t) a = walk t a.
Proof.
  intros Ht Hi Ha Hne. apply walk_ext; [|done].
  rewrite put_dir_lookup by done. by rewrite (proj2 (Z.eqb_neq _ _)).
Qed.

(** The window of [remap]. *)
Lemma walk_remap v p t a :
  tables_ok t -> 0 <= v < 4294967296 -> 0 <= p < 4294967296 -> p mod FOUR_MB = 0 ->
  0 <= a < 4294967296 ->
  walk (put_dir (u32 v / FOUR_MB) (Z.lor (u32 p) RW_FLAGS) t) a =
  if dir_index a =? dir_index v then Some (p + big_offset a, true) else walk t a.
Proof.
  intros Ht Hv Hp Hal Ha. rewrite (u32_small v), (u32_small p) by done.
  pose proof (dir_index_range v Hv) as Hi. fold (dir_index v).
  destruct (Z.eqb_spec (dir_index a) (dir_index v)) as [He|Hne].
  - rewrite (walk_big _ a p RW_FLAGS); try done.
    rewrite put_dir_lookup by done. by rewrite He, Z.eqb_refl.
  - by apply walk_put_dir_ne.
Qed.

(** A page of the user table, in the directory entry of [v]. *)
Lemma walk_user_page v p page t a :
  tables_ok t -> 0 <= v < 4294967296 -> 0 <= p < 4294967296 -> p mod FOUR_KB = 0 ->
  0 <= page < 1024 -> 0 <= a < 4294967296 -> dir_index a = dir_index v -> page_index a = page ->
  walk (put_user page (Z.lor (u32 p) RWP_FLAGS)
          (put_dir (u32 v / FOUR_MB) (Z.lor addr_userTable RWP_FLAGS) t)) a =
  Some (p + page_offset a, true).
Proof.
  intros Ht Hv Hp Hal Hpage Ha Hd Hpi. rewrite (u32_small v), (u32_small p) by done.
  destruct addr_range as (_ & Hur & _). destruct addr_aligned as (_ & Hua & _).
  fold (dir_index v). pose proof (dir_index_range v Hv) as Hi.
  erewrite (walk_table _ a addr_userTable _ (Z.lor p RWP_FLAGS) RWP_FLAGS); try done.
  - change FOUR_KB with (2 ^ 12) in Hal. rewrite !(lor_flags_bit p RWP_FLAGS 12) by (done || lia).
    change 0xFFFFF000 with (4294967296 - 2 ^ 12). by rewrite entry_base by (done || lia).
  - change (pageDir (put_user _ _ ?x)) with (pageDir x). rewrite put_dir_lookup by done.
    by rewrite Hd, Z.eqb_refl.
  - apply table_at_user.
  - cbn. rewrite Hpi. apply list_lookup_insert_eq. destruct Ht as (_ & _ & Hl & _). lia.
Qed.

(** An entry that does not lead to the user table is not affected by it. *)
Lemma walk_put_user_ne i v t a :
  (forall pde, pageDir t !! Z.to_nat (dir_index a) = Some pde -> Z.testbit pde 7 = false ->
     Z.land pde 0xFFFFF000 <> addr_userTable) ->
  walk (put_user i v t) a = walk t a.
Proof.
  intros Hne. apply walk_ext; [done|]. intros pde Hp _ H7.
  specialize (Hne pde Hp H7). unfold table_at. cbn.
  destruct (Z.land pde 4294963200 =? addr_pageTable); [done|].
  by rewrite (proj2 (Z.eqb_neq _ addr_userTable)).
Qed.
End Operations.

(** * The initial tables *)

Section Init.
Context `{PlatformOk}.

(** The tables after [n] rounds of the first loop. *)
Definition filled (t0 t : tables) (n : Z) : Prop :=
  tables_ok t /\ userTable t = userTable t0 /\ videoTable t = videoTable t0 /\
  forall j, 0 <= j < n -> pageDir t !! Z.to_nat j = Some 2 /\
    pageTable t !! Z.to_nat j = Some (Z.lor (4096 * j) 2).

Lemma init_loop m :
  tables_ok (tabs (pg m)) ->
  exists t, for_range 0 ARR_SIZE (fun i =>
      set_pageDir i 0x00000002;; set_pageTable i (fun _ => Z.lor (FOUR_KB * i) 2)) m =
    (Ok tt, m <| pg ::= fun p => p <| tabs := t |> |>) /\ filled (tabs (pg m)) t 1024.
Proof.
  intros Hok. rewrite for_range_n by (unfold ARR_SIZE; lia).
  destruct (for_n_ok (fun i s => exists t, s = m <| pg ::= fun p => p <| tabs := t |> |> /\
      filled (tabs (pg m)) t i) (Z.to_nat (ARR_SIZE - 0)) 0 (fun i =>
      set_pageDir i 0x00000002;; set_pageTable i (fun _ => Z.lor (FOUR_KB * i) 2)) m)
    as (m' & E & t & -> & Ht).
  - exists (tabs (pg m)). split; [by destruct m as [? ? ? ? ? []]|]. split; [done|].
    split; [done|]. split; [done|]. lia.
  - intros i s Hi (t & -> & (Ht & Hu & Hv & Hj)). unfold ARR_SIZE in Hi.
    pose proof Ht as (Hl1 & Hl2 & _). unfold set_pageDir, set_pageTable.
    go set_table_run by lia. rewrite set_table_run by lia. eexists. split; [done|].
    exists (t <| pageDir ::= <[Z.to_nat i := 2]> |> <| pageTable ::= <[Z.to_nat i := Z.lor (4096 * i) 2]> |>).
    split; [cbn -[alter insert]; by rewrite !alter_const|].
    split; [unfold tables_ok; cbn; by rewrite !length_insert|]. split; [done|]. split; [done|].
    intros j Hj'. cbn. destruct (Z.eq_dec j i) as [->|Hne].
    + rewrite !list_lookup_insert_eq by lia. done.
    + rewrite !list_lookup_insert_ne by lia. apply Hj. lia.
  - exists t. split; [done|exact Ht].
Qed.

Definition initial_tables (t : tables) : tables :=
  t <| pageDir ::= fun l => <[1%nat := Z.lor FOUR_MB PAGE_DIR_FLAGS]>
                             (<[0%nat := Z.lor addr_pageTable 3]> l) |>
    <| pageTable ::= alter (fun e => Z.lor e 3) (Z.to_nat VID_MEM_LOC) |>.

Lemma initial_tables_ok t : tables_ok t -> tables_ok (initial_tables t).
Proof.
  destruct t as [d p u v]. intros (Hl1 & Hl2 & Hl3 & Hl4). cbn [pageDir pageTable userTable videoTable] in *.
  unfold tables_ok, initial_tables. cbn [pageDir pageTable userTable videoTable set_field].
  rewrite !length_insert, length_alter. done.
Qed.

Lemma init_paging_run m :
  tables_ok (tabs (pg m)) ->
  exists t, filled (tabs (pg m)) t 1024 /\
    init_paging m = (Ok tt, m <| pg := Paging (initial_tables t) (initial_tables t) true |>).
Proof.
  intros Hok. destruct (init_loop m Hok) as (t & E & Ht). exists t. split; [done|].
  unfold init_paging. go E. unfold set_pageDir, set_pageTable, VID_MEM_LOC, refresh_tbl.
  do 3 (go set_table_run by lia). mrun. destruct m as [? ? ? ? ? [[] ? ?]].
  cbn -[alter insert Z.lor]. unfold initial_tables. cbn -[alter insert Z.lor]. by rewrite !alter_const.
Qed.

Lemma walk_initial t0 t a :
  filled t0 t 1024 -> 0 <= a < 4294967296 ->
  walk (initial_tables t) a =
  if (0xB8000 <=? a) && (a <? 0xB9000) || (0x400000 <=? a) && (a <? 0x800000)
  then Some (a, false) else None.
Proof.
  intros ((Hl1 & Hl2 & _) & _ & _ & Hf) Ha.
  pose proof (dir_index_range a Ha) as Hd.
  pose proof (Z.div_mod a FOUR_MB ltac:(done)) as Hdm. fold (dir_index a) (big_offset a) in Hdm.
  pose proof (Z.mod_pos_bound a FOUR_MB ltac:(done)) as Hb. fold (big_offset a) in Hb.
  unfold FOUR_MB in Hdm, Hb. destruct (decide (dir_index a = 0)) as [H0d|H0d].
  { destruct addr_range as (Hpr & _ & _). destruct addr_aligned as (Hpa & _ & _).
    assert (page_index a = a / 4096) as Hpi.
    { unfold page_index, FOUR_KB. apply Z.mod_small.
      split; [apply Z.div_pos; lia|apply Z.div_lt_upper_bound; lia]. }
    assert (0 <= a / 4096 < 1024) as Hpr'.
    { split; [apply Z.div_pos; lia|apply Z.div_lt_upper_bound; lia]. }
    destruct (Hf (page_index a)) as [_ Hpt]; [lia|].
    pose proof (Z.div_mod a 4096 ltac:(done)) as Hdm4. pose proof (Z.mod_pos_bound a 4096 ltac:(done)).
    set (e := Z.lor (4096 * page_index a) 2) in *.
    erewrite (walk_table _ a addr_pageTable _ (if page_index a =? 0xB8 then Z.lor e 3 else e) 3); try done.
    - destruct (Z.eqb_spec (page_index a) 0xB8) as [Hp|Hp].
      + unfold e. rewrite Hp. replace (page_offset a) with (a - 0xB8000) by (unfold page_offset, FOUR_KB; lia).
        zb. cbn. do 2 f_equal. change (Z.land _ 4294963200) with 753664. lia.
      + assert (Z.testbit e 0 = false) as ->.
        { unfold e. rewrite (lor_flags_bit _ 2 12); [done|lia|].
          rewrite Z.mul_comm. change (2 ^ 12) with 4096. by apply Z_mod_mult. }
        rewrite (proj2 (Z.leb_gt 0x400000 a)) by lia. rewrite andb_false_l, orb_false_r.
        destruct (Z.leb_spec 0xB8000 a), (Z.ltb_spec a 0xB9000); try done. exfalso. apply Hp.
        rewrite Hpi. lia.
    - cbn -[Z.lor]. rewrite H0d. rewrite list_lookup_insert_ne by done.
      rewrite list_lookup_insert_eq by lia. done.
    - apply table_at_page.
    - cbn -[alter]. unfold VID_MEM_LOC. destruct (Z.eqb_spec (page_index a) 0xB8) as [Hp|Hp].
      + rewrite Hp. rewrite list_lookup_alter_eq. rewrite Hp in Hpt. by rewrite Hpt.
      + by rewrite list_lookup_alter_ne by lia. }
  rewrite (proj2 (Z.ltb_ge a 0xB9000)) by lia. rewrite andb_false_r. cbn [orb].
  destruct (decide (dir_index a = 1)) as [H1d|H1d].
  - rewrite (walk_big _ a FOUR_MB PAGE_DIR_FLAGS); try done.
    + zb. cbn [andb]. do 2 f_equal. unfold FOUR_MB. lia.
    + cbn -[Z.lor]. rewrite H1d. by rewrite list_lookup_insert_eq by (rewrite length_insert; lia).
  - destruct (Hf (dir_index a) Hd) as [Hp2 _]. rewrite walk_indices. cbn -[Z.testbit].
    rewrite !list_lookup_insert_ne, Hp2 by lia. cbn. by zb.
Qed.
End Init.

(** * Properties *)

(** C32. [init_paging] turns paging on with exactly two regions mapped, each to
    itself: the page of the video memory and the kernel's 4 MB.  Neither can be
    used from user mode, and address 0 is not mapped. *)
Theorem init_paging_maps `{PlatformOk} (m : machine) :
  tables_ok (tabs (pg m)) ->
  exists m', init_paging m = (Ok tt, m') /\ paging_ok m' /\ m' = m <| pg := pg m' |> /\
    forall a, 0 <= a < 4294967296 ->
      translate (pg m') a =
        (if (0xB8000 <=? a) && (a <? 0xB9000) || (0x400000 <=? a) && (a <? 0x800000)
         then Some a else None) /\
      translate_user (pg m') a = None.
Proof.
  intros Hok. destruct (init_paging_run m Hok) as (t & Ht & E).
  eexists. split; [exact E|]. clear E. split; [|split; [done|]].
  - split; [exact (initial_tables_ok t (proj1 Ht))|]. split; reflexivity.
  - intros a Ha. unfold translate, translate_user. msimp. cbn [paging_on tlb].
    rewrite (walk_initial _ _ _ Ht Ha). by destruct (_ || _).
Qed.

Lemma init_paging_maps_witness :
  let P := plain_platform in
  exists m', init_paging boot_machine = (Ok tt, m') /\ translate (pg m') 0xB8123 = Some 0xB8123 /\
    translate (pg m') 0 = None.
Proof.
  intros P. destruct (init_paging_maps boot_machine) as (m' & E & _ & _ & Ht).
  - repeat split; reflexivity.
  - exists m'. split; [exact E|]. rewrite (proj1 (Ht 0xB8123 ltac:(lia))), (proj1 (Ht 0 ltac:(lia))). split; reflexivity.
Defined.

(** [remap] gives a window of 4 MB: the directory entry of the virtual
    address leads, for the kernel and for user mode, to the 4 MB from the physical
    one, at once; every other address is translated as before. *)
Theorem remap_window `{PlatformOk} (m : machine) (v p : Z) :
  paging_ok m -> 0 <= v < 4294967296 -> 0 <= p < 4294967296 -> p mod FOUR_MB = 0 ->
  exists m', remap v p m = (Ok tt, m') /\ paging_ok m' /\ m' = m <| pg := pg m' |> /\
    forall a, 0 <= a < 4294967296 ->
      translate (pg m') a =
        (if dir_index a =? dir_index v then Some (p + big_offset a) else translate (pg m) a) /\
      translate_user (pg m') a =
        (if dir_index a =? dir_index v then Some (p + big_offset a) else translate_user (pg m) a).
Proof.
  intros Hok Hv Hp Hal. pose proof (proj1 Hok) as Ht.
  eexists. split; [apply remap_run|]. split; [by apply with_tables_ok, tables_ok_put_dir|].
  split; [done|]. intros a Ha.
  rewrite translate_with_tables, translate_user_with_tables, translate_ok, translate_user_ok by done.
  rewrite walk_remap by done. by destruct (dir_index a =? dir_index v).
Qed.

Lemma remap_window_witness :
  let P := plain_platform in
  let m := boot_machine <| pg := Paging zero_tables zero_tables true |> in
  exists m', remap 0x8000000 0xC00000 m = (Ok tt, m') /\
    translate_user (pg m') 0x8048000 = Some 0xC48000.
Proof.
  intros P m. destruct (remap_window m 0x8000000 0xC00000) as (m' & E & _ & _ & Ht).
  - repeat split; reflexivity.
  - lia.
  - lia.
  - reflexivity.
  - exists m'. split; [exact E|]. rewrite (proj2 (Ht 0x8048000 ltac:(lia))). reflexivity.
Defined.

(** Page mappings share one table: after [remapToPage] the page of the given
    index in the 4 MB of the virtual address leads, for user mode too, to the
    physical page; addresses whose directory entry neither is the one set nor
    leads to the shared table are translated as before. *)
Theorem remapToPage_page `{PlatformOk} (m : machine) (v p page : Z) :
  paging_ok m -> 0 <= v < 4294967296 -> 0 <= p < 4294967296 -> p mod FOUR_KB = 0 ->
  0 <= page < 1024 ->
  exists m', remapToPage v p page m = (Ok tt, m') /\ paging_ok m' /\ m' = m <| pg := pg m' |> /\
    forall a, 0 <= a < 4294967296 ->
      (dir_index a = dir_index v -> page_index a = page ->
         translate (pg m') a = Some (p + page_offset a) /\
         translate_user (pg m') a = Some (p + page_offset a)) /\
      (dir_index a <> dir_index v ->
       (forall pde, pageDir (tabs (pg m)) !! Z.to_nat (dir_index a) = Some pde ->
          Z.testbit pde 7 = false -> Z.land pde 0xFFFFF000 <> addr_userTable) ->
         translate (pg m') a = translate (pg m) a /\
         translate_user (pg m') a = translate_user (pg m) a).
Proof.
  intros Hok Hv Hp Hal Hpage. pose proof (proj1 Hok) as Ht.
  eexists. split; [by apply remapToPage_run|].
  split; [by apply with_tables_ok, tables_ok_put_user, tables_ok_put_dir|].
  split; [done|]. intros a Ha.
  rewrite translate_with_tables, translate_user_with_tables, translate_ok, translate_user_ok by done.
  pose proof (entry_range v) as Her. split.
  - intros Hd Hpi. by rewrite walk_user_page.
  - intros Hd Hne.
    assert (dir_index a <> u32 v / FOUR_MB) as Hd' by (rewrite (u32_small v) by done; exact Hd).
    rewrite walk_put_user_ne.
    + by rewrite walk_put_dir_ne by done.
    + intros pde. rewrite put_dir_lookup by done. rewrite (proj2 (Z.eqb_neq _ _) Hd'). apply Hne.
Qed.

Lemma remapToPage_page_witness :
  let P := plain_platform in
  let m := boot_machine <| pg := Paging zero_tables zero_tables true |> in
  exists m', remapToPage 0x6400000 0x6401000 1 m = (Ok tt, m') /\
    translate (pg m') 0x6401010 = Some 0x6401010.
Proof.
  intros P m. destruct (remapToPage_page m 0x6400000 0x6401000 1) as (m' & E & _ & _ & Ht).
  - repeat split; reflexivity.
  - lia.
  - lia.
  - reflexivity.
  - lia.
  - exists m'. split; [exact E|]. destruct (Ht 0x6401010) as [Hp _]; [lia|].
    rewrite (proj1 (Hp eq_refl eq_refl)). reflexivity.
Defined.
