(* ===== verification/Screen.v ===== *)
(** The text screen of [student-distrib/lib.c]: [putc], [puts], [printf],
    [clear], [scroll], the cursor, new lines and backspaces.

    The abstract view is [console]: 25 rows of 80 characters and a cursor.  The
    relation [shows] ties it to the video memory and to [screen_x], [screen_y];
    each operation refines the operation of the same name on the console. *)

From S2P Require Import Prelude Memory CLib Machine.

Definition VIDEO : Z := 0xB8000.
Definition NUM_COLS : Z := 80.
Definition NUM_ROWS : Z := 25.
Definition FB_COMMAND_PORT : Z := 0x3D4.
Definition FB_DATA_PORT : Z := 0x3D5.
Definition FB_HIGH_BYTE_COMMAND : Z := 14.
Definition FB_LOW_BYTE_COMMAND : Z := 15.

Definition video_mem : Z := VIDEO.

(** An argument of [printf] on the stack: a word, or the address of an array of
    the kernel. *)
Inductive parg : Type :=
  | PInt (z : Z)
  | PPtr (p : ptr).

Definition update_cursor_loc (x y : Z) : K unit :=
  let pos := u16 (NUM_COLS * y + x) in
  outb FB_HIGH_BYTE_COMMAND FB_COMMAND_PORT;;
  outb (Z.land (Z.shiftr pos 8) 0x00FF) FB_DATA_PORT;;
  outb FB_LOW_BYTE_COMMAND FB_COMMAND_PORT;;
  outb (Z.land pos 0x00FF) FB_DATA_PORT.

Definition get_screen_x : K Z := gets (fun m => screen_x (scr m)).
Definition get_screen_y : K Z := gets (fun m => screen_y (scr m)).
Definition set_screen_pos (x y : Z) : K unit :=
  modify (fun m => m <| scr ::= fun s => s <| screen_x := x |> <| screen_y := y |> |>).
Definition set_screen_x (x : Z) : K unit := modify (fun m => m <| scr ::= fun s => s <| screen_x := x |> |>).
Definition set_screen_y (y : Z) : K unit := modify (fun m => m <| scr ::= fun s => s <| screen_y := y |> |>).

Section Screen.
Context `{Platform}.

Definition scroll : K unit :=
  for_range 0 (NUM_ROWS - 1) (fun row =>
    for_range 0 NUM_COLS (fun col =>
      let current_line := NUM_COLS * (row + 1) + col in
      let scroll_line := NUM_COLS * row + col in
      c ← load8 (video_mem + Z.shiftl current_line 1);
      store8 (video_mem + Z.shiftl scroll_line 1) c));;
  for_range 0 NUM_COLS (fun col =>
    let scroll_line := NUM_COLS * (NUM_ROWS - 1) + col in
    store8 (video_mem + Z.shiftl scroll_line 1) 0);;
  set_screen_x 0;;
  set_screen_y (NUM_ROWS - 1).

Definition do_enter : K unit :=
  y ← get_screen_y;
  (if y =? NUM_ROWS - 1 then scroll else set_screen_y (i32 (y + 1)));;
  set_screen_x 0;;
  x ← get_screen_x; y ← get_screen_y;
  update_cursor_loc x y.

Definition do_backspace : K unit :=
  x ← get_screen_x; y ← get_screen_y;
  (if (x =? 0) && (0 <? y) then
     set_screen_x (NUM_COLS - 2);; set_screen_y (i32 (y - 1))
   else set_screen_x (i32 (x - 1)));;
  x ← get_screen_x; y ← get_screen_y;
  store8 (VIDEO + Z.shiftl (NUM_COLS * y + x) 1) 0;;
  update_cursor_loc x y.

Definition putc (c : Z) : K unit :=
  if (c =? 10) || (c =? 13) then do_enter
  else
    x ← get_screen_x; y ← get_screen_y;
    store8 (video_mem + Z.shiftl (NUM_COLS * y + x) 1) c;;
    set_screen_x (i32 (x + 1));;
    x ← get_screen_x;
    if NUM_COLS <=? x then do_enter
    else y ← get_screen_y; update_cursor_loc x y.

Definition puts (s : ptr) : K Z :=
  while (fun index =>
    c ← rd s index;
    if c =? 0 then mret (inr index)
    else putc (u8 c);; mret (inl (index + 1))) 0.

(** The conversion character [c] of [printf], with the alternate flag; answers
    the remaining arguments.  The local arrays are overwritten before use. *)
Definition printf_conv (c alternate : Z) (args : list parg) : K (list parg) :=
  if c =? 37 then putc 37;; mret args
  else if c =? 120 then
    match args with
    | PInt v :: args =>
        (if alternate =? 0 then
           conv_buf ← itoa v (Buf (replicate 64 0) 0) 16;
           puts conv_buf
         else
           conv_buf ← itoa v (Buf (replicate 64 0) 8) 16;
           starting_index ← strlen conv_buf;
           conv_buf ← while (fun '(b, i) =>
             if i <? 8 then b' ← wr b i 48; mret (inl (b', i + 1))
             else mret (inr b)) (Buf (contents conv_buf) 0, starting_index);
           puts (Buf (contents conv_buf) starting_index));;
        mret args
    | _ => raise OutOfBounds
    end
  else if c =? 117 then
    match args with
    | PInt v :: args =>
        conv_buf ← itoa v (Buf (replicate 36 0) 0) 10;
        puts conv_buf;;
        mret args
    | _ => raise OutOfBounds
    end
  else if c =? 100 then
    match args with
    | PInt v :: args =>
        let value := i32 v in
        conv_buf ← (if value <? 0 then
           conv_buf ← wr (Buf (replicate 36 0) 0) 0 45;
           conv_buf ← itoa (- value) (Buf (contents conv_buf) 1) 10;
           mret (Buf (contents conv_buf) 0)
         else itoa value (Buf (replicate 36 0) 0) 10);
        puts conv_buf;;
        mret args
    | _ => raise OutOfBounds
    end
  else if c =? 99 then
    match args with
    | PInt v :: args => putc (u8 v);; mret args
    | _ => raise OutOfBounds
    end
  else if c =? 115 then
    match args with
    | PInt v :: args => puts (Raw v);; mret args
    | PPtr p :: args => puts p;; mret args
    | [] => raise OutOfBounds
    end
  else mret args.

(** The loop over the format; [conv] holds the alternate flag after a ['%'].  A
    format that ends inside a conversion is read past its terminator. *)
Fixpoint printf_loop (format : list Z) (conv : option Z) (args : list parg) : K unit :=
  match conv, format with
  | None, [] => mret tt
  | None, c :: format =>
      if c =? 37 then printf_loop format (Some 0) args
      else putc (u8 c);; printf_loop format None args
  | Some _, [] => raise OutOfBounds
  | Some alternate, c :: format =>
      if c =? 35 then printf_loop format (Some 1) args
      else args ← printf_conv c alternate args; printf_loop format None args
  end.

Definition printf (format : list Z) (args : list parg) : K Z :=
  printf_loop format None args;;
  mret (Z.of_nat (length format)).

(** ["391OS> "] *)
Definition prompt : list Z := [51; 57; 49; 79; 83; 62; 32].

Definition clear : K unit :=
  for_range 0 (NUM_ROWS * NUM_COLS) (fun i => store8 (video_mem + Z.shiftl i 1) 32);;
  set_screen_pos 0 0;;
  update_cursor_loc 0 0;;
  printf prompt [];;
  mret tt.

Definition test_interrupts : K unit :=
  for_range 0 (NUM_ROWS * NUM_COLS) (fun i =>
    c ← load8 (video_mem + Z.shiftl i 1);
    store8 (video_mem + Z.shiftl i 1) (c + 1)).
End Screen.

(** * The console *)

(** 25 rows of 80 characters, row after row, and the place of the cursor. *)
Record console := Console { con_text : list Z; con_x : Z; con_y : Z }.

Definition con_index (x y : Z) : nat := Z.to_nat (80 * y + x).

(** A new line; at the bottom, the text moves up and a blank line enters. *)
Definition con_enter (c : console) : console :=
  if con_y c =? 24
  then Console (drop 80 (con_text c) ++ replicate 80 0) 0 24
  else Console (con_text c) 0 (con_y c + 1).

Definition con_putc (b : Z) (c : console) : console :=
  if (b =? 10) || (b =? 13) then con_enter c
  else
    let t := <[con_index (con_x c) (con_y c) := b]> (con_text c) in
    if 80 <=? con_x c + 1 then con_enter (Console t (con_x c + 1) (con_y c))
    else Console t (con_x c + 1) (con_y c).

Definition con_puts (l : list Z) (c : console) : console := fold_left (fun c b => con_putc b c) l c.

Definition con_backspace (c : console) : console :=
  let '(x, y) := if (con_x c =? 0) && (0 <? con_y c) then (78, con_y c - 1)
                 else (con_x c - 1, con_y c) in
  Console (<[con_index x y := 0]> (con_text c)) x y.

Definition con_blank : console := Console (replicate 2000 32) 0 0.

(** The cursor is on the screen, and the screen has its size. *)
Definition con_ok (c : console) : Prop :=
  length (con_text c) = 2000%nat /\ 0 <= con_x c < 80 /\ 0 <= con_y c < 25.

Lemma con_enter_ok c :
  length (con_text c) = 2000%nat -> 0 <= con_y c < 25 -> con_ok (con_enter c).
Proof.
  intros Hl Hy. unfold con_enter. destruct (Z.eqb_spec (con_y c) 24); (split; [|cbn; lia]); cbn [con_text].
  - rewrite length_app, length_drop, length_replicate. lia.
  - done.
Qed.

Lemma con_putc_ok b c : con_ok c -> con_ok (con_putc b c).
Proof.
  intros (Hl & Hx & Hy). unfold con_putc. destruct (_ || _); [by apply con_enter_ok|].
  destruct (Z.leb_spec 80 (con_x c + 1)).
  - apply con_enter_ok; cbn; [by rewrite length_insert|done].
  - split; cbn; [by rewrite length_insert|lia].
Qed.

Lemma con_puts_ok l c : con_ok c -> con_ok (con_puts l c).
Proof.
  revert c. induction l as [|b l IH]; intros c Hc; [done|]. cbn. apply IH. by apply con_putc_ok.
Qed.

Lemma con_puts_app l1 l2 c : con_puts (l1 ++ l2) c = con_puts l2 (con_puts l1 c).
Proof. apply fold_left_app. Qed.

(** The place of the hardware cursor: the registers 14 and 15 of the display
    controller, as the port traffic leaves them. *)
Record crt := Crt { crt_index : Z; crt_high : Z; crt_low : Z }.

Definition crt_step (c : crt) (e : io) : crt :=
  match e with
  | OutB port v =>
      if port =? FB_COMMAND_PORT then Crt v (crt_high c) (crt_low c)
      else if port =? FB_DATA_PORT then
        if crt_index c =? 14 then Crt (crt_index c) v (crt_low c)
        else if crt_index c =? 15 then Crt (crt_index c) (crt_high c) v
        else c
      else c
  | InB _ _ => c
  end.

Definition cursor_at (log : list io) : Z :=
  let c := fold_left crt_step log (Crt 0 0 0) in crt_high c * 256 + crt_low c.

Definition cursor_ops (pos : Z) : list io :=
  [OutB 0x3D4 14; OutB 0x3D5 (Z.land (Z.shiftr pos 8) 0xFF); OutB 0x3D4 15; OutB 0x3D5 (Z.land pos 0xFF)].

Lemma cursor_at_ops log pos : 0 <= pos < 65536 -> cursor_at (log ++ cursor_ops pos) = pos.
Proof.
  intros Hp. unfold cursor_at. rewrite fold_left_app.
  destruct (fold_left crt_step log _) as [i h l].
  cbn -[Z.land Z.shiftr Z.mul Z.add].
  change 0xFF with (Z.ones 8). rewrite !Z.land_ones, Z.shiftr_div_pow2 by lia.
  change (2 ^ 8) with 256. rewrite (Z.mod_small (pos / 256)).
  - pose proof (Z.div_mod pos 256). lia.
  - split; [apply Z.div_pos; lia|apply Z.div_lt_upper_bound; lia].
Qed.

Lemma update_cursor_loc_run x y m :
  update_cursor_loc x y m =
  (Ok tt, m <| io_log ::= fun l => l ++ cursor_ops (u16 (80 * y + x)) |>).
Proof.
  unfold update_cursor_loc, outb, NUM_COLS. mrun.
  assert (forall z, u8 (Z.land z 255) = Z.land z 255) as Hb.
  { intros z. change 255 with (Z.ones 8). rewrite Z.land_ones by lia. apply u8_small.
    apply Z.mod_pos_bound. lia. }
  rewrite !Hb. f_equal. destruct m. cbn -[Z.land Z.shiftr u16]. rewrite <- !app_assoc. done.
Qed.

(** Port traffic that reads no port. *)
Definition only_out (log log' : list io) : Prop :=
  exists l, log' = log ++ l /\ Forall (fun e => match e with OutB _ _ => True | InB _ _ => False end) l.

Lemma only_out_refl log : only_out log log.
Proof. exists []. by rewrite app_nil_r. Qed.

Lemma only_out_trans l1 l2 l3 : only_out l1 l2 -> only_out l2 l3 -> only_out l1 l3.
Proof. intros (a & -> & Ha) (b & -> & Hb). exists (a ++ b). rewrite app_assoc. split; [done|]. by apply Forall_app_2. Qed.

Lemma only_out_cursor log pos : only_out log (log ++ cursor_ops pos).
Proof. exists (cursor_ops pos). split; [done|]. by repeat constructor. Qed.

Ltac log_same := first [apply only_out_refl|apply only_out_cursor].

(** * The machine shows a console *)

Section Shows.
Context `{Platform}.

(** The characters are the even bytes of the 4000 that the video memory is
    mapped to; the odd ones are the colours, which no operation touches. *)
Record shows (pv : Z) (m : machine) (c : console) : Prop := {
  sh_maps : maps m VIDEO pv 4000;
  sh_ok : con_ok c;
  sh_text : forall i, (i < 2000)%nat ->
    con_text c !! i = Some (cell m (pv + 2 * Z.of_nat i));
  sh_x : screen_x (scr m) = con_x c;
  sh_y : screen_y (scr m) = con_y c
}.

(** What an operation on the screen may change. *)
Record screen_only (pv : Z) (m m' : machine) : Prop := {
  so_fields : m' = m <| phys := phys m' |> <| scr := scr m' |> <| io_log := io_log m' |>;
  so_cells : forall q, ~ (exists i, 0 <= i < 2000 /\ q = pv + 2 * i) -> cell m' q = cell m q;
  so_log : only_out (io_log m) (io_log m')
}.

Lemma screen_only_refl pv m : screen_only pv m m.
Proof. split; [by destruct m|done|log_same]. Qed.

Lemma screen_only_trans pv m1 m2 m3 :
  screen_only pv m1 m2 -> screen_only pv m2 m3 -> screen_only pv m1 m3.
Proof.
  intros [Hf Hc Hl] [Hf' Hc' Hl']. split.
  - rewrite Hf', Hf. by destruct m1.
  - intros q Hq. by rewrite Hc', Hc.
  - by eapply only_out_trans.
Qed.

Lemma screen_only_loc pv m m' a : screen_only pv m m' -> loc m' a = loc m a.
Proof. intros [-> _]. done. Qed.

Lemma screen_only_maps pv m m' a pa n : screen_only pv m m' -> maps m a pa n -> maps m' a pa n.
Proof. intros Hs. apply maps_loc. intros x. by eapply screen_only_loc. Qed.

Lemma screen_only_scr pv m x y :
  screen_only pv m (m <| scr ::= fun s => s <| screen_x := x |> <| screen_y := y |> |>).
Proof. split; [by destruct m as [? ? ? ? ? ? ? []]|done|log_same]. Qed.

(** Writing a character. *)
Lemma screen_only_store pv m i v :
  0 <= i < 2000 -> screen_only pv m (upd m (pv + 2 * i) v).
Proof.
  intros Hi. split; [by destruct m| |log_same]. intros q Hq. apply cell_upd_ne. intros <-. apply Hq. by exists i.
Qed.

Lemma store_char pv (m : machine) i v :
  maps m VIDEO pv 4000 -> 0 <= i < 2000 ->
  store8 (VIDEO + Z.shiftl i 1) v m = (Ok tt, upd m (pv + 2 * i) (u8 v)).
Proof.
  intros Hm Hi. rewrite Z.shiftl_mul_pow2, Z.mul_comm by lia. change (2 ^ 1) with 2.
  apply (store8_maps m VIDEO pv 4000); [done|lia].
Qed.

Lemma load_char pv (m : machine) i :
  maps m VIDEO pv 4000 -> 0 <= i < 2000 ->
  load8 (VIDEO + Z.shiftl i 1) m = (Ok (cell m (pv + 2 * i)), m).
Proof.
  intros Hm Hi. rewrite Z.shiftl_mul_pow2, Z.mul_comm by lia. change (2 ^ 1) with 2.
  apply (load8_maps m VIDEO pv 4000); [done|lia].
Qed.

(** The text after a character is written, the cursor aside. *)
Lemma text_upd pv (m : machine) t i v :
  (forall j, (j < 2000)%nat -> t !! j = Some (cell m (pv + 2 * Z.of_nat j))) ->
  length t = 2000%nat -> 0 <= i < 2000 -> is_byte v ->
  forall j, (j < 2000)%nat ->
    <[Z.to_nat i := v]> t !! j = Some (cell (upd m (pv + 2 * i) v) (pv + 2 * Z.of_nat j)).
Proof.
  intros Ht Hl Hi Hv j Hj. destruct (decide (j = Z.to_nat i)) as [->|Hne].
  - rewrite list_lookup_insert_eq by lia. rewrite Z2Nat.id by lia.
    by rewrite cell_upd_eq, u8_small.
  - rewrite list_lookup_insert_ne by done. rewrite cell_upd_ne by lia. by apply Ht.
Qed.
End Shows.

(** * The operations refine those of the console *)

Section Refine.
Context `{Platform}.

(** The text of the screen, wherever the cursor is. *)
Definition text_shown (pv : Z) (m : machine) (t : list Z) : Prop :=
  maps m VIDEO pv 4000 /\ length t = 2000%nat /\
  forall i, (i < 2000)%nat -> t !! i = Some (cell m (pv + 2 * Z.of_nat i)).

Lemma shows_text pv m c : shows pv m c -> text_shown pv m (con_text c).
Proof. intros [Hm (Hl & _) Ht _ _]. done. Qed.

(** Progress of [scroll]: the first [k] characters come from one line below. *)
Definition shifted (pv : Z) (m m' : machine) (k : Z) : Prop :=
  only_phys m m' /\ screen_only pv m m' /\
  forall i, 0 <= i < 2000 ->
    cell m' (pv + 2 * i) = cell m (pv + 2 * (if i <? k then i + 80 else i)).

Lemma shift_step pv m m' k :
  maps m VIDEO pv 4000 -> shifted pv m m' k -> 0 <= k < 1920 ->
  exists m'', (c ← load8 (VIDEO + Z.shiftl (k + 80) 1); store8 (VIDEO + Z.shiftl k 1) c) m' =
              (Ok tt, m'') /\ shifted pv m m'' (k + 1).
Proof.
  intros Hm (Ho & Hs & Hc) Hk. assert (maps m' VIDEO pv 4000) as Hm' by by eapply screen_only_maps.
  go (load_char pv m' (k + 80)) by (done || lia). rewrite (store_char pv) by (done || lia).
  eexists. split; [done|]. split; [by apply only_phys_upd|]. split.
  { eapply screen_only_trans; [done|]. apply screen_only_store. lia. }
  intros i Hi. destruct (Z.eq_dec i k) as [->|Hne].
  - rewrite cell_upd_eq, u8_u8, u8_small by apply cell_range. rewrite Hc by lia.
    by zb.
  - rewrite cell_upd_ne, Hc by lia.
    destruct (Z.ltb_spec i k), (Z.ltb_spec i (k + 1)); done || lia.
Qed.

Lemma shift_row pv m m' row :
  maps m VIDEO pv 4000 -> shifted pv m m' (80 * row) -> 0 <= row < 24 ->
  exists m'', for_range 0 NUM_COLS (fun col =>
      let current_line := NUM_COLS * (row + 1) + col in
      let scroll_line := NUM_COLS * row + col in
      c ← load8 (video_mem + Z.shiftl current_line 1);
      store8 (video_mem + Z.shiftl scroll_line 1) c) m' = (Ok tt, m'') /\
    shifted pv m m'' (80 * (row + 1)).
Proof.
  intros Hm Hs Hrow. rewrite for_range_n by (unfold NUM_COLS; lia).
  unfold NUM_COLS, video_mem.
  destruct (for_n_ok (fun col t => shifted pv m t (80 * row + col)) (Z.to_nat (80 - 0)) 0
    (fun col => c ← load8 (VIDEO + Z.shiftl (80 * (row + 1) + col) 1);
                store8 (VIDEO + Z.shiftl (80 * row + col) 1) c) m') as (m'' & E & Hm'').
  - cbv beta. rewrite Z.add_0_r. exact Hs.
  - intros col t Hcol Ht. replace (80 * (row + 1) + col) with (80 * row + col + 80) by lia.
    rewrite Z.add_assoc. apply shift_step; [done|done|lia].
  - exists m''. split; [exact E|]. by replace (80 * (row + 1)) with (80 * row + (0 + Z.of_nat (Z.to_nat (80 - 0)))) by lia.
Qed.

(** Progress of the second loop: [k] characters of the last line are blank. *)
Definition blanked (pv : Z) (m m' : machine) (k : Z) : Prop :=
  only_phys m m' /\ screen_only pv m m' /\
  forall i, 0 <= i < 2000 ->
    cell m' (pv + 2 * i) =
      if i <? 1920 then cell m (pv + 2 * (i + 80))
      else if i <? 1920 + k then 0 else cell m (pv + 2 * i).

Lemma scroll_text pv m t :
  text_shown pv m t ->
  exists m', scroll m = (Ok tt, m') /\ screen_only pv m m' /\ io_log m' = io_log m /\
    text_shown pv m' (drop 80 t ++ replicate 80 0) /\ scr m' = Screen 0 24.
Proof.
  intros (Hm & Hl & Ht). unfold scroll. rewrite bind_run, for_range_n by (unfold NUM_ROWS; lia).
  match goal with |- context [for_n ?n 0 ?body m] =>
    destruct (for_n_ok (fun row s => shifted pv m s (80 * row)) n 0 body m) as (m1 & E1 & Hs1) end.
  { split; [apply only_phys_refl|]. split; [apply screen_only_refl|]. intros i Hi. by zb. }
  { intros row s Hrow Hs. unfold NUM_ROWS in Hrow. apply shift_row; [done|done|lia]. }
  rewrite E1. cbv beta iota. unfold NUM_ROWS in Hs1.
  rewrite bind_run, for_range_n by (unfold NUM_COLS; lia).
  match goal with |- context [for_n ?n 0 ?body m1] =>
    destruct (for_n_ok (fun col s => blanked pv m s col) n 0 body m1) as (m2 & E2 & Ho2 & Hs2 & Hc2) end.
  { destruct Hs1 as (Ho & Hs & Hc). split; [done|]. split; [done|]. intros i Hi. rewrite Hc by done.
    change (80 * _) with 1920. destruct (Z.ltb_spec i 1920); [done|]. by zb. }
  { intros col s Hcol (Ho & Hs & Hc). unfold NUM_COLS in Hcol.
    unfold NUM_COLS, NUM_ROWS, video_mem.
    rewrite (store_char pv) by (first [by eapply screen_only_maps|lia]).
    eexists. split; [done|]. split; [by apply only_phys_upd|]. split.
    { eapply screen_only_trans; [done|]. apply screen_only_store. lia. }
    intros i Hi. destruct (Z.eq_dec i (80 * (25 - 1) + col)) as [->|Hne].
    - rewrite cell_upd_eq. by zb.
    - rewrite cell_upd_ne, Hc by lia. destruct (Z.ltb_spec i 1920); [done|].
      destruct (Z.ltb_spec i (1920 + col)), (Z.ltb_spec i (1920 + (col + 1))); done || lia. }
  rewrite E2. cbv beta iota. unfold set_screen_x, set_screen_y. mrun. eexists. split; [done|].
  split; [|split; [|split]].
  - eapply screen_only_trans; [exact Hs2|]. split; [by destruct m2 as [? ? ? ? ? ? ? []]|done|log_same].
  - msimp. rewrite Ho2. done.
  - split; [eapply maps_loc; [|exact Hm]; intros x; rewrite Ho2; done|].
    split; [rewrite length_app, length_drop, length_replicate; lia|].
    intros i Hi. transitivity (Some (cell m2 (pv + 2 * Z.of_nat i))); [|done].
    rewrite Hc2 by lia. unfold NUM_COLS. destruct (Z.ltb_spec (Z.of_nat i) 1920).
    + rewrite lookup_app_l by (rewrite length_drop; lia). rewrite lookup_drop, Ht by lia.
      do 3 f_equal. lia.
    + zb. rewrite lookup_app_r by (rewrite length_drop; lia). rewrite length_drop.
      apply lookup_replicate_2. lia.
  - msimp. unfold NUM_ROWS. by destruct (scr m2).
Qed.

(** The cursor after an operation that ends with [update_cursor_loc]. *)
Definition cursor_shown (m : machine) (c : console) : Prop :=
  cursor_at (io_log m) = 80 * con_y c + con_x c.

Lemma do_enter_ok pv m t x y :
  text_shown pv m t -> screen_y (scr m) = y -> 0 <= y < 25 ->
  exists m', do_enter m = (Ok tt, m') /\ shows pv m' (con_enter (Console t x y)) /\
    screen_only pv m m' /\ cursor_shown m' (con_enter (Console t x y)).
Proof.
  intros Ht Hy Hyr. unfold do_enter, get_screen_x, get_screen_y. mrun. rewrite Hy. unfold NUM_ROWS, con_enter.
  cbn [con_y con_text]. change (25 - 1) with 24. destruct (Z.eqb_spec y 24) as [->|Hne].
  - destruct (scroll_text pv m t Ht) as (m1 & E & Hs & Hlog & (Hm1 & Hl1 & Ht1) & Hscr).
    rewrite E. cbv beta iota. unfold set_screen_x. mrun. rewrite update_cursor_loc_run. msimp.
    rewrite Hscr. cbn [screen_x screen_y].
    eexists. split; [done|]. split; [|split].
    + split; msimp; rewrite ?Hscr; try done; try (split; [done|cbn; lia]).
    + eapply screen_only_trans; [exact Hs|]. split; [by destruct m1 as [? ? ? ? ? ? ? []]|done|log_same].
    + unfold cursor_shown. msimp. rewrite cursor_at_ops by (apply u16_range). cbn. done.
  - destruct Ht as (Hm & Hl & Ht). unfold set_screen_x, set_screen_y. mrun. rewrite update_cursor_loc_run. msimp.
    rewrite i32_small by lia. eexists. split; [done|]. split; [|split].
    + split; msimp; try done; try (split; [done|cbn; lia]).
    + split; [by destruct m as [? ? ? ? ? ? ? []]|done|log_same].
    + unfold cursor_shown. msimp. rewrite cursor_at_ops by (apply u16_range).
      cbn [con_x con_y]. rewrite u16_small; lia.
Qed.

Lemma putc_ok pv m c b :
  shows pv m c -> is_byte b ->
  exists m', putc b m = (Ok tt, m') /\ shows pv m' (con_putc b c) /\
    screen_only pv m m' /\ cursor_shown m' (con_putc b c).
Proof.
  intros Hsh Hb. pose proof (shows_text _ _ _ Hsh) as Htx.
  destruct Hsh as [Hm (Hl & Hx & Hy) Ht Hsx Hsy]. destruct c as [t x y]. cbn [con_text con_x con_y] in *.
  unfold putc, con_putc. destruct (_ || _).
  { by eapply do_enter_ok. }
  cbn [con_text con_x con_y]. unfold get_screen_x, get_screen_y, video_mem, NUM_COLS. mrun.
  rewrite Hsx, Hsy. rewrite (store_char pv) by (done || lia). cbv beta iota. unfold set_screen_x. mrun. msimp.
  rewrite u8_small by exact Hb. rewrite i32_small by lia.
  set (m1 := upd m _ b). pose proof (screen_only_store pv m (80 * y + x) b ltac:(lia)) as Hs1. fold m1 in Hs1.
  pose proof (text_upd pv m t (80 * y + x) b Ht Hl ltac:(lia) Hb) as Ht1. fold m1 in Ht1.
  match goal with |- context [(if _ then do_enter else _) ?mm] => set (m2 := mm) end.
  assert (screen_only pv m m2) as Hs2.
  { eapply screen_only_trans; [exact Hs1|]. split; [by destruct m1 as [? ? ? ? ? ? ? []]|done|log_same]. }
  assert (text_shown pv m2 (<[con_index x y := b]> t)) as Htx2.
  { split; [by eapply screen_only_maps|]. split; [by rewrite length_insert|exact Ht1]. }
  destruct (Z.leb_spec 80 (x + 1)) as [Hge|Hlt].
  - destruct (do_enter_ok pv m2 (<[con_index x y := b]> t) (x + 1) y) as (m' & E & Hsh & Hs' & Hcur);
      [done|unfold m2; msimp; done|lia|].
    exists m'. split; [exact E|]. split; [done|]. split; [by eapply screen_only_trans|done].
  - mrun. rewrite update_cursor_loc_run. eexists. split; [done|]. split; [|split].
    + split; cbn [con_text con_x con_y].
      * apply (screen_only_maps pv m m2 VIDEO pv 4000 Hs2 Hm).
      * split; cbn; [by rewrite length_insert|lia].
      * exact Ht1.
      * reflexivity.
      * unfold m2. msimp. exact Hsy.
    + eapply screen_only_trans; [exact Hs2|]. split; [by destruct m2|done|log_same].
    + unfold cursor_shown, m2. msimp. rewrite cursor_at_ops by apply u16_range.
      cbn [con_x con_y]. change (screen_y _) with (screen_y (scr m)). rewrite Hsy, u16_small; lia.
Qed.
End Refine.

(** * Strings and formats *)

(** The argument list of a format: words, and strings of the kernel. *)
Inductive sarg : Type :=
  | SInt (z : Z)
  | SStr (l : list Z).

Definition to_parg (a : sarg) : parg :=
  match a with SInt z => PInt z | SStr l => PPtr (cstr l) end.

(** The text of one conversion, and the arguments left. *)
Definition conv_text (c alternate : Z) (args : list sarg) : option (list Z * list sarg) :=
  if c =? 37 then Some ([37], args)
  else if c =? 120 then
    match args with
    | SInt v :: args =>
        let ds := numeral 16 (u32 v) in
        Some (if alternate =? 0 then ds else replicate (8 - length ds) 48 ++ ds, args)
    | _ => None
    end
  else if c =? 117 then
    match args with SInt v :: args => Some (numeral 10 (u32 v), args) | _ => None end
  else if c =? 100 then
    match args with
    | SInt v :: args =>
        Some (if i32 v <? 0 then 45 :: numeral 10 (- i32 v) else numeral 10 (i32 v), args)
    | _ => None
    end
  else if c =? 99 then
    match args with SInt v :: args => Some ([u8 v], args) | _ => None end
  else if c =? 115 then
    match args with SStr l :: args => Some (l, args) | _ => None end
  else Some ([], args).

(** The text a format prints. *)
Fixpoint render (format : list Z) (conv : option Z) (args : list sarg) : option (list Z) :=
  match conv, format with
  | None, [] => Some []
  | None, c :: format =>
      if c =? 37 then render format (Some 0) args
      else cons c <$> render format None args
  | Some _, [] => None
  | Some alternate, c :: format =>
      if c =? 35 then render format (Some 1) args
      else '(t, args) ← conv_text c alternate args; app t <$> render format None args
  end.

(** Strings are made of non-null bytes. *)
Definition is_string (l : list Z) : Prop := Forall (fun c => 0 < c < 256) l.
Definition sarg_ok (a : sarg) : Prop :=
  match a with SInt _ => True | SStr l => is_string l /\ Z.of_nat (length l) < 2147483648 end.

Lemma is_string_bytes l : is_string l -> Forall is_byte l.
Proof. intros Hl. eapply Forall_impl; [|exact Hl]. unfold is_byte. cbn. lia. Qed.

Lemma digits_string radix v :
  2 <= radix <= 36 -> 0 <= v -> is_string (numeral radix v).
Proof. intros Hr Hv. eapply Forall_impl; [|by apply numeral_chars]. cbn. lia. Qed.

(** Eight hexadecimal digits are enough. *)
Lemma length_digits_pow fuel radix v k :
  2 <= radix -> 0 <= v < radix ^ Z.of_nat k -> (length (digits_rev fuel radix v) <= k)%nat.
Proof.
  intros Hr. revert v k. induction fuel as [|fuel IH]; intros v k Hv; cbn; [lia|].
  destruct (Z.ltb_spec 0 v); cbn; [|lia].
  destruct k as [|k]; [cbn in Hv; lia|]. apply le_n_S, IH.
  rewrite Nat2Z.inj_succ, Z.pow_succ_r in Hv by lia.
  split; [apply Z.div_pos; lia|apply Z.div_lt_upper_bound; lia].
Qed.

Lemma length_hex v : 0 <= v < 4294967296 -> (1 <= length (numeral 16 v) <= 8)%nat.
Proof.
  intros Hv. split; [apply (length_numeral 16 v); lia|].
  unfold numeral. case_match; [cbn; lia|]. rewrite length_rev. by apply length_digits_pow.
Qed.

Section Strings.
Context `{Platform}.

Lemma itoa_u32 (v : Z) p radix : (itoa v p radix : K ptr) = itoa (u32 v) p radix.
Proof. unfold itoa. by rewrite u32_u32. Qed.

(** A string that stays readable while the screen changes. *)
Definition stable_string (pv : Z) (m : machine) (s : ptr) (l : list Z) : Prop :=
  forall m', screen_only pv m m' -> reads m' s (l ++ [0]).

Lemma stable_buf pv m l1 l l2 off :
  off = Z.of_nat (length l1) -> stable_string pv m (Buf (l1 ++ l ++ 0 :: l2) off) l.
Proof.
  intros Ho m' _. replace (l1 ++ l ++ 0 :: l2) with (l1 ++ (l ++ [0]) ++ l2) by by rewrite <- app_assoc.
  by apply reads_buf.
Qed.

Lemma puts_ok pv m c s l :
  shows pv m c -> stable_string pv m s l -> is_string l -> Z.of_nat (length l) < 2147483648 ->
  exists m', puts s m = (Ok (Z.of_nat (length l)), m') /\ shows pv m' (con_puts l c) /\
    screen_only pv m m'.
Proof.
  intros Hsh Hst Hl Hlen. unfold puts.
  while_by (fun i t => 0 <= i <= Z.of_nat (length l) /\ screen_only pv m t /\
                       shows pv t (con_puts (take (Z.to_nat i) l) c))
    (fun r t => r = Z.of_nat (length l) /\ screen_only pv m t /\ shows pv t (con_puts l c))
    (fun i => Z.to_nat (Z.of_nat (length l) - i)) as (r & m' & E & -> & Hs & Hsh');
    [| |lia|by exists m'].
  { split; [lia|]. split; [apply screen_only_refl|done]. }
  intros i t (Hi & Hs & Ht). go (Hst t Hs) by (rewrite length_app; simpl length; lia).
  destruct (decide (i = Z.of_nat (length l))) as [->|Hne].
  - left. unfold byte_at. rewrite lookup_total_app_r by lia. rewrite Nat2Z.id, Nat.sub_diag. cbn.
    eexists _, t. split; [done|]. split; [done|]. split; [done|].
    rewrite Nat2Z.id, firstn_all in Ht. done.
  - right. assert (byte_at (l ++ [0]) i = byte_at l i) as ->.
    { unfold byte_at. apply lookup_total_app_l. lia. }
    assert (0 < byte_at l i < 256) as Hb.
    { unfold byte_at. eapply (Forall_lookup_total_1 (fun c => 0 < c < 256)); [exact Hl|lia]. }
    zb. rewrite u8_small by lia.
    destruct (putc_ok pv t (con_puts (take (Z.to_nat i) l) c) (byte_at l i) Ht) as (t' & E & Hsh' & Hs' & _).
    { unfold is_byte. lia. }
    go E. exists (i + 1), t'. split; [done|]. split; [|lia]. split; [lia|].
    split; [by eapply screen_only_trans|].
    rewrite take_byte by lia. by rewrite con_puts_app.
Qed.

(** Numbers. *)
Lemma puts_numeral pv m c l1 v radix rest :
  shows pv m c -> 2 <= radix <= 36 -> 0 <= v < 4294967296 -> (length (numeral radix v) < length rest)%nat ->
  exists m', (conv_buf ← itoa v (Buf (l1 ++ rest) (Z.of_nat (length l1))) radix; puts conv_buf) m =
             (Ok (Z.of_nat (length (numeral radix v))), m') /\
    shows pv m' (con_puts (numeral radix v) c) /\ screen_only pv m m'.
Proof.
  intros Hsh Hr Hv Hlen. rewrite bind_run, itoa_buf by done.
  pose proof (length_numeral radix v ltac:(lia) Hv).
  apply puts_ok; [done|by apply stable_buf|apply digits_string; lia|lia].
Qed.

Lemma puts_numeral_then {A} (a : A) pv m c n v radix :
  shows pv m c -> 2 <= radix <= 36 -> 0 <= v < 4294967296 -> (33 <= n)%nat ->
  exists m', (conv_buf ← itoa v (Buf (replicate n 0) 0) radix; puts conv_buf;; mret a) m = (Ok a, m') /\
    shows pv m' (con_puts (numeral radix v) c) /\ screen_only pv m m'.
Proof.
  intros Hsh Hr Hv Hn. pose proof (length_numeral radix v ltac:(lia) Hv) as Hlen.
  destruct (puts_numeral pv m c [] v radix (replicate n 0) Hsh Hr Hv) as (m' & E & Hsh' & Hs).
  { rewrite length_replicate. lia. }
  exists m'. split; [|done].
  etransitivity; [symmetry; apply (bind_assoc (itoa v (Buf (replicate n 0) 0) radix) (fun b => puts b))|].
  cbn [app length] in E. change (Z.of_nat 0) with 0 in E. by rewrite bind_run, E.
Qed.

(** Zero padding on the left. *)
Lemma pad_loop (m : machine) k tail :
  (k <= 8)%nat ->
  while (fun '(b, i) => if i <? 8 then b' ← wr b i 48; mret (inl (b', i + 1)) else mret (inr b))
    (Buf (replicate 8 0 ++ tail) 0, Z.of_nat k) m =
  (Ok (Buf (replicate k 0 ++ replicate (8 - k) 48 ++ tail) 0), m).
Proof.
  intros Hk.
  while_by (fun '(b, i) t => t = m /\ Z.of_nat k <= i <= 8 /\
      b = Buf (replicate k 0 ++ replicate (Z.to_nat i - k) 48 ++ replicate (8 - Z.to_nat i) 0 ++ tail) 0)
    (fun b t => t = m /\ b = Buf (replicate k 0 ++ replicate (8 - k) 48 ++ tail) 0)
    (fun '(_, i) => Z.to_nat (8 - i)) as (b & t & E & -> & ->); [| |lia|exact E].
  { split; [done|]. split; [lia|]. rewrite Nat2Z.id, Nat.sub_diag. cbn.
    rewrite app_assoc, <- replicate_add. by replace (k + (8 - k))%nat with 8%nat by lia. }
  intros [b i] t (-> & Hi & ->). destruct (Z.ltb_spec i 8) as [Hlt|Hge].
  - right. cbn [wr]. rewrite !length_app, !length_replicate. zb. mrun.
    eexists (_, _), m. split; [done|]. split; [|lia]. split; [done|]. split; [lia|]. f_equal.
    rewrite u8_small by lia. rewrite insert_app_r_alt by (rewrite length_replicate; lia).
    rewrite length_replicate. f_equal. rewrite insert_app_r_alt by (rewrite length_replicate; lia).
    rewrite length_replicate.
    replace (Z.to_nat (0 + i) - k - (Z.to_nat i - k))%nat with 0%nat by lia.
    replace (8 - Z.to_nat i)%nat with (S (8 - Z.to_nat (i + 1))) by lia. cbn [replicate].
    replace (Z.to_nat (i + 1) - k)%nat with (Z.to_nat i - k + 1)%nat by lia.
    rewrite replicate_add, <- app_assoc. done.
  - left. eexists _, m. split; [done|]. split; [done|]. do 3 f_equal; [f_equal; lia|].
    by replace (8 - Z.to_nat i)%nat with 0%nat by lia.
Qed.

Lemma puts_padded pv m c v :
  shows pv m c -> 0 <= v < 4294967296 ->
  let ds := numeral 16 v in
  exists n m',
    (conv_buf ← itoa v (Buf (replicate 64 0) 8) 16;
     starting_index ← strlen conv_buf;
     conv_buf ← while (fun '(b, i) =>
       if i <? 8 then b' ← wr b i 48; mret (inl (b', i + 1)) else mret (inr b))
       (Buf (contents conv_buf) 0, starting_index);
     puts (Buf (contents conv_buf) starting_index)) m = (Ok n, m') /\
    shows pv m' (con_puts (replicate (8 - length ds) 48 ++ ds) c) /\ screen_only pv m m'.
Proof.
  intros Hsh Hv ds. pose proof (length_hex v Hv) as Hds. fold ds in Hds.
  pose proof (digits_string 16 v ltac:(lia) ltac:(lia)) as Hstr. fold ds in Hstr.
  pose proof (itoa_buf m (replicate 8 0) (replicate 56 0) 16 v ltac:(lia) Hv) as E. fold ds in E.
  rewrite bind_run. change (replicate 64 0) with (replicate 8 0 ++ replicate 56 0).
  change 8 with (Z.of_nat (length (replicate 8 0))) at 1. rewrite E by (rewrite length_replicate; lia).
  set (rest := drop _ _).
  assert (strlen (Buf (replicate 8 0 ++ ds ++ 0 :: rest) (Z.of_nat (length (replicate 8 0)))) m =
          (Ok (Z.of_nat (length ds)), m)) as Es.
  { apply strlen_ok; [|by eapply Forall_impl; [|exact Hstr]; cbn; lia|lia].
    replace (replicate 8 0 ++ ds ++ 0 :: rest) with (replicate 8 0 ++ (ds ++ [0]) ++ rest)
      by by rewrite <- app_assoc.
    by apply reads_buf. }
  go Es. cbn [contents].
  change (Buf (replicate 8 0 ++ ds ++ 0 :: rest) 0) with (Buf (replicate 8 0 ++ (ds ++ 0 :: rest)) 0).
  go (pad_loop m (length ds) (ds ++ 0 :: rest)) by lia. cbn [contents].
  destruct (puts_ok pv m c (Buf (replicate (length ds) 0 ++ replicate (8 - length ds) 48 ++ ds ++ 0 :: rest)
    (Z.of_nat (length ds))) (replicate (8 - length ds) 48 ++ ds)) as (m' & E' & Hsh' & Hs'); [done| | | |].
  - replace (replicate (8 - length ds) 48 ++ ds ++ 0 :: rest)
      with ((replicate (8 - length ds) 48 ++ ds) ++ 0 :: rest) by by rewrite <- app_assoc.
    apply stable_buf. by rewrite length_replicate.
  - apply Forall_app. split; [|done]. apply Forall_replicate. lia.
  - rewrite length_app, length_replicate. lia.
  - by eexists _, m'.
Qed.

(** One conversion. *)
Lemma printf_conv_ok pv m c ch alternate args t args' :
  shows pv m c -> Forall sarg_ok args -> conv_text ch alternate args = Some (t, args') ->
  exists m', printf_conv ch alternate (to_parg <$> args) m = (Ok (to_parg <$> args'), m') /\
    shows pv m' (con_puts t c) /\ screen_only pv m m' /\ Forall sarg_ok args'.
Proof.
  intros Hsh Hargs Hc. unfold conv_text in Hc. unfold printf_conv.
  destruct (Z.eqb_spec ch 37) as [->|_].
  { injection Hc as <- <-. destruct (putc_ok pv m c 37 Hsh) as (m' & E & Hsh' & Hs & _).
    { unfold is_byte. lia. }
    go E. by exists m'. }
  destruct (Z.eqb_spec ch 120) as [->|_].
  { destruct args as [|[v|] args]; [done| |done]. cbn [fmap list_fmap to_parg].
    inversion Hargs; subst. pose proof (u32_range v) as Hv. injection Hc as <- <-.
    destruct (Z.eqb_spec alternate 0) as [->|Ha].
    - destruct (puts_numeral pv m c [] (u32 v) 16 (replicate 64 0) Hsh ltac:(lia) Hv) as (m' & E & Hsh' & Hs).
      { pose proof (length_numeral 16 (u32 v) ltac:(lia) Hv). rewrite length_replicate. lia. }
      cbn [app length] in E. change (Z.of_nat 0) with 0 in E.
      rewrite itoa_u32, bind_run, E. by exists m'.
    - destruct (puts_padded pv m c (u32 v) Hsh Hv) as (n & m' & E & Hsh' & Hs).
      rewrite itoa_u32, bind_run, E. by exists m'. }
  destruct (Z.eqb_spec ch 117) as [->|_].
  { destruct args as [|[v|] args]; [done| |done]. cbn [fmap list_fmap to_parg].
    inversion Hargs; subst. pose proof (u32_range v) as Hv. injection Hc as <- <-.
    rewrite itoa_u32.
    destruct (puts_numeral_then (to_parg <$> args) pv m c 36 (u32 v) 10 Hsh ltac:(lia) Hv ltac:(lia))
      as (m' & E & Hsh' & Hs).
    exists m'. split; [exact E|done]. }
  destruct (Z.eqb_spec ch 100) as [->|_].
  { destruct args as [|[v|] args]; [done| |done]. cbn [fmap list_fmap to_parg].
    inversion Hargs; subst. pose proof (i32_range v) as Hv. injection Hc as <- <-. cbv zeta.
    destruct (Z.ltb_spec (i32 v) 0) as [Hneg|Hpos].
    - cbn [wr]. rewrite length_replicate. change (0 + 0) with 0. zb. mrun. cbn [contents].
      change (<[Z.to_nat 0 := u8 45]> (replicate 36 0)) with ([45] ++ replicate 35 0).
      pose proof (length_numeral 10 (- i32 v) ltac:(lia) ltac:(lia)) as Hlen.
      pose proof (itoa_buf m [45] (replicate 35 0) 10 (- i32 v) ltac:(lia) ltac:(lia)) as E.
      change (Z.of_nat (length [45])) with 1 in E. rewrite E by (rewrite length_replicate; lia).
      mrun. cbn [contents]. set (rest := drop _ _).
      destruct (puts_ok pv m c (Buf ([] ++ ([45] ++ numeral 10 (- i32 v)) ++ 0 :: rest) 0)
        ([45] ++ numeral 10 (- i32 v))) as (m' & E' & Hsh' & Hs'); [done| | | |].
      + by apply stable_buf.
      + constructor; [lia|]. apply digits_string; lia.
      + rewrite length_app. cbn [length]. lia.
      + rewrite <- app_assoc in E'. cbn [app] in E'. cbn [app]. rewrite E'. by exists m'.
    - destruct (puts_numeral_then (to_parg <$> args) pv m c 36 (i32 v) 10 Hsh ltac:(lia) ltac:(lia) ltac:(lia))
        as (m' & E & Hsh' & Hs).
      exists m'. split; [exact E|done]. }
  destruct (Z.eqb_spec ch 99) as [->|_].
  { destruct args as [|[v|] args]; [done| |done]. cbn [fmap list_fmap to_parg].
    inversion Hargs; subst. injection Hc as <- <-.
    destruct (putc_ok pv m c (u8 v) Hsh) as (m' & E & Hsh' & Hs & _); [apply u8_range|].
    go E. by exists m'. }
  destruct (Z.eqb_spec ch 115) as [->|_].
  { destruct args as [|[|l] args]; [done|done|]. cbn [fmap list_fmap to_parg].
    inversion Hargs as [|? ? Hl' ?]; subst. destruct Hl' as [Hl Hlen]. injection Hc as <- <-.
    destruct (puts_ok pv m c (cstr l) l Hsh) as (m' & E & Hsh' & Hs); [|done|done|].
    { by apply (stable_buf pv m [] l []). }
    go E. by exists m'. }
  injection Hc as <- <-. exists m. split; [done|]. split; [done|]. split; [apply screen_only_refl|done].
Qed.

Lemma printf_ok pv : forall format conv args txt m c,
  shows pv m c -> is_string format -> Forall sarg_ok args -> render format conv args = Some txt ->
  exists m', printf_loop format conv (to_parg <$> args) m = (Ok tt, m') /\
    shows pv m' (con_puts txt c) /\ screen_only pv m m'.
Proof.
  induction format as [|ch format IH]; intros conv args txt m c Hsh Hf Hargs Hr.
  { destruct conv; [done|]. injection Hr as <-. exists m. split; [done|]. split; [done|].
    apply screen_only_refl. }
  inversion Hf as [|? ? Hch Hf']; subst. destruct conv as [alternate|]; cbn [printf_loop render] in *.
  - destruct (ch =? 35); [by apply IH|].
    destruct (conv_text ch alternate args) as [[t args']|] eqn:Hc; [|done].
    cbn [mbind option_bind] in Hr.
    destruct (render format None args') as [txt'|] eqn:Hr'; [|done]. injection Hr as <-.
    destruct (printf_conv_ok pv m c ch alternate args t args' Hsh Hargs Hc) as (m1 & E1 & Hsh1 & Hs1 & Hargs').
    destruct (IH None args' txt' m1 (con_puts t c) Hsh1 Hf' Hargs' Hr') as (m2 & E2 & Hsh2 & Hs2).
    go E1. exists m2. split; [exact E2|]. split; [by rewrite con_puts_app|by eapply screen_only_trans].
  - destruct (ch =? 37); [by apply IH|].
    destruct (render format None args) as [txt'|] eqn:Hr'; [|done]. injection Hr as <-.
    destruct (putc_ok pv m c ch Hsh) as (m1 & E1 & Hsh1 & Hs1 & _); [unfold is_byte; lia|].
    destruct (IH None args txt' m1 (con_putc ch c) Hsh1 Hf' Hargs Hr') as (m2 & E2 & Hsh2 & Hs2).
    rewrite u8_small by lia. go E1. exists m2. split; [exact E2|]. split; [done|by eapply screen_only_trans].
Qed.

(** A format without conversions comes first. *)
Lemma printf_prefix pre rest args (m : machine) :
  Forall (fun c => c <> 37) pre ->
  printf_loop (pre ++ rest) None args m = (printf_loop pre None [];; printf_loop rest None args) m.
Proof.
  revert m. induction pre as [|c pre IH]; intros m Hp; [done|]. inversion Hp as [|? ? Hc Hp']; subst.
  cbn [app printf_loop]. rewrite (proj2 (Z.eqb_neq c 37)) by done. rewrite !bind_assoc, !bind_run.
  destruct (putc (u8 c) m) as [[[]|e] m1]; [|done]. by rewrite IH.
Qed.

Lemma render_plain pre : Forall (fun c => 0 < c < 256 /\ c <> 37) pre -> render pre None [] = Some pre.
Proof.
  induction 1 as [|c pre [_ Hc] _ IH]; [done|]. cbn [render].
  by rewrite (proj2 (Z.eqb_neq c 37)), IH by done.
Qed.

(** A string that lies in memory or in a local array, between plain text and
    the rest of the format. *)
Lemma printf_string pv pre s l rest args txt m c :
  shows pv m c -> Forall (fun c => 0 < c < 256 /\ c <> 37) pre ->
  stable_string pv m s l -> is_string l -> Z.of_nat (length l) < 2147483648 ->
  is_string rest -> Forall sarg_ok args -> render rest None args = Some txt ->
  exists m', printf_loop (pre ++ [37; 115] ++ rest) None (PPtr s :: (to_parg <$> args)) m = (Ok tt, m') /\
    shows pv m' (con_puts (pre ++ l ++ txt) c) /\ screen_only pv m m'.
Proof.
  intros Hsh Hpre Hst Hl Hlen Hrest Hargs Hr.
  destruct (printf_ok pv pre None [] pre m c Hsh) as (m1 & E1 & Hsh1 & Hs1);
    [by eapply Forall_impl; [|exact Hpre]; intros ? []|constructor|by apply render_plain|].
  destruct (puts_ok pv m1 _ s l Hsh1) as (m2 & E2 & Hsh2 & Hs2); [|done|done|].
  { intros m' Hs'. apply Hst. by eapply screen_only_trans. }
  destruct (printf_ok pv rest None args txt m2 _ Hsh2 Hrest Hargs Hr) as (m3 & E3 & Hsh3 & Hs3).
  exists m3. split; [|split].
  - rewrite printf_prefix by (by eapply Forall_impl; [|exact Hpre]; intros ? []).
    change (to_parg <$> []) with ([] : list parg) in E1. go E1. cbn [app printf_loop].
    change (37 =? 37) with true. change (115 =? 35) with false. cbv iota. unfold printf_conv.
    change (115 =? 37) with false. change (115 =? 120) with false. change (115 =? 117) with false.
    change (115 =? 100) with false. change (115 =? 99) with false. change (115 =? 115) with true. cbv iota.
    go E2. mrun. exact E3.
  - by rewrite !con_puts_app.
  - eapply screen_only_trans; [exact Hs1|]. by eapply screen_only_trans.
Qed.
End Strings.

(** * Clearing and erasing *)

Section Clear.
Context `{Platform}.

Lemma fill_loop pv m v :
  maps m VIDEO pv 4000 -> is_byte v ->
  exists m', for_range 0 (NUM_ROWS * NUM_COLS) (fun i => store8 (video_mem + Z.shiftl i 1) v) m = (Ok tt, m') /\
    only_phys m m' /\ screen_only pv m m' /\ text_shown pv m' (replicate 2000 v).
Proof.
  intros Hm Hv. rewrite for_range_n by (unfold NUM_ROWS, NUM_COLS; lia).
  match goal with |- context [for_n ?n 0 ?body m] =>
    destruct (for_n_ok (fun i t => only_phys m t /\ screen_only pv m t /\
      forall j, 0 <= j < i -> cell t (pv + 2 * j) = v) n 0 body m) as (m' & E & Ho & Hs & Hc) end.
  - split; [apply only_phys_refl|]. split; [apply screen_only_refl|]. lia.
  - intros i t Hi (Ho & Hs & Hc). unfold NUM_ROWS, NUM_COLS in Hi. unfold video_mem.
    rewrite (store_char pv) by (first [by eapply screen_only_maps|lia]).
    eexists. split; [done|]. split; [by apply only_phys_upd|]. split.
    { eapply screen_only_trans; [done|]. apply screen_only_store. lia. }
    intros j Hj. destruct (Z.eq_dec j i) as [->|Hne].
    + by rewrite cell_upd_eq, u8_u8, u8_small.
    + rewrite cell_upd_ne by lia. apply Hc. lia.
  - exists m'. split; [exact E|]. split; [done|]. split; [done|].
    split; [by eapply screen_only_maps|]. split; [by rewrite length_replicate|].
    intros i Hi. rewrite lookup_replicate_2 by lia. f_equal. symmetry. apply Hc.
    unfold NUM_ROWS, NUM_COLS. lia.
Qed.

Lemma clear_ok pv m :
  maps m VIDEO pv 4000 ->
  exists m', clear m = (Ok tt, m') /\ shows pv m' (con_puts prompt con_blank) /\ screen_only pv m m'.
Proof.
  intros Hm. destruct (fill_loop pv m 32 Hm) as (m1 & E1 & Ho1 & Hs1 & (Hm1 & Hl1 & Ht1)).
  { unfold is_byte. lia. }
  unfold clear. go E1. unfold set_screen_pos. mrun. rewrite update_cursor_loc_run. cbv beta iota.
  unfold printf. rewrite ?bind_assoc, bind_run.
  match goal with |- context [printf_loop prompt None [] ?mm] => set (m2 := mm) end.
  assert (shows pv m2 con_blank) as Hsh2.
  { split; [exact Hm1| |exact Ht1| |].
    - split; cbn [con_text con_x con_y con_blank]; [by rewrite length_replicate|lia].
    - unfold m2. msimp. done.
    - unfold m2. msimp. done. }
  destruct (printf_ok pv prompt None [] prompt m2 con_blank Hsh2) as (m3 & E3 & Hsh3 & Hs3);
    [by repeat constructor|done|reflexivity|].
  cbn [fmap list_fmap] in E3. rewrite E3. mrun.
  exists m3. split; [done|]. split; [done|].
  eapply screen_only_trans; [exact Hs1|]. eapply screen_only_trans; [|exact Hs3].
  split; [by destruct m1 as [? ? ? ? ? ? ? []]|done|log_same].
Qed.

Lemma do_backspace_ok pv m c :
  shows pv m c -> 0 < con_x c \/ 0 < con_y c ->
  exists m', do_backspace m = (Ok tt, m') /\ shows pv m' (con_backspace c) /\
    screen_only pv m m' /\ cursor_shown m' (con_backspace c).
Proof.
  intros [Hm (Hl & Hx & Hy) Ht Hsx Hsy] Hpos. destruct c as [t x y]. cbn [con_text con_x con_y] in *.
  unfold do_backspace, get_screen_x, get_screen_y, con_backspace. cbn [con_text con_x con_y].
  mrun. rewrite Hsx, Hsy.
  set (x' := if (x =? 0) && (0 <? y) then 78 else x - 1).
  set (y' := if (x =? 0) && (0 <? y) then y - 1 else y).
  assert (0 <= x' < 80 /\ 0 <= y' < 25) as [Hx' Hy'].
  { unfold x', y'. destruct (Z.eqb_spec x 0), (Z.ltb_spec 0 y); cbn [andb]; lia. }
  assert ((if (x =? 0) && (0 <? y) then (78, y - 1) else (x - 1, y)) = (x', y')) as ->.
  { unfold x', y'. by destruct (_ && _). }
  assert ((if (x =? 0) && (0 <? y) then set_screen_x (NUM_COLS - 2);; set_screen_y (i32 (y - 1))
           else set_screen_x (i32 (x - 1))) m =
          (Ok tt, m <| scr ::= fun s => s <| screen_x := x' |> <| screen_y := y' |> |>)) as ->.
  { unfold x', y', set_screen_x, set_screen_y, NUM_COLS.
    destruct (_ && _); mrun; rewrite i32_small by lia.
    - by destruct m as [? ? ? ? ? ? ? []].
    - destruct m as [? ? ? ? ? ? ? []]. cbn in Hsy. by subst. }
  cbv beta iota. mrun. msimp. unfold NUM_COLS.
  set (m1 := m <| scr ::= fun s => s <| screen_x := x' |> <| screen_y := y' |> |>). assert (maps m1 VIDEO pv 4000) as Hm1 by exact Hm.
  rewrite (store_char pv) by (done || lia). cbv beta iota. rewrite update_cursor_loc_run.
  pose proof (screen_only_store pv m1 (80 * y' + x') (u8 0) ltac:(lia)) as Hs2.
  pose proof (text_upd pv m1 t (80 * y' + x') (u8 0) Ht Hl ltac:(lia) (u8_range 0)) as Ht2.
  set (m2 := upd m1 _ _) in *. eexists. split; [done|]. split; [|split].
  - split; cbn [con_text con_x con_y].
    + exact Hm1.
    + split; cbn; [by rewrite length_insert|lia].
    + exact Ht2.
    + reflexivity.
    + reflexivity.
  - eapply (screen_only_trans _ _ m1); [split; [by destruct m as [? ? ? ? ? ? ? []]|done|log_same]|].
    eapply screen_only_trans; [exact Hs2|]. split; [by destruct m2|done|log_same].
  - unfold cursor_shown. msimp. rewrite cursor_at_ops by apply u16_range.
    cbn [con_x con_y]. rewrite u16_small; lia.
Qed.
End Clear.

(** * Properties *)

Section Demo.
Context `{Platform}.

(** A blank screen, before paging is turned on. *)
Definition blank_console : console := Console (replicate 2000 0) 0 0.

Lemma boot_shows : shows VIDEO boot_machine blank_console.
Proof.
  split.
  - intros i Hi. unfold loc. cbn. by rewrite u32_small by (unfold VIDEO; lia).
  - split; [apply length_replicate|cbn; lia].
  - intros i Hi. cbn [con_text blank_console]. rewrite lookup_replicate_2 by lia. done.
  - done.
  - done.
Qed.
End Demo.

(** C23. Printing a character refines the console: on a screen that shows a
    console, [putc] of a byte always returns, and the screen then shows the
    console with the character put at the cursor, wrapped after column 79 and
    scrolled at the bottom; the cursor stays on the screen, the hardware cursor
    is where the console has it, and the colours, the rest of memory and every
    other part of the state are unchanged. *)
Theorem putc_refines `{Platform} (pv : Z) (m : machine) (c : console) (b : Z) :
  shows pv m c -> is_byte b ->
  exists m', putc b m = (Ok tt, m') /\ shows pv m' (con_putc b c) /\
    con_ok (con_putc b c) /\ screen_only pv m m' /\ cursor_shown m' (con_putc b c).
Proof.
  intros Hsh Hb. destruct (putc_ok pv m c b Hsh Hb) as (m' & E & Hsh' & Hs & Hcur).
  exists m'. split; [done|]. split; [done|]. split; [apply (sh_ok _ _ _ Hsh')|done].
Qed.

Lemma putc_refines_witness :
  let P := plain_platform in
  exists m', putc 65 boot_machine = (Ok tt, m') /\
    shows VIDEO m' (Console (65 :: replicate 1999 0) 1 0) /\ cursor_at (io_log m') = 1.
Proof.
  intros P. destruct (putc_refines VIDEO boot_machine blank_console 65) as (m' & E & Hsh & _ & _ & Hcur).
  - apply boot_shows.
  - unfold is_byte. lia.
  - exists m'. split; [exact E|]. split; [exact Hsh|exact Hcur].
Defined.

(** C33. Formatted printing: for a format and arguments that the documentation of
    [printf] covers (%%, %x, %#x padded to eight digits, %u, %d with its sign, %c
    and %s), the rendered text appears on the screen as if printed character by
    character, and the length of the format is returned. *)
Theorem printf_prints `{Platform} (pv : Z) (m : machine) (c : console)
    (format : list Z) (args : list sarg) (txt : list Z) :
  shows pv m c -> is_string format -> Forall sarg_ok args -> render format None args = Some txt ->
  exists m', printf format (to_parg <$> args) m = (Ok (Z.of_nat (length format)), m') /\
    shows pv m' (con_puts txt c) /\ screen_only pv m m'.
Proof.
  intros Hsh Hf Hargs Hr.
  destruct (printf_ok pv format None args txt m c Hsh Hf Hargs Hr) as (m' & E & Hsh' & Hs).
  unfold printf. go E. by exists m'.
Qed.

(** ["%s %#x %d"] *)
Lemma printf_prints_witness :
  let P := plain_platform in
  exists m', printf [37; 115; 32; 37; 35; 120; 32; 37; 100] (to_parg <$> [SStr [104; 105]; SInt 14; SInt (-7)])
      boot_machine = (Ok 9, m') /\
    shows VIDEO m' (con_puts [104; 105; 32; 48; 48; 48; 48; 48; 48; 48; 69; 32; 45; 55] blank_console).
Proof.
  intros P.
  destruct (printf_prints VIDEO boot_machine blank_console [37; 115; 32; 37; 35; 120; 32; 37; 100]
    [SStr [104; 105]; SInt 14; SInt (-7)] [104; 105; 32; 48; 48; 48; 48; 48; 48; 48; 69; 32; 45; 55])
    as (m' & E & Hsh & _).
  - apply boot_shows.
  - repeat constructor.
  - repeat constructor.
  - vm_compute. reflexivity.
  - exists m'. split; [exact E|exact Hsh].
Defined.

(** Clearing: from any state with the video memory mapped, [clear] leaves 25
    blank lines with the prompt on the first one, the cursor after it, and the
    colours as they were. *)
Theorem clear_screen `{Platform} (pv : Z) (m : machine) :
  maps m VIDEO pv 4000 ->
  exists m', clear m = (Ok tt, m') /\ screen_only pv m m' /\
    shows pv m' (Console (prompt ++ replicate 1993 32) 7 0).
Proof.
  intros Hm. destruct (clear_ok pv m Hm) as (m' & E & Hsh & Hs).
  exists m'. split; [done|]. split; [done|]. exact Hsh.
Qed.

Lemma clear_screen_witness :
  let P := plain_platform in
  exists m', clear boot_machine = (Ok tt, m') /\ screen_x (scr m') = 7.
Proof.
  intros P. destruct (clear_screen VIDEO boot_machine) as (m' & E & _ & Hsh).
  - apply boot_shows.
  - exists m'. split; [exact E|]. apply (sh_x _ _ _ Hsh).
Defined.

(** Erasing: a backspace after a character that was put before the last
    column brings the cursor back and blanks the character.  After a character in the last
    column of a line it does not: the cursor goes to column 78, the character
    there is blanked, and the one in column 79 stays on the screen. *)
Theorem backspace_after_putc `{Platform} (pv : Z) (m : machine) (c : console) (b : Z) :
  shows pv m c -> 0 < b < 256 -> b <> 10 -> b <> 13 ->
  exists m', (putc b;; do_backspace) m = (Ok tt, m') /\ screen_only pv m m' /\
    (con_x c < 79 ->
       shows pv m' (Console (<[con_index (con_x c) (con_y c) := 0]> (con_text c)) (con_x c) (con_y c))) /\
    (con_x c = 79 -> con_y c < 24 ->
       shows pv m' (Console (<[con_index 78 (con_y c) := 0]> (<[con_index 79 (con_y c) := b]> (con_text c)))
                      78 (con_y c))).
Proof.
  intros Hsh Hb H10 H13. destruct (putc_ok pv m c b Hsh) as (m1 & E1 & Hsh1 & Hs1 & _); [unfold is_byte; lia|].
  destruct (sh_ok _ _ _ Hsh) as (Hl & Hx & Hy). go E1.
  assert (0 < con_x (con_putc b c) \/ 0 < con_y (con_putc b c)) as Hpos.
  { unfold con_putc, con_enter. rewrite (proj2 (Z.eqb_neq b 10)), (proj2 (Z.eqb_neq b 13)) by done. cbn [orb].
    destruct (Z.leb_spec 80 (con_x c + 1)); cbn [con_x con_y]; [|lia].
    destruct (Z.eqb_spec (con_y c) 24); cbn; lia. }
  destruct (do_backspace_ok pv m1 _ Hsh1 Hpos) as (m2 & E2 & Hsh2 & Hs2 & _).
  exists m2. split; [done|]. split; [by eapply screen_only_trans|]. clear E1 E2.
  unfold con_backspace, con_putc in Hsh2.
  rewrite (proj2 (Z.eqb_neq b 10)), (proj2 (Z.eqb_neq b 13)) in Hsh2 by done. cbn [orb] in Hsh2.
  split.
  - intros Hlt. rewrite (proj2 (Z.leb_gt 80 (con_x c + 1))) in Hsh2 by lia. cbn [con_x con_y con_text] in Hsh2.
    rewrite (proj2 (Z.eqb_neq (con_x c + 1) 0)) in Hsh2 by lia. cbn [andb] in Hsh2.
    replace (con_x c + 1 - 1) with (con_x c) in Hsh2 by lia. by rewrite list_insert_insert_eq in Hsh2.
  - intros He Hlt. rewrite He in Hsh2. cbn [Z.add Z.leb Z.compare Pos.compare Pos.add Pos.succ] in Hsh2.
    change (80 <=? 79 + 1) with true in Hsh2. cbv iota in Hsh2. unfold con_enter in Hsh2.
    cbn [con_x con_y con_text] in Hsh2. rewrite (proj2 (Z.eqb_neq (con_y c) 24)) in Hsh2 by lia.
    cbn [con_x con_y con_text] in Hsh2. rewrite (proj2 (Z.ltb_lt 0 (con_y c + 1))) in Hsh2 by lia.
    cbn [andb Z.eqb] in Hsh2. replace (con_y c + 1 - 1) with (con_y c) in Hsh2 by lia. exact Hsh2.
Qed.

Lemma backspace_after_putc_witness :
  let P := plain_platform in
  exists m', (putc 65;; do_backspace) boot_machine = (Ok tt, m') /\
    shows VIDEO m' (Console (replicate 2000 0) 0 0).
Proof.
  intros P. destruct (backspace_after_putc VIDEO boot_machine blank_console 65) as (m' & E & _ & Hu & _).
  - apply boot_shows.
  - lia.
  - lia.
  - lia.
  - exists m'. split; [exact E|]. apply Hu. cbn. lia.
Defined.

(** At the top left corner a backspace leaves the screen: the cursor column
    becomes -1, and the character before the video memory is accessed, which is a
    page fault when that page is not mapped. *)
Theorem backspace_origin `{Platform} (m : machine) :
  screen_x (scr m) = 0 -> screen_y (scr m) = 0 -> loc m (VIDEO - 2) = None ->
  exists m', do_backspace m = (Stop (PageFault (VIDEO - 2)), m') /\ screen_x (scr m') = -1.
Proof.
  intros Hx Hy Hl. unfold do_backspace, get_screen_x, get_screen_y. mrun. rewrite Hx, Hy.
  cbn [Z.eqb Z.ltb Z.compare andb]. unfold set_screen_x. mrun. msimp. rewrite Hy.
  change (i32 (0 - 1)) with (-1). unfold NUM_COLS.
  change (VIDEO + Z.shiftl (80 * 0 + -1) 1) with (VIDEO - 2).
  unfold store8. change (u32 (VIDEO - 2)) with (VIDEO - 2).
  match goal with |- context [loc ?mm (VIDEO - 2)] => change (loc mm (VIDEO - 2)) with (loc m (VIDEO - 2)) end.
  rewrite Hl. eexists. split; [reflexivity|]. by msimp.
Qed.

Lemma backspace_origin_witness :
  let P := plain_platform in
  let m := boot_machine <| pg := Paging zero_tables zero_tables true |> in
  exists m', do_backspace m = (Stop (PageFault 0xB7FFE), m') /\ screen_x (scr m') = -1.
Proof.
  intros P m. destruct (backspace_origin m) as (m' & E & Hx).
  - reflexivity.
  - reflexivity.
  - vm_compute. reflexivity.
  - exists m'. split; [exact E|exact Hx].
Defined.
