(* ===== verification/Listing.v ===== *)
(** [list_all_files] of [student-distrib/rofs.c]: the list of the files of the
    image, printed on the screen. *)

From S2P Require Import Prelude Memory CLib Machine Rofs Screen.

Lemma render_prefix pre rest args :
  Forall (fun c => c <> 37) pre -> render (pre ++ rest) None args = app pre <$> render rest None args.
Proof.
  induction 1 as [|c pre Hc _ IH]; cbn [app render]; [by destruct (render rest None args)|].
  rewrite (proj2 (Z.eqb_neq c 37)), IH by done. by destruct (render rest None args).
Qed.

Section Listing.
Context `{Platform}.

(** The body of the loop. *)
Definition list_file (st : Z * ptr) : K ((Z * ptr) + unit) :=
  let '(i, buf) := st in
  n ← num_dir_entries;
  if u32 i <? n then
    a ← dentry_addr i;
    buf ← strncpy buf (Raw a) FILE_NAME_LENGTH;
    buf ← wr buf 32 0;
    a ← dentry_addr i;
    ty ← load32 (a + file_type_off);
    a ← dentry_addr i;
    k ← load32 (a + inode_num_off);
    node ← gets (fun m => inodes (fs m) + k * sizeof_inode_t);
    len ← load32 node;
    printf (text "file_name: %s, file_type: %d, file_size: %d" ++ [10]) [PPtr buf; PInt ty; PInt len];;
    mret (inl (i + 1, buf))
  else mret (inr tt).

Definition list_all_files : K unit :=
  printf (text "Listing all files in filesys_img:" ++ [10]) [];;
  while list_file (0, Buf (replicate 33 0) 0).

(** The line of an entry: its name, its type and the size of its file. *)
Definition listing_line (img : image) (d : dentry_s) : option (list Z) :=
  f ← im_files img !! Z.to_nat (d_inode d);
  render (text "file_name: %s, file_type: %d, file_size: %d" ++ [10]) None
    [SStr (name_of (d_name d)); SInt (d_type d); SInt (Z.of_nat (length f))].

(** Printing leaves an image apart from the screen as it was. *)
Lemma represents_screen pv pb size img m m' :
  screen_only pv m m' -> (pb + size <= pv \/ pv + 4000 <= pb) ->
  represents pb size img m -> represents pb size img m'.
Proof.
  intros Hs Hd. apply represents_ext.
  - intros a. by eapply screen_only_loc.
  - by rewrite (so_fields _ _ _ Hs).
  - intros q Hq. apply (so_cells _ _ _ Hs). intros (i & Hi & ->). lia.
Qed.

Lemma screen_only_fs pv m m' : screen_only pv m m' -> fs m' = fs m.
Proof. intros Hs. by rewrite (so_fields _ _ _ Hs). Qed.

(** The name of an entry, copied into the local array. *)
Lemma copy_name pb size img m i d l :
  represents pb size img m -> im_dentries img !! i = Some d -> length l = 33%nat ->
  strncpy (Buf l 0) (Raw (boot_block (fs m) + dentries_off + Z.of_nat i * sizeof_dentry_t))
    FILE_NAME_LENGTH m = (Ok (Buf (strncpy_spec 32 (d_name d) ++ drop 32 l) 0), m).
Proof.
  intros Hr Hd Hl. destruct (entry_name _ _ _ _ _ _ Hr Hd) as [Hn Hlen].
  assert (strncpy_spec 32 (entry_bytes m pb i) = strncpy_spec 32 (d_name d)) as Hspec
    by (rewrite Hn; apply strncpy_spec_app; lia).
  pose proof (length_cprefix 32 (entry_bytes m pb i)) as Hc.
  destruct (strncpy_ok (into_buf m l (strncpy_spec 32 (d_name d))) (Buf l 0)
    (Raw (boot_block (fs m) + dentries_off + Z.of_nat i * sizeof_dentry_t)) (entry_bytes m pb i)
    FILE_NAME_LENGTH m) as (d' & m1 & E & HP).
  - unfold FILE_NAME_LENGTH. change (Z.to_nat 32) with 32%nat. rewrite Hspec. apply advances_buf.
    + apply strncpy_spec_bytes. destruct (rep_dentry _ _ _ _ Hr i d Hd) as (<- & _). apply cells_bytes.
    + rewrite length_strncpy_spec. lia.
  - apply into_buf_0.
  - unfold FILE_NAME_LENGTH. lia.
  - unfold FILE_NAME_LENGTH. change (Z.to_nat 32) with 32%nat. rewrite Hn at 2.
    rewrite length_app, length_cells. lia.
  - intros j d0 t [_ ->] Hj. unfold FILE_NAME_LENGTH in Hj. change (Z.to_nat 32) with 32%nat in Hj.
    apply (reads_maps _ _ _ 64); [eapply dentry_maps; [done|by eapply lookup_lt_Some]|].
    rewrite length_cells. lia.
  - rewrite E. apply into_buf_end in HP as [-> ->]; by rewrite length_strncpy_spec.
Qed.

(** The type and the inode number of an entry, in the image. *)
Lemma entry_load pb size img m i d :
  represents pb size img m -> im_dentries img !! i = Some d ->
  let a := boot_block (fs m) + dentries_off + Z.of_nat i * sizeof_dentry_t in
  load32 (a + file_type_off) m = (Ok (d_type d), m) /\ load32 (a + inode_num_off) m = (Ok (d_inode d), m) /\
  0 <= d_inode d.
Proof.
  intros Hr Hd a. pose proof (rep_size _ _ _ _ Hr). pose proof (rep_dir_max _ _ _ _ Hr).
  pose proof (lookup_lt_Some _ _ _ Hd). destruct (rep_dentry _ _ _ _ Hr i d Hd) as (_ & <- & <-).
  unfold a, dentries_off, sizeof_dentry_t, file_type_off, inode_num_off. rewrite <- !Z.add_assoc.
  rewrite !(represents_load32 pb size img) by (done || lia).
  split; [do 3 f_equal; lia|]. split; [do 3 f_equal; lia|apply cell32_range].
Qed.

(** A name is a string. *)
Lemma name_string l : Forall is_byte l -> is_string (name_of l).
Proof.
  unfold name_of. generalize (Z.to_nat FILE_NAME_LENGTH) as n. intros n Hl. revert n.
  induction Hl as [|b l Hb _ IH]; intros [|n]; cbn; try constructor.
  destruct (Z.eqb_spec b 0); constructor; [unfold is_byte in Hb; lia|apply IH].
Qed.

(** One line. *)
Lemma listing_line_ok pv d img f buf m c txt :
  shows pv m c -> im_files img !! Z.to_nat (d_inode d) = Some f -> listing_line img d = Some txt ->
  Forall is_byte (d_name d) -> buf = strncpy_spec 32 (d_name d) ++ [0] ->
  exists m', printf (text "file_name: %s, file_type: %d, file_size: %d" ++ [10])
      [PPtr (Buf buf 0); PInt (d_type d); PInt (Z.of_nat (length f))] m = (Ok 44, m') /\
    shows pv m' (con_puts txt c) /\ screen_only pv m m'.
Proof.
  intros Hsh Hf Ht Hb ->. unfold listing_line in Ht. rewrite Hf in Ht. cbn [mbind option_bind] in Ht.
  set (rest := text ", file_type: %d, file_size: %d" ++ [10]). set (pre := text "file_name: ").
  set (args := [SInt (d_type d); SInt (Z.of_nat (length f))]).
  change (text "file_name: %s, file_type: %d, file_size: %d" ++ [10]) with (pre ++ [37; 115] ++ rest) in *.
  set (l := name_of (d_name d)) in *.
  assert (exists txt', render rest None args = Some txt' /\ txt = pre ++ l ++ txt') as (txt' & Hr & ->).
  { assert (render (pre ++ [37; 115] ++ rest) None (SStr l :: args) =
      app pre <$> (app l <$> render rest None args)) as E.
    { rewrite render_prefix by (by repeat (constructor; [discriminate|])). reflexivity. }
    unfold args in E. rewrite E in Ht. fold args in Ht.
    destruct (render rest None args) as [txt'|]; [|done]. exists txt'. split; [done|]. by injection Ht as <-. }
  assert (length l <= 32)%nat as Hl32 by apply length_cprefix.
  destruct (printf_string pv pre (Buf (strncpy_spec 32 (d_name d) ++ [0]) 0) l rest args txt' m c Hsh)
    as (m' & E & Hsh' & Hs); [by apply (bool_decide_unpack _)| | |lia
    |by repeat constructor|by repeat constructor|exact Hr|].
  - assert (strncpy_spec 32 (d_name d) ++ [0] = [] ++ l ++ 0 :: replicate (32 - length l) 0) as ->.
    { unfold strncpy_spec, l, name_of, FILE_NAME_LENGTH. change (Z.to_nat 32) with 32%nat.
      rewrite <- app_assoc. cbn [app]. f_equal. rewrite <- replicate_cons_app. done. }
    by apply stable_buf.
  - by apply name_string.
  - exists m'. split; [|done]. unfold printf.
    change [PPtr (Buf (strncpy_spec 32 (d_name d) ++ [0]) 0); PInt (d_type d); PInt (Z.of_nat (length f))]
      with (PPtr (Buf (strncpy_spec 32 (d_name d) ++ [0]) 0) :: (to_parg <$> args)). by go E.
Qed.

(** The array after a name has been copied and terminated. *)
Lemma terminate_name l l0 (m : machine) :
  length l0 = 33%nat ->
  wr (Buf (strncpy_spec 32 l ++ drop 32 l0) 0) 32 0 m = (Ok (Buf (strncpy_spec 32 l ++ [0]) 0), m).
Proof.
  intros Hl0. destruct (drop 32 l0) as [|b [|b' r]] eqn:E;
    pose proof (length_drop l0 32) as Hd; rewrite E in Hd; cbn [length] in Hd; try lia.
  cbn [wr]. rewrite length_app, length_strncpy_spec. cbn [length]. zb. mrun.
  change (Z.to_nat (0 + 32)) with 32%nat. rewrite insert_app_r_alt by (rewrite length_strncpy_spec; lia).
  by rewrite length_strncpy_spec.
Qed.

(** The lines, one for each entry of the directory in its order. *)
Lemma list_files_ok pv pb size img m c lines :
  represents pb size img m -> shows pv m c -> (pb + size <= pv \/ pv + 4000 <= pb) ->
  Forall2 (fun d l => listing_line img d = Some l) (im_dentries img) lines ->
  exists m', while list_file (0, Buf (replicate 33 0) 0) m = (Ok tt, m') /\
    shows pv m' (con_puts (concat lines) c) /\ screen_only pv m m'.
Proof.
  intros Hr Hsh Hd Hlines. pose proof (rep_dir_max _ _ _ _ Hr) as Hmax.
  destruct (while_inv (fun '(i, b) t => 0 <= i <= Z.of_nat (length (im_dentries img)) /\
      (exists l, b = Buf l 0 /\ length l = 33%nat) /\
      screen_only pv m t /\ shows pv t (con_puts (concat (take (Z.to_nat i) lines)) c))
    (fun (_ : unit) t => screen_only pv m t /\ shows pv t (con_puts (concat lines) c))
    (fun '(i, _) => Z.to_nat (Z.of_nat (length (im_dentries img)) - i)) list_file
    (0, Buf (replicate 33 0) 0) m) as ([] & m2 & E & Hs2 & Hsh2); [| |lia|by exists m2].
  - split; [lia|]. split; [by exists (replicate 33 0)|]. split; [apply screen_only_refl|exact Hsh].
  - intros [i b] t (Hi & (l & -> & Hl) & Hs & Ht).
    assert (represents pb size img t) as Hrt by by eapply represents_screen.
    unfold list_file.
    go (num_dir_entries_ok pb size img) by done. rewrite u32_small by lia.
    pose proof (Forall2_length Hlines) as Hlen.
    destruct (Z.ltb_spec i (Z.of_nat (length (im_dentries img)))) as [Hlt|Hge].
    + right. destruct (lookup_lt_is_Some_2 (im_dentries img) (Z.to_nat i)) as [d Hdd]; [lia|].
      destruct (Forall2_lookup_l _ _ _ _ _ Hlines Hdd) as (txt & Hx & Htxt).
      pose proof Htxt as Htxt'. unfold listing_line in Htxt'.
      destruct (im_files img !! Z.to_nat (d_inode d)) as [f|] eqn:Hf; [clear Htxt'|done].
      destruct (entry_load pb size img t (Z.to_nat i) d Hrt Hdd) as (El1 & El2 & Hino).
      pose proof (copy_name pb size img t (Z.to_nat i) d l Hrt Hdd Hl) as Ec.
      rewrite Z2Nat.id in El1, El2, Ec by lia.
      unfold dentry_addr. mrun. go Ec. go (terminate_name (d_name d) l t Hl). mrun. go El1. mrun. go El2. mrun.
      pose proof (load_inode_length pb size img t _ f Hrt Hf) as En. rewrite Z2Nat.id in En by lia. go En.
      destruct (listing_line_ok pv d img f (strncpy_spec 32 (d_name d) ++ [0]) t _ txt Ht Hf Htxt)
        as (t' & E & Hsh' & Hs'); [|done|].
      { destruct (rep_dentry _ _ _ _ Hrt _ d Hdd) as (<- & _). apply cells_bytes. }
      go E. eexists _, t'. split; [done|]. split; [|lia]. split; [lia|]. split.
      { eexists. split; [done|]. by rewrite length_app, length_strncpy_spec. }
      split; [by eapply screen_only_trans|].
      replace (Z.to_nat (i + 1)) with (S (Z.to_nat i)) by lia.
      rewrite (take_S_r _ _ txt), concat_app, con_puts_app by done. cbn [concat]. by rewrite app_nil_r.
    + left. exists tt, t. split; [done|]. split; [done|].
      rewrite firstn_all2 in Ht by lia. exact Ht.
Qed.

(** The whole listing: a title, then the lines. *)
Lemma list_all_files_ok pv pb size img m c lines :
  represents pb size img m -> shows pv m c -> (pb + size <= pv \/ pv + 4000 <= pb) ->
  Forall2 (fun d l => listing_line img d = Some l) (im_dentries img) lines ->
  exists m', list_all_files m = (Ok tt, m') /\
    shows pv m' (con_puts (concat lines) (con_puts (text "Listing all files in filesys_img:" ++ [10]) c)) /\
    screen_only pv m m'.
Proof.
  intros Hr Hsh Hd Hlines. unfold list_all_files.
  assert (is_string (text "Listing all files in filesys_img:" ++ [10])) as Hst by by repeat constructor.
  assert (render (text "Listing all files in filesys_img:" ++ [10]) None [] =
          Some (text "Listing all files in filesys_img:" ++ [10])) as Hren by reflexivity.
  revert Hst Hren. generalize (text "Listing all files in filesys_img:" ++ [10]) as title. intros title Hst Hren.
  destruct (printf_ok pv title None [] title m c Hsh Hst (List.Forall_nil _) Hren) as (m1 & E1 & Hsh1 & Hs1).
  cbn [fmap list_fmap] in E1. unfold printf at 1. rewrite ?bind_assoc. go E1. mrun.
  destruct (list_files_ok pv pb size img m1 (con_puts title c) lines) as (m2 & E2 & Hsh2 & Hs2);
    [by eapply represents_screen|exact Hsh1|done|done|].
  exists m2. split; [exact E2|]. split; [done|by eapply screen_only_trans].
Qed.
End Listing.
