(* ===== verification/Keyboard.v ===== *)
(** [student-distrib/keyboard.c]: the translation of scancodes and the editing of
    the line in the key buffer.  The interrupt handler, which also switches
    terminals, is in [Kernel.v].

    [key_buffer] points to the buffer of a terminal; it is null until the first
    terminal starts. *)

From S2P Require Import Prelude Memory CLib Machine I8259 Screen.

Definition KEYBOARD_PORT : Z := 0x60.
Definition NUM_KEYS : Z := 60.
Definition KEY_BUFFER_SIZE : Z := 128.
Definition NULL_SCANCODE : Z := 0.
Definition CTRL : Z := 0x1D.
Definition ALT_L : Z := 0x38.
Definition SHIFT_L : Z := 0x2A.
Definition SHIFT_R : Z := 0x36.
Definition CAPSLOCK : Z := 0x3A.
Definition F1_KEY : Z := 0x3B.
Definition F2_KEY : Z := 0x3C.
Definition F3_KEY : Z := 0x3D.
Definition ARROW_LEFT : Z := 0x4B.
Definition ARROW_RIGHT : Z := 0x4D.
Definition ENTER : Z := 0x1C.
Definition BACKSPACE : Z := 0x0E.
Definition RELEASE (key : Z) : Z := Z.lor key 0x80.

(** The character of each key, by [keys_state] and scancode. *)
Definition key_scancodes : list (list Z) :=
  [[0; 0; 49; 50; 51; 52; 53; 54; 55; 56; 57; 48; 45; 61; 0; 0; 113; 119; 101; 114;
    116; 121; 117; 105; 111; 112; 91; 93; 0; 0; 97; 115; 100; 102; 103; 104; 106; 107; 108; 59;
    39; 96; 0; 92; 122; 120; 99; 118; 98; 110; 109; 44; 46; 47; 0; 42; 0; 32; 0; 0];
   [0; 0; 33; 64; 35; 36; 37; 94; 38; 42; 40; 41; 95; 43; 0; 0; 81; 87; 69; 82;
    84; 89; 85; 73; 79; 80; 123; 125; 0; 0; 65; 83; 68; 70; 71; 72; 74; 75; 76; 58;
    34; 126; 0; 124; 90; 88; 67; 86; 66; 78; 77; 60; 62; 63; 0; 42; 0; 32; 0; 0];
   [0; 0; 49; 50; 51; 52; 53; 54; 55; 56; 57; 48; 45; 61; 0; 0; 81; 87; 69; 82;
    84; 89; 85; 73; 79; 80; 91; 93; 0; 0; 65; 83; 68; 70; 71; 72; 74; 75; 76; 59;
    39; 96; 0; 92; 90; 88; 67; 86; 66; 78; 77; 44; 46; 47; 0; 42; 0; 32; 0; 0];
   [0; 0; 33; 64; 35; 36; 37; 94; 38; 42; 40; 41; 95; 43; 0; 0; 113; 119; 101; 114;
    116; 121; 117; 105; 111; 112; 123; 125; 0; 0; 97; 115; 100; 102; 103; 104; 106; 107; 108; 58;
    34; 126; 0; 92; 122; 120; 99; 118; 98; 110; 109; 60; 62; 63; 0; 42; 0; 32; 0; 0]].

Definition key_char (state scancode : Z) : Z :=
  nth (Z.to_nat scancode) (nth (Z.to_nat state) key_scancodes []) 0.

Section Keyboard.
Context `{Platform}.

(** [key_scancodes[keys_state][scancode]] *)
Definition key_of (scancode : Z) : K Z :=
  gets (fun m => key_char (keys_state (kbd m)) scancode).

(** [key_buffer[i]] and [key_buffer[i] = v]; the pointer is volatile. *)
Definition key_buffer_read (i : Z) : K Z :=
  b ← gets (fun m => key_buffer (kbd m));
  match b with
  | None => load8 i
  | Some k =>
      l ← gets (fun m => t_key_buffer <$> terminal m !! k);
      match l ≫= fun l => if i <? 0 then None else l !! Z.to_nat i with
      | Some c => mret c
      | None => raise OutOfBounds
      end
  end.

Definition key_buffer_write (i v : Z) : K unit :=
  b ← gets (fun m => key_buffer (kbd m));
  match b with
  | None => store8 i v
  | Some k =>
      l ← gets (fun m => t_key_buffer <$> terminal m !! k);
      if (i <? 0) || (Z.of_nat (length (default [] l)) <=? i) then raise OutOfBounds
      else modify (fun m => m <| terminal ::= alter (fun t =>
        t <| t_key_buffer ::= <[Z.to_nat i := u8 v]> |>) k |>)
  end.

Definition set_key_buffer_pos (f : Z -> Z) : K unit :=
  modify (fun m => m <| kbd ::= fun k => k <| key_buffer_pos ::= f |> |>).
Definition set_right_bound (f : Z -> Z) : K unit :=
  modify (fun m => m <| kbd ::= fun k => k <| right_bound ::= f |> |>).
Definition get_key_buffer_pos : K Z := gets (fun m => key_buffer_pos (kbd m)).

Definition init_keyboard : K unit :=
  cli;;
  enable_irq KEYBOARD_IRQ_LINE;;
  set_key_buffer_pos (fun _ => 0);;
  sti.

Definition key_pressed_handler (scancode : Z) : K unit :=
  if NUM_KEYS <=? scancode then mret tt
  else
    ctrl ← gets (fun m => ctrl_pressed (kbd m));
    if ctrl =? 1 then
      c ← key_of scancode;
      if c =? 108 then clear;; set_key_buffer_pos (fun _ => 0) else mret tt
    else if scancode <? NUM_KEYS then
      pos ← get_key_buffer_pos;
      if pos <? KEY_BUFFER_SIZE then
        c ← key_of scancode;
        if c =? NULL_SCANCODE then mret tt
        else
          key_buffer_write pos c;;
          set_key_buffer_pos (fun p => u32 (p + 1));;
          set_right_bound (fun b => i32 (b + 1));;
          putc c
      else mret tt
    else mret tt.

Definition clear_buffer : K unit :=
  set_key_buffer_pos (fun _ => 0);;
  set_right_bound (fun _ => 7);;
  for_range 0 KEY_BUFFER_SIZE (fun i => key_buffer_write i 0).

Definition handle_enter : K unit :=
  modify (fun m => m <| kbd ::= fun k => k <| enter_pressed := 1 |> |>);;
  set_right_bound (fun _ => 7);;
  do_enter.

Definition handle_backpace : K unit :=
  pos ← get_key_buffer_pos;
  if 0 <? pos then
    set_key_buffer_pos (fun p => u32 (p - 1));;
    pos ← get_key_buffer_pos;
    key_buffer_write pos 0;;
    set_right_bound (fun b => i32 (b - 1));;
    do_backspace
  else mret tt.

Definition move_cursor_left : K unit :=
  x ← get_screen_x; y ← get_screen_y;
  if negb (x =? 7) then
    let x := i32 (x - 1) in
    set_screen_pos x y;;
    update_cursor_loc x y;;
    set_key_buffer_pos (fun p => u32 (p - 1))
  else mret tt.

Definition move_cursor_right : K unit :=
  x ← get_screen_x; y ← get_screen_y;
  b ← gets (fun m => right_bound (kbd m));
  if x <? b then
    let x := i32 (x + 1) in
    set_screen_pos x y;;
    update_cursor_loc x y;;
    set_key_buffer_pos (fun p => u32 (p + 1))
  else mret tt.
End Keyboard.

(** * The line editor

    The line being typed, and the console it is echoed on. *)

Inductive key_event : Type :=
  | Key (scancode : Z)
  | Back.

Definition handle_event `{Platform} (e : key_event) : K unit :=
  match e with Key s => key_pressed_handler s | Back => handle_backpace end.

Definition handle_events `{Platform} (es : list key_event) : K unit :=
  foldr (fun e k => handle_event e;; k) (mret tt) es.

(** A key adds its character to a line of less than 128, a backspace removes the
    last one; a backspace at the top left corner of the screen is not covered. *)
Definition edit (state : Z) (e : key_event) (s : list Z * console) : option (list Z * console) :=
  let '(l, c) := s in
  match e with
  | Key scancode =>
      let ch := key_char state scancode in
      if (scancode <? NUM_KEYS) && negb (ch =? 0) && (Z.of_nat (length l) <? 128)
      then Some (l ++ [ch], con_putc ch c) else Some (l, c)
  | Back =>
      if decide (l = []) then Some (l, c)
      else if (con_x c =? 0) && (con_y c =? 0) then None
      else Some (removelast l, con_backspace c)
  end.

Fixpoint edits (state : Z) (es : list key_event) (s : list Z * console) : option (list Z * console) :=
  match es with
  | [] => Some s
  | e :: es => s ← edit state e s; edits state es s
  end.

Lemma key_char_byte state scancode :
  0 <= state < 4 -> 0 <= scancode < 60 ->
  let c := key_char state scancode in 0 <= c < 127 /\ c <> 10 /\ c <> 13.
Proof.
  intros Hst Hsc. cbv zeta. revert scancode Hsc. apply (Forall_seqZ _ 0 60). revert state Hst.
  apply (Forall_seqZ (fun state => Forall (fun scancode => 0 <= key_char state scancode < 127 /\
    key_char state scancode <> 10 /\ key_char state scancode <> 13) (seqZ 0 60)) 0 4).
  apply (bool_decide_unpack _). vm_compute. done.
Qed.

Section Line.
Context `{Platform}.

(** The buffer of terminal [k] is in use, and holds the line [l] padded with
    null bytes, with the position after it. *)
Record line_shown (k : nat) (m : machine) (l : list Z) : Prop := {
  ls_buffer : key_buffer (kbd m) = Some k;
  ls_contents : t_key_buffer <$> terminal m !! k = Some (l ++ replicate (128 - length l) 0);
  ls_length : (length l <= 128)%nat;
  ls_pos : key_buffer_pos (kbd m) = Z.of_nat (length l)
}.

(** The rest of the state of the keyboard that editing depends on. *)
Definition typing (m : machine) (state : Z) : Prop :=
  ctrl_pressed (kbd m) <> 1 /\ keys_state (kbd m) = state.

(** The fields an edit may change. *)
Definition edit_only (m m' : machine) : Prop :=
  m' = m <| phys := phys m' |> <| scr := scr m' |> <| io_log := io_log m' |>
         <| kbd := (kbd m) <| key_buffer_pos := key_buffer_pos (kbd m') |>
                           <| right_bound := right_bound (kbd m') |> |>
         <| terminal := terminal m' |>.

Lemma edit_only_refl m : edit_only m m.
Proof. unfold edit_only. by destruct m as [? ? ? ? ? ? ? ? []]. Qed.

Lemma edit_only_trans m1 m2 m3 : edit_only m1 m2 -> edit_only m2 m3 -> edit_only m1 m3.
Proof. unfold edit_only. intros E1 E2. rewrite E2, E1. by destruct m1. Qed.

Lemma edit_only_screen pv m m1 m2 : edit_only m m1 -> screen_only pv m1 m2 -> edit_only m m2.
Proof. intros E1 [E2 _]. unfold edit_only in *. rewrite E2, E1. by destruct m. Qed.

Lemma edit_only_typing m m' state : edit_only m m' -> typing m state -> typing m' state.
Proof. intros -> Ht. exact Ht. Qed.

(** The terminals, their line buffers aside. *)
Definition counts_kept (ts ts' : list terminal_t) : Prop :=
  length ts' = length ts /\
  forall i t, ts !! i = Some t -> exists t', ts' !! i = Some t' /\
    num_processes t' = num_processes t /\ term_pid t' = term_pid t.

Lemma counts_kept_refl ts : counts_kept ts ts.
Proof. split; [done|]. intros i t Ht. by exists t. Qed.

Lemma counts_kept_trans ts1 ts2 ts3 : counts_kept ts1 ts2 -> counts_kept ts2 ts3 -> counts_kept ts1 ts3.
Proof.
  intros [L1 C1] [L2 C2]. split; [congruence|]. intros i t Ht. destruct (C1 i t Ht) as (t2 & Ht2 & N2 & P2).
  destruct (C2 i t2 Ht2) as (t3 & Ht3 & N3 & P3). exists t3. split; [done|]. split; congruence.
Qed.

Lemma counts_kept_buffer ts g k : counts_kept ts (alter (fun t => t <| t_key_buffer ::= g |>) k ts).
Proof.
  split; [apply length_alter|]. intros i t Ht. destruct (decide (i = k)) as [->|Hne].
  - rewrite list_lookup_alter_eq, Ht. by eexists.
  - rewrite list_lookup_alter_ne by done. by exists t.
Qed.

(** What typing leaves alone: memory outside the screen, and the accounts. *)
Record typing_kept (pv : Z) (m m' : machine) : Prop := {
  tk_cells q : ~ pv <= q < pv + 4000 -> cell m' q = cell m q;
  tk_terminals : counts_kept (terminal m) (terminal m')
}.

Lemma typing_kept_refl pv m : typing_kept pv m m.
Proof. split; [done|apply counts_kept_refl]. Qed.

Lemma typing_kept_trans pv m1 m2 m3 : typing_kept pv m1 m2 -> typing_kept pv m2 m3 -> typing_kept pv m1 m3.
Proof. intros [C1 T1] [C2 T2]. split; [intros q Hq; by rewrite C2, C1|by eapply counts_kept_trans]. Qed.

Lemma typing_kept_screen pv m m1 m2 : typing_kept pv m m1 -> screen_only pv m1 m2 -> typing_kept pv m m2.
Proof.
  intros Hk Hs. eapply typing_kept_trans; [exact Hk|]. split.
  - intros q Hq. apply (so_cells _ _ _ Hs). intros (i & Hi & ->). lia.
  - rewrite (so_fields _ _ _ Hs). apply counts_kept_refl.
Qed.

Lemma key_buffer_write_run m k b i v :
  key_buffer (kbd m) = Some k -> t_key_buffer <$> terminal m !! k = Some b ->
  0 <= i < Z.of_nat (length b) ->
  key_buffer_write i v m = (Ok tt, m <| terminal ::= alter (fun t =>
    t <| t_key_buffer ::= <[Z.to_nat i := u8 v]> |>) k |>).
Proof.
  intros Hk Hb Hi. unfold key_buffer_write. mrun. rewrite Hk. mrun. rewrite Hb. unfold default, id. cbn [from_option].
  by zb.
Qed.

Lemma key_buffer_read_run m k b i :
  key_buffer (kbd m) = Some k -> t_key_buffer <$> terminal m !! k = Some b ->
  0 <= i < Z.of_nat (length b) -> key_buffer_read i m = (Ok (byte_at b i), m).
Proof.
  intros Hk Hb Hi. unfold key_buffer_read. mrun. rewrite Hk. mrun. rewrite Hb. cbn [mbind option_bind].
  zb. destruct (lookup_lt_is_Some_2 b (Z.to_nat i)) as [x Hx]; [lia|].
  rewrite Hx. unfold byte_at. by rewrite (list_lookup_total_correct _ _ _ Hx).
Qed.

Lemma terminal_alter_buffer (ts : list terminal_t) k b g :
  t_key_buffer <$> ts !! k = Some b ->
  t_key_buffer <$> alter (fun t => t <| t_key_buffer ::= g |>) k ts !! k = Some (g b).
Proof.
  intros Hb. rewrite list_lookup_alter_eq. destruct (ts !! k) as [t|]; [|done].
  cbn in *. by injection Hb as ->.
Qed.

(** A character enters the line. *)
Lemma line_append (l : list Z) ch :
  (length l < 128)%nat -> is_byte ch ->
  <[Z.to_nat (Z.of_nat (length l)) := u8 ch]> (l ++ replicate (128 - length l) 0) =
  (l ++ [ch]) ++ replicate (128 - length (l ++ [ch])) 0.
Proof.
  intros Hl Hb. rewrite Nat2Z.id, u8_small by exact Hb. rewrite insert_app_r_alt, Nat.sub_diag by lia.
  rewrite length_app. cbn [length].
  replace (128 - length l)%nat with (S (128 - (length l + 1))) by lia. by rewrite <- app_assoc.
Qed.

(** The last character leaves it. *)
Lemma line_remove (l : list Z) :
  l <> [] -> (length l <= 128)%nat ->
  <[Z.to_nat (Z.of_nat (length l) - 1) := u8 0]> (l ++ replicate (128 - length l) 0) =
  removelast l ++ replicate (128 - length (removelast l)) 0.
Proof.
  intros Hl Hlen. destruct (exists_last Hl) as (l' & a & ->). rewrite removelast_last.
  rewrite length_app in *. cbn [length] in *.
  replace (Z.to_nat (Z.of_nat (length l' + 1) - 1)) with (length l') by lia.
  rewrite <- app_assoc, insert_app_r_alt, Nat.sub_diag by lia. cbn.
  replace (128 - length l')%nat with (S (128 - (length l' + 1))) by lia. done.
Qed.

Lemma key_ok pv k m c l state scancode :
  shows pv m c -> line_shown k m l -> typing m state -> 0 <= state < 4 -> 0 <= scancode ->
  exists m' l' c', edit state (Key scancode) (l, c) = Some (l', c') /\
    key_pressed_handler scancode m = (Ok tt, m') /\
    shows pv m' c' /\ line_shown k m' l' /\ edit_only m m' /\ only_out (io_log m) (io_log m') /\ typing_kept pv m m'.
Proof.
  intros Hsh [Hk Hb Hl Hpos] (Hctrl & Hst) Hstr Hsc.
  assert (line_shown k m l) as Hls by done. assert (edit_only m m) as Heo by apply edit_only_refl.
  pose proof (only_out_refl (io_log m)) as Hlog. pose proof (typing_kept_refl pv m) as Htk.
  unfold key_pressed_handler, edit, NUM_KEYS, NULL_SCANCODE, KEY_BUFFER_SIZE, get_key_buffer_pos, key_of.
  destruct (Z.ltb_spec scancode 60) as [Hlt|Hge]; zb; [|by exists m, l, c].
  mrun. rewrite (proj2 (Z.eqb_neq _ 1)) by done. mrun. rewrite Hpos. zb. cbn [andb].
  destruct (key_char_byte state scancode Hstr ltac:(lia)) as (Hch & Hnl & Hcr).
  set (ch := key_char state scancode) in *.
  destruct (Z.ltb_spec (Z.of_nat (length l)) 128) as [Hlen|Hlen].
  2:{ rewrite andb_false_r. by exists m, l, c. }
  mrun. rewrite Hst. fold ch. rewrite andb_true_r.
  destruct (Z.eqb_spec ch 0) as [Hz|Hnz]; cbn [negb]; [by exists m, l, c|].
  assert (is_byte ch) as Hbyte by (unfold is_byte; lia).
  go (key_buffer_write_run m k _ (Z.of_nat (length l)) ch Hk Hb) by (rewrite length_app, length_replicate; lia).
  unfold set_key_buffer_pos, set_right_bound. mrun.
  match goal with |- context [putc ch ?mm] => set (m1 := mm) end.
  assert (shows pv m1 c) as Hsh1 by (destruct Hsh; by split).
  assert (edit_only m m1) as He1 by (unfold edit_only, m1; by destruct m).
  destruct (putc_ok pv m1 c ch Hsh1 Hbyte) as (m2 & E & Hsh2 & Hs2 & _).
  exists m2, (l ++ [ch]), (con_putc ch c). split; [done|]. split; [exact E|]. split; [done|].
  split; [|split; [by eapply edit_only_screen|split; [exact (so_log _ _ _ Hs2)|]]].
  2:{ apply (typing_kept_screen pv m m1); [|exact Hs2]. split; [done|apply counts_kept_buffer]. }
  destruct Hs2 as [Hf _].
  assert (kbd m2 = kbd m1 /\ terminal m2 = terminal m1) as [Hk2 Ht2] by (rewrite Hf; done).
  split.
  - rewrite Hk2. unfold m1. msimp. exact Hk.
  - rewrite Ht2. unfold m1. msimp. rewrite (terminal_alter_buffer _ _ _ _ Hb). f_equal.
    apply line_append; [lia|done].
  - rewrite length_app. cbn [length]. lia.
  - rewrite Hk2. unfold m1. msimp. rewrite Hpos, length_app. cbn [length]. rewrite u32_small; lia.
Qed.

Lemma back_ok pv k m c l state :
  shows pv m c -> line_shown k m l ->
  forall l' c', edit state Back (l, c) = Some (l', c') ->
  exists m', handle_backpace m = (Ok tt, m') /\
    shows pv m' c' /\ line_shown k m' l' /\ edit_only m m' /\ only_out (io_log m) (io_log m') /\ typing_kept pv m m'.
Proof.
  intros Hsh [Hk Hb Hl Hpos] l' c' He.
  assert (line_shown k m l) as Hls by done. unfold edit in He.
  unfold handle_backpace, get_key_buffer_pos. mrun. rewrite Hpos.
  destruct (decide (l = [])) as [->|Hne].
  { injection He as <- <-. cbn. exists m. split; [done|]. split; [done|]. split; [done|].
    split; [apply edit_only_refl|split; [apply only_out_refl|apply typing_kept_refl]]. }
  assert (0 < length l)%nat as Hl0 by (destruct l; [done|cbn; lia]). zb.
  unfold set_key_buffer_pos, set_right_bound. mrun. msimp. rewrite Hpos, u32_small by lia.
  destruct ((con_x c =? 0) && (con_y c =? 0)) eqn:Ho; [done|]. injection He as <- <-.
  match goal with |- context [key_buffer_write ?i 0 ?mm] =>
    rewrite (key_buffer_write_run mm k _ i 0 Hk Hb) by (rewrite length_app, length_replicate; lia) end.
  mrun. match goal with |- context [do_backspace ?mm] => set (m1 := mm) end.
  assert (shows pv m1 c) as Hsh1 by (destruct Hsh; by split).
  assert (edit_only m m1) as He1 by (unfold edit_only, m1; by destruct m).
  destruct (do_backspace_ok pv m1 c Hsh1) as (m2 & E & Hsh2 & Hs2 & _).
  { destruct (sh_ok _ _ _ Hsh) as (_ & Hx & Hy).
    destruct (Z.eqb_spec (con_x c) 0), (Z.eqb_spec (con_y c) 0); try done; lia. }
  exists m2. split; [exact E|]. split; [done|]. split; [|split; [by eapply edit_only_screen|split; [exact (so_log _ _ _ Hs2)|]]].
  2:{ apply (typing_kept_screen pv m m1); [|exact Hs2]. split; [done|apply counts_kept_buffer]. }
  destruct Hs2 as [Hf _].
  assert (kbd m2 = kbd m1 /\ terminal m2 = terminal m1) as [Hk2 Ht2] by (rewrite Hf; done).
  assert (length (removelast l) = length l - 1)%nat as Hrl.
  { destruct (exists_last Hne) as (l' & a & ->). rewrite removelast_last, length_app. cbn. lia. }
  split.
  - rewrite Hk2. unfold m1. msimp. exact Hk.
  - rewrite Ht2. unfold m1. msimp. rewrite (terminal_alter_buffer _ _ _ _ Hb). f_equal.
    by apply line_remove.
  - lia.
  - rewrite Hk2. unfold m1. msimp. rewrite Hpos, Hrl, u32_small; lia.
Qed.

Lemma edits_ok pv k state : 0 <= state < 4 -> forall es m c l l' c',
  shows pv m c -> line_shown k m l -> typing m state ->
  Forall (fun e => match e with Key s => 0 <= s | Back => True end) es ->
  edits state es (l, c) = Some (l', c') ->
  exists m', handle_events es m = (Ok tt, m') /\
    shows pv m' c' /\ line_shown k m' l' /\ edit_only m m'.
Proof.
  intros Hst. induction es as [|e es IH]; intros m c l l' c' Hsh Hls Hty Hes He.
  { injection He as <- <-. exists m. split; [done|]. split; [done|]. split; [done|]. apply edit_only_refl. }
  inversion Hes as [|? ? Hev Hes']; subst. cbn [edits] in He.
  destruct (edit state e (l, c)) as [[l1 c1]|] eqn:E1; [|done]. cbn [mbind option_bind] in He.
  assert (exists m1, handle_event e m = (Ok tt, m1) /\ shows pv m1 c1 /\ line_shown k m1 l1 /\ edit_only m m1)
    as (m1 & Em & Hsh1 & Hls1 & He1).
  { destruct e as [s|].
    - destruct (key_ok pv k m c l state s Hsh Hls Hty Hst Hev) as (m1 & l2 & c2 & Ed & Em & H1 & H2 & H3 & _).
      rewrite Ed in E1. injection E1 as -> ->. by exists m1.
    - destruct (back_ok pv k m c l state Hsh Hls _ _ E1) as (m1 & Em & H1 & H2 & H3 & _). by exists m1. }
  destruct (IH m1 c1 l1 l' c') as (m2 & Em2 & Hsh2 & Hls2 & He2); try done.
  { by eapply edit_only_typing. }
  exists m2. split; [cbn; by go Em|]. split; [done|]. split; [done|]. by eapply edit_only_trans.
Qed.
End Line.

(** * Properties *)

Section Demo.
Context `{Platform}.

(** Terminal 0 is in use, nothing has been typed. *)
Definition typing_machine : machine :=
  boot_machine <| kbd ::= fun k => k <| key_buffer := Some 0%nat |> |>.

Lemma typing_line : line_shown 0 typing_machine [].
Proof. split; [done|done|cbn; lia|done]. Qed.

Lemma typing_shows : shows VIDEO typing_machine blank_console.
Proof. destruct boot_shows. by split. Qed.
End Demo.

(** Line editing: any sequence of key presses and backspaces returns, and
    leaves in the key buffer, and on the screen, the line that the line editor
    yields: a key appends its character, by the state of shift and capslock, to
    a line of less than 128; a backspace removes the last character of a
    non-empty line; nothing else of the state changes.  (A backspace with the cursor in the
    top left corner is excluded, and so are ctrl and the arrow keys.) *)
Theorem line_editing `{Platform} (pv : Z) (k : nat) (state : Z) (es : list key_event) (m : machine)
    (c c' : console) (l l' : list Z) :
  shows pv m c -> line_shown k m l -> typing m state -> 0 <= state < 4 ->
  Forall (fun e => match e with Key s => 0 <= s | Back => True end) es ->
  edits state es (l, c) = Some (l', c') ->
  exists m', handle_events es m = (Ok tt, m') /\
    shows pv m' c' /\ line_shown k m' l' /\ edit_only m m'.
Proof. intros Hsh Hls Hty Hst Hes He. by eapply edits_ok. Qed.

(** [l], [s], backspace: the line is ["l"], and so is the screen. *)
Lemma line_editing_witness :
  let P := plain_platform in
  exists m', handle_events [Key 0x26; Key 0x1F; Back] typing_machine = (Ok tt, m') /\
    line_shown 0 m' [108] /\ shows VIDEO m' (Console (108 :: replicate 1999 0) 1 0).
Proof.
  intros P.
  destruct (line_editing VIDEO 0 0 [Key 0x26; Key 0x1F; Back] typing_machine blank_console
    (Console (108 :: replicate 1999 0) 1 0) [] [108]) as (m' & E & Hsh & Hls & _).
  - apply typing_shows.
  - apply typing_line.
  - split; [cbn; lia|reflexivity].
  - lia.
  - repeat constructor; done.
  - reflexivity.
  - exists m'. split; [exact E|]. split; [exact Hls|exact Hsh].
Defined.

(** Ctrl+L clears the screen and sets the position back, but not the key
    buffer: the characters typed before stay in it, and a line entered next is
    followed by what is left of the old one. *)
Theorem ctrl_l_keeps_buffer `{Platform} (pv : Z) (k : nat) (m : machine) (c : console)
    (l : list Z) (scancode : Z) :
  shows pv m c -> line_shown k m l -> ctrl_pressed (kbd m) = 1 -> 0 <= scancode < 60 ->
  key_char (keys_state (kbd m)) scancode = 108 ->
  exists m', key_pressed_handler scancode m = (Ok tt, m') /\
    shows pv m' (Console (prompt ++ replicate 1993 32) 7 0) /\
    key_buffer_pos (kbd m') = 0 /\
    t_key_buffer <$> terminal m' !! k = Some (l ++ replicate (128 - length l) 0).
Proof.
  intros Hsh [Hk Hb Hl Hpos] Hctrl Hsc Hch. unfold key_pressed_handler, NUM_KEYS. zb. mrun.
  rewrite Hctrl. cbn [Z.eqb Pos.eqb]. unfold key_of. mrun. rewrite Hch. cbn [Z.eqb Pos.eqb].
  destruct (clear_ok pv m (sh_maps _ _ _ Hsh)) as (m1 & E & Hsh1 & [Hf _]). go E.
  unfold set_key_buffer_pos. mrun. eexists. split; [done|]. split.
  - destruct Hsh1 as [H1 H2 H3 H4 H5]. by split.
  - split; [done|]. msimp. rewrite Hf. exact Hb.
Qed.

(** ["ab"] typed, then ctrl+L. *)
Lemma ctrl_l_keeps_buffer_witness :
  let P := plain_platform in
  let m := typing_machine
    <| kbd ::= fun k => k <| ctrl_pressed := 1 |> <| key_buffer_pos := 2 |> |>
    <| terminal ::= alter (fun t => t <| t_key_buffer := [97; 98] ++ replicate 126 0 |>) 0%nat |> in
  exists m', key_pressed_handler 0x26 m = (Ok tt, m') /\ key_buffer_pos (kbd m') = 0 /\
    t_key_buffer <$> terminal m' !! 0%nat = Some ([97; 98] ++ replicate 126 0).
Proof.
  intros P m.
  destruct (ctrl_l_keeps_buffer VIDEO 0 m blank_console [97; 98] 0x26) as (m' & E & _ & Hp & Hb).
  - destruct typing_shows. by split.
  - split; [done|done|cbn; lia|done].
  - reflexivity.
  - lia.
  - reflexivity.
  - exists m'. split; [exact E|]. split; [exact Hp|exact Hb].
Defined.

(** The left arrow at an empty line: unless the cursor is in column 7, where
    the prompt of the shell ends, the position in the key buffer wraps around to
    2^32-1; a backspace then writes far outside the buffer. *)
Theorem arrow_left_underflow `{Platform} (k : nat) (m : machine) :
  line_shown k m [] -> screen_x (scr m) <> 7 ->
  exists m', move_cursor_left m = (Ok tt, m') /\ key_buffer_pos (kbd m') = 4294967295 /\
    exists m'', handle_backpace m' = (Stop OutOfBounds, m'').
Proof.
  intros [Hk Hb Hl Hpos] Hx. unfold move_cursor_left, get_screen_x, get_screen_y. mrun.
  rewrite (proj2 (Z.eqb_neq _ 7)) by done. cbn [negb]. unfold set_screen_pos. mrun.
  rewrite update_cursor_loc_run. unfold set_key_buffer_pos. mrun.
  eexists. split; [done|]. split; [msimp; by rewrite Hpos|].
  unfold handle_backpace, get_key_buffer_pos. mrun. msimp. rewrite Hpos.
  change (0 <? u32 (Z.of_nat (length []) - 1)) with true. cbv iota.
  unfold set_key_buffer_pos, key_buffer_write. mrun. msimp. rewrite Hk, Hpos. mrun. msimp. rewrite Hb.
  unfold default, id. cbn [from_option app length Nat.sub]. rewrite length_replicate.
  eexists. reflexivity.
Qed.

Lemma arrow_left_underflow_witness :
  let P := plain_platform in
  exists m', move_cursor_left typing_machine = (Ok tt, m') /\ key_buffer_pos (kbd m') = 4294967295.
Proof.
  intros P. destruct (arrow_left_underflow 0 typing_machine) as (m' & E & Hp & _).
  - apply typing_line.
  - cbn. lia.
  - exists m'. split; [exact E|exact Hp].
Defined.
