(* ===== verification/TermIO.v ===== *)
(** The terminal driver of [student-distrib/terminal.c], seen from a descriptor:
    [terminal_open], [terminal_close], [terminal_read] and [terminal_write].
    Switching between terminals is in [Terminal.v]. *)

From S2P Require Import Prelude Memory CLib Machine Pcb Screen Keyboard.

Section TermIO.
Context `{Platform}.

Definition terminal_open : K Z := mret 0.

Definition terminal_close (fd : Z) : K Z := mret 0.

(** The wait is ended by the keyboard interrupt, that [service] runs. *)
Definition terminal_read (service : K unit) (fd buf nbytes : Z) : K Z :=
  spin (fun m => truth (enter_pressed (kbd m))) service;;
  modify (fun m => m <| kbd ::= fun k => k <| enter_pressed := 0 |> |>);;
  bytes_read ← while (fun i =>
    c ← key_buffer_read i;
    if negb (c =? 0) && (i <? nbytes) then
      c ← key_buffer_read i;
      store8 (buf + i) c;;
      mret (inl (i + 1))
    else mret (inr i)) 0;
  clear_buffer;;
  mret bytes_read.

Definition terminal_write (fd buf nbytes : Z) : K Z :=
  while (fun i =>
    if i <? nbytes then
      c ← load8 (buf + i);
      if negb (c =? 0) then
        c ← load8 (buf + i);
        putc (u8 c);;
        mret (inl (i + 1))
      else mret (inr i)
    else mret (inr i)) 0.
End TermIO.

(** * Facts *)

Section TermIOFacts.
Context `{Platform}.

(** Clearing the buffer of a terminal. *)
Lemma clear_buffer_ok m k b :
  key_buffer (kbd m) = Some k -> t_key_buffer <$> terminal m !! k = Some b -> length b = 128%nat ->
  exists m', clear_buffer m = (Ok tt, m') /\ line_shown k m' [] /\
    m' = m <| kbd ::= fun k => k <| key_buffer_pos := 0 |> <| right_bound := 7 |> |>
           <| terminal := terminal m' |> /\
    terminal m' = alter (fun t => t <| t_key_buffer := replicate 128 0 |>) k (terminal m).
Proof.
  intros Hk Hb Hl. unfold clear_buffer, set_key_buffer_pos, set_right_bound. mrun.
  match goal with |- context [for_range _ _ _ ?mm] => set (m1 := mm) end.
  assert (exists t, terminal m !! k = Some t /\ t_key_buffer t = b) as (t & Ht & Htb).
  { destruct (terminal m !! k) as [t|]; [|done]. exists t. split; [done|]. by injection Hb. }
  rewrite for_range_n by (unfold KEY_BUFFER_SIZE; lia).
  destruct (for_n_ok (fun i s => s = m1 <| terminal := <[k := t <| t_key_buffer :=
      replicate (Z.to_nat i) 0 ++ drop (Z.to_nat i) b |>]> (terminal m) |>)
    (Z.to_nat (KEY_BUFFER_SIZE - 0)) 0 (fun i => key_buffer_write i 0) m1) as (m2 & E & Hm2).
  - unfold m1. cbn [replicate]. rewrite drop_0. cbn [app].
    rewrite list_insert_id; [by destruct m|]. rewrite Ht. f_equal. rewrite <- Htb. by destruct t.
  - intros i s Hi ->. unfold KEY_BUFFER_SIZE in Hi.
    match goal with |- context [key_buffer_write i 0 ?mm] =>
      rewrite (key_buffer_write_run mm k (replicate (Z.to_nat i) 0 ++ drop (Z.to_nat i) b) i 0) end.
    + eexists. split; [done|]. msimp.
      assert (<[Z.to_nat i := u8 0]> (replicate (Z.to_nat i) 0 ++ drop (Z.to_nat i) b) =
              replicate (Z.to_nat (i + 1)) 0 ++ drop (Z.to_nat (i + 1)) b) as Hstep.
      { rewrite insert_app_r_alt by (rewrite length_replicate; lia). rewrite length_replicate, Nat.sub_diag.
        rewrite (drop_byte b) by lia. cbn [insert list_insert].
        replace (Z.to_nat (i + 1)) with (Z.to_nat i + 1)%nat by lia.
        by rewrite replicate_add, <- app_assoc. }
      rewrite <- Hstep.
      assert (forall g, alter g k (<[k := t <| t_key_buffer := replicate (Z.to_nat i) 0 ++ drop (Z.to_nat i) b |>]>
                (terminal m)) = <[k := g (t <| t_key_buffer := replicate (Z.to_nat i) 0 ++ drop (Z.to_nat i) b |>)]>
                (terminal m)) as Hal.
      { intros g. apply list_eq. intros j. destruct (decide (j = k)) as [->|Hj].
        - rewrite list_lookup_alter_eq, !list_lookup_insert_eq by (by eapply lookup_lt_Some). done.
        - by rewrite list_lookup_alter_ne, !list_lookup_insert_ne by done. }
      transitivity (m1 <| terminal := alter (fun t => t <| t_key_buffer ::= <[Z.to_nat i := u8 0]> |>) k
        (<[k := t <| t_key_buffer := replicate (Z.to_nat i) 0 ++ drop (Z.to_nat i) b |>]> (terminal m)) |>).
      { by destruct m. }
      by rewrite Hal.
    + exact Hk.
    + msimp. rewrite list_lookup_insert_eq by (by eapply lookup_lt_Some). done.
    + rewrite length_app, length_replicate, length_drop. lia.
  - change (Z.to_nat (0 + Z.of_nat (Z.to_nat (KEY_BUFFER_SIZE - 0)))) with 128%nat in Hm2.
    rewrite drop_ge, app_nil_r in Hm2 by lia.
    exists m2. split; [exact E|].
    assert (terminal m2 = <[k := t <| t_key_buffer := replicate 128 0 |>]> (terminal m)) as Htm
      by (rewrite Hm2; done).
    split; [|split].
    + split; [rewrite Hm2; exact Hk| |cbn; lia|rewrite Hm2; done].
      rewrite Htm, list_lookup_insert_eq by (by eapply lookup_lt_Some). done.
    + rewrite Htm. rewrite Hm2. unfold m1. by destruct m as [? ? ? ? ? ? ? ? []].
    + rewrite Htm. apply list_eq. intros j. destruct (decide (j = k)) as [->|Hj].
      * by rewrite list_lookup_alter_eq, list_lookup_insert_eq, Ht by (by eapply lookup_lt_Some).
      * by rewrite list_lookup_alter_ne, list_lookup_insert_ne by done.
Qed.

(** [terminal_read] on a line that has been entered. *)
Lemma terminal_read_ok service m k l fd buf pbuf nbytes :
  line_shown k m l -> Forall (fun b => 0 < b < 256) l -> enter_pressed (kbd m) = 1 ->
  0 <= nbytes < 2147483648 -> (Z.of_nat (length l) < 128 \/ nbytes < 128) ->
  let s := take (Z.to_nat nbytes) l in
  maps m buf pbuf (Z.of_nat (length s)) ->
  exists m', terminal_read service fd buf nbytes m = (Ok (Z.of_nat (length s)), m') /\
    line_shown k m' [] /\ enter_pressed (kbd m') = 0 /\ phys m' = phys (upds m pbuf s) /\
    edit_only (m <| kbd ::= fun k => k <| enter_pressed := 0 |> |>) m' /\
    scr m' = scr m /\ io_log m' = io_log m /\ counts_kept (terminal m) (terminal m').
Proof.
  intros [Hk Hb Hlen Hpos] Hl Hent Hnb Hfit s Hbuf. unfold terminal_read.
  rewrite bind_run, spin_ready by (by rewrite Hent). cbv beta iota. mrun.
  set (m1 := m <| kbd ::= fun k => k <| enter_pressed := 0 |> |>).
  assert (length s = Nat.min (Z.to_nat nbytes) (length l)) as Hs by (unfold s; apply length_take).
  set (b := l ++ replicate (128 - length l) 0) in *.
  assert (length b = 128%nat) as Hbl by (unfold b; rewrite length_app, length_replicate; lia).
  assert (forall j, 0 <= j < Z.of_nat (length l) -> byte_at b j = byte_at l j /\ 0 < byte_at l j < 256) as Hin.
  { intros j Hj. split; [unfold b, byte_at; apply lookup_total_app_l; lia|].
    unfold byte_at. eapply (Forall_lookup_total_1 (fun b => 0 < b < 256)); [exact Hl|lia]. }
  assert (forall j, Z.of_nat (length l) <= j < 128 -> byte_at b j = 0) as Hout.
  { intros j Hj. unfold b, byte_at. rewrite lookup_total_app_r by lia. apply lookup_total_replicate_2. lia. }
  while_by (fun i t => 0 <= i <= Z.of_nat (length s) /\ t = upds m1 pbuf (take (Z.to_nat i) s))
    (fun r t => r = Z.of_nat (length s) /\ t = upds m1 pbuf s)
    (fun i => Z.to_nat (Z.of_nat (length s) - i)) as (r & m2 & E & -> & ->); [| |lia|].
  { split; [lia|done]. }
  { intros i t (Hi & ->). set (t := upds m1 pbuf (take (Z.to_nat i) s)).
    assert (key_buffer (kbd t) = Some k) as Hkt by (unfold t; rewrite upds_phys; exact Hk).
    assert (t_key_buffer <$> terminal t !! k = Some b) as Hbt by (unfold t; rewrite upds_phys; exact Hb).
    go (key_buffer_read_run t k b i Hkt Hbt) by lia.
    destruct (decide (i = Z.of_nat (length s))) as [->|Hne].
    - left. exists (Z.of_nat (length s)), t. split.
      + assert (negb (byte_at b (Z.of_nat (length s)) =? 0) && (Z.of_nat (length s) <? nbytes) = false) as ->; [|done].
        apply andb_false_iff. destruct (decide (nbytes <= Z.of_nat (length l))).
        * right. apply Z.ltb_ge. lia.
        * left. rewrite Hout by lia. done.
      + split; [done|]. unfold t. rewrite Nat2Z.id, firstn_all. done.
    - right. destruct (Hin i) as [Hbi Hnz]; [lia|]. rewrite Hbi. zb.
      go (key_buffer_read_run t k b i Hkt Hbt) by lia. rewrite Hbi.
      go (store8_maps t buf pbuf (Z.of_nat (length s)) i (byte_at l i)) by
        (first [by apply maps_upds|lia]).
      exists (i + 1), (upds m1 pbuf (take (Z.to_nat (i + 1)) s)). split; [|split; [split; [lia|done]|lia]].
      rewrite ret_run. f_equal. rewrite (take_byte s) by lia. rewrite upds_app. unfold t.
      rewrite length_take. replace (Z.of_nat (Z.to_nat i `min` length s)) with i by lia.
      replace (byte_at s i) with (byte_at l i); [done|].
      unfold s, byte_at. symmetry. apply lookup_total_take_lt. lia. }
  rewrite E. set (m2 := upds m1 pbuf s).
  destruct (clear_buffer_ok m2 k b) as (m3 & E3 & Hls & Hm3 & Htm3);
    [unfold m2; rewrite upds_phys; exact Hk|unfold m2; rewrite upds_phys; exact Hb|done|].
  go E3. rewrite ret_run. exists m3. split; [done|]. split; [done|].
  assert (phys m2 = phys (upds m pbuf s)) as Hph.
  { unfold m2, m1. clear. revert m pbuf. induction s as [|v s IH]; intros m pbuf; [done|].
    change (phys (upds (upd (m <| kbd ::= fun k => k <| enter_pressed := 0 |> |>) pbuf (u8 v)) (pbuf + 1) s) =
            phys (upds (upd m pbuf (u8 v)) (pbuf + 1) s)).
    rewrite <- (IH (upd m pbuf (u8 v))). reflexivity. }
  split; [rewrite Hm3; unfold m2; rewrite upds_phys; done|].
  split; [rewrite <- Hph; rewrite Hm3; done|].
  split; [unfold edit_only; rewrite Hm3; unfold m2; rewrite upds_phys; unfold m1; by destruct m as [? ? ? ? ? ? ? ? []]|].
  split; [rewrite Hm3; unfold m2; by rewrite upds_phys|]. split; [rewrite Hm3; unfold m2; by rewrite upds_phys|].
  rewrite Htm3. unfold m2. rewrite upds_phys. apply (counts_kept_buffer _ (fun _ => replicate 128 0)).
Qed.
End TermIOFacts.

(** Writing to the terminal. *)
Section Write.
Context `{Platform}.

Lemma terminal_write_ok pv m c fd buf pbuf (n : nat) :
  shows pv m c -> maps m buf pbuf (Z.of_nat n) -> Z.of_nat n < 2147483648 ->
  (pbuf + Z.of_nat n <= pv \/ pv + 4000 <= pbuf) ->
  let l := cprefix n (cells m pbuf n) in
  exists m', terminal_write fd buf (Z.of_nat n) m = (Ok (Z.of_nat (length l)), m') /\
    shows pv m' (con_puts l c) /\ screen_only pv m m'.
Proof.
  intros Hsh Hbuf Hn Hdis l. unfold terminal_write.
  pose proof (length_cprefix n (cells m pbuf n)) as Hlen. fold l in Hlen.
  pose proof (cells_bytes m pbuf n) as Hby.
  assert (forall i, 0 <= i < Z.of_nat (length l) ->
    byte_at l i = cell m (pbuf + i) /\ byte_at l i <> 0) as Hin.
  { intros i Hi. destruct (cprefix_lookup n (cells m pbuf n) (Z.to_nat i)) as (x & Hx & Hx' & Hnz).
    { fold l. lia. }
    fold l in Hx. unfold byte_at. rewrite (list_lookup_total_correct _ _ _ Hx). split; [|done].
    rewrite cells_lookup, Z2Nat.id in Hx' by lia. congruence. }
  assert (Z.of_nat (length l) < Z.of_nat n -> cell m (pbuf + Z.of_nat (length l)) = 0) as Hend.
  { intros Hlt. pose proof (cprefix_end n (cells m pbuf n)) as He. fold l in He.
    rewrite cells_lookup in He by lia.
    destruct He as [He|[He|He]]; [lia|done|by injection He]. }
  while_by (fun i t => 0 <= i <= Z.of_nat (length l) /\ screen_only pv m t /\
                       shows pv t (con_puts (take (Z.to_nat i) l) c))
    (fun r t => r = Z.of_nat (length l) /\ screen_only pv m t /\ shows pv t (con_puts l c))
    (fun i => Z.to_nat (Z.of_nat (length l) - i)) as (r & m' & E & -> & Hs & Hsh');
    [| |lia|by exists m'].
  { split; [lia|]. split; [apply screen_only_refl|done]. }
  intros i t (Hi & Hs & Ht).
  assert (forall q, 0 <= q < Z.of_nat n -> cell t (pbuf + q) = cell m (pbuf + q)) as Hcells.
  { intros q Hq. apply (so_cells _ _ _ Hs). intros (j & Hj & He). lia. }
  assert (maps t buf pbuf (Z.of_nat n)) as Hbt by by eapply screen_only_maps.
  destruct (Z.ltb_spec i (Z.of_nat n)) as [Hin'|Hge].
  - go (load8_maps t buf pbuf (Z.of_nat n) i) by (done || lia). rewrite Hcells by lia.
    destruct (decide (i = Z.of_nat (length l))) as [->|Hne].
    + left. rewrite Hend by lia. cbn. eexists _, t. split; [done|]. split; [done|]. split; [done|].
      by rewrite Nat2Z.id, firstn_all in Ht.
    + right. destruct (Hin i) as [Hb Hnz]; [lia|]. rewrite Hb in Hnz.
      rewrite (proj2 (Z.eqb_neq _ 0)) by done. cbn [negb].
      go (load8_maps t buf pbuf (Z.of_nat n) i) by (done || lia). rewrite Hcells, <- Hb by lia.
      assert (is_byte (byte_at l i)) as Hbyte by (rewrite Hb; apply cell_range).
      rewrite u8_small by exact Hbyte.
      destruct (putc_ok pv t (con_puts (take (Z.to_nat i) l) c) (byte_at l i) Ht Hbyte) as (t' & E & Hsh' & Hs' & _).
      go E. exists (i + 1), t'. split; [done|]. split; [|lia]. split; [lia|].
      split; [by eapply screen_only_trans|].
      rewrite take_byte by lia. by rewrite con_puts_app.
  - left. assert (i = Z.of_nat (length l)) as -> by lia.
    eexists _, t. split; [done|]. split; [done|]. split; [done|].
    by rewrite Nat2Z.id, firstn_all in Ht.
Qed.
End Write.

(** * Properties *)

(** Typed lines hold no null byte. *)
Lemma edits_string state es : forall l c l' c',
  0 <= state < 4 -> Forall (fun e => match e with Key s => 0 <= s | Back => True end) es ->
  Forall (fun b => 0 < b < 256) l -> edits state es (l, c) = Some (l', c') ->
  Forall (fun b => 0 < b < 256) l'.
Proof.
  induction es as [|e es IH]; intros l c l' c' Hst Hes Hl He; cbn [edits] in He.
  { by injection He as <- <-. }
  inversion Hes as [|? ? Hev Hes']; subst.
  destruct (edit state e (l, c)) as [[l1 c1]|] eqn:E; [|done]. cbn [mbind option_bind] in He.
  apply (IH l1 c1 l' c' Hst Hes'); [|done]. destruct e as [s|]; unfold edit, NUM_KEYS in E.
  - destruct ((s <? 60) && negb (key_char state s =? 0) && (Z.of_nat (length l) <? 128)) eqn:Hb;
      injection E as <- <-; [|done].
    apply andb_prop in Hb as [[Hs Hz]%andb_prop _]. apply Z.ltb_lt in Hs. apply negb_true_iff in Hz.
    apply Forall_app. split; [done|]. constructor; [|done].
    pose proof (key_char_byte state s Hst ltac:(cbn in Hev; lia)) as Hc. cbv zeta in Hc.
    apply Z.eqb_neq in Hz. lia.
  - destruct (decide (l = [])); [by injection E as <- <-|].
    destruct (_ && _); [done|]. injection E as <- <-.
    apply Forall_forall. intros x Hx. rewrite Forall_forall in Hl. apply Hl.
    destruct (exists_last n) as (l2 & a & ->). rewrite removelast_last in Hx. apply in_or_app. by left.
Qed.

(** What is typed is what is read: after any editing of an empty line, the
    enter key and [terminal_read] store the line that the line editor yields, as
    far as [nbytes] allows, return its length, and leave an empty line and the
    enter flag lowered for the next read.  (A full line of 128 characters, which has
    no terminator, is excluded when [nbytes] is 128 or more.) *)
Theorem typed_line_read `{Platform} (pv : Z) (k : nat) (state : Z) (es : list key_event) (m : machine)
    (c c' : console) (l : list Z) (service : K unit) (fd buf pbuf nbytes : Z) :
  shows pv m c -> line_shown k m [] -> typing m state -> 0 <= state < 4 ->
  Forall (fun e => match e with Key s => 0 <= s | Back => True end) es ->
  edits state es ([], c) = Some (l, c') ->
  0 <= nbytes < 2147483648 -> (Z.of_nat (length l) < 128 \/ nbytes < 128) ->
  let s := take (Z.to_nat nbytes) l in
  maps m buf pbuf (Z.of_nat (length s)) ->
  exists m',
    (handle_events es;; handle_enter;; terminal_read service fd buf nbytes) m =
      (Ok (Z.of_nat (length s)), m') /\
    cells m' pbuf (length s) = s /\
    line_shown k m' [] /\ enter_pressed (kbd m') = 0.
Proof.
  intros Hsh Hls Hty Hst Hes He Hnb Hfit s Hbuf.
  destruct (edits_ok pv k state Hst es m c [] l c' Hsh Hls Hty Hes He) as (m1 & E1 & Hsh1 & Hls1 & Ho1).
  go E1. unfold handle_enter, set_right_bound. rewrite !bind_assoc. mrun.
  set (m2 := m1 <| kbd ::= fun k => k <| enter_pressed := 1 |> |> <| kbd ::= fun k => k <| right_bound ::= fun _ => 7 |> |>).
  assert (shows pv m2 c') as Hsh2 by (destruct Hsh1; by split).
  destruct (do_enter_ok pv m2 (con_text c') (con_x c') (con_y c') (shows_text _ _ _ Hsh2))
    as (m3 & E3 & _ & Hs3 & _); [apply (sh_y _ _ _ Hsh2)|apply (sh_ok _ _ _ Hsh2)|].
  rewrite E3. cbv beta iota.
  assert (kbd m3 = kbd m2 /\ terminal m3 = terminal m2) as [Hk3 Ht3] by (rewrite (so_fields _ _ _ Hs3); done).
  assert (Forall (fun b => 0 < b < 256) l) as Hstr by (by eapply edits_string).
  assert (forall x, loc m3 x = loc m x) as Hloc.
  { intros x. rewrite (screen_only_loc _ _ _ _ Hs3). unfold m2. rewrite Ho1. done. }
  destruct (terminal_read_ok service m3 k l fd buf pbuf nbytes) as (m4 & E4 & Hls4 & Hen4 & Hph4 & _);
    try done.
  { destruct Hls1 as [H1 H2 H3 H4]. split; rewrite ?Hk3, ?Ht3; done. }
  { by rewrite Hk3. }
  { by eapply maps_loc. }
  exists m4. split; [exact E4|]. split; [|done].
  transitivity (cells (upds m3 pbuf s) pbuf (length s)).
  { apply cells_ext. intros q _. unfold cell. cbn. by rewrite Hph4. }
  rewrite cells_upds_in. apply list_eq. intros i. rewrite list_lookup_fmap.
  destruct (s !! i) as [b|] eqn:Eb; cbn; [|done]. f_equal. apply u8_small.
  apply lookup_take_Some in Eb as [Eb _]. pose proof (Forall_lookup_1 _ _ _ _ Hstr Eb) as Hb0. cbv beta in Hb0. lia.
Qed.

(** [l], [s], [x], backspace, enter; then a read of at most 32 bytes. *)
Lemma typed_line_read_witness :
  let P := plain_platform in
  exists m',
    (handle_events [Key 0x26; Key 0x1F; Key 0x2D; Back];; handle_enter;;
     terminal_read (mret tt) 0 0x1000 32) typing_machine = (Ok 2, m') /\
    cells m' 0x1000 2 = [108; 115].
Proof.
  intros P.
  destruct (typed_line_read VIDEO 0 0 [Key 0x26; Key 0x1F; Key 0x2D; Back] typing_machine blank_console
    (Console (108 :: 115 :: replicate 1998 0) 2 0) [108; 115] (mret tt) 0 0x1000 0x1000 32)
    as (m' & E & Hc & _).
  - apply typing_shows.
  - apply typing_line.
  - split; [cbn; lia|reflexivity].
  - lia.
  - repeat constructor; done.
  - reflexivity.
  - lia.
  - cbn. lia.
  - intros i Hi. change (0 <= i < 2) in Hi. unfold loc. cbn. by rewrite u32_small by lia.
  - exists m'. split; [exact E|exact Hc].
Defined.

(** Writing to the terminal prints the bytes up to the first null byte or to
    the number asked for, whichever comes first, one by one on the console, and
    returns how many were printed; only the screen changes.  A count of zero or
    less prints nothing. *)
Theorem terminal_write_prints `{Platform} (pv : Z) (m : machine) (c : console)
    (fd buf pbuf nbytes : Z) :
  shows pv m c -> nbytes < 2147483648 ->
  let n := Z.to_nat nbytes in
  maps m buf pbuf (Z.of_nat n) -> (pbuf + Z.of_nat n <= pv \/ pv + 4000 <= pbuf) ->
  let l := cprefix n (cells m pbuf n) in
  exists m', terminal_write fd buf nbytes m = (Ok (Z.of_nat (length l)), m') /\
    shows pv m' (con_puts l c) /\ screen_only pv m m'.
Proof.
  intros Hsh Hn n Hbuf Hdis l. destruct (Z.le_gt_cases 0 nbytes) as [Hp|Hneg].
  - rewrite <- (Z2Nat.id nbytes) by done. apply (terminal_write_ok pv m c fd buf pbuf n); try done. lia.
  - exists m. unfold l. replace n with 0%nat by lia. split; [|split; [done|apply screen_only_refl]].
    unfold terminal_write. apply (while_ok 1); [lia|]. cbn. by zb.
Qed.

Lemma terminal_write_prints_witness :
  let P := plain_platform in
  let m := boot_machine <| phys := {[0x1000 := 104; 0x1001 := 105]} |> in
  exists m', terminal_write 1 0x1000 10 m = (Ok 2, m') /\
    shows VIDEO m' (Console (104 :: 105 :: replicate 1998 0) 2 0).
Proof.
  intros P m.
  destruct (terminal_write_prints VIDEO m blank_console 1 0x1000 0x1000 10) as (m' & E & Hsh & _).
  - split.
    + apply boot_shows.
    + apply boot_shows.
    + intros i Hi. cbn [con_text blank_console]. rewrite lookup_replicate_2 by lia. f_equal.
      unfold m, cell, VIDEO. cbn. rewrite lookup_insert_ne, lookup_singleton_ne by lia. done.
    + reflexivity.
    + reflexivity.
  - lia.
  - intros i Hi. change (0 <= i < 10) in Hi. unfold loc. cbn. by rewrite u32_small by lia.
  - left. cbn. unfold VIDEO. lia.
  - exists m'. split; [exact E|exact Hsh].
Defined.
