(* ===== verification/Files.v ===== *)
(** File descriptors, as in [student-distrib/syscalls.c]: the call through a
    table of operations, and the system calls [open], [close], [read] and
    [write].  The abstract view of a process is its list of eight files. *)

From S2P Require Import Prelude Memory CLib Machine I8259 Rtc Pcb Rofs Screen Keyboard TermIO.

Section Files.
Context `{Platform}.

(** [p == NULL]; the address of an array of the kernel never is. *)
Definition is_null (p : ptr) : bool := match p with Raw a => a =? 0 | Buf _ _ => false end.

(** Calls through the members of [fileops].  A null pointer faults at address 0;
    a member never holds an operation of another member's type. *)
Definition call_open (f : fop) (filename : ptr) : K Z :=
  match f with
  | f_terminal_open => terminal_open
  | f_rtc_open => rtc_open
  | f_dir_open => dir_open filename
  | f_file_open => file_open filename
  | f_fail => fail
  | f_null => raise (PageFault 0)
  | _ => raise OutOfBounds
  end.

Definition call_close (f : fop) (fd : Z) : K Z :=
  match f with
  | f_rtc_close => rtc_close fd
  | f_dir_close => dir_close fd
  | f_file_close => file_close fd
  | f_fail => fail
  | f_null => raise (PageFault 0)
  | _ => raise OutOfBounds
  end.

Definition call_read (service : K unit) (f : fop) (fd buf nbytes : Z) : K Z :=
  match f with
  | f_terminal_read => terminal_read service fd buf nbytes
  | f_rtc_read => rtc_read service fd buf nbytes
  | f_dir_read => dir_read fd buf nbytes
  | f_file_read => file_read fd buf nbytes
  | f_fail => fail
  | f_null => raise (PageFault 0)
  | _ => raise OutOfBounds
  end.

Definition call_write (f : fop) (fd buf nbytes : Z) : K Z :=
  match f with
  | f_terminal_write => terminal_write fd buf nbytes
  | f_rtc_write => rtc_write fd buf nbytes
  | f_fail => fail
  | f_null => raise (PageFault 0)
  | _ => raise OutOfBounds
  end.

(** [file.flags & FILE_OPEN] *)
Definition is_open (f : file_t) : bool := truth (Z.land (flags f) FILE_OPEN).

Definition read (service : K unit) (fd buf nbytes : Z) : K Z :=
  if (fd <? 0) || (MAX_FILES <=? fd) || (buf =? 0) then mret (-1)
  else
    pcb ← get_current_pcb;
    f ← file_read_at pcb fd;
    if negb (is_open f) then mret (-1)
    else
      f ← file_read_at pcb fd;
      call_read service (op_read (fileops f)) fd buf nbytes.

Definition write (fd buf nbytes : Z) : K Z :=
  if (fd <? 0) || (MAX_FILES <=? fd) || (buf =? 0) then mret (-1)
  else
    pcb ← get_current_pcb;
    f ← file_read_at pcb fd;
    if negb (is_open f) then mret (-1)
    else
      f ← file_read_at pcb fd;
      call_write (op_write (fileops f)) fd buf nbytes.

(** [flags &= ~FILE_OPEN] *)
Definition close_flag (pcb i : Z) : K unit :=
  file_write_at pcb i (fun f => f <| flags ::= fun x => Z.land x (Z.lnot FILE_OPEN) |>).

(** [switch ((file_type_t) dentry.file_type)] *)
Definition ops_of_type (t : Z) : option fileops_t :=
  if t =? rtc then Some rtc_ops
  else if t =? dir then Some dir_ops
  else if t =? file then Some file_ops
  else None.

Definition open (filename : ptr) : K Z :=
  if is_null filename then mret (-1)
  else
    '(r, dentry) ← read_dentry_by_name filename local_dentry;
    if truth r then mret (-1)
    else
      pcb ← get_current_pcb;
      i ← while (fun i =>
        if i <? MAX_FILES then
          f ← file_read_at pcb i;
          if negb (is_open f) then
            file_write_at pcb i (fun f => f <| flags ::= fun x => Z.lor x FILE_OPEN |>);;
            file_write_at pcb i (fun f => f <| pos := 0 |>);;
            mret (inr i)
          else mret (inl (i + 1))
        else mret (inr i)) 2;
      if i =? MAX_FILES then mret (-1)
      else
        match ops_of_type (file_type dentry) with
        | None => close_flag pcb i;; mret (-1)
        | Some ops =>
            file_write_at pcb i (fun f => f <| fileops := ops |>);;
            f ← file_read_at pcb i;
            r ← call_open (op_open (fileops f)) filename;
            if truth r then close_flag pcb i;; mret (-1)
            else
              file_write_at pcb i (fun f => f <| inode := i32 (inode_num dentry) |>);;
              mret i
        end.

Definition close (fd : Z) : K Z :=
  if (fd <? 0) || (MAX_FILES <=? fd) then mret (-1)
  else
    pcb ← get_current_pcb;
    f ← file_read_at pcb fd;
    if negb (is_open f) then mret (-1)
    else
      f ← file_read_at pcb fd;
      err ← call_close (op_close (fileops f)) fd;
      (if negb (truth err) then close_flag pcb fd else mret tt);;
      mret err.
End Files.

(** * The table of descriptors *)

Section Table.
Context `{Platform}.

(** The files of the current process. *)
Definition fds (m : machine) : list file_t := files (pcb_of m (current m)).

(** [m] with the descriptor [i] of the current process set to [f]. *)
Definition put_fd (m : machine) (i : nat) (f : file_t) : machine :=
  m <| pcbs := <[current m := (pcb_of m (current m)) <| files ::= <[i := f]> |>]> (pcbs m) |>.

(** A process the descriptor calls can run in. *)
Definition has_files (m : machine) : Prop :=
  is_Some (loc m (current m)) /\ length (fds m) = 8%nat.

(** The lowest descriptor that [open] may hand out. *)
Definition free_fd (l : list file_t) : option nat :=
  (fun x => (x.1 + 2)%nat) <$> list_find (fun f => is_open f = false) (drop 2 l).

(** What a driver does to the hardware, and nothing else. *)
Definition hw_only (m m' : machine) : Prop :=
  exists b, m' = m <| io_log := io_log m' |> <| pic := pic m' |> <| int_occur := int_occur m' |>
                   <| cpu ::= fun c => c <| IF := b |> |>.

Lemma free_fd_Some l i :
  free_fd l = Some i <->
  (2 <= i)%nat /\ (exists f, l !! i = Some f /\ is_open f = false) /\
  forall j f, (2 <= j < i)%nat -> l !! j = Some f -> is_open f = true.
Proof.
  unfold free_fd. rewrite fmap_Some. split.
  - intros ([k f] & (Hf & Ho & Hb)%list_find_Some & ->). cbn. rewrite lookup_drop in Hf.
    replace (2 + k)%nat with (k + 2)%nat in Hf by lia.
    split; [lia|]. split; [by exists f|]. intros j g Hj Hg.
    destruct (is_open g) eqn:E; [done|]. exfalso. eapply (Hb (j - 2)%nat g); [|lia|done].
    rewrite lookup_drop. by replace (2 + (j - 2))%nat with j by lia.
  - intros (Hi & (f & Hf & Ho) & Hb). exists ((i - 2)%nat, f). split; [|cbn; lia].
    apply list_find_Some. split; [rewrite lookup_drop; by replace (2 + (i - 2))%nat with i by lia|].
    split; [done|]. intros j g Hg Hj. rewrite lookup_drop in Hg. rewrite (Hb (2 + j)%nat g); [done|lia|done].
Qed.

Lemma free_fd_None l : free_fd l = None <-> forall j f, (2 <= j)%nat -> l !! j = Some f -> is_open f = true.
Proof.
  unfold free_fd. rewrite fmap_None, list_find_None, Forall_lookup. split.
  - intros Hl j f Hj Hf. destruct (is_open f) eqn:E; [done|]. exfalso.
    eapply (Hl (j - 2)%nat f); [|done]. rewrite lookup_drop. by replace (2 + (j - 2))%nat with j by lia.
  - intros Hl j f Hf. rewrite lookup_drop in Hf. rewrite (Hl (2 + j)%nat f); [done|lia|done].
Qed.

Lemma put_fd_current m i f : current (put_fd m i f) = current m.
Proof. done. Qed.

Lemma put_fd_fds m i f : fds (put_fd m i f) = <[i := f]> (fds m).
Proof. unfold fds. rewrite put_fd_current. unfold put_fd, pcb_of. msimp. by rewrite lookup_insert_eq. Qed.

Lemma set_files_twice (p : pcb_t) i f g :
  p <| files ::= <[i := f]> |> <| files ::= <[i := g]> |> = p <| files ::= <[i := g]> |>.
Proof. destruct p as [l ? ? ? ? ? ? ?]. cbn. by rewrite list_insert_insert_eq. Qed.

Lemma put_fd_put_fd m i f g : put_fd (put_fd m i f) i g = put_fd m i g.
Proof.
  unfold put_fd at 1. rewrite put_fd_current. unfold put_fd, pcb_of. msimp. rewrite lookup_insert_eq.
  cbn [default]. rewrite insert_insert_eq. unfold id. by rewrite set_files_twice.
Qed.

Lemma put_fd_has_files m i f : has_files m -> has_files (put_fd m i f).
Proof. intros [Hl Hf]. split; [done|]. by rewrite put_fd_fds, length_insert. Qed.

Lemma put_fd_represents pb size img m i f :
  represents pb size img m -> represents pb size img (put_fd m i f).
Proof. apply represents_ext; done. Qed.

Lemma fd_read m i f :
  has_files m -> 0 <= i -> fds m !! Z.to_nat i = Some f -> file_read_at (current m) i m = (Ok f, m).
Proof. intros [Hl _] Hi Hf. by apply file_read_at_run. Qed.

Lemma fd_write m i f g :
  has_files m -> 0 <= i -> fds m !! Z.to_nat i = Some f ->
  file_write_at (current m) i g m = (Ok tt, put_fd m (Z.to_nat i) (g f)).
Proof. intros [Hl _] Hi Hf. by rewrite (file_write_at_run m (current m) i f g). Qed.
End Table.

(** * Drivers that only touch the hardware *)

Section Hardware.
Context `{Platform}.

(** The computation ends with a value in [Q] and only touches the hardware. *)
Definition hw {A} (Q : A -> Prop) (k : K A) : Prop :=
  forall m, exists a m', k m = (Ok a, m') /\ Q a /\ hw_only m m'.

Lemma hw_only_refl m : hw_only m m.
Proof. exists (IF (cpu m)). destruct m as [? ? ? [] ? ? ? ? ? ? ? ? ? ? ? ? ? ? ? ?]. done. Qed.

Lemma hw_only_trans m1 m2 m3 : hw_only m1 m2 -> hw_only m2 m3 -> hw_only m1 m3.
Proof. intros [b Hb] [c Hc]. exists c. rewrite Hc, Hb. reflexivity. Qed.

Lemma hw_ret {A} (Q : A -> Prop) (a : A) : Q a -> hw Q (mret a).
Proof. intros Ha m. exists a, m. split; [done|]. split; [done|apply hw_only_refl]. Qed.

Lemma hw_bind {A B} (Q : B -> Prop) (k : K A) (f : A -> K B) :
  hw (fun _ => True) k -> (forall a, hw Q (f a)) -> hw Q (k ≫= f).
Proof.
  intros Hk Hf m. destruct (Hk m) as (a & m1 & E1 & _ & H1). destruct (Hf a m1) as (b & m2 & E2 & HQ & H2).
  exists b, m2. split; [by go E1|]. split; [done|by eapply hw_only_trans].
Qed.

Lemma hw_gets {A} (Q : A -> Prop) (f : machine -> A) : (forall m, Q (f m)) -> hw Q (gets f).
Proof. intros HQ m. eexists _, m. split; [done|]. split; [done|apply hw_only_refl]. Qed.

Lemma hw_modify (f : machine -> machine) : (forall m, hw_only m (f m)) -> hw (fun _ => True) (modify f).
Proof. intros Hf m. exists tt, (f m). done. Qed.

Lemma hw_outb v p : hw (fun _ => True) (outb v p).
Proof. apply hw_modify. intros m. exists (IF (cpu m)). destruct m as [? ? ? [] ? ? ? ? ? ? ? ? ? ? ? ? ? ? ? ?]. done. Qed.

Lemma hw_inb p : hw (fun _ => True) (inb p).
Proof.
  intros m. eexists _, _. split; [done|]. split; [done|]. exists (IF (cpu m)).
  destruct m as [? ? ? [] ? ? ? ? ? ? ? ? ? ? ? ? ? ? ? ?]. done.
Qed.

Lemma hw_cli : hw (fun _ => True) cli.
Proof. apply hw_modify. intros m. exists false. destruct m. done. Qed.

Lemma hw_sti : hw (fun _ => True) sti.
Proof. apply hw_modify. intros m. exists true. destruct m. done. Qed.

Lemma hw_int_occur b : hw (fun _ => True) (modify (fun m => m <| int_occur := b |>)).
Proof. apply hw_modify. intros m. exists (IF (cpu m)). destruct m as [? ? ? [] ? ? ? ? ? ? ? ? ? ? ? ? ? ? ? ?]. done. Qed.

Lemma hw_pic (f : pic_t -> pic_t) : hw (fun _ => True) (modify (fun m => m <| pic ::= f |>)).
Proof. apply hw_modify. intros m. exists (IF (cpu m)). destruct m as [? ? ? [] ? ? ? ? ? ? ? ? ? ? ? ? ? ? ? ?]. done. Qed.

Lemma hw_if {A} (Q : A -> Prop) (b : bool) (k1 k2 : K A) : hw Q k1 -> hw Q k2 -> hw Q (if b then k1 else k2).
Proof. by destruct b. Qed.
End Hardware.

#[export] Hint Resolve hw_ret hw_gets hw_outb hw_inb hw_cli hw_sti hw_int_occur hw_pic hw_if : mach.
Ltac solve_hw := repeat first [apply hw_bind; [|intros ?]|apply hw_if|solve [auto with mach]|progress cbv beta zeta].

Section Drivers.
Context `{Platform}.

Lemma hw_enable_irq n : hw (fun _ => True) (enable_irq n).
Proof. unfold enable_irq. solve_hw. Qed.

Lemma hw_disable_irq n : hw (fun _ => True) (disable_irq n).
Proof. unfold disable_irq. solve_hw. Qed.

Hint Resolve hw_enable_irq hw_disable_irq : mach.

(** The clock: a driver that returns 0. *)
Lemma rtc_open_hw : hw (eq 0) rtc_open.
Proof. unfold rtc_open. solve_hw. Qed.

Lemma rtc_close_hw fd : hw (eq 0) (rtc_close fd).
Proof. unfold rtc_close. solve_hw. Qed.
End Drivers.

(** * The calls *)

Section Calls.
Context `{Platform}.

Lemma reads_ext (m m' : machine) p l :
  (forall a, loc m' a = loc m a) -> (forall q, cell m' q = cell m q) -> reads m p l -> reads m' p l.
Proof.
  intros Hl Hc Hr i Hi. specialize (Hr i Hi). destruct p as [a|b off]; unfold rd in *.
  - unfold load8 in *. rewrite Hl. destruct (loc m (u32 (a + i))) as [q|]; [|done].
    assert (cell m q = byte_at l i) as Hq by congruence. by rewrite Hc, Hq.
  - destruct (off + i <? 0); [done|]. destruct (b !! Z.to_nat (off + i)); [|done]. by injection Hr as ->.
Qed.

Lemma put_fd_names m i f fname l : names m fname l -> names (put_fd m i f) fname l.
Proof. intros [Hl Hb He]. split; [|done|done]. by apply (reads_ext m). Qed.

(** What follows a change of the hardware could as well have preceded it. *)
Lemma put_fd_hw m i f m2 :
  hw_only (put_fd m i f) m2 -> exists m1, hw_only m m1 /\ m2 = put_fd m1 i f /\ fds m1 = fds m.
Proof.
  intros [b Hb]. exists (m <| io_log := io_log m2 |> <| pic := pic m2 |> <| int_occur := int_occur m2 |>
                          <| cpu ::= fun c => c <| IF := b |> |>).
  split; [by exists b|]. split; [rewrite Hb; by destruct m|done].
Qed.

Lemma hw_only_fds m m' : hw_only m m' -> fds m' = fds m /\ (has_files m -> has_files m').
Proof. intros [b Hb]. assert (fds m' = fds m) as E by (by rewrite Hb). split; [done|]. unfold has_files. rewrite E. by rewrite Hb. Qed.

Lemma flag_bit f : is_open f = Z.testbit (flags f) 0.
Proof.
  unfold is_open, truth, FILE_OPEN. change 1 with (Z.ones 1). rewrite Z.land_ones by lia.
  change (2 ^ 1) with 2. rewrite Zmod_odd, <- Z.bit0_odd. by destruct (Z.testbit (flags f) 0).
Qed.

Lemma flag_open f : is_open (f <| flags ::= fun x => Z.lor x FILE_OPEN |>) = true.
Proof. rewrite flag_bit. msimp. rewrite Z.lor_spec. apply orb_true_r. Qed.

Lemma flag_closed f : is_open (f <| flags ::= fun x => Z.land x (Z.lnot FILE_OPEN) |>) = false.
Proof. rewrite flag_bit. msimp. rewrite Z.land_spec. apply andb_false_r. Qed.

(** Setting and clearing the flag of a closed file. *)
Lemma flag_restored f :
  is_open f = false -> Z.land (Z.lor (flags f) FILE_OPEN) (Z.lnot FILE_OPEN) = flags f.
Proof.
  rewrite flag_bit. intros Hf. unfold FILE_OPEN. apply Z.bits_inj'. intros n Hn.
  rewrite Z.land_spec, Z.lor_spec, Z.lnot_spec by lia. destruct (decide (n = 0)) as [->|Hne].
  - by rewrite Hf.
  - change 1 with (Z.ones 1). rewrite Z.ones_spec_high by lia. by rewrite orb_false_r, andb_true_r.
Qed.

(** The search for a slot. *)
Lemma slot_ok m (body := fun i =>
    if i <? MAX_FILES then
      f ← file_read_at (current m) i;
      if negb (is_open f) then
        file_write_at (current m) i (fun f => f <| flags ::= fun x => Z.lor x FILE_OPEN |>);;
        file_write_at (current m) i (fun f => f <| pos := 0 |>);;
        mret (inr i)
      else mret (inl (i + 1))
    else mret (inr i) : K (Z + Z)) :
  has_files m ->
  match free_fd (fds m) with
  | Some i => exists f, fds m !! i = Some f /\ is_open f = false /\ (2 <= i < 8)%nat /\
      while body 2 m = (Ok (Z.of_nat i),
        put_fd m i (f <| flags ::= fun x => Z.lor x FILE_OPEN |> <| pos := 0 |>))
  | None => while body 2 m = (Ok MAX_FILES, m)
  end.
Proof.
  intros Hm. pose proof Hm as [_ H8].
  set (Q := fun r t => match free_fd (fds m) with
    | Some i => r = Z.of_nat i /\ exists f, fds m !! i = Some f /\ is_open f = false /\
        t = put_fd m i (f <| flags ::= fun x => Z.lor x FILE_OPEN |> <| pos := 0 |>)
    | None => r = MAX_FILES /\ t = m end).
  destruct (while_inv (fun i t => t = m /\ 2 <= i <= 8 /\
      forall j f, (2 <= j)%nat -> Z.of_nat j < i -> fds m !! j = Some f -> is_open f = true)
    Q (fun i => Z.to_nat (8 - i)) body 2 m) as (r & t & E & HQ); [split; [done|split; [lia|intros; lia]]| |lia|].
  - intros i t (-> & Hi & Hb). unfold body, MAX_FILES. destruct (Z.ltb_spec i 8) as [Hlt|Hge].
    + destruct (lookup_lt_is_Some_2 (fds m) (Z.to_nat i)) as [f Hf]; [lia|].
      go (fd_read m i f) by (done || lia). destruct (is_open f) eqn:Ho; cbn [negb].
      * right. eexists _, m. split; [done|]. split; [|lia]. split; [done|]. split; [lia|].
        intros j g Hj Hji Hg. destruct (decide (Z.of_nat j < i)) as [?|?]; [by apply (Hb j g)|].
        assert (j = Z.to_nat i) as -> by lia. congruence.
      * left. go (fd_write m i f) by (done || lia).
        set (g := f <| flags ::= fun x => Z.lor x FILE_OPEN |>).
        go (fd_write (put_fd m (Z.to_nat i) g) i g) by
          (first [lia|apply put_fd_has_files; done|rewrite put_fd_fds, list_lookup_insert_eq; [done|lia]]).
        eexists _, _. split; [done|]. unfold Q.
        rewrite (proj2 (free_fd_Some (fds m) (Z.to_nat i))).
        { split; [lia|]. exists f. split; [done|]. split; [done|]. by rewrite put_fd_put_fd. }
        split; [lia|]. split; [by exists f|]. intros j f' Hj. apply Hb; lia.
    + left. eexists _, m. split; [done|]. unfold Q.
      rewrite (proj2 (free_fd_None (fds m))); [split; [unfold MAX_FILES; lia|done]|].
      intros j f Hj Hf. apply (Hb j f Hj); [|done]. apply lookup_lt_Some in Hf. lia.
  - unfold Q in HQ. destruct (free_fd (fds m)) as [i|] eqn:Ef.
    + destruct HQ as (-> & f & Hf & Ho & ->). exists f. split; [done|]. split; [done|]. split; [|done].
      apply free_fd_Some in Ef as (? & _). apply lookup_lt_Some in Hf. lia.
    + destruct HQ as [-> ->]. done.
Qed.
End Calls.

Section OpenClose.
Context `{Platform}.

(** [m1] is [m], but for the hardware when the clock was involved. *)
Definition clock_effect (clock : Prop) (m m1 : machine) : Prop :=
  hw_only m m1 /\ (~ clock -> m1 = m).

(** [open], on a free slot and a known type. *)
Lemma open_ok pb size img m fname l d i ops :
  represents pb size img m -> has_files m -> names m fname l -> is_null fname = false ->
  find_dentry img l = Some d -> free_fd (fds m) = Some i -> ops_of_type (d_type d) = Some ops ->
  exists f m1, fds m !! i = Some f /\ is_open f = false /\ (2 <= i < 8)%nat /\
    clock_effect (d_type d = rtc) m m1 /\
    open fname m = (Ok (Z.of_nat i),
      put_fd m1 i (File (i32 (d_inode d)) (Z.lor (flags f) FILE_OPEN) 0 ops)).
Proof.
  intros Hr Hm Hn Hnull Hd Hfree Hops. unfold open. rewrite Hnull.
  pose proof (find_name_ok _ _ _ _ _ _ Hr Hn) as Hfind. rewrite Hd in Hfind.
  destruct Hfind as (dentry & E & Ht & Hi). go E. cbn [truth negb Z.eqb]. go get_current_pcb_run.
  pose proof (slot_ok m Hm) as Hslot. rewrite Hfree in Hslot. destruct Hslot as (f & Hf & Ho & Hi8 & Es).
  exists f. go Es. rewrite (proj2 (Z.eqb_neq (Z.of_nat i) MAX_FILES)) by (unfold MAX_FILES; lia). rewrite Ht, Hops.
  set (g := f <| flags ::= fun x => Z.lor x FILE_OPEN |> <| pos := 0 |>).
  pose proof (put_fd_has_files m i g Hm) as Hm1.
  assert (forall g', fds (put_fd m i g') !! Z.to_nat (Z.of_nat i) = Some g') as Hlk.
  { intros g'. rewrite Nat2Z.id, put_fd_fds, list_lookup_insert_eq; [done|]. destruct Hm. lia. }
  go (fd_write (put_fd m i g) (Z.of_nat i) g) by (done || lia).
  rewrite Nat2Z.id, put_fd_put_fd. set (g2 := g <| fileops := ops |>).
  pose proof (put_fd_has_files m i g2 Hm) as Hm2.
  change (current m) with (current (put_fd m i g2)).
  go (fd_read (put_fd m i g2) (Z.of_nat i) g2) by (done || lia).
  assert (exists m2, call_open (op_open (fileops g2)) fname (put_fd m i g2) = (Ok 0, m2) /\
            hw_only (put_fd m i g2) m2 /\ (d_type d <> rtc -> m2 = put_fd m i g2)) as (m2 & Eo & Hhw & Hsame).
  { change (fileops g2) with ops.
    destruct (open_kind_ok pb size img (put_fd m i g2) fname l) as [Hfo Hdo];
      [by apply put_fd_represents|by apply put_fd_names|]. rewrite Hd in Hfo, Hdo.
    unfold ops_of_type in Hops. destruct (Z.eqb_spec (d_type d) rtc) as [Hrt|Hrt]; [|
      destruct (Z.eqb_spec (d_type d) dir) as [Hdt|Hdt]; [|
      destruct (Z.eqb_spec (d_type d) file) as [Hft|Hft]; [|done]]]; injection Hops as <-.
    - destruct (rtc_open_hw (put_fd m i g2)) as (v & m2 & Eo & <- & Hhw). by exists m2.
    - exists (put_fd m i g2). cbn [call_open op_open dir_ops]. rewrite Hdo.
      rewrite decide_True by (cbn; congruence). split; [done|]. split; [apply hw_only_refl|done].
    - exists (put_fd m i g2). cbn [call_open op_open file_ops]. rewrite Hfo.
      rewrite decide_True by (cbn; congruence). split; [done|]. split; [apply hw_only_refl|done]. }
  go Eo. cbn [truth negb Z.eqb].
  destruct (put_fd_hw m i g2 m2 Hhw) as (m1 & Hhw1 & -> & Hfds1).
  destruct (hw_only_fds _ _ Hhw1) as [_ Hm1'].
  assert (current m = current m1) as Hcur by (destruct Hhw1 as [b ->]; done).
  assert (is_Some (fds (put_fd m1 i g2) !! i)) as [g3 Hg3].
  { apply lookup_lt_is_Some_2. rewrite put_fd_fds, length_insert, Hfds1. destruct Hm. lia. }
  assert (g3 = g2) as ->.
  { rewrite put_fd_fds, list_lookup_insert_eq in Hg3; [by injection Hg3|]. rewrite Hfds1. destruct Hm. lia. }
  rewrite !put_fd_current, Hcur. rewrite <- (put_fd_current m1 i g2).
  go (fd_write (put_fd m1 i g2) (Z.of_nat i) g2) by
    (first [apply put_fd_has_files; tauto|lia|by rewrite Nat2Z.id]).
  rewrite Nat2Z.id, put_fd_put_fd, ret_run, Hi.
  destruct (decide (d_type d = rtc)) as [Hrtc|Hrtc].
  - exists m1. split; [done|]. split; [done|]. split; [done|]. split; [by split|].
    by destruct f as [? ? ? ?].
  - exists m. split; [done|]. split; [done|]. split; [done|]. split; [by split; [apply hw_only_refl|]|].
    specialize (Hsame Hrtc). f_equal.
    transitivity (put_fd (put_fd m1 i g2) i (g2 <| inode := i32 (d_inode d) |>)); [by rewrite put_fd_put_fd|].
    rewrite Hsame, put_fd_put_fd. by destruct f as [? ? ? ?].
Qed.

(** [open] when it is refused. *)
Lemma open_refused pb size img m fname l :
  represents pb size img m -> has_files m -> names m fname l -> is_null fname = false ->
  (find_dentry img l = None \/ free_fd (fds m) = None) -> open fname m = (Ok (-1), m).
Proof.
  intros Hr Hm Hn Hnull Hno. unfold open. rewrite Hnull.
  pose proof (find_name_ok _ _ _ _ _ _ Hr Hn) as Hfind. destruct (find_dentry img l) as [d|]; [|by go Hfind].
  destruct Hno as [|Hno]; [done|]. destruct Hfind as (dentry & E & _). go E. cbn [truth negb Z.eqb].
  go get_current_pcb_run. pose proof (slot_ok m Hm) as Hslot. rewrite Hno in Hslot. go Hslot. done.
Qed.

(** [open] of an entry of an unknown type gives the slot back. *)
Lemma open_unknown pb size img m fname l d i :
  represents pb size img m -> has_files m -> names m fname l -> is_null fname = false ->
  find_dentry img l = Some d -> free_fd (fds m) = Some i -> ops_of_type (d_type d) = None ->
  exists f, fds m !! i = Some f /\ open fname m = (Ok (-1), put_fd m i (f <| pos := 0 |>)).
Proof.
  intros Hr Hm Hn Hnull Hd Hfree Hops. unfold open. rewrite Hnull.
  pose proof (find_name_ok _ _ _ _ _ _ Hr Hn) as Hfind. rewrite Hd in Hfind.
  destruct Hfind as (dentry & E & Ht & Hi). go E. cbn [truth negb Z.eqb]. go get_current_pcb_run.
  pose proof (slot_ok m Hm) as Hslot. rewrite Hfree in Hslot. destruct Hslot as (f & Hf & Ho & Hi8 & Es).
  exists f. split; [done|]. go Es. rewrite (proj2 (Z.eqb_neq (Z.of_nat i) MAX_FILES)) by (unfold MAX_FILES; lia). rewrite Ht, Hops.
  set (g := f <| flags ::= fun x => Z.lor x FILE_OPEN |> <| pos := 0 |>). unfold close_flag.
  go (fd_write (put_fd m i g) (Z.of_nat i) g) by
    (first [by apply put_fd_has_files|lia|rewrite Nat2Z.id, put_fd_fds, list_lookup_insert_eq; [done|destruct Hm; lia]]).
  rewrite Nat2Z.id, put_fd_put_fd, ret_run. do 2 f_equal. subst g.
  pose proof (flag_restored f Ho) as Hfl. destruct f as [? x ? ?]. cbn in Hfl |- *. by rewrite Hfl.
Qed.

(** The drivers whose [close] succeeds. *)
Definition closes (f : fop) : bool :=
  match f with f_rtc_close | f_dir_close | f_file_close => true | _ => false end.

(** [close] of an open file. *)
Lemma close_ok m fd f :
  has_files m -> 0 <= fd -> fds m !! Z.to_nat fd = Some f -> is_open f = true ->
  closes (op_close (fileops f)) = true ->
  exists m1, clock_effect (op_close (fileops f) = f_rtc_close) m m1 /\
    close fd m = (Ok 0, put_fd m1 (Z.to_nat fd) (f <| flags ::= fun x => Z.land x (Z.lnot FILE_OPEN) |>)).
Proof.
  intros Hm Hfd Hf Ho Hop. unfold close. pose proof Hm as [_ H8].
  assert (fd < 8) as Hlt by (apply lookup_lt_Some in Hf; lia). unfold MAX_FILES. zb.
  go get_current_pcb_run. go (fd_read m fd f) by done. rewrite Ho. cbn [negb]. go (fd_read m fd f) by done.
  assert (exists m1, clock_effect (op_close (fileops f) = f_rtc_close) m m1 /\
            call_close (op_close (fileops f)) fd m = (Ok 0, m1)) as (m1 & Hc & E).
  { destruct (op_close (fileops f)); try discriminate Hop.
    - destruct (rtc_close_hw fd m) as (v & m1 & E & <- & Hhw). exists m1. split; [by split|done].
    - exists m. split; [by split; [apply hw_only_refl|]|]. cbn. unfold dir_close, MAX_FILES. by zb.
    - exists m. split; [by split; [apply hw_only_refl|]|]. cbn. unfold file_close, MAX_FILES. by zb. }
  exists m1. split; [done|]. go E. cbn [truth negb Z.eqb]. destruct Hc as [Hhw _].
  destruct (hw_only_fds _ _ Hhw) as [Hfds Hm1]. specialize (Hm1 Hm).
  assert (current m = current m1) as -> by (destruct Hhw as [b ->]; done).
  unfold close_flag. go (fd_write m1 fd f) by (done || (rewrite Hfds; done)). done.
Qed.

(** [close] of anything else. *)
Lemma close_refused m fd :
  has_files m ->
  (fd < 0 \/ 8 <= fd \/ exists f, fds m !! Z.to_nat fd = Some f /\
                                  (is_open f = false \/ op_close (fileops f) = f_fail)) ->
  close fd m = (Ok (-1), m).
Proof.
  intros Hm Hno. unfold close, MAX_FILES. pose proof Hm as [_ H8].
  destruct (Z.ltb_spec fd 0); [done|]. destruct (Z.leb_spec 8 fd); [done|]. cbn [orb].
  destruct Hno as [|[|(f & Hf & Hno)]]; [lia|lia|].
  go get_current_pcb_run. go (fd_read m fd f) by done. destruct (is_open f) eqn:Ho; [|done]. cbn [negb].
  go (fd_read m fd f) by done. destruct Hno as [|Hno]; [done|]. rewrite Hno. done.
Qed.
End OpenClose.

(** * Properties *)

Section Invariant.
Context `{Platform}.

Lemma hw_only_represents pb size img m m' : hw_only m m' -> represents pb size img m -> represents pb size img m'.
Proof. intros [b ->]. by apply represents_ext. Qed.

Lemma hw_only_names m m' fname l : hw_only m m' -> names m fname l -> names m' fname l.
Proof. intros [b ->] [Hl Hb He]. split; [|done|done]. by apply (reads_ext m). Qed.

(** The table of a process: the terminal on 0 and 1, and every other open
    descriptor on one of the three drivers. *)
Definition driver_ops (o : fileops_t) : Prop := o = rtc_ops \/ o = dir_ops \/ o = file_ops.

Record table_ok (l : list file_t) : Prop := {
  tb_length : length l = 8%nat;
  tb_stdin : exists f, l !! 0%nat = Some f /\ is_open f = true /\ fileops f = stdin_ops;
  tb_stdout : exists f, l !! 1%nat = Some f /\ is_open f = true /\ fileops f = stdout_ops;
  tb_drivers i f : (2 <= i)%nat -> l !! i = Some f -> is_open f = true -> driver_ops (fileops f)
}.

Lemma table_ok_insert l i f :
  table_ok l -> (2 <= i)%nat -> (is_open f = true -> driver_ops (fileops f)) -> table_ok (<[i := f]> l).
Proof.
  intros [Hl Hin Hout Hdr] Hi Hf. split.
  - by rewrite length_insert.
  - by rewrite list_lookup_insert_ne by lia.
  - by rewrite list_lookup_insert_ne by lia.
  - intros j g Hj Hg Ho. destruct (decide (j = i)) as [->|Hne].
    + apply list_lookup_insert_Some in Hg as [(_ & -> & _)|[? _]]; [by apply Hf|done].
    + rewrite list_lookup_insert_ne in Hg by done. by apply (Hdr j g).
Qed.

Lemma ops_of_type_driver t ops : ops_of_type t = Some ops -> driver_ops ops.
Proof. unfold ops_of_type, driver_ops. intros Ho. repeat case_match; simplify_eq; auto. Qed.

Lemma driver_closes o : driver_ops o -> closes (op_close o) = true.
Proof. by intros [-> | [-> | ->]]. Qed.

Lemma table_has_files m : is_Some (loc m (current m)) -> table_ok (fds m) -> has_files m.
Proof. intros Hl [H8 _ _ _]. by split. Qed.

Lemma clock_effect_fds P m m1 : clock_effect P m m1 -> fds m1 = fds m /\ current m1 = current m.
Proof. intros [[b ->] _]. done. Qed.

(** Closing descriptor [i] makes it the one that [open] hands out, if none
    below it is free. *)
Lemma free_fd_closed l i f :
  (2 <= i < length l)%nat -> is_open f = false ->
  (forall j g, (2 <= j < i)%nat -> l !! j = Some g -> is_open g = true) ->
  free_fd (<[i := f]> l) = Some i.
Proof.
  intros Hi Hf Hb. apply free_fd_Some. split; [lia|]. split.
  - exists f. by rewrite list_lookup_insert_eq by lia.
  - intros j g Hj Hg. rewrite list_lookup_insert_ne in Hg by lia. by apply (Hb j g).
Qed.
End Invariant.

(** C15. Opening a file: the lowest closed descriptor from 2 up is returned, it is
    marked open at position 0 of the index node of the entry, with the operations
    of the kind of the entry, and nothing else changes but, for the clock, the
    hardware.  An unknown name or a full table gives -1 with nothing changed; an
    entry of an unknown kind gives -1 and leaves the slot closed. *)
Theorem open_allocates `{Platform} (pb size : Z) (img : image) (m : machine) (fname : ptr) (l : list Z) :
  represents pb size img m -> has_files m -> names m fname l -> is_null fname = false ->
  match find_dentry img l, free_fd (fds m) with
  | Some d, Some i =>
      exists f, fds m !! i = Some f /\ is_open f = false /\
      match ops_of_type (d_type d) with
      | Some ops =>
          exists m1, clock_effect (d_type d = rtc) m m1 /\
            open fname m = (Ok (Z.of_nat i),
              put_fd m1 i (File (i32 (d_inode d)) (Z.lor (flags f) FILE_OPEN) 0 ops))
      | None => open fname m = (Ok (-1), put_fd m i (f <| pos := 0 |>))
      end
  | _, _ => open fname m = (Ok (-1), m)
  end.
Proof.
  intros Hr Hm Hn Hnull. destruct (find_dentry img l) as [d|] eqn:Hd; [|eapply open_refused; eauto].
  destruct (free_fd (fds m)) as [i|] eqn:Hi; [|eapply open_refused; eauto].
  destruct (ops_of_type (d_type d)) as [ops|] eqn:Hops.
  - destruct (open_ok pb size img m fname l d i ops) as (f & m1 & Hf & Ho & _ & Hc & E); try done.
    exists f. split; [done|]. split; [done|]. by exists m1.
  - destruct (open_unknown pb size img m fname l d i) as (f & Hf & E); try done.
    exists f. split; [done|]. split; [|done]. apply free_fd_Some in Hi as (_ & (g & Hg & Ho) & _). congruence.
Qed.

Lemma open_allocates_witness :
  let P := plain_platform in
  let m := put_fd demo_machine 2 zero_file in
  open (cstr [102]) m = (Ok 2, put_fd m 2 (File 0 1 0 file_ops)).
Proof.
  intros P m.
  assert (has_files m) as Hm.
  { apply put_fd_has_files. destruct (demo_descriptor 2 (File 0 1 0 file_ops)) as (_ & Hl & _); [lia|reflexivity|].
    split; [exact Hl|reflexivity]. }
  destruct (open_allocates 0x20000 0x3000 demo_image m (cstr [102]) [102; 0]) as (f & Hf & _ & m1 & [_ Hm1] & E).
  - apply put_fd_represents, demo_represents.
  - exact Hm.
  - split; [apply reads_buf0|repeat constructor; done|right; set_solver].
  - reflexivity.
  - rewrite Hm1 in E by (vm_compute; discriminate). vm_compute in Hf. injection Hf as <-. exact E.
Defined.

(** C16. Closing a descriptor: an open one on a driver is marked closed, with
    result 0 and no other change but, for the clock, the hardware; after it, it is the
    descriptor that the next [open] takes, if the ones below it are in use.  A descriptor
    that is out of range or closed, and the terminal on 0 and 1, give -1 and
    nothing changes. *)
Theorem close_releases `{Platform} (m : machine) (fd : Z) :
  is_Some (loc m (current m)) -> table_ok (fds m) ->
  if decide (2 <= fd < 8) then
    exists f, fds m !! Z.to_nat fd = Some f /\
    if is_open f then
      exists m1, clock_effect (op_close (fileops f) = f_rtc_close) m m1 /\
        let m2 := put_fd m1 (Z.to_nat fd) (f <| flags ::= fun x => Z.land x (Z.lnot FILE_OPEN) |>) in
        close fd m = (Ok 0, m2) /\
        ((forall j g, 2 <= j < fd -> fds m !! Z.to_nat j = Some g -> is_open g = true) ->
           free_fd (fds m2) = Some (Z.to_nat fd))
    else close fd m = (Ok (-1), m)
  else close fd m = (Ok (-1), m).
Proof.
  intros Hl Ht. pose proof (table_has_files m Hl Ht) as Hm. pose proof Ht as [H8 Hin Hout Hdr].
  destruct (decide (2 <= fd < 8)) as [Hfd|Hfd].
  - destruct (lookup_lt_is_Some_2 (fds m) (Z.to_nat fd)) as [f Hf]; [lia|]. exists f. split; [done|].
    destruct (is_open f) eqn:Ho; [|apply close_refused; eauto 10].
    destruct (close_ok m fd f Hm ltac:(lia) Hf Ho) as (m1 & Hc & E).
    { eapply driver_closes, Hdr; [|exact Hf|done]. lia. }
    exists m1. split; [exact Hc|]. split; [exact E|]. intros Hlow.
    rewrite put_fd_fds, (proj1 (clock_effect_fds _ _ _ Hc)).
    apply free_fd_closed; [lia|apply flag_closed|]. intros j g Hj Hg. apply (Hlow (Z.of_nat j) g); [lia|]. by rewrite Nat2Z.id.
  - apply close_refused; [done|]. destruct (decide (fd < 0)); [by left|]. destruct (decide (8 <= fd)); [auto|].
    right; right. destruct (decide (fd = 0)) as [->|]; [|assert (fd = 1) as -> by lia].
    + destruct Hin as (f & Hf & _ & Hops). exists f. rewrite Hops. auto.
    + destruct Hout as (f & Hf & _ & Hops). exists f. rewrite Hops. auto.
Qed.

Lemma close_releases_witness :
  let P := plain_platform in
  let f := File 0 1 3 file_ops in
  let m := boot_machine <| pcbs := {[0x7FE000 := zero_pcb <| files :=
             [File 0 1 0 stdin_ops; File 0 1 0 stdout_ops; f] ++ replicate 5 zero_file |>]} |>
             <| cpu ::= fun c => c <| cpu_esp := 0x7FFFF0 |> |> in
  exists m1, close 2 m = (Ok 0, put_fd m1 2 (File 0 0 3 file_ops)).
Proof.
  intros P f m. pose proof (close_releases m 2) as C. rewrite decide_True in C by lia.
  destruct C as (g & Hg & E).
  - vm_compute. by eexists.
  - split; [reflexivity|by eexists|by eexists|]. intros i g Hi Hg Ho.
    do 2 (destruct i as [|i]; [lia|]). destruct i as [|i]; [right; right; by injection Hg as <-|].
    do 5 (destruct i as [|i]; [by injection Hg as <-|]). destruct i; discriminate.
  - vm_compute in Hg. injection Hg as <-. destruct E as (m1 & _ & E & _). exists m1. exact E.
Defined.

(** Opening, closing and opening again: when none of the three is refused for
    want of a slot, the second [open] returns the same descriptor as the first,
    and the table is the one the first left. *)
Theorem reopen_same `{Platform} (pb size : Z) (img : image) (m : machine) (fname : ptr) (l : list Z)
    (d : dentry_s) (i : nat) (ops : fileops_t) :
  represents pb size img m -> has_files m -> names m fname l -> is_null fname = false ->
  find_dentry img l = Some d -> free_fd (fds m) = Some i -> ops_of_type (d_type d) = Some ops ->
  exists m1 m3, open fname m = (Ok (Z.of_nat i), m1) /\
    (close (Z.of_nat i);; open fname) m1 = (Ok (Z.of_nat i), m3) /\ fds m3 = fds m1.
Proof.
  intros Hr Hm Hn Hnull Hd Hi Hops.
  destruct (open_ok pb size img m fname l d i ops) as (f & m1 & Hf & Ho & Hi8 & Hc1 & E1); try done.
  set (g := File (i32 (d_inode d)) (Z.lor (flags f) FILE_OPEN) 0 ops) in E1.
  exists (put_fd m1 i g). pose proof Hc1 as [Hhw1 _]. destruct (clock_effect_fds _ _ _ Hc1) as [Hfds1 Hcur1].
  destruct (hw_only_fds _ _ Hhw1) as [_ Hm1]. specialize (Hm1 Hm). pose proof Hm as [_ H8].
  assert (is_open g = true) as Hgo.
  { pose proof (flag_open f) as Hfo. rewrite flag_bit in Hfo |- *. exact Hfo. }
  assert (fds (put_fd m1 i g) !! i = Some g) as Hlk by (rewrite put_fd_fds, list_lookup_insert_eq; [done|rewrite Hfds1; lia]).
  destruct (close_ok (put_fd m1 i g) (Z.of_nat i) g) as (m2 & Hc2 & E2).
  { by apply put_fd_has_files. } { lia. } { by rewrite Nat2Z.id. } { done. }
  { apply (driver_closes ops). by eapply ops_of_type_driver. }
  rewrite Nat2Z.id in E2. pose proof Hc2 as [Hhw2 _].
  set (h := g <| flags ::= fun x => Z.land x (Z.lnot FILE_OPEN) |>) in E2.
  destruct (clock_effect_fds _ _ _ Hc2) as [Hfds2 Hcur2]. destruct (hw_only_fds _ _ Hhw2) as [_ Hm2].
  assert (has_files (put_fd m2 i h)) as Hm2' by (apply put_fd_has_files, Hm2; by apply put_fd_has_files).
  assert (free_fd (fds (put_fd m2 i h)) = Some i) as Hfree.
  { rewrite put_fd_fds, Hfds2, put_fd_fds, Hfds1, list_insert_insert_eq. apply free_fd_closed; [lia|apply flag_closed|].
    apply free_fd_Some in Hi as (_ & _ & Hb). exact Hb. }
  destruct (open_ok pb size img (put_fd m2 i h) fname l d i ops) as (f' & m3 & Hf' & _ & _ & Hc3 & E3); try done.
  { apply put_fd_represents. eapply hw_only_represents; [exact Hhw2|]. apply put_fd_represents.
    by eapply hw_only_represents. }
  { apply put_fd_names. eapply hw_only_names; [exact Hhw2|]. apply put_fd_names. by eapply hw_only_names. }
  eexists. split; [exact E1|]. split; [go E2; exact E3|].
  destruct (clock_effect_fds _ _ _ Hc3) as [Hfds3 _].
  assert (f' = h) as ->.
  { rewrite put_fd_fds, list_lookup_insert_eq in Hf'; [by injection Hf'|].
    rewrite Hfds2, put_fd_fds, length_insert, Hfds1. lia. }
  rewrite put_fd_fds, Hfds3, put_fd_fds, Hfds2, put_fd_fds, !list_insert_insert_eq.
  f_equal. unfold h, g. f_equal. apply Z.bits_inj'. intros n Hn0. msimp. cbn [flags].
  rewrite !Z.lor_spec, Z.land_spec, !Z.lor_spec, Z.lnot_spec by lia. unfold FILE_OPEN. change 1 with (Z.ones 1).
  destruct (decide (n = 0)) as [->|]; [cbn; by rewrite !orb_true_r|].
  rewrite Z.ones_spec_high by lia. by rewrite !orb_false_r, andb_true_r.
Qed.

Lemma reopen_same_witness :
  let P := plain_platform in
  let m := put_fd demo_machine 2 zero_file in
  exists m1 m3, open (cstr [102]) m = (Ok 2, m1) /\ (close 2;; open (cstr [102])) m1 = (Ok 2, m3).
Proof.
  intros P m.
  assert (has_files m) as Hm.
  { apply put_fd_has_files. destruct (demo_descriptor 2 (File 0 1 0 file_ops)) as (_ & Hl & _); [lia|reflexivity|].
    split; [exact Hl|reflexivity]. }
  destruct (reopen_same 0x20000 0x3000 demo_image m (cstr [102]) [102; 0]
    (Dentry (102 :: replicate 31 0) 2 0) 2 file_ops) as (m1 & m3 & E1 & E3 & _).
  - apply put_fd_represents, demo_represents.
  - exact Hm.
  - split; [apply reads_buf0|repeat constructor; done|right; set_solver].
  - reflexivity.
  - reflexivity.
  - reflexivity.
  - reflexivity.
  - exists m1, m3. split; [exact E1|exact E3].
Defined.

(** C34. [read] and [write] check before they call: a descriptor that is out of
    range or closed, or a null buffer, gives -1 and nothing changes; otherwise
    they do what the operation of the descriptor does.  So nothing can be
    written to a file, to a directory or to descriptor 0, nor read from
    descriptor 1. *)
Theorem read_write_dispatch `{Platform} (service : K unit) (m : machine) (fd buf nbytes : Z) :
  has_files m ->
  match (if (fd <? 0) || (buf =? 0) then None else fds m !! Z.to_nat fd) with
  | Some f =>
      if is_open f then
        read service fd buf nbytes m = call_read service (op_read (fileops f)) fd buf nbytes m /\
        write fd buf nbytes m = call_write (op_write (fileops f)) fd buf nbytes m /\
        (fileops f ∈ [stdin_ops; dir_ops; file_ops] -> write fd buf nbytes m = (Ok (-1), m)) /\
        (fileops f = stdout_ops -> read service fd buf nbytes m = (Ok (-1), m))
      else read service fd buf nbytes m = (Ok (-1), m) /\ write fd buf nbytes m = (Ok (-1), m)
  | None => read service fd buf nbytes m = (Ok (-1), m) /\ write fd buf nbytes m = (Ok (-1), m)
  end.
Proof.
  intros Hm. pose proof Hm as [_ H8]. unfold read, write, MAX_FILES.
  destruct (Z.ltb_spec fd 0) as [|Hfd]; [done|]. destruct (Z.eqb_spec buf 0) as [|Hbuf].
  { cbn [orb]. by rewrite orb_true_r. }
  cbn [orb]. destruct (fds m !! Z.to_nat fd) as [f|] eqn:Hf.
  - pose proof (lookup_lt_Some _ _ _ Hf). zb.
    rewrite !bind_run, !get_current_pcb_run. cbv beta iota. rewrite !bind_run, !(fd_read m fd f) by done.
    cbv beta iota. destruct (is_open f); cbn [negb]; [|done].
    rewrite !bind_run, !(fd_read m fd f) by done. cbv beta iota.
    split; [done|]. split; [done|]. split.
    + intros [-> | [-> | [-> | []%elem_of_nil]%elem_of_cons]%elem_of_cons]%elem_of_cons; done.
    + by intros ->.
  - apply lookup_ge_None_1 in Hf. by zb.
Qed.

Lemma read_write_dispatch_witness :
  let P := plain_platform in
  write 2 0x1000 3 demo_machine = (Ok (-1), demo_machine) /\
  read (mret tt) 7 0x1000 3 demo_machine = (Ok (-1), demo_machine).
Proof.
  intros P.
  assert (has_files demo_machine) as Hm.
  { destruct (demo_descriptor 2 (File 0 1 0 file_ops)) as (_ & Hl & _); [lia|reflexivity|].
    split; [exact Hl|reflexivity]. }
  split.
  - destruct (read_write_dispatch (mret tt) demo_machine 2 0x1000 3 Hm) as (_ & _ & C & _). apply C. set_solver.
  - destruct (read_write_dispatch (mret tt) demo_machine 7 0x1000 3 Hm) as [C _]. exact C.
Defined.

(** C35. The table of descriptors stays well formed: from a table with the
    terminal open on 0 and 1 and a driver behind every other open descriptor,
    [open] of any name and [close] of any number always return, and leave such a
    table. *)
Theorem descriptor_invariant `{Platform} (pb size : Z) (img : image) (m : machine) :
  represents pb size img m -> is_Some (loc m (current m)) -> table_ok (fds m) ->
  (forall fname l, names m fname l -> is_null fname = false ->
     exists r m', open fname m = (Ok r, m') /\ table_ok (fds m') /\ represents pb size img m') /\
  (forall fd, exists r m', close fd m = (Ok r, m') /\ table_ok (fds m') /\ represents pb size img m').
Proof.
  intros Hr Hl Ht. pose proof (table_has_files m Hl Ht) as Hm. split.
  - intros fname l Hn Hnull.
    destruct (find_dentry img l) as [d|] eqn:Hd; [|exists (-1), m; split; [eapply open_refused; eauto|done]].
    destruct (free_fd (fds m)) as [i|] eqn:Hi; [|exists (-1), m; split; [eapply open_refused; eauto|done]].
    destruct (ops_of_type (d_type d)) as [ops|] eqn:Hops.
    + destruct (open_ok pb size img m fname l d i ops) as (f & m1 & Hf & Ho & Hi8 & Hc & E); try done.
      eexists _, _. split; [exact E|]. destruct (clock_effect_fds _ _ _ Hc) as [Hfds _]. split.
      * rewrite put_fd_fds, Hfds. apply table_ok_insert; [done|lia|]. intros _. by eapply ops_of_type_driver.
      * apply put_fd_represents. eapply hw_only_represents; [|exact Hr]. by destruct Hc.
    + destruct (open_unknown pb size img m fname l d i) as (f & Hf & E); try done.
      eexists _, _. split; [exact E|]. apply free_fd_Some in Hi as (Hi2 & (g & Hg & Ho) & _).
      assert (g = f) as -> by congruence. split; [|by apply put_fd_represents].
      rewrite put_fd_fds. apply table_ok_insert; [done|done|]. intros Ho'. exfalso.
      unfold is_open in *. cbn in Ho'. congruence.
  - intros fd. destruct (decide (2 <= fd < 8)) as [Hfd|Hfd].
    + pose proof Ht as [H8 _ _ Hdr]. destruct (lookup_lt_is_Some_2 (fds m) (Z.to_nat fd)) as [f Hf]; [lia|].
      destruct (is_open f) eqn:Ho; [|exists (-1), m; split; [apply close_refused; eauto 10|done]].
      destruct (close_ok m fd f) as (m1 & Hc & E); [done|lia|done|done| |].
      { eapply driver_closes, Hdr; [|exact Hf|done]. lia. }
      eexists _, _. split; [exact E|]. destruct (clock_effect_fds _ _ _ Hc) as [Hfds _]. split.
      * rewrite put_fd_fds, Hfds. apply table_ok_insert; [done|lia|]. by rewrite flag_closed.
      * apply put_fd_represents. eapply hw_only_represents; [|exact Hr]. by destruct Hc.
    + exists (-1), m. split; [|done]. apply close_refused; [done|].
      destruct (decide (fd < 0)); [by left|]. destruct (decide (8 <= fd)); [auto|].
      right; right. pose proof Ht as [_ (f0 & H0 & _ & Ho0) (f1 & H1 & _ & Ho1) _].
      destruct (decide (fd = 0)) as [->|]; [exists f0; rewrite Ho0; auto|].
      assert (fd = 1) as -> by lia. exists f1; rewrite Ho1; auto.
Qed.

Lemma descriptor_invariant_witness :
  let P := plain_platform in
  let fs := [File 0 1 0 stdin_ops; File 0 1 0 stdout_ops] ++ replicate 6 zero_file in
  let m := demo_machine <| pcbs := {[0x7FE000 := zero_pcb <| files := fs |>]} |> in
  exists r m', close 5 m = (Ok r, m') /\ table_ok (fds m').
Proof.
  intros P fs m. destruct (descriptor_invariant 0x20000 0x3000 demo_image m) as [_ Hc].
  - apply (represents_ext 0x20000 0x3000 demo_image demo_machine); [done|done|done|apply demo_represents].
  - vm_compute. by eexists.
  - split; [reflexivity|by eexists|by eexists|]. intros i g Hi Hg Ho. unfold fs in Hg.
    do 2 (destruct i as [|i]; [lia|]).
    do 6 (destruct i as [|i]; [by injection Hg as <-|]). destruct i; discriminate.
  - destruct (Hc 5) as (r & m' & E & Ht & _). exists r, m'. split; [exact E|exact Ht].
Defined.
