(* ===== verification/Process.v ===== *)
(** Processes, as in [student-distrib/syscalls.c]: process identifiers, the set-up
    of a process control block, and [execute] and [halt].

    [execute] ends in user mode and [halt] on the stack of the parent; both are
    the end of the kernel's work, [EnterUser] and [ReturnTo].  The two functions
    call each other, and are given by fuel; [execute_unfold] and [halt_unfold]
    say that they satisfy the equations of the source. *)

From S2P Require Import Prelude Memory CLib Machine I8259 Rtc Pcb Rofs Paging Screen Keyboard TermIO Files.

Definition COMMAND_SIZE : Z := 128.
Definition MAGIC_SIZE : Z := 4.
Definition MAGIC0 : Z := 0x7F.
Definition MAGIC1 : Z := 0x45.
Definition MAGIC2 : Z := 0x4C.
Definition MAGIC3 : Z := 0x46.
Definition USER_STACK : Z := 0x83FFFFC.
Definition FOUR_MB_BLOCK : Z := 0x400000.
Definition VIRTUAL_START : Z := 0x8000000.
Definition VIRTUAL_END : Z := 0x8400000.
Definition EXECUTE_START : Z := 0x8048000.
Definition KERNEL_DS : Z := 0x0018.
Definition USER_CS : Z := 0x0023.
Definition USER_DS : Z := 0x002B.

Section Terminals.
(** [terminal[i]], and an assignment to members of it. *)
Definition terminal_at (i : Z) : K terminal_t :=
  if i <? 0 then raise OutOfBounds else
  o ← gets (fun m => terminal m !! Z.to_nat i);
  match o with Some t => mret t | None => raise OutOfBounds end.

Definition terminal_upd (i : Z) (f : terminal_t -> terminal_t) : K unit :=
  terminal_at i;;
  modify (fun m => m <| terminal ::= alter f (Z.to_nat i) |>).
End Terminals.

Section Process.
Context `{Platform}.

Definition can_execute : K Z :=
  total ← while (fun '(i, total) =>
    if i <? 3 then
      t ← terminal_at i;
      mret (inl (i + 1, i32 (total + num_processes t)))
    else mret (inr total)) (0, 0);
  mret (if total <? MAX_PROCESSES then 1 else 0).

Definition get_new_pid : K Z :=
  while (fun i =>
    if i <? MAX_PROCESSES then
      p ← gets processes_flags;
      if truth (Z.land p (Z.shiftl 1 i)) then mret (inl (i + 1))
      else
        modify (fun m => m <| processes_flags ::= fun p => u8 (Z.lor p (Z.shiftl 1 i)) |>);;
        mret (inr i)
    else mret (inr (-1))) 0.

(** [NULL] is 0. *)
Definition create_pcb : K Z :=
  n ← get_new_pid;
  if n <? 0 then mret 0
  else
    let pcb := get_pcb (u32 n) in
    pcb_write pcb (fun p => p <| pid := u8 n |>);;
    c ← gets term_cur;
    t ← terminal_at (c - 1);
    (if num_processes t =? 0 then pcb_write pcb (fun p => p <| parent_pid := u32 n |>)
     else
       c ← gets term_cur;
       t ← terminal_at (c - 1);
       pcb_write pcb (fun p => p <| parent_pid := term_pid t |>));;
    file_write_at pcb 0 (fun f => f <| fileops := stdin_ops |>);;
    file_write_at pcb 0 (fun f => f <| flags := FILE_OPEN |>);;
    file_write_at pcb 0 (fun f => f <| pos := 0 |>);;
    file_write_at pcb 1 (fun f => f <| fileops := stdout_ops |>);;
    file_write_at pcb 1 (fun f => f <| flags := FILE_OPEN |>);;
    file_write_at pcb 1 (fun f => f <| pos := 0 |>);;
    for_range 2 MAX_FILES (fun i =>
      file_write_at pcb i (fun f => f <| fileops := fail_ops |>);;
      file_write_at pcb i (fun f => f <| flags := 0 |>);;
      file_write_at pcb i (fun f => f <| inode := 0 |>);;
      file_write_at pcb i (fun f => f <| pos := 0 |>));;
    p ← pcb_read pcb;
    a ← memset (Buf (args p) 0) 0 MAX_ARGS_LENGTH;
    pcb_write pcb (fun p => p <| args := contents a |>);;
    mret pcb.

Definition shell : ptr := cstr (text "shell").

(** [VIRTUAL_START] mapped to the 4 MB of a process. *)
Definition remap_process (n : Z) : K unit :=
  remap VIRTUAL_START (u32 (PHYSICAL_START + u32 (n * FOUR_MB_BLOCK))).

Definition halt_body (execute : ptr -> K Z) (status : Z) : K Z :=
  cli;;
  pcb ← get_current_pcb;
  for_range 2 MAX_FILES (fun i =>
    f ← file_read_at pcb i;
    if is_open f then
      f ← file_read_at pcb i;
      call_close (op_close (fileops f)) i;;
      mret tt
    else mret tt);;
  c ← gets term_cur;
  terminal_upd (c - 1) (fun t => t <| num_processes ::= fun n => i32 (n - 1) |>);;
  p ← pcb_read pcb;
  modify (fun m => m <| processes_flags ::= fun f => u8 (Z.land f (Z.lnot (Z.shiftl 1 (pid p)))) |>);;
  c ← gets term_cur;
  t ← terminal_at (c - 1);
  (if num_processes t =? 0 then execute shell;; mret tt else mret tt);;
  f ← gets processes_flags;
  (if f =? 0 then execute shell;; mret tt else mret tt);;
  c ← gets term_cur;
  p ← pcb_read pcb;
  terminal_upd (c - 1) (fun t => t <| term_pid := u8 (parent_pid p) |>);;
  p ← pcb_read pcb;
  remap_process (parent_pid p);;
  p ← pcb_read pcb;
  modify (fun m => m <| tss ::= fun s => s <| esp0 := parent_esp p |> |>);;
  modify (fun m => m <| tss ::= fun s => s <| ss0 := KERNEL_DS |> |>);;
  p ← pcb_read pcb;
  modify (fun m => m <| cpu ::= fun c => c <| cpu_esp := parent_esp p |> <| cpu_ebp := parent_ebp p |> |>);;
  raise (ReturnTo status (parent_esp p) (parent_ebp p)).

(** [for (i = 0; p[i] stays; i++) buf[i] = p[i];], [i] being a [uint8_t]. *)
Definition copy_while (stays : Z -> bool) (p : ptr) (start : Z) (buf : ptr) : K (ptr * Z) :=
  while (fun '(buf, i) =>
    c ← rd p (i + start);
    if stays c then
      c ← rd p (i + start);
      buf ← wr buf i c;
      mret (inl (buf, u8 (i + 1)))
    else mret (inr (buf, i))) (buf, 0).

(** From the new block to the program: the window, the code, the TSS, and the
    switch to user mode.  The registers that are saved are those of the body of
    [execute].  (When [halt] or [terminal_start] call it, their frames lie between;
    what is saved for a shell that they start is never used, since [halt] of the only
    program of a terminal starts the next shell.) *)
Definition execute_start (dentry : ptr) (com_start pcb_new : Z) (arg_buf : ptr) : K Z :=
  c ← gets term_cur;
  terminal_upd (c - 1) (fun t => t <| num_processes ::= fun n => i32 (n + 1) |>);;
  c ← gets term_cur;
  p ← pcb_read pcb_new;
  terminal_upd (c - 1) (fun t => t <| term_pid := pid p |>);;
  s ← gets cpu;
  pcb_write pcb_new (fun p => p <| parent_ebp := frame_ebp s |> <| parent_esp := frame_esp s |>);;
  p ← pcb_read pcb_new;
  remap_process (pid p);;
  read_data (inode_num dentry) 0 (Raw EXECUTE_START) FOUR_MB_BLOCK;;
  modify (fun m => m <| tss ::= fun s => s <| ss0 := KERNEL_DS |> |>);;
  p ← pcb_read pcb_new;
  modify (fun m => m <| tss ::= fun s =>
    s <| esp0 := u32 (PHYSICAL_START - pid p * EIGHT_KB_BLOCK - MAGIC_SIZE) |> |>);;
  p ← pcb_read pcb_new;
  a ← strncpy (Buf (args p) 0) arg_buf MAX_ARGS_LENGTH;
  pcb_write pcb_new (fun p => p <| args := contents a |>);;
  modify (fun m => m <| cpu ::= fun c => c <| IF := true |> |>);;
  raise (EnterUser com_start USER_STACK).

(** The program [com_buf]: its entry, the checks, the arguments, a block. *)
Definition execute_program (command : ptr) (i : Z) (com_buf arg_buf : ptr) : K Z :=
  let buffer := Buf (replicate (Z.to_nat MAGIC_SIZE) 0) 0 in
  '(r, dentry) ← read_dentry_by_name com_buf local_dentry;
  if truth r then mret (-1)
  else
    '(_, buffer) ← read_data (inode_num dentry) 0 buffer MAGIC_SIZE;
    let b := byte_at (contents buffer) in
    if negb (b 0 =? MAGIC0) || negb (b 1 =? MAGIC1) || negb (b 2 =? MAGIC2) || negb (b 3 =? MAGIC3)
    then mret (-1)
    else
      ok ← can_execute;
      if negb (truth ok) then
        printf (text "Maximum number of processes reached" ++ [10]) [];;
        mret 0
      else
        c ← rd command i;
        arg_buf ← (if c =? 32 then
                     '(arg_buf, i) ← copy_while (fun c => negb (c =? 0) && negb (c =? 10))
                                       command (i + 1) arg_buf;
                     wr arg_buf i 0
                   else mret arg_buf);
        '(_, buffer) ← read_data (inode_num dentry) 24 buffer MAGIC_SIZE;
        let com_start := word_at (contents buffer) 0 in
        pcb_new ← create_pcb;
        if pcb_new =? 0 then mret (-1)
        else execute_start dentry com_start pcb_new arg_buf.

Definition execute_body (halt : Z -> K Z) (command : ptr) : K Z :=
  cli;;
  if is_null command then sti;; mret (-1)
  else
    let com_buf := Buf (replicate (Z.to_nat COMMAND_SIZE) 0) 0 in
    let arg_buf := Buf (replicate (Z.to_nat COMMAND_SIZE) 0) 0 in
    arg_buf ← memset arg_buf 0 COMMAND_SIZE;
    '(com_buf, i) ← copy_while (fun c => negb (c =? 32) && negb (c =? 0) && negb (c =? 10))
                      command 0 com_buf;
    com_buf ← wr com_buf i 0;
    r ← strncmp com_buf (cstr (text "exit")) 4;
    if r =? 0 then halt 0;; mret 0
    else execute_program command i com_buf arg_buf.

(** [execute("exit")] calls [halt], which may call [execute("shell")], which
    calls neither: two levels are enough. *)
Fixpoint execute_n (fuel : nat) (command : ptr) : K Z :=
  match fuel with
  | O => raise Diverges
  | S fuel => execute_body (halt_body (execute_n fuel)) command
  end.

Definition execute : ptr -> K Z := execute_n 2.
Definition halt : Z -> K Z := halt_body execute.
End Process.

(** * The recursion of [execute] and [halt] *)

Section Recursion.
Context `{Platform}.

Lemma halt_body_ext e1 e2 status m :
  (forall m, e1 shell m = e2 shell m) -> halt_body e1 status m = halt_body e2 status m.
Proof.
  intros He. unfold halt_body. repeat (apply bind_ext; intros ? ?).
  rewrite !bind_run. match goal with |- context [if ?b then e1 shell;; _ else _] => destruct b end.
  - rewrite !bind_run, He. destruct (e2 shell _) as [[]]; [|done]. rewrite !ret_run. repeat (apply bind_ext; intros ? ?).
    rewrite !bind_run. match goal with |- context [if ?b then e1 shell;; _ else _] => destruct b end; [|done].
    by rewrite !bind_run, He.
  - rewrite !ret_run. repeat (apply bind_ext; intros ? ?).
    rewrite !bind_run. match goal with |- context [if ?b then e1 shell;; _ else _] => destruct b end; [|done].
    by rewrite !bind_run, He.
Qed.

Lemma execute_body_ext h1 h2 command m :
  (forall s m, h1 s m = h2 s m) -> execute_body h1 command m = execute_body h2 command m.
Proof.
  intros Hh. unfold execute_body. apply bind_ext; intros _ m1. destruct (is_null command); [done|].
  cbv zeta. apply bind_ext; intros arg_buf m2. apply bind_ext; intros [com_buf i] m3.
  apply bind_ext; intros com_buf' m4. apply bind_ext; intros r m5. destruct (r =? 0); [|done].
  by rewrite !bind_run, Hh.
Qed.
End Recursion.

(** * Reading the command *)

Section Command.
Context `{Platform}.

Lemma copy_while_ok stays p pre w e bl (m : machine) :
  reads m p (pre ++ w ++ [e]) -> Forall is_byte w ->
  Forall (fun c => stays c = true) w -> stays e = false ->
  (length w <= length bl < 256)%nat ->
  copy_while stays p (Z.of_nat (length pre)) (Buf bl 0) m =
  (Ok (Buf (w ++ drop (length w) bl) 0, Z.of_nat (length w)), m).
Proof.
  intros Hr Hb Hw He Hl. unfold copy_while.
  while_by (fun '(d, i) t => 0 <= i <= Z.of_nat (length w) /\ into_buf m bl w i d t)
    (fun r t => t = m /\ r = (Buf (w ++ drop (length w) bl) 0, Z.of_nat (length w)))
    (fun '(_, i) => Z.to_nat (Z.of_nat (length w) - i)) as (r & t & E & -> & ->); [| |lia|exact E].
  { split; [lia|apply into_buf_0]. }
  intros [d i] t [Hi [-> ->]].
  assert (forall j, 0 <= j <= Z.of_nat (length w) ->
    rd p (j + Z.of_nat (length pre)) m = (Ok (byte_at (w ++ [e]) j), m)) as Hrd.
  { intros j Hj. rewrite Hr by (rewrite !length_app; cbn; lia). do 2 f_equal. unfold byte_at.
    rewrite lookup_total_app_r by lia. f_equal. lia. }
  go Hrd by done. destruct (decide (i = Z.of_nat (length w))) as [->|Hne].
  - left. assert (byte_at (w ++ [e]) (Z.of_nat (length w)) = e) as ->.
    { unfold byte_at. rewrite lookup_total_app_r by lia. by rewrite Nat2Z.id, Nat.sub_diag. }
    rewrite He. eexists _, m. split; [done|]. split; [done|]. by rewrite Nat2Z.id, firstn_all.
  - right. assert (byte_at (w ++ [e]) i = byte_at w i) as Hbi by (unfold byte_at; apply lookup_total_app_l; lia).
    assert (stays (byte_at w i) = true) as Hs.
    { unfold byte_at. apply (Forall_lookup_total_1 (fun c => stays c = true)); [done|lia]. }
    rewrite Hbi, Hs. go Hrd by done. rewrite Hbi.
    destruct (advances_buf m bl w Hb ltac:(lia) i (Buf (take (Z.to_nat i) w ++ drop (Z.to_nat i) bl) 0) m)
      as (d' & t' & Ew & HP'); [lia|done|].
    go Ew. exists (d', u8 (i + 1)), t'. rewrite u8_small by lia. split; [done|]. split; [by split; [lia|]|lia].
Qed.

(** The characters of the words of a command. *)
Definition word_char (c : Z) : Prop := is_byte c /\ c <> 32 /\ c <> 0 /\ c <> 10.

Lemma cprefix_no_null n w l :
  Forall (fun c => c <> 0) w -> cprefix n (w ++ 0 :: l) = take n w.
Proof.
  revert w. induction n as [|n IH]; intros [|c w] Hw; [done..|]. inversion Hw; subst. cbn.
  rewrite (proj2 (Z.eqb_neq c 0)) by done. f_equal. by apply IH.
Qed.

Lemma word_no_null w : Forall word_char w -> Forall (fun c => c <> 0) w.
Proof. intros Hw. eapply Forall_impl; [|exact Hw]. by intros c (_ & _ & ? & _). Qed.

Lemma word_bytes w : Forall word_char w -> Forall is_byte w.
Proof. intros Hw. eapply Forall_impl; [|exact Hw]. by intros c [? _]. Qed.

(** The characters of the arguments. *)
Definition arg_char (c : Z) : Prop := is_byte c /\ c <> 0 /\ c <> 10.

Lemma arg_no_null w : Forall arg_char w -> Forall (fun c => c <> 0) w.
Proof. intros Hw. eapply Forall_impl; [|exact Hw]. by intros c (_ & ? & _). Qed.

Lemma arg_bytes w : Forall arg_char w -> Forall is_byte w.
Proof. intros Hw. eapply Forall_impl; [|exact Hw]. by intros c [? _]. Qed.

(** The local copy of a word. *)
Definition word_buf (w : list Z) : ptr := Buf (w ++ replicate (128 - length w) 0) 0.

(** [execute] up to the test for [exit]. *)
Lemma execute_parse h command (m : machine) w e :
  is_null command = false -> reads m command (w ++ [e]) -> Forall word_char w ->
  e = 32 \/ e = 0 \/ e = 10 -> (length w < 128)%nat ->
  let m1 := m <| cpu ::= fun c => c <| IF := false |> |> in
  execute_body h command m =
  if decide (take 4 w = text "exit") then (h 0;; mret 0) m1
  else execute_program command (Z.of_nat (length w)) (word_buf w) (Buf (replicate 128 0) 0) m1.
Proof.
  intros Hnull Hr Hw He Hl m1. match goal with |- _ = ?r => set (rhs := r) end.
  unfold execute_body, cli. rewrite bind_run, modify_run. fold m1. cbv beta iota. rewrite Hnull. cbv zeta.
  pose proof (memset_buf m1 (replicate (Z.to_nat COMMAND_SIZE) 0) 0 128) as Hms.
  change (Z.of_nat 128) with COMMAND_SIZE in Hms.
  go Hms by (first [done|cbn; lia]). clear Hms.
  match goal with |- context [Buf (replicate 128 (u8 0) ++ ?l)] =>
    change (replicate 128 (u8 0) ++ l) with (replicate 128 0 : list Z) end.
  assert (reads m1 command ([] ++ w ++ [e])) as Hr1 by (by apply (reads_ext m)).
  pose proof (copy_while_ok (fun c => negb (c =? 32) && negb (c =? 0) && negb (c =? 10)) command [] w e
    (replicate 128 0) m1 Hr1 (word_bytes w Hw)) as Hcp. change (Z.of_nat (length [])) with 0 in Hcp.
  change (replicate (Z.to_nat COMMAND_SIZE) 0) with (replicate 128 0 : list Z).
  rewrite length_replicate, drop_replicate in Hcp. fold (word_buf w) in Hcp.
  go Hcp by (first [lia|destruct He as [-> | [-> | ->]]; reflexivity|
    eapply Forall_impl; [|exact Hw]; intros c (_ & H1 & H2 & H3); zb; reflexivity]).
  unfold word_buf at 1. cbn [wr]. rewrite length_app, length_replicate.
  replace ((0 + Z.of_nat (length w) <? 0) || (Z.of_nat (length w + (128 - length w)) <=? 0 + Z.of_nat (length w)))
    with false by (zb; done). mrun.
  assert (<[Z.to_nat (0 + Z.of_nat (length w)) := u8 0]> (w ++ replicate (128 - length w) 0) =
          w ++ replicate (128 - length w) 0) as ->.
  { replace (Z.to_nat (0 + Z.of_nat (length w))) with (length w + 0)%nat by lia. rewrite insert_app_r.
    destruct (128 - length w)%nat; done. }
  fold (word_buf w).
  assert (Forall (fun c => c <> 0) w) as Hnz by by apply word_no_null.
  assert (exists z l, w ++ replicate (128 - length w) 0 = w ++ z :: l /\ z = 0) as (z & zs & Hzs & ->).
  { destruct (128 - length w)%nat eqn:E; [lia|]. by eexists _, _. }
  destruct (strncmp_spec_total 4 (w ++ replicate (128 - length w) 0) (text "exit" ++ [0])) as [r Hs].
  { right. rewrite Hzs. apply elem_of_app. right. left. } { right. by apply (bool_decide_unpack _). }
  assert (r = 0 <-> take 4 w = text "exit") as Hr0.
  { rewrite (strncmp_spec_zero 4 (w ++ replicate (128 - length w) 0) (text "exit" ++ [0]) r); [| | |exact Hs].
    - rewrite Hzs. rewrite (cprefix_no_null 4 w) by done. done.
    - apply Forall_app. split; [by apply word_bytes|]. apply Forall_replicate. unfold is_byte. lia.
    - repeat constructor; done. }
  go (strncmp_ok m1 (word_buf w) (cstr (text "exit")) _ _ 4 r) by
    (first [apply reads_buf0|lia|exact Hs]).
  unfold rhs. destruct (decide (take 4 w = text "exit")) as [Hx|Hx].
  - by rewrite (proj2 (Z.eqb_eq r 0)) by tauto.
  - by rewrite (proj2 (Z.eqb_neq r 0)) by tauto.
Qed.

(** [execute("shell")] does not call [halt]. *)
Lemma execute_shell h1 h2 m : execute_body h1 shell m = execute_body h2 shell m.
Proof.
  assert (forall h, execute_body h shell m = execute_program shell 5 (word_buf (text "shell"))
    (Buf (replicate 128 0) 0) (m <| cpu ::= fun c => c <| IF := false |> |>)) as Hs.
  { intros h. rewrite (execute_parse h shell m (text "shell") 0).
    - rewrite decide_False by discriminate. reflexivity.
    - reflexivity.
    - apply reads_buf0.
    - repeat constructor; discriminate.
    - auto.
    - cbn. lia. }
  by rewrite !Hs.
Qed.

Lemma execute_n_S n command m :
  execute_n (S n) command m = execute_body (halt_body (execute_n n)) command m.
Proof. reflexivity. Qed.

Lemma execute_n_shell n n' m : execute_n (S n) shell m = execute_n (S n') shell m.
Proof. rewrite !execute_n_S. apply execute_shell. Qed.

Lemma execute_more n command m : execute_n (2 + n) command m = execute command m.
Proof.
  unfold execute. cbn [Nat.add]. rewrite (execute_n_S (S n)), (execute_n_S 1).
  rewrite (execute_body_ext (halt_body (execute_n (S n))) (halt_body (execute_n 1))); [reflexivity|].
  intros s m1. apply halt_body_ext. exact (execute_n_shell n 0).
Qed.

(** The equations of the source. *)
Lemma execute_unfold command m : execute command m = execute_body halt command m.
Proof. rewrite <- (execute_more 1). rewrite (execute_n_S 2). unfold halt, execute. reflexivity. Qed.

Lemma halt_unfold status m : halt status m = halt_body execute status m.
Proof. done. Qed.
End Command.

(** * Process identifiers *)

(** The lowest of the six identifiers whose flag is clear. *)
Definition free_pid (flags : Z) : option Z :=
  snd <$> list_find (fun i => Z.testbit flags i = false) (seqZ 0 6).

Lemma free_pid_Some flags n :
  free_pid flags = Some n <->
  0 <= n < 6 /\ Z.testbit flags n = false /\ forall j, 0 <= j < n -> Z.testbit flags j = true.
Proof.
  unfold free_pid. rewrite fmap_Some. split.
  - intros ([k x] & (Hx & Hb & Hlt)%list_find_Some & ->). cbn.
    apply lookup_seqZ in Hx as [-> Hk]. split; [lia|]. split; [done|]. intros j Hj.
    destruct (Z.testbit flags j) eqn:E; [done|]. exfalso. apply (Hlt (Z.to_nat j) j); [|lia|done].
    apply lookup_seqZ. lia.
  - intros (Hn & Hb & Hlt). exists (Z.to_nat n, n). split; [|done]. apply list_find_Some.
    split; [apply lookup_seqZ; lia|]. split; [done|]. intros j y Hy Hj.
    apply lookup_seqZ in Hy as [-> Hy]. rewrite Hlt; [done|lia].
Qed.

Lemma free_pid_None flags :
  free_pid flags = None <-> forall j, 0 <= j < 6 -> Z.testbit flags j = true.
Proof.
  unfold free_pid. rewrite fmap_None, list_find_None, Forall_lookup. split.
  - intros Hl j Hj. destruct (Z.testbit flags j) eqn:E; [done|]. exfalso.
    apply (Hl (Z.to_nat j) j); [apply lookup_seqZ; lia|done].
  - intros Hl i x Hx. apply lookup_seqZ in Hx as [-> Hx]. rewrite Hl; [done|lia].
Qed.

Lemma truth_bit f i : 0 <= i -> truth (Z.land f (Z.shiftl 1 i)) = Z.testbit f i.
Proof.
  intros Hi. unfold truth. rewrite Z.shiftl_1_l. destruct (Z.testbit f i) eqn:E.
  - apply negb_true_iff, Z.eqb_neq. intros Hz. assert (Z.testbit (Z.land f (2 ^ i)) i = false) as Hb
      by (rewrite Hz; apply Z.bits_0).
    rewrite Z.land_spec, E, Z.pow2_bits_true in Hb by done. done.
  - apply negb_false_iff, Z.eqb_eq. apply Z.bits_inj'. intros j Hj. rewrite Z.land_spec, Z.bits_0.
    destruct (decide (j = i)) as [->|]; [by rewrite E|].
    rewrite Z.pow2_bits_false by done. apply andb_false_r.
Qed.

Lemma byte_bits x : is_byte x <-> (0 <= x /\ forall j, 8 <= j -> Z.testbit x j = false).
Proof.
  unfold is_byte. split.
  - intros Hx. split; [lia|]. intros j Hj. apply Z.testbit_false; [lia|].
    rewrite Z.div_small; [done|]. pose proof (Z.pow_le_mono_r 2 8 j ltac:(lia) Hj). lia.
  - intros [Hx Hb]. split; [done|]. assert (x = Z.land x (Z.ones 8)) as ->.
    { apply Z.bits_inj'. intros j Hj. rewrite Z.land_spec. destruct (decide (j < 8)).
      - by rewrite Z.ones_spec_low, andb_true_r by lia.
      - rewrite Hb by lia. done. }
    rewrite Z.land_ones by lia. apply Z.mod_pos_bound. lia.
Qed.

Lemma setbit_byte f i : is_byte f -> 0 <= i < 8 -> is_byte (Z.lor f (Z.shiftl 1 i)).
Proof.
  rewrite !byte_bits, Z.shiftl_1_l. intros [Hf Hb] Hi. split.
  - apply Z.lor_nonneg. split; [done|]. pose proof (Z.pow_pos_nonneg 2 i ltac:(lia) ltac:(lia)). lia.
  - intros j Hj. rewrite Z.lor_spec, Hb by done. apply Z.pow2_bits_false. lia.
Qed.

Lemma clearbit_byte f i : is_byte f -> 0 <= i -> is_byte (Z.land f (Z.lnot (Z.shiftl 1 i))).
Proof.
  rewrite !byte_bits. intros [Hf Hb] Hi. split; [apply Z.land_nonneg; by left|].
  intros j Hj. by rewrite Z.land_spec, Hb.
Qed.

Lemma setbit_spec f i j : 0 <= i -> 0 <= j ->
  Z.testbit (Z.lor f (Z.shiftl 1 i)) j = (j =? i) || Z.testbit f j.
Proof.
  intros Hi Hj. rewrite Z.lor_spec, Z.shiftl_1_l. destruct (Z.eqb_spec j i) as [->|].
  - rewrite Z.pow2_bits_true by done. apply orb_true_r.
  - rewrite Z.pow2_bits_false by done. apply orb_false_r.
Qed.

Lemma clearbit_spec f i j : 0 <= i -> 0 <= j ->
  Z.testbit (Z.land f (Z.lnot (Z.shiftl 1 i))) j = negb (j =? i) && Z.testbit f j.
Proof.
  intros Hi Hj. rewrite Z.land_spec, Z.lnot_spec, Z.shiftl_1_l by done. destruct (Z.eqb_spec j i) as [->|].
  - rewrite Z.pow2_bits_true by done. apply andb_false_r.
  - rewrite Z.pow2_bits_false by done. by rewrite andb_true_r.
Qed.

Section Pids.
Context `{Platform}.

Lemma get_new_pid_ok m :
  is_byte (processes_flags m) ->
  get_new_pid m =
  match free_pid (processes_flags m) with
  | Some n => (Ok n, m <| processes_flags := Z.lor (processes_flags m) (Z.shiftl 1 n) |>)
  | None => (Ok (-1), m)
  end.
Proof.
  intros Hb. unfold get_new_pid.
  set (res := match free_pid (processes_flags m) with
    | Some n => (n, m <| processes_flags := Z.lor (processes_flags m) (Z.shiftl 1 n) |>)
    | None => (-1, m) end).
  while_by (fun i t => t = m /\ 0 <= i <= 6 /\ forall j, 0 <= j < i -> Z.testbit (processes_flags m) j = true)
    (fun r t => (r, t) = res) (fun i => Z.to_nat (6 - i)) as (r & t & E & Hres).
  - split; [done|]. split; [lia|]. intros; lia.
  - intros i t (-> & Hi & Hlt). unfold MAX_PROCESSES. destruct (Z.ltb_spec i 6) as [Hl|Hge].
    + mrun. rewrite truth_bit by lia. destruct (Z.testbit (processes_flags m) i) eqn:Et.
      * right. eexists _, m. split; [done|]. split; [|lia]. split; [done|]. split; [lia|].
        intros j Hj. destruct (decide (j = i)) as [->|]; [done|]. apply Hlt. lia.
      * left. eexists _, _. split; [done|]. unfold res. rewrite (proj2 (free_pid_Some (processes_flags m) i)) by fin.
        f_equal. rewrite <- (u8_small (Z.lor _ _)) by (by apply setbit_byte; [|lia]). by destruct m.
    + left. eexists _, m. split; [done|]. unfold res.
      rewrite (proj2 (free_pid_None (processes_flags m))); [done|]. intros j Hj. apply Hlt. lia.
  - lia.
  - rewrite E. unfold res in Hres. destruct (free_pid _); injection Hres as -> ->; done.
Qed.

(** ** Terminals *)

Lemma terminal_at_run m i t :
  0 <= i -> terminal m !! Z.to_nat i = Some t -> terminal_at i m = (Ok t, m).
Proof. intros Hi Ht. unfold terminal_at. zb. mrun. by rewrite Ht. Qed.

Lemma terminal_upd_run m i t f :
  0 <= i -> terminal m !! Z.to_nat i = Some t ->
  terminal_upd i f m = (Ok tt, m <| terminal := <[Z.to_nat i := f t]> (terminal m) |>).
Proof.
  intros Hi Ht. unfold terminal_upd. go (terminal_at_run m i t) by done. rewrite modify_run. f_equal.
  assert (alter f (Z.to_nat i) (terminal m) = <[Z.to_nat i := f t]> (terminal m)) as E.
  { apply list_eq. intros j. destruct (decide (j = Z.to_nat i)) as [->|Hj].
    - rewrite list_lookup_alter_eq, list_lookup_insert_eq, Ht; [done|by eapply lookup_lt_Some].
    - by rewrite list_lookup_alter_ne, list_lookup_insert_ne by done. }
  rewrite <- E. by destruct m.
Qed.

(** The processes of the three terminals. *)
Definition process_count (l : list terminal_t) : Z := foldr (fun t s => num_processes t + s) 0 l.

Lemma can_execute_ok m :
  length (terminal m) = 3%nat -> Forall (fun t => 0 <= num_processes t < 1000) (terminal m) ->
  can_execute m = (Ok (if process_count (terminal m) <? MAX_PROCESSES then 1 else 0), m).
Proof.
  intros Hl Hn. unfold can_execute. destruct (terminal m) as [|t0 [|t1 [|t2 [|]]]] eqn:Et; try done.
  inversion Hn as [|? ? H0 Hn1]; subst. inversion Hn1 as [|? ? H1 Hn2]; subst. inversion Hn2 as [|? ? H2 _]; subst.
  rewrite (bind_ok _ _ m (process_count (terminal m)) m); [by rewrite Et|].
  apply (while_ok 4); [lia|]. cbn [iter].
  rewrite (bind_ok _ _ m (inl (1, num_processes t0)) m).
  2:{ zb. go (terminal_at_run m 0 t0) by (first [lia|by rewrite Et]). rewrite ret_run. csmall. by rewrite ?Z.add_0_l. }
  rewrite (bind_ok _ _ m (inl (2, num_processes t0 + num_processes t1)) m).
  2:{ zb. go (terminal_at_run m 1 t1) by (first [lia|by rewrite Et]). rewrite ret_run. csmall. by rewrite ?Z.add_0_l. }
  rewrite (bind_ok _ _ m (inl (3, num_processes t0 + num_processes t1 + num_processes t2)) m).
  2:{ zb. go (terminal_at_run m 2 t2) by (first [lia|by rewrite Et]). rewrite ret_run. csmall. by rewrite ?Z.add_0_l. }
  rewrite bind_run. change (3 <? 3) with false. cbv beta iota. rewrite ret_run. cbv beta iota. rewrite ret_run, Et. cbn. do 3 f_equal. lia.
Qed.
End Pids.

(** * The block of a new process *)

Section Block.
Context `{Platform}.

(** [m] with the block at [a] set to [p]. *)
Definition put_pcb (m : machine) (a : Z) (p : pcb_t) : machine := m <| pcbs := <[a := p]> (pcbs m) |>.

Lemma put_put_pcb m a p q : put_pcb (put_pcb m a p) a q = put_pcb m a q.
Proof. unfold put_pcb. msimp. rewrite insert_insert_eq. by destruct m. Qed.

Lemma pcb_of_put m a p : pcb_of (put_pcb m a p) a = p.
Proof. unfold pcb_of, put_pcb. msimp. by rewrite lookup_insert_eq. Qed.

Lemma pcb_of_put_ne m a b p : a <> b -> pcb_of (put_pcb m a p) b = pcb_of m b.
Proof. intros Hab. unfold pcb_of, put_pcb. msimp. by rewrite lookup_insert_ne. Qed.

Lemma pcb_write_first m a f :
  is_Some (loc m a) -> pcb_write a f m = (Ok tt, put_pcb m a (f (pcb_of m a))).
Proof. apply pcb_write_run. Qed.

Lemma pcb_write_put m a p f :
  is_Some (loc m a) -> pcb_write a f (put_pcb m a p) = (Ok tt, put_pcb m a (f p)).
Proof. intros Hl. rewrite pcb_write_first by done. by rewrite pcb_of_put, put_put_pcb. Qed.

Lemma pcb_read_put m a p : is_Some (loc m a) -> pcb_read a (put_pcb m a p) = (Ok p, put_pcb m a p).
Proof. intros Hl. rewrite pcb_read_run by done. by rewrite pcb_of_put. Qed.

Lemma file_write_put m a p i g :
  is_Some (loc m a) -> 0 <= i < Z.of_nat (length (files p)) ->
  file_write_at a i g (put_pcb m a p) = (Ok tt, put_pcb m a (p <| files ::= alter g (Z.to_nat i) |>)).
Proof.
  intros Hl Hi. unfold file_write_at, file_read_at. go pcb_read_put by done. zb.
  destruct (lookup_lt_is_Some_2 (files p) (Z.to_nat i)) as [f Hf]; [lia|]. rewrite Hf. mrun.
  by rewrite pcb_write_put.
Qed.

Lemma set_files_alter2 p i g h :
  p <| files ::= alter g i |> <| files ::= alter h i |> = p <| files ::= alter (h ∘ g) i |>.
Proof. destruct p. cbn. f_equal. apply list_alter_alter_eq. Qed.

Lemma length_files_alter p i g : length (files (p <| files ::= alter g i |>)) = length (files p).
Proof. msimp. apply length_alter. Qed.

(** The block [create_pcb] leaves, over the [old] contents. *)
Definition new_pcb (old : pcb_t) (n parent : Z) : pcb_t :=
  old <| files := [File (default 0 (inode <$> files old !! 0%nat)) FILE_OPEN 0 stdin_ops;
                   File (default 0 (inode <$> files old !! 1%nat)) FILE_OPEN 0 stdout_ops] ++
                  replicate 6 (File 0 0 0 fail_ops) |>
      <| pid := n |> <| args := replicate 128 0 |> <| parent_pid := parent |>.

(** The arrays of a block have their C length. *)
Definition pcb_ok (p : pcb_t) : Prop := length (files p) = 8%nat /\ length (args p) = 128%nat.

(** The parent [create_pcb] records: the process that runs in the current
    terminal, or the new process itself in a terminal without one. *)
Definition parent_of (t : terminal_t) (n : Z) : Z := if num_processes t =? 0 then n else term_pid t.

Lemma create_pcb_ok m n t :
  is_byte (processes_flags m) -> free_pid (processes_flags m) = Some n ->
  1 <= term_cur m -> terminal m !! Z.to_nat (term_cur m - 1) = Some t ->
  is_Some (loc m (get_pcb n)) -> pcb_ok (pcb_of m (get_pcb n)) ->
  create_pcb m = (Ok (get_pcb n),
    put_pcb (m <| processes_flags := Z.lor (processes_flags m) (Z.shiftl 1 n) |>) (get_pcb n)
      (new_pcb (pcb_of m (get_pcb n)) n (parent_of t n))).
Proof.
  intros Hb Hn Hc Ht Hl [Hf Ha]. pose proof (proj1 (free_pid_Some _ _) Hn) as [Hn6 _]. unfold create_pcb.
  pose proof (get_new_pid_ok m Hb) as Eg. rewrite Hn in Eg. go Eg. zb. csmall. cbv zeta.
  set (m1 := m <| processes_flags := _ |>). set (a := get_pcb n) in *.
  assert (is_Some (loc m1 a)) as Hl1 by done.
  go pcb_write_first by done. change (pcb_of m1 a) with (pcb_of m a).
  set (p0 := pcb_of m a) in *.
  mrun. change (term_cur (put_pcb m1 a _)) with (term_cur m).
  go (fun p => terminal_at_run (put_pcb m1 a p) (term_cur m - 1) t) by (done || lia).
  assert (forall p, (if num_processes t =? 0 then pcb_write a (fun p => p <| parent_pid := n |>)
     else c ← gets term_cur; t ← terminal_at (c - 1);
          pcb_write a (fun p => p <| parent_pid := term_pid t |>)) (put_pcb m1 a p) =
     (Ok tt, put_pcb m1 a (p <| parent_pid := parent_of t n |>))) as Hpar.
  { intros p. unfold parent_of. destruct (num_processes t =? 0); [by rewrite pcb_write_put|].
    mrun. change (term_cur (put_pcb m1 a _)) with (term_cur m).
    go (terminal_at_run (put_pcb m1 a p) (term_cur m - 1) t) by (done || lia). by rewrite pcb_write_put. }
  go Hpar.
  set (p1 := p0 <| pid := n |> <| parent_pid := parent_of t n |>).
  assert (length (files p1) = 8%nat) as H1 by done.
  assert (forall p i g1 g2 g3 B (k : K B), length (files p) = 8%nat -> 0 <= i < 8 ->
    (file_write_at a i g1;; file_write_at a i g2;; file_write_at a i g3;; k) (put_pcb m1 a p) =
    k (put_pcb m1 a (p <| files ::= alter (g3 ∘ g2 ∘ g1) (Z.to_nat i) |>))) as Hslot.
  { intros p i g1 g2 g3 B k Hp Hi. do 3 (go file_write_put by (first [done|rewrite ?length_files_alter; lia])).
    by rewrite !set_files_alter2. }
  rewrite (Hslot p1 0) by (done || lia). set (p2 := p1 <| files ::= _ |>).
  assert (length (files p2) = 8%nat) as H2 by (unfold p2; by rewrite length_files_alter).
  rewrite (Hslot p2 1) by (done || lia). set (p3 := p2 <| files ::= _ |>).
  assert (length (files p3) = 8%nat) as H3 by (unfold p3; by rewrite length_files_alter).
  rewrite bind_run, for_range_n by (unfold MAX_FILES; lia).
  destruct (for_n_ok (fun i s => exists p, s = put_pcb m1 a p /\ length (files p) = 8%nat /\
      p = p3 <| files := take 2 (files p3) ++ replicate (Z.to_nat (i - 2)) (File 0 0 0 fail_ops) ++
                         drop (Z.to_nat i) (files p3) |>)
    (Z.to_nat (MAX_FILES - 2)) 2 (fun i => file_write_at a i (fun f => f <| fileops := fail_ops |>);;
      file_write_at a i (fun f => f <| flags := 0 |>);;
      file_write_at a i (fun f => f <| inode := 0 |>);;
      file_write_at a i (fun f => f <| pos := 0 |>)) (put_pcb m1 a p3)) as (m2 & E2 & p4 & -> & Hl4 & Hp4).
  - exists p3. split; [done|]. split; [done|]. change (replicate (Z.to_nat (2 - 2)) (File 0 0 0 fail_ops)) with ([] : list file_t).
    change (Z.to_nat 2) with 2%nat. rewrite app_nil_l, take_drop. by destruct p3.
  - intros i s Hi (p & -> & Hp & Ep). unfold MAX_FILES in Hi.
    rewrite Hslot by (done || lia). go file_write_put by (first [done|rewrite ?length_files_alter; lia]).
    rewrite set_files_alter2. eexists. split; [done|]. eexists. split; [done|].
    rewrite length_files_alter. split; [done|]. rewrite Ep.
    destruct p3 as [fl ? ? ? ? ? ? ?]. cbn -[drop take]. f_equal. cbn in H3.
    rewrite alter_app_r_alt by (rewrite length_take; lia).
    rewrite alter_app_r_alt by (rewrite length_replicate, length_take; lia). f_equal.
    rewrite length_take, length_replicate.
    replace (Z.to_nat i - 2 `min` length fl - Z.to_nat (i - 2))%nat with 0%nat by lia.
    destruct (lookup_lt_is_Some_2 fl (Z.to_nat i)) as [f Hfi]; [lia|]. rewrite (drop_S _ _ _ Hfi).
    replace (Z.to_nat (i + 1)) with (S (Z.to_nat i)) by lia.
    replace (Z.to_nat (i + 1 - 2)) with (S (Z.to_nat (i - 2))) by lia. rewrite replicate_S_end, <- app_assoc.
    cbn. destruct f. done.
  - rewrite E2. go pcb_read_put by done. assert (args p4 = args p0) as Hargs by (rewrite Hp4; done).
    pose proof (memset_buf (put_pcb m1 a p4) (args p0) 0 128 ltac:(lia) ltac:(lia)) as Em.
    change (Z.of_nat 128) with MAX_ARGS_LENGTH in Em. rewrite Hargs. go Em.
    rewrite drop_ge, app_nil_r by lia. change (replicate 128 (u8 0)) with (replicate 128 0 : list Z).
    go pcb_write_put by done. rewrite ret_run. do 2 f_equal. cbn [contents].
    change (2 + Z.of_nat (Z.to_nat (MAX_FILES - 2))) with 8 in Hp4. rewrite Hp4.
    destruct p0 as [fl ? ? ? ? ? ? ?]. cbn in Hf.
    do 8 (destruct fl as [|[] fl]; [done|]). destruct fl; [|done].
    unfold p3, p2, p1, new_pcb. reflexivity.
Qed.
End Block.

(** * Entering a program *)

Section Start.
Context `{PlatformOk}.

(** The physical window of process [n]. *)
Definition window (n : Z) : Z := PHYSICAL_START + n * FOUR_MB_BLOCK.

(** The tables with the window of process [n] at [VIRTUAL_START]. *)
Definition window_tables (m : machine) (n : Z) : tables :=
  put_dir 32 (Z.lor (window n) RW_FLAGS) (tabs (pg m)).

Lemma remap_process_run m n :
  0 <= n < 256 -> remap_process n m = (Ok tt, with_tables m (window_tables m n)).
Proof.
  intros Hn. unfold remap_process, VIRTUAL_START. rewrite remap_run. unfold window_tables, window.
  unfold PHYSICAL_START, FOUR_MB_BLOCK. csmall. done.
Qed.

Lemma window_walk m n a :
  paging_ok m -> 0 <= n < 256 -> 0 <= a < 4294967296 ->
  walk (window_tables m n) a =
  if dir_index a =? 32 then Some (window n + big_offset a, true) else walk (tabs (pg m)) a.
Proof.
  intros Hok Hn Ha. destruct Hok as [Ht _]. unfold window_tables.
  pose proof (walk_remap VIRTUAL_START (window n) (tabs (pg m)) a Ht) as Hw.
  change (u32 VIRTUAL_START / FOUR_MB) with 32 in Hw. change (dir_index VIRTUAL_START) with 32 in Hw.
  assert (0 <= window n < 4294967296) as Hr by (unfold window, PHYSICAL_START, FOUR_MB_BLOCK; lia).
  rewrite (u32_small (window n)) in Hw by done. apply Hw; [done|done| |done].
  unfold window, PHYSICAL_START, FOUR_MB_BLOCK, FOUR_MB. replace (0x800000 + n * 0x400000) with ((2 + n) * 4194304) by lia.
  apply Z_mod_mult.
Qed.

(** After the remap, the kernel's addresses are translated as before. *)
Lemma window_loc m n a :
  paging_ok m -> 0 <= n < 256 -> 0 <= a < 4294967296 ->
  loc (with_tables m (window_tables m n)) a =
  if dir_index a =? 32 then Some (window n + big_offset a) else loc m a.
Proof.
  intros Hok Hn Ha. cbn [loc machine_memory]. rewrite translate_with_tables, window_walk by done.
  destruct (dir_index a =? 32); [done|]. by rewrite translate_ok.
Qed.

Lemma dir_index_window a : (dir_index a =? 32) = (VIRTUAL_START <=? a) && (a <? VIRTUAL_END).
Proof.
  unfold dir_index, FOUR_MB, VIRTUAL_START, VIRTUAL_END. apply eq_bool_prop_intro.
  rewrite andb_True, !Is_true_true, Z.eqb_eq, Z.leb_le, Z.ltb_lt. split.
  - intros Hq. pose proof (Z.div_mod a 4194304 ltac:(lia)) as Hd.
    pose proof (Z.mod_pos_bound a 4194304 ltac:(lia)). lia.
  - intros Ha. symmetry. apply Z.div_unique with (a - 32 * 4194304); lia.
Qed.

Lemma window_maps m n off len :
  paging_ok m -> 0 <= n < 256 -> 0 <= off -> off + len <= FOUR_MB_BLOCK ->
  maps (with_tables m (window_tables m n)) (VIRTUAL_START + off) (window n + off) len.
Proof.
  intros Hok Hn Hoff Hlen i Hi. unfold FOUR_MB_BLOCK in Hlen. unfold VIRTUAL_START.
  rewrite u32_small, window_loc by (done || lia).
  rewrite dir_index_window. unfold VIRTUAL_START, VIRTUAL_END. zb. f_equal. unfold big_offset, FOUR_MB.
  replace (0x8000000 + off + i) with (off + i + 32 * 4194304) by lia. rewrite Z_mod_plus_full, Z.mod_small; lia.
Qed.

(** What [execute] does to the state once the block [p] of process [n] exists,
    for the program with contents [c]. *)
Definition started (m : machine) (n : Z) (t : terminal_t) (p : pcb_t) (c words : list Z) : machine :=
  let a := get_pcb n in
  let p' := p <| parent_ebp := frame_ebp (cpu m) |> <| parent_esp := frame_esp (cpu m) |>
              <| args := strncpy_spec 128 (words ++ [0]) |> in
  m <| cpu ::= fun c => c <| IF := true |> |>
    <| terminal := <[Z.to_nat (term_cur m - 1) :=
         t <| num_processes := num_processes t + 1 |> <| term_pid := n |>]> (terminal m) |>
    <| pcbs := <[a := p']> (pcbs m) |>
    <| pg := pg (with_tables m (window_tables m n)) |>
    <| phys := phys (upds m (window n + 0x48000) c) |>
    <| tss := (tss m) <| ss0 := KERNEL_DS |>
                    <| esp0 := PHYSICAL_START - n * EIGHT_KB_BLOCK - MAGIC_SIZE |> |>.

(** The image stays where it is when the window is switched: it does not lie in
    it, neither virtually nor physically. *)
Record image_apart (m : machine) (pb size n : Z) : Prop := {
  ia_virtual : boot_block (fs m) + size <= VIRTUAL_START \/ VIRTUAL_END <= boot_block (fs m);
  ia_physical : pb + size <= window n \/ window n + FOUR_MB_BLOCK <= pb
}.

Lemma represents_window pb size img m n :
  paging_ok m -> 0 <= n < 256 -> image_apart m pb size n ->
  represents pb size img m -> represents pb size img (with_tables m (window_tables m n)).
Proof.
  intros Hok Hn [Hv _] Hr. apply (represents_frame pb size img m); [|done|done|exact Hr].
  intros i Hi. destruct (rep_addr _ _ _ _ Hr) as [Hb0 Hb1]. rewrite u32_small, window_loc by (done || lia).
  rewrite dir_index_window. replace ((VIRTUAL_START <=? boot_block (fs m) + i) && (boot_block (fs m) + i <? VIRTUAL_END))
    with false; [|symmetry; apply andb_false_iff; rewrite Z.leb_gt, Z.ltb_ge; lia].
  rewrite <- (u32_small (boot_block (fs m) + i)) by lia. by apply (rep_maps _ _ _ _ Hr).
Qed.

Lemma phys_upds (m m' : machine) pa l : phys m = phys m' -> phys (upds m pa l) = phys (upds m' pa l).
Proof.
  revert m m' pa. induction l as [|v l IH]; intros m m' pa Hm; [done|].
  change (phys (upds (upd m pa (u8 v)) (pa + 1) l) = phys (upds (upd m' pa (u8 v)) (pa + 1) l)).
  apply IH. cbn. by rewrite Hm.
Qed.

(** [strncpy] of a word into the arguments of a block. *)
Lemma copy_args (m : machine) l words :
  Forall (fun c => c <> 0) words -> Forall is_byte words -> (length words < 128)%nat -> length l = 128%nat ->
  strncpy (Buf l 0) (word_buf words) MAX_ARGS_LENGTH m =
  (Ok (Buf (strncpy_spec 128 (words ++ [0])) 0), m).
Proof.
  intros Hnz Hb Hl H128. set (src := words ++ replicate (128 - length words) 0).
  assert (exists k, (128 - length words)%nat = S k) as [k Hk] by (exists (127 - length words)%nat; lia).
  assert (strncpy_spec 128 src = strncpy_spec 128 (words ++ [0])) as Hs.
  { unfold strncpy_spec, src. rewrite Hk. cbn [replicate]. by rewrite !cprefix_no_null. }
  assert (Z.to_nat MAX_ARGS_LENGTH = 128%nat) as H128' by reflexivity.
  destruct (strncpy_ok (into_buf m l (strncpy_spec 128 src)) (Buf l 0) (word_buf words) src
    MAX_ARGS_LENGTH m) as (d' & t' & E & HP).
  - rewrite H128'. apply advances_buf; [|rewrite length_strncpy_spec; lia].
    apply strncpy_spec_bytes, Forall_app. split; [done|]. apply Forall_replicate. unfold is_byte. lia.
  - done.
  - unfold MAX_ARGS_LENGTH. lia.
  - rewrite H128'. unfold src. rewrite Hk. cbn [replicate]. rewrite cprefix_no_null by done.
    rewrite length_take, length_app, length_cons. lia.
  - intros i d0 t0 [_ ->] Hi. unfold word_buf. fold src. apply reads_buf0.
    rewrite H128' in Hi. unfold src in Hi at 1. rewrite Hk in Hi. cbn [replicate] in Hi.
    rewrite cprefix_no_null, length_take in Hi by done. unfold src. rewrite length_app, length_replicate. lia.
  - rewrite E. apply into_buf_end in HP as [-> ->]; [|by rewrite length_strncpy_spec].
    rewrite length_strncpy_spec, drop_ge, app_nil_r, Hs by lia. done.
Qed.

Lemma execute_start_ok pb size img m n t p k c words dentry com_start :
  paging_ok m -> 0 <= n < 6 -> image_apart m pb size n -> represents pb size img m ->
  is_Some (loc m (get_pcb n)) -> pcb_of m (get_pcb n) = p -> pid p = n -> length (args p) = 128%nat ->
  1 <= term_cur m -> terminal m !! Z.to_nat (term_cur m - 1) = Some t -> 0 <= num_processes t < 1000 ->
  inode_num dentry = Z.of_nat k -> im_files img !! k = Some c ->
  Z.of_nat (length c) <= FOUR_MB_BLOCK - 0x48000 ->
  Forall arg_char words -> (length words < 128)%nat ->
  execute_start dentry com_start (get_pcb n) (word_buf words) m =
  (Stop (EnterUser com_start USER_STACK), started m n t p c words).
Proof.
  intros Hok Hn Hap Hr Hl Hp Hpid Ha Hc Ht Hnp Hk Hf Hlen Hw Hwl. unfold execute_start.
  set (a := get_pcb n) in *. mrun. go (terminal_upd_run m (term_cur m - 1) t) by (done || lia).
  mrun. msimp. set (t1 := t <| num_processes ::= fun n => i32 (n + 1) |>).
  match goal with |- context [pcb_read a ?mm] => set (m1 := mm) end.
  go (pcb_read_run m1 a) by done. change (pcb_of m1 a) with (pcb_of m a). rewrite Hp, Hpid.
  change (term_cur m1) with (term_cur m).
  assert (terminal m1 !! Z.to_nat (term_cur m - 1) = Some t1) as Ht1.
  { unfold m1. msimp. apply list_lookup_insert_eq. by eapply lookup_lt_Some. }
  go (terminal_upd_run m1 (term_cur m - 1) t1) by (done || lia). mrun. msimp.
  match goal with |- context [pcb_write a _ ?mm] => set (m2 := mm) end.
  go (pcb_write_first m2 a) by done. change (pcb_of m2 a) with (pcb_of m a). rewrite Hp.
  match goal with |- context [put_pcb m2 a ?q] => set (p1 := q) end.
  go (pcb_read_put m2 a p1) by done. change (pid p1) with (pid p). rewrite Hpid.
  go remap_process_run by lia. set (m3 := put_pcb m2 a p1).
  assert (paging_ok m3) as Hok3 by done.
  assert (represents pb size img m3) as Hr3 by (by apply (represents_ext pb size img m)).
  assert (image_apart m3 pb size n) as Hap3 by (by destruct Hap; split).
  pose proof (represents_window pb size img m3 n Hok3 ltac:(lia) Hap3 Hr3) as Hr4.
  set (m4 := with_tables m3 (window_tables m3 n)) in *.
  assert (maps m4 EXECUTE_START (window n + 0x48000) (Z.of_nat (length c))) as Hmap.
  { change EXECUTE_START with (VIRTUAL_START + 0x48000). apply window_maps; [done|lia|lia|lia]. }
  assert (file_slice c 0 FOUR_MB_BLOCK = c) as Hfs.
  { unfold file_slice. change (Z.to_nat 0) with 0%nat. rewrite drop_0. apply firstn_all2. lia. }
  rewrite Hk.
  destruct (read_data_ok (into_raw m4 EXECUTE_START (window n + 0x48000) c) pb size img m4 k c 0 FOUR_MB_BLOCK
    (Raw EXECUTE_START)) as (d' & m5 & E5 & HP5); try done.
  { split; [done|]. lia. }
  { rewrite Hfs. by apply advances_raw. }
  { intros i d' t' [_ ->]. split; [|by rewrite upds_phys]. apply represents_upds; [done|].
    rewrite length_take. destruct Hap as [_ Hap]. lia. }
  rewrite Hfs in E5, HP5. apply into_raw_end in HP5 as [-> ->]; [|done]. go E5.
  set (m5 := upds m4 (window n + 0x48000) c).
  assert (m5 = m4 <| phys := phys m5 |>) as Hm5 by apply upds_phys.
  mrun. match goal with |- context [pcb_read a ?mm] => set (m6 := mm) end.
  assert (forall m', pg m' = pg m4 -> is_Some (loc m' a)) as Hla.
  { intros m' Hpg. destruct (get_pcb_range n) as [_ Hrange]; [unfold MAX_PROCESSES; lia|]. fold a in Hrange.
    cbn [loc machine_memory]. rewrite Hpg. change (translate (pg m4) a) with (loc m4 a). unfold m4.
    rewrite window_loc by (done || lia). rewrite dir_index_window. unfold VIRTUAL_START, VIRTUAL_END. by zb. }
  assert (pg m5 = pg m4 /\ pcb_of m5 a = p1) as [Hpg5 Hpcb5].
  { rewrite Hm5. split; [done|]. apply (pcb_of_put m2 a p1). }
  go (pcb_read_run m6 a) by (by apply Hla). change (pcb_of m6 a) with (pcb_of m5 a). rewrite Hpcb5.
  change (pid p1) with (pid p). rewrite Hpid. mrun.
  match goal with |- context [pcb_read a ?mm] => set (m7 := mm) end.
  go (pcb_read_run m7 a) by (by apply Hla). change (pcb_of m7 a) with (pcb_of m5 a). rewrite Hpcb5.
  change (args p1) with (args p). go (copy_args m7 (args p) words) by
    (first [done|by apply arg_no_null|by apply arg_bytes|lia]).
  go (pcb_write_first m7 a) by (by apply Hla). change (pcb_of m7 a) with (pcb_of m5 a). rewrite Hpcb5. mrun.
  f_equal. unfold started. cbn [contents].
  assert (phys m5 = phys (upds m (window n + 0x48000) c)) as Hph by (by apply phys_upds).
  rewrite <- Hph. unfold put_pcb, m7, m6. rewrite Hm5. unfold m4, m3, put_pcb, with_tables, m2, m1, t1, p1.
  clear - Hn Ht Hnp. msimp.
  rewrite list_insert_insert_eq, insert_insert_eq.
  rewrite (u32_small (PHYSICAL_START - _ - _)) by (unfold PHYSICAL_START, EIGHT_KB_BLOCK, MAGIC_SIZE; lia).
  assert (t <| num_processes ::= fun n => i32 (n + 1) |> = t <| num_processes := num_processes t + 1 |>) as ->.
  { unfold set_field. by rewrite i32_small by lia. }
  generalize (phys m5). intros ph. by destruct m.
Qed.
End Start.
