(* ===== verification/Launch.v ===== *)
(** [execute], from the command to the program: what a command line asks for,
    which programs start, what they find, and what is refused. *)

From S2P Require Import Prelude Memory CLib Machine I8259 Rtc Pcb Rofs Paging Screen Keyboard TermIO Files Process.

(** * Commands and programs *)

Section Command.
Context `{Platform}.

(** The command line at [p]: the word [w], and what follows a space up to the
    end of the line. *)
Record command_line (m : machine) (p : ptr) (w words : list Z) : Prop := {
  cl_null : is_null p = false;
  cl_word : Forall word_char w;
  cl_length : (length w < 128)%nat;
  cl_words : Forall arg_char words;
  cl_words_length : (length words < 128)%nat;
  cl_reads : exists e, (e = 0 \/ e = 10) /\
    (words = [] /\ reads m p (w ++ [e]) \/ reads m p (w ++ [32] ++ words ++ [e]))
}.

(** ["exit"], and any word that starts with it. *)
Definition is_exit (w : list Z) : Prop := take 4 w = text "exit".

Definition magic : list Z := [MAGIC0; MAGIC1; MAGIC2; MAGIC3].

(** The four bytes at offset 24 of the file; a shorter file leaves bytes of the
    magic number in the buffer. *)
Definition entry_point (c : list Z) : Z :=
  let s := file_slice c 24 4 in word_at (s ++ drop (length s) magic) 0.

(** What [read_data] leaves in a four-byte buffer. *)
Lemma read_magic pb size img (m : machine) k c off b :
  represents pb size img m -> im_files img !! k = Some c -> length b = 4%nat -> 0 <= off < 1000 ->
  Forall is_byte c ->
  exists r, read_data (Z.of_nat k) off (Buf b 0) MAGIC_SIZE m =
    (Ok (r, Buf (file_slice c off 4 ++ drop (length (file_slice c off 4)) b) 0), m).
Proof.
  intros Hr Hf Hb Hoff Hby. destruct (Z.ltb_spec (Z.of_nat (length c)) off) as [Hlt|Hge].
  - exists (-1). assert (file_slice c off 4 = []) as ->.
    { unfold file_slice. rewrite drop_ge by lia. done. }
    unfold read_data. go (num_inodes_ok pb size img) by done. pose proof (lookup_lt_Some _ _ _ Hf). zb. mrun.
    go (load_inode_length pb size img m k c) by done. by zb.
  - pose proof (file_slice_length c off 4 ltac:(lia) ltac:(lia)) as Hsl.
    destruct (read_data_ok (into_buf m b (file_slice c off 4)) pb size img m k c off 4 (Buf b 0))
      as (d' & t' & E & HP); try done.
    + split; lia.
    + lia.
    + apply advances_buf; [|lia]. unfold file_slice. by apply Forall_take, Forall_drop.
    + by intros i d t [_ ->].
    + apply into_buf_end in HP as [-> ->]; [|done]. by eexists.
Qed.

Lemma magic_test l :
  length l = 4%nat ->
  (negb (byte_at l 0 =? MAGIC0) || negb (byte_at l 1 =? MAGIC1) || negb (byte_at l 2 =? MAGIC2) ||
   negb (byte_at l 3 =? MAGIC3)) = negb (bool_decide (l = magic)).
Proof.
  intros Hl. destruct l as [|a [|b [|c [|d []]]]]; try done.
  change (byte_at [a; b; c; d] 0) with a. change (byte_at [a; b; c; d] 1) with b.
  change (byte_at [a; b; c; d] 2) with c. change (byte_at [a; b; c; d] 3) with d.
  destruct (Z.eqb_spec a MAGIC0) as [->|]; [|rewrite bool_decide_false; [done|unfold magic; congruence]].
  destruct (Z.eqb_spec b MAGIC1) as [->|]; [|rewrite bool_decide_false; [done|unfold magic; congruence]].
  destruct (Z.eqb_spec c MAGIC2) as [->|]; [|rewrite bool_decide_false; [done|unfold magic; congruence]].
  destruct (Z.eqb_spec d MAGIC3) as [->|]; [|rewrite bool_decide_false; [done|unfold magic; congruence]].
  by rewrite bool_decide_true.
Qed.

(** The buffer the magic number is read into. *)
Lemma magic_read c :
  file_slice c 0 4 ++ drop (length (file_slice c 0 4)) (replicate 4 0) = magic <-> take 4 c = magic.
Proof.
  unfold file_slice. change (Z.to_nat 4) with 4%nat. change (Z.to_nat 0) with 0%nat. rewrite drop_0.
  destruct (decide (4 <= length c)%nat) as [Hl|Hl].
  - rewrite drop_ge, app_nil_r; [done|]. rewrite length_replicate, length_take. lia.
  - assert (length (take 4 c) < 4)%nat as Hs by (rewrite length_take; lia). split.
    + intros Hm. exfalso. unfold magic, MAGIC0, MAGIC1, MAGIC2, MAGIC3 in Hm. destruct (take 4 c) as [|? [|? [|? [|? ?]]]]; cbn in Hs; first [discriminate Hm|lia].
    + intros Hm. rewrite Hm in Hs. cbn in Hs. lia.
Qed.
End Command.

(** * The stages of [execute] *)

Section Stages.
Context `{PlatformOk}.

Lemma image_bytes pb size img m k c :
  represents pb size img m -> im_files img !! k = Some c -> Forall is_byte c.
Proof.
  intros Hr Hf. apply Forall_lookup_2. intros i b Hb.
  destruct (rep_data _ _ _ _ Hr k c i b Hf Hb) as [_ <-]. apply cell_range.
Qed.

(** A process can be started: the identifier [n] is the lowest free one, [t] is
    the current terminal, and the block and the terminals are in order. *)
Record can_start (m : machine) (n : Z) (t : terminal_t) : Prop := {
  cs_flags : is_byte (processes_flags m);
  cs_pid : free_pid (processes_flags m) = Some n;
  cs_terminals : length (terminal m) = 3%nat;
  cs_counts : Forall (fun t => 0 <= num_processes t < 1000) (terminal m);
  cs_room : process_count (terminal m) < MAX_PROCESSES;
  cs_current : 1 <= term_cur m /\ terminal m !! Z.to_nat (term_cur m - 1) = Some t;
  cs_mapped : is_Some (loc m (get_pcb n));
  cs_block : pcb_ok (pcb_of m (get_pcb n))
}.

(** The program [w] of the image: its index node and its contents. *)
Definition program (img : image) (w : list Z) (k : nat) (c : list Z) : Prop :=
  exists d, find_dentry img (w ++ [0]) = Some d /\ d_inode d = Z.of_nat k /\ im_files img !! k = Some c.

(** The arguments of the command, copied. *)
Lemma copy_words (m : machine) p w words :
  command_line m p w words ->
  (c ← rd p (Z.of_nat (length w));
   if c =? 32 then
     '(arg_buf, i) ← copy_while (fun c => negb (c =? 0) && negb (c =? 10)) p (Z.of_nat (length w) + 1)
                       (Buf (replicate 128 0) 0);
     wr arg_buf i 0
   else mret (Buf (replicate 128 0) 0) : K ptr) m = (Ok (word_buf words), m).
Proof.
  intros [Hnull Hw Hl Hws Hwsl (e & He & [[-> Hr]|Hr])].
  - go Hr by (rewrite length_app; cbn; lia). unfold byte_at. rewrite lookup_total_app_r by lia.
    rewrite Nat2Z.id, Nat.sub_diag. cbn [lookup_total list_lookup_total].
    assert ((e =? 32) = false) as -> by (destruct He as [-> | ->]; done). done.
  - go Hr by (rewrite length_app; cbn; lia). unfold byte_at. rewrite lookup_total_app_r by lia.
    rewrite Nat2Z.id, Nat.sub_diag. cbn [app lookup_total list_lookup_total Z.eqb Pos.eqb].
    assert (reads m p ((w ++ [32]) ++ words ++ [e])) as Hr' by (by rewrite <- app_assoc).
    pose proof (copy_while_ok (fun c => negb (c =? 0) && negb (c =? 10)) p (w ++ [32]) words e
      (replicate 128 0) m Hr' (arg_bytes words Hws)) as Hcp.
    rewrite length_app, Nat2Z.inj_add in Hcp. change (Z.of_nat (length [32])) with 1 in Hcp.
    rewrite length_replicate, drop_replicate in Hcp.
    go Hcp by (first [lia|destruct He as [-> | ->]; reflexivity|
      eapply Forall_impl; [|exact Hws]; intros c (_ & H1 & H2); zb; reflexivity]).
    cbn [wr]. rewrite length_app, length_replicate.
    replace ((0 + Z.of_nat (length words) <? 0) ||
             (Z.of_nat (length words + (128 - length words)) <=? 0 + Z.of_nat (length words)))
      with false by (zb; done). rewrite ret_run. unfold word_buf. do 3 f_equal.
    replace (Z.to_nat (0 + Z.of_nat (length words))) with (length words + 0)%nat by lia. rewrite insert_app_r.
    f_equal. destruct (128 - length words)%nat; done.
Qed.

(** The name that [execute] looks up. *)
Lemma word_names (m : machine) w : Forall word_char w -> (length w < 128)%nat ->
  names m (word_buf w) (w ++ [0]).
Proof.
  intros Hw Hl. split.
  - unfold word_buf. destruct (128 - length w)%nat eqn:E; [lia|].
    apply (reads_app_l m _ (w ++ [0]) (replicate n 0)). rewrite <- app_assoc. cbn. apply reads_buf0.
  - apply Forall_app. split; [by apply word_bytes|]. repeat constructor; done.
  - right. apply elem_of_app. right. left.
Qed.

(** The state in which the new process has its block. *)
Definition with_block (m : machine) (n : Z) (t : terminal_t) : machine :=
  put_pcb (m <| processes_flags := Z.lor (processes_flags m) (Z.shiftl 1 n) |>) (get_pcb n)
    (new_pcb (pcb_of m (get_pcb n)) n (parent_of t n)).

(** The state that [execute] leaves to a new program. *)
Definition launched (m : machine) (n : Z) (t : terminal_t) (c words : list Z) : machine :=
  started (with_block m n t) n t (new_pcb (pcb_of m (get_pcb n)) n (parent_of t n)) c words.

Lemma launched_flags m n t c words :
  processes_flags (launched m n t c words) = Z.lor (processes_flags m) (Z.shiftl 1 n).
Proof. reflexivity. Qed.

Lemma launched_terminal m n t c words :
  terminal (launched m n t c words) = <[Z.to_nat (term_cur m - 1) :=
    t <| num_processes := num_processes t + 1 |> <| term_pid := n |>]> (terminal m).
Proof. reflexivity. Qed.

Lemma launched_pcbs m n t c words :
  pcbs (launched m n t c words) =
  <[get_pcb n := (new_pcb (pcb_of m (get_pcb n)) n (parent_of t n)) <| parent_ebp := frame_ebp (cpu m) |>
      <| parent_esp := frame_esp (cpu m) |> <| args := strncpy_spec 128 (words ++ [0]) |>]> (pcbs m).
Proof.
  transitivity (<[get_pcb n := (new_pcb (pcb_of m (get_pcb n)) n (parent_of t n)) <| parent_ebp := frame_ebp (cpu m) |>
      <| parent_esp := frame_esp (cpu m) |> <| args := strncpy_spec 128 (words ++ [0]) |>]>
    (pcbs (with_block m n t))); [reflexivity|]. unfold with_block, put_pcb. msimp. by rewrite insert_insert_eq.
Qed.

Lemma launched_pcb m n t c words :
  pcb_of (launched m n t c words) (get_pcb n) =
  (new_pcb (pcb_of m (get_pcb n)) n (parent_of t n)) <| parent_ebp := frame_ebp (cpu m) |>
    <| parent_esp := frame_esp (cpu m) |> <| args := strncpy_spec 128 (words ++ [0]) |>.
Proof. unfold pcb_of at 1. rewrite launched_pcbs. by rewrite lookup_insert_eq. Qed.

Lemma launched_pcb_ne m n t c words a :
  a <> get_pcb n -> pcb_of (launched m n t c words) a = pcb_of m a.
Proof. intros Ha. unfold pcb_of at 1. rewrite launched_pcbs. by rewrite lookup_insert_ne by done. Qed.

Lemma execute_program_ok pb size img m p w words k c n t :
  paging_ok m -> represents pb size img m -> image_apart m pb size n -> can_start m n t ->
  command_line m p w words -> program img w k c -> take 4 c = magic ->
  Z.of_nat (length c) <= FOUR_MB_BLOCK - 0x48000 ->
  execute_program p (Z.of_nat (length w)) (word_buf w) (Buf (replicate 128 0) 0) m =
  (Stop (EnterUser (entry_point c) USER_STACK), launched m n t c words).
Proof.
  intros Hok Hr Hap Hcs Hcl (d & Hd & Hk & Hf) Hmag Hlen. unfold execute_program. cbv zeta.
  pose proof (find_name_ok pb size img m (word_buf w) (w ++ [0]) Hr
    (word_names m w (cl_word _ _ _ _ Hcl) (cl_length _ _ _ _ Hcl))) as Hfind. rewrite Hd in Hfind.
  destruct Hfind as (dentry & E & _ & Hi). go E. change (truth 0) with false. rewrite Hi, Hk.
  pose proof (image_bytes _ _ _ _ _ _ Hr Hf) as Hby.
  destruct (read_magic pb size img m k c 0 (replicate (Z.to_nat MAGIC_SIZE) 0)) as (r & Em);
    [done|done|done|lia|done|]. go Em. cbn [contents].
  change (replicate (Z.to_nat MAGIC_SIZE) 0) with (replicate 4 0 : list Z).
  rewrite (proj2 (magic_read c) Hmag). rewrite magic_test by done. rewrite bool_decide_true by done. cbn [negb].
  destruct Hcs as [Hfl Hpid H3 Hcnt Hroom [Htc Ht] Hmap Hpok].
  go can_execute_ok by done. rewrite (proj2 (Z.ltb_lt _ _) Hroom). change (negb (truth 1)) with false. cbv iota.
  pose proof (copy_words m p w words Hcl) as Ew. rewrite bind_run in Ew. rewrite bind_run.
  destruct (rd p (Z.of_nat (length w)) m) as [[ch|] m'] eqn:Ech; [|done]. rewrite bind_run, Ew. cbv beta iota.
  destruct (read_magic pb size img m k c 24 magic) as (r2 & E2); [done|done|done|lia|done|]. go E2.
  cbn [contents]. fold (entry_point c).
  pose proof (proj1 (free_pid_Some _ _) Hpid) as [Hn _].
  go (create_pcb_ok m n t) by done. fold (with_block m n t).
  rewrite (proj2 (Z.eqb_neq (get_pcb n) 0)) by (destruct (get_pcb_range n); [unfold MAX_PROCESSES; lia|lia]).
  unfold launched.
  apply (execute_start_ok pb size img (with_block m n t) n t _ k c words dentry); try done.
  - by destruct Hap; split.
  - by apply (represents_ext pb size img m).
  - unfold with_block. by rewrite pcb_of_put.
  - rewrite Forall_forall in Hcnt. apply Hcnt. eapply list_elem_of_In, list_elem_of_lookup_2; exact Ht.
  - by rewrite Hi.
  - apply Hcl.
  - apply Hcl.
Qed.
End Stages.

(** * A machine that has booted, with one program

    Paging is on with the initial tables; the image, in the kernel's 4 MB, holds
    the program ["shell"], 28 bytes with the entry point 0x8048000. *)

Definition fresh_tables : tables := Tables (replicate 1024 2)
  ((fun i => Z.lor (4096 * i) 2) <$> seqZ 0 1024) (replicate 1024 0) (replicate 1024 0).

Definition shell_file : list Z := magic ++ replicate 20 0 ++ [0; 0x80; 4; 8].

Definition shell_image : image := Image [Dentry (text "shell" ++ replicate 27 0) 2 0] [shell_file].

Definition shell_phys : gmap Z Z := list_to_map
  ([(0x420000, 1); (0x420004, 1); (0x420008, 1); (0x420060, 2); (0x421000, 28)] ++
   imap (fun i b => (0x420040 + Z.of_nat i, b)) (text "shell") ++
   imap (fun i b => (0x422000 + Z.of_nat i, b)) shell_file).

Section ShellMachine.
Context `{PlatformOk}.

Definition shell_machine : machine := boot_machine
  <| phys := shell_phys |> <| fs := Rofs 0x420000 0x421000 0x422000 |>
  <| pg := Paging (initial_tables fresh_tables) (initial_tables fresh_tables) true |>
  <| cpu ::= fun c => c <| cpu_esp := 0x7FFFF0 |> |>
  <| term_cur := 1 |>.

Lemma fresh_tables_ok : tables_ok fresh_tables.
Proof. repeat split; reflexivity. Qed.

Lemma fresh_filled : filled zero_tables fresh_tables 1024.
Proof.
  split; [apply fresh_tables_ok|]. split; [done|]. split; [done|]. intros j Hj. split.
  - unfold fresh_tables. cbn [pageDir]. apply lookup_replicate_2. lia.
  - unfold fresh_tables. cbn [pageTable]. rewrite list_lookup_fmap.
    rewrite (proj2 (lookup_seqZ 0 1024 (Z.to_nat j) j)) by lia. done.
Qed.

Lemma shell_paging_ok : paging_ok shell_machine.
Proof. split; [apply (initial_tables_ok _ fresh_tables_ok)|done]. Qed.

Lemma shell_kernel_mapped : kernel_mapped shell_machine.
Proof.
  intros a Ha. cbn [loc machine_memory]. rewrite translate_ok by apply shell_paging_ok.
  unfold shell_machine. msimp. cbn [tabs]. rewrite (walk_initial zero_tables) by (apply fresh_filled || lia).
  by zb.
Qed.

Lemma shell_maps a n : 0x400000 <= a -> a + n <= 0x800000 -> maps shell_machine a a n.
Proof. intros Ha Hn i Hi. rewrite u32_small by lia. apply shell_kernel_mapped. lia. Qed.

Lemma shell_represents : represents 0x420000 0x3000 shell_image shell_machine.
Proof.
  split.
  - apply shell_maps; cbn; lia.
  - cbn. lia.
  - cbn. lia.
  - reflexivity.
  - reflexivity.
  - vm_compute. reflexivity.
  - vm_compute. reflexivity.
  - cbn. lia.
  - intros [|i] d Hd; [injection Hd as <-|done]; vm_compute; done.
  - intros [|n] f Hf; [injection Hf as <-|done]. split; [vm_compute; done|cbn; lia].
  - intros [|n] f k b Hf Hk; [injection Hf as <-|done].
    do 28 (destruct k as [|k]; [injection Hk as <-; vm_compute; done|]). done.
Qed.

Lemma shell_apart n : 0 <= n < 6 -> image_apart shell_machine 0x420000 0x3000 n.
Proof.
  intros Hn. split; [left; cbn; unfold VIRTUAL_START; lia|].
  left. unfold window, PHYSICAL_START, FOUR_MB_BLOCK. lia.
Qed.

Lemma shell_can_start : can_start shell_machine 0 zero_terminal.
Proof.
  split.
  - unfold is_byte. cbn. lia.
  - reflexivity.
  - reflexivity.
  - repeat constructor; cbn; lia.
  - reflexivity.
  - split; [cbn; lia|reflexivity].
  - eexists. apply shell_kernel_mapped. cbv. split; congruence.
  - split; reflexivity.
Qed.

Lemma shell_program : program shell_image (text "shell") 0 shell_file.
Proof. eexists. split; [reflexivity|]. split; reflexivity. Qed.

(** The lines ["shell"] and ["shell a b"]. *)
Lemma shell_line (m : machine) : command_line m (cstr (text "shell")) (text "shell") [].
Proof.
  split; [done|repeat constructor; done|cbn; lia|constructor|cbn; lia|].
  exists 0. split; [by left|]. left. split; [done|]. apply reads_buf0.
Qed.

Lemma shell_args_line (m : machine) : command_line m (cstr (text "shell a b")) (text "shell") (text "a b").
Proof.
  split; [done|repeat constructor; done|cbn; lia|repeat constructor; done|cbn; lia|].
  exists 0. split; [by left|]. right. apply reads_buf0.
Qed.
End ShellMachine.

(** * Properties *)

Section Views.
Context `{PlatformOk}.

(** What the program of process [n] finds: the 4 MB of its window are its own
    to use, the file is at [EXECUTE_START], a trap will find its block, and the
    block has the terminal on descriptors 0 and 1, the arguments and the way
    back to the caller [m]. *)
Record program_view (m m' : machine) (n parent : Z) (c words : list Z) : Prop := {
  pv_window o : 0 <= o < FOUR_MB_BLOCK -> translate_user (pg m') (VIRTUAL_START + o) = Some (window n + o);
  pv_others a : 0 <= a < 4294967296 -> ~ VIRTUAL_START <= a < VIRTUAL_END ->
    translate_user (pg m') a = translate_user (pg m) a /\ translate (pg m') a = translate (pg m) a;
  pv_code : cells m' (window n + 0x48000) (length c) = c;
  pv_memory q : ~ window n + 0x48000 <= q < window n + 0x48000 + Z.of_nat (length c) ->
    cell m' q = cell m q;
  pv_trap : Z.land (u32 (esp0 (tss m'))) PCB_MASK = get_pcb n;
  pv_block : let p := pcb_of m' (get_pcb n) in
    pid p = n /\ parent_pid p = parent /\ table_ok (files p) /\
    (forall i f, (2 <= i)%nat -> files p !! i = Some f -> is_open f = false) /\
    args p = words ++ replicate (128 - length words) 0 /\
    parent_esp p = frame_esp (cpu m) /\ parent_ebp p = frame_ebp (cpu m);
  pv_blocks a : a <> get_pcb n -> pcb_of m' a = pcb_of m a;
  pv_interrupts : IF (cpu m') = true
}.

Lemma new_pcb_table old n parent : table_ok (files (new_pcb old n parent)).
Proof.
  split; [done|by eexists|by eexists|]. intros i f Hi Hf Ho. unfold new_pcb in Hf. msimp in Hf.
  do 2 (destruct i as [|i]; [lia|]). do 6 (destruct i as [|i]; [by injection Hf as <-|]). destruct i; discriminate.
Qed.

Lemma new_pcb_closed old n parent i f :
  (2 <= i)%nat -> files (new_pcb old n parent) !! i = Some f -> is_open f = false.
Proof.
  intros Hi Hf. unfold new_pcb in Hf. msimp in Hf.
  do 2 (destruct i as [|i]; [lia|]). do 6 (destruct i as [|i]; [by injection Hf as <-|]). destruct i; discriminate.
Qed.

Lemma strncpy_word words :
  Forall (fun c => c <> 0) words -> (length words < 128)%nat ->
  strncpy_spec 128 (words ++ [0]) = words ++ replicate (128 - length words) 0.
Proof.
  intros Hnz Hl. unfold strncpy_spec. rewrite cprefix_no_null by done. rewrite firstn_all2 by lia. done.
Qed.

Lemma launched_cells m n t c words q :
  cell (launched m n t c words) q = cell (upds m (window n + 0x48000) c) q.
Proof.
  unfold launched, started. cbn [cell machine_memory]. msimp.
  by rewrite (phys_upds (with_block m n t) m).
Qed.

Lemma launched_view m n t c words :
  paging_ok m -> 0 <= n < 6 -> Forall is_byte c -> Forall arg_char words -> (length words < 128)%nat ->
  program_view m (launched m n t c words) n (parent_of t n) c words.
Proof.
  intros Hok Hn Hb Hw Hwl. pose proof (proj1 Hok) as Ht.
  assert (forall a, 0 <= a < 4294967296 ->
    walk (tabs (pg (launched m n t c words))) a =
    if (VIRTUAL_START <=? a) && (a <? VIRTUAL_END) then Some (window n + big_offset a, true)
    else walk (tabs (pg m)) a) as Hwalk.
  { intros a Ha. rewrite <- dir_index_window. apply (window_walk (with_block m n t)); [done|lia|done]. }
  assert (paging_ok (launched m n t c words)) as Hok'.
  { split; [apply tables_ok_put_dir; exact Ht|]. by destruct Hok as (_ & _ & ?). }
  split.
  - intros o Ho. unfold FOUR_MB_BLOCK, VIRTUAL_START in *. rewrite translate_user_ok, Hwalk by (done || lia).
    unfold VIRTUAL_START, VIRTUAL_END. zb. f_equal. unfold big_offset, FOUR_MB.
    replace (0x8000000 + o) with (o + 32 * 4194304) by lia. rewrite Z_mod_plus_full, Z.mod_small; lia.
  - intros a Ha Hout. rewrite !translate_user_ok, !translate_ok, Hwalk by done.
    replace ((VIRTUAL_START <=? a) && (a <? VIRTUAL_END)) with false; [done|].
    symmetry. apply andb_false_iff. rewrite Z.leb_gt, Z.ltb_ge. lia.
  - rewrite (cells_ext (upds m (window n + 0x48000) c)) by (intros q _; apply launched_cells).
    by apply cells_stored.
  - intros q Hq. rewrite launched_cells. apply cell_upds_out. lia.
  - change (esp0 _) with (PHYSICAL_START - n * EIGHT_KB_BLOCK - MAGIC_SIZE). apply stack_pcb; [done|].
    rewrite (proj1 (get_pcb_range n Hn)). unfold PHYSICAL_START, EIGHT_KB_BLOCK, MAGIC_SIZE. lia.
  - rewrite launched_pcb. msimp.
    split; [done|]. split; [done|]. split; [apply new_pcb_table|].
    split; [intros i f; apply new_pcb_closed|].
    split; [apply strncpy_word; [by apply arg_no_null|done]|done].
  - intros a Ha. by apply launched_pcb_ne.
  - done.
Qed.
End Views.

Section Run.
Context `{PlatformOk}.

(** [m] with interrupts off, as [execute] and [halt] work. *)
Definition quiet (m : machine) : machine := m <| cpu ::= fun c => c <| IF := false |> |>.

Lemma quiet_represents pb size img m : represents pb size img m -> represents pb size img (quiet m).
Proof. by apply represents_ext. Qed.

Lemma quiet_command m p w words : command_line m p w words -> command_line (quiet m) p w words.
Proof.
  intros [Hnull Hw Hl Hws Hwsl (e & He & Hr)]. split; try done. exists e. split; [done|].
  destruct Hr as [[-> Hr]|Hr]; [left; split; [done|]|right]; by apply (reads_ext m).
Qed.

Lemma execute_run p m w words :
  command_line m p w words ->
  execute p m =
  if decide (is_exit w) then (halt 0;; mret 0) (quiet m)
  else execute_program p (Z.of_nat (length w)) (word_buf w) (Buf (replicate 128 0) 0) (quiet m).
Proof.
  intros [Hnull Hw Hl _ _ (e & He & Hr)]. rewrite execute_unfold.
  destruct Hr as [[_ Hr]|Hr].
  - rewrite (execute_parse halt p m w e); [reflexivity|done|done|done|tauto|done].
  - rewrite (execute_parse halt p m w 32); [reflexivity|done| |done|by left|done].
    rewrite app_assoc in Hr. by eapply reads_app_l.
Qed.

(** [execute_program] when it refuses. *)
Lemma execute_program_missing pb size img m p i w ab :
  represents pb size img m -> Forall word_char w -> (length w < 128)%nat -> find_dentry img (w ++ [0]) = None ->
  execute_program p i (word_buf w) ab m = (Ok (-1), m).
Proof.
  intros Hr Hw Hl Hd. unfold execute_program. cbv zeta.
  pose proof (find_name_ok pb size img m (word_buf w) (w ++ [0]) Hr (word_names m w Hw Hl)) as Hf.
  rewrite Hd in Hf. by go Hf.
Qed.

Lemma execute_program_checks pb size img m p i w ab k c :
  represents pb size img m -> Forall word_char w -> (length w < 128)%nat -> program img w k c ->
  length (terminal m) = 3%nat -> Forall (fun t => 0 <= num_processes t < 1000) (terminal m) ->
  (take 4 c <> magic -> execute_program p i (word_buf w) ab m = (Ok (-1), m)) /\
  (take 4 c = magic -> MAX_PROCESSES <= process_count (terminal m) ->
     execute_program p i (word_buf w) ab m =
     (printf (text "Maximum number of processes reached" ++ [10]) [];; mret 0) m).
Proof.
  intros Hr Hw Hl (d & Hd & Hk & Hf) H3 Hcnt.
  pose proof (find_name_ok pb size img m (word_buf w) (w ++ [0]) Hr (word_names m w Hw Hl)) as Hfind.
  rewrite Hd in Hfind. destruct Hfind as (dentry & E & _ & Hi). pose proof (image_bytes _ _ _ _ _ _ Hr Hf) as Hby.
  destruct (read_magic pb size img m k c 0 (replicate 4 0)) as (r & Em); [done|done|done|lia|done|].
  pose proof (file_slice_length c 0 4 ltac:(lia) ltac:(lia)) as Hsl.
  split; intros Hmag; [|intros Hmax]; unfold execute_program; cbv zeta; go E; change (truth 0) with false; cbv iota;
    change (replicate (Z.to_nat MAGIC_SIZE) 0) with (replicate 4 0 : list Z); rewrite Hi, Hk; go Em; cbn [contents];
    rewrite magic_test by (rewrite length_app, length_drop, length_replicate; lia).
  - rewrite bool_decide_false by (by rewrite magic_read). done.
  - rewrite bool_decide_true by (by rewrite magic_read). cbn [negb]. go can_execute_ok by done.
    by rewrite (proj2 (Z.ltb_ge _ _) Hmax).
Qed.
(** [execute] on a program that can be started. *)
Lemma execute_ok pb size img m p w words k c n t :
  paging_ok m -> represents pb size img m -> image_apart m pb size n -> can_start m n t ->
  command_line m p w words -> ~ is_exit w -> program img w k c -> take 4 c = magic ->
  Z.of_nat (length c) <= FOUR_MB_BLOCK - 0x48000 ->
  execute p m = (Stop (EnterUser (entry_point c) USER_STACK), launched m n t c words).
Proof.
  intros Hok Hr Hap Hcs Hcl Hx Hprog Hmag Hlen. rewrite (execute_run p m w words Hcl), decide_False by done.
  rewrite (execute_program_ok pb size img (quiet m) p w words k c n t).
  - unfold launched, started, quiet. rewrite (phys_upds (with_block m n t) m) by done.
    rewrite (phys_upds (with_block _ n t) m) by done. generalize (phys (upds m (window n + 0x48000) c)).
    intros ph. by destruct m as [? ? ? []].
  - done.
  - by apply quiet_represents.
  - by destruct Hap; split.
  - by destruct Hcs; split.
  - by apply quiet_command.
  - done.
  - done.
  - done.
Qed.
End Run.

(** C3. [execute] starts a program: for a command line that names a program with
    the ELF magic number, when a process and a place in the limit are free, it
    ends in user mode at the program's entry point; the lowest free identifier
    is taken, the current terminal counts one more process, which is its current
    one, and the program finds its window, its file, its block with arguments
    and open terminal, while nothing else of memory, of the mappings and of the
    other blocks has changed.  The exact state is [launched]. *)
Theorem execute_launches `{PlatformOk} (pb size : Z) (img : image) (m : machine) (p : ptr)
    (w words : list Z) (k : nat) (c : list Z) (n : Z) (t : terminal_t) :
  paging_ok m -> represents pb size img m -> image_apart m pb size n -> can_start m n t ->
  command_line m p w words -> ~ is_exit w -> program img w k c -> take 4 c = magic ->
  Z.of_nat (length c) <= FOUR_MB_BLOCK - 0x48000 ->
  exists m', execute p m = (Stop (EnterUser (entry_point c) USER_STACK), m') /\
    program_view m m' n (parent_of t n) c words /\
    processes_flags m' = Z.lor (processes_flags m) (Z.shiftl 1 n) /\
    terminal m' = <[Z.to_nat (term_cur m - 1) :=
      t <| num_processes := num_processes t + 1 |> <| term_pid := n |>]> (terminal m) /\
    m' = launched m n t c words.
Proof.
  intros Hok Hr Hap Hcs Hcl Hx Hprog Hmag Hlen. exists (launched m n t c words).
  pose proof (proj1 (free_pid_Some _ _) (cs_pid _ _ _ Hcs)) as [Hn _].
  pose proof Hprog as (d & _ & _ & Hf). pose proof (image_bytes _ _ _ _ _ _ Hr Hf) as Hby.
  split; [by apply (execute_ok pb size img m p w words k c)|].
  split; [apply launched_view; try done; apply Hcl|done].
Qed.

Lemma execute_launches_witness :
  let P := plain_platform in
  exists m', execute (cstr (text "shell a b")) shell_machine =
      (Stop (EnterUser 0x8048000 USER_STACK), m') /\
    translate_user (pg m') 0x8048000 = Some 0x848000 /\
    args (pcb_of m' 0x7FE000) = text "a b" ++ replicate 125 0.
Proof.
  intros P.
  destruct (execute_launches 0x420000 0x3000 shell_image shell_machine (cstr (text "shell a b"))
    (text "shell") (text "a b") 0 shell_file 0 zero_terminal) as (m' & E & Hv & _).
  - apply shell_paging_ok.
  - apply shell_represents.
  - apply shell_apart. lia.
  - apply shell_can_start.
  - apply shell_args_line.
  - discriminate.
  - apply shell_program.
  - reflexivity.
  - vm_compute. discriminate.
  - exists m'. split; [exact E|]. destruct Hv as [Hwin _ _ _ _ (_ & _ & _ & _ & Ha & _) _ _].
    split; [exact (Hwin 0x48000 ltac:(unfold FOUR_MB_BLOCK; lia))|exact Ha].
Defined.

Section ShellScreen.
Context `{PlatformOk}.

Lemma shell_phys_low k : k < 0x420000 -> shell_phys !! k = None.
Proof.
  intros Hk. apply not_elem_of_list_to_map_1. intros Hin.
  assert (Forall (fun x => 0x420000 <= x) (([(0x420000, 1); (0x420004, 1); (0x420008, 1); (0x420060, 2); (0x421000, 28)] ++
   imap (fun i b => (0x420040 + Z.of_nat i, b)) (text "shell") ++
   imap (fun i b => (0x422000 + Z.of_nat i, b)) shell_file).*1)) as Hall
    by (apply (bool_decide_unpack _); vm_compute; done).
  rewrite Forall_forall in Hall. apply list_elem_of_In, Hall in Hin. lia.
Qed.

Lemma shell_shows : shows VIDEO shell_machine blank_console.
Proof.
  split.
  - intros i Hi. unfold VIDEO in *. rewrite u32_small by lia. cbn [loc machine_memory].
    rewrite translate_ok by apply shell_paging_ok. unfold shell_machine. msimp. cbn [tabs].
    rewrite (walk_initial zero_tables) by (apply fresh_filled || lia). by zb.
  - apply boot_shows.
  - intros i Hi. cbn [con_text blank_console]. rewrite lookup_replicate_2 by lia.
    cbn [cell machine_memory]. unfold shell_machine. msimp. rewrite shell_phys_low by (unfold VIDEO; lia). done.
  - done.
  - done.
Qed.
End ShellScreen.

(** C36. What [execute] refuses, with nothing changed but the interrupt flag: a
    null command and a name that is not in the directory give -1, a file without
    the ELF magic number gives -1; and when six processes run already, a message
    is printed and the result is 0. *)
Theorem execute_refuses `{PlatformOk} (pb size pv : Z) (img : image) (m : machine) (p : ptr)
    (w words : list Z) (con : console) :
  represents pb size img m -> length (terminal m) = 3%nat ->
  Forall (fun t => 0 <= num_processes t < 1000) (terminal m) -> shows pv m con ->
  command_line m p w words -> ~ is_exit w ->
  execute (Raw 0) m = (Ok (-1), m <| cpu ::= fun c => c <| IF := true |> |>) /\
  (find_dentry img (w ++ [0]) = None -> execute p m = (Ok (-1), quiet m)) /\
  (forall k c, program img w k c -> take 4 c <> magic -> execute p m = (Ok (-1), quiet m)) /\
  (forall k c, program img w k c -> take 4 c = magic -> MAX_PROCESSES <= process_count (terminal m) ->
     exists m', execute p m = (Ok 0, m') /\ screen_only pv (quiet m) m' /\
       shows pv m' (con_puts (text "Maximum number of processes reached" ++ [10]) con)).
Proof.
  intros Hr H3 Hcnt Hsh Hcl Hx. rewrite (execute_run p m w words Hcl), decide_False by done.
  pose proof (cl_word _ _ _ _ Hcl) as Hw. pose proof (cl_length _ _ _ _ Hcl) as Hl.
  pose proof (quiet_represents _ _ _ _ Hr) as Hrq. split; [|split; [|split]].
  - unfold execute. rewrite execute_n_S. unfold execute_body, cli, sti. mrun. cbn [is_null Z.eqb].
    mrun. by destruct m as [? ? ? []].
  - by apply (execute_program_missing pb size img).
  - intros k c Hp Hm. by apply (execute_program_checks pb size img (quiet m) p _ w _ k c).
  - intros k c Hp Hm Hmax.
    destruct (execute_program_checks pb size img (quiet m) p (Z.of_nat (length w)) w (Buf (replicate 128 0) 0) k c)
      as [_ E]; try done. rewrite E by done. set (msg := text _ ++ [10]).
    destruct (printf_ok pv msg None [] msg (quiet m) con) as (m' & Ep & Hsh' & Hs).
    + by destruct Hsh; split.
    + repeat constructor; done.
    + constructor.
    + reflexivity.
    + exists m'. split; [|done]. unfold printf. change (to_parg <$> []) with ([] : list parg) in Ep.
      by go Ep.
Qed.

Lemma execute_refuses_witness :
  let P := plain_platform in
  let m := shell_machine <| terminal := replicate 3 (zero_terminal <| num_processes := 2 |>) |> in
  execute (Raw 0) m = (Ok (-1), m <| cpu ::= fun c => c <| IF := true |> |>) /\
  exists m', execute (cstr (text "shell")) m = (Ok 0, m').
Proof.
  intros P m.
  destruct (execute_refuses 0x420000 0x3000 VIDEO shell_image m (cstr (text "shell")) (text "shell") []
    blank_console) as (E0 & _ & _ & E).
  - apply (represents_ext 0x420000 0x3000 shell_image shell_machine); [done|done|done|apply shell_represents].
  - reflexivity.
  - repeat constructor; cbn; lia.
  - destruct shell_shows as [H1 H2 H3 H4 H5]. split; [exact H1|exact H2|exact H3|exact H4|exact H5].
  - apply shell_line.
  - discriminate.
  - split; [exact E0|]. destruct (E 0%nat shell_file) as (m' & Em & _).
    + apply shell_program.
    + reflexivity.
    + vm_compute. discriminate.
    + exists m'. exact Em.
Defined.

(** [execute] and [halt] satisfy the equations of their mutual recursion, and
    two levels of it are all there can be: more fuel changes nothing, whatever
    the command and the state. *)
Theorem execute_equations `{Platform} :
  (forall p m, execute p m = execute_body halt p m) /\
  (forall status m, halt status m = halt_body execute status m) /\
  (forall fuel p m, execute_n (2 + fuel) p m = execute p m).
Proof. split; [apply execute_unfold|]. split; [apply halt_unfold|apply execute_more]. Qed.

(** The physical addresses that user mode reaches. *)
Definition user_reach `{Platform} (m : machine) (pa : Z) : Prop :=
  exists a, 0 <= a < 4294967296 /\ translate_user (pg m) a = Some pa.

Section Reach.
Context `{PlatformOk}.

(** Outside the window, switching it changes no translation. *)
Lemma window_outside m k a :
  paging_ok m -> 0 <= k < 6 -> 0 <= a < 4294967296 -> ~ VIRTUAL_START <= a < VIRTUAL_END ->
  walk (window_tables m k) a = walk (tabs (pg m)) a.
Proof.
  intros Hok Hk Ha Hw. rewrite window_walk, dir_index_window by (done || lia).
  replace ((VIRTUAL_START <=? a) && (a <? VIRTUAL_END)) with false; [done|].
  symmetry. apply andb_false_iff. rewrite Z.leb_gt, Z.ltb_ge. lia.
Qed.
End Reach.
