(* ===== verification/Halt.v ===== *)
(** [halt], from the end of a program to its parent or to a new shell, and the
    bookkeeping of processes that [execute] and [halt] keep together. *)

From S2P Require Import Prelude Memory CLib Machine I8259 Rtc Pcb Rofs Paging Screen Keyboard TermIO Files Process Launch.

(** * The accounts of the processes *)

(** How many of the six identifiers are in use. *)
Definition live (flags : Z) : Z := foldr (fun i s => Z.b2z (Z.testbit flags i) + s) 0 (seqZ 0 6).

Lemma live_unfold f :
  live f = Z.b2z (Z.testbit f 0) + (Z.b2z (Z.testbit f 1) + (Z.b2z (Z.testbit f 2) +
    (Z.b2z (Z.testbit f 3) + (Z.b2z (Z.testbit f 4) + (Z.b2z (Z.testbit f 5) + 0))))).
Proof. reflexivity. Qed.

(** A bit is 0 or 1. *)
Ltac bits_bound :=
  repeat match goal with
  | |- context [Z.b2z ?b] =>
      let H := fresh in
      assert (H : 0 <= Z.b2z b <= 1) by (destruct b; cbn; lia);
      revert H; generalize (Z.b2z b); intros ? H
  end.

Ltac each_pid n Hn :=
  let H := fresh in
  assert (H : n = 0 \/ n = 1 \/ n = 2 \/ n = 3 \/ n = 4 \/ n = 5) by lia;
  destruct H as [-> | [-> | [-> | [-> | [-> | ->]]]]].

Lemma live_take f n : 0 <= n < 6 -> Z.testbit f n = false -> live (Z.lor f (Z.shiftl 1 n)) = live f + 1.
Proof.
  intros Hn Hb. rewrite !live_unfold, !setbit_spec by lia.
  each_pid n Hn; rewrite Hb; cbn [Z.eqb Pos.eqb orb Z.b2z]; lia.
Qed.

Lemma live_free f n :
  0 <= n < 6 -> Z.testbit f n = true -> live (Z.land f (Z.lnot (Z.shiftl 1 n))) = live f - 1.
Proof.
  intros Hn Hb. rewrite !live_unfold, !clearbit_spec by lia.
  each_pid n Hn; rewrite Hb; cbn [Z.eqb Pos.eqb andb negb Z.b2z]; lia.
Qed.

Lemma live_range f : 0 <= live f <= 6.
Proof. rewrite live_unfold. bits_bound. lia. Qed.

Lemma live_zero f : live f <> 0 -> f <> 0.
Proof. intros Hl ->. by apply Hl. Qed.

Lemma live_room f : live f < 6 <-> exists n, free_pid f = Some n.
Proof.
  destruct (free_pid f) as [n|] eqn:E.
  - split; [by eexists|]. intros _. apply free_pid_Some in E as (Hn & Hb & _). revert Hb.
    rewrite live_unfold. each_pid n Hn; intros ->; cbn [Z.b2z]; bits_bound; lia.
  - split; [|by intros [n ?]]. rewrite free_pid_None in E. intros Hl. exfalso. rewrite live_unfold, !E in Hl by lia. cbn [Z.b2z] in Hl. lia.
Qed.

Lemma process_count_insert l i t t' :
  l !! i = Some t -> process_count (<[i := t']> l) = process_count l + num_processes t' - num_processes t.
Proof.
  revert i. induction l as [|x l IH]; intros [|i] Hi; [done..| |].
  - injection Hi as ->. cbn. lia.
  - specialize (IH i Hi). unfold process_count in *. change (<[S i:=t']> (x :: l)) with (x :: <[i:=t']> l).
    cbn [foldr]. lia.
Qed.

Lemma process_count_ge l i t :
  Forall (fun t => 0 <= num_processes t) l -> l !! i = Some t -> num_processes t <= process_count l.
Proof.
  intros Hl. revert i. unfold process_count. induction Hl as [|x l Hx Hl IH]; intros [|i] Hi; [done..| |].
  - injection Hi as ->. cbn. assert (0 <= foldr (fun t s => num_processes t + s) 0 l); [|lia].
    clear IH. induction Hl; cbn; lia.
  - specialize (IH i Hi). cbn. lia.
Qed.

(** The three counters add up to the number of identifiers in use. *)
Record accounts (m : machine) : Prop := {
  ac_flags : is_byte (processes_flags m);
  ac_terminals : length (terminal m) = 3%nat;
  ac_counts : Forall (fun t => 0 <= num_processes t) (terminal m);
  ac_total : process_count (terminal m) = live (processes_flags m)
}.

Lemma accounts_bound m i t : accounts m -> terminal m !! i = Some t -> 0 <= num_processes t <= 6.
Proof.
  intros [_ _ Hc Ht] Hi. pose proof (process_count_ge _ _ _ Hc Hi). pose proof (live_range (processes_flags m)).
  pose proof (Forall_lookup_1 _ _ _ _ Hc Hi) as Hn. cbn in Hn. lia.
Qed.

Lemma accounts_counts m : accounts m -> Forall (fun t => 0 <= num_processes t < 1000) (terminal m).
Proof. intros Ha. apply Forall_lookup_2. intros i t Ht. pose proof (accounts_bound m i t Ha Ht). lia. Qed.

(** Replacing the flags and a terminal together. *)
Lemma accounts_update m m' i t t' :
  accounts m -> terminal m !! i = Some t -> is_byte (processes_flags m') ->
  terminal m' = <[i := t']> (terminal m) -> 0 <= num_processes t' ->
  live (processes_flags m') = live (processes_flags m) + num_processes t' - num_processes t -> accounts m'.
Proof.
  intros [Hf Hl Hc Ht] Hi Hf' Ht' Hn Hlive. split.
  - done.
  - by rewrite Ht', length_insert.
  - rewrite Ht'. by apply Forall_insert.
  - rewrite Ht', (process_count_insert _ _ t) by done. lia.
Qed.

(** * The stages of [halt] *)

Section Halt.
Context `{PlatformOk}.

(** A file of the process is the clock. *)
Definition clock_open (l : list file_t) : Prop :=
  exists i f, (2 <= i)%nat /\ l !! i = Some f /\ is_open f = true /\ op_close (fileops f) = f_rtc_close.

(** The first loop of [halt] calls the [close] of every open driver.  The
    descriptors themselves stay as they are: the block is given up. *)
Lemma halt_closes m :
  is_Some (loc m (current m)) -> table_ok (fds m) ->
  exists m1, clock_effect (clock_open (fds m)) m m1 /\
    for_range 2 MAX_FILES (fun i =>
      f ← file_read_at (current m) i;
      if is_open f then
        f ← file_read_at (current m) i;
        call_close (op_close (fileops f)) i;;
        mret tt
      else mret tt) m = (Ok tt, m1).
Proof.
  intros Hl Ht. pose proof (table_has_files m Hl Ht) as Hm. pose proof Ht as [H8 _ _ Hdr].
  rewrite for_range_n by (unfold MAX_FILES; lia).
  destruct (for_n_ok (fun _ s => clock_effect (clock_open (fds m)) m s) (Z.to_nat (MAX_FILES - 2)) 2
    (fun i => f ← file_read_at (current m) i;
      if is_open f then f ← file_read_at (current m) i; call_close (op_close (fileops f)) i;; mret tt
      else mret tt) m) as (m1 & E & Hm1).
  - split; [apply hw_only_refl|done].
  - intros i s Hi Hs. unfold MAX_FILES in Hi. destruct (clock_effect_fds _ _ _ Hs) as [Hf Hc].
    pose proof Hs as [Hhw Hsame]. destruct (hw_only_fds _ _ Hhw) as [_ Hms]. specialize (Hms Hm).
    destruct (lookup_lt_is_Some_2 (fds m) (Z.to_nat i)) as [f Hfi]; [lia|]. rewrite <- Hc.
    go (fd_read s i f) by (first [exact Hms|lia|by rewrite Hf]). destruct (is_open f) eqn:Ho; [|by exists s].
    go (fd_read s i f) by (first [exact Hms|lia|by rewrite Hf]).
    assert (driver_ops (fileops f)) as Hd by (apply (Hdr (Z.to_nat i) f); [lia|done|done]).
    assert (exists v s', call_close (op_close (fileops f)) i s = (Ok v, s') /\
              clock_effect (op_close (fileops f) = f_rtc_close) s s') as (v & s' & E & Hh & Hn).
    { destruct Hd as [-> | [-> | ->]]; cbn [call_close op_close rtc_ops dir_ops file_ops].
      - destruct (rtc_close_hw i s) as (v & s' & E & _ & Hh). by exists v, s'.
      - exists 0, s. split; [unfold dir_close, MAX_FILES; by zb|]. split; [apply hw_only_refl|done].
      - exists 0, s. split; [unfold file_close, MAX_FILES; by zb|]. split; [apply hw_only_refl|done]. }
    go E. exists s'. split; [done|]. split; [by eapply hw_only_trans|]. intros Hno.
    rewrite <- (Hsame Hno). apply Hn. intros He. apply Hno. exists (Z.to_nat i), f. split; [lia|done].
  - by exists m1.
Qed.

(** The state once the process [p] of terminal [t] is taken off the books. *)
Definition released (m : machine) (t : terminal_t) (p : pcb_t) : machine :=
  m <| terminal := <[Z.to_nat (term_cur m - 1) := t <| num_processes := num_processes t - 1 |>]> (terminal m) |>
    <| processes_flags := Z.land (processes_flags m) (Z.lnot (Z.shiftl 1 (pid p))) |>.

(** The state in which the parent of [p] goes on. *)
Definition resumed (m : machine) (t : terminal_t) (p : pcb_t) : machine :=
  let m1 := released m t p in
  m1 <| terminal := <[Z.to_nat (term_cur m - 1) :=
          t <| num_processes := num_processes t - 1 |> <| term_pid := parent_pid p |>]> (terminal m) |>
     <| pg := pg (with_tables m (window_tables m (parent_pid p))) |>
     <| tss := (tss m) <| esp0 := parent_esp p |> <| ss0 := KERNEL_DS |> |>
     <| cpu := (cpu m) <| cpu_esp := parent_esp p |> <| cpu_ebp := parent_ebp p |> |>.

Lemma released_flags m t p :
  processes_flags (released m t p) = Z.land (processes_flags m) (Z.lnot (Z.shiftl 1 (pid p))).
Proof. reflexivity. Qed.

Lemma released_terminal m t p :
  terminal (released m t p) =
  <[Z.to_nat (term_cur m - 1) := t <| num_processes := num_processes t - 1 |>]> (terminal m).
Proof. reflexivity. Qed.

Lemma resumed_flags m t p : processes_flags (resumed m t p) = processes_flags (released m t p).
Proof. reflexivity. Qed.

Lemma resumed_terminal m t p :
  terminal (resumed m t p) = <[Z.to_nat (term_cur m - 1) :=
    t <| num_processes := num_processes t - 1 |> <| term_pid := parent_pid p |>]> (terminal m).
Proof. reflexivity. Qed.

Lemma resumed_pg m t p : pg (resumed m t p) = pg (with_tables m (window_tables m (parent_pid p))).
Proof. reflexivity. Qed.

(** What a driver leaves alone. *)
Lemma hw_keeps m m1 :
  hw_only (quiet m) m1 ->
  term_cur m1 = term_cur m /\ terminal m1 = terminal m /\ pcbs m1 = pcbs m /\ pg m1 = pg m /\
  processes_flags m1 = processes_flags m /\ phys m1 = phys m.
Proof. by intros [b ->]. Qed.

(** A process that may end: it runs on its own kernel stack, its descriptors
    are in order, and it is counted in the current terminal. *)
Record can_halt (m : machine) (t : terminal_t) (p : pcb_t) : Prop := {
  ch_mapped : is_Some (loc m (current m));
  ch_block : pcb_of m (current m) = p;
  ch_files : table_ok (fds m);
  ch_flags : is_byte (processes_flags m);
  ch_pid : 0 <= pid p < 6;
  ch_parent : 0 <= parent_pid p < 6;
  ch_current : 1 <= term_cur m /\ terminal m !! Z.to_nat (term_cur m - 1) = Some t;
  ch_count : 1 <= num_processes t < 1000
}.

Lemma quiet_current m : current (quiet m) = current m.
Proof. done. Qed.

Lemma hw_only_window m m1 n : hw_only m m1 -> window_tables m1 n = window_tables m n.
Proof. by intros [b ->]. Qed.

(** [halt] up to the first test. *)
Lemma halt_releases e status m t p :
  can_halt m t p ->
  exists m1, clock_effect (clock_open (fds m)) (quiet m) m1 /\
    halt_body e status m =
    (c ← gets term_cur;
     t ← terminal_at (c - 1);
     (if num_processes t =? 0 then e shell;; mret tt else mret tt);;
     f ← gets processes_flags;
     (if f =? 0 then e shell;; mret tt else mret tt);;
     c ← gets term_cur;
     p ← pcb_read (current m);
     terminal_upd (c - 1) (fun t => t <| term_pid := u8 (parent_pid p) |>);;
     p ← pcb_read (current m);
     remap_process (parent_pid p);;
     p ← pcb_read (current m);
     modify (fun m => m <| tss ::= fun s => s <| esp0 := parent_esp p |> |>);;
     modify (fun m => m <| tss ::= fun s => s <| ss0 := KERNEL_DS |> |>);;
     p ← pcb_read (current m);
     modify (fun m => m <| cpu ::= fun c => c <| cpu_esp := parent_esp p |> <| cpu_ebp := parent_ebp p |> |>);;
     raise (ReturnTo status (parent_esp p) (parent_ebp p)) : K Z) (released m1 t p).
Proof.
  intros [Hl Hp Hf Hfl Hpid Hpar [Hc Ht] Hn].
  destruct (halt_closes (quiet m)) as (m1 & Hce & E); [done|done|]. exists m1. split; [done|].
  unfold halt_body, cli. rewrite bind_run, modify_run. fold (quiet m). cbv beta iota.
  rewrite bind_run, get_current_pcb_run. cbv beta iota. go E.
  destruct (hw_keeps _ _ (proj1 Hce)) as (Hm1 & Hm2 & Hm3 & Hm4 & Hm5 & _).
  rewrite bind_run, gets_run, Hm1. cbv beta iota.
  go (terminal_upd_run m1 (term_cur m - 1) t) by (first [lia|by rewrite Hm2]).
  rewrite bind_run. match goal with |- context [pcb_read _ ?mm] => set (m2 := mm) end.
  assert (is_Some (loc m2 (current m))) as Hl2.
  { cbn [loc machine_memory]. change (pg m2) with (pg m1). by rewrite Hm4. }
  assert (pcb_of m2 (current m) = p) as Hp2 by (unfold pcb_of; change (pcbs m2) with (pcbs m1); by rewrite Hm3).
  rewrite quiet_current. go (pcb_read_run m2 (current m)) by done. rewrite Hp2.
  rewrite bind_run, modify_run. cbv beta iota. f_equal. unfold released, m2. msimp. rewrite Hm1, Hm5.
  assert (t <| num_processes ::= fun n => i32 (n - 1) |> = t <| num_processes := num_processes t - 1 |>) as ->.
  { unfold set_field. by rewrite i32_small by lia. }
  rewrite <- (u8_small (Z.land _ _)) by (apply clearbit_byte; [done|lia]). rewrite <- Hm5. by destruct m1.
Qed.
End Halt.

Section Returns.
Context `{PlatformOk}.

Lemma current_kernel m : 0 <= current m < VIRTUAL_START.
Proof.
  unfold current. rewrite land_pcb_mask. unfold VIRTUAL_START.
  pose proof (Z.mod_pos_bound (u32 (cpu_esp (cpu m)) / 8192) 2048 ltac:(lia)). lia.
Qed.

(** Switching the window leaves the current block where it is. *)
Lemma current_mapped m n a :
  paging_ok m -> 0 <= n < 6 -> 0 <= a < VIRTUAL_START -> is_Some (loc m a) ->
  is_Some (loc (with_tables m (window_tables m n)) a).
Proof.
  unfold VIRTUAL_START. intros Hok Hn Ha Hl. rewrite window_loc by (done || lia). rewrite dir_index_window.
  unfold VIRTUAL_START. by zb.
Qed.

(** The second half of [halt], when a process is left in the terminal. *)
Lemma halt_returns_ok e status m t p :
  paging_ok m -> can_halt m t p -> 2 <= num_processes t ->
  Z.land (processes_flags m) (Z.lnot (Z.shiftl 1 (pid p))) <> 0 ->
  exists m1, clock_effect (clock_open (fds m)) (quiet m) m1 /\
    halt_body e status m = (Stop (ReturnTo status (parent_esp p) (parent_ebp p)), resumed m1 t p).
Proof.
  intros Hok Hch Hn2 Hfl. destruct (halt_releases e status m t p Hch) as (m1 & Hce & ->).
  exists m1. split; [done|]. destruct Hch as [Hl Hp _ _ _ Hpar [Hc Ht] Hn].
  destruct (hw_keeps _ _ (proj1 Hce)) as (Hm1 & Hm2 & Hm3 & Hm4 & Hm5 & _).
  set (a := current m) in *. pose proof (current_kernel m) as Ha. fold a in Ha.
  set (m2 := released m1 t p). set (t1 := t <| num_processes := num_processes t - 1 |>).
  assert (forall m', pg m' = pg m -> is_Some (loc m' a)) as Hla.
  { intros m' Hpg. cbn [loc machine_memory]. by rewrite Hpg. }
  assert (forall m', pcbs m' = pcbs m -> pcb_of m' a = p) as Hpa.
  { intros m' Hpc. unfold pcb_of. by rewrite Hpc. }
  assert (terminal m2 !! Z.to_nat (term_cur m - 1) = Some t1) as Ht2.
  { unfold m2, released. msimp. rewrite Hm1, Hm2. apply list_lookup_insert_eq. by eapply lookup_lt_Some. }
  rewrite bind_run, gets_run. cbv beta iota. change (term_cur m2) with (term_cur m1). rewrite Hm1.
  go (terminal_at_run m2 (term_cur m - 1) t1) by (first [lia|exact Ht2]).
  change (num_processes t1) with (num_processes t - 1). rewrite (proj2 (Z.eqb_neq _ 0)) by lia.
  mrun. change (processes_flags m2) with (Z.land (processes_flags m1) (Z.lnot (Z.shiftl 1 (pid p)))).
  rewrite Hm5, (proj2 (Z.eqb_neq _ 0)) by done. mrun. change (term_cur m2) with (term_cur m1). rewrite Hm1.
  rewrite (pcb_read_run m2 a) by (by apply Hla). rewrite (Hpa m2) by done. cbv beta iota.
  go (terminal_upd_run m2 (term_cur m - 1) t1) by (first [lia|exact Ht2]). rewrite (u8_small (parent_pid p)) by lia.
  rewrite bind_run. match goal with |- context [pcb_read a ?mm] => set (m3 := mm) end.
  go (pcb_read_run m3 a) by (by apply Hla). rewrite (Hpa m3) by done.
  go (remap_process_run m3 (parent_pid p)) by lia.
  assert (paging_ok m3) as Hok3 by (unfold paging_ok; change (pg m3) with (pg m1); by rewrite Hm4).
  rewrite bind_run. match goal with |- context [pcb_read a ?mm] => set (m4 := mm) end.
  assert (is_Some (loc m4 a)) as Hl4 by (apply current_mapped; [done|done|done|by apply Hla]).
  go (pcb_read_run m4 a) by done. rewrite (Hpa m4) by done. mrun.
  match goal with |- context [pcb_read a ?mm] => set (m5 := mm) end.
  go (pcb_read_run m5 a) by done. rewrite (Hpa m5) by done. mrun. f_equal.
  unfold m5, m4, with_tables, window_tables. change (tabs (pg m3)) with (tabs (pg m1)).
  unfold m3, m2, resumed, released, t1, with_tables, window_tables. msimp.
  rewrite Hm1, list_insert_insert_eq. clear. by destruct m1 as [? ? ? [] ? ? ? ? ? ? ? ? ? ? ? ? [] ? ? ?].
Qed.

(** When it was the last one there, a shell is started; it does not return. *)
Lemma halt_restarts_ok e status m t p out m' :
  can_halt m t p -> num_processes t = 1 ->
  (forall m1, clock_effect (clock_open (fds m)) (quiet m) m1 -> e shell (released m1 t p) = (Stop out, m' m1)) ->
  exists m1, clock_effect (clock_open (fds m)) (quiet m) m1 /\ halt_body e status m = (Stop out, m' m1).
Proof.
  intros Hch Hn1 He. destruct (halt_releases e status m t p Hch) as (m1 & Hce & ->).
  exists m1. split; [done|]. destruct Hch as [_ _ _ _ _ _ [Hc Ht] _].
  destruct (hw_keeps _ _ (proj1 Hce)) as (Hm1 & Hm2 & _).
  set (t1 := t <| num_processes := num_processes t - 1 |>).
  assert (terminal (released m1 t p) !! Z.to_nat (term_cur m - 1) = Some t1) as Ht2.
  { unfold released. msimp. rewrite Hm1, Hm2. apply list_lookup_insert_eq. by eapply lookup_lt_Some. }
  rewrite bind_run, gets_run. cbv beta iota. change (term_cur (released m1 t p)) with (term_cur m1). rewrite Hm1.
  go (terminal_at_run (released m1 t p) (term_cur m - 1) t1) by (first [lia|exact Ht2]).
  change (num_processes t1) with (num_processes t - 1). rewrite Hn1. change (1 - 1 =? 0) with true. cbv iota.
  rewrite !bind_run, (He m1 Hce). done.
Qed.
End Returns.

(** * The kernel between programs *)

Section Kernel.
Context `{PlatformOk}.

(** The image is in place and out of the way of every window, the six blocks are
    in order, a terminal is current, and the accounts are right. *)
Record kernel_ok (pb size : Z) (img : image) (m : machine) : Prop := {
  ko_paging : paging_ok m;
  ko_image : represents pb size img m;
  ko_apart n : 0 <= n < 6 -> image_apart m pb size n;
  ko_blocks n : 0 <= n < 6 -> is_Some (loc m (get_pcb n)) /\ pcb_ok (pcb_of m (get_pcb n));
  ko_current : 1 <= term_cur m <= 3;
  ko_accounts : accounts m
}.

Lemma kernel_terminal pb size img m :
  kernel_ok pb size img m -> exists t, terminal m !! Z.to_nat (term_cur m - 1) = Some t.
Proof. intros Hk. destruct (ko_current _ _ _ _ Hk), (ko_accounts _ _ _ _ Hk) as [_ H3 _ _]. apply lookup_lt_is_Some_2. lia. Qed.

(** The parts of [kernel_ok] that do not concern the processes, and the window. *)
Lemma kernel_ok_window pb size img m m' k :
  kernel_ok pb size img m -> 0 <= k < 6 ->
  pg m' = pg (with_tables m (window_tables m k)) -> fs m' = fs m -> term_cur m' = term_cur m ->
  (forall q, pb <= q < pb + size -> cell m' q = cell m q) ->
  (forall n, 0 <= n < 6 -> pcb_ok (pcb_of m' (get_pcb n))) -> accounts m' -> kernel_ok pb size img m'.
Proof.
  intros [Hok Hr Hap Hbl Hcur _] Hk Hpg Hfs Htc Hcell Hpcb Hacc.
  pose proof (represents_window pb size img m k Hok ltac:(lia) (Hap k Hk) Hr) as Hr'. split.
  - unfold paging_ok. rewrite Hpg. apply (with_tables_ok m); [done|]. apply tables_ok_put_dir, Hok.
  - apply (represents_frame pb size img (with_tables m (window_tables m k))); [|done| |done].
    + pose proof (rep_maps _ _ _ _ Hr') as Hm. intros i Hi. specialize (Hm i Hi).
      cbn [loc machine_memory] in Hm |- *. by rewrite Hpg.
    + exact Hcell.
  - intros n Hn. destruct (Hap n Hn) as [Hv Hp]. split; [by rewrite Hfs|done].
  - intros n Hn. destruct (Hbl n Hn) as [Hl _]. split; [|by apply Hpcb].
    assert (is_Some (loc (with_tables m (window_tables m k)) (get_pcb n))) as Hl'.
    { destruct (get_pcb_range n) as [_ Hrg]; [unfold MAX_PROCESSES; lia|].
      apply current_mapped; [done|done|unfold VIRTUAL_START; lia|done]. }
    cbn [loc machine_memory] in Hl' |- *. by rewrite Hpg.
  - by rewrite Htc.
  - done.
Qed.

(** A program can be started when less than six are live. *)
Lemma kernel_can_start pb size img m :
  kernel_ok pb size img m -> live (processes_flags m) < 6 -> exists n t, can_start m n t.
Proof.
  intros Hk Hlive. destruct (kernel_terminal _ _ _ _ Hk) as [t Ht]. pose proof (ko_accounts _ _ _ _ Hk) as Ha.
  destruct (proj1 (live_room _) Hlive) as [n Hn]. exists n, t.
  pose proof (proj1 (free_pid_Some _ _) Hn) as [Hn6 _]. destruct (ko_blocks _ _ _ _ Hk n Hn6) as [Hl Hpok].
  split; try done.
  - apply Ha.
  - apply Ha.
  - by apply accounts_counts.
  - rewrite (ac_total _ Ha). done.
  - split; [apply Hk|done].
Qed.

Lemma launched_block m n t c words a :
  pcb_ok (pcb_of m (get_pcb n)) -> pcb_ok (pcb_of m a) -> pcb_ok (pcb_of (launched m n t c words) a).
Proof.
  intros Hn Ha. destruct (decide (a = get_pcb n)) as [->|Hne]; [|by rewrite launched_pcb_ne].
  rewrite launched_pcb. split; [done|]. msimp. apply length_strncpy_spec.
Qed.

Lemma launched_accounts m n t c words :
  accounts m -> can_start m n t -> accounts (launched m n t c words).
Proof.
  intros Ha Hcs. destruct Hcs as [Hfl Hpid _ _ _ [Hc Ht] _ _].
  pose proof (proj1 (free_pid_Some _ _) Hpid) as (Hn & Hb & _). pose proof (accounts_bound _ _ _ Ha Ht).
  apply (accounts_update m (launched m n t c words) (Z.to_nat (term_cur m - 1)) t
    (t <| num_processes := num_processes t + 1 |> <| term_pid := n |>)); [done|done| |done|cbn; lia|].
  - rewrite launched_flags. apply setbit_byte; [done|lia].
  - rewrite launched_flags, live_take by done. cbn. lia.
Qed.

Lemma launched_kernel_ok pb size img m n t c words :
  kernel_ok pb size img m -> can_start m n t -> Z.of_nat (length c) <= FOUR_MB_BLOCK - 0x48000 ->
  kernel_ok pb size img (launched m n t c words).
Proof.
  intros Hk Hcs Hlen. pose proof (proj1 (free_pid_Some _ _) (cs_pid _ _ _ Hcs)) as [Hn _].
  apply (kernel_ok_window pb size img m _ n); try done.
  - intros q Hq. rewrite launched_cells. apply cell_upds_out.
    destruct (ko_apart _ _ _ _ Hk n Hn) as [_ Hap]. lia.
  - intros a Ha. apply launched_block; by apply (ko_blocks _ _ _ _ Hk).
  - apply launched_accounts; [apply Hk|done].
Qed.

(** Leaving the books. *)
Lemma released_accounts m m1 t p i t' :
  accounts m -> hw_only (quiet m) m1 -> can_halt m t p -> Z.testbit (processes_flags m) (pid p) = true ->
  i = Z.to_nat (term_cur m - 1) -> num_processes t' = num_processes t - 1 ->
  forall m', processes_flags m' = processes_flags (released m1 t p) ->
  terminal m' = <[i := t']> (terminal m1) -> accounts m'.
Proof.
  intros Ha Hhw [_ _ _ Hfl Hpid _ [Hc Ht] Hn] Hb -> Ht' m' Hpf Htm.
  destruct (hw_keeps _ _ Hhw) as (_ & Hterm & _ & _ & Hfl1 & _).
  assert (processes_flags (released m1 t p) = Z.land (processes_flags m) (Z.lnot (Z.shiftl 1 (pid p)))) as Hrel
    by (by rewrite released_flags, Hfl1).
  apply (accounts_update m m' (Z.to_nat (term_cur m - 1)) t t').
  - done.
  - done.
  - rewrite Hpf, Hrel. apply clearbit_byte; [done|lia].
  - by rewrite Htm, Hterm.
  - lia.
  - rewrite Hpf, Hrel, live_free by done. lia.
Qed.

Lemma kernel_ok_hw pb size img m m1 : kernel_ok pb size img m -> hw_only m m1 -> kernel_ok pb size img m1.
Proof.
  intros [Hok Hr Hap Hbl Hcur Hacc] [b ->]. split; try done.
  - by apply (represents_ext pb size img m).
  - intros n Hn. by destruct (Hap n Hn); split.
  - by destruct Hacc; split.
Qed.

Lemma kernel_ok_quiet pb size img m : kernel_ok pb size img m -> kernel_ok pb size img (quiet m).
Proof. intros Hk. eapply kernel_ok_hw; [exact Hk|]. exists false. by destruct m. Qed.
End Kernel.

Section Parent.
Context `{PlatformOk}.

Lemma launched_paging_ok m n t c words : paging_ok m -> paging_ok (launched m n t c words).
Proof. intros (Ht & _ & Hon). split; [apply tables_ok_put_dir; exact Ht|]. done. Qed.

(** What user mode finds in the window of process [k], and elsewhere. *)
Lemma window_user m m' k a :
  paging_ok m -> 0 <= k < 6 -> pg m' = pg (with_tables m (window_tables m k)) -> 0 <= a < 4294967296 ->
  translate_user (pg m') a =
    if decide (VIRTUAL_START <= a < VIRTUAL_END) then Some (window k + (a - VIRTUAL_START))
    else translate_user (pg m) a.
Proof.
  intros Hok Hk -> Ha. rewrite translate_user_with_tables, translate_user_ok by done.
  destruct (decide _) as [Hw|Hw]; [|by rewrite window_outside].
  rewrite window_walk, dir_index_window by (done || lia). unfold VIRTUAL_START, VIRTUAL_END in *. zb. f_equal.
  unfold big_offset, FOUR_MB. replace a with (a - 0x8000000 + 32 * 4194304) at 1 by lia.
  rewrite Z_mod_plus_full, Z.mod_small; lia.
Qed.

(** A process is left when a terminal counts more than the one that ends. *)
Lemma others_live m t p :
  accounts m -> can_halt m t p -> Z.testbit (processes_flags m) (pid p) = true -> 2 <= num_processes t ->
  Z.land (processes_flags m) (Z.lnot (Z.shiftl 1 (pid p))) <> 0.
Proof.
  intros Ha [_ _ _ _ Hpid _ [_ Ht] _] Hb Hn. apply live_zero. rewrite live_free by done.
  rewrite <- (ac_total _ Ha).
  assert (num_processes t <= process_count (terminal m)); [|lia].
  eapply process_count_ge; [apply Ha|exact Ht].
Qed.

Lemma resumed_accounts m m1 t p :
  accounts m -> hw_only (quiet m) m1 -> can_halt m t p -> Z.testbit (processes_flags m) (pid p) = true ->
  accounts (resumed m1 t p).
Proof.
  intros Ha Hhw Hch Hb. eapply (released_accounts m m1 t p); [done|done|done|done|reflexivity| |done|].
  - instantiate (1 := t <| num_processes := num_processes t - 1 |> <| term_pid := parent_pid p |>). done.
  - destruct (hw_keeps _ _ Hhw) as (Hc & _). by rewrite resumed_terminal, Hc.
Qed.

(** The identifier taken by [execute] is the one [halt] frees. *)
Lemma free_after_take f n : 0 <= n -> Z.testbit f n = false ->
  Z.land (Z.lor f (Z.shiftl 1 n)) (Z.lnot (Z.shiftl 1 n)) = f.
Proof.
  intros Hn Hb. apply Z.bits_inj'. intros j Hj. rewrite clearbit_spec, setbit_spec by done.
  destruct (Z.eqb_spec j n) as [->|]; [by rewrite Hb|done].
Qed.

(** The program of process [n] has run in kernel and user mode, without starting
    or ending a process, and is in a system call again. *)
Record ran (m m' : machine) (n : Z) : Prop := {
  rn_stack : current m' = get_pcb n;
  rn_mapped : is_Some (loc m' (get_pcb n));
  rn_paging : paging_ok m';
  rn_flags : processes_flags m' = processes_flags m;
  rn_current : term_cur m' = term_cur m;
  rn_terminals : length (terminal m') = length (terminal m) /\
    forall i t, terminal m !! i = Some t -> exists t', terminal m' !! i = Some t' /\
      num_processes t' = num_processes t /\ term_pid t' = term_pid t;
  rn_block : let p := pcb_of m (get_pcb n) in let p' := pcb_of m' (get_pcb n) in
    pid p' = pid p /\ parent_pid p' = parent_pid p /\ parent_esp p' = parent_esp p /\
    parent_ebp p' = parent_ebp p /\ args p' = args p /\ table_ok (files p')
}.
End Parent.

Section Roundtrip.
Context `{PlatformOk}.

(** The screen is left as it is. *)
Lemma resumed_screen pv m m1 t p con :
  paging_ok m -> hw_only (quiet m) m1 -> 0 <= parent_pid p < 6 -> shows pv m con -> shows pv (resumed m1 t p) con.
Proof.
  intros Hok Hhw Hpar [S1 S2 S3 S4 S5]. destruct (hw_keeps _ _ Hhw) as (_ & _ & _ & K4 & _ & K6).
  assert (scr m1 = scr m) as K7 by (by destruct Hhw as [b ->]).
  split; [|exact S2| |change (scr (resumed m1 t p)) with (scr m1); by rewrite K7|change (scr (resumed m1 t p)) with (scr m1); by rewrite K7].
  - intros i Hi. specialize (S1 i Hi). unfold VIDEO in *. rewrite u32_small in * by lia. rewrite <- S1.
    transitivity (loc (with_tables m (window_tables m (parent_pid p))) (0xB8000 + i)).
    + cbn [loc machine_memory]. rewrite resumed_pg. unfold with_tables, window_tables. by rewrite K4.
    + rewrite window_loc by (done || lia). rewrite dir_index_window. unfold VIRTUAL_START. by zb.
  - intros i Hi. rewrite S3 by done. f_equal. cbn [cell machine_memory]. change (phys (resumed m1 t p)) with (phys m1). by rewrite K6.
Qed.

(** A program that has been started from another one, when it is about to end. *)
Lemma child_ready pb size img m p w words k c n t m2 :
  kernel_ok pb size img m -> can_start m n t ->
  command_line m p w words -> program img w k c -> 1 <= num_processes t -> 0 <= term_pid t < 6 ->
  ran (launched m n t c words) m2 n ->
  let p2 := pcb_of m2 (get_pcb n) in
  pid p2 = n /\ parent_pid p2 = term_pid t /\ parent_esp p2 = frame_esp (cpu m) /\ parent_ebp p2 = frame_ebp (cpu m) /\
  processes_flags m2 = Z.lor (processes_flags m) (Z.shiftl 1 n) /\ term_cur m2 = term_cur m /\
  Z.land (processes_flags m2) (Z.lnot (Z.shiftl 1 (pid p2))) = processes_flags m /\ processes_flags m <> 0 /\
  exists t2, can_halt m2 t2 p2 /\ num_processes t2 = num_processes t + 1.
Proof.
  intros Hk Hcs Hcl Hprog Hn1 Htp [Hst Hmap Hok2 Hfl Htc [H3 Hterm] (Bp & Bpp & Be & Bb & _ & Bt)] p2.
  set (m1 := launched m n t c words) in *. fold p2 in Bp, Bpp, Be, Bb, Bt.
  pose proof (proj1 (free_pid_Some _ _) (cs_pid _ _ _ Hcs)) as (Hn & Hfree & _).
  destruct (Hterm (Z.to_nat (term_cur m - 1)) (t <| num_processes := num_processes t + 1 |> <| term_pid := n |>))
    as (t2 & Ht2 & Hnp & _).
  { unfold m1. rewrite launched_terminal. apply list_lookup_insert_eq. destruct (cs_current _ _ _ Hcs) as [_ Ht0]. by eapply lookup_lt_Some. }
  assert (pid p2 = n /\ parent_pid p2 = term_pid t /\ parent_esp p2 = frame_esp (cpu m) /\
          parent_ebp p2 = frame_ebp (cpu m)) as (P1 & P2 & P3 & P4).
  { rewrite Bp, Bpp, Be, Bb. destruct (launched_view m n t c words) as [_ _ _ _ _ (Q1 & Q2 & _ & _ & _ & Q5 & Q6) _ _].
    - apply Hk.
    - done.
    - destruct Hprog as (d & _ & _ & Hf). eapply image_bytes; [apply Hk|exact Hf].
    - apply Hcl.
    - apply Hcl.
    - fold m1 in Q1, Q2, Q5, Q6. rewrite Q1, Q2, Q5, Q6. unfold parent_of. by rewrite (proj2 (Z.eqb_neq _ 0)) by lia. }
  pose proof (ko_accounts _ _ _ _ Hk) as Ha. pose proof (cs_current _ _ _ Hcs) as [Hc Ht].
  pose proof (accounts_bound _ _ _ Ha Ht). msimp in Hnp.
  assert (processes_flags m2 = Z.lor (processes_flags m) (Z.shiftl 1 n)) as Hfl2 by (rewrite Hfl; done).
  repeat (split; [done|]). split; [rewrite Hfl2, P1; apply free_after_take; [lia|done]|]. split.
  { apply live_zero. rewrite <- (ac_total _ Ha). pose proof (process_count_ge _ _ _ (ac_counts _ Ha) Ht). lia. }
  exists t2. split; [|exact Hnp].
  split; [by rewrite Hst|by rewrite Hst|unfold fds; by rewrite Hst| |lia|lia|rewrite Htc; done|lia].
  rewrite Hfl2. apply setbit_byte; [apply Ha|lia].
Qed.

(** [execute] from a running process, then [halt] of the new one. *)
Lemma execute_halt_ok pb size img m p w words k c n status t m2 :
  kernel_ok pb size img m -> can_start m n t ->
  command_line m p w words -> ~ is_exit w -> program img w k c -> take 4 c = magic ->
  Z.of_nat (length c) <= FOUR_MB_BLOCK - 0x48000 ->
  1 <= num_processes t -> 0 <= term_pid t < 6 ->
  let m1 := launched m n t c words in
  ran m1 m2 n ->
  execute p m = (Stop (EnterUser (entry_point c) USER_STACK), m1) /\
  exists m3 t3, halt status m2 = (Stop (ReturnTo status (frame_esp (cpu m)) (frame_ebp (cpu m))), m3) /\
    processes_flags m3 = processes_flags m /\
    terminal m3 !! Z.to_nat (term_cur m - 1) = Some t3 /\
    num_processes t3 = num_processes t /\ term_pid t3 = term_pid t /\
    esp0 (tss m3) = frame_esp (cpu m) /\
    (forall pv con, shows pv m2 con -> shows pv m3 con) /\
    forall o, 0 <= o < FOUR_MB_BLOCK ->
      translate_user (pg m3) (VIRTUAL_START + o) = Some (window (term_pid t) + o).
Proof.
  intros Hk Hcs Hcl Hx Hprog Hmag Hlen Hn1 Htp m1 Hran.
  pose proof (proj1 (free_pid_Some _ _) (cs_pid _ _ _ Hcs)) as (Hn & _).
  split; [apply (execute_ok pb size img m p w words k c n t); try done; by apply Hk|].
  destruct (child_ready pb size img m p w words k c n t m2) as (P1 & P2 & P3 & P4 & _ & Htc & Hfl & Hnz & t2 & Hch & Hnp); try done.
  set (p2 := pcb_of m2 (get_pcb n)) in *. pose proof (rn_paging _ _ _ Hran) as Hok2. destruct (ch_current _ _ _ Hch) as [Hc Ht2].
  destruct (halt_returns_ok execute status m2 t2 p2 Hok2 Hch) as (m4 & [Hhw _] & E); [lia|by rewrite Hfl|].
  exists (resumed m4 t2 p2), (t2 <| num_processes := num_processes t2 - 1 |> <| term_pid := parent_pid p2 |>).
  destruct (hw_keeps _ _ Hhw) as (K1 & K2 & _ & K4 & K5 & _). rewrite P3, P4 in E. split; [rewrite halt_unfold; exact E|].
  split; [|split; [|split; [cbn; lia|split; [exact P2|split; [exact P3|split; [intros pv con; apply (resumed_screen pv m2); [done|done|lia]|]]]]]].
  - by rewrite resumed_flags, released_flags, K5.
  - rewrite resumed_terminal, K1, K2, Htc. apply list_lookup_insert_eq. rewrite <- Htc. by eapply lookup_lt_Some.
  - intros o Ho. unfold FOUR_MB_BLOCK in Ho.
    rewrite (window_user m2 _ (term_pid t)); [|done|done| |unfold VIRTUAL_START; lia].
    + rewrite decide_True by (unfold VIRTUAL_START, VIRTUAL_END; lia). f_equal. lia.
    + rewrite resumed_pg, P2. unfold with_tables, window_tables. by rewrite K4.
Qed.
End Roundtrip.

(** C5. The end of a program that another one started: [halt] makes the processor
    go on in the frame the parent left, with the status; the identifier is free
    again, the terminal counts one process less and its current one is the
    parent, whose memory is back in the window, and a trap will find the stack
    the parent had.  Memory, the blocks and the other mappings are as before,
    and the accounts stay right. *)
Theorem halt_returns `{PlatformOk} (status : Z) (m : machine) (t : terminal_t) (p : pcb_t) :
  paging_ok m -> accounts m -> can_halt m t p -> Z.testbit (processes_flags m) (pid p) = true ->
  2 <= num_processes t ->
  exists m', halt status m = (Stop (ReturnTo status (parent_esp p) (parent_ebp p)), m') /\
    accounts m' /\
    (forall i, 0 <= i -> Z.testbit (processes_flags m') i = negb (i =? pid p) && Z.testbit (processes_flags m) i) /\
    terminal m' = <[Z.to_nat (term_cur m - 1) :=
      t <| num_processes := num_processes t - 1 |> <| term_pid := parent_pid p |>]> (terminal m) /\
    pcbs m' = pcbs m /\ phys m' = phys m /\ esp0 (tss m') = parent_esp p /\
    cpu_esp (cpu m') = parent_esp p /\ cpu_ebp (cpu m') = parent_ebp p /\
    (~ clock_open (fds m) -> io_log m' = io_log m) /\
    forall a, 0 <= a < 4294967296 -> translate_user (pg m') a =
      if decide (VIRTUAL_START <= a < VIRTUAL_END) then Some (window (parent_pid p) + (a - VIRTUAL_START))
      else translate_user (pg m) a.
Proof.
  intros Hok Ha Hch Hb Hn.
  destruct (halt_returns_ok execute status m t p Hok Hch Hn) as (m1 & [Hhw Hsame] & E); [by apply (others_live m t p)|].
  destruct (hw_keeps _ _ Hhw) as (K1 & K2 & K3 & K4 & K5 & K6).
  exists (resumed m1 t p). split; [rewrite halt_unfold; exact E|].
  split; [by apply (resumed_accounts m)|].
  split; [|split; [|split; [|split; [|split; [done|split; [done|split; [done|split]]]]]]].
  - intros i Hi. rewrite resumed_flags, released_flags, K5. apply clearbit_spec; [|done]. by destruct (ch_pid _ _ _ Hch).
  - by rewrite resumed_terminal, K1, K2.
  - exact K3.
  - exact K6.
  - intros Hno. change (io_log m1 = io_log m). by rewrite (Hsame Hno).
  - intros a Har. apply window_user; [done|by apply Hch| |done]. rewrite resumed_pg. unfold with_tables, window_tables. by rewrite K4.
Qed.

(** C4. A program started from a program returns to it: after [execute], whatever
    the new program does short of starting or ending processes, its [halt] makes
    the processor go on in the frame of [execute], from which [leave] and [ret] go back
    to where [execute] was called, with the status as the result; identifiers, the count and the current process
    of the terminal, and the window, are what they were. *)
Theorem execute_halt_roundtrip `{PlatformOk} (pb size : Z) (img : image) (m : machine) (p : ptr)
    (w words : list Z) (k : nat) (c : list Z) (n status : Z) (t : terminal_t) (m2 : machine) :
  kernel_ok pb size img m -> can_start m n t ->
  command_line m p w words -> ~ is_exit w -> program img w k c -> take 4 c = magic ->
  Z.of_nat (length c) <= FOUR_MB_BLOCK - 0x48000 ->
  1 <= num_processes t -> 0 <= term_pid t < 6 ->
  let m1 := launched m n t c words in
  ran m1 m2 n ->
  leave (frame_ebp (cpu m)) = u32 (cpu_esp (cpu m)) /\
  execute p m = (Stop (EnterUser (entry_point c) USER_STACK), m1) /\
  exists m3 t3, halt status m2 = (Stop (ReturnTo status (frame_esp (cpu m)) (frame_ebp (cpu m))), m3) /\
    processes_flags m3 = processes_flags m /\
    terminal m3 !! Z.to_nat (term_cur m - 1) = Some t3 /\
    num_processes t3 = num_processes t /\ term_pid t3 = term_pid t /\
    forall o, 0 <= o < FOUR_MB_BLOCK ->
      translate_user (pg m3) (VIRTUAL_START + o) = Some (window (term_pid t) + o).
Proof.
  intros Hk Hcs Hcl Hx Hprog Hmag Hlen Hn1 Htp m1 Hran. split; [apply leave_frame|].
  destruct (execute_halt_ok pb size img m p w words k c n status t m2) as (E & m3 & t3 & E3 & Hf & Ht & Hn & Hp & _ & _ & Hw);
    try done. split; [done|]. by exists m3, t3.
Qed.

Section Restart.
Context `{PlatformOk}.

Lemma released_kernel_ok pb size img m m1 t p :
  kernel_ok pb size img m -> hw_only (quiet m) m1 -> can_halt m t p ->
  Z.testbit (processes_flags m) (pid p) = true -> kernel_ok pb size img (released m1 t p).
Proof.
  intros Hk Hhw Hch Hb. pose proof (kernel_ok_hw _ _ _ _ _ (kernel_ok_quiet _ _ _ _ Hk) Hhw) as [Hok Hr Hap Hbl Hcur _].
  split; try done.
  - by apply (represents_ext pb size img m1).
  - intros n Hn. by destruct (Hap n Hn); split.
  - eapply (released_accounts m m1 t p); [apply Hk|done|done|done|reflexivity| |done|].
    + instantiate (1 := t <| num_processes := num_processes t - 1 |>). done.
    + destruct (hw_keeps _ _ Hhw) as (Hc & _). by rewrite released_terminal, Hc.
Qed.

Lemma resumed_kernel_ok pb size img m m1 t p :
  kernel_ok pb size img m -> hw_only (quiet m) m1 -> can_halt m t p ->
  Z.testbit (processes_flags m) (pid p) = true -> kernel_ok pb size img (resumed m1 t p).
Proof.
  intros Hk Hhw Hch Hb. pose proof (released_kernel_ok _ _ _ _ _ _ _ Hk Hhw Hch Hb) as Hk2.
  apply (kernel_ok_window pb size img (released m1 t p) _ (parent_pid p)); try done.
  - apply Hch.
  - intros n Hn. destruct (ko_blocks _ _ _ _ Hk2 n Hn) as [_ Hb2]. exact Hb2.
  - apply (resumed_accounts m); [apply Hk|done..].
Qed.

(** The shell is among the programs. *)
Definition shell_in (img : image) (c : list Z) : Prop :=
  exists k, program img (text "shell") k c /\ take 4 c = magic /\ Z.of_nat (length c) <= FOUR_MB_BLOCK - 0x48000.

Lemma shell_command (m : machine) : command_line m shell (text "shell") [].
Proof. apply shell_line. Qed.

(** [halt] of the last process of a terminal. *)
Lemma halt_restarts pb size img m t p c status :
  kernel_ok pb size img m -> can_halt m t p -> Z.testbit (processes_flags m) (pid p) = true ->
  num_processes t = 1 -> shell_in img c ->
  exists m1 n t', hw_only (quiet m) m1 /\ can_start (released m1 t p) n t' /\ num_processes t' = 0 /\
    halt status m = (Stop (EnterUser (entry_point c) USER_STACK), launched (released m1 t p) n t' c []).
Proof.
  intros Hk Hch Hb Hn (k & Hprog & Hmag & Hlen).
  pose proof (ch_current _ _ _ Hch) as [Hc Ht]. set (t1 := t <| num_processes := num_processes t - 1 |>).
  set (f' := Z.land (processes_flags m) (Z.lnot (Z.shiftl 1 (pid p)))).
  assert (live f' < 6) as Hlive.
  { unfold f'. rewrite live_free by (done || apply Hch). pose proof (live_range (processes_flags m)). lia. }
  destruct (proj1 (live_room f') Hlive) as [n Hpid].
  assert (forall m1, clock_effect (clock_open (fds m)) (quiet m) m1 ->
    can_start (released m1 t p) n t1 /\ execute shell (released m1 t p) =
      (Stop (EnterUser (entry_point c) USER_STACK), launched (released m1 t p) n t1 c [])) as Hex.
  { intros m1 [Hhw _]. pose proof (released_kernel_ok _ _ _ _ _ _ _ Hk Hhw Hch Hb) as Hk2.
    destruct (hw_keeps _ _ Hhw) as (K1 & K2 & _ & _ & K5 & _).
    assert (processes_flags (released m1 t p) = f') as Hf' by (by rewrite released_flags, K5).
    pose proof (proj1 (free_pid_Some _ _) Hpid) as [Hn6 _].
    assert (can_start (released m1 t p) n t1) as Hcs.
    { pose proof (ko_accounts _ _ _ _ Hk2) as Ha2. destruct (ko_blocks _ _ _ _ Hk2 n Hn6) as [Hl Hpok]. split.
      - apply Ha2.
      - by rewrite Hf'.
      - apply Ha2.
      - by apply accounts_counts.
      - rewrite (ac_total _ Ha2), Hf'. done.
      - split; [apply Hk2|]. change (term_cur (released m1 t p)) with (term_cur m1).
        rewrite released_terminal, K1, K2. apply list_lookup_insert_eq. by eapply lookup_lt_Some.
      - done.
      - done. }
    split; [done|]. apply (execute_ok pb size img _ shell (text "shell") [] k c n t1).
    - apply Hk2.
    - apply Hk2.
    - by apply Hk2.
    - done.
    - apply shell_command.
    - discriminate.
    - done.
    - done.
    - done. }
  destruct (halt_restarts_ok execute status m t p (EnterUser (entry_point c) USER_STACK)
    (fun m1 => launched (released m1 t p) n t1 c [])) as (m1 & Hce & E); [done|done|intros m1 Hm1; by apply Hex|].
  exists m1, n, t1. split; [apply Hce|]. split; [by apply Hex|]. split; [cbn; lia|]. rewrite halt_unfold. exact E.
Qed.

End Restart.

(** C1. An invariant of the whole kernel: the counts of the three terminals add up
    to the identifiers in use, the image, the blocks and the tables are in
    order.  From such a state, the limit of [can_execute] and the search of
    [get_new_pid] agree; [execute] of a program, while less than six processes
    are live, always enters it; [halt] of a process that is counted always
    ends, in its parent, or in a new shell when it was the last one of its
    terminal; and both leave such a state, with one process more, or one less
    (none less when the shell restarts).  So [execute] never finds the limit
    kept and no identifier free. *)
Theorem kernel_invariant `{PlatformOk} (pb size : Z) (img : image) (sh : list Z) (m : machine) :
  kernel_ok pb size img m -> shell_in img sh ->
  can_execute m = (Ok (if decide (is_Some (free_pid (processes_flags m))) then 1 else 0), m) /\
  (forall p w words k c, command_line m p w words -> ~ is_exit w -> program img w k c -> take 4 c = magic ->
     Z.of_nat (length c) <= FOUR_MB_BLOCK - 0x48000 -> live (processes_flags m) < 6 ->
     exists m', execute p m = (Stop (EnterUser (entry_point c) USER_STACK), m') /\
       kernel_ok pb size img m' /\ live (processes_flags m') = live (processes_flags m) + 1) /\
  (forall status t p, can_halt m t p -> Z.testbit (processes_flags m) (pid p) = true ->
     exists out m', halt status m = (Stop out, m') /\ kernel_ok pb size img m' /\
       if num_processes t =? 1
       then out = EnterUser (entry_point sh) USER_STACK /\ live (processes_flags m') = live (processes_flags m)
       else out = ReturnTo status (parent_esp p) (parent_ebp p) /\
            live (processes_flags m') = live (processes_flags m) - 1).
Proof.
  intros Hk Hsh. pose proof (ko_accounts _ _ _ _ Hk) as Ha. split; [|split].
  - rewrite can_execute_ok by (first [apply Ha|by apply accounts_counts]). rewrite (ac_total _ Ha). unfold MAX_PROCESSES.
    pose proof (live_room (processes_flags m)) as Hroom. unfold is_Some. destruct (decide _) as [Hs|Hs].
    + by rewrite (proj2 (Z.ltb_lt _ _)) by (by apply Hroom).
    + destruct (Z.ltb_spec (live (processes_flags m)) 6) as [Hlt|]; [|done]. exfalso. by apply Hs, Hroom.
  - intros p w words k c Hcl Hx Hprog Hmag Hlen Hlive. destruct (kernel_can_start _ _ _ _ Hk Hlive) as (n & t & Hcs).
    pose proof (proj1 (free_pid_Some _ _) (cs_pid _ _ _ Hcs)) as (Hn & Hfree & _).
    exists (launched m n t c words). split; [|split; [by apply launched_kernel_ok|by apply live_take]].
    apply (execute_ok pb size img m p w words k c n t); try done; [apply Hk|apply Hk|by apply Hk].
  - intros status t p Hch Hb. destruct (Z.eqb_spec (num_processes t) 1) as [Hn|Hn].
    + destruct (halt_restarts pb size img m t p sh status) as (m1 & n & t' & Hhw & Hcs & _ & E); try done.
      eexists _, _. split; [exact E|]. destruct Hsh as (k & _ & _ & Hlen).
      split; [apply launched_kernel_ok; [by apply (released_kernel_ok _ _ _ m)|done|done]|]. split; [done|].
      pose proof (proj1 (free_pid_Some _ _) (cs_pid _ _ _ Hcs)) as (Hn6 & Hfree & _).
      destruct (hw_keeps _ _ Hhw) as (_ & _ & _ & _ & K5 & _).
      rewrite launched_flags, live_take, released_flags, K5 by done. rewrite live_free by (done || apply Hch). lia.
    + pose proof (ch_count _ _ _ Hch) as Hcnt.
      destruct (halt_returns_ok execute status m t p) as (m1 & [Hhw _] & E); [apply Hk|done|lia| |].
      { apply (others_live m t p); [done|done|done|lia]. }
      eexists _, _. split; [rewrite halt_unfold; exact E|].
      split; [by apply (resumed_kernel_ok _ _ _ m)|]. split; [done|].
      destruct (hw_keeps _ _ Hhw) as (_ & _ & _ & _ & K5 & _). rewrite resumed_flags, released_flags, K5. apply live_free; [apply Hch|done].
Qed.

(** * A shell, and a program it has started *)

Section Running.
Context `{PlatformOk}.

Lemma shell_kernel_ok : kernel_ok 0x420000 0x3000 shell_image shell_machine.
Proof.
  split.
  - apply shell_paging_ok.
  - apply shell_represents.
  - apply shell_apart.
  - intros n Hn. destruct (get_pcb_range n) as [_ Hr]; [unfold MAX_PROCESSES; lia|].
    split; [eexists; apply shell_kernel_mapped; lia|split; reflexivity].
  - cbn. lia.
  - split; [unfold is_byte; cbn; lia|reflexivity|repeat constructor; cbn; lia|reflexivity].
Qed.

Lemma shell_in_image : shell_in shell_image shell_file.
Proof. exists 0%nat. split; [apply shell_program|]. split; [reflexivity|vm_compute; discriminate]. Qed.

Lemma launched_files m n t c words : table_ok (files (pcb_of (launched m n t c words) (get_pcb n))).
Proof. rewrite launched_pcb. msimp. apply new_pcb_table. Qed.

(** The first shell, in a system call. *)
Definition one_machine : machine := launched shell_machine 0 zero_terminal shell_file [].

Lemma one_kernel_ok : kernel_ok 0x420000 0x3000 shell_image one_machine.
Proof. apply launched_kernel_ok; [apply shell_kernel_ok|apply shell_can_start|vm_compute; discriminate]. Qed.

Definition one_terminal : terminal_t := zero_terminal <| num_processes := 1 |>.

Lemma one_block : let p := pcb_of one_machine (get_pcb 0) in
  pid p = 0 /\ parent_pid p = 0 /\ parent_esp p = frame_esp (cpu shell_machine) /\ parent_ebp p = 0x7FFFEC /\ table_ok (files p).
Proof.
  cbv zeta. pose proof (launched_files shell_machine 0 zero_terminal shell_file []) as Ht.
  unfold one_machine. split_and!; [..|exact Ht]; rewrite launched_pcb; unfold new_pcb; msimp; reflexivity.
Qed.

Lemma one_can_halt : can_halt one_machine one_terminal (pcb_of one_machine (get_pcb 0)).
Proof.
  destruct one_block as (H1 & H2 & _ & _ & H5).
  assert (current one_machine = get_pcb 0) as Hc by reflexivity.
  destruct (ko_blocks _ _ _ _ one_kernel_ok 0 ltac:(lia)) as [Hl _].
  split; rewrite ?Hc; unfold fds; rewrite ?Hc, ?H1, ?H2; try done; try lia.
Qed.

Lemma one_can_start : can_start one_machine 1 one_terminal.
Proof.
  pose proof one_kernel_ok as Hk. pose proof (ko_accounts _ _ _ _ Hk) as Ha.
  destruct (ko_blocks _ _ _ _ Hk 1 ltac:(lia)) as [Hl Hp]. split; try done.
  - by apply accounts_counts.
Qed.

(** Its child, in a system call on its own kernel stack. *)
Definition two_machine : machine :=
  (launched one_machine 1 one_terminal shell_file (text "a b")) <| cpu ::= fun c => c <| cpu_esp := 0x7FDFF0 |> |>.

Lemma kernel_ok_cpu pb size img m f : kernel_ok pb size img m -> kernel_ok pb size img (m <| cpu ::= f |>).
Proof.
  intros [Hok Hr Hap Hbl Hcur [H1 H2 H3 H4]]. split; [done| | |done|done|by split].
  - by apply (represents_ext pb size img m).
  - intros n Hn. by destruct (Hap n Hn); split.
Qed.

Lemma pcb_of_cpu m f a : pcb_of (m <| cpu ::= f |>) a = pcb_of m a.
Proof. done. Qed.

Lemma launched_stack m n t c words :
  frame_esp (cpu (launched m n t c words)) = frame_esp (cpu m) /\ frame_ebp (cpu (launched m n t c words)) = frame_ebp (cpu m).
Proof. done. Qed.

Lemma two_started :
  kernel_ok 0x420000 0x3000 shell_image (launched one_machine 1 one_terminal shell_file (text "a b")).
Proof. apply launched_kernel_ok; [apply one_kernel_ok|apply one_can_start|vm_compute; discriminate]. Qed.

Lemma two_kernel_ok : kernel_ok 0x420000 0x3000 shell_image two_machine.
Proof. apply kernel_ok_cpu, two_started. Qed.

Lemma ran_cpu m n f :
  current (m <| cpu ::= f |>) = get_pcb n -> is_Some (loc m (get_pcb n)) -> paging_ok m ->
  table_ok (files (pcb_of m (get_pcb n))) -> ran m (m <| cpu ::= f |>) n.
Proof.
  intros Hc Hl Hok Ht. split; try done. split; [done|]. intros i t Hi. by exists t.
Qed.

Lemma can_start_cpu m n t f : can_start m n t -> can_start (m <| cpu ::= f |>) n t.
Proof. intros [H1 H2 H3 H4 H5 H6 H7 H8]. by split. Qed.

Definition two_terminal : terminal_t := zero_terminal <| num_processes := 2 |> <| term_pid := 1 |>.

Lemma two_block : let p := pcb_of two_machine (get_pcb 1) in
  pid p = 1 /\ parent_pid p = 0 /\ parent_esp p = frame_esp (cpu shell_machine) /\ parent_ebp p = 0x7FFFEC /\ table_ok (files p).
Proof.
  cbv zeta. pose proof (launched_files one_machine 1 one_terminal shell_file (text "a b")) as Ht.
  unfold two_machine. rewrite pcb_of_cpu. destruct (launched_stack shell_machine 0 zero_terminal shell_file []) as [H1 H2].
  split_and!; [..|exact Ht]; rewrite launched_pcb; unfold new_pcb; msimp; [done|done|exact H1|exact H2].
Qed.

Lemma two_can_halt : can_halt two_machine two_terminal (pcb_of two_machine (get_pcb 1)).
Proof.
  destruct two_block as (H1 & H2 & _ & _ & H5).
  assert (current two_machine = get_pcb 1) as Hc by reflexivity.
  destruct (ko_blocks _ _ _ _ two_kernel_ok 1 ltac:(lia)) as [Hl _].
  split; rewrite ?Hc; unfold fds; rewrite ?Hc, ?H1, ?H2; try done; try lia.
Qed.
End Running.

Lemma halt_returns_witness :
  let P := plain_platform in
  exists m', halt 5 two_machine = (Stop (ReturnTo 5 0x7FFE8C 0x7FFFEC), m') /\ processes_flags m' = 1.
Proof.
  intros P. destruct (halt_returns 5 two_machine two_terminal (pcb_of two_machine (get_pcb 1)))
    as (m' & E & Ha & Hbits & _).
  - apply two_kernel_ok.
  - apply two_kernel_ok.
  - apply two_can_halt.
  - reflexivity.
  - cbn. lia.
  - exists m'. split; [exact E|]. apply Z.bits_inj'. intros i Hi. rewrite (Hbits i Hi).
    change (pid (pcb_of two_machine (get_pcb 1))) with 1. change (processes_flags two_machine) with (Z.lor 1 (Z.shiftl 1 1)).
    rewrite <- clearbit_spec by lia. by rewrite free_after_take.
Defined.

Lemma execute_halt_roundtrip_witness :
  let P := plain_platform in
  execute (cstr (text "shell a b")) one_machine =
    (Stop (EnterUser 0x8048000 USER_STACK), launched one_machine 1 one_terminal shell_file (text "a b")) /\
  exists m3, halt 5 two_machine = (Stop (ReturnTo 5 0x7FFE8C 0x7FFFEC), m3) /\ processes_flags m3 = 1.
Proof.
  intros P.
  destruct (execute_halt_roundtrip 0x420000 0x3000 shell_image one_machine (cstr (text "shell a b")) (text "shell")
    (text "a b") 0 shell_file 1 5 one_terminal two_machine) as (_ & E1 & m3 & t3 & E3 & Hf & _).
  - apply one_kernel_ok.
  - apply one_can_start.
  - apply shell_args_line.
  - discriminate.
  - apply shell_program.
  - reflexivity.
  - vm_compute. discriminate.
  - cbn. lia.
  - cbn. lia.
  - apply ran_cpu.
    + reflexivity.
    + apply (ko_blocks _ _ _ _ two_started 1). lia.
    + apply launched_paging_ok. apply one_kernel_ok.
    + apply launched_files.
  - split; [exact E1|]. exists m3. split; [exact E3|exact Hf].
Defined.

Lemma kernel_invariant_witness :
  let P := plain_platform in
  can_execute one_machine = (Ok 1, one_machine) /\
  exists m', halt 0 one_machine = (Stop (EnterUser 0x8048000 USER_STACK), m') /\ live (processes_flags m') = 1.
Proof.
  intros P. destruct (kernel_invariant 0x420000 0x3000 shell_image shell_file one_machine) as (E & _ & Hh).
  - apply one_kernel_ok.
  - apply shell_in_image.
  - rewrite decide_True in E by (eexists; reflexivity). split; [exact E|].
    destruct (Hh 0 one_terminal (pcb_of one_machine (get_pcb 0))) as (out & m' & E1 & _ & Hout).
    + apply one_can_halt.
    + reflexivity.
    + cbn in Hout. destruct Hout as [-> Hl]. exists m'. split; [exact E1|exact Hl].
Defined.
