(* ===== verification/Syscalls.v ===== *)
(** The system calls as programs make them: the trap through vector 0x80, the
    dispatch of [student-distrib/interrupt_handlers.S], and the calls [getargs],
    [vidmap], [set_handler] and [sigreturn] of [student-distrib/syscalls.c].

    The words that the trap and [handle_syscall] push are a list beside the machine, its top
    first; the machine has the stack pointer, which decides which process is current and
    what [execute] saves. *)

From S2P Require Import Prelude Memory CLib Machine I8259 Rtc Pcb Rofs Paging Screen Keyboard TermIO Files Process Launch Halt.

Definition VIDEOMEM : Z := 0xB8000.

(** The registers of a program at a trap; [%esp] and [%ebp] are in the machine. *)
Record regs := Regs {
  r_eax : Z; r_ebx : Z; r_ecx : Z; r_edx : Z; r_esi : Z; r_edi : Z; r_eip : Z
}.

(** The registers after a call. *)
Definition with_result (r : regs) (v : Z) : regs :=
  Regs v (r_ebx r) (r_ecx r) (r_edx r) (r_esi r) (r_edi r) (r_eip r).

Section Calls.
Context `{Platform}.

(** [*(uint32_t * )a = v] *)
Definition bytes32 (v : Z) : list Z := [u8 v; u8 (Z.shiftr v 8); u8 (Z.shiftr v 16); u8 (Z.shiftr v 24)].

Definition store32 (a v : Z) : K unit :=
  store8 a (u8 v);;
  store8 (a + 1) (u8 (Z.shiftr v 8));;
  store8 (a + 2) (u8 (Z.shiftr v 16));;
  store8 (a + 3) (u8 (Z.shiftr v 24)).

Definition getargs (buf nbytes : Z) : K Z :=
  if buf =? 0 then mret (-1)
  else
    pcb ← get_current_pcb;
    p ← pcb_read pcb;
    l ← strlen (Buf (args p) 0);
    if l =? 0 then mret (-1)
    else
      let nbytes := if MAX_ARGS_LENGTH <? nbytes then MAX_ARGS_LENGTH else nbytes in
      p ← pcb_read pcb;
      memcpy (Raw buf) (Buf (args p) 0) nbytes;;
      mret 0.

Definition vidmap (screen_start : Z) : K Z :=
  if screen_start =? 0 then mret (-1)
  else if (i32 screen_start <? VIRTUAL_START) || (VIRTUAL_END <? i32 screen_start) then mret (-1)
  else
    remapWithPageTable VIRTUAL_END VIDEOMEM;;
    store32 screen_start VIRTUAL_END;;
    mret 0.

Definition set_handler (signum handler_address : Z) : K Z := mret (-1).

Definition sigreturn : K Z := mret (-1).

(** The table of the calls; entry 0 is null.  The arguments are the registers,
    read at the width of the parameters. *)
Definition syscalls (service : K unit) (eax ebx ecx edx : Z) : K Z :=
  if eax =? 1 then halt (u8 ebx)
  else if eax =? 2 then execute (Raw (u32 ebx))
  else if eax =? 3 then read service (i32 ebx) (u32 ecx) (i32 edx)
  else if eax =? 4 then write (i32 ebx) (u32 ecx) (i32 edx)
  else if eax =? 5 then open (Raw (u32 ebx))
  else if eax =? 6 then close (i32 ebx)
  else if eax =? 7 then getargs (u32 ebx) (i32 ecx)
  else if eax =? 8 then vidmap (u32 ebx)
  else if eax =? 9 then set_handler (i32 ebx) (u32 ecx)
  else if eax =? 10 then sigreturn
  else raise (PageFault 0).

(** [n] words pushed on, and taken off, the kernel stack. *)
Definition push (n : Z) : K unit :=
  modify (fun m => m <| cpu ::= fun c => c <| cpu_esp ::= fun e => u32 (e - 4 * n) |> |>).
Definition pop (n : Z) : K unit :=
  modify (fun m => m <| cpu ::= fun c => c <| cpu_esp ::= fun e => u32 (e + 4 * n) |> |>).

Definition popfl (fl : bool) : K unit := pop 1;; modify (fun m => m <| cpu ::= fun c => c <| IF := fl |> |>).

(** One word pushed on the kernel stack, one taken off, and [n] dropped; [stk] is what
    lies on it since the trap, its top first. *)
Definition pushl (w : Z) (stk : list Z) : K (list Z) := push 1;; mret (w :: stk).
Definition popl (stk : list Z) : K (Z * list Z) :=
  match stk with
  | [] => raise OutOfBounds
  | w :: stk => pop 1;; mret (w, stk)
  end.
Definition addl_esp (n : nat) (stk : list Z) : K (list Z) := pop (Z.of_nat n);; mret (drop n stk).

(** The flags as a word on the stack: bit 9 is the interrupt flag. *)
Definition flags_word (b : bool) : Z := if b then 0x200 else 0.
Definition set_flags (w : Z) : K unit := modify (fun m => m <| cpu ::= fun c => c <| IF := Z.testbit w 9 |> |>).

(** What the C function leaves in the registers is not looked at: all but [%eax] are
    taken from the stack. *)
Definition handle_syscall (service : K unit) (r : regs) (stk : list Z) : K (regs * list Z) :=
  fl ← gets (fun m => IF (cpu m));
  stk ← pushl (flags_word fl) stk;
  if (i32 (r_eax r) <? 1) || (10 <? i32 (r_eax r)) then
    '(fl, stk) ← popl stk;
    set_flags fl;;
    sti;;
    mret (Regs (-1) (r_ebx r) (r_ecx r) (r_edx r) (r_esi r) (r_edi r) (r_eip r), stk)
  else
    stk ← pushl (r_ebx r) stk;
    stk ← pushl (r_ecx r) stk;
    stk ← pushl (r_edx r) stk;
    ebp ← gets (fun m => cpu_ebp (cpu m));
    stk ← pushl ebp stk;
    stk ← pushl (r_esi r) stk;
    stk ← pushl (r_edi r) stk;
    stk ← pushl (r_edx r) stk;
    stk ← pushl (r_ecx r) stk;
    stk ← pushl (r_ebx r) stk;
    sti;;
    stk ← pushl 0 stk; (* the return address *)
    eax ← match stk with
          | _ :: a1 :: a2 :: a3 :: _ => syscalls service (r_eax r) a1 a2 a3
          | _ => raise OutOfBounds
          end;
    '(_, stk) ← popl stk; (* [ret] *)
    cli;;
    stk ← addl_esp 3 stk;
    '(edi, stk) ← popl stk;
    '(esi, stk) ← popl stk;
    '(ebp, stk) ← popl stk;
    modify (fun m => m <| cpu ::= fun c => c <| cpu_ebp := ebp |> |>);;
    '(edx, stk) ← popl stk;
    '(ecx, stk) ← popl stk;
    '(ebx, stk) ← popl stk;
    '(fl, stk) ← popl stk;
    set_flags fl;;
    sti;;
    mret (Regs eax ebx ecx edx esi edi (r_eip r), stk).

(** [iret] to user mode. *)
Definition iret (r : regs) (stk : list Z) : K regs :=
  '(eip, stk) ← popl stk;
  '(_, stk) ← popl stk;
  '(fl, stk) ← popl stk;
  '(esp, stk) ← popl stk;
  '(_, _) ← popl stk;
  set_flags fl;;
  modify (fun m => m <| cpu ::= fun c => c <| cpu_esp := esp |> |>);;
  mret (Regs (r_eax r) (r_ebx r) (r_ecx r) (r_edx r) (r_esi r) (r_edi r) eip).

(** [int $0x80] in user mode: the processor takes the stack of the TSS and pushes
    [%ss], [%esp], the flags, [%cs] and [%eip]; the gate is a trap gate, which leaves the
    interrupt flag alone. *)
Definition int80_regs (service : K unit) (r : regs) : K regs :=
  c ← gets cpu;
  modify (fun m => m <| cpu ::= fun c => c <| cpu_esp := u32 (esp0 (tss m)) |> |>);;
  stk ← pushl USER_DS [];
  stk ← pushl (cpu_esp c) stk;
  stk ← pushl (flags_word (IF c)) stk;
  stk ← pushl USER_CS stk;
  stk ← pushl (r_eip r) stk;
  '(r, stk) ← handle_syscall service r stk;
  iret r stk.

(** The result of the call alone. *)
Definition int80 (service : K unit) (eax ebx ecx edx : Z) : K Z :=
  r ← int80_regs service (Regs eax ebx ecx edx 0 0 0);
  mret (r_eax r).
End Calls.

(** * The trap *)

Section Trap.
Context `{Platform}.

(** The state in which a call starts: sixteen words below the stack of the TSS. *)
Definition entered (m : machine) : machine :=
  m <| cpu ::= fun c => c <| cpu_esp := u32 (esp0 (tss m) - 64) |> <| IF := true |> |>.

(** What one program that runs to its end costs its parent of kernel stack: a trap, the
    frame pointer of [execute] and the rest of its frame. *)
Definition RUN_STACK : Z := 64 + 4 + execute_frame.

Lemma run_stack `{!PlatformOk} : 392 <= RUN_STACK.
Proof. pose proof frame_locals. unfold RUN_STACK. lia. Qed.

(** And the one the program goes on in. *)
Definition left (m m' : machine) : machine :=
  m' <| cpu ::= fun c => c <| cpu_esp := cpu_esp (cpu m) |> <| cpu_ebp := cpu_ebp (cpu m) |> <| IF := IF (cpu m) |> |>.

Lemma u32_sub_0 a b : u32 (u32 a - b) = u32 (a - b).
Proof. unfold u32. by rewrite Zminus_mod_idemp_l. Qed.

Lemma frame_entered m :
  frame_esp (cpu (entered m)) = u32 (esp0 (tss m) - RUN_STACK) /\ frame_ebp (cpu (entered m)) = u32 (esp0 (tss m) - 68) /\
  leave (frame_ebp (cpu (entered m))) = cpu_esp (cpu (entered m)).
Proof.
  assert (cpu_esp (cpu (entered m)) = u32 (esp0 (tss m) - 64)) as E by done.
  rewrite leave_frame. unfold frame_esp, frame_ebp, RUN_STACK. rewrite E, u32_u32, <- !Z.sub_add_distr, !u32_sub_0.
  split_and!; [f_equal; lia|f_equal; lia|done].
Qed.

Lemma flags_word_bit b : Z.testbit (flags_word b) 9 = b.
Proof. by destruct b. Qed.

(** The way in, and the way out. *)
Lemma int80_regs_call service r m :
  1 <= r_eax r <= 10 ->
  int80_regs service r m =
  match syscalls service (r_eax r) (r_ebx r) (r_ecx r) (r_edx r) (entered m) with
  | (Ok v, m') => (Ok (with_result r v), left m m')
  | (Stop e, m') => (Stop e, m')
  end.
Proof.
  intros He. unfold int80_regs, handle_syscall, pushl, push, sti. mrun.
  replace ((i32 (r_eax r) <? 1) || (10 <? i32 (r_eax r))) with false by (rewrite i32_small by lia; by zb). mrun.
  match goal with |- context [syscalls _ _ _ _ _ ?mm] => assert (mm = entered m) as -> end.
  { unfold entered. destruct m as [? ? ? [] ? ? ? ? ? ? ? ? ? ? ? ? [] ? ? ?]. cbn -[u32].
    repeat first [rewrite <- Z.sub_add_distr|rewrite u32_sub_0]. done. }
  destruct (syscalls service (r_eax r) (r_ebx r) (r_ecx r) (r_edx r) (entered m)) as [[v|e] m']; [|done].
  unfold popl, pop, cli, addl_esp, pop, set_flags, iret, popl, pop, set_flags. mrun. cbn [drop]. mrun.
  by rewrite !flags_word_bit.
Qed.

Lemma int80_regs_bad service r m :
  ~ 1 <= i32 (r_eax r) <= 10 -> int80_regs service r m = (Ok (with_result r (-1)), m).
Proof.
  intros He. unfold int80_regs, handle_syscall, pushl, push, sti. mrun.
  replace ((i32 (r_eax r) <? 1) || (10 <? i32 (r_eax r))) with true
    by (symmetry; apply orb_true_iff; rewrite !Z.ltb_lt; lia).
  unfold popl, pop, iret, popl, pop, set_flags. mrun. rewrite !flags_word_bit. f_equal.
  by destruct m as [? ? ? [] ? ? ? ? ? ? ? ? ? ? ? ? ? ? ? ?].
Qed.

Lemma int80_call service eax ebx ecx edx m :
  1 <= eax <= 10 ->
  int80 service eax ebx ecx edx m =
  match syscalls service eax ebx ecx edx (entered m) with
  | (Ok r, m') => (Ok r, left m m')
  | (Stop e, m') => (Stop e, m')
  end.
Proof.
  intros He. unfold int80. rewrite bind_run, int80_regs_call by done. cbn [r_eax r_ebx r_ecx r_edx].
  by destruct (syscalls service eax ebx ecx edx (entered m)) as [[v|e] m'].
Qed.

Lemma int80_bad service eax ebx ecx edx m :
  ~ 1 <= i32 eax <= 10 -> int80 service eax ebx ecx edx m = (Ok (-1), m).
Proof. intros He. unfold int80. by rewrite bind_run, int80_regs_bad. Qed.

Lemma entered_current m n :
  0 <= n < MAX_PROCESSES -> get_pcb n + 64 <= esp0 (tss m) < get_pcb n + 64 + EIGHT_KB_BLOCK ->
  current (entered m) = get_pcb n.
Proof.
  intros Hn He. change (current (entered m)) with (Z.land (u32 (u32 (esp0 (tss m) - 64))) PCB_MASK).
  rewrite u32_u32. apply stack_pcb; [done|]. lia.
Qed.
End Trap.

(** * The calls *)

Section Args.
Context `{Platform}.

(** The arguments of the current process, as a null-padded array. *)
Lemma getargs_ok m words buf pbuf (k : nat) nbytes :
  is_Some (loc m (current m)) -> args (pcb_of m (current m)) = words ++ replicate (128 - length words) 0 ->
  Forall arg_char words -> (length words < 128)%nat -> buf <> 0 ->
  0 <= nbytes < 2147483648 -> k = Z.to_nat (Z.min nbytes 128) ->
  maps m buf pbuf (Z.of_nat k) ->
  getargs buf nbytes m =
  if decide (words = []) then (Ok (-1), m)
  else (Ok 0, upds m pbuf (take k (words ++ replicate (128 - length words) 0))).
Proof.
  intros Hl Ha Hw Hwl Hbuf Hn -> Hm. unfold getargs. rewrite (proj2 (Z.eqb_neq _ _)) by done.
  go get_current_pcb_run. go (pcb_read_run m (current m)) by done. rewrite Ha.
  destruct (128 - length words)%nat as [|j] eqn:Ej; [lia|].
  assert (reads m (Buf (words ++ replicate (S j) 0) 0) (words ++ [0])) as Hr.
  { apply (reads_app_l m _ _ (replicate j 0)). rewrite <- app_assoc. apply reads_buf0. }
  go (strlen_ok m (Buf (words ++ replicate (S j) 0) 0) words Hr) by (first [by apply arg_no_null|lia]).
  destruct (decide (words = [])) as [->|Hne]; [done|].
  rewrite (proj2 (Z.eqb_neq _ 0)) by (destruct words; cbn; [done|lia]).
  go (pcb_read_run m (current m)) by done. rewrite Ha.
  assert ((if MAX_ARGS_LENGTH <? nbytes then MAX_ARGS_LENGTH else nbytes) = Z.of_nat (Z.to_nat (Z.min nbytes 128))) as ->.
  { unfold MAX_ARGS_LENGTH. destruct (Z.ltb_spec 128 nbytes); lia. }
  go (memcpy_from_buf m buf pbuf (words ++ replicate (S j) 0) (Z.to_nat (Z.min nbytes 128))) by
    (first [done|lia|rewrite length_app, length_replicate; lia]). done.
Qed.
End Args.

Section Video.
Context `{PlatformOk}.

(** The window leads to the memory of process [n]. *)
Definition in_window (m : machine) (n : Z) : Prop :=
  pageDir (tabs (pg m)) !! 32%nat = Some (Z.lor (window n) RW_FLAGS).

Lemma window_entry t n a :
  pageDir t !! 32%nat = Some (Z.lor (window n) RW_FLAGS) -> 0 <= n < 6 -> VIRTUAL_START <= a < VIRTUAL_END ->
  walk t a = Some (window n + (a - VIRTUAL_START), true).
Proof.
  unfold VIRTUAL_START, VIRTUAL_END. intros Hd Hn Ha.
  assert (dir_index a = 32) as Hi.
  { pose proof (dir_index_window a) as Hw. unfold VIRTUAL_START, VIRTUAL_END in Hw.
    revert Hw. zb. intros Hw. by apply Z.eqb_eq. }
  assert (window n mod FOUR_MB = 0) as Hal.
  { unfold window, PHYSICAL_START, FOUR_MB_BLOCK, FOUR_MB.
    replace (0x800000 + n * 0x400000) with ((2 + n) * 4194304) by lia. apply Z_mod_mult. }
  assert (0 <= window n < 4294967296) as Hr by (unfold window, PHYSICAL_START, FOUR_MB_BLOCK; lia).
  rewrite (walk_big t a (window n) RW_FLAGS); [|by rewrite Hi|done|done|done|done|done].
  do 2 f_equal. unfold big_offset, FOUR_MB. replace a with (a - 0x8000000 + 32 * 4194304) at 1 by lia.
  rewrite Z_mod_plus_full, Z.mod_small; lia.
Qed.

(** The tables after [vidmap]. *)
Definition video_tables (t : tables) : tables :=
  put_user 0 (Z.lor VIDEOMEM RWP_FLAGS) (put_dir 33 (Z.lor addr_userTable RWP_FLAGS) t).

Lemma vidmap_tables m :
  remapWithPageTable VIRTUAL_END VIDEOMEM m = (Ok tt, with_tables m (video_tables (tabs (pg m)))).
Proof. rewrite remapWithPageTable_page. rewrite remapToPage_run by lia. done. Qed.

Lemma video_window t n :
  tables_ok t -> pageDir t !! 32%nat = Some (Z.lor (window n) RW_FLAGS) ->
  pageDir (video_tables t) !! 32%nat = Some (Z.lor (window n) RW_FLAGS).
Proof. intros Ht Hd. unfold video_tables, put_user, put_dir. msimp. by rewrite list_lookup_insert_ne by done. Qed.

Lemma video_page t o :
  tables_ok t -> 0 <= o < 4096 -> walk (video_tables t) (VIRTUAL_END + o) = Some (VIDEOMEM + o, true).
Proof.
  intros Ht Ho. unfold VIRTUAL_END, VIDEOMEM.
  pose proof (walk_user_page VIRTUAL_END VIDEOMEM 0 t (0x8400000 + o) Ht) as Hw.
  unfold VIRTUAL_END, VIDEOMEM in Hw. rewrite (u32_small 0x8400000), (u32_small 0xB8000) in Hw by lia.
  unfold video_tables. unfold VIDEOMEM. change (0x8400000 / FOUR_MB) with 33 in Hw. rewrite Hw; try done; try lia.
  - do 2 f_equal. unfold page_offset, FOUR_KB. replace (0x8400000 + o) with (o + 33792 * 4096) by lia.
    rewrite Z_mod_plus_full, Z.mod_small; lia.
  - change (dir_index 0x8400000) with 33. unfold dir_index, FOUR_MB. symmetry. apply Z.div_unique with o; lia.
  - unfold page_index, FOUR_KB. replace ((0x8400000 + o) / 4096) with 33792; [done|].
    apply Z.div_unique with o; lia.
Qed.

(** A pointer out of the program. *)
Lemma vidmap_refused m s : 0 <= s < 4294967296 -> ~ VIRTUAL_START <= s <= VIRTUAL_END -> vidmap s m = (Ok (-1), m).
Proof.
  intros Hs Hout. unfold vidmap. destruct (Z.eqb_spec s 0) as [|Hs0]; [done|].
  assert ((i32 s <? VIRTUAL_START) || (VIRTUAL_END <? i32 s) = true) as ->; [|done].
  apply orb_true_iff. rewrite !Z.ltb_lt. unfold VIRTUAL_START, VIRTUAL_END in *. unfold i32.
  destruct (Z.lt_ge_cases s 2147483648).
  - rewrite Z.mod_small by lia. lia.
  - left. replace (s + 2147483648) with (s - 2147483648 + 1 * 4294967296) by lia.
    rewrite Z_mod_plus_full, Z.mod_small by lia. lia.
Qed.

(** Storing a word. *)
Lemma store32_ok (m : machine) a pa v :
  maps m a pa 4 -> store32 a v m = (Ok tt, upds m pa (bytes32 v)).
Proof.
  intros Hm. unfold store32.
  pose proof (store8_maps m a pa 4 0 (u8 v) Hm ltac:(lia)) as E0. rewrite !Z.add_0_r in E0. go E0.
  assert (forall mm p x, maps mm a pa 4 -> maps (upd mm p x) a pa 4) as Hup by (intros; by apply maps_upd).
  go (fun mm => store8_maps mm a pa 4) by (first [repeat apply Hup; exact Hm|lia]).
  go (fun mm => store8_maps mm a pa 4) by (first [repeat apply Hup; exact Hm|lia]).
  go (fun mm => store8_maps mm a pa 4) by (first [repeat apply Hup; exact Hm|lia]).
  unfold upds, bytes32. cbn [upds]. rewrite <- !Z.add_assoc, !u8_u8. done.
Qed.

Lemma cell32_stored (m : machine) pa v : 0 <= v < 4294967296 -> cell32 (upds m pa (bytes32 v)) pa = v.
Proof.
  intros Hv. unfold cell32.
  pose proof (fun i Hi => cell_upds_in m pa (bytes32 v) i Hi) as Hc.
  pose proof (Hc 0%nat ltac:(cbn; lia)) as C0. pose proof (Hc 1%nat ltac:(cbn; lia)) as C1.
  pose proof (Hc 2%nat ltac:(cbn; lia)) as C2. pose proof (Hc 3%nat ltac:(cbn; lia)) as C3.
  change (Z.of_nat 0) with 0 in C0. change (Z.of_nat 1) with 1 in C1. change (Z.of_nat 2) with 2 in C2.
  change (Z.of_nat 3) with 3 in C3. rewrite Z.add_0_r in C0. rewrite C0, C1, C2, C3.
  unfold bytes32. cbn [lookup_total list_lookup_total]. rewrite !u8_u8.
  unfold le32, u8. rewrite !Z.shiftr_div_pow2 by lia.
  change (2 ^ 8) with 256. change (2 ^ 16) with (256 * 256). change (2 ^ 24) with (256 * 256 * 256).
  rewrite <- !Z.div_div by lia.
  pose proof (Z.div_mod v 256 ltac:(lia)). pose proof (Z.div_mod (v / 256) 256 ltac:(lia)).
  pose proof (Z.div_mod (v / 256 / 256) 256 ltac:(lia)).
  rewrite (Z.mod_small (v / 256 / 256 / 256)); [lia|].
  split; [repeat apply Z.div_pos; lia|]. repeat (apply Z.div_lt_upper_bound; [lia|]). lia.
Qed.
End Video.

(** * The shell and its child, in user mode *)

Section Users.
Context `{PlatformOk}.

Lemma launched_in_window m n t c words : paging_ok m -> in_window (launched m n t c words) n.
Proof.
  intros ((Hl & _) & _). unfold in_window. change (pageDir (tabs (pg (launched m n t c words)))) with
    (<[32%nat := Z.lor (window n) RW_FLAGS]> (pageDir (tabs (pg m)))). apply list_lookup_insert_eq. lia.
Qed.

(** The program of process 1, before a system call. *)
Definition child_machine : machine := launched one_machine 1 one_terminal shell_file (text "a b").

Lemma entered_child_current : current (entered child_machine) = get_pcb 1.
Proof.
  apply entered_current; [unfold MAX_PROCESSES; lia|].
  change (esp0 (tss child_machine)) with 0x7FDFFC. change (get_pcb 1) with 0x7FC000. unfold EIGHT_KB_BLOCK. lia.
Qed.

Lemma child_in_window : in_window child_machine 1.
Proof. unfold child_machine. apply (launched_in_window one_machine), one_kernel_ok. Qed.

Lemma one_in_window : in_window one_machine 0.
Proof. unfold one_machine. apply (launched_in_window shell_machine), shell_paging_ok. Qed.

Lemma child_ran : ran child_machine (entered child_machine) 1.
Proof.
  apply ran_cpu; [apply entered_child_current|unfold child_machine..].
  - apply (ko_blocks _ _ _ _ two_started 1). lia.
  - apply launched_paging_ok, one_kernel_ok.
  - apply launched_files.
Qed.

(** The name of the first entry of the image is a command line. *)
Lemma one_reads_shell : reads one_machine (Raw 0x420040) (text "shell" ++ [0]).
Proof.
  assert (paging_ok one_machine) as Hok by apply one_kernel_ok.
  assert (cells one_machine 0x420040 6 = text "shell" ++ [0]) as <-.
  { rewrite (cells_ext shell_machine).
    - reflexivity.
    - intros q Hq. unfold one_machine. rewrite launched_cells. apply cell_upds_out.
      unfold window, PHYSICAL_START, FOUR_MB_BLOCK. lia. }
  apply (reads_maps one_machine 0x420040 0x420040 6). intros i Hi. rewrite u32_small by lia.
  cbn [loc machine_memory].
  destruct (launched_view shell_machine 0 zero_terminal shell_file []) as [_ Ho _ _ _ _ _ _].
  - apply shell_paging_ok.
  - lia.
  - apply (bool_decide_unpack _). vm_compute. done.
  - constructor.
  - cbn. lia.
  - unfold one_machine. rewrite (proj2 (Ho (0x420040 + i) ltac:(lia) ltac:(unfold VIRTUAL_START; lia))).
    apply shell_kernel_mapped. lia.
Qed.

Lemma entered_reads m p l : reads m p l -> reads (entered m) p l.
Proof. by apply reads_ext. Qed.

Lemma entered_shell_line : command_line (entered one_machine) (Raw 0x420040) (text "shell") [].
Proof.
  split; [done|repeat constructor; done|cbn; lia|constructor|cbn; lia|].
  exists 0. split; [by left|]. left. split; [done|]. apply entered_reads, one_reads_shell.
Qed.
End Users.

(** * Properties *)

(** C13. What [execute] passes, [getargs] gets: in the program started by a command
    line, [getargs] of a buffer in its memory stores the words after the command,
    padded with null bytes to the size asked for, 128 at most; it gives -1, with
    nothing stored, when there are none or when the buffer is null. *)
Theorem arguments_reach_program `{PlatformOk} (pb size : Z) (img : image) (m : machine) (p : ptr)
    (w words : list Z) (k : nat) (c : list Z) (n : Z) (t : terminal_t) (m2 : machine)
    (service : K unit) (o nbytes edx : Z) :
  kernel_ok pb size img m -> can_start m n t ->
  command_line m p w words -> ~ is_exit w -> program img w k c -> take 4 c = magic ->
  Z.of_nat (length c) <= FOUR_MB_BLOCK - 0x48000 ->
  let m1 := launched m n t c words in
  ran m1 (entered m2) n -> in_window m2 n ->
  0 <= nbytes < 2147483648 -> 0 <= o -> o + Z.min nbytes 128 <= FOUR_MB_BLOCK ->
  let j := Z.to_nat (Z.min nbytes 128) in
  execute p m = (Stop (EnterUser (entry_point c) USER_STACK), m1) /\
  int80 service 7 0 nbytes edx m2 = (Ok (-1), left m2 (entered m2)) /\
  if decide (words = []) then int80 service 7 (VIRTUAL_START + o) nbytes edx m2 = (Ok (-1), left m2 (entered m2))
  else exists m3, int80 service 7 (VIRTUAL_START + o) nbytes edx m2 = (Ok 0, m3) /\
    cells m3 (window n + o) j = take j (words ++ replicate (128 - length words) 0) /\
    forall q, ~ window n + o <= q < window n + o + Z.of_nat j -> cell m3 q = cell m2 q.
Proof.
  intros Hk Hcs Hcl Hx Hprog Hmag Hlen m1 [Hst Hmap Hok2 _ _ _ (_ & _ & _ & _ & Hargs & _)] Hwin Hnb Ho Hfit j.
  pose proof (proj1 (free_pid_Some _ _) (cs_pid _ _ _ Hcs)) as (Hn & _).
  split; [apply (execute_ok pb size img m p w words k c n t); try done; by apply Hk|].
  unfold FOUR_MB_BLOCK in Hfit.
  rewrite !int80_call by lia. cbn [syscalls Z.eqb Pos.eqb]. rewrite (i32_small nbytes) by lia.
  change (u32 0) with 0. split; [done|]. rewrite u32_small by (unfold VIRTUAL_START; lia).
  assert (args (pcb_of (entered m2) (current (entered m2))) = words ++ replicate (128 - length words) 0) as Ha.
  { rewrite Hst, Hargs. unfold m1. rewrite launched_pcb. msimp. apply strncpy_word; [|apply Hcl].
    apply arg_no_null, Hcl. }
  assert (maps (entered m2) (VIRTUAL_START + o) (window n + o) (Z.of_nat j)) as Hbuf.
  { intros i Hi. rewrite u32_small by (unfold VIRTUAL_START; lia). cbn [loc machine_memory].
    rewrite translate_ok by done. change (tabs (pg (entered m2))) with (tabs (pg m2)).
    rewrite (window_entry _ n) by (first [done|unfold VIRTUAL_START, VIRTUAL_END; lia]). cbn. f_equal. lia. }
  rewrite (getargs_ok (entered m2) words (VIRTUAL_START + o) (window n + o) j nbytes) by
    (first [done|by rewrite Hst|apply Hcl|unfold VIRTUAL_START; lia]).
  destruct (decide (words = [])); [done|]. eexists. split; [done|].
  set (l := take j (words ++ replicate (128 - length words) 0)).
  assert (length l = j) as Hl.
  { unfold l. rewrite length_take, length_app, length_replicate. pose proof (cl_words_length _ _ _ _ Hcl). lia. }
  assert (forall q, cell (left m2 (upds (entered m2) (window n + o) l)) q = cell (upds (entered m2) (window n + o) l) q)
    as Hcell by done.
  split.
  - rewrite (cells_ext (upds (entered m2) (window n + o) l)) by (intros; apply Hcell).
    apply cells_stored; [|done].
    apply Forall_take, Forall_app. split; [apply arg_bytes, Hcl|]. apply Forall_replicate. unfold is_byte. lia.
  - intros q Hq. rewrite Hcell, cell_upds_out by lia. done.
Qed.

Lemma arguments_reach_program_witness :
  let P := plain_platform in
  exists m3, int80 (mret tt) 7 0x8000100 32 0 child_machine = (Ok 0, m3) /\
    cells m3 0xC00100 32 = text "a b" ++ replicate 29 0.
Proof.
  intros P.
  destruct (arguments_reach_program 0x420000 0x3000 shell_image one_machine (cstr (text "shell a b")) (text "shell")
    (text "a b") 0 shell_file 1 one_terminal child_machine (mret tt) 0x100 32 0) as (_ & _ & E).
  - apply one_kernel_ok.
  - apply one_can_start.
  - apply shell_args_line.
  - discriminate.
  - apply shell_program.
  - reflexivity.
  - vm_compute. discriminate.
  - exact child_ran.
  - exact child_in_window.
  - lia.
  - lia.
  - unfold FOUR_MB_BLOCK. lia.
  - destruct (decide (text "a b" = [])) as [Hd|_]; [discriminate Hd|].
    destruct E as (m3 & E & Hc & _). exists m3. split; [exact E|exact Hc].
Defined.

(** C14. [vidmap]: a null or outside pointer gives -1 and changes nothing; one to a
    word in the memory of the process gets the address 0x8400000 stored in it, where the
    program can then use the page of the video memory, its own memory staying
    where it was.  The check lets 0x8400000 itself pass: the word is then stored
    in the video memory. *)
Theorem vidmap_maps `{PlatformOk} (m : machine) (n s : Z) :
  paging_ok m -> in_window m n -> 0 <= n < 6 -> 0 <= s < 4294967296 ->
  (~ VIRTUAL_START <= s <= VIRTUAL_END -> vidmap s m = (Ok (-1), m)) /\
  (VIRTUAL_START <= s <= VIRTUAL_END ->
   let ps := if s =? VIRTUAL_END then VIDEOMEM else window n + (s - VIRTUAL_START) in
   s <= VIRTUAL_END - 4 \/ s = VIRTUAL_END ->
   exists m', vidmap s m = (Ok 0, m') /\ paging_ok m' /\ in_window m' n /\
     cell32 m' ps = VIRTUAL_END /\
     (forall q, ~ ps <= q < ps + 4 -> cell m' q = cell m q) /\
     (forall o, 0 <= o < 4096 -> translate_user (pg m') (VIRTUAL_END + o) = Some (VIDEOMEM + o)) /\
     (forall o, 0 <= o < FOUR_MB_BLOCK -> translate_user (pg m') (VIRTUAL_START + o) = Some (window n + o))).
Proof.
  intros Hok Hwin Hn Hs. split; [by apply vidmap_refused|].
  intros Hin ps Hcase. unfold vidmap. pose proof (proj1 Hok) as Ht.
  assert (tables_ok (video_tables (tabs (pg m)))) as Ht' by (by apply tables_ok_put_user, tables_ok_put_dir).
  set (m1 := with_tables m (video_tables (tabs (pg m)))).
  assert (paging_ok m1) as Hok1 by (by apply with_tables_ok).
  assert (pageDir (video_tables (tabs (pg m))) !! 32%nat = Some (Z.lor (window n) RW_FLAGS)) as Hd
    by (by apply video_window).
  rewrite i32_small, (proj2 (Z.eqb_neq s 0)) by (unfold VIRTUAL_START, VIRTUAL_END in *; lia). zb.
  go vidmap_tables. fold m1.
  assert (maps m1 s ps 4) as Hmap.
  { intros i Hi. rewrite u32_small by (unfold VIRTUAL_END in *; lia). cbn [loc machine_memory].
    rewrite translate_ok by done. change (tabs (pg m1)) with (video_tables (tabs (pg m))). unfold ps.
    destruct (Z.eqb_spec s VIRTUAL_END) as [->|Hne]; [rewrite video_page by (done || lia); done|].
    rewrite (window_entry _ n) by (first [done|lia]). cbn. f_equal. lia. }
  go (store32_ok m1 s ps VIRTUAL_END) by done. rewrite ret_run. eexists. split; [done|].
  assert (pg (upds m1 ps (bytes32 VIRTUAL_END)) = pg m1) as Hpg by (by rewrite upds_phys).
  split; [unfold paging_ok; by rewrite Hpg|]. split; [unfold in_window; rewrite Hpg; exact Hd|].
  split; [by apply cell32_stored|]. split; [intros q Hq; rewrite cell_upds_out by (cbn; lia); done|].
  rewrite Hpg. split; intros o Ho; rewrite translate_user_ok by done;
    change (tabs (pg m1)) with (video_tables (tabs (pg m))).
  - by rewrite video_page.
  - unfold FOUR_MB_BLOCK in Ho. rewrite (window_entry _ n) by (first [done|unfold VIRTUAL_START, VIRTUAL_END; lia]).
    f_equal. lia.
Qed.

Lemma vidmap_maps_witness :
  let P := plain_platform in
  (exists m', vidmap 0x8050000 one_machine = (Ok 0, m') /\ translate_user (pg m') 0x8400010 = Some 0xB8010) /\
  (exists m', vidmap 0x8400000 one_machine = (Ok 0, m') /\ cell32 m' 0xB8000 = 0x8400000) /\
  vidmap 0x8400001 one_machine = (Ok (-1), one_machine).
Proof.
  intros P.
  assert (paging_ok one_machine) as Hok by apply one_kernel_ok.
  assert (in_window one_machine 0) as Hw by (exact one_in_window).
  destruct (vidmap_maps one_machine 0 0x8050000 Hok Hw) as [_ E1]; [lia|lia|].
  destruct (vidmap_maps one_machine 0 0x8400000 Hok Hw) as [_ E2]; [lia|lia|].
  destruct (vidmap_maps one_machine 0 0x8400001 Hok Hw) as [E3 _]; [lia|lia|].
  unfold VIRTUAL_START, VIRTUAL_END in *.
  split; [|split; [|apply E3; lia]].
  - destruct E1 as (m' & E & _ & _ & _ & _ & Hv & _); [lia|lia|]. exists m'. split; [exact E|]. apply (Hv 0x10). lia.
  - destruct E2 as (m' & E & _ & _ & Hc & _); [lia|lia|]. exists m'. split; [exact E|exact Hc].
Defined.

(** C40. The kernel stack of a process sinks with every program it runs: after the
    system call [execute] and the [halt] of the new program, the call comes back to its
    caller, but the stack that the TSS holds is the one in the body of [execute], 68 bytes
    and the local variables of [execute] below what it was, at least 392 bytes, so the
    next system call starts that much lower. *)
Theorem kernel_stack_sinks `{PlatformOk} (pb size : Z) (img : image) (m : machine) (service : K unit) (a ecx edx : Z)
    (w words : list Z) (k : nat) (c : list Z) (n status : Z) (t : terminal_t) (m2 : machine) :
  kernel_ok pb size img (entered m) -> can_start (entered m) n t -> 0 <= a < 4294967296 ->
  command_line (entered m) (Raw a) w words -> ~ is_exit w -> program img w k c -> take 4 c = magic ->
  Z.of_nat (length c) <= FOUR_MB_BLOCK - 0x48000 ->
  1 <= num_processes t -> 0 <= term_pid t < 6 ->
  let m1 := launched (entered m) n t c words in
  ran m1 m2 n ->
  int80 service 2 a ecx edx m = (Stop (EnterUser (entry_point c) USER_STACK), m1) /\
  exists m3, halt status m2 = (Stop (ReturnTo status (u32 (esp0 (tss m) - RUN_STACK)) (u32 (esp0 (tss m) - 68))), m3) /\
    leave (u32 (esp0 (tss m) - 68)) = cpu_esp (cpu (entered m)) /\
    esp0 (tss m3) = u32 (esp0 (tss m) - RUN_STACK) /\
    (RUN_STACK <= esp0 (tss m) < 4294967296 -> esp0 (tss m3) + RUN_STACK = esp0 (tss m) /\ 392 <= RUN_STACK).
Proof.
  intros Hk Hcs Har Hcl Hx Hprog Hmag Hlen Hn1 Htp m1 Hran. rewrite int80_call by lia. cbn [syscalls Z.eqb Pos.eqb].
  rewrite (u32_small a) by done. destruct (frame_entered m) as (F1 & F2 & F3). pose proof frame_locals.
  destruct (execute_halt_ok pb size img (entered m) (Raw a) w words k c n status t m2)
    as (E & m3 & t3 & E3 & _ & _ & _ & _ & Hesp & _); try done.
  split; [by rewrite E|]. rewrite F1, F2 in *. exists m3. split; [exact E3|]. split; [exact F3|]. split; [exact Hesp|].
  intros Hr. rewrite Hesp, u32_small by (unfold RUN_STACK in *; lia). unfold RUN_STACK. lia.
Qed.

Lemma kernel_stack_sinks_witness :
  let P := plain_platform in
  let m2 := (launched (entered one_machine) 1 one_terminal shell_file []) <| cpu ::= fun c => c <| cpu_esp := 0x7FDFF0 |> |> in
  exists m3, halt 0 m2 = (Stop (ReturnTo 0 0x7FFE58 0x7FFFB8), m3) /\ esp0 (tss m3) = 0x7FFE58.
Proof.
  intros P m2.
  assert (kernel_ok 0x420000 0x3000 shell_image (entered one_machine)) as Hk by apply kernel_ok_cpu, one_kernel_ok.
  assert (can_start (entered one_machine) 1 one_terminal) as Hcs by apply can_start_cpu, one_can_start.
  assert (kernel_ok 0x420000 0x3000 shell_image (launched (entered one_machine) 1 one_terminal shell_file [])) as Hk1
    by (apply launched_kernel_ok; [exact Hk|exact Hcs|vm_compute; discriminate]).
  destruct (kernel_stack_sinks 0x420000 0x3000 shell_image one_machine (mret tt) 0x420040 0 0 (text "shell") []
    0 shell_file 1 0 one_terminal m2) as (_ & m3 & E & _ & He & _).
  - exact Hk.
  - exact Hcs.
  - lia.
  - apply entered_shell_line.
  - discriminate.
  - apply shell_program.
  - reflexivity.
  - vm_compute. discriminate.
  - cbn. lia.
  - cbn. lia.
  - apply ran_cpu.
    + reflexivity.
    + apply (ko_blocks _ _ _ _ Hk1 1). lia.
    + apply launched_paging_ok, Hk.
    + apply launched_files.
  - exists m3. split; [exact E|exact He].
Defined.
