(* ===== verification/Terminal.v ===== *)
(** The three terminals of [student-distrib/terminal.c]: [init_terminals],
    [switch_terminal], [terminal_start], [terminal_save] and [terminal_load].

    A terminal that is not on the screen keeps its text in a page of its own, and
    the stack registers of the kernel code that switched away from it;
    [terminal_load] loads them and so goes on after the [terminal_save] that
    stored them, which is the end [ReturnTo] of this control flow. *)

From S2P Require Import Prelude Memory CLib Machine I8259 Rtc Pcb Rofs Paging Screen Keyboard TermIO Files Process Launch Halt.

Definition MAX_TERMINALS : Z := 3.
Definition TERM_MEM : Z := 0x6400000.
Definition TERM_1_MEM : Z := 0x6401000.
Definition TERM_2_MEM : Z := 0x6402000.
Definition TERM_3_MEM : Z := 0x6403000.
Definition ATTRIB_G : Z := 0xA.
Definition ATTRIB_Y : Z := 0xE.
Definition ATTRIB_B : Z := 0xB.

(** The six lines that [terminal_start] prints. *)
Definition banner : list (list Z) := (fun s => text s ++ [10]) <$>
  ["    _      ____     ___    _       _        ___             ___    ____  ";
   "   / \    |  _ \   / _ \  | |     | |      / _ \           / _ \  / ___| ";
   "  / _ \   | |_) | | | | | | |     | |     | | | |         | | | | \___ \ ";
   " / ___ \  |  __/  | |_| | | |___  | |___  | |_| |         | |_| |  ___) |";
   "/_/   \_\ |_|      \___/  |_____| |_____|  \___/   _____   \___/  |____/ ";
   "                                                  |_____|                "]%string.

Section Terminal.
Context `{Platform}.

Definition terminal_save (term : Z) : K Z :=
  s ← gets cpu;
  modify (fun m => m <| esp_temp := cpu_esp s |> <| ebp_temp := cpu_ebp s |>);;
  e ← gets esp_temp;
  terminal_upd (term - 1) (fun t => t <| t_esp := i32 e |>);;
  e ← gets ebp_temp;
  terminal_upd (term - 1) (fun t => t <| t_ebp := i32 e |>);;
  k ← get_key_buffer_pos;
  terminal_upd (term - 1) (fun t => t <| t_key_buffer_pos := k |>);;
  x ← get_screen_x;
  terminal_upd (term - 1) (fun t => t <| pos_x := x |>);;
  y ← get_screen_y;
  terminal_upd (term - 1) (fun t => t <| pos_y := y |>);;
  t ← terminal_at (term - 1);
  memcpy (Raw (vid_mem t)) (Raw VIDEO) (2 * NUM_ROWS * NUM_COLS);;
  mret 0.

(** What [terminal_start] and [terminal_load] share: the keyboard, the cursor and
    the text of terminal [term] come to the front. *)
Definition terminal_show (term : Z) : K unit :=
  terminal_at (term - 1);;
  modify (fun m => m <| kbd ::= fun k => k <| key_buffer := Some (Z.to_nat (term - 1)) |> |>);;
  t ← terminal_at (term - 1);
  set_key_buffer_pos (fun _ => t_key_buffer_pos t);;
  t ← terminal_at (term - 1);
  set_screen_pos (pos_x t) (pos_y t);;
  x ← get_screen_x; y ← get_screen_y;
  update_cursor_loc x y;;
  t ← terminal_at (term - 1);
  memcpy (Raw VIDEO) (Raw (vid_mem t)) (2 * NUM_ROWS * NUM_COLS);;
  mret tt.

Definition terminal_load (term : Z) : K Z :=
  t ← terminal_at (term - 1);
  modify (fun m => m <| esp_temp := u32 (t_esp t) |>);;
  t ← terminal_at (term - 1);
  modify (fun m => m <| ebp_temp := u32 (t_ebp t) |>);;
  modify (fun m => m <| tss ::= fun s => s <| ss0 := KERNEL_DS |> |>);;
  t ← terminal_at (term - 1);
  modify (fun m => m <| tss ::= fun s =>
    s <| esp0 := u32 (PHYSICAL_START - term_pid t * EIGHT_KB_BLOCK - MAGIC_SIZE) |> |>);;
  t ← terminal_at (term - 1);
  remap_process (term_pid t);;
  terminal_show term;;
  e ← gets esp_temp; b ← gets ebp_temp;
  modify (fun m => m <| cpu ::= fun c => c <| cpu_esp := e |> <| cpu_ebp := b |> |>);;
  raise (ReturnTo 0 e b).

Definition terminal_start (term : Z) : K Z :=
  terminal_upd (term - 1) (fun t => t <| t_init := 1 |>);;
  terminal_show term;;
  foldr (fun l k => printf l [];; k) (mret tt) banner;;
  execute shell;;
  mret 0.

Definition switch_terminal (term : Z) : K Z :=
  cli;;
  c ← gets term_cur;
  if term =? c then sti;; mret 0
  else
    t ← terminal_at (term - 1);
    full ← (if t_init t =? 0 then ok ← can_execute; mret (negb (truth ok)) else mret false);
    if full : bool then
      printf ([10] ++ text "Please close processes before opening another teminal" ++ [10] ++ text "391OS> ") [];;
      sti;;
      mret 0
    else
      c ← gets term_cur;
      terminal_save c;;
      modify (fun m => m <| term_cur := term |>);;
      c ← gets term_cur;
      t ← terminal_at (c - 1);
      (if t_init t =? 0 then c ← gets term_cur; terminal_start c
       else c ← gets term_cur; terminal_load c);;
      sti;;
      mret 0.

(** The bodies of the two loops of [init_terminals]. *)
Definition init_terminal (i : Z) : K unit :=
  terminal_upd i (fun t => t <| t_num := u8 (i + 1) |>);;
  terminal_upd i (fun t => t <| t_key_buffer_pos := 0 |>);;
  terminal_upd i (fun t => t <| pos_x := 0 |>);;
  terminal_upd i (fun t => t <| pos_y := 0 |>);;
  terminal_upd i (fun t => t <| t_esp := 0 |>);;
  terminal_upd i (fun t => t <| t_ebp := 0 |>);;
  terminal_upd i (fun t => t <| num_processes := 0 |>);;
  terminal_upd i (fun t => t <| t_init := 0 |>);;
  for_range 0 KEY_BUFFER_SIZE (fun j =>
    terminal_upd i (fun t => t <| t_key_buffer ::= <[Z.to_nat j := 0]> |>)).

Definition blank_char (i : Z) : K unit :=
  store8 (TERM_1_MEM + Z.shiftl i 1) 32;;
  store8 (TERM_1_MEM + Z.shiftl i 1 + 1) ATTRIB_B;;
  store8 (TERM_2_MEM + Z.shiftl i 1) 32;;
  store8 (TERM_2_MEM + Z.shiftl i 1 + 1) ATTRIB_G;;
  store8 (TERM_3_MEM + Z.shiftl i 1) 32;;
  store8 (TERM_3_MEM + Z.shiftl i 1 + 1) ATTRIB_Y.

Definition init_terminals : K unit :=
  for_range 0 MAX_TERMINALS init_terminal;;
  remapToPage TERM_MEM TERM_1_MEM 1;;
  remapToPage TERM_MEM TERM_2_MEM 2;;
  remapToPage TERM_MEM TERM_3_MEM 3;;
  terminal_upd 0 (fun t => t <| vid_mem := TERM_1_MEM |>);;
  terminal_upd 1 (fun t => t <| vid_mem := TERM_2_MEM |>);;
  terminal_upd 2 (fun t => t <| vid_mem := TERM_3_MEM |>);;
  for_range 0 (NUM_ROWS * NUM_COLS) blank_char;;
  modify (fun m => m <| term_cur := 1 |>);;
  terminal_start 1;;
  mret tt.
End Terminal.

(** * One terminal of the three *)

Section Slot.
Context `{Platform}.

(** [m] with the terminal at index [i] set to [t]. *)
Definition put_term (m : machine) (i : Z) (t : terminal_t) : machine :=
  m <| terminal := <[Z.to_nat i := t]> (terminal m) |>.

Definition term_of (m : machine) (i : Z) (t : terminal_t) : Prop :=
  0 <= i /\ terminal m !! Z.to_nat i = Some t.

Lemma term_at m i t : term_of m i t -> terminal_at i m = (Ok t, m).
Proof. intros [Hi Ht]. by apply terminal_at_run. Qed.

Lemma term_upd m i t f : term_of m i t -> terminal_upd i f m = (Ok tt, put_term m i (f t)).
Proof. intros [Hi Ht]. by apply terminal_upd_run. Qed.

Lemma term_put m i t t' : term_of m i t -> term_of (put_term m i t') i t'.
Proof.
  intros [Hi Ht]. split; [done|]. unfold put_term. msimp. apply list_lookup_insert_eq. by eapply lookup_lt_Some.
Qed.

Lemma put_put_term m i t t' : put_term (put_term m i t) i t' = put_term m i t'.
Proof. unfold put_term. msimp. rewrite list_insert_insert_eq. by destruct m. Qed.

Lemma term_at_put m i t t' : term_of m i t -> terminal_at i (put_term m i t') = (Ok t', put_term m i t').
Proof. intros Ht. by eapply term_at, term_put. Qed.

Lemma term_upd_put m i t t' f :
  term_of m i t -> terminal_upd i f (put_term m i t') = (Ok tt, put_term m i (f t')).
Proof. intros Ht. rewrite (term_upd _ _ t') by (by eapply term_put). by rewrite put_put_term. Qed.
End Slot.

(** * Saving and loading *)

Section SaveLoad.
Context `{PlatformOk}.

(** The page that keeps the text of the terminal at index [i]. *)
Definition page_of (i : Z) : Z := TERM_1_MEM + FOUR_KB * i.

(** The video memory and the three pages are mapped to themselves, and the
    terminals point to their pages. *)
Record screens_ok (m : machine) : Prop := {
  so_video : maps m VIDEO VIDEO 4000;
  so_pages i : 0 <= i < 3 -> maps m (page_of i) (page_of i) 4000;
  so_terminals i t : term_of m i t -> i < 3 /\ vid_mem t = page_of i
}.

Lemma page_range i : 0 <= i < 3 -> VIDEO + 4000 <= page_of i /\ page_of i + 4000 <= VIRTUAL_START.
Proof. unfold page_of, TERM_1_MEM, FOUR_KB, VIDEO, VIRTUAL_START. lia. Qed.

(** The state after [terminal_save] of terminal [t] at index [i]. *)
Definition saved_terminal (m : machine) (t : terminal_t) : terminal_t :=
  t <| t_esp := i32 (cpu_esp (cpu m)) |> <| t_ebp := i32 (cpu_ebp (cpu m)) |>
    <| t_key_buffer_pos := key_buffer_pos (kbd m) |>
    <| pos_x := screen_x (scr m) |> <| pos_y := screen_y (scr m) |>.

Definition saved (m : machine) (i : Z) (t : terminal_t) : machine :=
  (put_term m i (saved_terminal m t)) <| esp_temp := cpu_esp (cpu m) |> <| ebp_temp := cpu_ebp (cpu m) |>
    <| phys := phys (upds m (page_of i) (cells m VIDEO 4000)) |>.

Lemma copy_page (m : machine) d s :
  maps m d d 4000 -> maps m s s 4000 -> d + 4000 <= s \/ s + 4000 <= d ->
  memcpy (Raw d) (Raw s) (2 * NUM_ROWS * NUM_COLS) m = (Ok (Raw d), upds m d (cells m s 4000)).
Proof.
  intros Hd Hs Hdis. change (2 * NUM_ROWS * NUM_COLS) with (Z.of_nat 4000).
  change 4000 with (Z.of_nat 4000) in Hd, Hs. apply memcpy_raw; [done|done|lia|lia].
Qed.

Lemma terminal_save_ok m i t :
  screens_ok m -> term_of m i t -> terminal_save (i + 1) m = (Ok 0, saved m i t).
Proof.
  intros Hs Ht. pose proof Ht as [Hi _]. destruct (so_terminals m Hs i t Ht) as [Hi3 Hv].
  unfold terminal_save, get_key_buffer_pos, get_screen_x, get_screen_y. replace (i + 1 - 1) with i by lia. mrun.
  match goal with |- context [terminal_upd _ _ ?mm] => set (m1 := mm) end.
  assert (term_of m1 i t) as Ht1 by done. go (term_upd m1 i t) by done. mrun.
  rewrite (term_upd_put m1 i t) by done. cbv beta iota. mrun. rewrite (term_upd_put m1 i t) by done. cbv beta iota.
  mrun. rewrite (term_upd_put m1 i t) by done. cbv beta iota. mrun. rewrite (term_upd_put m1 i t) by done. cbv beta iota.
  rewrite bind_run, (term_at_put m1 i t) by done. cbv beta iota. rewrite bind_run.
  match goal with |- context [memcpy _ _ _ ?mm] => set (m2 := mm) end.
  change (vid_mem _) with (vid_mem t). rewrite Hv. pose proof (page_range i ltac:(lia)) as [Hp _].
  rewrite (copy_page m2 (page_of i) VIDEO); [|apply (so_pages m Hs); lia|apply Hs|lia]. cbv beta iota.
  rewrite ret_run, upds_phys.
  assert (cells m2 VIDEO 4000 = cells m VIDEO 4000) as -> by done.
  rewrite (phys_upds m2 m) by done. unfold saved, m2, put_term, saved_terminal, m1.
  generalize (phys (upds m (page_of i) (cells m VIDEO 4000))). intros ph. by destruct m.
Qed.
End SaveLoad.

Section Load.
Context `{PlatformOk}.

(** The state after [terminal_show]. *)
Definition fronted (m : machine) (i : Z) (t : terminal_t) : machine :=
  m <| kbd ::= fun k => k <| key_buffer := Some (Z.to_nat i) |> <| key_buffer_pos := t_key_buffer_pos t |> |>
    <| scr := Screen (pos_x t) (pos_y t) |>
    <| io_log ::= fun l => l ++ cursor_ops (u16 (80 * pos_y t + pos_x t)) |>
    <| phys := phys (upds m VIDEO (cells m (page_of i) 4000)) |>.

Lemma terminal_show_ok m i t :
  screens_ok m -> term_of m i t -> terminal_show (i + 1) m = (Ok tt, fronted m i t).
Proof.
  intros Hs Ht. pose proof Ht as [Hi _]. destruct (so_terminals m Hs i t Ht) as [Hi3 Hv].
  unfold terminal_show, set_key_buffer_pos, set_screen_pos, get_screen_x, get_screen_y. replace (i + 1 - 1) with i by lia.
  assert (forall m', terminal m' = terminal m -> term_of m' i t) as Hterm.
  { intros m' Hm'. unfold term_of. by rewrite Hm'. }
  go (term_at m i t) by done. mrun.
  rewrite (fun mm => term_at mm i t) by (by apply Hterm). cbv beta iota. mrun.
  rewrite (fun mm => term_at mm i t) by (by apply Hterm). cbv beta iota. mrun.
  rewrite update_cursor_loc_run. cbv beta iota. mrun.
  rewrite (fun mm => term_at mm i t) by (by apply Hterm). cbv beta iota. rewrite bind_run. rewrite Hv.
  match goal with |- context [memcpy _ _ _ ?mm] => set (m2 := mm) end.
  pose proof (page_range i ltac:(lia)) as [Hp _].
  rewrite (copy_page m2 VIDEO (page_of i)); [|apply Hs|apply (so_pages m Hs); lia|lia]. cbv beta iota.
  rewrite ret_run, upds_phys.
  assert (cells m2 (page_of i) 4000 = cells m (page_of i) 4000) as -> by (by apply cells_phys).
  rewrite (phys_upds m2 m) by done. unfold fronted, m2.
  generalize (phys (upds m VIDEO (cells m (page_of i) 4000))). intros ph.
  by destruct m as [? ? ? ? ? ? ? [] []].
Qed.


(** The window does not hold the screens. *)
Lemma window_maps_out m m' k a n :
  paging_ok m -> 0 <= k < 6 -> 0 <= a -> a + n <= VIRTUAL_START ->
  pg m' = pg (with_tables m (window_tables m k)) -> maps m a a n -> maps m' a a n.
Proof.
  intros Hok Hk Ha Han Hpg Hm i Hi. specialize (Hm i Hi). unfold VIRTUAL_START in Han.
  rewrite u32_small in Hm |- * by lia. cbn [loc machine_memory]. rewrite Hpg.
  change (loc (with_tables m (window_tables m k)) (a + i) = Some (a + i)).
  rewrite window_loc by (done || lia). rewrite dir_index_window. unfold VIRTUAL_START. by zb.
Qed.


End Load.

Section Switch.
Context `{PlatformOk}.

(** [switch_terminal] between the saving and what follows. *)
Definition switching (m : machine) (i j : Z) (t : terminal_t) : machine :=
  (saved (quiet m) i t) <| term_cur := j + 1 |>.


Lemma screens_quiet m : screens_ok m -> screens_ok (quiet m).
Proof. intros [Hv Hp Ht]. by split. Qed.

Lemma switching_term m i j t k t' :
  term_of m i t -> term_of m k t' -> k <> i -> term_of (switching m i j t) k t'.
Proof.
  intros [Hi Ht] [Hk Ht'] Hne. split; [done|]. change (terminal (switching m i j t)) with
    (<[Z.to_nat i := saved_terminal (quiet m) t]> (terminal m)). rewrite list_lookup_insert_ne by lia. done.
Qed.

Lemma switching_screens m i j t :
  term_of m i t -> screens_ok m -> screens_ok (switching m i j t).
Proof.
  intros Ht [Hv Hp Hterm]. split.
  - exact Hv.
  - exact Hp.
  - intros k t' [Hk Hl]. change (terminal (switching m i j t)) with
      (<[Z.to_nat i := saved_terminal (quiet m) t]> (terminal m)) in Hl.
    destruct (decide (k = i)) as [->|Hne].
    + destruct Ht as [Hi Ht]. rewrite list_lookup_insert_eq in Hl by (by eapply lookup_lt_Some). injection Hl as <-.
      change (vid_mem (saved_terminal (quiet m) t)) with (vid_mem t). by apply Hterm.
    + rewrite list_lookup_insert_ne in Hl by (destruct Ht; lia). by apply Hterm.
Qed.

Lemma phys_set (m : machine) x : phys (m <| phys := x |>) = x.
Proof. done. Qed.

Lemma phys_term_cur (m : machine) f : phys (m <| term_cur ::= f |>) = phys m.
Proof. done. Qed.

Lemma switching_phys m i j t : phys (switching m i j t) = phys (upds m (page_of i) (cells m VIDEO 4000)).
Proof.
  unfold switching. rewrite phys_term_cur. unfold saved. rewrite phys_set. rewrite (cells_phys m (quiet m)) by done. by apply phys_upds.
Qed.

Lemma fronted_phys m i t : phys (fronted m i t) = phys (upds m VIDEO (cells m (page_of i) 4000)).
Proof. unfold fronted. by rewrite phys_set. Qed.


(** The text of the terminals, when terminal [i] is put away. *)
Lemma switching_cells m i j t k :
  0 <= i < 3 -> 0 <= k < 3 ->
  cells (switching m i j t) (page_of k) 4000 =
  if decide (k = i) then cells m VIDEO 4000 else cells m (page_of k) 4000.
Proof.
  intros Hi Hk. rewrite (cells_phys _ _ _ _ (switching_phys m i j t)).
  destruct (decide (k = i)) as [->|Hne].
  - apply cells_stored; [apply cells_bytes|apply length_cells].
  - rewrite cells_upds_out; [done|]. rewrite length_cells. unfold page_of, TERM_1_MEM, FOUR_KB. lia.
Qed.





End Switch.


(** * Starting a terminal *)

Section Start.
Context `{PlatformOk}.

(** The console kept in a page, with the cursor at [x], [y]. *)
Definition con_kept (m : machine) (pa x y : Z) : console :=
  Console ((fun i => cell m (pa + 2 * Z.of_nat i)) <$> seq 0 2000) x y.

Lemma print_lines ls : forall m c,
  shows VIDEO m c -> Forall (fun l => is_string l /\ render l None [] = Some l) ls ->
  exists m', foldr (fun l k => printf l [];; k) (mret tt) ls m = (Ok tt, m') /\
    shows VIDEO m' (con_puts (concat ls) c) /\ screen_only VIDEO m m'.
Proof.
  induction ls as [|l ls IH]; intros m c Hsh Hls.
  { exists m. split; [done|]. split; [done|apply screen_only_refl]. }
  inversion Hls as [|? ? [Hstr Hren] Hls']; subst.
  destruct (printf_ok VIDEO l None [] l m c Hsh Hstr ltac:(constructor) Hren) as (m1 & E1 & Hsh1 & Hs1).
  destruct (IH m1 (con_puts l c) Hsh1 Hls') as (m2 & E2 & Hsh2 & Hs2).
  exists m2. split; [|split; [by rewrite concat_cons, con_puts_app|by eapply screen_only_trans]].
  cbn [foldr]. unfold printf. change (to_parg <$> []) with ([] : list parg) in E1. go E1. rewrite bind_ret. exact E2.
Qed.

Lemma banner_strings : Forall (fun l => is_string l /\ render l None [] = Some l) banner.
Proof. repeat (constructor; [split; [repeat constructor|reflexivity]|]). constructor. Qed.

(** What [kernel_ok] depends on. *)
Lemma kernel_ok_frame pb size img m m' :
  kernel_ok pb size img m ->
  pg m' = pg m -> fs m' = fs m -> 1 <= term_cur m' <= 3 -> pcbs m' = pcbs m ->
  (forall q, pb <= q < pb + size -> cell m' q = cell m q) -> accounts m' -> kernel_ok pb size img m'.
Proof.
  intros [Hok Hr Hap Hbl _ _] Hpg Hfs Htc Hpcb Hcell Hacc.
  assert (forall a, loc m' a = loc m a) as Hloc by (intros a; cbn [loc machine_memory]; by rewrite Hpg). split.
  - unfold paging_ok. by rewrite Hpg.
  - by apply (represents_ext pb size img m).
  - intros n Hn. destruct (Hap n Hn). split; [by rewrite Hfs|done].
  - intros n Hn. unfold pcb_of. rewrite Hloc, Hpcb. by apply Hbl.
  - done.
  - done.
Qed.

(** The image keeps clear of the video memory and of the pages. *)
Definition image_clear (pb size : Z) : Prop := VIDEO + 4000 <= pb /\ pb + size <= page_of 0.

Lemma screen_only_image pb size m m' q :
  image_clear pb size -> screen_only VIDEO m m' -> pb <= q < pb + size -> cell m' q = cell m q.
Proof. intros [Hc _] Hs Hq. apply (so_cells _ _ _ Hs). intros (i & Hi & ->). lia. Qed.

(** A terminal with its text in front, its program not yet started. *)
Definition prepared (m : machine) (i : Z) (t : terminal_t) : machine :=
  fronted (put_term m i (t <| t_init := 1 |>)) i (t <| t_init := 1 |>).

Lemma prepared_phys m i t : phys (prepared m i t) = phys (upds m VIDEO (cells m (page_of i) 4000)).
Proof.
  unfold prepared. rewrite fronted_phys. rewrite (cells_phys m) by done. by apply phys_upds.
Qed.

Lemma prepared_cell m i t q : ~ VIDEO <= q < VIDEO + 4000 -> cell (prepared m i t) q = cell m q.
Proof.
  intros Hq. transitivity (cell (upds m VIDEO (cells m (page_of i) 4000)) q).
  - cbn [cell machine_memory]. by rewrite prepared_phys.
  - apply cell_upds_out. rewrite length_cells. lia.
Qed.

Lemma prepared_shows m i t :
  screens_ok m -> term_of m i t -> 0 <= pos_x t < 80 -> 0 <= pos_y t < 25 ->
  shows VIDEO (prepared m i t) (con_kept m (page_of i) (pos_x t) (pos_y t)).
Proof.
  intros Hs Ht Hx Hy. split.
  - exact (so_video m Hs).
  - split; [cbn [con_text con_kept]; by rewrite length_fmap, length_seq|done].
  - intros j Hj. cbn [con_text con_kept]. rewrite list_lookup_fmap, lookup_seq_lt by done. cbn [fmap option_fmap option_map].
    f_equal. cbn [Nat.add].
    transitivity (cell (upds m VIDEO (cells m (page_of i) 4000)) (VIDEO + 2 * Z.of_nat j)).
    + replace (2 * Z.of_nat j) with (Z.of_nat (2 * j)) by lia.
      rewrite cell_upds_in by (rewrite length_cells; lia).
      rewrite (list_lookup_total_correct _ _ (cell m (page_of i + Z.of_nat (2 * j)))) by (apply cells_lookup; lia).
      symmetry. apply u8_small, cell_range.
    + cbn [cell machine_memory]. by rewrite prepared_phys.
  - done.
  - done.
Qed.

Lemma prepared_accounts m i t :
  accounts m -> term_of m i t -> accounts (prepared m i t).
Proof.
  intros Ha [Hi Ht]. pose proof (accounts_bound _ _ _ Ha Ht).
  apply (accounts_update m _ (Z.to_nat i) t (t <| t_init := 1 |>)); [done|done|apply Ha|done|cbn; lia|].
  change (processes_flags (prepared m i t)) with (processes_flags m). cbn. lia.
Qed.

Lemma prepared_kernel_ok pb size img m i t :
  kernel_ok pb size img m -> image_clear pb size -> term_of m i t -> kernel_ok pb size img (prepared m i t).
Proof.
  intros Hk [Hc _] Ht.
  apply (kernel_ok_frame pb size img m); [exact Hk|reflexivity|reflexivity|apply Hk|reflexivity|..].
  - intros q Hq. apply prepared_cell. lia.
  - by apply prepared_accounts; [apply Hk|].
Qed.

Lemma screen_only_kernel_ok pb size img m m' :
  kernel_ok pb size img m -> image_clear pb size -> screen_only VIDEO m m' -> kernel_ok pb size img m'.
Proof.
  intros Hk Hc Hs. pose proof (so_fields _ _ _ Hs) as Hf.
  apply (kernel_ok_frame pb size img m); [done|by rewrite Hf|by rewrite Hf|rewrite Hf; apply Hk|by rewrite Hf| |].
  - intros q Hq. by eapply screen_only_image.
  - destruct (ko_accounts _ _ _ _ Hk) as [H1 H2 H3 H4]. rewrite Hf. by split.
Qed.

(** The state in which [terminal_start] calls [execute]. *)
Lemma terminal_start_shell pb size img m i t :
  kernel_ok pb size img m -> screens_ok m -> image_clear pb size ->
  term_of m i t -> 0 <= pos_x t < 80 -> 0 <= pos_y t < 25 ->
  exists m1, terminal_start (i + 1) m = (execute shell;; mret 0) m1 /\
    kernel_ok pb size img m1 /\ screen_only VIDEO (prepared m i t) m1 /\
    shows VIDEO m1 (con_puts (concat banner) (con_kept m (page_of i) (pos_x t) (pos_y t))).
Proof.
  intros Hk Hs Hc Ht Hx Hy. unfold terminal_start. replace (i + 1 - 1) with i by lia.
  go (term_upd m i t) by done. set (t1 := t <| t_init := 1 |>).
  assert (term_of (put_term m i t1) i t1) as Ht1 by (by eapply term_put).
  assert (screens_ok (put_term m i t1)) as Hs1.
  { split; [apply Hs|apply Hs|]. intros k t' [Hk0 Hl]. unfold put_term in Hl. msimp in Hl.
    destruct (decide (Z.to_nat k = Z.to_nat i)) as [He|Hne].
    - rewrite He in Hl. destruct Ht as [Hi Ht]. rewrite list_lookup_insert_eq in Hl by (by eapply lookup_lt_Some).
      injection Hl as <-. assert (k = i) as -> by lia. change (vid_mem t1) with (vid_mem t). by apply (so_terminals m Hs).
    - rewrite list_lookup_insert_ne in Hl by done. by apply (so_terminals m Hs). }
  go (terminal_show_ok (put_term m i t1) i t1) by done. change (fronted (put_term m i t1) i t1) with (prepared m i t).
  destruct (print_lines banner (prepared m i t) _ (prepared_shows m i t Hs Ht Hx Hy) banner_strings)
    as (m1 & E & Hsh & Hso). exists m1. split; [by go E|].
  split; [eapply screen_only_kernel_ok; [by apply prepared_kernel_ok|done|done]|]. done.
Qed.
End Start.

Section NewTerminal.
Context `{PlatformOk}.

Lemma screens_ext m m' :
  (forall a n, 0 <= a -> a + n <= VIRTUAL_START -> maps m a a n -> maps m' a a n) ->
  (forall i t', term_of m' i t' -> exists t, term_of m i t /\ vid_mem t' = vid_mem t) ->
  screens_ok m -> screens_ok m'.
Proof.
  intros Hm Ht [Hv Hp Hterm]. split.
  - apply Hm; [unfold VIDEO; lia|unfold VIDEO, VIRTUAL_START; lia|done].
  - intros i Hi. pose proof (page_range i Hi) as [? ?]. apply Hm; [unfold VIDEO in *; lia|lia|by apply Hp].
  - intros i t' Ht'. destruct (Ht i t' Ht') as (t & Hit & ->). by apply Hterm.
Qed.

Lemma term_insert m m' i t t' k t2 :
  term_of m i t -> terminal m' = <[Z.to_nat i := t']> (terminal m) -> vid_mem t' = vid_mem t ->
  term_of m' k t2 -> exists t1, term_of m k t1 /\ vid_mem t2 = vid_mem t1.
Proof.
  intros [Hi Ht] Hm Hv [Hk Hl]. rewrite Hm in Hl. destruct (decide (k = i)) as [->|Hne].
  - rewrite list_lookup_insert_eq in Hl by (by eapply lookup_lt_Some). injection Hl as <-. by exists t.
  - rewrite list_lookup_insert_ne in Hl by lia. by exists t2.
Qed.

(** Entering a program leaves the screen alone. *)
Lemma launched_pg m n t c words : pg (launched m n t c words) = pg (with_tables m (window_tables m n)).
Proof. reflexivity. Qed.

Lemma launched_shows m n t c words con :
  paging_ok m -> 0 <= n < 6 -> shows VIDEO m con -> shows VIDEO (launched m n t c words) con.
Proof.
  intros Hok Hn [Hm Hc Ht Hx Hy]. split.
  - apply (window_maps_out m _ n); [done|done|unfold VIDEO; lia|unfold VIDEO, VIRTUAL_START; lia|apply launched_pg|done].
  - done.
  - intros i Hi. rewrite Ht by done. f_equal. rewrite launched_cells. symmetry. apply cell_upds_out.
    unfold VIDEO, window, PHYSICAL_START, FOUR_MB_BLOCK. lia.
  - exact Hx.
  - exact Hy.
Qed.

Lemma launched_screens m n t c words :
  paging_ok m -> 0 <= n < 6 -> term_of m (term_cur m - 1) t -> screens_ok m ->
  screens_ok (launched m n t c words).
Proof.
  intros Hok Hn Ht. apply screens_ext.
  - intros a k Ha Hk. apply (window_maps_out m _ n); [done|done|done|done|apply launched_pg].
  - intros i t'. eapply (term_insert m _ (term_cur m - 1) t); [done|apply launched_terminal|done].
Qed.

(** The terminal that is switched away from is put in its page. *)
Lemma switching_accounts m i j t : accounts m -> term_of m i t -> accounts (switching m i j t).
Proof.
  intros Ha [Hi Ht]. pose proof (accounts_bound _ _ _ Ha Ht).
  apply (accounts_update m _ (Z.to_nat i) t (saved_terminal (quiet m) t)); [done|done|apply Ha|reflexivity|cbn; lia|].
  change (processes_flags (switching m i j t)) with (processes_flags m). cbn. lia.
Qed.

Lemma switching_kernel_ok pb size img m i j t :
  kernel_ok pb size img m -> image_clear pb size -> term_of m i t -> 0 <= i < 3 -> 0 <= j < 3 ->
  kernel_ok pb size img (switching m i j t).
Proof.
  intros Hk [_ Hc] Ht Hi Hj. apply (kernel_ok_frame pb size img m); [exact Hk|reflexivity|reflexivity| |reflexivity|..].
  - change (term_cur (switching m i j t)) with (j + 1). lia.
  - intros q Hq. transitivity (cell (upds m (page_of i) (cells m VIDEO 4000)) q).
    + cbn [cell machine_memory]. by rewrite switching_phys.
    + apply cell_upds_out. unfold page_of, FOUR_KB in *. lia.
  - by apply switching_accounts; [apply Hk|].
Qed.

Lemma screen_only_keeps pv m m' :
  screen_only pv m m' ->
  processes_flags m' = processes_flags m /\ term_cur m' = term_cur m /\ terminal m' = terminal m /\
  pg m' = pg m /\ kbd m' = kbd m.
Proof. by intros [-> _]. Qed.

(** A terminal that is started: its shell is entered. *)
Lemma terminal_start_ok pb size img sh m i t :
  kernel_ok pb size img m -> screens_ok m -> image_clear pb size -> shell_in img sh ->
  term_cur m = i + 1 -> term_of m i t -> 0 <= pos_x t < 80 -> 0 <= pos_y t < 25 ->
  live (processes_flags m) < 6 ->
  exists m' n, terminal_start (i + 1) m = (Stop (EnterUser (entry_point sh) USER_STACK), m') /\
    free_pid (processes_flags m) = Some n /\
    kernel_ok pb size img m' /\ screens_ok m' /\ term_cur m' = i + 1 /\
    processes_flags m' = Z.lor (processes_flags m) (Z.shiftl 1 n) /\
    terminal m' = <[Z.to_nat i := t <| t_init := 1 |> <| num_processes := num_processes t + 1 |> <| term_pid := n |>]>
                    (terminal m) /\
    shows VIDEO m' (con_puts (concat banner) (con_kept m (page_of i) (pos_x t) (pos_y t))) /\
    key_buffer (kbd m') = Some (Z.to_nat i) /\ key_buffer_pos (kbd m') = t_key_buffer_pos t /\
    forall j, 0 <= j < 3 -> cells m' (page_of j) 4000 = cells m (page_of j) 4000.
Proof.
  intros Hk Hs Hc (k & Hprog & Hmag & Hlen) Htc Ht Hx Hy Hlive.
  destruct (terminal_start_shell pb size img m i t Hk Hs Hc Ht Hx Hy) as (m1 & E & Hk1 & Hso & Hsh).
  pose proof Ht as [Hi Hl]. destruct (screen_only_keeps _ _ _ Hso) as (F1 & F2 & F3 & F4 & F5).
  change (processes_flags (prepared m i t)) with (processes_flags m) in F1.
  change (term_cur (prepared m i t)) with (term_cur m) in F2. rewrite Htc in F2.
  change (terminal (prepared m i t)) with (<[Z.to_nat i := t <| t_init := 1 |>]> (terminal m)) in F3.
  change (pg (prepared m i t)) with (pg m) in F4.
  assert (term_of m1 i (t <| t_init := 1 |>)) as Ht1.
  { split; [done|]. rewrite F3. apply list_lookup_insert_eq. by eapply lookup_lt_Some. }
  rewrite <- F1 in Hlive. destruct (kernel_can_start _ _ _ _ Hk1 Hlive) as (n & t1 & Hcs).
  assert (t1 = t <| t_init := 1 |>) as ->.
  { destruct (cs_current _ _ _ Hcs) as [_ Hcur]. rewrite F2 in Hcur. replace (i + 1 - 1) with i in Hcur by lia.
    destruct Ht1 as [_ Ht1]. congruence. }
  pose proof (proj1 (free_pid_Some _ _) (cs_pid _ _ _ Hcs)) as [Hn _].
  exists (launched m1 n (t <| t_init := 1 |>) sh []), n.
  split; [rewrite E; rewrite bind_run, (execute_ok pb size img m1 shell (text "shell") [] k sh n (t <| t_init := 1 |>));
    [reflexivity|apply Hk1|apply Hk1|by apply Hk1|done|apply shell_command|discriminate|done|done|done]|].
  split; [rewrite <- F1; apply Hcs|]. split; [by apply launched_kernel_ok|].
  split.
  { apply launched_screens; [apply Hk1|done|rewrite F2; by replace (i + 1 - 1) with i by lia|].
    apply (screens_ext m); [|intros i' t'; by eapply (term_insert m _ i t)|done].
    intros a l _ _. apply maps_loc. intros x. cbn [loc machine_memory]. by rewrite F4. }
  split; [exact F2|]. split; [by rewrite launched_flags, F1|].
  split; [rewrite launched_terminal, F2, F3; replace (i + 1 - 1) with i by lia; by rewrite list_insert_insert_eq|].
  split; [apply launched_shows; [apply Hk1|done|done]|].
  change (kbd (launched m1 n (t <| t_init := 1 |>) sh [])) with (kbd m1). rewrite F5. split; [reflexivity|]. split; [reflexivity|].
  intros j Hj. apply cells_ext. intros q Hq. pose proof (page_range j Hj) as [Hp _].
  rewrite launched_cells, cell_upds_out.
  - rewrite (so_cells _ _ _ Hso) by (intros (x & Hx' & ->); lia). apply prepared_cell. lia.
  - right. unfold page_of, TERM_1_MEM, FOUR_KB, window, PHYSICAL_START, FOUR_MB_BLOCK in *. lia.
Qed.
End NewTerminal.

Section Starts.
Context `{PlatformOk}.

Lemma switch_start m i j ti tj :
  screens_ok m -> term_cur m = i + 1 -> term_of m i ti -> term_of m j tj -> i <> j -> t_init tj = 0 ->
  can_execute (quiet m) = (Ok 1, quiet m) ->
  switch_terminal (j + 1) m = (terminal_start (j + 1);; sti;; mret 0) (switching m i j ti).
Proof.
  intros Hs Hc Hi Hj Hne Hinit Hcan. unfold switch_terminal, cli. mrun.
  match goal with |- context [term_cur ?mm] => change mm with (quiet m) end.
  change (term_cur (quiet m)) with (term_cur m). rewrite Hc.
  rewrite (proj2 (Z.eqb_neq (j + 1) (i + 1))) by lia. replace (j + 1 - 1) with j by lia.
  go (term_at (quiet m) j tj) by done. rewrite Hinit. change (0 =? 0) with true. cbv iota.
  rewrite ?bind_run, Hcan. mrun. change (negb (truth 1)) with false. mrun.
  change (term_cur (quiet m)) with (term_cur m). rewrite Hc.
  rewrite (terminal_save_ok (quiet m) i ti) by (first [by apply screens_quiet|exact Hi]). mrun.
  match goal with |- context [terminal_at _ ?mm] => change mm with (switching m i j ti) end.
  set (m1 := switching m i j ti). assert (term_of m1 j tj) as Hj1 by (apply switching_term; [exact Hi|exact Hj|lia]).
  change (term_cur m1) with (j + 1). replace (j + 1 - 1) with j by lia.
  rewrite (term_at m1 j tj Hj1), Hinit. reflexivity.
Qed.

Lemma switch_full m i j tj msg r m' :
  term_cur m = i + 1 -> term_of m j tj -> i <> j -> t_init tj = 0 ->
  can_execute (quiet m) = (Ok 0, quiet m) ->
  msg = [10] ++ text "Please close processes before opening another teminal" ++ [10] ++ text "391OS> " ->
  printf_loop msg None (to_parg <$> []) (quiet m) = (Ok r, m') ->
  switch_terminal (j + 1) m = (Ok 0, m' <| cpu ::= fun c => c <| IF := true |> |>).
Proof.
  intros Hc Hj Hne Hinit Hcan -> E. unfold switch_terminal, cli. mrun.
  match goal with |- context [term_cur ?mm] => change mm with (quiet m) end.
  change (term_cur (quiet m)) with (term_cur m). rewrite Hc.
  rewrite (proj2 (Z.eqb_neq (j + 1) (i + 1))) by lia. replace (j + 1 - 1) with j by lia.
  go (term_at (quiet m) j tj) by done. rewrite Hinit. change (0 =? 0) with true. cbv iota.
  rewrite ?bind_run, Hcan. mrun. change (negb (truth 0)) with true. cbv iota.
  unfold printf. change (to_parg <$> []) with ([] : list parg) in E. go E. reflexivity.
Qed.

Lemma switching_kept m i j t x y :
  0 <= i < 3 -> 0 <= j < 3 -> i <> j ->
  con_kept (switching m i j t) (page_of j) x y = con_kept m (page_of j) x y.
Proof.
  intros Hi Hj Hne. unfold con_kept. apply (f_equal (fun l => Console l x y)). apply list_fmap_ext. intros k q Hq. apply lookup_seq in Hq as [-> Hk].
  transitivity (cell (upds m (page_of i) (cells m VIDEO 4000)) (page_of j + 2 * Z.of_nat (0 + k))).
  - cbn [cell machine_memory]. by rewrite switching_phys.
  - apply cell_upds_out. rewrite length_cells. unfold page_of, FOUR_KB, TERM_1_MEM. lia.
Qed.
End Starts.

(** C38. Switching to a terminal that has not been started: while less than six
    processes are live, the terminal that was in front is put in its page and
    the other one comes up with the banner on its own page and enters a shell,
    with an identifier that was free and one process in the terminal; every
    part of the state stays in order.  When six are live, a message is printed
    and nothing else changes but the interrupt flag; switching to the terminal in front
    only sets the flag. *)
Theorem switch_starts `{PlatformOk} (pb size : Z) (img : image) (sh : list Z) (m : machine) (i j : Z) (ti tj : terminal_t)
    (con : console) :
  kernel_ok pb size img m -> screens_ok m -> image_clear pb size -> shell_in img sh ->
  term_cur m = i + 1 -> term_of m i ti -> term_of m j tj -> i <> j ->
  t_init tj = 0 -> 0 <= pos_x tj < 80 -> 0 <= pos_y tj < 25 -> shows VIDEO m con ->
  switch_terminal (i + 1) m = (Ok 0, m <| cpu ::= fun c => c <| IF := true |> |>) /\
  if decide (live (processes_flags m) < 6) then
    exists m' n, switch_terminal (j + 1) m = (Stop (EnterUser (entry_point sh) USER_STACK), m') /\
      free_pid (processes_flags m) = Some n /\
      kernel_ok pb size img m' /\ screens_ok m' /\ term_cur m' = j + 1 /\
      processes_flags m' = Z.lor (processes_flags m) (Z.shiftl 1 n) /\
      terminal m' = <[Z.to_nat j := tj <| t_init := 1 |> <| num_processes := num_processes tj + 1 |> <| term_pid := n |>]>
        (<[Z.to_nat i := saved_terminal m ti]> (terminal m)) /\
      shows VIDEO m' (con_puts (concat banner) (con_kept m (page_of j) (pos_x tj) (pos_y tj))) /\
      cells m' (page_of i) 4000 = cells m VIDEO 4000
  else exists m', switch_terminal (j + 1) m = (Ok 0, m' <| cpu ::= fun c => c <| IF := true |> |>) /\
      screen_only VIDEO (quiet m) m' /\
      shows VIDEO m' (con_puts ([10] ++ text "Please close processes before opening another teminal" ++ [10] ++
                                text "391OS> ") con).
Proof.
  intros Hk Hs Hc Hsh Htc Hi Hj Hne Hinit Hx Hy Hcon. split.
  { unfold switch_terminal, cli, sti. mrun. match goal with |- context [term_cur ?mm] => change (term_cur mm) with (term_cur m) end. rewrite Htc, Z.eqb_refl.
    mrun. by destruct m as [? ? ? []]. }
  pose proof (so_terminals m Hs i ti Hi) as [Hi3 _]. pose proof (so_terminals m Hs j tj Hj) as [Hj3 _].
  pose proof (proj1 Hi) as Hi0. pose proof (proj1 Hj) as Hj0. pose proof (ko_accounts _ _ _ _ Hk) as Ha.
  assert (can_execute (quiet m) = (Ok (if live (processes_flags m) <? 6 then 1 else 0), quiet m)) as Hcan.
  { rewrite can_execute_ok by (first [exact (ac_terminals _ Ha)|exact (accounts_counts _ Ha)]). change (terminal (quiet m)) with (terminal m).
    by rewrite (ac_total _ Ha). }
  destruct (decide (live (processes_flags m) < 6)) as [Hlive|Hlive].
  - rewrite (proj2 (Z.ltb_lt _ _)) in Hcan by done.
    destruct (terminal_start_ok pb size img sh (switching m i j ti) j tj) as (m' & n & E & Hn & Hk' & Hs' & Htc' & Hf & Ht' & Hsh' & _ & _ & Hpg).
    + by apply switching_kernel_ok.
    + by apply switching_screens.
    + exact Hc.
    + exact Hsh.
    + reflexivity.
    + by apply switching_term.
    + exact Hx.
    + exact Hy.
    + exact Hlive.
    + exists m', n. split; [rewrite (switch_start m i j ti tj Hs Htc Hi Hj Hne Hinit Hcan), bind_run, E; reflexivity|].
      split; [exact Hn|]. split; [exact Hk'|]. split; [exact Hs'|]. split; [exact Htc'|]. split; [exact Hf|].
      split; [exact Ht'|]. rewrite Hpg, switching_cells, decide_True by (done || lia). split; [|done].
      by rewrite (switching_kept m i j ti) in Hsh' by (done || lia).
  - rewrite (proj2 (Z.ltb_ge _ _)) in Hcan by lia.
    set (msg := [10] ++ text "Please close processes before opening another teminal" ++ [10] ++ text "391OS> ").
    destruct (printf_ok VIDEO msg None [] msg (quiet m) con) as (m' & E & Hsh' & Hso).
    + by destruct Hcon; split.
    + repeat constructor; done.
    + constructor.
    + reflexivity.
    + exists m'. split; [|done]. exact (switch_full m i j tj msg tt m' Htc Hj Hne Hinit Hcan eq_refl E).
Qed.
