(* ===== verification/TermSetup.v ===== *)
(** [init_terminals] of [student-distrib/terminal.c]: the pages of the three
    terminals, their blank screens, and the first shell. *)

From S2P Require Import Prelude Memory CLib Machine I8259 Rtc Pcb Rofs Paging Screen Keyboard TermIO Files Process Launch Halt Terminal.

(** * The pages *)

Section Init.
Context `{PlatformOk}.

(** The tables with the three pages. *)
Definition term_tables (t : tables) : tables :=
  put_user 3 (Z.lor TERM_3_MEM RWP_FLAGS) (put_dir 25 (Z.lor addr_userTable RWP_FLAGS)
   (put_user 2 (Z.lor TERM_2_MEM RWP_FLAGS) (put_dir 25 (Z.lor addr_userTable RWP_FLAGS)
    (put_user 1 (Z.lor TERM_1_MEM RWP_FLAGS) (put_dir 25 (Z.lor addr_userTable RWP_FLAGS) t))))).

Lemma term_tables_run m :
  (remapToPage TERM_MEM TERM_1_MEM 1;; remapToPage TERM_MEM TERM_2_MEM 2;; remapToPage TERM_MEM TERM_3_MEM 3) m =
  (Ok tt, with_tables m (term_tables (tabs (pg m)))).
Proof. do 2 (go remapToPage_run by lia). rewrite remapToPage_run by lia. reflexivity. Qed.

Lemma term_tables_ok t : tables_ok t -> tables_ok (term_tables t).
Proof. intros Ht. unfold term_tables. do 3 (apply tables_ok_put_user, tables_ok_put_dir). done. Qed.

(** The directory entry of the pages, and their entries in the user table. *)
Lemma term_tables_entries t :
  tables_ok t ->
  pageDir (term_tables t) !! 25%nat = Some (Z.lor addr_userTable RWP_FLAGS) /\
  forall i, 0 <= i < 3 -> userTable (term_tables t) !! Z.to_nat (i + 1) = Some (Z.lor (page_of i) RWP_FLAGS).
Proof.
  intros (Hd & _ & Hu & _). unfold term_tables, put_user, put_dir. msimp. split.
  - rewrite list_lookup_insert_eq; [done|]. rewrite !length_insert. lia.
  - intros i Hi. assert (i = 0 \/ i = 1 \/ i = 2) as [-> | [-> | ->]] by lia.
    + rewrite !list_lookup_insert_ne by (cbn; lia). rewrite list_lookup_insert_eq by (rewrite Hu; cbn; lia). reflexivity.
    + rewrite list_lookup_insert_ne by (cbn; lia).
      rewrite list_lookup_insert_eq by (rewrite length_insert, Hu; cbn; lia). reflexivity.
    + rewrite list_lookup_insert_eq by (rewrite !length_insert, Hu; cbn; lia). reflexivity.
Qed.

Lemma term_walk t i o :
  tables_ok t -> 0 <= i < 3 -> 0 <= o < 4096 -> walk (term_tables t) (page_of i + o) = Some (page_of i + o, true).
Proof.
  intros Ht Hi Ho. destruct (term_tables_entries t Ht) as [Hd Hu].
  destruct addr_range as (_ & Hur & _). destruct addr_aligned as (_ & Hua & _).
  assert (dir_index (page_of i + o) = 25) as Hdi.
  { unfold dir_index, page_of, TERM_1_MEM, FOUR_KB, FOUR_MB. symmetry.
    apply Z.div_unique with (4096 * (i + 1) + o); lia. }
  assert (page_index (page_of i + o) = i + 1) as Hpi.
  { unfold page_index, page_of, TERM_1_MEM, FOUR_KB.
    replace ((0x6401000 + 4096 * i + o) / 4096) with (i + 1 + 25 * 1024) by (apply Z.div_unique with o; lia).
    rewrite Z_mod_plus_full, Z.mod_small; lia. }
  assert (page_of i mod 2 ^ 12 = 0) as Hal.
  { unfold page_of, TERM_1_MEM, FOUR_KB. replace (0x6401000 + 4096 * i) with ((25601 + i) * 2 ^ 12) by lia. apply Z_mod_mult. }
  assert (0 <= page_of i < 4294967296) as Hpr by (unfold page_of, TERM_1_MEM, FOUR_KB; lia).
  rewrite (walk_table _ (page_of i + o) addr_userTable (userTable (term_tables t)) (Z.lor (page_of i) RWP_FLAGS) RWP_FLAGS);
    [|by rewrite Hdi|done|done|done|done|done|apply table_at_user|rewrite Hpi; by apply Hu].
  rewrite !(lor_flags_bit (page_of i) RWP_FLAGS 12) by (done || lia).
  change 0xFFFFF000 with (4294967296 - 2 ^ 12). rewrite entry_base by (done || lia). cbn [Z.testbit].
  change (Z.testbit RWP_FLAGS 0) with true. change (Z.testbit RWP_FLAGS 2) with true. cbn [andb]. do 2 f_equal.
  unfold page_offset, FOUR_KB, page_of, TERM_1_MEM, FOUR_KB.
  replace (0x6401000 + 4096 * i + o) with (o + (25601 + i) * 4096) by lia. rewrite Z_mod_plus_full, Z.mod_small; lia.
Qed.

(** No entry below the pages leads to the user table. *)
Definition user_table_unused (m : machine) : Prop :=
  forall a pde, 0 <= a < TERM_MEM -> pageDir (tabs (pg m)) !! Z.to_nat (dir_index a) = Some pde ->
    Z.testbit pde 0 = true -> Z.testbit pde 7 = false -> Z.land pde 0xFFFFF000 <> addr_userTable.

Lemma dir_index_low a : 0 <= a < TERM_MEM -> 0 <= dir_index a < 25.
Proof.
  unfold TERM_MEM, dir_index, FOUR_MB. intros Ha.
  split; [apply Z.div_pos; lia|apply Z.div_lt_upper_bound; lia].
Qed.

Lemma term_tables_low m a :
  tables_ok (tabs (pg m)) -> user_table_unused m -> 0 <= a < TERM_MEM ->
  walk (term_tables (tabs (pg m))) a = walk (tabs (pg m)) a.
Proof.
  intros Ht Hun Ha. pose proof (dir_index_low a Ha) as Hd.
  apply walk_ext.
  - unfold term_tables, put_user, put_dir. msimp. by rewrite !list_lookup_insert_ne by lia.
  - intros pde Hp Hb0 H7. specialize (Hun a pde Ha Hp Hb0 H7). unfold table_at, term_tables, put_user, put_dir. msimp.
    destruct (Z.land pde 0xFFFFF000 =? addr_pageTable); [done|]. by rewrite (proj2 (Z.eqb_neq _ _)) by done.
Qed.

Lemma term_tables_loc m a :
  paging_ok m -> user_table_unused m -> 0 <= a < TERM_MEM ->
  loc (with_tables m (term_tables (tabs (pg m)))) a = loc m a.
Proof.
  intros Hok Hun Ha. cbn [loc machine_memory]. rewrite translate_with_tables, translate_ok by done.
  by rewrite term_tables_low by (done || apply Hok).
Qed.
End Init.

(** * The loops *)

Section Loops.
Context `{PlatformOk}.

(** A terminal as the first loop leaves it. *)
Definition blank_terminal (i : Z) (t : terminal_t) : terminal_t :=
  t <| t_num := u8 (i + 1) |> <| t_key_buffer := replicate 128 0 |> <| t_key_buffer_pos := 0 |>
    <| pos_x := 0 |> <| pos_y := 0 |> <| t_esp := 0 |> <| t_ebp := 0 |> <| num_processes := 0 |> <| t_init := 0 |>.

Lemma blank_one m i t :
  term_of m i t -> length (t_key_buffer t) = 128%nat ->
  init_terminal i m =
  (Ok tt, put_term m i (blank_terminal i t)).
Proof.
  intros Ht Hl. unfold init_terminal. go (term_upd m i t) by done. do 7 (go (term_upd_put m i t) by done).
  match goal with |- context [put_term m i ?x] => set (t1 := x) end.
  rewrite for_range_n by (unfold KEY_BUFFER_SIZE; lia).
  destruct (for_n_ok (fun j s => s = put_term m i (t1 <| t_key_buffer :=
      replicate (Z.to_nat j) 0 ++ drop (Z.to_nat j) (t_key_buffer t) |>))
    (Z.to_nat (KEY_BUFFER_SIZE - 0)) 0 (fun j => terminal_upd i (fun t => t <| t_key_buffer ::= <[Z.to_nat j := 0]> |>))
    (put_term m i t1)) as (m2 & E & Hm2).
  - change (Z.to_nat 0) with 0%nat. rewrite drop_0. cbn [replicate app].
    assert (t_key_buffer t1 = t_key_buffer t) as <- by done. by destruct t1.
  - intros j s Hj ->. unfold KEY_BUFFER_SIZE in Hj. eexists. split; [by apply (term_upd_put m i t)|].
    assert (<[Z.to_nat j := 0]> (replicate (Z.to_nat j) 0 ++ drop (Z.to_nat j) (t_key_buffer t)) =
            replicate (Z.to_nat (j + 1)) 0 ++ drop (Z.to_nat (j + 1)) (t_key_buffer t)) as <-; [|by destruct t1].
    rewrite insert_app_r_alt by (rewrite length_replicate; lia). rewrite length_replicate, Nat.sub_diag.
    rewrite (drop_byte (t_key_buffer t)) by lia. cbn [insert list_insert].
    replace (Z.to_nat (j + 1)) with (Z.to_nat j + 1)%nat by lia. by rewrite replicate_add, <- app_assoc.
  - rewrite E, Hm2. change (Z.to_nat (0 + Z.of_nat (Z.to_nat (KEY_BUFFER_SIZE - 0)))) with 128%nat.
    rewrite drop_ge, app_nil_r by lia. unfold t1, blank_terminal. clear. by destruct t as [? ? ? ? ? ? ? ? ? ? ?].
Qed.

(** The three stores of a character and its colour. *)
Definition blank_bytes (m m' : machine) (k : Z) : Prop :=
  only_phys m m' /\
  (forall q, q < page_of 0 \/ page_of 3 <= q -> cell m' q = cell m q) /\
  forall i j, 0 <= i < 3 -> 0 <= j < k -> cell m' (page_of i + 2 * j) = 32.

Lemma blank_pages m :
  (forall i, 0 <= i < 3 -> maps m (page_of i) (page_of i) 4000) ->
  exists m', for_range 0 (NUM_ROWS * NUM_COLS) blank_char m = (Ok tt, m') /\ blank_bytes m m' 2000.
Proof.
  intros Hm. rewrite for_range_n by (unfold NUM_ROWS, NUM_COLS; lia).
  match goal with |- context [for_n ?n 0 ?body m] =>
    destruct (for_n_ok (fun k s => blank_bytes m s k) n 0 body m) as (m' & E & Hb) end.
  - split; [apply only_phys_refl|]. split; [done|]. lia.
  - intros k s Hk (Ho & Hout & Hin). unfold NUM_ROWS, NUM_COLS in Hk.
    assert (forall s' i o v, only_phys m s' -> 0 <= i < 3 -> 0 <= o < 4000 ->
      store8 (page_of i + o) v s' = (Ok tt, upd s' (page_of i + o) (u8 v))) as Hst.
    { intros s' i o v Hs' Hi Ho'. apply (store8_maps s' (page_of i) (page_of i) 4000); [|done].
      apply (maps_loc m); [|by apply Hm]. intros x. by apply only_phys_loc. }
    unfold blank_char. change TERM_1_MEM with (page_of 0). change TERM_2_MEM with (page_of 1). change TERM_3_MEM with (page_of 2).
    rewrite !(Z.shiftl_mul_pow2 k 1) by lia. change (2 ^ 1) with 2. rewrite (Z.mul_comm k 2), <- !Z.add_assoc.
    do 5 (go Hst by first [lia|repeat apply only_phys_upd; exact Ho]).
    rewrite Hst by first [lia|repeat apply only_phys_upd; exact Ho].
    eexists. split; [done|]. split; [repeat apply only_phys_upd; exact Ho|].
    unfold page_of, TERM_1_MEM, FOUR_KB in *. split.
    + intros q Hq. rewrite !cell_upd_ne by lia. by apply Hout.
    + intros i j Hi Hj. destruct (decide (j = k)) as [->|Hne].
      * assert (i = 0 \/ i = 1 \/ i = 2) as [-> | [-> | ->]] by lia;
          repeat first [rewrite cell_upd_eq; reflexivity|rewrite cell_upd_ne by lia].
      * rewrite !cell_upd_ne by lia. apply Hin; lia.
  - exists m'. split; [exact E|]. exact Hb.
Qed.
End Loops.

(** * The whole of it *)

Section Boot.
Context `{PlatformOk}.

(** The kernel before its terminals exist. *)
Record boot_ready (pb size : Z) (img : image) (m : machine) : Prop := {
  br_paging : paging_ok m;
  br_unused : user_table_unused m;
  br_video : maps m VIDEO VIDEO 4000;
  br_image : represents pb size img m;
  br_low : boot_block (fs m) + size <= TERM_MEM;
  br_clear : image_clear pb size;
  br_apart n : 0 <= n < 6 -> image_apart m pb size n;
  br_blocks n : 0 <= n < 6 -> is_Some (loc m (get_pcb n)) /\ pcb_ok (pcb_of m (get_pcb n));
  br_terminals : length (terminal m) = 3%nat;
  br_buffers : Forall (fun t => length (t_key_buffer t) = 128%nat) (terminal m);
  br_flags : processes_flags m = 0
}.

(** The terminals, with their pages. *)
Definition fresh_terminal (i : Z) (t : terminal_t) : terminal_t := blank_terminal i t <| vid_mem := page_of i |>.

Definition set_up (m : machine) (t0 t1 t2 : terminal_t) : machine :=
  (with_tables m (term_tables (tabs (pg m)))) <| terminal := [fresh_terminal 0 t0; fresh_terminal 1 t1; fresh_terminal 2 t2] |>.

Section Three.
Variables (m : machine) (t0 t1 t2 : terminal_t).

Lemma three_upd f : 
  (forall l, terminal_upd 0 f (m <| terminal := t0 :: l |>) = (Ok tt, m <| terminal := f t0 :: l |>)) /\
  (forall l, terminal_upd 1 f (m <| terminal := t0 :: t1 :: l |>) = (Ok tt, m <| terminal := t0 :: f t1 :: l |>)) /\
  (forall l, terminal_upd 2 f (m <| terminal := t0 :: t1 :: t2 :: l |>) = (Ok tt, m <| terminal := t0 :: t1 :: f t2 :: l |>)).
Proof.
  split; [|split]; intros l.
  - by rewrite (term_upd _ 0 t0) by done.
  - by rewrite (term_upd _ 1 t1) by done.
  - by rewrite (term_upd _ 2 t2) by done.
Qed.

Hypothesis buffers : Forall (fun t => length (t_key_buffer t) = 128%nat) [t0; t1; t2].

Lemma three_blank :
  for_range 0 MAX_TERMINALS init_terminal (m <| terminal := [t0; t1; t2] |>) =
  (Ok tt, m <| terminal := [blank_terminal 0 t0; blank_terminal 1 t1; blank_terminal 2 t2] |>).
Proof.
  inversion buffers as [|? ? H0' Hl1]; subst. inversion Hl1 as [|? ? H1' Hl2]; subst.
  inversion Hl2 as [|? ? H2' _]; subst.
  rewrite for_range_n by (unfold MAX_TERMINALS; lia). change (Z.to_nat (MAX_TERMINALS - 0)) with 3%nat. cbn [for_n].
  rewrite bind_run, (blank_one _ 0 t0) by done. cbv beta iota.
  rewrite bind_run, (blank_one _ 1 t1) by done. cbv beta iota.
  rewrite bind_run, (blank_one _ 2 t2) by done. reflexivity.
Qed.
End Three.

Lemma vid_mem_three m t0 t1 t2 (k : K unit) :
  (terminal_upd 0 (fun t => t <| vid_mem := TERM_1_MEM |>);;
   terminal_upd 1 (fun t => t <| vid_mem := TERM_2_MEM |>);;
   terminal_upd 2 (fun t => t <| vid_mem := TERM_3_MEM |>);; k) (m <| terminal := [t0; t1; t2] |>) =
  k (m <| terminal := [t0 <| vid_mem := TERM_1_MEM |>; t1 <| vid_mem := TERM_2_MEM |>; t2 <| vid_mem := TERM_3_MEM |>] |>).
Proof.
  rewrite bind_run, (proj1 (three_upd m t0 t1 t2 _)). cbv beta iota.
  rewrite bind_run, (proj1 (proj2 (three_upd m (t0 <| vid_mem := TERM_1_MEM |>) t1 t2 _))). cbv beta iota.
  rewrite bind_run. by rewrite (proj2 (proj2 (three_upd m (t0 <| vid_mem := TERM_1_MEM |>) (t1 <| vid_mem := TERM_2_MEM |>) t2 _))).
Qed.

Lemma set_up_run m t0 t1 t2 :
  terminal m = [t0; t1; t2] -> Forall (fun t => length (t_key_buffer t) = 128%nat) [t0; t1; t2] ->
  init_terminals m =
  (for_range 0 (NUM_ROWS * NUM_COLS) blank_char;;
   modify (fun m => m <| term_cur := 1 |>);;
   terminal_start 1;;
   mret tt) (set_up m t0 t1 t2).
Proof.
  intros Hm Hl. assert (m = m <| terminal := [t0; t1; t2] |>) as Em by (rewrite <- Hm; by destruct m).
  unfold init_terminals. pose proof (three_blank m t0 t1 t2 Hl) as E. rewrite <- Em in E. go E.
  set (l := [_; _; _]). do 3 (go remapToPage_run by lia).
  exact (vid_mem_three (with_tables m (term_tables (tabs (pg m)))) (blank_terminal 0 t0) (blank_terminal 1 t1) (blank_terminal 2 t2) _).
Qed.
End Boot.

Section BootRun.
Context `{PlatformOk}.

(** The state in which [terminal_start] is called, [m2] being what [k] rounds of the
    second loop leave of [set_up m t0 t1 t2]. *)
Section Started.
Variables (pb size : Z) (img : image) (m m2 : machine) (t0 t1 t2 : terminal_t) (k : Z).
Hypothesis ready : boot_ready pb size img m.
Hypothesis blank : blank_bytes (set_up m t0 t1 t2) m2 k.

Let m3 : machine := m2 <| term_cur := 1 |>.

Lemma set_up_fields :
  pg m3 = pg (with_tables m (term_tables (tabs (pg m)))) /\ fs m3 = fs m /\ term_cur m3 = 1 /\ pcbs m3 = pcbs m /\
  terminal m3 = [fresh_terminal 0 t0; fresh_terminal 1 t1; fresh_terminal 2 t2] /\ processes_flags m3 = processes_flags m.
Proof. unfold m3. destruct blank as [-> _]. repeat split; reflexivity. Qed.

Lemma set_up_paging : paging_ok m3.
Proof.
  unfold paging_ok. rewrite (proj1 set_up_fields). apply (with_tables_ok m); [apply ready|].
  apply term_tables_ok, (br_paging _ _ _ _ ready).
Qed.

(** Below the pages nothing has changed. *)
Lemma set_up_loc a : 0 <= a < TERM_MEM -> loc m3 a = loc m a.
Proof.
  intros Ha. rewrite <- (term_tables_loc m a) by (first [apply ready|exact Ha]).
  cbn [loc machine_memory]. by rewrite (proj1 set_up_fields).
Qed.

Lemma set_up_maps a pa n : 0 <= a -> a + n <= TERM_MEM -> maps m a pa n -> maps m3 a pa n.
Proof.
  intros Ha Hn Hm i Hi. rewrite set_up_loc; [by apply Hm|]. unfold TERM_MEM in *. rewrite u32_small; lia.
Qed.

Lemma set_up_low q : q < page_of 0 -> cell m3 q = cell m q.
Proof. intros Hq. destruct blank as (_ & Hout & _). exact (Hout q (or_introl Hq)). Qed.

Lemma set_up_accounts : accounts m3.
Proof.
  destruct set_up_fields as (_ & _ & _ & _ & Ht & Hf). split; rewrite ?Ht, ?Hf, ?(br_flags _ _ _ _ ready).
  - unfold is_byte. lia.
  - reflexivity.
  - repeat constructor; cbn; lia.
  - reflexivity.
Qed.

Lemma set_up_kernel_ok : kernel_ok pb size img m3.
Proof.
  destruct set_up_fields as (_ & Hfs & Hc & Hpcb & _ & _). pose proof (br_image _ _ _ _ ready) as Hr. split.
  - apply set_up_paging.
  - apply (represents_frame pb size img m); [|exact Hfs| |exact Hr].
    + destruct (rep_addr _ _ _ _ Hr). apply set_up_maps; [done|apply ready|apply Hr].
    + intros q Hq. apply set_up_low. destruct (br_clear _ _ _ _ ready). lia.
  - intros n Hn. destruct (br_apart _ _ _ _ ready n Hn). split; [by rewrite Hfs|done].
  - intros n Hn. destruct (get_pcb_range n Hn) as [_ Hp].
    unfold pcb_of. rewrite set_up_loc by (unfold TERM_MEM; lia). rewrite Hpcb. by apply (br_blocks _ _ _ _ ready).
  - rewrite Hc. lia.
  - apply set_up_accounts.
Qed.

Lemma set_up_terminal i t : term_of m3 i t -> 0 <= i < 3 /\ vid_mem t = page_of i.
Proof.
  destruct set_up_fields as (_ & _ & _ & _ & Ht & _). intros [Hi Hl]. rewrite Ht in Hl.
  pose proof (lookup_lt_Some _ _ _ Hl) as Hlt. cbn [length] in Hlt. split; [lia|].
  assert (i = 0 \/ i = 1 \/ i = 2) as [-> | [-> | ->]] by lia; injection Hl as <-; reflexivity.
Qed.

Lemma set_up_screens : screens_ok m3.
Proof.
  split.
  - apply set_up_maps; [by unfold VIDEO|by unfold VIDEO, TERM_MEM|apply ready].
  - intros i Hi o Ho. pose proof (page_range i Hi) as [? Hp]. unfold VIDEO, VIRTUAL_START in *. rewrite u32_small by lia.
    cbn [loc machine_memory]. rewrite (proj1 set_up_fields). rewrite translate_with_tables by apply ready.
    rewrite term_walk by (first [apply (br_paging _ _ _ _ ready)|lia]). done.
  - intros i t Ht. destruct (set_up_terminal i t Ht) as [? ?]. split; [lia|done].
Qed.

Lemma set_up_kept i : k = 2000 -> 0 <= i < 3 -> con_kept m3 (page_of i) 0 0 = con_blank.
Proof.
  intros Hk2 Hi. unfold con_kept, con_blank. apply (f_equal (fun l => Console l 0 0)).
  apply list_eq. intros j. rewrite list_lookup_fmap. destruct (decide (j < 2000)%nat) as [Hk|Hk].
  - rewrite lookup_seq_lt by done. rewrite lookup_replicate_2 by done. cbn [fmap option_fmap option_map Nat.add]. f_equal.
    destruct blank as (_ & _ & Hin). exact (Hin i (Z.of_nat j) Hi ltac:(lia)).
  - rewrite (lookup_ge_None_2 (seq 0 2000)) by (rewrite length_seq; lia).
    rewrite (lookup_ge_None_2 (replicate 2000 32)) by (rewrite length_replicate; lia). reflexivity.
Qed.
End Started.

Lemma con_kept_ext m m' pa x y : cells m' pa 4000 = cells m pa 4000 -> con_kept m' pa x y = con_kept m pa x y.
Proof.
  intros Hc. unfold con_kept. apply (f_equal (fun l => Console l x y)). apply list_fmap_ext.
  intros k q Hq. apply lookup_seq in Hq as [-> Hk]. replace (2 * Z.of_nat (0 + k)) with (Z.of_nat (2 * k)) by lia.
  apply (inj Some). rewrite <- !(cells_lookup _ pa 4000) by lia. by rewrite Hc.
Qed.

Lemma three_terminals m : length (terminal m) = 3%nat -> exists t0 t1 t2, terminal m = [t0; t1; t2].
Proof. destruct (terminal m) as [|t0 [|t1 [|t2 [|? ?]]]]; try discriminate. intros _. by exists t0, t1, t2. Qed.

Lemma set_up_pages pb size img m t0 t1 t2 i :
  boot_ready pb size img m -> 0 <= i < 3 -> maps (set_up m t0 t1 t2) (page_of i) (page_of i) 4000.
Proof.
  intros Hr Hi o Ho. pose proof (page_range i Hi) as [? Hp]. unfold VIDEO, VIRTUAL_START in *. rewrite u32_small by lia.
  change (loc (set_up m t0 t1 t2) (page_of i + o)) with (translate (pg (with_tables m (term_tables (tabs (pg m))))) (page_of i + o)).
  rewrite translate_with_tables by apply Hr.
  rewrite term_walk by (first [apply (br_paging _ _ _ _ Hr)|lia]). done.
Qed.
End BootRun.

(** The whole of [init_terminals]. *)
Lemma init_terminals_ok `{PlatformOk} (pb size : Z) (img : image) (sh : list Z) (m : machine) :
  boot_ready pb size img m -> shell_in img sh ->
  exists m', init_terminals m = (Stop (EnterUser (entry_point sh) USER_STACK), m') /\
    kernel_ok pb size img m' /\ screens_ok m' /\ term_cur m' = 1 /\ processes_flags m' = 1 /\
    t_init <$> terminal m' = [1; 0; 0] /\ num_processes <$> terminal m' = [1; 0; 0] /\
    term_pid <$> terminal m' !! 0%nat = Some 0 /\
    shows VIDEO m' (con_puts (concat banner) con_blank) /\
    key_buffer (kbd m') = Some 0%nat /\ key_buffer_pos (kbd m') = 0 /\
    con_kept m' (page_of 1) 0 0 = con_blank /\ con_kept m' (page_of 2) 0 0 = con_blank.
Proof.
  intros Hr Hsh. destruct (three_terminals m (br_terminals _ _ _ _ Hr)) as (t0 & t1 & t2 & Ht).
  pose proof (br_buffers _ _ _ _ Hr) as Hb. rewrite Ht in Hb.
  destruct (blank_pages (set_up m t0 t1 t2)) as (m2 & E & Hbl).
  { intros i Hi. by apply (set_up_pages pb size img). }
  pose proof (set_up_kernel_ok pb size img m m2 t0 t1 t2 2000 Hr Hbl) as Hk.
  pose proof (set_up_fields m m2 t0 t1 t2 2000 Hbl) as (_ & _ & Hc & _ & Htm & Hf). rewrite (br_flags _ _ _ _ Hr) in Hf.
  pose proof (fun i => set_up_kept m m2 t0 t1 t2 2000 Hbl i eq_refl) as Hkept.
  set (m3 := m2 <| term_cur := 1 |>) in *.
  destruct (terminal_start_ok pb size img sh m3 0 (fresh_terminal 0 t0)) as
    (m' & n & E' & Hn & Hk' & Hs' & Hc' & Hf' & Ht' & Hsh' & Hkb & Hkp & Hpg).
  - exact Hk.
  - exact (set_up_screens pb size img m m2 t0 t1 t2 2000 Hr Hbl).
  - apply Hr.
  - exact Hsh.
  - exact Hc.
  - split; [done|]. by rewrite Htm.
  - cbn. lia.
  - cbn. lia.
  - rewrite Hf. reflexivity.
  - exists m'. rewrite Hf in Hn. assert (n = 0) as -> by (vm_compute in Hn; congruence).
    change (0 + 1) with 1 in E'. split.
    { rewrite (set_up_run m t0 t1 t2 Ht Hb). go E.
      rewrite bind_run. cbn [modify]. change (m2 <| term_cur := 1 |>) with m3. by rewrite bind_run, E'. }
    split; [exact Hk'|]. split; [exact Hs'|]. split; [exact Hc'|]. split; [by rewrite Hf', Hf|].
    rewrite Ht', Htm. split; [reflexivity|]. split; [reflexivity|]. split; [reflexivity|].
    split; [rewrite <- (Hkept 0) by lia; exact Hsh'|]. split; [exact Hkb|]. split; [exact Hkp|].
    split; [rewrite <- (Hkept 1) by lia|rewrite <- (Hkept 2) by lia]; apply con_kept_ext, Hpg; lia.
Qed.

(** C11. [init_terminals], called while no process is live: it ends in user mode, at
    the entry point of the shell, with the first terminal in front and the only
    one started, its screen showing the banner alone; the pages of the other two
    are blank, and the accounts of the processes, the tables and the file system
    are in order with one process live. *)
Theorem init_terminals_boots `{PlatformOk} (pb size : Z) (img : image) (sh : list Z) (m : machine) :
  boot_ready pb size img m -> shell_in img sh ->
  exists m', init_terminals m = (Stop (EnterUser (entry_point sh) USER_STACK), m') /\
    kernel_ok pb size img m' /\ screens_ok m' /\ term_cur m' = 1 /\ processes_flags m' = 1 /\
    t_init <$> terminal m' = [1; 0; 0] /\ num_processes <$> terminal m' = [1; 0; 0] /\
    term_pid <$> terminal m' !! 0%nat = Some 0 /\
    shows VIDEO m' (con_puts (concat banner) con_blank) /\
    key_buffer (kbd m') = Some 0%nat /\ key_buffer_pos (kbd m') = 0 /\
    con_kept m' (page_of 1) 0 0 = con_blank /\ con_kept m' (page_of 2) 0 0 = con_blank.
Proof. apply init_terminals_ok. Qed.

Section Ready.
Context `{PlatformOk}.

Lemma initial_unused m t0 t :
  filled t0 t 1024 -> tabs (pg m) = initial_tables t -> user_table_unused m.
Proof.
  intros ((Hl & _) & _ & _ & Hf) Ht a pde Ha Hp Hb0 Hb. pose proof (dir_index_low a Ha) as Hd. rewrite Ht in Hp.
  destruct addr_distinct as (Hpu & _ & _). destruct addr_range as (Hpr & Hur & _). destruct addr_aligned as (Hpa & _ & _).
  change (pageDir (initial_tables t)) with
    (<[1%nat := Z.lor FOUR_MB PAGE_DIR_FLAGS]> (<[0%nat := Z.lor addr_pageTable 3]> (pageDir t))) in Hp.
  destruct (decide (dir_index a = 1)) as [Ho|Ho].
  { rewrite Ho in Hp. rewrite list_lookup_insert_eq in Hp by (rewrite length_insert, Hl; lia).
    injection Hp as <-. discriminate Hb. }
  rewrite list_lookup_insert_ne in Hp by lia. destruct (decide (dir_index a = 0)) as [Hz|Hz].
  - rewrite Hz in Hp. rewrite list_lookup_insert_eq in Hp by (rewrite Hl; lia).
    injection Hp as <-. change 0xFFFFF000 with (4294967296 - 2 ^ 12). by rewrite entry_base by (done || lia).
  - rewrite list_lookup_insert_ne in Hp by lia. destruct (Hf (dir_index a) ltac:(lia)) as [Hpd _].
    rewrite Hpd in Hp. injection Hp as <-. discriminate Hb0.
Qed.

Lemma shell_ready : boot_ready 0x420000 0x3000 shell_image shell_machine.
Proof.
  destruct shell_kernel_ok as [Hok Hr Hap Hbl _ _]. split.
  - exact Hok.
  - exact (initial_unused shell_machine zero_tables fresh_tables fresh_filled eq_refl).
  - apply shell_shows.
  - exact Hr.
  - unfold TERM_MEM. cbn. lia.
  - split; [unfold VIDEO|unfold page_of, TERM_1_MEM]; lia.
  - exact Hap.
  - exact Hbl.
  - reflexivity.
  - repeat constructor.
  - reflexivity.
Qed.
End Ready.

Lemma init_terminals_boots_witness : let P := plain_platform in
  exists m', init_terminals shell_machine = (Stop (EnterUser 0x8048000 USER_STACK), m') /\ term_cur m' = 1 /\   shows VIDEO m' (con_puts (concat banner) con_blank).
Proof.
  intros P. destruct (init_terminals_boots 0x420000 0x3000 shell_image shell_file shell_machine) as
    (m' & E & _ & _ & Hc & _ & _ & _ & _ & Hsh & _).
  - apply shell_ready.
  - apply shell_in_image.
  - exists m'. split; [exact E|]. split; [exact Hc|exact Hsh].
Defined.

(** * Two terminals

    The machine with its terminals set up and the first one in front; and the same
    with the first two started, each with its shell. *)

Section TwoTerminals.
Context `{PlatformOk}.

Definition front_machine : machine :=
  (set_up shell_machine zero_terminal zero_terminal zero_terminal) <| term_cur := 1 |>.

Lemma front_blank : blank_bytes (set_up shell_machine zero_terminal zero_terminal zero_terminal)
  (set_up shell_machine zero_terminal zero_terminal zero_terminal) 0.
Proof. split; [apply only_phys_refl|]. split; [done|lia]. Qed.

Lemma front_kernel_ok : kernel_ok 0x420000 0x3000 shell_image front_machine.
Proof. exact (set_up_kernel_ok _ _ _ _ _ _ _ _ _ shell_ready front_blank). Qed.

Lemma front_screens : screens_ok front_machine.
Proof. exact (set_up_screens _ _ _ _ _ _ _ _ _ shell_ready front_blank). Qed.

Lemma front_shows : shows VIDEO front_machine blank_console.
Proof.
  destruct shell_shows as [_ Hc Ht Hx Hy]. split; [apply front_screens|exact Hc|exact Ht|exact Hx|exact Hy].
Qed.





End TwoTerminals.


Lemma switch_starts_witness : let P := plain_platform in
  switch_terminal 1 front_machine = (Ok 0, front_machine <| cpu ::= fun c => c <| IF := true |> |>) /\
  exists m', switch_terminal 2 front_machine = (Stop (EnterUser 0x8048000 USER_STACK), m') /\ term_cur m' = 2.
Proof.
  intros P. destruct (switch_starts 0x420000 0x3000 shell_image shell_file front_machine 0 1
    (fresh_terminal 0 zero_terminal) (fresh_terminal 1 zero_terminal) blank_console) as [E0 Hs].
  - exact front_kernel_ok.
  - exact front_screens.
  - apply shell_ready.
  - exact shell_in_image.
  - reflexivity.
  - by split.
  - by split.
  - discriminate.
  - reflexivity.
  - cbn. lia.
  - cbn. lia.
  - exact front_shows.
  - split; [exact E0|]. rewrite decide_True in Hs by reflexivity.
    destruct Hs as (m' & n & E & _ & _ & _ & Hc & _). exists m'. split; [exact E|exact Hc].
Defined.
