(* ===== verification/Isolation.v ===== *)
(** What a process can reach: the 4 MB of its window, and the screens.  The pages of the
    screens are open to user mode, those of [init_terminals] as well as that of [vidmap];
    nothing else of the kernel is, nor the memory of another process. *)

From S2P Require Import Prelude Memory CLib Machine I8259 Rtc Pcb Rofs Paging Screen Keyboard TermIO Files Process Launch Halt Syscalls Terminal TermSetup.

(** The pages of the screens: the video memory, and the one of each terminal. *)
Definition screen_frame (b : Z) : Prop := b = VIDEOMEM \/ exists i, 0 <= i < 3 /\ b = page_of i.

Definition screen_page (pa : Z) : Prop := exists b, screen_frame b /\ b <= pa < b + FOUR_KB.

Section Contained.
Context `{PlatformOk}.

(** But for the window, user mode is let through to the one page table for it, which has no
    pages but those of the screens. *)
Record contained (t : tables) : Prop := {
  ct_dir i e : pageDir t !! i = Some e -> i <> 32%nat -> Z.testbit e 0 = true -> Z.testbit e 2 = true ->
    Z.testbit e 7 = false /\ Z.land e 0xFFFFF000 = addr_userTable;
  ct_user j e : userTable t !! j = Some e -> Z.testbit e 0 = true -> screen_frame (Z.land e 0xFFFFF000)
}.

Lemma contained_walk t a pa :
  contained t -> ~ VIRTUAL_START <= a < VIRTUAL_END -> 0 <= a < 4294967296 ->
  walk t a = Some (pa, true) -> screen_page pa.
Proof.
  intros [Hd Hu] Hw Ha. pose proof (dir_index_range a Ha) as Hr. rewrite walk_indices.
  assert (Z.to_nat (dir_index a) <> 32%nat) as Hne.
  { intros He. apply Hw. pose proof (dir_index_window a) as Hx. rewrite (proj2 (Z.eqb_eq _ _)) in Hx by lia.
    symmetry in Hx. apply andb_true_iff in Hx as [H1%Z.leb_le H2%Z.ltb_lt]. lia. }
  destruct (pageDir t !! Z.to_nat (dir_index a)) as [pde|] eqn:Ed; [|done]. cbn [mbind option_bind].
  destruct (Z.testbit pde 0) eqn:E0; [|done]. destruct (Z.testbit pde 2) eqn:E2.
  - destruct (Hd _ _ Ed Hne E0 E2) as [-> ->]. rewrite table_at_user. cbn [mbind option_bind].
    destruct (userTable t !! Z.to_nat (page_index a)) as [e|] eqn:Ee; [|done]. cbn [mbind option_bind].
    destruct (Z.testbit e 0) eqn:Ee0; [|done]. intros [= <- _]. exists (Z.land e 0xFFFFF000).
    split; [by eapply Hu|]. unfold page_offset. pose proof (Z.mod_pos_bound a FOUR_KB ltac:(unfold FOUR_KB; lia)). lia.
  - destruct (Z.testbit pde 7); [done|]. destruct (table_at t _) as [tab|]; [|done]. cbn [mbind option_bind].
    destruct (tab !! _) as [e|]; [|done]. cbn [mbind option_bind]. by destruct (Z.testbit e 0).
Qed.

Lemma contained_window t v : contained t -> contained (put_dir 32 v t).
Proof.
  intros [Hd Hu]. split; [|exact Hu]. intros i e He Hne. apply (Hd i e); [|done].
  unfold put_dir in He. msimp in He. by rewrite list_lookup_insert_ne in He by (cbn; lia).
Qed.

Lemma frame_range b : screen_frame b -> 0 <= b < 4294967296 /\ b mod 2 ^ 12 = 0.
Proof.
  unfold screen_frame, VIDEOMEM, page_of, TERM_1_MEM, FOUR_KB. intros [->|(i & Hi & ->)]; [by split|].
  split; [lia|]. replace (0x6401000 + 4096 * i) with ((25601 + i) * 2 ^ 12) by lia. apply Z_mod_mult.
Qed.

(** A page of a screen is added. *)
Lemma contained_page t d j b :
  screen_frame b -> contained t ->
  contained (put_user j (Z.lor b RWP_FLAGS) (put_dir d (Z.lor addr_userTable RWP_FLAGS) t)).
Proof.
  intros Hb [Hd Hu]. destruct (frame_range b Hb) as [Hr Hal].
  destruct addr_range as (_ & Hur & _). destruct addr_aligned as (_ & Hua & _).
  split.
  - intros i e He Hne E0 E2. unfold put_user, put_dir in He. msimp in He.
    apply list_lookup_insert_Some in He as [(_ & <- & _)|(Hi & He)]; [|by apply (Hd i e)].
    split; [by rewrite (lor_flags_bit addr_userTable RWP_FLAGS 12) by (done || lia)|].
    change 0xFFFFF000 with (4294967296 - 2 ^ 12). by rewrite entry_base by (done || lia).
  - intros i e He E0. unfold put_user, put_dir in He. msimp in He.
    apply list_lookup_insert_Some in He as [(_ & <- & _)|(Hi & He)]; [|by apply (Hu i e)].
    change 0xFFFFF000 with (4294967296 - 2 ^ 12). by rewrite entry_base by (done || lia).
Qed.

Lemma contained_video t : contained t -> contained (video_tables t).
Proof. intros Ht. apply contained_page; [by left|done]. Qed.

Lemma contained_terms t : contained t -> contained (term_tables t).
Proof.
  intros Ht. unfold term_tables. apply contained_page; [right; by exists 2|]. apply contained_page; [right; by exists 1|].
  apply contained_page; [right; by exists 0|done].
Qed.

(** The tables that [init_paging] makes let user mode through nowhere. *)
Lemma contained_initial t0 t :
  filled t0 t 1024 -> (forall j e, userTable t0 !! j = Some e -> Z.testbit e 0 = false) -> contained (initial_tables t).
Proof.
  intros ((Hl1 & _) & Hu & _ & Hf) Hno. destruct addr_range as (Hpr & _ & _). destruct addr_aligned as (Hpa & _ & _).
  split.
  - intros i e He _ E0 E2. exfalso. unfold initial_tables in He. cbn -[Z.lor] in He.
    apply list_lookup_insert_Some in He as [(_ & <- & _)|(Hi1 & He)]; [done|].
    apply list_lookup_insert_Some in He as [(_ & <- & _)|(Hi0 & He)].
    + rewrite (lor_flags_bit addr_pageTable 3 12) in E2 by (done || lia). done.
    + pose proof (lookup_lt_Some _ _ _ He) as Hlt. destruct (Hf (Z.of_nat i) ltac:(lia)) as [H2 _].
      rewrite Nat2Z.id, He in H2. injection H2 as ->. done.
  - intros j e He E0. exfalso. unfold initial_tables in He. cbn -[alter] in He. rewrite Hu in He.
    by rewrite (Hno j e He) in E0.
Qed.
End Contained.

(** The physical memory that user mode reaches is in the window of process [n], or is of a
    screen. *)
Definition confined `{Platform} (m : machine) (n : Z) : Prop :=
  forall pa, user_reach m pa -> window n <= pa < window n + FOUR_MB_BLOCK \/ screen_page pa.

Section Confined.
Context `{PlatformOk}.

Lemma contained_confined m n :
  paging_ok m -> contained (tabs (pg m)) -> in_window m n -> 0 <= n < 6 -> confined m n.
Proof.
  intros Hok Hc Hw Hn pa (a & Ha & Htr). rewrite translate_user_ok in Htr by done.
  destruct (walk (tabs (pg m)) a) as [[pa' []]|] eqn:Ew; [|done|done]. injection Htr as <-.
  destruct (decide (VIRTUAL_START <= a < VIRTUAL_END)) as [Hin|Hout]; [left|right; by eapply contained_walk].
  rewrite (window_entry _ n a Hw Hn Hin) in Ew. injection Ew as <-. unfold VIRTUAL_START, VIRTUAL_END, FOUR_MB_BLOCK in *. lia.
Qed.

(** Its own memory is all there. *)
Lemma window_reached m n pa :
  paging_ok m -> in_window m n -> 0 <= n < 6 -> window n <= pa < window n + FOUR_MB_BLOCK -> user_reach m pa.
Proof.
  intros Hok Hw Hn Hpa. unfold FOUR_MB_BLOCK in Hpa. exists (VIRTUAL_START + (pa - window n)). split; [unfold VIRTUAL_START; lia|].
  rewrite translate_user_ok, (window_entry _ n) by (done || (unfold VIRTUAL_START, VIRTUAL_END; lia)). f_equal. lia.
Qed.

Lemma store32_paging a v (m : machine) : pg (store32 a v m).2 = pg m.
Proof.
  assert (forall b w (t : machine), exists o, store8 b w t = (o, (store8 b w t).2) /\ pg (store8 b w t).2 = pg t) as H8.
  { intros b w t. unfold store8. destruct (loc t (u32 b)); by eexists. }
  unfold store32. rewrite bind_run. destruct (H8 a (u8 v) m) as ([[]|e] & E & Hp); rewrite E; cbn [snd]; [|exact Hp].
  set (m1 := (store8 a (u8 v) m).2) in *. rewrite <- Hp. clear E Hp.
  rewrite bind_run. destruct (H8 (a + 1) (u8 (Z.shiftr v 8)) m1) as ([[]|e] & E & Hp); rewrite E; cbn [snd]; [|exact Hp].
  set (m2 := (store8 (a + 1) _ m1).2) in *. rewrite <- Hp. clear E Hp.
  rewrite bind_run. destruct (H8 (a + 2) (u8 (Z.shiftr v 16)) m2) as ([[]|e] & E & Hp); rewrite E; cbn [snd]; [|exact Hp].
  set (m3 := (store8 (a + 2) _ m2).2) in *. rewrite <- Hp. by destruct (H8 (a + 3) (u8 (Z.shiftr v 24)) m3) as (o & _ & Hp3).
Qed.

(** [vidmap] changes no translation, or adds the page of the video memory. *)
Lemma vidmap_paging s m :
  pg (vidmap s m).2 = pg m \/ pg (vidmap s m).2 = pg (with_tables m (video_tables (tabs (pg m)))).
Proof.
  unfold vidmap. destruct (s =? 0); [by left|]. destruct ((i32 s <? VIRTUAL_START) || (VIRTUAL_END <? i32 s)); [by left|].
  right. rewrite bind_run, vidmap_tables. cbv beta iota. set (m1 := with_tables _ _).
  rewrite bind_run. pose proof (store32_paging s VIRTUAL_END m1) as Hp.
  destruct (store32 s VIRTUAL_END m1) as [[[]|e] m2]; exact Hp.
Qed.
End Confined.

(** C37. Processes are confined to their own memory and the screens.  The boot
    leaves tables that open nothing to user mode but the pages of the screens.  From
    such tables, switching the window to process [n] never fails; user mode then reaches all of
    the 4 MB of [n], and besides them only the video memory and the pages of the three
    terminals; and no [vidmap], whatever its argument, lets it reach more.  So it reaches no
    memory of another process, and of the kernel's (below 8 MB) only the video memory. *)
Theorem process_isolation `{PlatformOk} :
  (forall m, tables_ok (tabs (pg m)) -> (forall j e, userTable (tabs (pg m)) !! j = Some e -> Z.testbit e 0 = false) ->
     exists m1, (init_paging;; remapToPage TERM_MEM TERM_1_MEM 1;; remapToPage TERM_MEM TERM_2_MEM 2;;
                 remapToPage TERM_MEM TERM_3_MEM 3) m = (Ok tt, m1) /\ paging_ok m1 /\ contained (tabs (pg m1))) /\
  (forall m n, paging_ok m -> contained (tabs (pg m)) -> 0 <= n < MAX_PROCESSES ->
     exists m1, remap_process n m = (Ok tt, m1) /\ paging_ok m1 /\ contained (tabs (pg m1)) /\ confined m1 n /\
       (forall pa, window n <= pa < window n + FOUR_MB_BLOCK -> user_reach m1 pa) /\
       forall s, let m2 := (vidmap s m1).2 in paging_ok m2 /\ contained (tabs (pg m2)) /\ confined m2 n) /\
  (forall m n pa, confined m n -> 0 <= n < MAX_PROCESSES -> user_reach m pa ->
     (forall n', 0 <= n' < MAX_PROCESSES -> n' <> n -> ~ window n' <= pa < window n' + FOUR_MB_BLOCK) /\
     (pa < 0x800000 -> VIDEOMEM <= pa < VIDEOMEM + FOUR_KB)).
Proof.
  unfold MAX_PROCESSES. split; [|split].
  - intros m Ht Hno. destruct (init_paging_run m Ht) as (t & Hf & E). set (m1 := m <| pg := _ |>) in E.
    assert (contained (tabs (pg m1))) as Hc by exact (contained_initial _ _ Hf Hno).
    assert (paging_ok m1) as Hok by (split; [exact (initial_tables_ok t (proj1 Hf))|by split]).
    exists (with_tables m1 (term_tables (tabs (pg m1)))). split; [go E; exact (term_tables_run m1)|].
    split; [by apply with_tables_ok, term_tables_ok, Hok|]. by apply contained_terms.
  - intros m n Hok Hc Hn. exists (with_tables m (window_tables m n)). split; [apply remap_process_run; lia|].
    set (m1 := with_tables m (window_tables m n)).
    assert (tables_ok (tabs (pg m1))) as Ht by (apply tables_ok_put_dir, Hok).
    assert (paging_ok m1) as Hok1 by (by apply with_tables_ok). assert (contained (tabs (pg m1))) as Hc1 by by apply contained_window.
    assert (in_window m1 n) as Hw.
    { unfold in_window. change (pageDir (tabs (pg m1))) with (<[32%nat := Z.lor (window n) RW_FLAGS]> (pageDir (tabs (pg m)))).
      apply list_lookup_insert_eq. destruct Hok as ((Hl & _) & _). lia. }
    split; [done|]. split; [done|]. split; [by apply contained_confined|].
    split; [intros pa; by apply window_reached|]. intros s. set (m2 := (vidmap s m1).2).
    destruct (vidmap_paging s m1) as [Hpg|Hpg]; fold m2 in Hpg; unfold confined, user_reach, paging_ok; rewrite Hpg.
    + split; [done|]. split; [done|]. by apply contained_confined.
    + set (m3 := with_tables m1 (video_tables (tabs (pg m1)))).
      assert (paging_ok m3) as Hok3 by (apply with_tables_ok; [done|]; by apply tables_ok_put_user, tables_ok_put_dir).
      assert (contained (tabs (pg m3))) as Hc3 by by apply contained_video.
      split; [exact Hok3|]. split; [exact Hc3|]. apply (contained_confined m3); [done|done| |done].
      by apply video_window.
  - intros m n pa Hcf Hn Hr. destruct (Hcf pa Hr) as [Hw|(b & Hb & Hp)].
    + unfold window, PHYSICAL_START, FOUR_MB_BLOCK in *. split; [intros n' Hn' Hne|]; lia.
    + unfold screen_frame, VIDEOMEM, page_of, TERM_1_MEM, window, PHYSICAL_START, FOUR_MB_BLOCK, FOUR_KB in *.
      destruct Hb as [->|(i & Hi & ->)]; (split; [intros n' Hn' Hne|]); lia.
Qed.

Lemma process_isolation_witness :
  let P := plain_platform in
  exists m1, (init_paging;; remapToPage TERM_MEM TERM_1_MEM 1;; remapToPage TERM_MEM TERM_2_MEM 2;;
              remapToPage TERM_MEM TERM_3_MEM 3) boot_machine = (Ok tt, m1) /\
  exists m2, remap_process 3 m1 = (Ok tt, m2) /\ user_reach m2 0x1400000 /\ ~ user_reach m2 0x800000 /\ ~ user_reach m2 0x400000.
Proof.
  intros P. destruct process_isolation as (B & R & A).
  destruct (B boot_machine) as (m1 & E1 & Hok & Hc).
  - repeat split; reflexivity.
  - intros j e He. change (userTable (tabs (pg boot_machine))) with (replicate 1024 0) in He.
    apply lookup_replicate in He as [-> _]. reflexivity.
  - exists m1. split; [exact E1|]. destruct (R m1 3 Hok Hc) as (m2 & E2 & _ & _ & Hcf & Hr & _); [unfold MAX_PROCESSES; lia|].
    exists m2. split; [exact E2|]. unfold window, PHYSICAL_START, FOUR_MB_BLOCK in Hr. split; [apply Hr; lia|]. split.
    + intros Hu. destruct (A m2 3 0x800000 Hcf ltac:(unfold MAX_PROCESSES; lia) Hu) as [Hno _].
      apply (Hno 0); unfold MAX_PROCESSES, window, PHYSICAL_START, FOUR_MB_BLOCK; lia.
    + intros Hu. destruct (A m2 3 0x400000 Hcf ltac:(unfold MAX_PROCESSES; lia) Hu) as [_ Hv]. unfold VIDEOMEM, FOUR_KB in Hv. lia.
Defined.
