(* ===== verification/Desc.v ===== *)
(** The descriptors of [student-distrib/x86_desc.h]: segment descriptors and
    interrupt gates as the kernel fills them field by field, and as the processor
    reads them, eight bytes each. *)

From S2P Require Import Prelude Memory CLib Machine.

Definition KERNEL_CS : Z := 0x0010.
Definition KERNEL_TSS : Z := 0x0030.
Definition KERNEL_LDT : Z := 0x0038.
Definition TSS_SIZE : Z := 104.
Definition NUM_VEC : Z := 256.

(** Sets the base and the limit; the two macros have the same body. *)
Definition SET_LDT_PARAMS (str : seg_desc_t) (addr lim : Z) : seg_desc_t :=
  str <| base_31_24 := u8 (Z.shiftr (Z.land (u32 addr) 0xFF000000) 24) |>
      <| base_23_16 := u8 (Z.shiftr (Z.land (u32 addr) 0x00FF0000) 16) |>
      <| base_15_00 := u16 (Z.land (u32 addr) 0x0000FFFF) |>
      <| seg_lim_19_16 := Z.shiftr (Z.land lim 0x000F0000) 16 mod 16 |>
      <| seg_lim_15_00 := u16 (Z.land lim 0x0000FFFF) |>.

Definition SET_TSS_PARAMS (str : seg_desc_t) (addr lim : Z) : seg_desc_t :=
  str <| base_31_24 := u8 (Z.shiftr (Z.land (u32 addr) 0xFF000000) 24) |>
      <| base_23_16 := u8 (Z.shiftr (Z.land (u32 addr) 0x00FF0000) 16) |>
      <| base_15_00 := u16 (Z.land (u32 addr) 0x0000FFFF) |>
      <| seg_lim_19_16 := Z.shiftr (Z.land lim 0x000F0000) 16 mod 16 |>
      <| seg_lim_15_00 := u16 (Z.land lim 0x0000FFFF) |>.

Definition SET_IDT_ENTRY (str : idt_desc_t) (handler : Z) : idt_desc_t :=
  str <| offset_31_16 := u16 (Z.shiftr (Z.land (u32 handler) 0xFFFF0000) 16) |>
      <| offset_15_00 := u16 (Z.land (u32 handler) 0xFFFF) |>.

(** The packed structures in memory. *)
Definition seg_bytes (d : seg_desc_t) : list Z :=
  [seg_lim_15_00 d mod 256; seg_lim_15_00 d / 256; base_15_00 d mod 256; base_15_00 d / 256; base_23_16 d;
   sd_type d + 16 * sd_sys d + 32 * sd_dpl d + 128 * sd_present d;
   seg_lim_19_16 d + 16 * avail d + 32 * sd_reserved d + 64 * opsize d + 128 * granularity d; base_31_24 d].

Definition idt_bytes (d : idt_desc_t) : list Z :=
  [offset_15_00 d mod 256; offset_15_00 d / 256; seg_selector d mod 256; seg_selector d / 256; reserved4 d;
   reserved3 d + 2 * reserved2 d + 4 * reserved1 d + 8 * id_size d + 16 * reserved0 d + 32 * id_dpl d + 128 * id_present d;
   offset_31_16 d mod 256; offset_31_16 d / 256].

(** * What the processor reads *)

Definition byte_at (b : list Z) (i : nat) : Z := b !!! i.

Definition seg_base (b : list Z) : Z :=
  byte_at b 2 + 256 * byte_at b 3 + 65536 * byte_at b 4 + 16777216 * byte_at b 7.
Definition seg_limit (b : list Z) : Z := byte_at b 0 + 256 * byte_at b 1 + 65536 * (byte_at b 6 mod 16).
Definition seg_access (b : list Z) : Z := byte_at b 5.
Definition seg_flags (b : list Z) : Z := byte_at b 6 / 16.

Definition gate_offset (b : list Z) : Z :=
  byte_at b 0 + 256 * byte_at b 1 + 65536 * byte_at b 6 + 16777216 * byte_at b 7.
Definition gate_selector (b : list Z) : Z := byte_at b 2 + 256 * byte_at b 3.
(** The five bits of the kind of the entry: 0xE and 0xF are the 32-bit interrupt
    and trap gates. *)
Definition gate_kind (b : list Z) : Z := byte_at b 5 mod 32.
Definition gate_dpl (b : list Z) : Z := byte_at b 5 / 32 mod 4.
Definition gate_present (b : list Z) : bool := Z.testbit (byte_at b 5) 7.

(** * Fields *)

(** The values of the fields fit their widths. *)
Definition seg_fits (d : seg_desc_t) : Prop :=
  0 <= sd_type d < 16 /\ 0 <= sd_sys d < 2 /\ 0 <= sd_dpl d < 4 /\ 0 <= sd_present d < 2 /\
  0 <= avail d < 2 /\ 0 <= sd_reserved d < 2 /\ 0 <= opsize d < 2 /\ 0 <= granularity d < 2.

(** A mask of bits in place, and the shift that brings them down. *)
Lemma field_of a lo n : 0 <= lo -> 0 <= n -> Z.shiftr (Z.land a (Z.shiftl (Z.ones n) lo)) lo = a / 2 ^ lo mod 2 ^ n.
Proof.
  intros Hlo Hn. rewrite Z.shiftr_land, Z.shiftr_shiftl_l, Z.sub_diag, Z.shiftl_0_r by lia.
  by rewrite Z.land_ones, Z.shiftr_div_pow2 by lia.
Qed.

Lemma set_params_fields d a lim :
  0 <= a < 4294967296 ->
  let d' := SET_LDT_PARAMS d a lim in
  base_31_24 d' = a / 16777216 /\ base_23_16 d' = a / 65536 mod 256 /\ base_15_00 d' = a mod 65536 /\
  seg_lim_19_16 d' = lim / 65536 mod 16 /\ seg_lim_15_00 d' = lim mod 65536.
Proof.
  intros Ha. unfold SET_LDT_PARAMS. cbn -[Z.land Z.shiftr u8 u16 u32].
  rewrite u32_small by lia.
  pose proof (field_of a 24 8 ltac:(lia) ltac:(lia)) as E1. pose proof (field_of a 16 8 ltac:(lia) ltac:(lia)) as E2.
  pose proof (field_of lim 16 4 ltac:(lia) ltac:(lia)) as E3.
  pose proof (Z.land_ones a 16 ltac:(lia)) as E4. pose proof (Z.land_ones lim 16 ltac:(lia)) as E5.
  change (Z.shiftl (Z.ones 8) 24) with 0xFF000000 in E1. change (Z.shiftl (Z.ones 8) 16) with 0x00FF0000 in E2.
  change (Z.shiftl (Z.ones 4) 16) with 0x000F0000 in E3. change (Z.ones 16) with 0xFFFF in E4, E5.
  rewrite E1, E2, E3, E4, E5. unfold u8, u16.
  change (2 ^ 24) with 16777216. change (2 ^ 8) with 256. change (2 ^ 16) with 65536. change (2 ^ 4) with 16.
  rewrite !Zmod_mod. rewrite (Z.mod_small (a / 16777216)); [done|].
  split; [apply Z.div_pos; lia|apply Z.div_lt_upper_bound; lia].
Qed.

Lemma set_entry_fields d a :
  0 <= a < 4294967296 ->
  offset_31_16 (SET_IDT_ENTRY d a) = a / 65536 /\ offset_15_00 (SET_IDT_ENTRY d a) = a mod 65536.
Proof.
  intros Ha. unfold SET_IDT_ENTRY. cbn -[Z.land Z.shiftr u16 u32]. rewrite u32_small by lia.
  pose proof (field_of a 16 16 ltac:(lia) ltac:(lia)) as E1. pose proof (Z.land_ones a 16 ltac:(lia)) as E2.
  change (Z.shiftl (Z.ones 16) 16) with 0xFFFF0000 in E1. change (Z.ones 16) with 0xFFFF in E2.
  rewrite E1, E2. unfold u16. change (2 ^ 16) with 65536. rewrite !Zmod_mod, (Z.mod_small (a / 65536)); [done|].
  split; [apply Z.div_pos; lia|apply Z.div_lt_upper_bound; lia].
Qed.

(** The pieces of a number put together again. *)
Lemma halves a : a = a mod 65536 mod 256 + 256 * (a mod 65536 / 256) + 65536 * (a / 65536).
Proof.
  pose proof (Z.div_mod a 65536 ltac:(done)). pose proof (Z.div_mod (a mod 65536) 256 ltac:(done)). lia.
Qed.

Lemma quarters a :
  a = a mod 65536 mod 256 + 256 * (a mod 65536 / 256) + 65536 * (a / 65536 mod 256) + 16777216 * (a / 65536 / 256).
Proof. pose proof (halves a). pose proof (Z.div_mod (a / 65536) 256 ltac:(done)). lia. Qed.

Lemma byte_halves x : 0 <= x < 65536 -> is_byte (x mod 256) /\ is_byte (x / 256).
Proof.
  intros Hx. unfold is_byte. pose proof (Z.mod_pos_bound x 256 ltac:(done)).
  split; [lia|]. split; [apply Z.div_pos; lia|apply Z.div_lt_upper_bound; lia].
Qed.

(** What the processor reads after the macro. *)
Lemma set_params_read d a lim :
  seg_fits d -> 0 <= a < 4294967296 ->
  let b := seg_bytes (SET_LDT_PARAMS d a lim) in
  Forall is_byte b /\
  seg_base b = a /\ seg_limit b = lim mod 1048576 /\
  seg_access b = sd_type d + 16 * sd_sys d + 32 * sd_dpl d + 128 * sd_present d /\
  seg_flags b = avail d + 2 * sd_reserved d + 4 * opsize d + 8 * granularity d.
Proof.
  intros (Ht & Hsys & Hdpl & Hp & Hav & Hres & Hop & Hg) Ha. cbv zeta.
  destruct (set_params_fields d a lim Ha) as (E1 & E2 & E3 & E4 & E5).
  unfold seg_bytes. rewrite E1, E2, E3, E4, E5.
  change (sd_type (SET_LDT_PARAMS d a lim)) with (sd_type d). change (sd_sys (SET_LDT_PARAMS d a lim)) with (sd_sys d).
  change (sd_dpl (SET_LDT_PARAMS d a lim)) with (sd_dpl d). change (sd_present (SET_LDT_PARAMS d a lim)) with (sd_present d).
  change (avail (SET_LDT_PARAMS d a lim)) with (avail d). change (sd_reserved (SET_LDT_PARAMS d a lim)) with (sd_reserved d).
  change (opsize (SET_LDT_PARAMS d a lim)) with (opsize d). change (granularity (SET_LDT_PARAMS d a lim)) with (granularity d).
  pose proof (Z.mod_pos_bound (lim / 65536) 16 ltac:(done)) as Hl4.
  pose proof (Z.mod_pos_bound (a / 65536) 256 ltac:(done)) as Ha2.
  pose proof (Z.mod_pos_bound lim 65536 ltac:(done)) as Hl. pose proof (Z.mod_pos_bound a 65536 ltac:(done)) as Ha0.
  assert (a / 65536 / 256 = a / 16777216) as Hq by (by rewrite Z.div_div by lia).
  assert (0 <= a / 16777216 < 256) as Ha3 by (split; [apply Z.div_pos; lia|apply Z.div_lt_upper_bound; lia]).
  split; [|split; [|split; [|split; [done|]]]].
  - destruct (byte_halves _ Hl), (byte_halves _ Ha0). repeat (constructor; [first [done|unfold is_byte; lia]|]). constructor.
  - unfold seg_base, byte_at. cbn [lookup_total list_lookup_total]. rewrite <- Hq. symmetry. apply quarters.
  - unfold seg_limit, byte_at. cbn [lookup_total list_lookup_total].
    set (hi := lim / 65536 mod 16) in *.
    replace (hi + 16 * avail d + 32 * sd_reserved d + 64 * opsize d + 128 * granularity d)
      with (hi + (avail d + 2 * sd_reserved d + 4 * opsize d + 8 * granularity d) * 16) by lia.
    rewrite Z_mod_plus_full, (Z.mod_small hi) by lia. unfold hi.
    change 1048576 with (65536 * 16). rewrite Z.rem_mul_r by lia.
    pose proof (Z.div_mod (lim mod 65536) 256 ltac:(done)). lia.
  - unfold seg_flags, byte_at. cbn [lookup_total list_lookup_total]. symmetry. apply Z.div_unique with (lim / 65536 mod 16); lia.
Qed.

(** A descriptor whose base and limit are set by [SET_LDT_PARAMS] or
    [SET_TSS_PARAMS], which do the same: the processor reads from its eight bytes
    exactly that base, the limit modulo 2^20, and the other fields unchanged. *)
Theorem descriptor_roundtrip (d : seg_desc_t) (a lim : Z) :
  seg_fits d -> 0 <= a < 4294967296 ->
  let b := seg_bytes (SET_LDT_PARAMS d a lim) in
  SET_TSS_PARAMS d a lim = SET_LDT_PARAMS d a lim /\ Forall is_byte b /\
  seg_base b = a /\ seg_limit b = lim mod 1048576 /\
  seg_access b = sd_type d + 16 * sd_sys d + 32 * sd_dpl d + 128 * sd_present d /\
  seg_flags b = avail d + 2 * sd_reserved d + 4 * opsize d + 8 * granularity d.
Proof. intros Hd Ha. split; [done|]. exact (set_params_read d a lim Hd Ha). Qed.

Lemma descriptor_roundtrip_witness :
  let d := SegDesc 0 0 0 2 0 0 1 0 0 0 1 0 0 in
  seg_base (seg_bytes (SET_LDT_PARAMS d 0x412345 31)) = 0x412345 /\ seg_limit (seg_bytes (SET_LDT_PARAMS d 0x412345 31)) = 31.
Proof.
  intros d. destruct (descriptor_roundtrip d 0x412345 31) as (_ & _ & E1 & E2 & _).
  - unfold d, seg_fits. cbn. lia.
  - lia.
  - split; [exact E1|exact E2].
Defined.
