(* ===== verification/Idt.v ===== *)
(** The interrupt descriptor table of [student-distrib/idt.c]: [init_idt], and the
    handlers it makes with [CREATE_EXCEPTION] and [EX_GENERIC]. *)

From S2P Require Import Prelude Memory CLib Machine I8259 Rtc Pcb Rofs Paging Screen Keyboard TermIO Files Process Launch Halt Terminal Desc.

Definition INT_KEYBOARD : Z := 0x21.
Definition INT_RTC : Z := 0x28.
Definition INT_SYSCALL : Z := 0x80.

(** The functions a gate can lead to. *)
Inductive handler : Type :=
  | EX_DIVIDE_ERROR | EX_DEBUG | EX_NON_MASKABLE_INTERRUPT | EX_BREAKPOINT | EX_OVERFLOW
  | EX_BOUND_RANGE_EXCEEDED | EX_INVALID_OPCODE | EX_DEVICE_NOT_AVAILABLE | EX_DOUBLE_FAULT
  | EX_COPROCESSOR_SEGMENT_OVERRUN | EX_INVALID_TSS | EX_SEGMENT_NOT_PRESENT | EX_STACK_FAULT
  | EX_GENERAL_PROTECTION | EX_PAGE_FAULT | EX_UNKNOWN | EX_FLOATING_POINT_ERROR | EX_ALIGNMENT_CHECK
  | EX_MACHINE_CHECK | EX_FLOATING_POINT
  | EX_GENERIC | to_handle_rtc | to_handle_keyboard | to_handle_syscall.

#[export] Instance handler_eq_dec : EqDecision handler.
Proof. solve_decision. Defined.

(** The exceptions, by vector, with what their handlers print. *)
Definition exceptions : list (handler * string) :=
  [(EX_DIVIDE_ERROR, "(DE) Divide Error Exception!"); (EX_DEBUG, "(DB) Debug Exception!");
   (EX_NON_MASKABLE_INTERRUPT, "(NI) Non Maskable Interrupt!"); (EX_BREAKPOINT, "(BP) Breakpoint Exception!");
   (EX_OVERFLOW, "(OF) Overflow Excepion!"); (EX_BOUND_RANGE_EXCEEDED, "(BR) Bound Range Exceeded Exception!");
   (EX_INVALID_OPCODE, "(UD) Invalid Opcode Exception!"); (EX_DEVICE_NOT_AVAILABLE, "(NM) Device Not Available Exception!");
   (EX_DOUBLE_FAULT, "(DF) Double Fault Exception!"); (EX_COPROCESSOR_SEGMENT_OVERRUN, "(CS) Coprocessor Segment Overrun!");
   (EX_INVALID_TSS, "(TS) Invalid TSS Exception!"); (EX_SEGMENT_NOT_PRESENT, "(NP) Segment Not Present!");
   (EX_STACK_FAULT, "(SS) Stack Fault Exception!"); (EX_GENERAL_PROTECTION, "(GP) General Protection Exception!");
   (EX_PAGE_FAULT, "(PF) Page Fault Exception!"); (EX_UNKNOWN, "(UN) Unknown Exception!");
   (EX_FLOATING_POINT_ERROR, "(MF) x87 Floating-Point Error!"); (EX_ALIGNMENT_CHECK, "(AC) Alignment Check Exception!");
   (EX_MACHINE_CHECK, "(MC) Machine Check Exception!"); (EX_FLOATING_POINT, "(XM) SIMD Floating Point Exception!")]%string.

(** The addresses the linker gives the handlers. *)
Class Handlers := handler_addr : handler -> Z.
Class HandlersOk `{Handlers} : Prop := {
  handler_range h : 0 <= handler_addr h < 4294967296;
  handler_inj h h' : handler_addr h = handler_addr h' -> h = h'
}.

Section Idt.
Context `{Platform} `{Handlers}.

(** [CREATE_EXCEPTION]: a handler that prints its message and ends the program. *)
Definition CREATE_EXCEPTION (message : list Z) : K unit :=
  printf (text "%s" ++ [10]) [PPtr (cstr message)];;
  halt (u8 (-1));;
  mret tt.

Definition generic : K unit :=
  cli;;
  printf (text "An unknown interrupt occured!" ++ [10]) [];;
  halt (u8 (-1));;
  sti.

(** A store to the entry of vector [i]. *)
Definition idt_upd (i : Z) (f : idt_desc_t -> idt_desc_t) : K unit :=
  l ← gets idt;
  match l !! Z.to_nat i with
  | Some d => if i <? 0 then raise OutOfBounds else modify (fun m => m <| idt ::= <[Z.to_nat i := f d]> |>)
  | None => raise OutOfBounds
  end.

Definition set_idt_entry (i : Z) (h : handler) : K unit := idt_upd i (fun d => SET_IDT_ENTRY d (handler_addr h)).

(** The body of the loop of [init_idt]. *)
Definition init_idt_entry (i : Z) : K unit :=
  idt_upd i (fun d => d <| seg_selector := KERNEL_CS |>);;
  idt_upd i (fun d => d <| reserved4 := 0 |>);;
  idt_upd i (fun d => d <| reserved3 := if (i <? 32) || (i =? INT_SYSCALL) then 1 else 0 |>);;
  idt_upd i (fun d => d <| reserved2 := 1 |>);;
  idt_upd i (fun d => d <| reserved1 := 1 |>);;
  idt_upd i (fun d => d <| id_size := 1 |>);;
  idt_upd i (fun d => d <| reserved0 := 0 |>);;
  idt_upd i (fun d => d <| id_dpl := if i =? INT_SYSCALL then 3 else 0 |>);;
  idt_upd i (fun d => d <| id_present := 1 |>);;
  if 32 <=? i then set_idt_entry i EX_GENERIC else mret tt.

Definition init_idt : K unit :=
  for_range 0 NUM_VEC init_idt_entry;;
  set_idt_entry 0x00 EX_DIVIDE_ERROR;;
  set_idt_entry 0x01 EX_DEBUG;;
  set_idt_entry 0x02 EX_NON_MASKABLE_INTERRUPT;;
  set_idt_entry 0x03 EX_BREAKPOINT;;
  set_idt_entry 0x04 EX_OVERFLOW;;
  set_idt_entry 0x05 EX_BOUND_RANGE_EXCEEDED;;
  set_idt_entry 0x06 EX_INVALID_OPCODE;;
  set_idt_entry 0x07 EX_DEVICE_NOT_AVAILABLE;;
  set_idt_entry 0x08 EX_DOUBLE_FAULT;;
  set_idt_entry 0x09 EX_COPROCESSOR_SEGMENT_OVERRUN;;
  set_idt_entry 0x0A EX_INVALID_TSS;;
  set_idt_entry 0x0B EX_SEGMENT_NOT_PRESENT;;
  set_idt_entry 0x0C EX_STACK_FAULT;;
  set_idt_entry 0x0D EX_GENERAL_PROTECTION;;
  set_idt_entry 0x0E EX_PAGE_FAULT;;
  set_idt_entry 0x0F EX_UNKNOWN;;
  set_idt_entry 0x10 EX_FLOATING_POINT_ERROR;;
  set_idt_entry 0x11 EX_ALIGNMENT_CHECK;;
  set_idt_entry 0x12 EX_MACHINE_CHECK;;
  set_idt_entry 0x13 EX_FLOATING_POINT;;
  set_idt_entry INT_RTC to_handle_rtc;;
  set_idt_entry INT_KEYBOARD to_handle_keyboard;;
  set_idt_entry INT_SYSCALL to_handle_syscall;;
  modify (fun m => m <| cpu ::= fun c => c <| idt_loaded := true |> |>).
End Idt.

(** * The table as it should be *)

(** The handler of a vector; the vectors 0x14 to 0x1F have none. *)
Definition vector_handler (v : Z) : option handler :=
  if v =? INT_RTC then Some to_handle_rtc
  else if v =? INT_KEYBOARD then Some to_handle_keyboard
  else if v =? INT_SYSCALL then Some to_handle_syscall
  else if v <? 32 then fst <$> exceptions !! Z.to_nat v
  else Some EX_GENERIC.

Section Entries.
Context `{Handlers}.

(** An entry with its bits set. *)
Definition entry_bits (v : Z) (d : idt_desc_t) : idt_desc_t :=
  IdtDesc (offset_15_00 d) KERNEL_CS 0 (if (v <? 32) || (v =? INT_SYSCALL) then 1 else 0) 1 1 1 0
    (if v =? INT_SYSCALL then 3 else 0) 1 (offset_31_16 d).

Definition with_handler (h : option handler) (d : idt_desc_t) : idt_desc_t :=
  match h with Some h => SET_IDT_ENTRY d (handler_addr h) | None => d end.

Definition entry_of (v : Z) (d : idt_desc_t) : idt_desc_t := with_handler (vector_handler v) (entry_bits v d).

Lemma set_entry_twice d a b : SET_IDT_ENTRY (SET_IDT_ENTRY d a) b = SET_IDT_ENTRY d b.
Proof. by destruct d. Qed.

Lemma with_handler_twice h h' d :
  with_handler h (with_handler h' d) = with_handler (match h with Some _ => h | None => h' end) d.
Proof. destruct h, h'; try done; apply set_entry_twice. Qed.

Lemma idt_upd_at m l i f :
  0 <= i < Z.of_nat (length l) ->
  idt_upd i f (m <| idt := l |>) = (Ok tt, m <| idt := alter f (Z.to_nat i) l |>).
Proof.
  intros Hi. unfold idt_upd. rewrite bind_run, gets_run. cbv beta iota. change (idt (m <| idt := l |>)) with l.
  destruct (lookup_lt_is_Some_2 l (Z.to_nat i)) as [d Hd]; [lia|]. rewrite Hd, (proj2 (Z.ltb_ge i 0)) by lia.
  rewrite modify_run. replace (alter f (Z.to_nat i) l) with (<[Z.to_nat i := f d]> l); [done|].
  rewrite list_insert_alter. apply list_alter_ext; [intros x Hx; congruence|done].
Qed.

(** One round of the loop. *)
Definition default_handler (v : Z) : option handler := if 32 <=? v then Some EX_GENERIC else None.
Definition init_entry (v : Z) (d : idt_desc_t) : idt_desc_t := with_handler (default_handler v) (entry_bits v d).

Lemma init_idt_entry_at m l i :
  0 <= i < Z.of_nat (length l) ->
  init_idt_entry i (m <| idt := l |>) = (Ok tt, m <| idt := alter (init_entry i) (Z.to_nat i) l |>).
Proof.
  intros Hi. unfold init_idt_entry, set_idt_entry.
  do 9 (go idt_upd_at by (rewrite ?length_alter; exact Hi); rewrite ?list_alter_alter_eq).
  unfold init_entry, default_handler. destruct (32 <=? i).
  - rewrite idt_upd_at by (rewrite length_alter; exact Hi). by rewrite list_alter_alter_eq.
  - done.
Qed.

(** The loop. *)
Lemma init_idt_loop m l0 :
  length l0 = 256%nat ->
  exists l, for_range 0 NUM_VEC init_idt_entry (m <| idt := l0 |>) = (Ok tt, m <| idt := l |>) /\
    length l = 256%nat /\ forall v, 0 <= v < 256 -> l !! Z.to_nat v = init_entry v <$> l0 !! Z.to_nat v.
Proof.
  intros Hl0. rewrite for_range_n by (unfold NUM_VEC; lia).
  destruct (for_n_ok (fun k s => exists l, s = m <| idt := l |> /\ length l = 256%nat /\ forall v, 0 <= v < 256 ->
      l !! Z.to_nat v = if v <? k then init_entry v <$> l0 !! Z.to_nat v else l0 !! Z.to_nat v)
    (Z.to_nat (NUM_VEC - 0)) 0 init_idt_entry (m <| idt := l0 |>)) as (s & E & l & -> & Hl & Hv).
  - exists l0. split; [done|]. split; [done|]. intros v Hv. by zb.
  - unfold NUM_VEC. intros i s Hi (l & -> & Hl & Hv).
    exists (m <| idt := alter (init_entry i) (Z.to_nat i) l |>). split; [apply init_idt_entry_at; lia|].
    eexists. split; [done|]. split; [by rewrite length_alter|]. intros v Hvr. destruct (decide (v = i)) as [->|Hne].
    + rewrite list_lookup_alter_eq, Hv by done. by zb.
    + rewrite list_lookup_alter_ne, Hv by lia. destruct (Z.ltb_spec v i), (Z.ltb_spec v (i + 1)); (done || lia).
  - exists l. split; [exact E|]. split; [done|]. intros v Hv'. rewrite Hv by done. change (Z.to_nat (NUM_VEC - 0)) with 256%nat. by zb.
Qed.

(** A sequence of [SET_IDT_ENTRY]. *)
Definition set_entries (L : list (Z * handler)) (k : K unit) : K unit :=
  foldr (fun '(i, h) k => set_idt_entry i h;; k) k L.

Fixpoint assigned (L : list (Z * handler)) (v : Z) : option handler :=
  match L with
  | [] => None
  | (i, h) :: L => match assigned L v with Some h' => Some h' | None => if v =? i then Some h else None end
  end.

Lemma set_entries_run m k L : forall l,
  Forall (fun '(i, _) => 0 <= i < Z.of_nat (length l)) L ->
  exists l', set_entries L k (m <| idt := l |>) = k (m <| idt := l' |>) /\ length l' = length l /\
    forall v, 0 <= v -> l' !! Z.to_nat v = with_handler (assigned L v) <$> l !! Z.to_nat v.
Proof.
  induction L as [|[i h] L IH]; intros l HL.
  { exists l. split; [done|]. split; [done|]. intros v _. cbn. by destruct (l !! Z.to_nat v). }
  inversion HL as [|? ? Hi HL']; subst. destruct (IH (alter (with_handler (Some h)) (Z.to_nat i) l)) as (l' & E & Hl & Hv).
  { by rewrite length_alter. }
  exists l'. split; [|split; [by rewrite Hl, length_alter|]].
  - cbn [set_entries foldr]. unfold set_idt_entry. by go idt_upd_at.
  - intros v Hv0. rewrite Hv by done. cbn [assigned]. destruct (Z.eqb_spec v i) as [->|Hne].
    + rewrite list_lookup_alter_eq. destruct (l !! Z.to_nat i); [|done]. cbn -[with_handler].
      rewrite with_handler_twice. by destruct (assigned L i).
    + rewrite list_lookup_alter_ne by lia. by destruct (assigned L v).
Qed.

(** The assignments of [init_idt]. *)
Definition assignments : list (Z * handler) :=
  imap (fun i e => (Z.of_nat i, e.1)) exceptions ++
  [(INT_RTC, to_handle_rtc); (INT_KEYBOARD, to_handle_keyboard); (INT_SYSCALL, to_handle_syscall)].

Lemma assigned_handler v :
  0 <= v < 256 ->
  match assigned assignments v with Some _ => assigned assignments v | None => default_handler v end = vector_handler v.
Proof.
  intros Hv. assert (Forall (fun v => match assigned assignments v with Some _ => assigned assignments v | None => default_handler v end =
    vector_handler v) (seqZ 0 256)) as Hall by (apply (bool_decide_unpack _); vm_compute; done).
  rewrite Forall_forall in Hall. apply Hall, list_elem_of_In, elem_of_seqZ. lia.
Qed.

Lemma init_idt_run m :
  length (idt m) = 256%nat ->
  exists l, init_idt m = (Ok tt, m <| idt := l |> <| cpu ::= fun c => c <| idt_loaded := true |> |>) /\
    length l = 256%nat /\ forall v, 0 <= v < 256 -> l !! Z.to_nat v = entry_of v <$> idt m !! Z.to_nat v.
Proof.
  intros Hm. destruct (init_idt_loop m (idt m) Hm) as (l1 & E1 & Hl1 & Hv1).
  assert (m <| idt := idt m |> = m) as Em by (by destruct m). rewrite Em in E1.
  destruct (set_entries_run m (modify (fun m => m <| cpu ::= fun c => c <| idt_loaded := true |> |>)) assignments l1)
    as (l & E & Hl & Hv).
  { rewrite Hl1. apply Forall_lookup_2. intros k [i h] Hk. do 23 (destruct k as [|k]; [injection Hk as <- <-; unfold INT_RTC, INT_KEYBOARD, INT_SYSCALL; lia|]). done. }
  exists l. split; [|split; [by rewrite Hl|]].
  - unfold init_idt. go E1. exact E.
  - intros v Hvr. rewrite Hv, Hv1 by lia. destruct (idt m !! Z.to_nat v) as [d|]; [|done]. cbn [fmap option_fmap option_map].
    unfold init_entry, entry_of. by rewrite with_handler_twice, assigned_handler.
Qed.
End Entries.

Section Reads.
Context `{HandlersOk}.

Lemma vector_entry_fields v d :
  let d' := entry_of v d in
  seg_selector d' = KERNEL_CS /\ reserved4 d' = 0 /\
  reserved3 d' = (if (v <? 32) || (v =? INT_SYSCALL) then 1 else 0) /\ reserved2 d' = 1 /\ reserved1 d' = 1 /\
  id_size d' = 1 /\ reserved0 d' = 0 /\ id_dpl d' = (if v =? INT_SYSCALL then 3 else 0) /\ id_present d' = 1.
Proof. unfold entry_of. by destruct (vector_handler v). Qed.

(** The address in a gate. *)
Lemma gate_offset_set d a : 0 <= a < 4294967296 -> gate_offset (idt_bytes (SET_IDT_ENTRY d a)) = a.
Proof.
  intros Ha. destruct (set_entry_fields d a Ha) as [E1 E2]. unfold gate_offset, idt_bytes, byte_at.
  rewrite E1, E2. cbn [lookup_total list_lookup_total]. symmetry. apply quarters.
Qed.

Lemma entry_reads v d :
  let b := idt_bytes (entry_of v d) in
  gate_present b = true /\ gate_selector b = KERNEL_CS /\ reserved4 (entry_of v d) = 0 /\
  gate_kind b = (if (v <? 32) || (v =? INT_SYSCALL) then 0xF else 0xE) /\
  gate_dpl b = (if v =? INT_SYSCALL then 3 else 0) /\
  gate_offset b = match vector_handler v with Some h => handler_addr h | None => gate_offset (idt_bytes d) end.
Proof.
  cbv zeta. destruct (vector_entry_fields v d) as (F1 & F2 & F3 & F4 & F5 & F6 & F7 & F8 & F9).
  unfold gate_present, gate_selector, gate_kind, gate_dpl, byte_at, idt_bytes. rewrite F1, F2, F3, F4, F5, F6, F7, F8, F9.
  cbn [lookup_total list_lookup_total].
  split; [by destruct ((v <? 32) || (v =? INT_SYSCALL)), (v =? INT_SYSCALL)|]. split; [done|]. split; [done|].
  split; [by destruct ((v <? 32) || (v =? INT_SYSCALL)), (v =? INT_SYSCALL)|].
  split; [by destruct ((v <? 32) || (v =? INT_SYSCALL)), (v =? INT_SYSCALL)|].
  unfold entry_of. destruct (vector_handler v) as [h|]; [|done]. apply gate_offset_set, handler_range.
Qed.
End Reads.

Lemma exception_strings v h msg : exceptions !! v = Some (h, msg) -> is_string (text msg) /\ Z.of_nat (length (text msg)) < 2147483648.
Proof.
  intros Hv. assert (Forall (fun e => Forall (fun c => 0 < c < 256) (text e.2) /\ Z.of_nat (length (text e.2)) < 2147483648) exceptions) as Hall
    by (apply (bool_decide_unpack _); vm_compute; done).
  exact (Forall_lookup_1 _ _ _ _ Hall Hv).
Qed.

(** C28. [init_idt], whatever the table held: every vector gets a present 32-bit gate
    to the kernel's code; the exceptions and the system call are trap gates, which
    leave interrupts on, all others interrupt gates; only the gate of the system
    call can be used by a program; and each gate leads to its handler, except that
    the vectors 0x14 to 0x1F, although present, keep the address that was there. *)
Theorem init_idt_gates `{HandlersOk} (m : machine) :
  length (idt m) = 256%nat ->
  exists m', init_idt m = (Ok tt, m') /\
    m' = m <| idt := idt m' |> <| cpu ::= fun c => c <| idt_loaded := true |> |> /\
    forall v, 0 <= v < 256 ->
    exists d d', idt m !! Z.to_nat v = Some d /\ idt m' !! Z.to_nat v = Some d' /\
      let b := idt_bytes d' in
      gate_present b = true /\ gate_selector b = KERNEL_CS /\ reserved4 d' = 0 /\
      gate_kind b = (if (v <? 32) || (v =? INT_SYSCALL) then 0xF else 0xE) /\
      gate_dpl b = (if v =? INT_SYSCALL then 3 else 0) /\
      gate_offset b = match vector_handler v with
                      | Some h => handler_addr h
                      | None => gate_offset (idt_bytes d)
                      end.
Proof.
  intros Hm. destruct (init_idt_run m Hm) as (l & E & Hl & Hv).
  exists (m <| idt := l |> <| cpu ::= fun c => c <| idt_loaded := true |> |>).
  split; [exact E|]. split; [done|]. intros v Hvr. specialize (Hv v Hvr).
  destruct (lookup_lt_is_Some_2 (idt m) (Z.to_nat v)) as [d Hd]; [lia|]. rewrite Hd in Hv.
  exists d, (entry_of v d). split; [done|]. split; [exact Hv|]. apply entry_reads.
Qed.

Section Messages.
Context `{PlatformOk}.

(** What [can_halt] depends on. *)
Lemma can_halt_frame m m' t p :
  pg m' = pg m -> pcbs m' = pcbs m -> terminal m' = terminal m -> term_cur m' = term_cur m ->
  processes_flags m' = processes_flags m -> cpu_esp (cpu m') = cpu_esp (cpu m) -> can_halt m t p -> can_halt m' t p.
Proof.
  intros Hpg Hpcb Ht Hc Hf Hesp [Hl Hb Hfi Hfl Hpid Hpar Hcur Hn].
  assert (current m' = current m) as Ecur by (unfold current; by rewrite Hesp).
  assert (forall a, pcb_of m' a = pcb_of m a) as Ep by (intros a; unfold pcb_of; by rewrite Hpcb).
  split; [|by rewrite Ecur, Ep| |by rewrite Hf|done|done|by rewrite Hc, Ht|done].
  - rewrite Ecur. cbn [loc machine_memory] in *. by rewrite Hpg.
  - unfold fds in *. by rewrite Ecur, Ep.
Qed.

Lemma accounts_frame m m' :
  terminal m' = terminal m -> processes_flags m' = processes_flags m -> accounts m -> accounts m'.
Proof. intros Ht Hf [A1 A2 A3 A4]. split; rewrite ?Ht, ?Hf; done. Qed.

(** The console is not touched when a process ends. *)
Lemma resumed_shows m m1 t p con :
  paging_ok m -> 0 <= parent_pid p < 6 -> hw_only (quiet m) m1 -> scr m1 = scr m -> shows VIDEO m con ->
  shows VIDEO (resumed m1 t p) con.
Proof.
  intros Hok Hp Hhw Hscr [Hm Hc Ht Hx Hy]. destruct (hw_keeps _ _ Hhw) as (_ & _ & _ & K4 & _ & K6). split.
  - apply (window_maps_out m _ (parent_pid p)); [done|done|unfold VIDEO; lia|unfold VIDEO, VIRTUAL_START; lia| |done].
    rewrite resumed_pg. unfold with_tables, window_tables. by rewrite K4.
  - done.
  - intros i Hi. rewrite Ht by done. cbn [cell machine_memory]. do 3 f_equal.
    change (phys (resumed m1 t p)) with (phys m1). by rewrite K6.
  - change (scr (resumed m1 t p)) with (scr m1). by rewrite Hscr.
  - change (scr (resumed m1 t p)) with (scr m1). by rewrite Hscr.
Qed.

(** What is left of a process that was ended with a message. *)
Record ended (m m' : machine) (t : terminal_t) (p : pcb_t) (con : console) (msg : list Z) : Prop := {
  en_accounts : accounts m';
  en_shows : shows VIDEO m' (con_puts (msg ++ [10]) con);
  en_flags i : 0 <= i -> Z.testbit (processes_flags m') i = negb (i =? pid p) && Z.testbit (processes_flags m) i;
  en_terminal : terminal m' = <[Z.to_nat (term_cur m - 1) :=
      t <| num_processes := num_processes t - 1 |> <| term_pid := parent_pid p |>]> (terminal m);
  en_window o : 0 <= o < FOUR_MB_BLOCK -> translate_user (pg m') (VIRTUAL_START + o) = Some (window (parent_pid p) + o)
}.

(** A message, then the end of the program. *)
Lemma message_halts m t p con fmt args msg (k : K unit) :
  paging_ok m -> accounts m -> can_halt m t p -> Z.testbit (processes_flags m) (pid p) = true ->
  2 <= num_processes t -> shows VIDEO m con ->
  is_string fmt -> Forall sarg_ok args -> render fmt None args = Some (msg ++ [10]) ->
  exists m', (printf fmt (to_parg <$> args);; halt (u8 (-1));; k) m =
    (Stop (ReturnTo 255 (parent_esp p) (parent_ebp p)), m') /\ ended m m' t p con msg.
Proof.
  intros Hok Ha Hch Hb Hn Hsh Hf Hargs Hr.
  destruct (printf_ok VIDEO fmt None args _ m con Hsh Hf Hargs Hr) as (m1 & E1 & Hsh1 & Hso).
  pose proof (so_fields _ _ _ Hso) as Hm1.
  assert (pg m1 = pg m /\ pcbs m1 = pcbs m /\ terminal m1 = terminal m /\ term_cur m1 = term_cur m /\
    processes_flags m1 = processes_flags m /\ cpu m1 = cpu m) as (F1 & F2 & F3 & F4 & F5 & F6) by (by rewrite Hm1).
  assert (paging_ok m1) as Hok1 by (unfold paging_ok; by rewrite F1).
  assert (can_halt m1 t p) as Hch1 by (apply (can_halt_frame m); (done || by rewrite F6)).
  assert (accounts m1) as Ha1 by (by apply (accounts_frame m)).
  assert (Z.testbit (processes_flags m1) (pid p) = true) as Hb1 by (by rewrite F5).
  destruct (halt_returns_ok execute 255 m1 t p Hok1 Hch1 Hn) as (m2 & [Hhw Hsame] & E2); [by apply (others_live m1 t p)|].
  destruct (hw_keeps _ _ Hhw) as (K1 & K2 & K3 & K4 & K5 & K6).
  exists (resumed m2 t p). split.
  { unfold printf. go E1. rewrite bind_ret. change (u8 (-1)) with 255. rewrite bind_run, halt_unfold, E2. reflexivity. }
  split.
  - by apply (resumed_accounts m1).
  - apply (resumed_shows m1); [done|by apply Hch|done| |done]. destruct Hhw as [b Hm2]. by rewrite Hm2.
  - intros i Hi. rewrite resumed_flags, released_flags, K5, F5. apply clearbit_spec; [|done]. by destruct (ch_pid _ _ _ Hch).
  - by rewrite Halt.resumed_terminal, K1, K2, F3, F4.
  - intros o Ho. unfold FOUR_MB_BLOCK in Ho. rewrite (window_user m1 _ (parent_pid p)); [|done|by apply Hch| |unfold VIRTUAL_START; lia].
    + rewrite decide_True by (unfold VIRTUAL_START, VIRTUAL_END; lia). f_equal. lia.
    + rewrite resumed_pg. unfold with_tables, window_tables. by rewrite K4.
Qed.
End Messages.

(** C27. A program that causes an exception, or an interrupt nothing is known of:
    the message of the exception is printed and the program ends as by [halt] with
    status 255 (the argument is one byte, so that -1 and 255 are the same to the
    parent), and the processor goes on in the parent. *)
Theorem exceptions_end_program `{PlatformOk} (m : machine) (t : terminal_t) (p : pcb_t) (con : console) :
  paging_ok m -> accounts m -> can_halt m t p -> Z.testbit (processes_flags m) (pid p) = true ->
  2 <= num_processes t -> shows VIDEO m con ->
  (forall v h msg, exceptions !! v = Some (h, msg) ->
     exists m', CREATE_EXCEPTION (text msg) m = (Stop (ReturnTo 255 (parent_esp p) (parent_ebp p)), m') /\
       ended m m' t p con (text msg)) /\
  exists m', generic m = (Stop (ReturnTo 255 (parent_esp p) (parent_ebp p)), m') /\
    ended m m' t p con (text "An unknown interrupt occured!").
Proof.
  intros Hok Ha Hch Hb Hn Hsh. split.
  - intros v h msg Hv. apply (message_halts m t p con (text "%s" ++ [10]) [SStr (text msg)]); try done.
    + repeat constructor; done.
    + constructor; [|constructor]. by eapply exception_strings.
  - destruct (message_halts (quiet m) t p con (text "An unknown interrupt occured!" ++ [10]) [] (text "An unknown interrupt occured!") sti)
      as (m' & E & He); try done.
    + by apply (accounts_frame m).
    + by apply (can_halt_frame m).
    + by destruct Hsh; split.
    + repeat constructor; done.
    + exists m'. split; [exact E|]. by destruct He; split.
Qed.

Definition plain_handlers : Handlers := fun h =>
  0x400000 + 16 * match h with
  | EX_DIVIDE_ERROR => 0 | EX_DEBUG => 1 | EX_NON_MASKABLE_INTERRUPT => 2 | EX_BREAKPOINT => 3 | EX_OVERFLOW => 4
  | EX_BOUND_RANGE_EXCEEDED => 5 | EX_INVALID_OPCODE => 6 | EX_DEVICE_NOT_AVAILABLE => 7 | EX_DOUBLE_FAULT => 8
  | EX_COPROCESSOR_SEGMENT_OVERRUN => 9 | EX_INVALID_TSS => 10 | EX_SEGMENT_NOT_PRESENT => 11 | EX_STACK_FAULT => 12
  | EX_GENERAL_PROTECTION => 13 | EX_PAGE_FAULT => 14 | EX_UNKNOWN => 15 | EX_FLOATING_POINT_ERROR => 16
  | EX_ALIGNMENT_CHECK => 17 | EX_MACHINE_CHECK => 18 | EX_FLOATING_POINT => 19 | EX_GENERIC => 20
  | to_handle_rtc => 21 | to_handle_keyboard => 22 | to_handle_syscall => 23
  end.

Lemma plain_handlers_ok : @HandlersOk plain_handlers.
Proof.
  split.
  - intros []; cbv; split; congruence.
  - intros [] []; first [reflexivity|discriminate].
Qed.

Lemma init_idt_gates_witness : let P := plain_handlers in let Q := plain_handlers_ok in
  exists m', init_idt boot_machine = (Ok tt, m') /\
  exists d', idt m' !! 0x80%nat = Some d' /\ gate_dpl (idt_bytes d') = 3 /\ gate_offset (idt_bytes d') = 0x400170.
Proof.
  intros P Q. destruct (init_idt_gates boot_machine) as (m' & E & _ & Hv); [reflexivity|].
  exists m'. split; [exact E|]. destruct (Hv 0x80) as (d & d' & _ & Hd & _ & _ & _ & _ & Hdpl & Hoff); [lia|].
  exists d'. split; [exact Hd|]. split; [exact Hdpl|exact Hoff].
Defined.

Section TwoShows.
Context `{PlatformOk}.

Lemma shows_cpu pv m f con : shows pv m con -> shows pv (m <| cpu ::= f |>) con.
Proof. intros [Hm Hc Ht Hx Hy]. by split. Qed.

Lemma two_shows : shows VIDEO two_machine blank_console.
Proof.
  apply shows_cpu, (launched_shows one_machine); [apply one_kernel_ok|lia|].
  unfold one_machine. apply (launched_shows shell_machine); [apply shell_paging_ok|lia|exact shell_shows].
Qed.
End TwoShows.

Lemma exceptions_end_program_witness : let P := plain_platform in
  exists m', CREATE_EXCEPTION (text "(PF) Page Fault Exception!") two_machine = (Stop (ReturnTo 255 0x7FFE8C 0x7FFFEC), m') /\
    ended two_machine m' two_terminal (pcb_of two_machine (get_pcb 1)) blank_console (text "(PF) Page Fault Exception!").
Proof.
  intros P. destruct (exceptions_end_program two_machine two_terminal (pcb_of two_machine (get_pcb 1)) blank_console) as [He _].
  - apply two_kernel_ok.
  - apply two_kernel_ok.
  - exact two_can_halt.
  - reflexivity.
  - discriminate.
  - exact two_shows.
  - exact (He 14%nat EX_PAGE_FAULT "(PF) Page Fault Exception!"%string eq_refl).
Defined.
