(* ===== verification/Handlers.v ===== *)
(** The interrupt handlers: [keyboard_handler] of [student-distrib/keyboard.c], the
    entry code that [MAKE_HANDLER] of [student-distrib/interrupt_handlers.S] makes for
    it and for [rtc_handler], and what the processor does around them.  With them,
    a read from the terminal that waits for what is typed meanwhile. *)

From S2P Require Import Prelude Memory CLib Machine I8259 Rtc Pcb Rofs Paging Screen Keyboard TermIO Files Process Launch Halt Syscalls Terminal.

Section Handlers.
Context `{Platform}.

Definition set_kbd (f : keyboard_t -> keyboard_t) : K unit := modify (fun m => m <| kbd ::= f |>).

(** The [switch] of [keyboard_handler]. *)
Definition on_scancode (scancode : Z) : K unit :=
  if (scancode =? SHIFT_L) || (scancode =? SHIFT_R) then
    set_kbd (fun k => k <| shift_pressed := 1 |>);;
    set_kbd (fun k => k <| keys_state := 1 |>);;
    caps ← gets (fun m => capslock_state (kbd m));
    if caps =? 1 then set_kbd (fun k => k <| keys_state := 3 |>) else mret tt
  else if (scancode =? RELEASE SHIFT_L) || (scancode =? RELEASE SHIFT_R) then
    set_kbd (fun k => k <| shift_pressed := 0 |>);;
    set_kbd (fun k => k <| keys_state := 0 |>);;
    caps ← gets (fun m => capslock_state (kbd m));
    if caps =? 1 then set_kbd (fun k => k <| keys_state := 2 |>) else mret tt
  else if scancode =? CAPSLOCK then
    caps ← gets (fun m => capslock_state (kbd m));
    if caps =? 0 then
      set_kbd (fun k => k <| capslock_state := 1 |>);;
      set_kbd (fun k => k <| keys_state := 2 |>)
    else
      set_kbd (fun k => k <| capslock_state := 0 |>);;
      set_kbd (fun k => k <| keys_state := 0 |>)
  else if scancode =? CTRL then set_kbd (fun k => k <| ctrl_pressed := 1 |>)
  else if scancode =? RELEASE CTRL then set_kbd (fun k => k <| ctrl_pressed := 0 |>)
  else if scancode =? ALT_L then set_kbd (fun k => k <| alt_pressed := 1 |>)
  else if scancode =? RELEASE ALT_L then set_kbd (fun k => k <| alt_pressed := 0 |>)
  else if scancode =? F1_KEY then
    alt ← gets (fun m => alt_pressed (kbd m));
    if alt =? 1 then switch_terminal 1;; mret tt else mret tt
  else if scancode =? F2_KEY then
    alt ← gets (fun m => alt_pressed (kbd m));
    if alt =? 1 then switch_terminal 2;; mret tt else mret tt
  else if scancode =? F3_KEY then
    alt ← gets (fun m => alt_pressed (kbd m));
    if alt =? 1 then switch_terminal 3;; mret tt else mret tt
  else if scancode =? ARROW_LEFT then move_cursor_left
  else if scancode =? ARROW_RIGHT then move_cursor_right
  else if scancode =? ENTER then handle_enter
  else if scancode =? BACKSPACE then handle_backpace
  else key_pressed_handler scancode.

Definition keyboard_handler : K unit :=
  cli;;
  scancode ← inb KEYBOARD_PORT;
  send_eoi KEYBOARD_IRQ_LINE;;
  (if negb (scancode =? 0xE0) then on_scancode scancode else mret tt);;
  sti.

(** [MAKE_HANDLER]: [pushal] takes eight words, [pushfl] and [call] one each. *)
Definition MAKE_HANDLER (func : K unit) : K unit :=
  push 8;;
  fl ← gets (fun m => IF (cpu m));
  push 1;;
  push 1;;
  func;;
  pop 1;;
  popfl fl;;
  pop 8;;
  sti.

Definition handle_rtc : K unit := MAKE_HANDLER rtc_handler.
Definition handle_keyboard : K unit := MAKE_HANDLER keyboard_handler.

(** The processor: it takes the stack of the TSS when a program was interrupted,
    pushes what [iret] needs, clears the flag since the gate is an interrupt gate,
    and at the end brings the stack and the flag back. *)
Definition interrupt (user : bool) (entry : K unit) : K unit :=
  c ← gets cpu;
  (if user then modify (fun m => m <| cpu ::= fun c => c <| cpu_esp := u32 (esp0 (tss m)) |> |>);; push 5 else push 3);;
  cli;;
  entry;;
  modify (fun m => m <| cpu ::= fun s => s <| cpu_esp := cpu_esp c |> <| IF := IF c |> |>).

(** The next interrupt request, accepted in kernel code if the flag is set. *)
Definition serve : K unit :=
  b ← gets (fun m => IF (cpu m));
  l ← gets pending;
  match l with
  | [] => raise Blocked
  | q :: l =>
      if b : bool then
        modify (fun m => m <| pending := l |>);;
        interrupt false (match q with IrqKeyboard => handle_keyboard | IrqRtc => handle_rtc end)
      else raise Blocked
  end.
End Handlers.

(** * The keyboard as its user sees it *)

(** The modifier keys; [md_state] picks the characters: 1 for shift, 2 for
    capslock. *)
Record mods := Mods { md_shift : bool; md_caps : bool; md_ctrl : bool; md_alt : bool; md_state : Z }.

Record mods_ok (m : machine) (d : mods) : Prop := {
  mk_shift : shift_pressed (kbd m) = Z.b2z (md_shift d);
  mk_caps : capslock_state (kbd m) = Z.b2z (md_caps d);
  mk_ctrl : ctrl_pressed (kbd m) = Z.b2z (md_ctrl d);
  mk_alt : alt_pressed (kbd m) = Z.b2z (md_alt d);
  mk_state : keys_state (kbd m) = md_state d;
  mk_range : 0 <= md_state d < 4;
  mk_state_caps : md_caps d = (2 <=? md_state d);
  mk_state_shift : Z.odd (md_state d) = true -> md_shift d = true
}.

(** What the user typed: a line, the console it shows on, and whether the line was
    entered. *)
Record typed := Typed { ty_mods : mods; ty_line : list Z; ty_con : console; ty_entered : bool }.

(** A modifier key, when [scancode] is one. *)
Definition press_mod (scancode : Z) (d : mods) : option mods :=
  let caps := if md_caps d then 2 else 0 in
  if (scancode =? SHIFT_L) || (scancode =? SHIFT_R) then Some (Mods true (md_caps d) (md_ctrl d) (md_alt d) (1 + caps))
  else if (scancode =? RELEASE SHIFT_L) || (scancode =? RELEASE SHIFT_R) then
    Some (Mods false (md_caps d) (md_ctrl d) (md_alt d) caps)
  else if scancode =? CAPSLOCK then Some (Mods (md_shift d) (negb (md_caps d)) (md_ctrl d) (md_alt d) (2 - caps))
  else if scancode =? CTRL then Some (Mods (md_shift d) (md_caps d) true (md_alt d) (md_state d))
  else if scancode =? RELEASE CTRL then Some (Mods (md_shift d) (md_caps d) false (md_alt d) (md_state d))
  else if scancode =? ALT_L then Some (Mods (md_shift d) (md_caps d) (md_ctrl d) true (md_state d))
  else if scancode =? RELEASE ALT_L then Some (Mods (md_shift d) (md_caps d) (md_ctrl d) false (md_state d))
  else None.

(** One scancode; [None] for what is not covered: alt with a function key, the
    arrows, ctrl+L, and a backspace in the top left corner. *)
Definition press (scancode : Z) (s : typed) : option typed :=
  let d := ty_mods s in
  if scancode =? 0xE0 then Some s
  else match press_mod scancode d with
  | Some d' => Some (Typed d' (ty_line s) (ty_con s) (ty_entered s))
  | None =>
      if (scancode =? F1_KEY) || (scancode =? F2_KEY) || (scancode =? F3_KEY) then if md_alt d then None else Some s
      else if (scancode =? ARROW_LEFT) || (scancode =? ARROW_RIGHT) then None
      else if scancode =? ENTER then Some (Typed d (ty_line s) (con_enter (ty_con s)) true)
      else if scancode =? BACKSPACE then
        '(l, c) ← edit (md_state d) Back (ty_line s, ty_con s); Some (Typed d l c (ty_entered s))
      else if NUM_KEYS <=? scancode then Some s
      else if md_ctrl d then if key_char (md_state d) scancode =? 108 then None else Some s
      else '(l, c) ← edit (md_state d) (Key scancode) (ty_line s, ty_con s); Some (Typed d l c (ty_entered s))
  end.

Fixpoint presses (scancodes : list Z) (s : typed) : option typed :=
  match scancodes with
  | [] => Some s
  | c :: scancodes => s ← press c s; presses scancodes s
  end.

Section Typing.
Context `{Platform}.

Record typed_shown (pv : Z) (k : nat) (m : machine) (s : typed) : Prop := {
  ts_shows : shows pv m (ty_con s);
  ts_line : line_shown k m (ty_line s);
  ts_mods : mods_ok m (ty_mods s);
  ts_entered : enter_pressed (kbd m) = Z.b2z (ty_entered s)
}.

(** What the keyboard may change. *)
Definition keys_only (m m' : machine) : Prop :=
  m' = m <| phys := phys m' |> <| scr := scr m' |> <| io_log := io_log m' |> <| kbd := kbd m' |>
         <| terminal := terminal m' |>.

Lemma keys_only_edit m m' : edit_only m m' -> keys_only m m'.
Proof. unfold edit_only, keys_only. intros ->. by destruct m. Qed.

Lemma keys_only_screen pv m m1 m2 : keys_only m m1 -> screen_only pv m1 m2 -> keys_only m m2.
Proof. intros E1 [E2 _ _]. unfold keys_only in *. rewrite E2, E1. by destruct m. Qed.

Lemma shown_mods pv k m s q d :
  typed_shown pv k m s ->
  key_buffer q = key_buffer (kbd m) -> key_buffer_pos q = key_buffer_pos (kbd m) -> enter_pressed q = enter_pressed (kbd m) ->
  mods_ok (m <| kbd := q |>) d ->
  typed_shown pv k (m <| kbd := q |>) (Typed d (ty_line s) (ty_con s) (ty_entered s)).
Proof.
  intros [Hsh [L1 L2 L3 L4] _ He] F1 F2 F3 Hd. split.
  - cbn [ty_con]. by destruct Hsh; split.
  - cbn [ty_line]. split; [|exact L2|exact L3|].
    + change (kbd (m <| kbd := q |>)) with q. by rewrite F1.
    + change (kbd (m <| kbd := q |>)) with q. by rewrite F2.
  - exact Hd.
  - change (kbd (m <| kbd := q |>)) with q. by rewrite F3.
Qed.

(** A modifier key. *)
Lemma on_mod pv k m s scancode d :
  typed_shown pv k m s -> press_mod scancode (ty_mods s) = Some d ->
  exists q, on_scancode scancode m = (Ok tt, m <| kbd := q |>) /\
    typed_shown pv k (m <| kbd := q |>) (Typed d (ty_line s) (ty_con s) (ty_entered s)).
Proof.
  intros Hs Hp. pose proof (ts_mods _ _ _ _ Hs) as [M1 M2 M3 M4 M5 M6 M7 M8].
  destruct (ty_mods s) as [sh ca ct al st] eqn:Es. cbn [md_shift md_caps md_ctrl md_alt md_state] in *.
  unfold press_mod in Hp. unfold on_scancode, set_kbd. cbn [md_shift md_caps md_ctrl md_alt md_state] in Hp.
  repeat match type of Hp with
  | (if ?b then _ else _) = _ => destruct b
  end; try discriminate Hp; injection Hp as <-.
  all: mrun; msimp; rewrite ?M2.
  all: try (destruct ca; cbn [Z.b2z Z.eqb Pos.eqb]; cbv beta iota; mrun).
  all: match goal with |- exists q, (Ok tt, ?mm) = _ /\ _ => exists (kbd mm) end; split; [reflexivity|].
  all: apply shown_mods; [exact Hs|reflexivity|reflexivity|reflexivity|].
  all: split; cbn -[Z.leb Z.odd]; try assumption; try reflexivity; try lia.
  all: intros Ho; discriminate Ho.
Qed.

(** Enter. *)
Lemma on_enter pv k m s :
  typed_shown pv k m s ->
  exists m', handle_enter m = (Ok tt, m') /\
    typed_shown pv k m' (Typed (ty_mods s) (ty_line s) (con_enter (ty_con s)) true) /\ keys_only m m' /\
    only_out (io_log m) (io_log m') /\ typing_kept pv m m'.
Proof.
  intros [Hsh [L1 L2 L3 L4] [] He]. unfold handle_enter, set_right_bound. mrun.
  match goal with |- context [do_enter ?mm] => set (m2 := mm) end.
  assert (shows pv m2 (ty_con s)) as Hsh2 by (destruct Hsh; by split). destruct (ty_con s) as [t x y] eqn:Ec.
  destruct (do_enter_ok pv m2 t x y (shows_text _ _ _ Hsh2)) as (m3 & E3 & Hsh3 & Hs3 & _);
    [apply (sh_y _ _ _ Hsh2)|apply (sh_ok _ _ _ Hsh2)|].
  assert (kbd m3 = kbd m2 /\ terminal m3 = terminal m2) as [Hk3 Ht3] by (rewrite (so_fields _ _ _ Hs3); done).
  exists m3. split; [exact E3|]. split; [split|split; [|split]].
  - exact Hsh3.
  - cbn [ty_line]. split; rewrite ?Hk3, ?Ht3; done.
  - cbn [ty_mods]. split; rewrite ?Hk3; done.
  - by rewrite Hk3.
  - eapply keys_only_screen; [|exact Hs3]. unfold keys_only, m2. by destruct m.
  - exact (so_log _ _ _ Hs3).
  - apply (typing_kept_screen pv m m2); [|exact Hs3]. split; [done|apply counts_kept_refl].
Qed.

(** What editing keeps of the keyboard. *)
Lemma edit_typed pv k m m' s l c :
  typed_shown pv k m s -> edit_only m m' -> shows pv m' c -> line_shown k m' l ->
  typed_shown pv k m' (Typed (ty_mods s) l c (ty_entered s)).
Proof.
  intros [_ _ [D1 D2 D3 D4 D5 D6 D7 D8] He] Ho Hc Hl. split; [exact Hc|exact Hl| |].
  - cbn [ty_mods]. split; try done; rewrite Ho; done.
  - by rewrite Ho.
Qed.

(** Any other key. *)
Lemma on_key pv k m s scancode s' :
  typed_shown pv k m s -> 0 <= scancode -> press_mod scancode (ty_mods s) = None -> scancode <> 0xE0 ->
  press scancode s = Some s' ->
  exists m', on_scancode scancode m = (Ok tt, m') /\ typed_shown pv k m' s' /\ keys_only m m' /\
    only_out (io_log m) (io_log m') /\ typing_kept pv m m'.
Proof.
  intros Hs Hsc Hp Hne Hpress. pose proof Hs as [Hsh Hl Hd He]. unfold press in Hpress.
  rewrite (proj2 (Z.eqb_neq _ 0xE0)), Hp in Hpress by done.
  assert (keys_only m m) as Hk0 by (unfold keys_only; by destruct m).
  pose proof (only_out_refl (io_log m)) as Hlog0. pose proof (typing_kept_refl pv m) as Htk0.
  unfold press_mod in Hp. unfold on_scancode. cbv zeta in Hp.
  repeat match type of Hp with (if ?b then _ else _) = _ => destruct b; [discriminate Hp|] end. clear Hp.
  pose proof Hd as [D1 D2 D3 D4 D5 D6 D7 D8]. set (st := md_state (ty_mods s)) in *.
  destruct (scancode =? F1_KEY); [|destruct (scancode =? F2_KEY); [|destruct (scancode =? F3_KEY)]]; cbn [orb] in Hpress.
  1,2,3: destruct (md_alt (ty_mods s)); [discriminate Hpress|]; injection Hpress as <-; mrun; rewrite D4; mrun; by exists m.
  destruct (scancode =? ARROW_LEFT); [discriminate Hpress|]. destruct (scancode =? ARROW_RIGHT); [discriminate Hpress|].
  cbn [orb] in Hpress. destruct (scancode =? ENTER).
  { injection Hpress as <-. by apply on_enter. }
  destruct (scancode =? BACKSPACE).
  { destruct (edit _ Back _) as [[l c]|] eqn:Ed; [|discriminate Hpress]. injection Hpress as <-.
    destruct (back_ok pv k m (ty_con s) (ty_line s) st Hsh Hl l c Ed) as (m' & E & H1 & H2 & H3 & H4).
    exists m'. split; [exact E|]. split; [by eapply edit_typed|]. split; [by apply keys_only_edit|exact H4]. }
  destruct (Z.leb_spec NUM_KEYS scancode) as [Hge|Hlt].
  { injection Hpress as <-. exists m. unfold key_pressed_handler. rewrite (proj2 (Z.leb_le _ _)) by done. done. }
  destruct (md_ctrl (ty_mods s)) eqn:Hct.
  - unfold key_pressed_handler, key_of. rewrite (proj2 (Z.leb_gt _ _)) by done. mrun. rewrite D3. cbn [Z.b2z Z.eqb Pos.eqb].
    cbv iota. mrun. rewrite D5. destruct (key_char st scancode =? 108); [discriminate Hpress|]. injection Hpress as <-. by exists m.
  - assert (typing m st) as Hty by (split; [by rewrite D3|done]).
    destruct (key_ok pv k m (ty_con s) (ty_line s) st scancode Hsh Hl Hty D6 Hsc) as (m' & l' & c' & Ed & E & H1 & H2 & H3 & H4).
    rewrite Ed in Hpress. injection Hpress as <-. exists m'. split; [exact E|]. split; [by eapply edit_typed|].
    split; [by apply keys_only_edit|exact H4].
Qed.
End Typing.

(** * Interrupts *)

(** How often the keyboard was read, and a keyboard that delivers [script]. *)
Definition is_key_read (e : io) : bool := match e with InB p _ => p =? KEYBOARD_PORT | OutB _ _ => false end.
Definition key_reads (log : list io) : nat := length (List.filter is_key_read log).

Definition feeds `{Platform} (script : list Z) : Prop :=
  forall log, u8 (device log KEYBOARD_PORT) = nth (key_reads log) script 0.

Section Interrupts.
Context `{Platform}.

Lemma key_reads_app l1 l2 : key_reads (l1 ++ l2) = (key_reads l1 + key_reads l2)%nat.
Proof. unfold key_reads. by rewrite List.filter_app, length_app. Qed.

Lemma key_reads_out l l' : only_out l l' -> key_reads l' = key_reads l.
Proof.
  intros (a & -> & Ha). rewrite key_reads_app.
  assert (key_reads a = 0%nat) as ->; [|lia]. unfold key_reads. induction Ha as [|[p v|p v] a He Ha IH]; [done| |done]. exact IH.
Qed.

Lemma feeds_next script log sc rest :
  feeds script -> drop (key_reads log) script = sc :: rest ->
  u8 (device log KEYBOARD_PORT) = sc /\ forall log', key_reads log' = S (key_reads log) -> drop (key_reads log') script = rest.
Proof.
  intros Hf Hd. assert (script !! key_reads log = Some sc) as Hn.
  { rewrite <- (Nat.add_0_r (key_reads log)), <- lookup_drop. by rewrite Hd. }
  split; [rewrite Hf; by apply nth_lookup_Some|].
  intros log' ->. replace (S (key_reads log)) with (key_reads log + 1)%nat by lia. rewrite <- drop_drop. by rewrite Hd.
Qed.

Lemma keys_only_log m f : keys_only m (m <| io_log ::= f |>).
Proof. unfold keys_only. by destruct m. Qed.

Lemma keys_only_kbd m m' q : keys_only m m' -> keys_only m (m' <| kbd := q |>).
Proof. unfold keys_only. intros ->. by destruct m. Qed.

Lemma keys_only_trans m m1 m2 : keys_only m m1 -> keys_only m1 m2 -> keys_only m m2.
Proof. unfold keys_only. intros E1 E2. rewrite E2, E1. by destruct m. Qed.

(** The state in which the scancode is acted on. *)
Definition polled (m : machine) (sc : Z) : machine :=
  (quiet m) <| io_log ::= fun l => l ++ [InB KEYBOARD_PORT sc; OutB MASTER_8259_PORT (u8 (Z.lor EOI KEYBOARD_IRQ_LINE))] |>.

Lemma keyboard_handler_run m sc :
  u8 (device (io_log m) KEYBOARD_PORT) = sc ->
  keyboard_handler m = ((if negb (sc =? 0xE0) then on_scancode sc else mret tt);; sti) (polled m sc).
Proof.
  intros Hsc. unfold keyboard_handler, cli. rewrite bind_run, modify_run. fold (quiet m). cbv beta iota.
  rewrite bind_run. unfold inb. change (io_log (quiet m)) with (io_log m). rewrite Hsc. cbv beta iota zeta.
  unfold send_eoi. change ((0 <=? KEYBOARD_IRQ_LINE) && (KEYBOARD_IRQ_LINE <=? 7)) with true.
  change ((8 <=? KEYBOARD_IRQ_LINE) && (KEYBOARD_IRQ_LINE <=? 15)) with false. unfold outb. rewrite !bind_assoc. mrun.
  f_equal. unfold polled. destruct m. unfold quiet, set_field. cbn -[u8 Z.lor]. by rewrite <- app_assoc.
Qed.

Lemma typing_kept_polled pv m sc : typing_kept pv m (polled m sc).
Proof. split; [done|apply counts_kept_refl]. Qed.

(** [keyboard_handler], for a key that is covered. *)
Lemma keyboard_handler_ok pv k m s s' sc :
  u8 (device (io_log m) KEYBOARD_PORT) = sc -> typed_shown pv k m s -> press sc s = Some s' ->
  exists m', keyboard_handler m = (Ok tt, m' <| cpu ::= fun c => c <| IF := true |> |>) /\
    typed_shown pv k m' s' /\ keys_only (quiet m) m' /\ key_reads (io_log m') = S (key_reads (io_log m)) /\
    typing_kept pv m m'.
Proof.
  intros Hsc Hs Hp. pose proof (u8_range (device (io_log m) KEYBOARD_PORT)) as Hr. rewrite Hsc in Hr.
  assert (typed_shown pv k (polled m sc) s) as Hs1.
  { destruct Hs as [[H1 H2 H3 H4 H5] [L1 L2 L3 L4] [] He]. split; [by split|by split|by split|done]. }
  assert (keys_only (quiet m) (polled m sc)) as Hko by exact (keys_only_log (quiet m) _).
  assert (key_reads (io_log (polled m sc)) = S (key_reads (io_log m))) as Hkr.
  { change (io_log (polled m sc)) with (io_log m ++ [InB KEYBOARD_PORT sc; OutB MASTER_8259_PORT (u8 (Z.lor EOI KEYBOARD_IRQ_LINE))]).
    rewrite key_reads_app. change (key_reads [_; _]) with 1%nat. lia. }
  rewrite (keyboard_handler_run m sc Hsc). destruct (Z.eqb_spec sc 0xE0) as [->|Hne].
  { injection Hp as <-. exists (polled m 0xE0). split; [unfold sti; by mrun|]. split; [done|]. split; [done|]. split; [done|apply typing_kept_polled]. }
  cbn [negb]. destruct (press_mod sc (ty_mods s)) as [d|] eqn:Em.
  - unfold press in Hp. rewrite (proj2 (Z.eqb_neq _ 0xE0)), Em in Hp by done. injection Hp as <-.
    destruct (on_mod pv k (polled m sc) s sc d Hs1 Em) as (q & E & Hs2).
    exists ((polled m sc) <| kbd := q |>). split; [unfold sti; go E; by rewrite modify_run|]. split; [exact Hs2|].
    split; [by apply keys_only_kbd|]. split; [exact Hkr|]. destruct (typing_kept_polled pv m sc) as [C T]. split; [exact C|exact T].
  - destruct (on_key pv k (polled m sc) s sc s' Hs1 ltac:(lia) Em Hne Hp) as (m' & E & Hs2 & Hk2 & Hl2 & Ht2).
    exists m'. split; [unfold sti; go E; by rewrite modify_run|]. split; [exact Hs2|].
    split; [by eapply keys_only_trans|]. split; [by rewrite (key_reads_out _ _ Hl2)|].
    destruct Ht2 as [C T]. split; [exact C|exact T].
Qed.

(** What an interrupt of the keyboard may change. *)
Definition keys_served (m m' : machine) (l : list irq) : Prop :=
  m' = m <| phys := phys m' |> <| scr := scr m' |> <| io_log := io_log m' |> <| kbd := kbd m' |>
         <| terminal := terminal m' |> <| pending := l |>.

Lemma keys_only_cpu m m' : keys_only m m' -> cpu m' = cpu m.
Proof. by intros ->. Qed.

Lemma served_back m m1 m2 l :
  m1 = m <| pending := l |> <| cpu := cpu m1 |> -> keys_only (quiet m1) m2 -> keys_served m (m2 <| cpu := cpu m |>) l.
Proof. unfold keys_only, keys_served. intros E1 ->. rewrite E1. clear. generalize (cpu m1). intros c. by destruct m. Qed.

Lemma typed_shown_cpu pv k m s f : typed_shown pv k m s -> typed_shown pv k (m <| cpu ::= f |>) s.
Proof. intros [[H1 H2 H3 H4 H5] [L1 L2 L3 L4] [] He]. split; [by split|by split|by split|done]. Qed.

(** The interrupt: the interrupted code finds its stack and its flag again. *)
Lemma serve_key pv k m s s' script sc rest l :
  feeds script -> IF (cpu m) = true -> pending m = IrqKeyboard :: l ->
  drop (key_reads (io_log m)) script = sc :: rest -> typed_shown pv k m s -> press sc s = Some s' ->
  exists m', serve m = (Ok tt, m') /\ typed_shown pv k m' s' /\ keys_served m m' l /\
    drop (key_reads (io_log m')) script = rest /\ typing_kept pv m m'.
Proof.
  intros Hf HIF Hpend Hd Hs Hp. destruct (feeds_next _ _ _ _ Hf Hd) as [Hsc Hrest].
  unfold serve. mrun. rewrite HIF, Hpend. mrun. unfold interrupt, push, cli. mrun.
  unfold handle_keyboard, MAKE_HANDLER, push. mrun.
  match goal with |- context [keyboard_handler ?mm] => set (m1 := mm) end.
  assert (typed_shown pv k m1 s) as Hs1 by (destruct Hs as [[H1 H2 H3 H4 H5] [L1 L2 L3 L4] [] He]; split; [by split|by split|by split|done]).
  destruct (keyboard_handler_ok pv k m1 s s' sc Hsc Hs1 Hp) as (m2 & E & Hs2 & Hk2 & Hr2 & Ht2).
  rewrite E. unfold pop, popfl, pop, sti. mrun. eexists. split; [reflexivity|].
  split; [by repeat apply typed_shown_cpu|]. split; [|split; [by apply Hrest|destruct Ht2 as [C T]; split; [exact C|exact T]]].
  match goal with |- keys_served _ ?mm _ => change mm with (m2 <| cpu := cpu mm |>); set (c2 := cpu mm) end.
  assert (c2 = cpu m) as ->; [|by apply (served_back m m1)].
  unfold c2. msimp. rewrite (keys_only_cpu _ _ Hk2). unfold m1. clear - HIF.
  destruct m as [? ? ? [] ? ? ? ? ? ? ? ? ? ? ? ? ? ? ? ?]. cbn in HIF. subst. reflexivity.
Qed.
End Interrupts.

(** * Sequences of keys *)

Section Runs.
Context `{Platform}.

Fixpoint serve_n (n : nat) : K unit := match n with O => mret tt | S n => serve;; serve_n n end.

(** The keyboard has [scancodes] to deliver, and the requests for them are pending. *)
Record to_come (script scancodes : list Z) (later : list irq) (m : machine) : Prop := {
  tc_flag : IF (cpu m) = true;
  tc_pending : pending m = replicate (length scancodes) IrqKeyboard ++ later;
  tc_script : exists rest, drop (key_reads (io_log m)) script = scancodes ++ rest
}.

Lemma keys_served_cpu m m' l : keys_served m m' l -> cpu m' = cpu m /\ pending m' = l /\ pg m' = pg m.
Proof. by intros ->. Qed.

Lemma keys_served_trans m m1 m2 l1 l2 : keys_served m m1 l1 -> keys_served m1 m2 l2 -> keys_served m m2 l2.
Proof. unfold keys_served. intros E1 E2. rewrite E2, E1. by destruct m. Qed.

Lemma serve_next pv k m s s' script sc scs later :
  feeds script -> to_come script (sc :: scs) later m -> typed_shown pv k m s -> press sc s = Some s' ->
  exists m', serve m = (Ok tt, m') /\ typed_shown pv k m' s' /\
    keys_served m m' (replicate (length scs) IrqKeyboard ++ later) /\ to_come script scs later m' /\ typing_kept pv m m'.
Proof.
  intros Hf [HIF Hp (rest & Hd)] Hs Hpr.
  destruct (serve_key pv k m s s' script sc (scs ++ rest) (replicate (length scs) IrqKeyboard ++ later)) as (m' & E & Hs' & Hk & Hd' & Ht');
    try done.
  exists m'. split; [done|]. split; [done|]. split; [done|]. split; [|done]. destruct (keys_served_cpu _ _ _ Hk) as (K1 & K2 & _).
  split; [by rewrite K1|by rewrite K2|by exists rest].
Qed.

(** Entering stays. *)
Lemma press_entered sc s s' : press sc s = Some s' -> ty_entered s = true -> ty_entered s' = true.
Proof.
  unfold press. intros Hp He. repeat match type of Hp with
  | (if ?b then _ else _) = _ => destruct b
  | match ?x with Some _ => _ | None => _ end = _ => destruct x eqn:?
  | (_ ≫= _) = _ => destruct (edit _ _ _) as [[? ?]|]; cbn [mbind option_bind] in Hp
  end; try discriminate Hp; by injection Hp as <-.
Qed.

Lemma presses_entered scs : forall s s', presses scs s = Some s' -> ty_entered s = true -> ty_entered s' = true.
Proof.
  induction scs as [|sc scs IH]; intros s s' Hp He; [by injection Hp as <-|]. cbn [presses] in Hp.
  destruct (press sc s) as [s1|] eqn:E1; [|done]. apply (IH s1); [done|by eapply press_entered].
Qed.

(** Waiting for the line to be entered. *)
Definition entered_line (m : machine) : bool := truth (enter_pressed (kbd m)).

Lemma not_entered pv k m s : typed_shown pv k m s -> entered_line m = ty_entered s.
Proof. intros [_ _ _ He]. unfold entered_line. rewrite He. by destruct (ty_entered s). Qed.

(** The requests are served one by one, also by a loop that waits for a line. *)
Lemma serve_all pv k script later more : feeds script -> forall scs m s s',
  to_come script (scs ++ more) later m -> typed_shown pv k m s -> presses scs s = Some s' ->
  exists m', serve_n (length scs) m = (Ok tt, m') /\ typed_shown pv k m' s' /\
    keys_served m m' (replicate (length more) IrqKeyboard ++ later) /\ to_come script more later m' /\ typing_kept pv m m' /\
    (ty_entered s' = false -> spin entered_line serve m = spin entered_line serve m').
Proof.
  intros Hf. induction scs as [|sc scs IH]; intros m s s' Htc Hs Hpr.
  { injection Hpr as <-. exists m. split; [done|]. split; [done|]. split; [|split; [done|split; [apply typing_kept_refl|done]]]. destruct Htc as [_ Hp _].
    unfold keys_served. cbn [app] in Hp. rewrite <- Hp. by destruct m. }
  cbn [presses] in Hpr. destruct (press sc s) as [s1|] eqn:E1; [|done]. cbn [mbind option_bind] in Hpr.
  destruct (serve_next pv k m s s1 script sc (scs ++ more) later Hf Htc Hs E1) as (m1 & E & Hs1 & Hk1 & Htc1 & Ht1).
  destruct (IH m1 s1 s' Htc1 Hs1 Hpr) as (m2 & E2 & Hs2 & Hk2 & Htc2 & Ht2 & Hsp). exists m2.
  split; [cbn [length serve_n]; by go E|]. split; [done|]. split; [by eapply keys_served_trans|]. split; [done|]. split; [by eapply typing_kept_trans|].
  intros He. rewrite <- Hsp by done. apply spin_step; [|done|].
  - rewrite (not_entered pv k m s Hs). destruct (ty_entered s) eqn:Es; [|done].
    by rewrite (presses_entered (sc :: scs) s s') in He by (cbn [presses]; rewrite ?E1; done).
  - destruct Htc as [_ Hp _], Htc1 as [_ Hp1 _]. rewrite Hp, Hp1. done.
Qed.
End Runs.

(** * Properties *)


Section Read.
Context `{Platform}.

Lemma edit_string state e l c l' c' :
  0 <= state < 4 -> match e with Key sc => 0 <= sc | Back => True end ->
  edit state e (l, c) = Some (l', c') -> Forall (fun b => 0 < b < 256) l -> Forall (fun b => 0 < b < 256) l'.
Proof.
  intros Hst He Hed Hl. apply (edits_string state [e] l c l' c' Hst); [by constructor|done|]. cbn [edits]. by rewrite Hed.
Qed.

(** The line holds no null byte, and the modifiers stay in order. *)
Lemma press_string sc s s' :
  0 <= sc -> 0 <= md_state (ty_mods s) < 4 -> press sc s = Some s' ->
  Forall (fun b => 0 < b < 256) (ty_line s) ->
  0 <= md_state (ty_mods s') < 4 /\ Forall (fun b => 0 < b < 256) (ty_line s').
Proof.
  intros Hsc Hst Hp Hl. unfold press, press_mod in Hp. cbv zeta in Hp.
  repeat match type of Hp with
  | (if ?b then _ else _) = _ => destruct b
  | match (if ?b then _ else _) with Some _ => _ | None => _ end = _ => destruct b
  | match Some _ with Some _ => _ | None => _ end = _ => cbv iota in Hp
  | match None with Some _ => _ | None => _ end = _ => cbv iota in Hp
  | (_ ≫= _) = _ => destruct (edit _ _ _) as [[? ?]|] eqn:Ed; cbn [mbind option_bind] in Hp
  end; try discriminate Hp; injection Hp as <-; cbn [ty_mods ty_line md_state].
  all: try (destruct (md_caps (ty_mods s)); (split; [lia|exact Hl])).
  all: split; [exact Hst|first [exact Hl|eapply edit_string; [exact Hst| |exact Ed|exact Hl]; first [exact Hsc|exact I]]].
Qed.

Lemma presses_string scs : forall s s',
  Forall (fun sc => 0 <= sc) scs -> 0 <= md_state (ty_mods s) < 4 -> presses scs s = Some s' ->
  Forall (fun b => 0 < b < 256) (ty_line s) -> Forall (fun b => 0 < b < 256) (ty_line s').
Proof.
  induction scs as [|sc scs IH]; intros s s' Hsc Hst Hp Hl; [by injection Hp as <-|].
  inversion Hsc as [|? ? Hsc0 Hsc']; subst. cbn [presses] in Hp.
  destruct (press sc s) as [s1|] eqn:E1; [|done]. destruct (press_string sc s s1 Hsc0 Hst E1 Hl). by apply (IH s1).
Qed.
(** The wait for a line, and what it is read into; [m1] is the state in which the
    line has been entered.  [more] scancodes come after the line. *)
Lemma read_waits_ok pv k script scs more later m d d' l c c' fd buf pbuf nbytes :
  feeds script -> to_come script (scs ++ ENTER :: more) later m -> Forall (fun sc => 0 <= sc) scs ->
  typed_shown pv k m (Typed d [] c false) -> presses scs (Typed d [] c false) = Some (Typed d' l c' false) ->
  0 <= nbytes < 2147483648 -> (Z.of_nat (length l) < 128 \/ nbytes < 128) ->
  let s := take (Z.to_nat nbytes) l in
  maps m buf pbuf (Z.of_nat (length s)) ->
  exists m1 m', terminal_read serve fd buf nbytes m = (Ok (Z.of_nat (length s)), m') /\
    Forall (fun b => 0 < b < 256) l /\
    typed_shown pv k m1 (Typed d' l (con_enter c') true) /\ typing_kept pv m m1 /\ phys m' = phys (upds m1 pbuf s) /\
    cells m' pbuf (length s) = s /\ line_shown k m' [] /\ enter_pressed (kbd m') = 0 /\ mods_ok m' d' /\
    pending m' = replicate (length more) IrqKeyboard ++ later /\ cpu m' = cpu m /\
    to_come script more later m' /\ scr m' = scr m1 /\ counts_kept (terminal m1) (terminal m') /\
    (m' = m <| phys := phys m' |> <| scr := scr m' |> <| io_log := io_log m' |> <| kbd := kbd m' |>
           <| terminal := terminal m' |> <| pending := pending m' |>).
Proof.
  intros Hf Htc Hsc Hs Hp Hnb Hfit s Hbuf.
  destruct (serve_all pv k script later (ENTER :: more) Hf scs m _ _ Htc Hs Hp) as (m1 & _ & Hs1 & Hk1 & Htc1 & Ht1 & Hsp1).
  assert (press ENTER (Typed d' l c' false) = Some (Typed d' l (con_enter c') true)) as Hp2 by done.
  destruct (serve_next pv k m1 _ _ script ENTER more later Hf Htc1 Hs1 Hp2) as (m2 & E2 & Hs2 & Hk2 & Htc2 & Ht2).
  assert (spin entered_line serve m = (Ok tt, m2)) as Hspin.
  { rewrite Hsp1 by done. rewrite (spin_step _ _ m1 m2); [|by rewrite (not_entered pv k m1 _ Hs1)|exact E2|].
    - apply spin_ready. by rewrite (not_entered pv k m2 _ Hs2).
    - destruct (keys_served_cpu _ _ _ Hk2) as (_ & -> & _). rewrite (tc_pending _ _ _ _ Htc1). cbn [length replicate app]. done. }
  pose proof (keys_served_trans _ _ _ _ _ Hk1 Hk2) as Hk.
  assert (Forall (fun b => 0 < b < 256) l) as Hstr.
  { apply (presses_string scs _ _ Hsc) in Hp; [exact Hp|exact (mk_range _ _ (ts_mods _ _ _ _ Hs))|constructor]. }
  destruct (terminal_read_ok serve m2 k l fd buf pbuf nbytes) as (m3 & E3 & Hl3 & He3 & Hph3 & Ho3 & Hsc3 & Hlog3 & Hct3);
    [exact (ts_line _ _ _ _ Hs2)|exact Hstr|exact (ts_entered _ _ _ _ Hs2)|done|done| |].
  { eapply maps_loc; [|exact Hbuf]. intros x. by rewrite Hk. }
  exists m2, m3. destruct (keys_served_cpu _ _ _ Hk) as (K1 & K2 & _).
  assert (pending m3 = pending m2 /\ cpu m3 = cpu m2) as [Hp3 Hc3] by (rewrite Ho3; done).
  split; [|split; [done|split; [done|split; [by eapply typing_kept_trans|split; [done|split; [|split; [done|split; [done|split]]]]]]]].
  - etransitivity; [|exact E3]. unfold terminal_read. fold entered_line. rewrite bind_run, Hspin. cbv beta iota.
    symmetry. rewrite bind_run, spin_ready; [reflexivity|]. by apply (not_entered pv k m2 _ Hs2).
  - transitivity (cells (upds m2 pbuf s) pbuf (length s)); [by apply cells_phys|].
    apply cells_stored; [|done]. unfold s. apply Forall_take. eapply Forall_impl; [|exact Hstr]. unfold is_byte. cbn. lia.
  - destruct (ts_mods _ _ _ _ Hs2) as [D1 D2 D3 D4 D5 D6 D7 D8]. rewrite Ho3. by split.
  - split; [congruence|]. split; [congruence|]. split; [|split; [done|split; [done|]]].
    + destruct Htc2 as [T1 T2 T3]. split; [by rewrite Hc3|by rewrite Hp3|by rewrite Hlog3].
    + clear - Ho3 Hk. unfold edit_only in Ho3. unfold keys_served in Hk. rewrite Ho3, Hk. by destruct m.
Qed.
End Read.

(** C25. A program that reads from the terminal before the line is typed: the kernel
    waits with interrupts on, serves the keys one by one, and returns when enter
    is pressed, with the line as the user edited it (as far as [nbytes] allows);
    the line buffer is empty and the enter flag down for the next read. *)
Theorem read_waits `{Platform} (pv : Z) (k : nat) (script scs : list Z) (later : list irq) (m : machine) (d d' : mods)
    (l : list Z) (c c' : console) (fd buf pbuf nbytes : Z) :
  feeds script -> to_come script (scs ++ [ENTER]) later m -> Forall (fun sc => 0 <= sc) scs ->
  typed_shown pv k m (Typed d [] c false) -> presses scs (Typed d [] c false) = Some (Typed d' l c' false) ->
  0 <= nbytes < 2147483648 -> (Z.of_nat (length l) < 128 \/ nbytes < 128) ->
  let s := take (Z.to_nat nbytes) l in
  maps m buf pbuf (Z.of_nat (length s)) ->
  exists m', terminal_read serve fd buf nbytes m = (Ok (Z.of_nat (length s)), m') /\
    cells m' pbuf (length s) = s /\ line_shown k m' [] /\ enter_pressed (kbd m') = 0 /\ mods_ok m' d' /\
    pending m' = later /\ cpu m' = cpu m.
Proof.
  intros Hf Htc Hsc Hs Hp Hnb Hfit s Hbuf.
  assert (to_come script (scs ++ ENTER :: []) later m) as Htc' by done.
  destruct (read_waits_ok pv k script scs [] later m d d' l c c' fd buf pbuf nbytes Hf Htc' Hsc Hs Hp Hnb Hfit Hbuf)
    as (m1 & m' & E & _ & _ & _ & _ & Hc & Hl & He & Hd & Hpe & Hcpu & _). by exists m'.
Qed.

(** * A keyboard to type on

    Shift and [l], [s], backspace, enter. *)

Definition typist (script : list Z) : Platform := {|
  addr_pageDir := 0x410000;
  addr_pageTable := 0x411000;
  addr_userTable := 0x412000;
  addr_videoTable := 0x413000;
  device log p := if p =? KEYBOARD_PORT then nth (key_reads log) script 0 else 0;
  execute_frame := 0x160;
  call_frames := 0x400
|}.

Definition some_keys : list Z := [0x2A; 0x26; 0xAA; 0x1F; 0x0E].

Definition no_mods : mods := Mods false false false false 0.

Definition waiting_machine (n : nat) : machine :=
  typing_machine <| cpu ::= fun c => c <| IF := true |> |> <| pending := replicate n IrqKeyboard |>.

Section Typist.
Context `{Platform}.

Lemma waiting_shown n : typed_shown VIDEO 0 (waiting_machine n) (Typed no_mods [] blank_console false).
Proof.
  destruct typing_shows as [H1 H2 H3 H4 H5], typing_line as [L1 L2 L3 L4].
  split; [by split|by split| |done]. by split.
Qed.

Lemma waiting_to_come scs : to_come scs scs [] (waiting_machine (length scs)).
Proof. split; [done|by rewrite app_nil_r|exists []; by rewrite app_nil_r]. Qed.
End Typist.

Lemma typist_feeds script : Forall is_byte script -> @feeds (typist script) script.
Proof.
  intros Hs log. cbn. destruct (nth_in_or_default (key_reads log) script 0) as [Hin| ->]; [|done].
  apply u8_small. rewrite List.Forall_forall in Hs. by apply Hs.
Qed.

Lemma some_keys_pressed :
  presses some_keys (Typed no_mods [] blank_console false) =
  Some (Typed no_mods [76] (con_backspace (con_putc 115 (con_putc 76 blank_console))) false).
Proof. reflexivity. Qed.


Lemma read_waits_witness : let P := typist (some_keys ++ [ENTER]) in
  exists m', terminal_read serve 0 0x1000 32 (waiting_machine 6) = (Ok 1, m') /\ cells m' 0x1000 1 = [76].
Proof.
  intros P. destruct (read_waits VIDEO 0 (some_keys ++ [ENTER]) some_keys [] (waiting_machine 6) no_mods no_mods [76]
    blank_console (con_backspace (con_putc 115 (con_putc 76 blank_console))) 0 0x1000 0x1000 32) as (m' & E & Hc & _).
  - apply typist_feeds. repeat constructor; done.
  - exact (waiting_to_come (some_keys ++ [ENTER])).
  - repeat constructor; done.
  - exact (waiting_shown 6).
  - exact some_keys_pressed.
  - lia.
  - cbn. lia.
  - intros i Hi. change (0 <= i < 1) in Hi. unfold loc. cbn. by rewrite u32_small by lia.
  - exists m'. split; [exact E|exact Hc].
Defined.
