(* ===== verification/Kernel.v ===== *)
(** [entry] of [student-distrib/kernel.c], from the jump of [student-distrib/boot.S]
    on: what the boot loader passed, the segments of the TSS and of the LDT, the
    devices, paging, and the first terminal.

    The multiboot information ([student-distrib/multiboot.h]) lies in memory; its
    fields are read at their offsets. *)

From S2P Require Import Prelude Memory CLib Machine I8259 Rtc Pcb Rofs Paging Screen Keyboard TermIO Files Process Launch Halt Syscalls Terminal TermSetup Desc Idt.

Definition MULTIBOOT_BOOTLOADER_MAGIC : Z := 0x2BADB002.

(** [multiboot_info_t], [elf_section_header_table_t], [module_t] and
    [memory_map_t]: offsets and sizes. *)
Definition mbi_flags : Z := 0.
Definition mbi_mem_lower : Z := 4.
Definition mbi_mem_upper : Z := 8.
Definition mbi_boot_device : Z := 12.
Definition mbi_cmdline : Z := 16.
Definition mbi_mods_count : Z := 20.
Definition mbi_mods_addr : Z := 24.
Definition mbi_elf_sec : Z := 28.
Definition mbi_mmap_length : Z := 44.
Definition mbi_mmap_addr : Z := 48.
Definition elf_num : Z := 0.
Definition elf_size : Z := 4.
Definition elf_addr : Z := 8.
Definition elf_shndx : Z := 12.
Definition mod_start : Z := 0.
Definition mod_end : Z := 4.
Definition sizeof_module_t : Z := 16.
Definition mmap_size : Z := 0.
Definition mmap_base_addr_low : Z := 4.
Definition mmap_base_addr_high : Z := 8.
Definition mmap_length_low : Z := 12.
Definition mmap_length_high : Z := 16.
Definition mmap_type : Z := 20.

Definition CHECK_FLAG (flags bit : Z) : Z := Z.land flags (Z.shiftl 1 bit).

(** The addresses the linker gives the TSS and the LDT; their sizes less one. *)
Class Linker := { addr_tss : Z; addr_ldt : Z }.
Definition tss_size : Z := 103.
Definition ldt_size : Z := 31.

Section Entry.
Context `{Platform} `{Handlers} `{Linker}.

Definition flag (addr bit : Z) : K bool := f ← load32 (addr + mbi_flags); mret (truth (CHECK_FLAG f bit)).
Definition printfn (s : string) (args : list parg) : K unit := printf (text s ++ [10]) args;; mret tt.

(** The body of the loop over the modules, and the loop. *)
Definition print_module (mod_count mod_ : Z) : K unit :=
  a ← load32 (mod_ + mod_start);
  printfn "Module %d loaded at address: 0x%#x" [PInt mod_count; PInt a];;
  a ← load32 (mod_ + mod_end);
  printfn "Module %d ends at address: 0x%#x" [PInt mod_count; PInt a];;
  printfn "First few bytes of module:" [];;
  for_range 0 16 (fun i =>
    a ← load32 (mod_ + mod_start);
    c ← load8 (a + i);
    printf (text "0x%x ") [PInt (i8 c)];;
    mret tt);;
  printfn "" [].

Definition print_modules (addr first : Z) : K unit :=
  while (fun '(mod_count, mod_) =>
    n ← load32 (addr + mbi_mods_count);
    if u32 mod_count <? n then
      print_module mod_count mod_;;
      mret (inl (i32 (mod_count + 1), u32 (mod_ + sizeof_module_t)))
    else mret (inr tt)) (0, first).

(** The memory map. *)
Definition print_mmap_entry (mmap : Z) : K unit :=
  size ← load32 (mmap + mmap_size);
  bh ← load32 (mmap + mmap_base_addr_high); bl ← load32 (mmap + mmap_base_addr_low);
  ty ← load32 (mmap + mmap_type);
  lh ← load32 (mmap + mmap_length_high); ll ← load32 (mmap + mmap_length_low);
  printf (text " size = 0x%x,     base_addr = 0x%#x%#x" ++ [10] ++ text "     type = 0x%x,  length    = 0x%#x%#x" ++ [10])
    [PInt size; PInt bh; PInt bl; PInt ty; PInt lh; PInt ll];;
  mret tt.

Definition print_mmap (addr : Z) : K unit :=
  first ← load32 (addr + mbi_mmap_addr);
  while (fun mmap =>
    a ← load32 (addr + mbi_mmap_addr); n ← load32 (addr + mbi_mmap_length);
    if mmap <? u32 (a + n) then
      print_mmap_entry mmap;;
      size ← load32 (mmap + mmap_size);
      mret (inl (u32 (mmap + size + 4)))
    else mret (inr tt)) first.

(** The lines printed for flags 0 to 3, the file system being set up in between. *)
Definition boot_lines (addr : Z) : K unit :=
  f ← load32 (addr + mbi_flags);
  printfn "flags = 0x%#x" [PInt f];;
  b ← flag addr 0;
  (if b : bool then
     lo ← load32 (addr + mbi_mem_lower); up ← load32 (addr + mbi_mem_upper);
     printfn "mem_lower = %uKB, mem_upper = %uKB" [PInt lo; PInt up] else mret tt);;
  b ← flag addr 1;
  (if b : bool then d ← load32 (addr + mbi_boot_device); printfn "boot_device = 0x%#x" [PInt d] else mret tt);;
  b ← flag addr 2;
  (if b : bool then c ← load32 (addr + mbi_cmdline); printfn "cmdline = %s" [PPtr (Raw c)] else mret tt).

Definition boot_modules (addr : Z) : K unit :=
  b ← flag addr 3;
  if b : bool then
    first ← load32 (addr + mbi_mods_addr);
    printf (text "Initing Read Only File System... ") [];;
    base ← load32 (first + mod_start);
    init_rofs base;;
    printfn "Done!" [];;
    print_modules addr first
  else mret tt.

Definition boot_elf (addr : Z) : K unit :=
  b ← flag addr 5;
  if b : bool then
    n ← load32 (addr + mbi_elf_sec + elf_num); sz ← load32 (addr + mbi_elf_sec + elf_size);
    a ← load32 (addr + mbi_elf_sec + elf_addr); x ← load32 (addr + mbi_elf_sec + elf_shndx);
    printfn "elf_sec: num = %u, size = 0x%#x, addr = 0x%#x, shndx = 0x%#x" [PInt n; PInt sz; PInt a; PInt x]
  else mret tt.

Definition boot_mmap (addr : Z) : K unit :=
  b ← flag addr 6;
  if b : bool then
    a ← load32 (addr + mbi_mmap_addr); n ← load32 (addr + mbi_mmap_length);
    printfn "mmap_addr = 0x%#x, mmap_length = 0x%x" [PInt a; PInt n];;
    print_mmap addr
  else mret tt.

(** The descriptors; a local variable without a value is [d0]. *)
Definition load_ldt (d0 : seg_desc_t) : K unit :=
  let the_ldt_desc := d0 <| granularity := 0 |> <| opsize := 1 |> <| sd_reserved := 0 |> <| avail := 0 |>
    <| sd_present := 1 |> <| sd_dpl := 0 |> <| sd_sys := 0 |> <| sd_type := 2 |> in
  let the_ldt_desc := SET_LDT_PARAMS the_ldt_desc addr_ldt ldt_size in
  modify (fun m => m <| ldt_desc_ptr := the_ldt_desc |>);;
  modify (fun m => m <| cpu ::= fun c => c <| ldtr := KERNEL_LDT |> |>).

Definition load_tss (d0 : seg_desc_t) : K unit :=
  let the_tss_desc := d0 <| granularity := 0 |> <| opsize := 0 |> <| sd_reserved := 0 |> <| avail := 0 |>
    <| seg_lim_19_16 := Z.land TSS_SIZE 0x000F0000 mod 16 |> <| sd_present := 1 |> <| sd_dpl := 0 |> <| sd_sys := 0 |>
    <| sd_type := 9 |> <| seg_lim_15_00 := u16 (Z.land TSS_SIZE 0x0000FFFF) |> in
  let the_tss_desc := SET_TSS_PARAMS the_tss_desc addr_tss tss_size in
  modify (fun m => m <| tss_desc_ptr := the_tss_desc |>);;
  modify (fun m => m <| tss ::= fun t => t <| ldt_segment_selector := KERNEL_LDT |> |>);;
  modify (fun m => m <| tss ::= fun t => t <| ss0 := KERNEL_DS |> |>);;
  modify (fun m => m <| tss ::= fun t => t <| esp0 := 0x800000 |> |>);;
  modify (fun m => m <| cpu ::= fun c => c <| tr := KERNEL_TSS |> |>).

Definition entry (magic addr : Z) : K unit :=
  clear;;
  if negb (magic =? MULTIBOOT_BOOTLOADER_MAGIC) then printfn "Invalid magic number: 0x%#x" [PInt magic]
  else
    boot_lines addr;;
    boot_modules addr;;
    b4 ← flag addr 4;
    both ← (if b4 : bool then flag addr 5 else mret false);
    if both : bool then printfn "Both bits 4 and 5 are set." []
    else
      boot_elf addr;;
      boot_mmap addr;;
      load_ldt zero_seg_desc;;
      load_tss zero_seg_desc;;
      i8259_init;;
      init_keyboard;;
      sti;;
      init_paging;;
      init_terminals;;
      raise Halted.

(** [boot.S]: the table, a stack, the two arguments, and [entry]; the loop on [hlt]
    behind it. *)
Definition start (magic addr : Z) : K unit :=
  cli;;
  init_idt;;
  modify (fun m => m <| cpu ::= fun c => c <| cpu_esp := 0x800000 |> |>);;
  push 2;;
  push 1;;
  entry magic addr;;
  raise Halted.
End Entry.

(** * The segments *)

Section Segments.
Context `{Linker}.

Definition segments (m : machine) : machine :=
  let l := SET_LDT_PARAMS (SegDesc 0 0 0 2 0 0 1 0 0 0 1 0 0) addr_ldt ldt_size in
  let t := SET_TSS_PARAMS (SegDesc 0 0 0 9 0 0 1 0 0 0 0 0 0) addr_tss tss_size in
  m <| ldt_desc_ptr := l |> <| tss_desc_ptr := t |> <| tss := Tss 0x800000 KERNEL_DS KERNEL_LDT |>
    <| cpu ::= fun c => c <| ldtr := KERNEL_LDT |> <| tr := KERNEL_TSS |> |>.

Lemma load_run d d' m : (load_ldt d;; load_tss d') m = (Ok tt, segments m).
Proof. unfold load_ldt, load_tss. mrun. by destruct m as [? ? ? ? ? ? ? ? ? ? ? ? ? ? ? ? [] ? ? ?], d, d'. Qed.
End Segments.

(** C29. The two descriptors that [entry] builds, whatever the stack held before: the
    processor reads the addresses of the TSS and of the LDT, limits one less than
    their sizes (104 and 32 bytes), present system segments of privilege 0, an
    available 32-bit TSS and an LDT; the selectors are loaded, and a trap from a
    program finds the stack at 0x800000 until one is started. *)
Theorem segments_loaded `{Linker} (d d' : seg_desc_t) (m : machine) :
  0 <= addr_tss < 4294967296 -> 0 <= addr_ldt < 4294967296 ->
  exists m', (load_ldt d;; load_tss d') m = (Ok tt, m') /\
    seg_base (seg_bytes (tss_desc_ptr m')) = addr_tss /\ seg_limit (seg_bytes (tss_desc_ptr m')) = TSS_SIZE - 1 /\
    seg_access (seg_bytes (tss_desc_ptr m')) = 0x89 /\
    seg_base (seg_bytes (ldt_desc_ptr m')) = addr_ldt /\ seg_limit (seg_bytes (ldt_desc_ptr m')) = 31 /\
    seg_access (seg_bytes (ldt_desc_ptr m')) = 0x82 /\
    tr (cpu m') = KERNEL_TSS /\ ldtr (cpu m') = KERNEL_LDT /\ tss m' = Tss 0x800000 KERNEL_DS KERNEL_LDT.
Proof.
  intros Ht Hl. exists (segments m). split; [apply load_run|].
  change (tss_desc_ptr (segments m)) with (SET_LDT_PARAMS (SegDesc 0 0 0 9 0 0 1 0 0 0 0 0 0) addr_tss tss_size).
  change (ldt_desc_ptr (segments m)) with (SET_LDT_PARAMS (SegDesc 0 0 0 2 0 0 1 0 0 0 1 0 0) addr_ldt ldt_size).
  destruct (set_params_read (SegDesc 0 0 0 9 0 0 1 0 0 0 0 0 0) addr_tss tss_size) as (_ & -> & -> & -> & _);
    [unfold seg_fits; cbn; lia|done|].
  destruct (set_params_read (SegDesc 0 0 0 2 0 0 1 0 0 0 1 0 0) addr_ldt ldt_size) as (_ & -> & -> & -> & _);
    [unfold seg_fits; cbn; lia|done|].
  repeat split.
Qed.

Lemma segments_loaded_witness : let L := Build_Linker 0x414000 0x414080 in
  exists m', (load_ldt zero_seg_desc;; load_tss zero_seg_desc) boot_machine = (Ok tt, m') /\
    seg_base (seg_bytes (tss_desc_ptr m')) = 0x414000.
Proof.
  intros L. destruct (segments_loaded zero_seg_desc zero_seg_desc boot_machine) as (m' & E & Hb & _).
  - cbn. lia.
  - cbn. lia.
  - exists m'. split; [exact E|exact Hb].
Defined.

(** * What is printed *)

Section Told.
Context `{Platform}.

(** Only the screen has changed, and it shows something. *)
Definition told (m m' : machine) : Prop := screen_only VIDEO m m' /\ exists con, shows VIDEO m' con.

Lemma told_trans m m1 m2 : told m m1 -> told m1 m2 -> told m m2.
Proof. intros [H1 _] [H2 Hc]. split; [by eapply screen_only_trans|done]. Qed.

Lemma told_ret m m' : told m m' -> exists m2, (mret tt : K unit) m' = (Ok tt, m2) /\ told m m2.
Proof. intros Ht. by exists m'. Qed.

(** A format prints when its conversions find arguments of their kinds. *)
Fixpoint fmt_ok (format : list Z) (conv : bool) (args : list sarg) : bool :=
  match format with
  | [] => negb conv
  | c :: format =>
      if conv then
        if c =? 35 then fmt_ok format true args
        else if c =? 37 then fmt_ok format false args
        else if (c =? 120) || (c =? 117) || (c =? 100) || (c =? 99) then
          match args with SInt _ :: args => fmt_ok format false args | _ => false end
        else if c =? 115 then match args with SStr _ :: args => fmt_ok format false args | _ => false end
        else fmt_ok format false args
      else if c =? 37 then fmt_ok format true args else fmt_ok format false args
  end.

Lemma render_total format : forall conv args,
  fmt_ok format (match conv with Some _ => true | None => false end) args = true ->
  exists txt, render format conv args = Some txt.
Proof.
  induction format as [|c format IH]; intros conv args Hf; cbn [fmt_ok render] in *.
  { destruct conv; [done|]. by exists []. }
  destruct conv as [alt|].
  - destruct (c =? 35); [by apply (IH (Some 1))|]. unfold conv_text.
    destruct (c =? 37); [|destruct (c =? 120); [|destruct (c =? 117); [|destruct (c =? 100); [|destruct (c =? 99);
      [|destruct (c =? 115)]]]]]; cbn [orb] in Hf.
    2-6: destruct args as [|[v|l] args]; try done.
    all: cbn [mbind option_bind]; destruct (IH None _ Hf) as [txt ->]; by eexists.
  - destruct (c =? 37); [by apply (IH (Some 0))|]. destruct (IH None _ Hf) as [txt ->]. by eexists.
Qed.

Lemma printf_told fmt args m m1 :
  told m m1 -> is_string fmt -> Forall sarg_ok args -> fmt_ok fmt false args = true ->
  exists m2, printf fmt (to_parg <$> args) m1 = (Ok (Z.of_nat (length fmt)), m2) /\ told m m2.
Proof.
  intros [Hs [con Hc]] Hf Ha Hok. destruct (render_total fmt None args Hok) as [txt Hr].
  destruct (printf_ok VIDEO fmt None args txt m1 con Hc Hf Ha Hr) as (m2 & E & Hc2 & Hs2).
  exists m2. split; [unfold printf; by go E|]. split; [by eapply screen_only_trans|by eexists].
Qed.

(** Memory that the screen is not part of. *)
Definition apart (a n : Z) : Prop := 0 <= a /\ a + n <= 4294967296 /\ (a + n <= VIDEO \/ VIDEO + 4000 <= a).

Lemma plain_loc m a : paging_on (pg m) = false -> loc m a = Some a.
Proof. intros Hp. cbn [loc machine_memory]. unfold translate. by rewrite Hp. Qed.

Lemma told_pg m m' : told m m' -> pg m' = pg m.
Proof. intros [Hs _]. by rewrite (so_fields _ _ _ Hs). Qed.

Lemma told_cell m m' a : told m m' -> ~ VIDEO <= a < VIDEO + 4000 -> cell m' a = cell m a.
Proof. intros [Hs _] Ha. apply (so_cells _ _ _ Hs). intros (i & Hi & ->). lia. Qed.

Lemma load32_plain m a :
  paging_on (pg m) = false -> 0 <= a -> a + 4 <= 4294967296 -> load32 a m = (Ok (cell32 m a), m).
Proof.
  intros Hp Ha Hb. pose proof (load32_maps m a a 4 0) as E. rewrite Z.add_0_r in E. apply E; [|lia|lia].
  intros i Hi. rewrite u32_small by lia. by apply plain_loc.
Qed.

(** A field of what the boot loader passed. *)
Lemma load32_told m m' a :
  paging_on (pg m) = false -> told m m' -> apart a 4 -> load32 a m' = (Ok (cell32 m a), m').
Proof.
  intros Hp Ht (Ha & Hb & Hv). rewrite load32_plain by (first [by rewrite (told_pg _ _ Ht)|lia]).
  unfold cell32. by rewrite !(told_cell m m') by (first [done|lia]).
Qed.

(** And any other word or byte. *)
Lemma load8_any m a : paging_on (pg m) = false -> exists v, load8 a m = (Ok v, m).
Proof. intros Hp. unfold load8. rewrite plain_loc by done. by eexists. Qed.

Lemma load32_any m a : paging_on (pg m) = false -> exists v, load32 a m = (Ok v, m).
Proof.
  intros Hp. unfold load32. destruct (load8_any m a Hp) as [v0 E0], (load8_any m (a + 1) Hp) as [v1 E1],
    (load8_any m (a + 2) Hp) as [v2 E2], (load8_any m (a + 3) Hp) as [v3 E3]. go E0. go E1. go E2. go E3. by eexists.
Qed.
End Told.

(** * Code that only prints *)

Section Tells.
Context `{Platform}.

(** [k], run when only the screen has changed since [m], changes no more. *)
Definition tells (m : machine) (k : K unit) : Prop :=
  forall m1, told m m1 -> exists m2, k m1 = (Ok tt, m2) /\ told m m2.

Lemma tells_ret m : tells m (mret tt).
Proof. intros m1 Ht. by exists m1. Qed.

Lemma tells_seq m (k1 k2 : K unit) : tells m k1 -> tells m k2 -> tells m (k1;; k2).
Proof. intros H1 H2 m1 Ht. destruct (H1 m1 Ht) as (m2 & E & Ht2). destruct (H2 m2 Ht2) as (m3 & E3 & Ht3). exists m3. by go E. Qed.

Lemma tells_if m (b : bool) (k1 k2 : K unit) : (b = true -> tells m k1) -> (b = false -> tells m k2) -> tells m (if b then k1 else k2).
Proof. destruct b; auto. Qed.

Lemma tells_printf m fmt args :
  is_string fmt -> Forall sarg_ok args -> fmt_ok fmt false args = true -> tells m (printf fmt (to_parg <$> args);; mret tt).
Proof.
  intros Hf Ha Hok m1 Ht. destruct (printf_told fmt args m m1 Ht Hf Ha Hok) as (m2 & E & Ht2). exists m2. by go E.
Qed.

Lemma tells_line m s args :
  is_string (text s) -> Forall sarg_ok args -> fmt_ok (text s ++ [10]) false args = true -> tells m (printfn s (to_parg <$> args)).
Proof.
  intros Hf Ha Hok. apply tells_printf; [|done|done]. apply Forall_app. split; [exact Hf|]. by repeat constructor.
Qed.

Context (m : machine) (Hplain : paging_on (pg m) = false).

Lemma tells_load a (k : Z -> K unit) : apart a 4 -> tells m (k (cell32 m a)) -> tells m (v ← load32 a; k v).
Proof.
  intros Ha Hk m1 Ht. destruct (Hk m1 Ht) as (m2 & E & Ht2). exists m2. split; [|done].
  go (load32_told m m1 a Hplain Ht Ha). exact E.
Qed.

Lemma tells_any a (k : Z -> K unit) : (forall v, tells m (k v)) -> tells m (v ← load32 a; k v).
Proof.
  intros Hk m1 Ht. destruct (load32_any m1 a) as [v Ev]; [by rewrite (told_pg _ _ Ht)|].
  destruct (Hk v m1 Ht) as (m2 & E & Ht2). exists m2. split; [|done]. by go Ev.
Qed.

Lemma tells_any8 a (k : Z -> K unit) : (forall v, tells m (k v)) -> tells m (v ← load8 a; k v).
Proof.
  intros Hk m1 Ht. destruct (load8_any m1 a) as [v Ev]; [by rewrite (told_pg _ _ Ht)|].
  destruct (Hk v m1 Ht) as (m2 & E & Ht2). exists m2. split; [|done]. by go Ev.
Qed.

Lemma check_flag f b : 0 <= b -> truth (CHECK_FLAG f b) = Z.testbit f b.
Proof.
  intros Hb. unfold truth, CHECK_FLAG. destruct (Z.testbit f b) eqn:Eb.
  - apply negb_true_iff, Z.eqb_neq. intros Hz. assert (Z.testbit (Z.land f (Z.shiftl 1 b)) b = true) as Ht.
    { rewrite Z.land_spec, Eb, Z.shiftl_spec, Z.sub_diag by done. done. }
    by rewrite Hz, Z.bits_0 in Ht.
  - apply negb_false_iff, Z.eqb_eq, Z.bits_inj'. intros j Hj. rewrite Z.land_spec, Z.bits_0, Z.shiftl_spec by done.
    destruct (Z.eqb_spec j b) as [->|Hne]; [by rewrite Eb|].
    rewrite andb_false_iff. right. destruct (Z.lt_ge_cases j b); [by rewrite Z.testbit_neg_r by lia|].
    change 1 with (Z.ones 1). rewrite Z.ones_spec_high by lia. done.
Qed.

Lemma flag_run m1 addr b : told m m1 -> apart addr 4 -> 0 <= b -> flag addr b m1 = (Ok (Z.testbit (cell32 m addr) b), m1).
Proof.
  intros Ht Ha Hb. unfold flag, mbi_flags. rewrite Z.add_0_r. go (load32_told m m1 addr Hplain Ht Ha). by rewrite check_flag.
Qed.

Lemma tells_flag addr b (k : bool -> K unit) :
  apart addr 4 -> 0 <= b -> tells m (k (Z.testbit (cell32 m addr) b)) -> tells m (v ← flag addr b; k v).
Proof.
  intros Ha Hb Hk m1 Ht. destruct (Hk m1 Ht) as (m2 & E & Ht2). exists m2. split; [|done].
  by go (flag_run m1 addr b Ht Ha Hb).
Qed.

Lemma tells_range n body : 0 <= n < 4294967296 -> (forall i, tells m (body i)) -> tells m (for_range 0 n body).
Proof.
  intros Hn Hb m1 Ht. rewrite for_range_n by lia.
  destruct (for_n_ok (fun _ s => told m s) (Z.to_nat (n - 0)) 0 body m1 Ht) as (m2 & E & Ht2).
  - intros i s _ Hs. apply (Hb i s Hs).
  - by exists m2.
Qed.
End Tells.

(** * What the boot loader passed *)

Section Info.
Context `{Platform}.

Definition field (m : machine) (addr off : Z) : Z := cell32 m (addr + off).
Definition flag_set (m : machine) (addr b : Z) : bool := Z.testbit (cell32 m addr) b.

(** The places where the memory map has an entry. *)
Definition mmap_limit (m : machine) (addr : Z) : Z := u32 (field m addr mbi_mmap_addr + field m addr mbi_mmap_length).
Inductive mmap_at (m : machine) (addr : Z) : Z -> Prop :=
  | mmap_first : mmap_at m addr (field m addr mbi_mmap_addr)
  | mmap_next a : mmap_at m addr a -> a < mmap_limit m addr -> mmap_at m addr (u32 (a + cell32 m a + 4)).

(** The information and what it points to keep clear of the video memory; the
    command line is a string; the memory map moves on and ends. *)
Record info_ok (m : machine) (addr : Z) : Prop := {
  in_plain : paging_on (pg m) = false;
  in_video : maps m VIDEO VIDEO 4000;
  in_apart : apart addr 52;
  in_cmdline : flag_set m addr 2 = true -> exists l, is_string l /\ Z.of_nat (length l) < 2147483648 /\
    let a := field m addr mbi_cmdline in apart a (Z.of_nat (length l) + 1) /\ cells m a (S (length l)) = l ++ [0];
  in_module : apart (field m addr mbi_mods_addr) 4;
  in_count : field m addr mbi_mods_count < 2147483648;
  in_mmap : flag_set m addr 6 = true -> forall a, mmap_at m addr a -> a < mmap_limit m addr ->
    apart a 4 /\ a + cell32 m a + 4 < 4294967296
}.

Lemma apart_field addr off : apart addr 52 -> 0 <= off <= 48 -> apart (addr + off) 4.
Proof. unfold apart. lia. Qed.

Lemma apart_flags addr : apart addr 52 -> apart addr 4.
Proof. unfold apart. lia. Qed.

Section Lines.
Variables (m : machine) (addr : Z).
Hypothesis info : info_ok m addr.

Let plain := in_plain m addr info.
Let clear_of := in_apart m addr info.

Ltac ints args :=
  lazymatch args with
  | [] => constr:(@nil sarg)
  | PInt ?v :: ?l => let r := ints l in constr:(SInt v :: r)
  end.

(** One step of code that only prints. *)
Ltac says :=
  lazymatch goal with
  | |- tells _ (mret _) => apply tells_ret
  | |- tells _ (for_range _ _ _) => apply tells_range; [lia|intros ?; cbv beta]
  | |- tells _ (mbind _ (flag _ _)) => apply tells_flag; [exact plain|apply apart_flags, clear_of|lia|]
  | |- tells _ (mbind _ (load32 _)) =>
      first [apply tells_load; [exact plain|apply (apart_field addr _ clear_of); by cbv|]|apply tells_any; [exact plain|intros ?]]
  | |- tells _ (mbind _ (load8 _)) => apply tells_any8; [exact plain|intros ?]
  | |- tells _ (if _ then _ else _) => apply tells_if; intros ?
  | |- tells _ (printfn ?s ?args) =>
      let l := ints args in apply (tells_line m s l); [by repeat constructor|by repeat constructor|reflexivity]
  | |- tells _ (mbind _ (printf ?s ?args)) =>
      let l := ints args in apply (tells_printf m s l); [by repeat constructor|by repeat constructor|reflexivity]
  | |- tells _ (mbind _ _) => apply tells_seq
  end; cbv beta.

Lemma tells_module n a : tells m (print_module n a).
Proof. unfold print_module. repeat says. Qed.

Lemma tells_mmap_entry a : tells m (print_mmap_entry a).
Proof. unfold print_mmap_entry. repeat says. Qed.

Lemma tells_elf : tells m (boot_elf addr).
Proof. unfold boot_elf. repeat says. Qed.

(** A string in memory stays as it is. *)
Lemma told_string m1 a l :
  told m m1 -> apart a (Z.of_nat (length l) + 1) -> cells m a (S (length l)) = l ++ [0] ->
  stable_string VIDEO m1 (Raw a) l.
Proof.
  intros Ht (Ha & Hb & Hv) Hc m2 Hs. assert (screen_only VIDEO m m2) as Hs2 by (eapply screen_only_trans; [apply Ht|exact Hs]).
  rewrite <- Hc. rewrite (cells_ext m2 m).
  - apply reads_maps. intros i Hi. rewrite u32_small by lia. apply plain_loc. by rewrite (so_fields _ _ _ Hs2).
  - intros q Hq. symmetry. apply (so_cells _ _ _ Hs2). intros (i & Hi & ->). lia.
Qed.

(** The command line. *)
Lemma tells_cmdline a l :
  is_string l -> Z.of_nat (length l) < 2147483648 -> apart a (Z.of_nat (length l) + 1) ->
  cells m a (S (length l)) = l ++ [0] -> tells m (printfn "cmdline = %s" [PPtr (Raw a)]).
Proof.
  intros Hl Hlen Ha Hc m1 Ht. pose proof (told_string m1 a l Ht Ha Hc) as Hst. destruct Ht as [Hs [con Hcon]].
  unfold printfn, printf. set (pre := text "cmdline = "). change (text "cmdline = %s" ++ [10]) with (pre ++ [37; 115] ++ [10]).
  destruct (printf_string VIDEO pre (Raw a) l [10] [] [10] m1 con Hcon) as (m2 & E2 & Hcon2 & Hs2);
    [by apply (bool_decide_unpack _)|exact Hst|exact Hl|exact Hlen
    |by repeat constructor|constructor|reflexivity|].
  cbn [fmap list_fmap] in E2. exists m2. split; [by go E2|]. split; [by eapply screen_only_trans|by eexists].
Qed.

Lemma tells_lines : tells m (boot_lines addr).
Proof.
  unfold boot_lines. replace (addr + mbi_flags) with addr by (unfold mbi_flags; lia).
  apply tells_load; [exact plain|apply apart_flags, clear_of|].
  apply tells_seq; [says|]. says. apply tells_seq; [repeat says|]. says. apply tells_seq; [repeat says|]. says.
  apply tells_if; intros Hb; [|apply tells_ret].
  destruct (in_cmdline m addr info Hb) as (l & Hl & Hlen & Ha & Hc).
  apply tells_load; [exact plain|by apply apart_field|]. by apply (tells_cmdline _ l).
Qed.

(** The loop over the modules. *)
Lemma tells_modules first : tells m (print_modules addr first).
Proof.
  intros m1 Ht. unfold print_modules. pose proof (in_count m addr info) as Hn.
  destruct (while_inv (fun '(i, _) t => 0 <= i <= Z.max 0 (field m addr mbi_mods_count) /\ told m t) (fun _ t => told m t)
    (fun '(i, _) => Z.to_nat (field m addr mbi_mods_count - i))
    (fun '(mod_count, mod_) =>
      n ← load32 (addr + mbi_mods_count);
      if u32 mod_count <? n then
        print_module mod_count mod_;;
        mret (inl (i32 (mod_count + 1), u32 (mod_ + sizeof_module_t)))
      else mret (inr tt)) (0, first) m1) as ([] & m2 & E & Ht2); [split; [lia|done]| |lia|by exists m2].
  intros [i a] t (Hi & Hti). go (load32_told m t (addr + mbi_mods_count) plain Hti) by (by apply apart_field).
  fold (field m addr mbi_mods_count). rewrite u32_small by lia. destruct (Z.ltb_spec i (field m addr mbi_mods_count)) as [Hlt|Hge].
  - right. destruct (tells_module i a t Hti) as (t2 & E & Ht2). go E. eexists _, t2. split; [done|].
    rewrite i32_small by lia. split; [split; [lia|done]|lia].
  - left. by exists tt, t.
Qed.

(** The loop over the memory map. *)
Lemma tells_mmap : tells m (boot_mmap addr).
Proof.
  unfold boot_mmap. says. apply tells_if; intros Hb; [|apply tells_ret]. says. says. apply tells_seq; [says|].
  intros m1 Ht. unfold print_mmap. go (load32_told m m1 (addr + mbi_mmap_addr) plain Ht) by (by apply apart_field).
  pose proof (in_mmap m addr info Hb) as Hmap. set (lim := mmap_limit m addr) in *.
  destruct (while_inv (fun a t => mmap_at m addr a /\ told m t) (fun _ t => told m t) (fun a => Z.to_nat (lim - a))
    (fun mmap =>
      a ← load32 (addr + mbi_mmap_addr); n ← load32 (addr + mbi_mmap_length);
      if mmap <? u32 (a + n) then
        print_mmap_entry mmap;;
        size ← load32 (mmap + mmap_size);
        mret (inl (u32 (mmap + size + 4)))
      else mret (inr tt)) (cell32 m (addr + mbi_mmap_addr)) m1) as ([] & m2 & E & Ht2); [split; [apply mmap_first|done]| | |by exists m2].
  - intros a t (Ha & Hta). go (load32_told m t (addr + mbi_mmap_addr) plain Hta) by (by apply apart_field).
    go (load32_told m t (addr + mbi_mmap_length) plain Hta) by (by apply apart_field).
    change (u32 (cell32 m (addr + mbi_mmap_addr) + cell32 m (addr + mbi_mmap_length))) with lim.
    destruct (Z.ltb_spec a lim) as [Hlt|Hge]; [|left; by exists tt, t]. right.
    destruct (Hmap a Ha Hlt) as [Hap Hnext]. destruct (tells_mmap_entry a t Hta) as (t2 & E & Ht2). go E.
    unfold mmap_size. rewrite Z.add_0_r. go (load32_told m t2 a plain Ht2 Hap). eexists _, t2. split; [done|].
    split; [split; [by apply mmap_next|done]|]. pose proof (cell32_range m a). destruct Hap. rewrite u32_small by lia. lia.
  - pose proof (u32_range (field m addr mbi_mmap_addr + field m addr mbi_mmap_length)).
    pose proof (cell32_range m (addr + mbi_mmap_addr)). unfold lim, mmap_limit. lia.
Qed.
End Lines.
End Info.

(** * Booting *)

Section Boot.
Context `{PlatformOk} `{Linker}.

(** The file system as it will be found in the first module, at [base]. *)
Definition with_rofs (m : machine) (base : Z) (img : image) : machine :=
  m <| fs := Rofs base (base + 4096) (base + 4096 + 4096 * Z.of_nat (length (im_files img))) |>.

Definition module_base (m : machine) (addr : Z) : Z := field m (field m addr mbi_mods_addr) mod_start.

(** The machine as the boot loader leaves it, with the address of the information:
    the first module is a file system image in the 4 MB of the kernel. *)
Record bootable (m : machine) (addr size : Z) (img : image) : Prop := {
  bo_info : info_ok m addr;
  bo_module : flag_set m addr 3 = true;
  bo_not_both : flag_set m addr 4 && flag_set m addr 5 = false;
  bo_place : 0x400000 <= module_base m addr /\ module_base m addr + size <= 0x800000;
  bo_image : represents (module_base m addr) size img (with_rofs m (module_base m addr) img);
  bo_tables : tables_ok (tabs (pg m));
  bo_pic : pic_ok (pic m);
  bo_blocks : pcbs m = ∅;
  bo_terminals : length (terminal m) = 3%nat;
  bo_buffers : Forall (fun t => length (t_key_buffer t) = 128%nat) (terminal m);
  bo_flags : processes_flags m = 0
}.

(** What the devices and the descriptors leave alone. *)
Record keeps (m m' : machine) : Prop := {
  ke_phys : phys m' = phys m;
  ke_fs : fs m' = fs m;
  ke_pg : pg m' = pg m;
  ke_pcbs : pcbs m' = pcbs m;
  ke_terminal : terminal m' = terminal m;
  ke_flags : processes_flags m' = processes_flags m
}.

Lemma keeps_trans m m1 m2 : keeps m m1 -> keeps m1 m2 -> keeps m m2.
Proof. intros [] []. split; congruence. Qed.

(** The devices, up to interrupts being on. *)
Lemma devices_ok m :
  pic_ok (pic m) -> exists m', (i8259_init;; init_keyboard;; sti) m = (Ok tt, m') /\ keeps m m'.
Proof.
  intros Hp. destruct (i8259_init_ok m Hp) as (m1 & E1 & Hp1 & _ & Hm1). go E1.
  unfold init_keyboard, set_key_buffer_pos, cli, sti. rewrite !bind_assoc. mrun. rewrite ?bind_assoc.
  match goal with |- context [enable_irq _ ?mm] =>
    destruct (enable_irq_effect mm KEYBOARD_IRQ_LINE Hp1 ltac:(by cbv)) as (m2 & E2 & _ & _ & Hm2); rewrite E2 end.
  mrun. eexists. split; [reflexivity|]. apply (keeps_trans _ m1).
  - rewrite Hm1. by split.
  - apply (keeps_trans _ m2); [rewrite Hm2; by split|by split].
Qed.

(** The state in which [init_terminals] is called: printed, paged. *)
Lemma paged_ready m m' m1 addr size img t :
  bootable m addr size img -> told (with_rofs m (module_base m addr) img) m' -> keeps m' m1 ->
  filled (tabs (pg m)) t 1024 ->
  boot_ready (module_base m addr) size img (m1 <| pg := Paging (initial_tables t) (initial_tables t) true |>).
Proof.
  intros [Hinfo _ _ [Hlo Hhi] Himg _ _ Hpcb Hterm Hbuf Hfl] Ht [K1 K2 K3 K4 K5 K6] Hf.
  set (base := module_base m addr) in *. set (M := m1 <| pg := _ |>).
  pose proof (so_fields _ _ _ (proj1 Ht)) as Hm'.
  assert (paging_ok M) as Hok by (split; [apply initial_tables_ok, Hf|done]).
  assert (forall a, 0 <= a < 4294967296 -> (0xB8000 <= a < 0xB9000 \/ 0x400000 <= a < 0x800000) -> loc M a = Some a) as Hloc.
  { intros a Ha Hr. cbn [loc machine_memory]. rewrite translate_ok by done. change (tabs (pg M)) with (initial_tables t).
    rewrite (walk_initial (tabs (pg m))) by done. destruct Hr; by zb. }
  assert (forall q, ~ VIDEO <= q < VIDEO + 4000 -> cell M q = cell m q) as Hcell.
  { intros q Hq. transitivity (cell m' q); [|exact (told_cell _ _ q Ht Hq)].
    cbn [cell machine_memory]. change (phys M) with (phys m1). by rewrite K1. }
  assert (fs M = Rofs base (base + 4096) (base + 4096 + 4096 * Z.of_nat (length (im_files img)))) as Hfs.
  { change (fs M) with (fs m1). by rewrite K2, Hm'. }
  split.
  - exact Hok.
  - exact (initial_unused M (tabs (pg m)) t Hf eq_refl).
  - intros i Hi. unfold VIDEO in *. rewrite u32_small by lia. apply Hloc; lia.
  - apply (represents_frame base size img (with_rofs m base img)); [|exact Hfs| |exact Himg].
    + intros i Hi. change (boot_block (fs (with_rofs m base img))) with base. rewrite u32_small by lia. apply Hloc; lia.
    + intros q Hq. rewrite (Hcell q); [done|]. unfold VIDEO. lia.
  - rewrite Hfs. unfold TERM_MEM. cbn [boot_block]. lia.
  - split; [unfold VIDEO; lia|unfold page_of, TERM_1_MEM, FOUR_KB; lia].
  - intros n Hn. split; [rewrite Hfs; left; cbn [boot_block]; unfold VIRTUAL_START; lia|].
    left. unfold window, PHYSICAL_START, FOUR_MB_BLOCK. lia.
  - intros n Hn. destruct (get_pcb_range n Hn) as [_ Hp]. split; [eexists; apply Hloc; lia|].
    unfold pcb_of. change (pcbs M) with (pcbs m1). rewrite K4, Hm'. change (pcbs _) with (pcbs m). rewrite Hpcb. by split.
  - change (terminal M) with (terminal m1). by rewrite K5, Hm'.
  - change (terminal M) with (terminal m1). by rewrite K5, Hm'.
  - change (processes_flags M) with (processes_flags m1). by rewrite K6, Hm'.
Qed.
End Boot.

Section Run.
Context `{PlatformOk} `{HandlersOk} `{Linker}.

Lemma info_ok_frame m m' addr : phys m' = phys m -> pg m' = pg m -> info_ok m addr -> info_ok m' addr.
Proof.
  intros Hph Hpg [I1 I2 I3 I4 I5 I6 I7].
  assert (forall a, cell m' a = cell m a) as Hc by (intros a; cbn [cell machine_memory]; by rewrite Hph).
  assert (forall a, cell32 m' a = cell32 m a) as Hc4 by (intros a; unfold cell32; by rewrite !Hc).
  assert (forall a, field m' addr a = field m addr a) as Hfd by (intros a; apply Hc4).
  assert (mmap_limit m' addr = mmap_limit m addr) as Hlim by (unfold mmap_limit; by rewrite !Hfd).
  assert (forall a, mmap_at m' addr a -> mmap_at m addr a) as Hat.
  { intros a. induction 1 as [|a Ha IH Hlt]; [rewrite Hfd; apply mmap_first|rewrite Hc4; apply mmap_next; [done|by rewrite <- Hlim]]. }
  split; rewrite ?Hpg, ?Hfd; try done.
  - intros i Hi. rewrite plain_loc by (by rewrite Hpg). rewrite <- (I2 i Hi), plain_loc by done. done.
  - unfold flag_set. rewrite Hc4. intros Hb. destruct (I4 Hb) as (l & Hl & Hlen & Ha & Hcs). exists l.
    split; [done|]. split; [done|]. cbv zeta. split; [done|]. rewrite <- Hcs. apply cells_ext. intros q _. apply Hc.
  - unfold flag_set. rewrite Hc4. intros Hb a Ha. rewrite Hlim, Hc4. intros Hlt. by apply (I7 Hb); [apply Hat|].
Qed.

(** Setting up the file system while the screen shows something. *)
Lemma modules_ok m m1 addr size img :
  bootable m addr size img -> told m m1 ->
  exists m2, boot_modules addr m1 = (Ok tt, m2) /\ told (with_rofs m (module_base m addr) img) m2.
Proof.
  intros Hb Ht. pose proof (bo_info _ _ _ _ Hb) as Hi. pose proof (in_plain _ _ Hi) as Hp. pose proof (in_apart _ _ Hi) as Hap.
  pose proof (in_module _ _ Hi) as Hmod. destruct (bo_place _ _ _ _ Hb) as [Hlo Hhi]. set (base := module_base m addr) in *.
  unfold boot_modules. go (flag_run m Hp m1 addr 3 Ht) by (first [by apply apart_flags|lia]).
  change (Z.testbit (cell32 m addr) 3) with (flag_set m addr 3). rewrite (bo_module _ _ _ _ Hb).
  go (load32_told m m1 (addr + mbi_mods_addr) Hp Ht) by (by apply apart_field). fold (field m addr mbi_mods_addr).
  destruct (printf_told (text "Initing Read Only File System... ") [] m m1 Ht) as (m2 & E2 & Ht2); [by repeat constructor|constructor|reflexivity|].
  change (to_parg <$> []) with ([] : list parg) in E2. go E2.
  rewrite bind_run, (load32_told m m2 _ Hp Ht2) by (unfold mod_start; by rewrite Z.add_0_r). cbv beta iota.
  change (cell32 m (field m addr mbi_mods_addr + mod_start)) with base.
  assert (represents base size img (with_rofs m2 base img)) as Hrep.
  { apply (represents_frame base size img (with_rofs m base img)); [|done| |exact (bo_image _ _ _ _ Hb)].
    - intros i Hi'. change (boot_block (fs (with_rofs m base img))) with base. rewrite u32_small by lia.
      apply plain_loc. change (pg (with_rofs m2 base img)) with (pg m2). by rewrite (told_pg _ _ Ht2).
    - intros q Hq. apply (told_cell m m2 q Ht2). unfold VIDEO. lia. }
  pose proof (rep_size _ _ _ _ Hrep) as Hsz. pose proof (init_rofs_represents m2 base base size img ltac:(lia) Hrep) as E3. go E3. clear E3.
  change (m2 <| fs := _ |>) with (with_rofs m2 base img).
  assert (told (with_rofs m base img) (with_rofs m2 base img)) as Ht3.
  { destruct Ht2 as [[Hf Hc Hl] [con [S1 S2 S3 S4 S5]]]. split; [|exists con; by split].
    split; [rewrite Hf at 1; by destruct m|exact Hc|exact Hl]. }
  assert (info_ok (with_rofs m base img) addr) as Hi' by (by apply (info_ok_frame m)).
  destruct (tells_line (with_rofs m base img) "Done!" [] ltac:(by repeat constructor) ltac:(constructor) eq_refl _ Ht3) as (m4 & E4 & Ht4).
  change (to_parg <$> []) with ([] : list parg) in E4. go E4.
  exact (tells_modules (with_rofs m base img) addr Hi' _ _ Ht4).
Qed.

Lemma bootable_idt m l f addr size img : bootable m addr size img -> bootable (m <| idt := l |> <| cpu ::= f |>) addr size img.
Proof.
  intros []. split; try done; [by apply (info_ok_frame m)|].
  change (module_base (m <| idt := l |> <| cpu ::= f |>) addr) with (module_base m addr).
  by apply (represents_frame _ size img (with_rofs m (module_base m addr) img)); [apply bo_image0| | |].
Qed.

(** From the first byte printed to the devices. *)
Lemma printing_ok m addr size img :
  bootable m addr size img ->
  exists m2, entry MULTIBOOT_BOOTLOADER_MAGIC addr m =
    (load_ldt zero_seg_desc;; load_tss zero_seg_desc;; i8259_init;; init_keyboard;; sti;; init_paging;; init_terminals;; raise Halted) m2 /\
    told (with_rofs m (module_base m addr) img) m2.
Proof.
  intros Hb. pose proof (bo_info _ _ _ _ Hb) as Hi. pose proof (in_apart _ _ Hi) as Hap.
  destruct (clear_ok VIDEO m (in_video _ _ Hi)) as (m1 & E1 & Hsh1 & Hs1).
  assert (told m m1) as Ht1 by (split; [done|by eexists]).
  destruct (tells_lines m addr Hi m1 Ht1) as (m2 & E2 & Ht2). destruct (modules_ok m m2 addr size img Hb Ht2) as (m3 & E3 & Ht3).
  set (m' := with_rofs m (module_base m addr) img) in *.
  assert (info_ok m' addr) as Hi' by (by apply (info_ok_frame m)).
  destruct (tells_elf m' addr Hi' m3 Ht3) as (m4 & E4 & Ht4). destruct (tells_mmap m' addr Hi' m4 Ht4) as (m5 & E5 & Ht5).
  exists m5. split; [|exact Ht5]. unfold entry. go E1. rewrite Z.eqb_refl. cbn [negb]. go E2. go E3.
  go (flag_run m' (in_plain _ _ Hi') m3 addr 4 Ht3) by (first [by apply apart_flags|lia]).
  change (cell32 m' addr) with (cell32 m addr). pose proof (bo_not_both _ _ _ _ Hb) as Hnb. unfold flag_set in Hnb.
  assert ((if Z.testbit (cell32 m addr) 4 then flag addr 5 else mret false) m3 = (Ok false, m3)) as E.
  { destruct (Z.testbit (cell32 m addr) 4); [|done]. cbn [andb] in Hnb.
    rewrite (flag_run m' (in_plain _ _ Hi') m3 addr 5 Ht3) by (first [by apply apart_flags|lia]).
    change (cell32 m' addr) with (cell32 m addr). by rewrite Hnb. }
  go E. go E4. go E5. reflexivity.
Qed.

Lemma keeps_segments m : keeps m (segments m).
Proof. split; reflexivity. Qed.

Lemma after_segments d d' m (k : K unit) : (load_ldt d;; load_tss d';; k) m = k (segments m).
Proof.
  transitivity (((load_ldt d;; load_tss d');; k) m); [by rewrite bind_assoc|]. by rewrite bind_run, load_run.
Qed.

Lemma after_devices m m' (k : K unit) :
  (i8259_init;; init_keyboard;; sti) m = (Ok tt, m') -> (i8259_init;; init_keyboard;; sti;; k) m = k m'.
Proof.
  intros E.
  transitivity (((i8259_init;; init_keyboard;; sti);; k) m); [|by rewrite bind_run, E].
  rewrite bind_assoc. apply bind_ext. intros _ s. by rewrite bind_assoc.
Qed.

(** And on to the shell. *)
Lemma entry_ok m addr size img sh :
  bootable m addr size img -> shell_in img sh ->
  exists m2 m', entry MULTIBOOT_BOOTLOADER_MAGIC addr m = (Stop (EnterUser (entry_point sh) USER_STACK), m') /\
    boot_ready (module_base m addr) size img m2 /\
    init_terminals m2 = (Stop (EnterUser (entry_point sh) USER_STACK), m').
Proof.
  intros Hb Hsh. destruct (printing_ok m addr size img Hb) as (m1 & E1 & Ht1).
  pose proof (so_fields _ _ _ (proj1 Ht1)) as Hm1.
  assert (pic_ok (pic (segments m1))) as Hp by (change (pic (segments m1)) with (pic m1); rewrite Hm1; apply Hb).
  destruct (devices_ok (segments m1) Hp) as (m2 & E2 & Hk2).
  pose proof (keeps_trans _ _ _ (keeps_segments m1) Hk2) as Hk.
  assert (pg m2 = pg m) as Hpg by (rewrite (ke_pg _ _ Hk), Hm1; done).
  destruct (init_paging_run m2) as (t & Hf & E3); [rewrite Hpg; apply Hb|]. rewrite Hpg in Hf.
  pose proof (paged_ready m m1 m2 addr size img t Hb Ht1 Hk Hf) as Hr.
  destruct (init_terminals_ok _ _ _ _ _ Hr Hsh) as (m' & E4 & _).
  exists (m2 <| pg := Paging (initial_tables t) (initial_tables t) true |>), m'. split; [|split; [exact Hr|exact E4]].
  rewrite E1, after_segments, (after_devices _ _ _ E2). go E3. by go E4.
Qed.
End Run.

Lemma bootable_start `{PlatformOk} m l f1 f2 f3 f4 addr size img :
  bootable m addr size img ->
  bootable ((quiet m) <| idt := l |> <| cpu ::= f1 |> <| cpu ::= f2 |> <| cpu ::= f3 |> <| cpu ::= f4 |>) addr size img.
Proof.
  intros Hb.
  assert (forall m f, bootable m addr size img -> bootable (m <| cpu ::= f |>) addr size img) as Hc.
  { intros m1 f Hb1. assert (m1 <| cpu ::= f |> = m1 <| idt := idt m1 |> <| cpu ::= f |>) as -> by (by destruct m1). by apply bootable_idt. }
  do 3 apply Hc. apply bootable_idt. by apply Hc.
Qed.

(** Eight hexadecimal digits. *)
Definition hex8 (v : Z) : list Z := let ds := numeral 16 (u32 v) in replicate (8 - length ds) 48 ++ ds.

(** C12. The kernel boots.  From the jump of the boot loader, with any command line,
    memory map, devices and contents of the stack and of the tables, and with a
    file system image that holds a shell as the first module inside the kernel's
    4 MB: every line is printed without a fault, both loops over what the boot
    loader passed end, and the processor ends in user mode at the entry point of
    the shell, with the banner alone on the screen, one process live, and
    everything the kernel later relies on in order.  With another magic number, a
    message is printed and the processor halts. *)
Theorem kernel_boots `{PlatformOk} `{HandlersOk} `{Linker} (m : machine) (magic addr size : Z) (img : image) (sh : list Z) :
  bootable m addr size img -> shell_in img sh -> length (idt m) = 256%nat ->
  if magic =? MULTIBOOT_BOOTLOADER_MAGIC then
    exists m', start magic addr m = (Stop (EnterUser (entry_point sh) USER_STACK), m') /\
      kernel_ok (module_base m addr) size img m' /\ screens_ok m' /\ term_cur m' = 1 /\ processes_flags m' = 1 /\
      shows VIDEO m' (con_puts (concat banner) con_blank)
  else
    exists m', start magic addr m = (Stop Halted, m') /\
      shows VIDEO m' (con_puts (text "Invalid magic number: 0x" ++ hex8 magic ++ [10]) (con_puts prompt con_blank)).
Proof.
  intros Hb Hsh Hidt. destruct (init_idt_run (quiet m)) as (l & E & _); [exact Hidt|].
  assert (start magic addr m = (entry magic addr;; raise Halted) ((quiet m) <| idt := l |> <| cpu ::= fun c => c <| idt_loaded := true |> |>
    <| cpu ::= fun c => c <| cpu_esp := 0x800000 |> |> <| cpu ::= fun c => c <| cpu_esp ::= fun e => u32 (e - 4 * 2) |> |>
    <| cpu ::= fun c => c <| cpu_esp ::= fun e => u32 (e - 4 * 1) |> |>)) as ->.
  { unfold start, cli, push. rewrite bind_run, modify_run. fold (quiet m). cbv beta iota. go E. rewrite bind_run. by mrun. }
  clear E. set (m0 := (quiet m) <| idt := l |> <| cpu ::= _ |> <| cpu ::= _ |> <| cpu ::= _ |> <| cpu ::= _ |>).
  assert (bootable m0 addr size img) as Hb0 by (by apply bootable_start).
  change (module_base m addr) with (module_base m0 addr). clearbody m0. clear Hb Hidt.
  destruct (Z.eqb_spec magic MULTIBOOT_BOOTLOADER_MAGIC) as [->|Hne].
  - destruct (entry_ok m0 addr size img sh Hb0 Hsh) as (m2 & m' & E1 & Hr & E2).
    destruct (init_terminals_ok _ _ _ _ _ Hr Hsh) as (m'' & E3 & Hk & Hs & Hc & Hf & _ & _ & _ & Hshows & _).
    assert (m'' = m') as -> by congruence. exists m'. split; [by go E1|]. done.
  - destruct (clear_ok VIDEO m0 (in_video _ _ (bo_info _ _ _ _ Hb0))) as (m1 & E1 & Hsh1 & _).
    destruct (printf_ok VIDEO (text "Invalid magic number: 0x%#x" ++ [10]) None [SInt magic]
      (text "Invalid magic number: 0x" ++ hex8 magic ++ [10]) m1 _ Hsh1) as (m2 & E2 & Hsh2 & _);
      [by repeat constructor|by repeat constructor|reflexivity|].
    exists m2. split; [|exact Hsh2]. unfold entry. go E1. rewrite (proj2 (Z.eqb_neq _ _)) by done. cbn [negb].
    unfold printfn, printf. change (to_parg <$> [SInt magic]) with [PInt magic] in E2. go E2. by mrun.
Qed.

(** * A machine to boot

    The information at 0x10000, one module, described at 0x10100: the image of the
    shell at 0x420000. *)

Definition multiboot_phys : gmap Z Z :=
  <[0x10000 := 8]> (<[0x10014 := 1]> (<[0x10019 := 1]> (<[0x1001A := 1]> (<[0x10102 := 0x42]> shell_phys)))).

Section Bootable.
Context `{PlatformOk}.

Definition multiboot_machine : machine := boot_machine <| phys := multiboot_phys |>.

Lemma multiboot_fields :
  cell32 multiboot_machine 0x10000 = 8 /\ field multiboot_machine 0x10000 mbi_mods_count = 1 /\
  field multiboot_machine 0x10000 mbi_mods_addr = 0x10100 /\ cell32 multiboot_machine 0x10100 = 0x420000.
Proof. vm_compute. done. Qed.

Lemma multiboot_plain a n : 0 <= a -> a + n <= 4294967296 -> maps multiboot_machine a a n.
Proof. intros Ha Hn i Hi. rewrite u32_small by lia. by apply plain_loc. Qed.

Lemma multiboot_info : info_ok multiboot_machine 0x10000.
Proof.
  destruct multiboot_fields as (F1 & F2 & F3 & F4). split; unfold flag_set; rewrite ?F1, ?F2, ?F3.
  - done.
  - apply multiboot_plain; unfold VIDEO; lia.
  - unfold apart, VIDEO. lia.
  - done.
  - unfold apart, VIDEO. lia.
  - lia.
  - done.
Qed.

Lemma multiboot_image : represents 0x420000 0x3000 shell_image (with_rofs multiboot_machine 0x420000 shell_image).
Proof.
  apply (represents_frame 0x420000 0x3000 shell_image shell_machine); [|reflexivity| |apply shell_represents].
  - exact (multiboot_plain 0x420000 0x3000 ltac:(lia) ltac:(lia)).
  - intros q Hq. cbn [cell machine_memory].
    change (phys (with_rofs multiboot_machine 0x420000 shell_image)) with multiboot_phys. change (phys shell_machine) with shell_phys.
    unfold multiboot_phys. by rewrite !lookup_insert_ne by lia.
Qed.

Lemma multiboot_bootable : bootable multiboot_machine 0x10000 0x3000 shell_image.
Proof.
  destruct multiboot_fields as (F1 & F2 & F3 & F4).
  assert (module_base multiboot_machine 0x10000 = 0x420000) as Hbase.
  { unfold module_base. rewrite F3. exact F4. }
  split.
  - exact multiboot_info.
  - unfold flag_set. rewrite F1. reflexivity.
  - unfold flag_set. rewrite F1. reflexivity.
  - rewrite Hbase. lia.
  - rewrite Hbase. exact multiboot_image.
  - repeat split; reflexivity.
  - unfold pic_ok. cbn. lia.
  - reflexivity.
  - reflexivity.
  - repeat constructor.
  - reflexivity.
Qed.
End Bootable.

Lemma kernel_boots_witness :
  let P := plain_platform in let Q := plain_handlers in let R := plain_handlers_ok in let L := Build_Linker 0x414000 0x414080 in
  (exists m', start MULTIBOOT_BOOTLOADER_MAGIC 0x10000 multiboot_machine = (Stop (EnterUser 0x8048000 USER_STACK), m') /\
    shows VIDEO m' (con_puts (concat banner) con_blank)) /\
  exists m', start 7 0x10000 multiboot_machine = (Stop Halted, m').
Proof.
  intros P Q R L. split.
  - destruct (kernel_boots multiboot_machine MULTIBOOT_BOOTLOADER_MAGIC 0x10000 0x3000 shell_image shell_file) as
      (m' & E & _ & _ & _ & _ & Hsh).
    + exact multiboot_bootable.
    + exact shell_in_image.
    + reflexivity.
    + exists m'. split; [exact E|exact Hsh].
  - destruct (kernel_boots multiboot_machine 7 0x10000 0x3000 shell_image shell_file) as (m' & E & _).
    + exact multiboot_bootable.
    + exact shell_in_image.
    + reflexivity.
    + exists m'. exact E.
Defined.
