(* ===== verification/Calls.v ===== *)
(** What a user program is written against: the wrappers of
    [syscalls/ece391syscall.S] around the trap, and what the system calls promise.

    [SysCalls T] is the trap, for a program that runs in a state of type [T];
    [SysCallsOk T] states what each call does in terms of a [view], which is what a
    program can tell about the system: its memory, its arguments, the file system,
    its descriptors, the screen and what is being typed.  The programs are proved
    against this interface; [UserMode.v] proves that the kernel implements it. *)

From S2P Require Import Prelude Memory CLib Support Machine Rofs Screen Process Handlers.

(** [ece391sysnum.h] *)
Definition SYS_HALT : Z := 1.
Definition SYS_EXECUTE : Z := 2.
Definition SYS_READ : Z := 3.
Definition SYS_WRITE : Z := 4.
Definition SYS_OPEN : Z := 5.
Definition SYS_CLOSE : Z := 6.
Definition SYS_GETARGS : Z := 7.
Definition SYS_VIDMAP : Z := 8.
Definition SYS_SET_HANDLER : Z := 9.
Definition SYS_SIGRETURN : Z := 10.

(** [int $0x80] with the number in [eax] and the arguments in [ebx], [ecx], [edx]. *)
Class SysCalls (T : Type) := { trap : Z -> Z -> Z -> Z -> M T Z }.

(** The addresses the linker gives the string literals of a program. *)
Class Literals := { lit : list Z -> Z }.

(** A literal that ends in a newline. *)
Definition line (s : string) : list Z := text s ++ [10].

Section Wrappers.
Context {T : Type} `{Memory T} `{SysCalls T}.

(** [DO_CALL]; the registers without an argument hold what the stack holds. *)
Definition DO_CALL (number a1 a2 a3 : Z) : M T Z := trap number a1 a2 a3.

Definition ece391_halt (status : Z) : M T Z := DO_CALL SYS_HALT status 0 0.
Definition ece391_execute (command : Z) : M T Z := DO_CALL SYS_EXECUTE command 0 0.
Definition ece391_read (fd buf nbytes : Z) : M T Z := DO_CALL SYS_READ fd buf nbytes.
Definition ece391_write (fd buf nbytes : Z) : M T Z := DO_CALL SYS_WRITE fd buf nbytes.
Definition ece391_open (filename : Z) : M T Z := DO_CALL SYS_OPEN filename 0 0.
Definition ece391_close (fd : Z) : M T Z := DO_CALL SYS_CLOSE fd 0 0.
Definition ece391_getargs (buf nbytes : Z) : M T Z := DO_CALL SYS_GETARGS buf nbytes 0.
Definition ece391_vidmap (screen_start : Z) : M T Z := DO_CALL SYS_VIDMAP screen_start 0 0.
Definition ece391_set_handler (signum handler : Z) : M T Z := DO_CALL SYS_SET_HANDLER signum handler 0.
Definition ece391_sigreturn : M T Z := DO_CALL SYS_SIGRETURN 0 0 0.

(** [_start]: [main], and [ece391_halt] with what it returns. *)
Definition _start (main : M T Z) : M T Z :=
  eax ← main;
  ece391_halt eax.

(** [ece391support.c] *)
Definition ece391_fdputs (fd s : Z) : M T unit :=
  n ← ece391_strlen s;
  ece391_write fd s n;;
  mret tt.
End Wrappers.

(** * What a program can tell *)

(** A descriptor: the keyboard, the screen, a file with the bytes it holds and the
    position in it, a directory with the entry to be read next. *)
Inductive stream : Type :=
  | SClosed
  | SKeys
  | SDisplay
  | SFile (c : list Z) (p : Z)
  | SDir (i : nat).

Record view := View {
  v_home : Z;               (** where its memory, from 0x8000000 on, lies *)
  v_args : list Z;          (** the words of its command line *)
  v_img : image;
  v_fds : list stream;
  v_con : console;
  v_mods : mods;            (** the modifier keys that are held *)
  v_typed : list (list Z)   (** the scancodes of the lines to come *)
}.
#[export] Instance eta_view : Eta view := fun r =>
  View (v_home r) (v_args r) (v_img r) (v_fds r) (v_con r) (v_mods r) (v_typed r).

(** The location of address [a] of a program whose memory starts at [h], the ranges
    of addresses of a program, and two states that differ in one range at most. *)
Definition at_ (h a : Z) : Z := h + (a - VIRTUAL_START).
Definition inside (a n : Z) : Prop := VIRTUAL_START <= a /\ 0 <= n /\ a + n <= VIRTUAL_END.
Definition same_but {T} `{Memory T} (h a n : Z) (t t' : T) : Prop :=
  forall q, h <= q < h + FOUR_MB_BLOCK -> ~ at_ h a <= q < at_ h a + n -> cell t' q = cell t q.

(** The lowest descriptor that can be given out. *)
#[export] Instance stream_eq_dec : EqDecision stream.
Proof. solve_decision. Defined.
Definition free_stream (l : list stream) : option nat :=
  (fun x => (x.1 + 2)%nat) <$> list_find (fun s => s = SClosed) (drop 2 l).

(** What [open] makes of an entry of the directory; the clock is left out. *)
Definition opened (img : image) (d : dentry_s) : option stream :=
  if d_type d =? dir then Some (SDir 0)
  else if d_type d =? file then (fun c => SFile c 0) <$> im_files img !! Z.to_nat (d_inode d)
  else None.

(** A directory entry whose name ends. *)
Definition name_ends (d : dentry_s) : Prop := 0 ∈ d_name d \/ d_type d < 16777216.

(** The values of an [int32_t], and the descriptors that a call refuses. *)
Definition int_range (x : Z) : Prop := -2147483648 <= x < 2147483648.
Definition refused_by (fds : list stream) (fd : Z) (P : stream -> Prop) : Prop :=
  fd < 0 \/ match fds !! Z.to_nat fd with Some s => P s | None => True end.

(** * What the calls promise *)

Class SysCallsOk (T : Type) `{Memory T} `{SysCalls T} := {
  sees : T -> view -> Prop;

  (** The memory of the program, to load from and to store to. *)
  sees_maps t v : sees t v -> maps t VIRTUAL_START (v_home v) FOUR_MB_BLOCK;
  sees_upd t v p b : sees t v -> v_home v <= p < v_home v + FOUR_MB_BLOCK -> sees (upd t p b) v;

  (** The arguments are text, of less than 128 bytes. *)
  sees_args t v : sees t v -> (length (v_args v) < 128)%nat /\ Forall arg_char (v_args v);

  (** The sizes of the file system. *)
  sees_image t v :
    sees t v -> (length (im_dentries (v_img v)) <= 63)%nat /\
    forall n c, im_files (v_img v) !! n = Some c -> Z.of_nat (length c) <= 1023 * 4096;

  (** Bytes up to a null byte are printed. *)
  write_display t v fd a n :
    sees t v -> 0 <= fd -> v_fds v !! Z.to_nat fd = Some SDisplay -> inside a n ->
    let l := cprefix (Z.to_nat n) (cells t (at_ (v_home v) a) (Z.to_nat n)) in
    exists t' v', ece391_write fd a n t = (Ok (Z.of_nat (length l)), t') /\
      sees t' v' /\ v' = v <| v_con ::= con_puts l |> /\ same_but (v_home v) a 0 t t';

  (** The arguments, padded with null bytes, 128 bytes at most. *)
  getargs_none t v a n : sees t v -> v_args v = [] -> inside a n -> ece391_getargs a n t = (Ok (-1), t);
  getargs_some t v a n :
    sees t v -> v_args v <> [] -> inside a n ->
    let k := Z.to_nat (Z.min n 128) in
    exists t', ece391_getargs a n t = (Ok 0, t') /\ sees t' v /\
      holds t' (at_ (v_home v) a) (take k (v_args v ++ replicate (128 - length (v_args v)) 0)) /\
      same_but (v_home v) a (Z.of_nat k) t t';

  (** A name that is not there, or no descriptor left. *)
  open_refuses t v a l :
    sees t v -> inside a (Z.of_nat (length l)) -> holds t (at_ (v_home v) a) l -> 0 ∈ l ->
    find_dentry (v_img v) l = None \/ free_stream (v_fds v) = None ->
    exists t', ece391_open a t = (Ok (-1), t') /\ sees t' v /\ same_but (v_home v) a 0 t t';
  open_opens t v a l d s i :
    sees t v -> inside a (Z.of_nat (length l)) -> holds t (at_ (v_home v) a) l -> 0 ∈ l ->
    find_dentry (v_img v) l = Some d -> opened (v_img v) d = Some s -> free_stream (v_fds v) = Some i ->
    exists t' v', ece391_open a t = (Ok (Z.of_nat i), t') /\
      sees t' v' /\ v' = v <| v_fds ::= <[i := s]> |> /\ same_but (v_home v) a 0 t t';

  (** The next bytes of a file, the invisible ones replaced by spaces. *)
  read_file t v fd c p a n :
    sees t v -> 0 <= fd -> v_fds v !! Z.to_nat fd = Some (SFile c p) -> inside a n ->
    let s := file_slice c p n in
    exists t' v', ece391_read fd a n t = (Ok (Z.of_nat (length s)), t') /\
      sees t' v' /\ v' = v <| v_fds ::= <[Z.to_nat fd := SFile c (p + Z.of_nat (length s))]> |> /\
      holds t' (at_ (v_home v) a) (sanitize <$> s) /\ same_but (v_home v) a (Z.of_nat (length s)) t t';

  (** The next name of a directory, and its end. *)
  read_dir t v fd i d a n :
    sees t v -> 0 <= fd -> v_fds v !! Z.to_nat fd = Some (SDir i) -> inside a n ->
    im_dentries (v_img v) !! i = Some d -> name_ends d ->
    let k := Z.to_nat (Z.min n 32) in
    exists t' v', ece391_read fd a n t = (Ok (Z.of_nat (length (name_of (d_name d)))), t') /\
      sees t' v' /\ v' = v <| v_fds ::= <[Z.to_nat fd := SDir (S i)]> |> /\
      holds t' (at_ (v_home v) a) (strncpy_spec k (d_name d)) /\ same_but (v_home v) a (Z.of_nat k) t t';
  read_dir_end t v fd i a n :
    sees t v -> 0 <= fd -> v_fds v !! Z.to_nat fd = Some (SDir i) -> inside a n ->
    im_dentries (v_img v) !! i = None ->
    exists t', ece391_read fd a n t = (Ok 0, t') /\ sees t' v /\ same_but (v_home v) a 0 t t';

  (** The line that is typed next, as far as it fits; it shows as it is typed. *)
  read_keys t v fd scs rest d' l c' a n :
    sees t v -> 0 <= fd -> v_fds v !! Z.to_nat fd = Some SKeys -> inside a n ->
    v_typed v = scs :: rest ->
    presses scs (Typed (v_mods v) [] (v_con v) false) = Some (Typed d' l c' false) ->
    Z.of_nat (length l) < 128 \/ n < 128 ->
    let s := take (Z.to_nat n) l in
    exists t' v', ece391_read fd a n t = (Ok (Z.of_nat (length s)), t') /\
      sees t' v' /\ v' = v <| v_con := con_enter c' |> <| v_mods := d' |> <| v_typed := rest |> /\
      holds t' (at_ (v_home v) a) s /\ Forall (fun b => 0 < b < 256) s /\
      same_but (v_home v) a (Z.of_nat (length s)) t t';

  (** What is refused, with nothing changed: descriptors that are not open, or open
      for something else, pointers out of the program, unknown calls. *)
  read_refuses t v fd a n :
    sees t v -> int_range fd -> refused_by (v_fds v) fd (fun s => s = SClosed \/ s = SDisplay) ->
    ece391_read fd a n t = (Ok (-1), t);
  write_refuses t v fd a n :
    sees t v -> int_range fd -> refused_by (v_fds v) fd (fun s => s <> SDisplay) -> ece391_write fd a n t = (Ok (-1), t);
  close_refuses t v fd :
    sees t v -> int_range fd -> refused_by (v_fds v) fd (fun s => s = SClosed \/ s = SKeys \/ s = SDisplay) ->
    ece391_close fd t = (Ok (-1), t);
  vidmap_refuses t v a :
    sees t v -> 0 <= a < 4294967296 -> ~ VIRTUAL_START <= a <= VIRTUAL_END -> ece391_vidmap a t = (Ok (-1), t);
  unknown_refused t v eax ebx ecx edx :
    sees t v -> ~ 1 <= i32 eax <= 10 -> trap eax ebx ecx edx t = (Ok (-1), t);

  (** A file or a directory is closed. *)
  close_closes t v fd s :
    sees t v -> 2 <= fd -> v_fds v !! Z.to_nat fd = Some s ->
    (match s with SFile _ _ | SDir _ => True | _ => False end) ->
    exists t' v', ece391_close fd t = (Ok 0, t') /\
      sees t' v' /\ v' = v <| v_fds ::= <[Z.to_nat fd := SClosed]> |> /\ same_but (v_home v) VIRTUAL_START 0 t t'
}.

(** * For the programs *)

Section Client.
Context {T : Type} `{SysCallsOk T} {MO : MemoryOk T} `{Literals}.
Implicit Types (t : T) (v : view) (l : list Z).

Lemma inside_maps t v a n : sees t v -> inside a n -> maps t a (at_ (v_home v) a) n.
Proof.
  intros Hs (Ha & Hn & He). pose proof (sees_maps t v Hs) as Hm. unfold VIRTUAL_START, VIRTUAL_END, FOUR_MB_BLOCK in *.
  pose proof (maps_shift t 0x8000000 (v_home v) 0x400000 (a - 0x8000000) ltac:(lia) Hm) as Hm'.
  unfold at_, VIRTUAL_START. replace (0x8000000 + (a - 0x8000000)) with a in Hm' by lia.
  eapply maps_mono; [exact Hm'|lia].
Qed.

Lemma inside_home v a n : inside a n -> v_home v <= at_ (v_home v) a /\ at_ (v_home v) a + n <= v_home v + FOUR_MB_BLOCK.
Proof. unfold inside, at_, VIRTUAL_START, VIRTUAL_END, FOUR_MB_BLOCK. lia. Qed.

Lemma inside_sub a n b k : inside a n -> a <= b -> 0 <= k -> b + k <= a + n -> inside b k.
Proof. unfold inside. lia. Qed.

Lemma at_add h a i : at_ h (a + i) = at_ h a + i.
Proof. unfold at_. lia. Qed.

(** Stores of the program to its own memory. *)
Lemma sees_wrote t t' v p n :
  sees t v -> wrote p n t t' -> v_home v <= p -> p + n <= v_home v + FOUR_MB_BLOCK -> sees t' v.
Proof. intros Hs Hw Hp Hn. induction Hw; [done|]. apply sees_upd; [done|lia]. Qed.

Lemma wrote_same h a n t t' : wrote (at_ h a) n t t' -> same_but h a n t t'.
Proof. intros Hw q _ Hq. by eapply wrote_cell. Qed.

Lemma same_refl h a n t : same_but h a n t t.
Proof. done. Qed.

Lemma same_trans h a n t1 t2 t3 : same_but h a n t1 t2 -> same_but h a n t2 t3 -> same_but h a n t1 t3.
Proof. intros Ha Hb q Hq Hn. by rewrite Hb, Ha. Qed.

Lemma same_mono h a n a' n' t t' :
  same_but h a n t t' -> (n <= 0 \/ a' <= a /\ a + n <= a' + n') -> same_but h a' n' t t'.
Proof. intros Hs Hd q Hq Hn. apply Hs; [done|]. unfold at_ in *. lia. Qed.

(** Bytes that a change does not reach. *)
Lemma same_holds h a n t t' b l :
  same_but h a n t t' -> holds t (at_ h b) l -> inside b (Z.of_nat (length l)) ->
  (n <= 0 \/ b + Z.of_nat (length l) <= a \/ a + n <= b) -> holds t' (at_ h b) l.
Proof.
  intros Hs Hl Hb Hd. unfold holds. rewrite (cells_ext t t'); [done|]. intros q Hq. apply Hs.
  - unfold inside, at_, VIRTUAL_START, VIRTUAL_END, FOUR_MB_BLOCK in *. lia.
  - unfold at_ in *. lia.
Qed.

Lemma same_holds0 h a t t' b l :
  same_but h a 0 t t' -> holds t (at_ h b) l -> inside b (Z.of_nat (length l)) -> holds t' (at_ h b) l.
Proof. intros Hs Hl Hb. eapply same_holds; [exact Hs|done|done|by left]. Qed.

(** The literals of a program, and a buffer that they are apart from. *)
Definition placed (h : Z) (t : T) (l : list Z) : Prop :=
  inside (lit l) (Z.of_nat (length (l ++ [0]))) /\ holds t (at_ h (lit l)) (l ++ [0]) /\ forallb (fun c => negb (c =? 0)) l = true.
Definition data (h : Z) (t : T) (ls : list (list Z)) : Prop := Forall (placed h t) ls.
Definition clear_of (a n : Z) (ls : list (list Z)) : Prop :=
  Forall (fun l => lit l + Z.of_nat (length (l ++ [0])) <= a \/ a + n <= lit l) ls.

Lemma data_same h a n t t' ls :
  data h t ls -> same_but h a n t t' -> (n <= 0 \/ clear_of a n ls) -> data h t' ls.
Proof.
  intros Hd Hs Hc. unfold data in *. rewrite Forall_forall in Hd |- *. intros l Hl. destruct (Hd l Hl) as (Hi & Hh & Hz).
  split; [done|]. split; [|done]. eapply same_holds; [exact Hs|done|done|]. destruct Hc as [?|Hc]; [by left|right].
  unfold clear_of in Hc. rewrite Forall_forall in Hc. apply Hc. exact Hl.
Qed.

Lemma strings_nz l : forallb (fun c => negb (c =? 0)) l = true -> Forall (fun c => c <> 0) l.
Proof.
  intros Hl. apply List.Forall_forall. intros c Hc. rewrite forallb_forall in Hl. specialize (Hl c Hc).
  by apply negb_true_iff, Z.eqb_neq in Hl.
Qed.

Lemma cprefix_whole n l l' : Forall (fun c => c <> 0) l -> (n <= length l)%nat -> cprefix n (l ++ l') = take n l.
Proof.
  revert n. induction l as [|c l IH]; intros n Hl Hn; [by assert (n = 0%nat) as -> by (cbn in Hn; lia)|].
  destruct n as [|n]; [done|]. inversion Hl; subst. cbn. rewrite (proj2 (Z.eqb_neq c 0)) by done. f_equal. apply IH; [done|cbn in Hn; lia].
Qed.

(** Writing bytes none of which is null. *)
Lemma write_bytes t v fd a l :
  sees t v -> 0 <= fd -> v_fds v !! Z.to_nat fd = Some SDisplay -> inside a (Z.of_nat (length l)) ->
  holds t (at_ (v_home v) a) l -> Forall (fun c => c <> 0) l ->
  exists t' v', ece391_write fd a (Z.of_nat (length l)) t = (Ok (Z.of_nat (length l)), t') /\
    sees t' v' /\ v' = v <| v_con ::= con_puts l |> /\ same_but (v_home v) a 0 t t'.
Proof.
  intros Hs Hfd Hd Hi Hl Hnz. destruct (write_display t v fd a (Z.of_nat (length l)) Hs Hfd Hd Hi) as (t' & v' & E & Hs' & Hv & Hk).
  assert (cprefix (length l) l = l) as Hc by (rewrite <- (app_nil_r l) at 2; rewrite cprefix_whole by done; apply firstn_all).
  rewrite Nat2Z.id, Hl, Hc in E, Hv. by exists t', v'.
Qed.

(** [ece391_fdputs] of a string. *)
Lemma fdputs_ok t v fd a l :
  sees t v -> 0 <= fd -> v_fds v !! Z.to_nat fd = Some SDisplay -> inside a (Z.of_nat (length (l ++ [0]))) ->
  holds t (at_ (v_home v) a) (l ++ [0]) -> Forall (fun c => c <> 0) l ->
  exists t' v', ece391_fdputs fd a t = (Ok tt, t') /\
    sees t' v' /\ v' = v <| v_con ::= con_puts l |> /\ same_but (v_home v) a 0 t t'.
Proof.
  intros Hs Hfd Hd Hi Hl Hnz. unfold ece391_fdputs. rewrite length_app in Hi. cbn [length] in Hi.
  assert (Z.of_nat (length l) < 4294967296) by (unfold inside, VIRTUAL_START, VIRTUAL_END in Hi; lia).
  go (ece391_strlen_ok t a (at_ (v_home v) a) l) by
    (first [done|replace (Z.of_nat (length l) + 1) with (Z.of_nat (length l + 1)) by lia; by apply inside_maps]).
  pose proof Hl as Hl'. apply holds_app in Hl' as [Hl' _].
  destruct (write_bytes t v fd a l) as (t' & v' & E & Hs' & Hv & Hk); [done..|eapply inside_sub; [exact Hi|lia..]|done|done|].
  go E. rewrite ret_run. by exists t', v'.
Qed.

(** And of a literal. *)
Lemma puts_lit t v l ls :
  sees t v -> v_fds v !! 1%nat = Some SDisplay -> data (v_home v) t ls -> In l ls ->
  exists t' v', ece391_fdputs 1 (lit l) t = (Ok tt, t') /\
    sees t' v' /\ v' = v <| v_con ::= con_puts l |> /\ same_but (v_home v) VIRTUAL_START 0 t t' /\ data (v_home v) t' ls.
Proof.
  intros Hs Hd Hdata Hin. unfold data in Hdata. pose proof (proj1 (Forall_forall _ _) Hdata l Hin) as (Hi & Hh & Hz).
  destruct (fdputs_ok t v 1 (lit l) l Hs ltac:(lia) Hd Hi Hh (strings_nz _ Hz)) as (t' & v' & E & Hs' & Hv & Hk).
  exists t', v'. split; [exact E|]. split; [done|]. split; [done|]. split; [eapply same_mono; [exact Hk|lia]|]. eapply data_same; [exact Hdata|exact Hk|lia].
Qed.
End Client.

Arguments data : simpl never.
Arguments same_but : simpl never.
#[export] Hint Resolve same_refl : mach.

(** The fields of a view, from the equation that a call gives. *)
Record view_is (v' : view) (h : Z) (args : list Z) (img : image) (fds : list stream) (con : console) (d : mods)
    (keys : list (list Z)) : Prop := {
  vi_home : v_home v' = h;
  vi_args : v_args v' = args;
  vi_img : v_img v' = img;
  vi_fds : v_fds v' = fds;
  vi_con : v_con v' = con;
  vi_mods : v_mods v' = d;
  vi_typed : v_typed v' = keys
}.

Lemma view_con v v' f : v' = v <| v_con ::= f |> ->
  view_is v' (v_home v) (v_args v) (v_img v) (v_fds v) (f (v_con v)) (v_mods v) (v_typed v).
Proof. by intros ->. Qed.

Lemma view_fds v v' f : v' = v <| v_fds ::= f |> ->
  view_is v' (v_home v) (v_args v) (v_img v) (f (v_fds v)) (v_con v) (v_mods v) (v_typed v).
Proof. by intros ->. Qed.

Lemma view_keys v v' c d ks : v' = v <| v_con := c |> <| v_mods := d |> <| v_typed := ks |> ->
  view_is v' (v_home v) (v_args v) (v_img v) (v_fds v) c d ks.
Proof. by intros ->. Qed.

(** The keyboard is as it was. *)
Definition keys_same (v v' : view) : Prop := v_mods v' = v_mods v /\ v_typed v' = v_typed v.

Lemma keys_trans v1 v2 v3 : keys_same v1 v2 -> keys_same v2 v3 -> keys_same v1 v3.
Proof. intros [M1 K1] [M2 K2]. split; congruence. Qed.

Ltac to_fields Hv := first [apply view_con in Hv|apply view_fds in Hv|apply view_keys in Hv].
Tactic Notation "fields" hyp(Hv) := to_fields Hv; destruct Hv as [].
Tactic Notation "fields" hyp(Hv) "as" simple_intropattern(W) := to_fields Hv; destruct Hv as W.
