(* ===== verification/Programs.v ===== *)
(** The user programs [syscalls/ece391hello.c], [ece391testprint.c], [ece391cat.c],
    [ece391ls.c] and [ece391counter.c], against the interface of [Calls.v].

    A program is its [main]; the addresses of its local arrays are arguments, and
    those of its string literals come from [Literals]. *)

From S2P Require Import Prelude Memory CLib Support Machine Rofs Screen Process Handlers Calls.

Definition BUFSIZE : Z := 1024.
Definition SBUFSIZE : Z := 33.

Section Programs.
Context {T : Type} `{Memory T} `{SysCalls T} `{Literals}.

Definition hello_main (buf : Z) : M T Z :=
  ece391_fdputs 1 (lit (text "Hi, what's your name? "));;
  cnt ← ece391_read 0 buf (BUFSIZE - 1);
  if -1 =? cnt then
    ece391_fdputs 1 (lit (line "Can't read name from keyboard."));;
    mret 3
  else
    store8 (buf + cnt) 0;;
    ece391_fdputs 1 (lit (text "Hello, "));;
    ece391_fdputs 1 buf;;
    mret 0.

Definition testprint_main : M T Z :=
  ece391_fdputs 1 (lit (line "Hello, if this ran, the program was correct. Yay!"));;
  mret 0.

(** The body of the loop of [cat], [inr] being a [return]. *)
Definition cat_step (fd buf : Z) (_ : unit) : M T (unit + Z) :=
  cnt ← ece391_read fd buf 1024;
  if 0 =? cnt then mret (inr 0)
  else if -1 =? cnt then
    ece391_fdputs 1 (lit (line "file read failed"));;
    mret (inr 3)
  else
    r ← ece391_write 1 buf cnt;
    if -1 =? r then mret (inr 3) else mret (inl tt).

Definition cat_main (buf : Z) : M T Z :=
  r ← ece391_getargs buf 1024;
  if negb (0 =? r) then
    ece391_fdputs 1 (lit (line "could not read arguments"));;
    mret 3
  else
    fd ← ece391_open buf;
    if -1 =? fd then
      ece391_fdputs 1 (lit (line "file not found"));;
      mret 2
    else while (cat_step fd buf) tt.

Definition ls_step (fd buf : Z) (_ : unit) : M T (unit + Z) :=
  cnt ← ece391_read fd buf (SBUFSIZE - 1);
  if 0 =? cnt then mret (inr 0)
  else if -1 =? cnt then
    ece391_fdputs 1 (lit (line "directory entry read failed"));;
    mret (inr 3)
  else
    store8 (buf + cnt) 10;;
    r ← ece391_write 1 buf (cnt + 1);
    if -1 =? r then mret (inr 3) else mret (inl tt).

Definition ls_main (buf : Z) : M T Z :=
  fd ← ece391_open (lit (text "."));
  if -1 =? fd then
    ece391_fdputs 1 (lit (line "directory open failed"));;
    mret 2
  else while (ls_step fd buf) tt.

(** The condition on the line, its operands evaluated from left to right. *)
Definition counter_choice (buf : Z) : M T bool :=
  n ← ece391_strlen buf;
  if 1 <? n then mret true
  else
    n ← ece391_strlen buf;
    if n =? 1 then
      b ← load8 buf;
      if b <? 48 then mret true else b ← load8 buf; mret (50 <? b)
    else mret false.

(** [i], [cnt] and [max] are unsigned. *)
Definition counter_main (buf : Z) : M T Z :=
  ece391_fdputs 1 (lit (line "Enter the Test Number: (0): 100, (1): 10000, (2): 100000"));;
  r ← ece391_read 0 buf (BUFSIZE - 1);
  let cnt := u32 r in
  if u32 (-1) =? cnt then
    ece391_fdputs 1 (lit (line "Can't read the number from keyboard."));;
    mret 3
  else
    store8 (buf + cnt) 0;;
    wrong ← counter_choice buf;
    if wrong : bool then
      ece391_fdputs 1 (lit (line "Wrong Choice!"));;
      mret 0
    else
      b ← load8 buf;
      let max := if b =? 48 then 100 else if b =? 49 then 10000 else if b =? 50 then 100000 else 0 in
      for_range 0 max (fun i =>
        ece391_itoa (u32 (i + 1)) buf 10;;
        ece391_fdputs 1 buf;;
        ece391_fdputs 1 (lit [10]));;
      mret 0.
End Programs.

(** * The literals of the programs *)

Definition hello_lits : list (list Z) :=
  [text "Hi, what's your name? "; line "Can't read name from keyboard."; text "Hello, "].
Definition testprint_lits : list (list Z) := [line "Hello, if this ran, the program was correct. Yay!"].
Definition cat_lits : list (list Z) := [line "could not read arguments"; line "file not found"; line "file read failed"].
Definition ls_lits : list (list Z) := [text "."; line "directory open failed"; line "directory entry read failed"].
Definition counter_lits : list (list Z) :=
  [line "Enter the Test Number: (0): 100, (1): 10000, (2): 100000"; line "Can't read the number from keyboard.";
   line "Wrong Choice!"; [10]].

Ltac in_list := repeat first [left; reflexivity|right].

Section Greeting.
Context {T : Type} `{SysCallsOk T} {MO : MemoryOk T} `{Literals}.
Implicit Types (t : T) (v : view).

Lemma testprint_ok t v :
  sees t v -> v_fds v !! 1%nat = Some SDisplay -> data (v_home v) t testprint_lits ->
  exists t' v', testprint_main t = (Ok 0, t') /\ sees t' v' /\
    v' = v <| v_con ::= con_puts (line "Hello, if this ran, the program was correct. Yay!") |>.
Proof.
  intros Hs Hd Hl. unfold testprint_main.
  destruct (puts_lit t v _ _ Hs Hd Hl ltac:(by left)) as (t1 & v1 & E1 & Hs1 & Hv & _). go E1. by exists t1, v1.
Qed.

(** A byte after those that are in a buffer. *)
Lemma store_next t v a l n b :
  sees t v -> inside a n -> holds t (at_ (v_home v) a) l -> Z.of_nat (length l) < n -> is_byte b ->
  exists t', store8 (a + Z.of_nat (length l)) b t = (Ok tt, t') /\ sees t' v /\
    holds t' (at_ (v_home v) a) (l ++ [b]) /\ same_but (v_home v) a n t t'.
Proof.
  intros Hs Hi Hl Hn Hb. pose proof (inside_maps t v a n Hs Hi) as Hm.
  rewrite (store8_maps t a (at_ (v_home v) a) n (Z.of_nat (length l)) b Hm) by lia. eexists. split; [done|].
  pose proof (inside_home v a n Hi) as Hh.
  assert (wrote (at_ (v_home v) a) n t (upd t (at_ (v_home v) a + Z.of_nat (length l)) (u8 b))) as Hw
    by (constructor; [constructor|lia]).
  split; [eapply sees_wrote; [exact Hs|exact Hw|lia|lia]|]. split; [|by apply wrote_same].
  apply holds_app. split.
  - unfold holds. rewrite cells_ext with (t := t); [done|]. intros q Hq. apply cell_upd_ne. lia.
  - unfold holds. cbn [length]. rewrite cells_S. change (cells _ _ 0) with (@nil Z). by rewrite cell_upd_eq, u8_u8, u8_small.
Qed.

(** [hello], with the line that is typed. *)
Lemma hello_ok t v buf scs rest d' l c' :
  sees t v -> v_fds v !! 0%nat = Some SKeys -> v_fds v !! 1%nat = Some SDisplay ->
  data (v_home v) t hello_lits -> inside buf BUFSIZE -> clear_of buf BUFSIZE hello_lits ->
  v_typed v = scs :: rest ->
  presses scs (Typed (v_mods v) [] (con_puts (text "Hi, what's your name? ") (v_con v)) false) = Some (Typed d' l c' false) ->
  Z.of_nat (length l) < 128 ->
  exists t' v', hello_main buf t = (Ok 0, t') /\ sees t' v' /\
    v_con v' = con_puts (text "Hello, " ++ l) (con_enter c') /\ v_mods v' = d' /\ v_typed v' = rest.
Proof.
  intros Hs Hk Hd Hl Hi Hc Hty Hp Hlen. unfold hello_main. unfold BUFSIZE in *.
  destruct (puts_lit t v _ _ Hs Hd Hl ltac:(by left)) as (t1 & v1 & E1 & Hs1 & Hv1 & _ & Hl1). go E1. fields Hv1.
  destruct (read_keys t1 v1 0 scs rest d' l c' buf (1024 - 1) Hs1) as (t2 & v2 & E2 & Hs2 & Hv2 & Hh2 & Hb2 & Hk2);
    [lia|change (Z.to_nat 0) with 0%nat; congruence|eapply inside_sub; [exact Hi|lia..]|congruence|congruence|by left|].
  rewrite firstn_all2 in E2, Hh2, Hb2, Hk2 by lia. go E2. fields Hv2.
  rewrite (proj2 (Z.eqb_neq (-1) _)) by lia.
  assert (v_home v2 = v_home v /\ v_home v1 = v_home v) as [Hh Hh1] by (split; congruence). rewrite Hh1 in *.
  assert (data (v_home v) t2 hello_lits) as Hl2.
  { eapply data_same; [exact Hl1|exact Hk2|right]. eapply Forall_impl; [|exact Hc]. cbv beta. lia. }
  destruct (store_next t2 v2 buf l 1024 0 Hs2 Hi) as (t3 & E3 & Hs3 & Hh3 & Hk3); [by rewrite Hh|lia|done|]. go E3. rewrite Hh in *.
  assert (data (v_home v) t3 hello_lits) as Hl3 by (eapply data_same; [exact Hl2|exact Hk3|by right]).
  destruct (puts_lit t3 v2 (text "Hello, ") hello_lits) as (t4 & v4 & E4 & Hs4 & Hv4 & Hk4 & Hl4);
    [done|congruence|by rewrite Hh|in_list|]. go E4. fields Hv4. rewrite Hh in *.
  assert (inside buf (Z.of_nat (length (l ++ [0])))) as Hi'
    by (rewrite length_app; cbn [length]; eapply inside_sub; [exact Hi|lia..]).
  destruct (fdputs_ok t4 v4 1 buf l) as (t5 & v5 & E5 & Hs5 & Hv5 & _);
    [done|lia|change (Z.to_nat 1) with 1%nat; congruence|done| | |].
  { replace (v_home v4) with (v_home v) by congruence. exact (same_holds0 _ _ _ _ _ _ Hk4 Hh3 Hi'). }
  { eapply Forall_impl; [|exact Hb2]. cbv beta. lia. }
  go E5. rewrite ret_run. fields Hv5. exists t5, v5. split; [done|]. split; [done|]. rewrite con_puts_app. split_and!; congruence.
Qed.
End Greeting.

(** * Printing a file, or a directory *)

Lemma sanitize_nz c : sanitize c <> 0.
Proof.
  unfold sanitize. destruct (Z.ltb_spec c 32), (Z.ltb_spec 126 c), (Z.eqb_spec c 10), (Z.eqb_spec c 9); cbn; lia.
Qed.

(** The names of a directory up to the first empty one, each followed by [sep]. *)
Fixpoint listed (sep : list Z) (ds : list dentry_s) : list Z :=
  match ds with
  | [] => []
  | d :: ds => if decide (name_of (d_name d) = []) then [] else name_of (d_name d) ++ sep ++ listed sep ds
  end.

(** What [cat] prints of a descriptor that has just been opened. *)
Definition printed (img : image) (s : stream) : list Z :=
  match s with
  | SFile c _ => sanitize <$> c
  | SDir _ => listed [] (im_dentries img)
  | _ => []
  end.

Lemma find_dentry_args img w k : Forall (fun c => c <> 0) w -> find_dentry img (w ++ replicate k 0) = find_dentry img w.
Proof.
  intros Hw. unfold find_dentry, name_of. generalize (Z.to_nat FILE_NAME_LENGTH). intros n.
  assert (cprefix n (w ++ replicate k 0) = cprefix n w) as ->; [|done].
  revert n. induction w as [|c w IH]; intros n.
  - destruct k, n; done.
  - destruct n as [|n]; [done|]. inversion Hw; subst. cbn. rewrite (proj2 (Z.eqb_neq c 0)) by done. f_equal. by apply IH.
Qed.

Lemma free_stream_Some l i : free_stream l = Some i -> (2 <= i < length l)%nat /\ l !! i = Some SClosed.
Proof.
  unfold free_stream. intros ([j s] & (Hj & Hs & _)%list_find_Some & ->)%fmap_Some. cbn in *. rewrite lookup_drop in Hj.
  apply lookup_lt_Some in Hj as Hlt. rewrite Hs in Hj. replace (j + 2)%nat with (2 + j)%nat by lia. split; [lia|done].
Qed.

Section Printing.
Context {T : Type} `{SysCallsOk T} {MO : MemoryOk T} `{Literals}.
Implicit Types (t : T) (v : view).

(** The loop of [cat] over a file, from a position on. *)
Lemma cat_file t v buf i fds c :
  sees t v -> v_fds v = <[i := SFile c 0]> fds -> (2 <= i < length fds)%nat -> fds !! 1%nat = Some SDisplay ->
  inside buf 1024 -> Z.of_nat (length c) < 4294967295 ->
  exists t' v', while (cat_step (Z.of_nat i) buf) tt t = (Ok 0, t') /\
    sees t' v' /\ v_con v' = con_puts (sanitize <$> c) (v_con v) /\ keys_same v v' /\
    v_fds v' = <[i := SFile c (Z.of_nat (length c))]> fds.
Proof.
  intros Hs Hf Hi Hd Hbuf Hlen.
  destruct (while_steps (fun k (_ : unit) t' => exists v' (p : nat), sees t' v' /\ v_fds v' = <[i := SFile c (Z.of_nat p)]> fds /\
      (p <= length c)%nat /\ v_con v' = con_puts (sanitize <$> take p c) (v_con v) /\ keys_same v v' /\ k = (length c - p)%nat)
    (fun r t' => r = 0 /\ exists v', sees t' v' /\ v_con v' = con_puts (sanitize <$> c) (v_con v) /\ keys_same v v' /\
      v_fds v' = <[i := SFile c (Z.of_nat (length c))]> fds)
    (cat_step (Z.of_nat i) buf) (length c - 0)%nat tt t) as (r & t' & E & -> & v' & Hv');
    [| |lia|by exists t', v'].
  { exists v, 0%nat. split; [done|]. split; [done|]. split; [lia|]. done. }
  intros k [] t1 (v1 & p & Hs1 & Hf1 & Hp & Hc1 & Hks1 & ->).
  assert (v_fds v1 !! Z.to_nat (Z.of_nat i) = Some (SFile c (Z.of_nat p))) as Hfd
    by (rewrite Nat2Z.id, Hf1; apply list_lookup_insert_eq; lia).
  destruct (read_file t1 v1 (Z.of_nat i) c (Z.of_nat p) buf 1024 Hs1 ltac:(lia) Hfd Hbuf)
    as (t2 & v2 & E2 & Hs2 & Hv2 & Hh2 & _).
  pose proof (file_slice_length c (Z.of_nat p) 1024 ltac:(lia) ltac:(lia)) as Hsl.
  pose proof (file_slice_drop c (Z.of_nat p) 1024 ltac:(lia) ltac:(lia)) as Hsd.
  set (s := file_slice c (Z.of_nat p) 1024) in *. rewrite Nat2Z.id in Hsd. unfold cat_step. go E2. fields Hv2 as [Hho2 _ _ Hf2 Hc2 Hm2 Hy2].
  rewrite Nat2Z.id, Hf1, list_insert_insert_eq in Hf2.
  destruct (Z.eqb_spec 0 (Z.of_nat (length s))) as [Hz|Hz].
  - left. exists 0, t2. split; [done|]. split; [done|]. exists v2. split; [done|].
    assert (p = length c) as -> by lia. rewrite firstn_all in Hc1. split; [congruence|]. split; [by apply (keys_trans v v1)|]. rewrite Hf2. do 2 f_equal. lia.
  - right. rewrite (proj2 (Z.eqb_neq (-1) _)) by lia.
    assert (length (sanitize <$> s) = length s) as Hls by apply length_fmap.
    destruct (write_bytes t2 v2 1 buf (sanitize <$> s)) as (t3 & v3 & E3 & Hs3 & Hv3 & _); try done.
    { change (Z.to_nat 1) with 1%nat. rewrite Hf2, list_lookup_insert_ne by lia. done. }
    { rewrite Hls. eapply inside_sub; [exact Hbuf|lia..]. }
    { congruence. }
    { apply Forall_fmap, Forall_true. intros x. apply sanitize_nz. }
    rewrite Hls in E3. go E3. rewrite (proj2 (Z.eqb_neq (-1) _)) by lia. fields Hv3 as [_ _ _ Hf3 Hc3 Hm3 Hy3].
    exists (length c - (p + length s))%nat, tt, t3. split; [done|]. split; [|lia].
    exists v3, (p + length s)%nat. split; [done|]. split; [rewrite Hf3, Hf2; do 2 f_equal; lia|]. split; [lia|].
    split; [|split; [|done]]; [|apply (keys_trans v v1); [exact Hks1|split; congruence]].
    rewrite Hc3, Hc2, Hc1, <- con_puts_app, <- fmap_app. do 2 f_equal.
    rewrite <- take_take_drop, <- Hsd. by rewrite take_app_length.
Qed.

(** What a loop over a directory does in a turn: it prints a name and [sep], and ends
    at an empty name or after the last entry. *)
Record lists_entries (sep : list Z) (i : nat) (fds : list stream) (img : image) (body : unit -> M T (unit + Z)) : Prop := {
  le_entry t v j d :
    sees t v -> v_img v = img -> v_fds v = <[i := SDir j]> fds -> im_dentries img !! j = Some d ->
    exists t' v', sees t' v' /\ v_img v' = img /\ v_fds v' = <[i := SDir (S j)]> fds /\ keys_same v v' /\
      if decide (name_of (d_name d) = []) then body tt t = (Ok (inr 0), t') /\ v_con v' = v_con v
      else body tt t = (Ok (inl tt), t') /\ v_con v' = con_puts (name_of (d_name d) ++ sep) (v_con v);
  le_end t v j :
    sees t v -> v_img v = img -> v_fds v = <[i := SDir j]> fds -> im_dentries img !! j = None ->
    exists t', body tt t = (Ok (inr 0), t') /\ sees t' v
}.

Lemma dir_loop sep i fds img body t v :
  lists_entries sep i fds img body ->
  sees t v -> v_img v = img -> v_fds v = <[i := SDir 0]> fds -> Z.of_nat (length (im_dentries img)) < 4294967295 ->
  exists t' v' j, while body tt t = (Ok 0, t') /\ sees t' v' /\
    v_con v' = con_puts (listed sep (im_dentries img)) (v_con v) /\ keys_same v v' /\ v_fds v' = <[i := SDir j]> fds.
Proof.
  intros [Hent Hend] Hs Him Hf Hlen. set (ds := im_dentries img) in *.
  destruct (while_steps (fun k (_ : unit) t' => exists v' j out, sees t' v' /\ v_img v' = img /\ v_fds v' = <[i := SDir j]> fds /\
      v_con v' = con_puts out (v_con v) /\ keys_same v v' /\ out ++ listed sep (drop j ds) = listed sep ds /\ k = (length ds - j)%nat)
    (fun r t' => r = 0 /\ exists v' j, sees t' v' /\ v_con v' = con_puts (listed sep ds) (v_con v) /\ keys_same v v' /\ v_fds v' = <[i := SDir j]> fds)
    body (length ds - 0)%nat tt t) as (r & t' & E & -> & v' & j & Hv'); [| |lia|by exists t', v', j].
  { exists v, 0%nat, []. done. }
  intros k [] t1 (v1 & j & out & Hs1 & Him1 & Hf1 & Hc1 & Hks1 & Ho & ->).
  destruct (ds !! j) as [d|] eqn:Ed.
  - destruct (Hent t1 v1 j d Hs1 Him1 Hf1 Ed) as (t2 & v2 & Hs2 & Him2 & Hf2 & Hks2 & Hc2).
    rewrite (drop_S _ _ _ Ed) in Ho. cbn [listed] in Ho. apply lookup_lt_Some in Ed.
    destruct (decide (name_of (d_name d) = [])) as [Hz|Hz]; destruct Hc2 as [E2 Hc2].
    + left. exists 0, t2. split; [done|]. split; [done|]. exists v2, (S j). split; [done|].
      split; [rewrite Hc2, Hc1; f_equal; by rewrite <- Ho, app_nil_r|]. split; [by apply (keys_trans v v1)|done].
    + right. exists (length ds - S j)%nat, tt, t2. split; [done|]. split; [|lia].
      exists v2, (S j), (out ++ name_of (d_name d) ++ sep). do 3 (split; [done|]).
      split; [rewrite Hc2, Hc1; symmetry; apply con_puts_app|]. split; [by apply (keys_trans v v1)|]. split; [|done].
      by rewrite <- Ho, <- !app_assoc.
  - left. destruct (Hend t1 v1 j Hs1 Him1 Hf1 Ed) as (t2 & E2 & Hs2). exists 0, t2. split; [done|]. split; [done|].
    exists v1, j. split; [done|]. split; [|done]. rewrite Hc1. f_equal. apply lookup_ge_None in Ed.
    by rewrite <- Ho, drop_ge, app_nil_r by done.
Qed.

(** The loops of [cat] and of [ls]. *)
Lemma fds_at l s i fds :
  v_fds l = <[i := s]> fds -> (2 <= i < length fds)%nat -> fds !! 1%nat = Some SDisplay ->
  v_fds l !! Z.to_nat (Z.of_nat i) = Some s /\ v_fds l !! Z.to_nat 1 = Some SDisplay.
Proof.
  intros -> Hi Hd. rewrite Nat2Z.id, list_lookup_insert_eq by lia. split; [done|]. change (Z.to_nat 1) with 1%nat.
  by rewrite list_lookup_insert_ne by lia.
Qed.

Lemma name_facts d : (length (name_of (d_name d)) <= 32)%nat /\ Forall (fun c => c <> 0) (name_of (d_name d)).
Proof. split; [exact (length_cprefix 32 (d_name d))|apply cprefix_nz]. Qed.

Lemma cat_lists buf i fds img :
  inside buf 1024 -> (2 <= i < length fds)%nat -> fds !! 1%nat = Some SDisplay -> Forall name_ends (im_dentries img) ->
  lists_entries [] i fds img (cat_step (Z.of_nat i) buf).
Proof.
  intros Hbuf Hi Hd Hends. pose proof (fun l s Hl => fds_at l s i fds Hl Hi Hd) as Hlk. split; intros t v j.
  - intros d Hs Him Hf Ed. destruct (Hlk _ _ Hf) as [Hfd _]. rewrite <- Him in Ed.
    assert (name_ends d) as Hne by (eapply Forall_lookup_1; [exact Hends|by rewrite <- Him]).
    destruct (read_dir t v (Z.of_nat i) j d buf 1024 Hs ltac:(lia) Hfd Hbuf Ed Hne) as (t2 & v2 & E2 & Hs2 & Hv2 & Hh2 & _).
    fields Hv2 as [Hho2 _ Him2 Hf2 Hc2 Hm2 Hy2]. rewrite Nat2Z.id, Hf, list_insert_insert_eq in Hf2.
    unfold strncpy_spec in Hh2. apply holds_app in Hh2 as [Hh2 _]. change (cprefix _ (d_name d)) with (name_of (d_name d)) in Hh2.
    destruct (name_facts d) as [Hl Hnz].
    set (n := name_of (d_name d)) in *. unfold cat_step. rewrite bind_run, E2. cbv beta iota.
    destruct (decide (n = [])) as [Hz|Hz].
    + rewrite Hz. exists t2, v2. split; [done|]. split; [congruence|]. split; [done|]. split; [by split|]. split; [done|congruence].
    + assert (0 < Z.of_nat (length n)) as Hpos by (destruct n; [done|cbn; lia]). rewrite (proj2 (Z.eqb_neq 0 _)), (proj2 (Z.eqb_neq (-1) _)) by lia.
      destruct (write_bytes t2 v2 1 buf n) as (t3 & v3 & E3 & Hs3 & Hv3 & _);
        [done|lia|by apply (Hlk v2 (SDir (S j)))|eapply inside_sub; [exact Hbuf|lia..]|by rewrite Hho2|done|].
      rewrite bind_run, E3. cbv beta iota. rewrite (proj2 (Z.eqb_neq (-1) _)) by lia. fields Hv3 as [_ _ Him3 Hf3 Hc3 Hm3 Hy3].
      exists t3, v3. split; [done|]. split; [congruence|]. split; [congruence|]. split; [split; congruence|].
      split; [done|]. rewrite app_nil_r. congruence.
  - intros Hs Him Hf Ed. destruct (Hlk _ _ Hf) as [Hfd _]. rewrite <- Him in Ed.
    destruct (read_dir_end t v (Z.of_nat i) j buf 1024 Hs ltac:(lia) Hfd Hbuf Ed) as (t2 & E2 & Hs2 & _).
    exists t2. split; [|done]. unfold cat_step. by rewrite bind_run, E2.
Qed.

Lemma ls_lists buf i fds img :
  inside buf SBUFSIZE -> (2 <= i < length fds)%nat -> fds !! 1%nat = Some SDisplay -> Forall name_ends (im_dentries img) ->
  lists_entries [10] i fds img (ls_step (Z.of_nat i) buf).
Proof.
  intros Hbuf Hi Hd Hends. pose proof (fun l s Hl => fds_at l s i fds Hl Hi Hd) as Hlk. unfold SBUFSIZE in *.
  assert (inside buf (33 - 1)) as Hbuf' by (eapply inside_sub; [exact Hbuf|lia..]). split; intros t v j.
  - intros d Hs Him Hf Ed. destruct (Hlk _ _ Hf) as [Hfd _]. rewrite <- Him in Ed.
    assert (name_ends d) as Hne by (eapply Forall_lookup_1; [exact Hends|by rewrite <- Him]).
    destruct (read_dir t v (Z.of_nat i) j d buf (33 - 1) Hs ltac:(lia) Hfd Hbuf' Ed Hne) as (t2 & v2 & E2 & Hs2 & Hv2 & Hh2 & _).
    fields Hv2 as [Hho2 _ Him2 Hf2 Hc2 Hm2 Hy2]. rewrite Nat2Z.id, Hf, list_insert_insert_eq in Hf2.
    unfold strncpy_spec in Hh2. apply holds_app in Hh2 as [Hh2 _]. change (cprefix _ (d_name d)) with (name_of (d_name d)) in Hh2.
    destruct (name_facts d) as [Hl Hnz].
    set (n := name_of (d_name d)) in *. unfold ls_step, SBUFSIZE. rewrite bind_run, E2. cbv beta iota.
    destruct (decide (n = [])) as [Hz|Hz].
    + rewrite Hz. exists t2, v2. split; [done|]. split; [congruence|]. split; [done|]. split; [by split|]. split; [done|congruence].
    + assert (0 < Z.of_nat (length n)) as Hpos by (destruct n; [done|cbn; lia]). rewrite (proj2 (Z.eqb_neq 0 _)), (proj2 (Z.eqb_neq (-1) _)) by lia.
      destruct (store_next t2 v2 buf n 33 10 Hs2 Hbuf) as (t3 & E3 & Hs3 & Hh3 & _); [by rewrite Hho2|lia|done|].
      rewrite bind_run, E3. cbv beta iota.
      assert (Z.of_nat (length n) + 1 = Z.of_nat (length (n ++ [10]))) as Hlen1 by (rewrite length_app; cbn; lia). rewrite Hlen1.
      destruct (write_bytes t3 v2 1 buf (n ++ [10])) as (t4 & v4 & E4 & Hs4 & Hv4 & _);
        [done|lia|by apply (Hlk v2 (SDir (S j)))|eapply inside_sub; [exact Hbuf|lia..]|done| |].
      { apply Forall_app. split; [done|]. by repeat constructor. }
      rewrite bind_run, E4. cbv beta iota. rewrite (proj2 (Z.eqb_neq (-1) _)) by lia. fields Hv4 as [_ _ Him4 Hf4 Hc4 Hm4 Hy4].
      exists t4, v4. split; [done|]. split; [congruence|]. split; [congruence|]. split; [split; congruence|]. split; [done|]. congruence.
  - intros Hs Him Hf Ed. destruct (Hlk _ _ Hf) as [Hfd _]. rewrite <- Him in Ed.
    destruct (read_dir_end t v (Z.of_nat i) j buf (33 - 1) Hs ltac:(lia) Hfd Hbuf' Ed) as (t2 & E2 & Hs2 & _).
    exists t2. split; [|done]. unfold ls_step, SBUFSIZE. by rewrite bind_run, E2.
Qed.
End Printing.

(** * Properties *)

(** What [cat] returns and prints, when the name is not that of a device. *)
Definition cat_spec (v : view) : option (Z * list Z) :=
  match v_args v, find_dentry (v_img v) (v_args v), free_stream (v_fds v) with
  | [], _, _ => Some (3, line "could not read arguments")
  | _, Some d, Some _ => (fun s => (0, printed (v_img v) s)) <$> opened (v_img v) d
  | _, _, _ => Some (2, line "file not found")
  end.

(** What [ls] returns and prints, unless the entry of the directory is something else. *)
Definition ls_spec (v : view) : option (Z * list Z) :=
  match find_dentry (v_img v) (text "."), free_stream (v_fds v) with
  | Some d, Some _ => if d_type d =? dir then Some (0, listed [10] (im_dentries (v_img v))) else None
  | _, _ => Some (2, line "directory open failed")
  end.

(** The exit statuses fit in a byte. *)
Lemma cat_status v r out : cat_spec v = Some (r, out) -> 0 <= r < 256.
Proof.
  unfold cat_spec. destruct (v_args v); [injection 1; lia|]. destruct (find_dentry _ _); [|injection 1; lia].
  destruct (free_stream _); [|injection 1; lia]. destruct (opened _ _); [injection 1; lia|discriminate].
Qed.

Lemma ls_status v r out : ls_spec v = Some (r, out) -> 0 <= r < 256.
Proof.
  unfold ls_spec. destruct (find_dentry _ _) as [d|]; [|injection 1; lia]. destruct (free_stream _); [|injection 1; lia].
  destruct (_ =? _); [injection 1; lia|discriminate].
Qed.

(** The numbers from 1 to [n], a line each, and how many [counter] prints for a line. *)
Definition count_lines (n : Z) : list Z := concat ((fun i => numeral 10 (i + 1) ++ [10]) <$> seqZ 0 n).
Definition counter_max (l : list Z) : option Z :=
  match l with
  | [] => Some 0
  | [b] => if b =? 48 then Some 100 else if b =? 49 then Some 10000 else if b =? 50 then Some 100000 else None
  | _ => None
  end.
Definition counter_spec (l : list Z) : list Z :=
  match counter_max l with Some n => count_lines n | None => line "Wrong Choice!" end.

Section Mains.
Context {T : Type} `{SysCallsOk T} {MO : MemoryOk T} `{Literals}.
Implicit Types (t : T) (v : view).

(** The loop of [cat] on what has been opened. *)
Lemma cat_loop t v buf d i s fds :
  sees t v -> v_fds v = <[i := s]> fds -> (2 <= i < length fds)%nat -> fds !! 1%nat = Some SDisplay ->
  inside buf 1024 -> opened (v_img v) d = Some s -> Forall name_ends (im_dentries (v_img v)) ->
  exists t' v', while (cat_step (Z.of_nat i) buf) tt t = (Ok 0, t') /\ sees t' v' /\
    v_con v' = con_puts (printed (v_img v) s) (v_con v) /\ keys_same v v'.
Proof.
  intros Hs Hf Hi Hd Hbuf Ho Hends. destruct (sees_image t v Hs) as [Hnd Hnf]. unfold opened in Ho.
  destruct (d_type d =? dir); [|destruct (d_type d =? file); [|done]].
  - injection Ho as <-.
    destruct (dir_loop [] i fds (v_img v) (cat_step (Z.of_nat i) buf) t v) as (t' & v' & j & E & Hs' & Hc & Hks & _);
      [by apply cat_lists|done|done|done|lia|]. by exists t', v'.
  - apply fmap_Some in Ho as (c & Hc & ->). specialize (Hnf _ _ Hc).
    destruct (cat_file t v buf i fds c Hs Hf Hi Hd Hbuf ltac:(lia)) as (t' & v' & E & Hs' & Hc' & Hks & _). by exists t', v'.
Qed.

(** The arguments in a buffer, as a name. *)
Lemma args_name t v buf :
  sees t v -> v_args v <> [] -> inside buf 1024 ->
  let l := v_args v ++ replicate (128 - length (v_args v)) 0 in
  exists t', ece391_getargs buf 1024 t = (Ok 0, t') /\ sees t' v /\ holds t' (at_ (v_home v) buf) l /\
    same_but (v_home v) buf 1024 t t' /\ inside buf (Z.of_nat (length l)) /\ 0 ∈ l /\
    find_dentry (v_img v) l = find_dentry (v_img v) (v_args v).
Proof.
  intros Hs Hne Hbuf l. destruct (sees_args t v Hs) as [Hl Hc].
  destruct (getargs_some t v buf 1024 Hs Hne Hbuf) as (t' & E & Hs' & Hh & Hk).
  change (Z.to_nat (Z.min 1024 128)) with 128%nat in Hh, Hk.
  assert (length l = 128%nat) as Hll by (unfold l; rewrite length_app, length_replicate; lia).
  fold l in Hh. rewrite firstn_all2 in Hh by lia. exists t'. split; [done|]. split; [done|]. split; [done|].
  split; [eapply same_mono; [exact Hk|lia]|]. split; [rewrite Hll; eapply inside_sub; [exact Hbuf|lia..]|].
  split; [|apply find_dentry_args; by apply arg_no_null].
  apply elem_of_app. right. apply elem_of_replicate. split; [done|lia].
Qed.

Lemma cat_ok t v buf r out :
  sees t v -> v_fds v !! 1%nat = Some SDisplay -> data (v_home v) t cat_lits ->
  inside buf 1024 -> clear_of buf 1024 cat_lits -> Forall name_ends (im_dentries (v_img v)) ->
  cat_spec v = Some (r, out) ->
  exists t' v', cat_main buf t = (Ok r, t') /\ sees t' v' /\ v_con v' = con_puts out (v_con v) /\ keys_same v v'.
Proof.
  intros Hs Hd Hl Hbuf Hclear Hends Hspec. unfold cat_main. unfold cat_spec in Hspec.
  destruct (decide (v_args v = [])) as [Ha|Ha].
  { rewrite Ha in Hspec. injection Hspec as <- <-. go (getargs_none t v buf 1024) by done. change (negb (0 =? -1)) with true. cbv iota.
    destruct (puts_lit t v _ _ Hs Hd Hl ltac:(by left)) as (t1 & v1 & E1 & Hs1 & Hv1 & _). go E1. fields Hv1.
    exists t1, v1. split; [done|]. by repeat split. }
  destruct (args_name t v buf Hs Ha Hbuf) as (t1 & E1 & Hs1 & Hh1 & Hk1 & Hi1 & Hz1 & Hf1). go E1. change (negb (0 =? 0)) with false. cbv iota.
  assert (data (v_home v) t1 cat_lits) as Hl1 by (eapply data_same; [exact Hl|exact Hk1|by right]).
  destruct (find_dentry (v_img v) (v_args v)) as [d|] eqn:Ed; [destruct (free_stream (v_fds v)) as [i|] eqn:Ei|].
  - destruct (v_args v) as [|a w] eqn:Ew; [done|]. rewrite <- Ew in *. apply fmap_Some in Hspec as (s & Ho & [= -> ->]).
    destruct (open_opens t1 v buf _ d s i Hs1 Hi1 Hh1 Hz1 Hf1 Ho Ei) as (t2 & v2 & E2 & Hs2 & Hv2 & _). go E2.
    apply free_stream_Some in Ei as [Hi _]. rewrite (proj2 (Z.eqb_neq (-1) _)) by lia.
    fields Hv2 as [_ _ Him2 Hf2 Hc2 Hm2 Hy2]. rewrite <- Him2 in *. rewrite <- Hc2.
    destruct (cat_loop t2 v2 buf d i s (v_fds v)) as (t3 & v3 & E3 & Hs3 & Hc3 & Hks3); try done.
    exists t3, v3. split; [exact E3|]. split; [done|]. split; [exact Hc3|]. apply (keys_trans v v2); [by split|exact Hks3].
  - destruct (v_args v) as [|a w] eqn:Ew; [done|]. rewrite <- Ew in *. injection Hspec as <- <-.
    destruct (open_refuses t1 v buf _ Hs1 Hi1 Hh1 Hz1 ltac:(by right)) as (t2 & E2 & Hs2 & Hk2). go E2. change (-1 =? -1) with true. cbv iota.
    destruct (puts_lit t2 v (line "file not found") cat_lits Hs2 Hd) as (t3 & v3 & E3 & Hs3 & Hv3 & _);
      [eapply data_same; [exact Hl1|exact Hk2|by left]|in_list|]. go E3. fields Hv3. exists t3, v3. split; [done|]. by repeat split.
  - destruct (v_args v) as [|a w] eqn:Ew; [done|]. rewrite <- Ew in *. injection Hspec as <- <-.
    destruct (open_refuses t1 v buf _ Hs1 Hi1 Hh1 Hz1 ltac:(left; by rewrite Hf1)) as (t2 & E2 & Hs2 & Hk2). go E2. change (-1 =? -1) with true. cbv iota.
    destruct (puts_lit t2 v (line "file not found") cat_lits Hs2 Hd) as (t3 & v3 & E3 & Hs3 & Hv3 & _);
      [eapply data_same; [exact Hl1|exact Hk2|by left]|in_list|]. go E3. fields Hv3. exists t3, v3. split; [done|]. by repeat split.
Qed.

Lemma ls_ok t v buf r out :
  sees t v -> v_fds v !! 1%nat = Some SDisplay -> data (v_home v) t ls_lits ->
  inside buf SBUFSIZE -> Forall name_ends (im_dentries (v_img v)) -> ls_spec v = Some (r, out) ->
  exists t' v', ls_main buf t = (Ok r, t') /\ sees t' v' /\ v_con v' = con_puts out (v_con v) /\ keys_same v v'.
Proof.
  intros Hs Hd Hl Hbuf Hends Hspec. unfold ls_main. unfold ls_spec in Hspec.
  assert (placed (v_home v) t (text ".")) as (Hi & Hh & _) by (exact (Forall_inv Hl)).
  assert (find_dentry (v_img v) (text "." ++ [0]) = find_dentry (v_img v) (text ".")) as Hf
    by (apply (find_dentry_args _ (text ".") 1); by repeat constructor).
  assert (0 ∈ text "." ++ [0]) as Hz by (apply elem_of_app; right; by left).
  destruct (decide (find_dentry (v_img v) (text ".") = None \/ free_stream (v_fds v) = None)) as [Hno|Hyes].
  - assert (r = 2 /\ out = line "directory open failed") as [-> ->].
    { destruct (find_dentry _ (text ".")), (free_stream _); destruct Hno; try done; by injection Hspec. }
    destruct (open_refuses t v (lit (text ".")) _ Hs Hi Hh Hz ltac:(by rewrite Hf)) as (t2 & E2 & Hs2 & Hk2).
    go E2. change (-1 =? -1) with true. cbv iota.
    destruct (puts_lit t2 v (line "directory open failed") ls_lits Hs2 Hd) as (t3 & v3 & E3 & Hs3 & Hv3 & _);
      [eapply data_same; [exact Hl|exact Hk2|by left]|in_list|]. go E3. fields Hv3. exists t3, v3. split; [done|]. by repeat split.
  - destruct (find_dentry _ (text ".")) as [d|]; [|by destruct Hyes; left].
    destruct (free_stream (v_fds v)) as [i|] eqn:Ei; [|by destruct Hyes; right].
    destruct (d_type d =? dir) eqn:Et; [|done]. injection Hspec as <- <-.
    assert (opened (v_img v) d = Some (SDir 0)) as Ho by (unfold opened; by rewrite Et).
    destruct (open_opens t v _ _ d (SDir 0) i Hs Hi Hh Hz Hf Ho Ei) as (t2 & v2 & E2 & Hs2 & Hv2 & _). go E2.
    apply free_stream_Some in Ei as [Hi2 _]. rewrite (proj2 (Z.eqb_neq (-1) _)) by lia.
    fields Hv2 as [_ _ Him2 Hf2 Hc2 Hm2 Hy2]. destruct (sees_image t v Hs) as [Hnd _].
    destruct (dir_loop [10] i (v_fds v) (v_img v) (ls_step (Z.of_nat i) buf) t2 v2) as (t' & v' & j & E & Hs' & Hc & Hks & _);
      [by apply ls_lists|done|done|done|lia|]. exists t', v'. split; [done|]. split; [done|]. split; [by rewrite Hc, Hc2|].
    apply (keys_trans v v2); [by split|exact Hks].
Qed.

Lemma count_lines_S n : 0 <= n -> count_lines (n + 1) = count_lines n ++ numeral 10 (n + 1) ++ [10].
Proof.
  intros Hn. unfold count_lines. rewrite (seqZ_app 0 n 1) by lia. rewrite fmap_app, concat_app. f_equal.
  assert (seqZ (0 + n) 1 = [n]) as -> by (unfold seqZ; cbn; f_equal; lia).
  cbn [fmap list_fmap concat]. apply app_nil_r.
Qed.

(** The loop of [counter]. *)
Lemma count_ok t v buf n :
  sees t v -> v_fds v !! 1%nat = Some SDisplay -> data (v_home v) t counter_lits ->
  inside buf BUFSIZE -> clear_of buf BUFSIZE counter_lits -> 0 <= n < 1000000 ->
  exists t' v', for_range 0 n (fun i =>
      ece391_itoa (u32 (i + 1)) buf 10;;
      ece391_fdputs 1 buf;;
      ece391_fdputs 1 (lit [10])) t = (Ok tt, t') /\ sees t' v' /\ v_con v' = con_puts (count_lines n) (v_con v) /\ keys_same v v'.
Proof.
  intros Hs Hd Hl Hbuf Hclear Hn. unfold BUFSIZE in *. rewrite for_range_n by lia.
  match goal with |- context [for_n ?k 0 ?body t] =>
    destruct (for_n_ok (fun i t1 => exists v1, sees t1 v1 /\ v_home v1 = v_home v /\ v_fds v1 = v_fds v /\
      data (v_home v) t1 counter_lits /\ v_con v1 = con_puts (count_lines i) (v_con v) /\ keys_same v v1) k 0 body t) as (t' & E & v' & Hs' & _ & _ & _ & Hc' & Hks')
  end.
  - by exists v.
  - intros i t1 Hi (v1 & Hs1 & Hh1 & Hf1 & Hl1 & Hc1 & Hks1). rewrite u32_small by lia.
    pose proof (length_numeral 10 (i + 1) ltac:(lia) ltac:(lia)) as Hlen.
    pose proof (numeral_chars 10 (i + 1) ltac:(lia) ltac:(lia)) as Hch.
    assert (inside buf (Z.of_nat (length (numeral 10 (i + 1) ++ [0])))) as Hib
      by (rewrite length_app; cbn [length]; eapply inside_sub; [exact Hbuf|lia..]).
    destruct (ece391_itoa_ok t1 buf (at_ (v_home v1) buf) 10 (i + 1)) as (t2 & E2 & Hw2 & Hh2);
      [eapply maps_mono; [apply (inside_maps t1 v1 buf _ Hs1 Hib)|rewrite length_app; cbn [length]; lia]|lia|lia|].
    go E2. pose proof (inside_home v1 buf _ Hbuf) as Hhome.
    assert (sees t2 v1) as Hs2 by (eapply sees_wrote; [exact Hs1|exact Hw2|lia|lia]).
    assert (data (v_home v) t2 counter_lits) as Hl2.
    { rewrite <- Hh1. eapply data_same; [by rewrite Hh1| |right; exact Hclear]. eapply same_mono; [by apply wrote_same|lia]. }
    destruct (fdputs_ok t2 v1 1 buf (numeral 10 (i + 1))) as (t3 & v3 & E3 & Hs3 & Hv3 & Hk3); try done.
    { change (Z.to_nat 1) with 1%nat. by rewrite Hf1. }
    { eapply Forall_impl; [|exact Hch]. cbv beta. lia. }
    go E3. fields Hv3 as [Hh3 _ _ Hf3 Hc3 Hm3 Hy3].
    destruct (puts_lit t3 v3 [10] counter_lits) as (t4 & v4 & E4 & Hs4 & Hv4 & _ & Hl4); [done|congruence| |in_list|].
    { rewrite Hh3, Hh1. rewrite Hh1 in Hk3. eapply data_same; [exact Hl2|exact Hk3|by left]. }
    exists t4. split; [exact E4|]. fields Hv4 as [Hh4 _ _ Hf4 Hc4 Hm4 Hy4]. exists v4. split; [done|].
    split; [congruence|]. split; [congruence|]. split; [by rewrite Hh3, Hh1 in Hl4|].
    split; [|apply (keys_trans v v1); [exact Hks1|split; congruence]].
    rewrite Hc4, Hc3, Hc1, <- !con_puts_app, count_lines_S by lia. by rewrite app_assoc.
  - exists t', v'. split; [exact E|]. split; [done|]. split; [|exact Hks']. rewrite Hc'. do 2 f_equal. lia.
Qed.

(** The check of the line. *)
Lemma choice_ok t v buf l :
  sees t v -> inside buf (Z.of_nat (length (l ++ [0]))) -> holds t (at_ (v_home v) buf) (l ++ [0]) ->
  Forall (fun b => 0 < b < 256) l ->
  counter_choice buf t = (Ok (match counter_max l with Some _ => false | None => true end), t) /\
  load8 buf t = (Ok (byte_at (l ++ [0]) 0), t).
Proof.
  intros Hs Hi Hh Hl. pose proof (inside_maps t v buf _ Hs Hi) as Hm.
  assert (load8 buf t = (Ok (byte_at (l ++ [0]) 0), t)) as E.
  { pose proof (holds_load t buf (at_ (v_home v) buf) (l ++ [0]) 0 Hm Hh) as E. rewrite Z.add_0_r in E. apply E.
    rewrite length_app. cbn [length]. lia. }
  split; [|exact E]. assert (Z.of_nat (length (l ++ [0])) = Z.of_nat (length l) + 1) as Hlen by (rewrite length_app; cbn [length]; lia).
  assert (ece391_strlen buf t = (Ok (Z.of_nat (length l)), t)) as En.
  { apply (ece391_strlen_ok t buf (at_ (v_home v) buf)); [by rewrite <- Hlen|done| |].
    - eapply Forall_impl; [|exact Hl]. cbv beta. lia.
    - unfold inside, VIRTUAL_START, VIRTUAL_END in Hi. lia. }
  unfold counter_choice. go En. destruct l as [|b [|b2 l]].
  - change (1 <? Z.of_nat (length (@nil Z))) with false. cbv iota. go En. reflexivity.
  - cbn [length] in *. change (1 <? Z.of_nat 1) with false. cbv iota. go En. change (Z.of_nat 1 =? 1) with true. cbv iota.
    go E. change (byte_at ([b] ++ [0]) 0) with b. cbn [counter_max].
    destruct (Z.ltb_spec b 48) as [Hb|Hb].
    + rewrite ret_run. do 2 f_equal. zb. done.
    + go E. change (byte_at ([b] ++ [0]) 0) with b. rewrite ret_run. do 2 f_equal.
      destruct (Z.ltb_spec 50 b) as [Hb2|Hb2]; [by zb|].
      assert (b = 48 \/ b = 49 \/ b = 50) as [->|[->| ->]] by lia; done.
  - rewrite (proj2 (Z.ltb_lt 1 _)) by (cbn [length]; lia). done.
Qed.

Lemma counter_ok t v buf scs rest d' l c' :
  sees t v -> v_fds v !! 0%nat = Some SKeys -> v_fds v !! 1%nat = Some SDisplay ->
  data (v_home v) t counter_lits -> inside buf BUFSIZE -> clear_of buf BUFSIZE counter_lits ->
  v_typed v = scs :: rest ->
  presses scs (Typed (v_mods v) [] (con_puts (line "Enter the Test Number: (0): 100, (1): 10000, (2): 100000") (v_con v)) false) =
    Some (Typed d' l c' false) ->
  Z.of_nat (length l) < 128 ->
  exists t' v', counter_main buf t = (Ok 0, t') /\ sees t' v' /\
    v_con v' = con_puts (counter_spec l) (con_enter c') /\ v_mods v' = d' /\ v_typed v' = rest.
Proof.
  intros Hs Hk Hd Hl Hbuf Hclear Hty Hp Hlen. unfold counter_main. unfold BUFSIZE in *.
  destruct (puts_lit t v _ _ Hs Hd Hl ltac:(by left)) as (t1 & v1 & E1 & Hs1 & Hv1 & _ & Hl1). go E1. fields Hv1.
  destruct (read_keys t1 v1 0 scs rest d' l c' buf (1024 - 1) Hs1) as (t2 & v2 & E2 & Hs2 & Hv2 & Hh2 & Hb2 & Hk2);
    [lia|change (Z.to_nat 0) with 0%nat; congruence|eapply inside_sub; [exact Hbuf|lia..]|congruence|congruence|by left|].
  rewrite firstn_all2 in E2, Hh2, Hb2, Hk2 by lia. go E2. fields Hv2 as [Hh _ _ Hf2 Hc2 Hm2 Hy2].
  rewrite (u32_small (Z.of_nat _)) by lia. rewrite (proj2 (Z.eqb_neq (u32 (-1)) _)) by (change (u32 (-1)) with 4294967295; lia).
  assert (v_home v1 = v_home v) as Hh1 by congruence. rewrite Hh1 in *.
  assert (data (v_home v) t2 counter_lits) as Hl2.
  { eapply data_same; [exact Hl1|exact Hk2|right]. eapply Forall_impl; [|exact Hclear]. cbv beta. lia. }
  destruct (store_next t2 v2 buf l 1024 0 Hs2 Hbuf) as (t3 & E3 & Hs3 & Hh3 & Hk3); [by rewrite Hh|lia|done|]. go E3. rewrite Hh in *.
  assert (data (v_home v) t3 counter_lits) as Hl3 by (eapply data_same; [exact Hl2|exact Hk3|by right]).
  assert (inside buf (Z.of_nat (length (l ++ [0])))) as Hi'
    by (rewrite length_app; cbn [length]; eapply inside_sub; [exact Hbuf|lia..]).
  destruct (choice_ok t3 v2 buf l Hs3 Hi') as [Ech Eb]; [by rewrite Hh|done|]. go Ech. unfold counter_spec.
  destruct (counter_max l) as [n|] eqn:En.
  - go Eb. assert ((if byte_at (l ++ [0]) 0 =? 48 then 100 else if byte_at (l ++ [0]) 0 =? 49 then 10000
        else if byte_at (l ++ [0]) 0 =? 50 then 100000 else 0) = n /\ 0 <= n < 1000000) as [-> Hn].
    { destruct l as [|b [|b2 l]]; [by injection En as <-| |done]. cbn [counter_max] in En.
      change (byte_at ([b] ++ [0]) 0) with b. destruct (b =? 48), (b =? 49), (b =? 50); try discriminate En; injection En as <-; split; done || lia. }
    destruct (count_ok t3 v2 buf n Hs3) as (t4 & v4 & E4 & Hs4 & Hc4 & Hm4 & Hy4); [congruence|by rewrite Hh|done|done|done|].
    go E4. rewrite ret_run. exists t4, v4. split; [done|]. split; [done|]. split; [by rewrite Hc4, Hc2|split; congruence].
  - destruct (puts_lit t3 v2 (line "Wrong Choice!") counter_lits) as (t4 & v4 & E4 & Hs4 & Hv4 & _);
      [done|congruence|by rewrite Hh|in_list|]. go E4. fields Hv4 as [_ _ _ _ Hc4 Hm4 Hy4].
    exists t4, v4. split; [done|]. split; [done|]. split; [by rewrite Hc4, Hc2|split; congruence].
Qed.
End Mains.
