(* ===== verification/ErrorTests.v ===== *)
(** The error tests of [syscalls/ece391syserr.c], against the interface of [Calls.v]:
    the program calls the kernel with bad descriptors, names, pointers and numbers, and
    prints whether each was refused. *)

From S2P Require Import Prelude Memory CLib Support Machine Rofs Screen Process Handlers Calls Programs.

Definition NEG_FD : Z := -1073741823.
Definition BIG_FD : Z := 1073741823.
Definition BIG_NUM : Z := 1073741823.
Definition NEG_NUM : Z := -1073741823.

Section Tests.
Context {T : Type} `{Memory T} `{SysCalls T} `{Literals}.

(** [for (i = lo; i < hi; i++)] with a counter that the body may change. *)
Definition for_count (lo hi c : Z) (body : Z -> Z -> M T Z) : M T Z :=
  while (fun '(i, c) => if i <? hi then c ← body i c; mret (inl (i + 1, c)) else mret (inr c)) (lo, c).

(** [if (-1 != r) { fail = 2; ece391_fdputs (1, msg); }] *)
Definition expect (r fail : Z) (msg : list Z) : M T Z :=
  if negb (-1 =? r) then ece391_fdputs 1 (lit msg);; mret 2 else mret fail.

(** [if (fail) ... else ...], and [return fail]. *)
Definition verdict (fail : Z) (failed passed : list Z) : M T Z :=
  (if truth fail then ece391_fdputs 1 (lit failed) else ece391_fdputs 1 (lit passed));;
  mret fail.

(** [eax] is the number; the other registers hold what they hold. *)
Definition call_sys (regs : Z * Z * Z) (num : Z) : M T Z := trap num regs.1.1 regs.1.2 regs.2.

Definition err_neg_fd (buf : Z) : M T Z :=
  let fail := 0 in
  r ← ece391_read NEG_FD buf 31;
  fail ← expect r fail (line "read fail");
  r ← ece391_write NEG_FD buf 31;
  fail ← expect r fail (line "write fail");
  r ← ece391_close NEG_FD;
  fail ← expect r fail (line "close fail");
  verdict fail (line "err_neg_fd: FAIL") (line "err_neg_fd: PASS").

Definition err_big_fd (buf : Z) : M T Z :=
  let fail := 0 in
  r ← ece391_read BIG_FD buf 31;
  fail ← expect r fail (line "read fail");
  r ← ece391_write BIG_FD buf 31;
  fail ← expect r fail (line "write fail");
  r ← ece391_close BIG_FD;
  fail ← expect r fail (line "close fail");
  verdict fail (line "err_big_fd: FAIL") (line "err_big_fd: PASS").

Definition err_open_lots : M T Z :=
  cnt ← for_count 0 7 0 (fun _ cnt =>
    r ← ece391_open (lit (text "."));
    mret (if -1 =? r then cnt + 1 else cnt));
  for_range 2 8 (fun i => ece391_close i;; mret tt);;
  if cnt =? 1 then ece391_fdputs 1 (lit (line "err_open_lots: PASS"));; mret 0
  else ece391_fdputs 1 (lit (line "err_open_lots: FAIL"));; mret 2.

Definition err_open : M T Z :=
  let fail := 0 in
  r ← ece391_open (lit (text "helloo"));
  fail ← expect r fail (line "'helloo' fail");
  r ← ece391_open (lit (text "shel"));
  fail ← expect r fail (line "'shel' fail");
  r ← ece391_open (lit (text ""));
  fail ← expect r fail (line "empty string fail");
  verdict fail (line "err_open: FAIL") (line "err_open: PASS").

Definition err_unopened (buf : Z) : M T Z :=
  let fail := 0 in
  fail ← for_count 0 8 fail (fun i fail =>
    r ← ece391_close i; expect r fail (line "close unopened or invalid fd fail"));
  fail ← for_count 2 8 fail (fun i fail =>
    r ← ece391_read i buf 31; expect r fail (line "read from unopened fd fail"));
  fail ← for_count 2 8 fail (fun i fail =>
    r ← ece391_write i buf 31; expect r fail (line "write to unopened fd fail"));
  verdict fail (line "err_unopened: FAIL") (line "err_unopened: PASS").

Definition err_vidmap : M T Z :=
  let fail := 0 in
  r ← ece391_vidmap 0;
  fail ← expect r fail (line "Null pointer fail");
  r ← ece391_vidmap 0x400000;
  fail ← expect r fail (line "Kernel pointer fail fail");
  verdict fail (line "err_vidmap: FAIL") (line "err_vidmap: PASS").

Definition err_stdin_out (buf : Z) : M T Z :=
  let fail := 0 in
  r ← ece391_write 0 buf 31;
  fail ← expect r fail (line "write to stdin fail");
  r ← ece391_read 1 buf 31;
  fail ← expect r fail (line "read from stdout fail");
  verdict fail (line "err_stdin_out: FAIL") (line "err_stdin_out: PASS").

Definition err_syscall_num (regs : Z * Z * Z) : M T Z :=
  let fail := 0 in
  r ← call_sys regs BIG_NUM;
  fail ← expect r fail (line "syscall 0 fail");
  r ← call_sys regs NEG_NUM;
  fail ← expect r fail (line "big num syscall fail");
  r ← call_sys regs 0;
  fail ← expect r fail (line "neg num syscall fail");
  verdict fail (line "err_syscall_num: FAIL") (line "err_syscall_num: PASS").

(** [fail += test] for each of the tests. *)
Fixpoint run_tests (tests : list (M T Z)) (fail : Z) : M T Z :=
  match tests with
  | [] => mret fail
  | test :: tests => r ← test; run_tests tests (i32 (fail + r))
  end.

(** The buffers of the tests are [tbuf], that of [main] is [buf]. *)
Definition syserr_main (regs : Z * Z * Z) (tbuf buf : Z) : M T Z :=
  let fail := 0 in
  ece391_fdputs 1 (lit (text "Choose from tests 1-8. 0 to run all: "));;
  cnt ← ece391_read 0 buf 127;
  if -1 =? cnt then
    ece391_fdputs 1 (lit (line "Can't read test #"));;
    mret 2
  else
    b ← load8 buf;
    let select := b - 48 in
    if select =? 0 then
      fail ← run_tests [err_neg_fd tbuf; err_big_fd tbuf; err_open_lots; err_open; err_unopened tbuf; err_vidmap;
                        err_stdin_out tbuf; err_syscall_num regs] fail;
      verdict fail (10 :: line "Overall Tests: FAIL") (10 :: line "Overall Tests: PASS")
    else if select =? 1 then err_neg_fd tbuf
    else if select =? 2 then err_big_fd tbuf
    else if select =? 3 then err_open_lots
    else if select =? 4 then err_open
    else if select =? 5 then err_unopened tbuf
    else if select =? 6 then err_vidmap
    else if select =? 7 then err_stdin_out tbuf
    else if select =? 8 then err_syscall_num regs
    else
      ece391_fdputs 1 (lit (line "Invalid test number. Choose from tests 1-8 or 0"));;
      mret 0.
End Tests.

(** The literals that a run without a failure uses. *)
Definition syserr_lits : list (list Z) :=
  [text "Choose from tests 1-8. 0 to run all: "; text "."; text "helloo"; text "shel"; text ""; line "err_neg_fd: PASS";
   line "err_big_fd: PASS"; line "err_open_lots: PASS"; line "err_open: PASS"; line "err_unopened: PASS"; line "err_vidmap: PASS";
   line "err_stdin_out: PASS"; line "err_syscall_num: PASS"; 10 :: line "Overall Tests: PASS";
   line "Invalid test number. Choose from tests 1-8 or 0"].

(** The names that the tests open: the first is there, the others are not. *)
Record test_names (img : image) : Prop := {
  tn_dot : exists d s, find_dentry img (text ".") = Some d /\ opened img d = Some s;
  tn_helloo : find_dentry img (text "helloo") = None;
  tn_shel : find_dentry img (text "shel") = None;
  tn_empty : find_dentry img (text "") = None
}.

(** What the program prints after the line [l]. *)
Definition test_lines : list (list Z) :=
  line <$> ["err_neg_fd: PASS"; "err_big_fd: PASS"; "err_open_lots: PASS"; "err_open: PASS"; "err_unopened: PASS";
            "err_vidmap: PASS"; "err_stdin_out: PASS"; "err_syscall_num: PASS"]%string.
Definition syserr_spec (b : Z) : list Z :=
  if b =? 48 then concat test_lines ++ 10 :: line "Overall Tests: PASS"
  else default (line "Invalid test number. Choose from tests 1-8 or 0") (if 48 <? b then test_lines !! Z.to_nat (b - 49) else None).

Section Passing.
Context {T : Type} `{SysCallsOk T} {MO : MemoryOk T} `{Literals}.
Implicit Types (t : T) (v : view).

(** A program that has just started, and what a test that passes does to it. *)
Record fresh (t : T) (v : view) : Prop := {
  fr_sees : sees t v;
  fr_fds : v_fds v = SKeys :: SDisplay :: replicate 6 SClosed;
  fr_names : test_names (v_img v);
  fr_data : data (v_home v) t syserr_lits
}.

Definition passes (test : M T Z) (out : list Z) : Prop :=
  forall t v, fresh t v -> exists t' v', test t = (Ok 0, t') /\ fresh t' v' /\ v' = v <| v_con ::= con_puts out |>.

Lemma fresh_puts t v l : fresh t v -> In l syserr_lits ->
  exists t' v', ece391_fdputs 1 (lit l) t = (Ok tt, t') /\ fresh t' v' /\ v' = v <| v_con ::= con_puts l |>.
Proof.
  intros [Hs Hf Hn Hd] Hin. assert (v_fds v !! 1%nat = Some SDisplay) as H1' by (by rewrite Hf).
  destruct (puts_lit t v l syserr_lits Hs H1' Hd Hin) as (t' & v' & E & Hs' & -> & _ & Hd').
  exists t', (v <| v_con ::= con_puts l |>). split; [exact E|]. split; [|done]. by split.
Qed.

Lemma expect_run fail msg t : expect (-1) fail msg t = (Ok fail, t).
Proof. done. Qed.

Lemma verdict_run t v failed passed : fresh t v -> In passed syserr_lits ->
  exists t' v', verdict 0 failed passed t = (Ok 0, t') /\ fresh t' v' /\ v' = v <| v_con ::= con_puts passed |>.
Proof.
  intros Hfr Hin. destruct (fresh_puts t v passed Hfr Hin) as (t' & v' & E & Hfr' & Hv).
  exists t', v'. split; [|by split]. unfold verdict. change (truth 0) with false. cbv iota. by go E.
Qed.

(** A descriptor that is not open, or is the terminal's. *)
Lemma fresh_refused v fd (P : stream -> Prop) :
  v_fds v = SKeys :: SDisplay :: replicate 6 SClosed ->
  (fd = 0 -> P SKeys) -> (fd = 1 -> P SDisplay) -> (2 <= fd -> P SClosed) -> refused_by (v_fds v) fd P.
Proof.
  intros -> P0 P1 P2. unfold refused_by. destruct (Z.lt_ge_cases fd 0); [by left|right].
  destruct (Z.eq_dec fd 0) as [->|]; [by apply P0|]. destruct (Z.eq_dec fd 1) as [->|]; [by apply P1|].
  replace (Z.to_nat fd) with (S (S (Z.to_nat (fd - 2)))) by lia. cbn [lookup list_lookup].
  destruct (replicate 6 SClosed !! Z.to_nat (fd - 2)) as [s|] eqn:E; [|done].
  apply lookup_replicate in E as [-> _]. apply P2. lia.
Qed.

Lemma fresh_read t v fd a n : fresh t v -> int_range fd -> fd <> 0 -> ece391_read fd a n t = (Ok (-1), t).
Proof. intros [Hs Hf _ _] Hr Hne. apply (read_refuses t v fd a n Hs Hr). apply fresh_refused; [done|done|by right|by left]. Qed.

Lemma fresh_write t v fd a n : fresh t v -> int_range fd -> fd <> 1 -> ece391_write fd a n t = (Ok (-1), t).
Proof. intros [Hs Hf _ _] Hr Hne. apply (write_refuses t v fd a n Hs Hr). by apply fresh_refused. Qed.

Lemma fresh_close t v fd : fresh t v -> int_range fd -> ece391_close fd t = (Ok (-1), t).
Proof. intros [Hs Hf _ _] Hr. apply (close_refuses t v fd Hs Hr). apply fresh_refused; auto. Qed.

Lemma err_neg_fd_passes buf : passes (err_neg_fd buf) (line "err_neg_fd: PASS").
Proof.
  intros t v Hfr. assert (int_range NEG_FD) as Hr by (unfold int_range, NEG_FD; lia). unfold err_neg_fd.
  go (fresh_read t v NEG_FD buf 31) by done. go expect_run. go (fresh_write t v NEG_FD buf 31) by done. go expect_run.
  go (fresh_close t v NEG_FD) by done. go expect_run. apply verdict_run; [done|in_list].
Qed.

Lemma err_big_fd_passes buf : passes (err_big_fd buf) (line "err_big_fd: PASS").
Proof.
  intros t v Hfr. assert (int_range BIG_FD) as Hr by (unfold int_range, BIG_FD; lia). unfold err_big_fd.
  go (fresh_read t v BIG_FD buf 31) by done. go expect_run. go (fresh_write t v BIG_FD buf 31) by done. go expect_run.
  go (fresh_close t v BIG_FD) by done. go expect_run. apply verdict_run; [done|in_list].
Qed.

Lemma err_stdin_out_passes buf : passes (err_stdin_out buf) (line "err_stdin_out: PASS").
Proof.
  intros t v Hfr. unfold err_stdin_out. go (fresh_write t v 0 buf 31) by (done || (unfold int_range; lia)). go expect_run.
  go (fresh_read t v 1 buf 31) by (done || (unfold int_range; lia)). go expect_run. apply verdict_run; [done|in_list].
Qed.

Lemma err_vidmap_passes : passes err_vidmap (line "err_vidmap: PASS").
Proof.
  intros t v Hfr. unfold err_vidmap. pose proof (fr_sees _ _ Hfr) as Hs.
  go (vidmap_refuses t v 0 Hs) by (unfold VIRTUAL_START; lia). go expect_run.
  go (vidmap_refuses t v 0x400000 Hs) by (unfold VIRTUAL_START; lia). go expect_run. apply verdict_run; [done|in_list].
Qed.

Lemma err_syscall_num_passes regs : passes (err_syscall_num regs) (line "err_syscall_num: PASS").
Proof.
  intros t v Hfr. unfold err_syscall_num, call_sys. pose proof (fr_sees _ _ Hfr) as Hs.
  go (unknown_refused t v BIG_NUM) by (first [exact Hs|unfold BIG_NUM; rewrite i32_small; lia]). go expect_run.
  go (unknown_refused t v NEG_NUM) by (first [exact Hs|unfold NEG_NUM; rewrite i32_small; lia]). go expect_run.
  go (unknown_refused t v 0) by (first [exact Hs|rewrite i32_small; lia]). go expect_run. apply verdict_run; [done|in_list].
Qed.

(** A loop over descriptors that are all refused. *)
Lemma for_count_same lo hi c body t :
  lo <= hi -> hi - lo < 1000 -> (forall i, lo <= i < hi -> body i c t = (Ok c, t)) -> for_count lo hi c body t = (Ok c, t).
Proof.
  intros Hle Hn Hb. unfold for_count.
  destruct (while_steps (fun k '(i, c') t' => lo <= i <= hi /\ c' = c /\ t' = t /\ k = Z.to_nat (hi - i)) (fun r t' => r = c /\ t' = t)
    (fun '(i, c) => if i <? hi then c ← body i c; mret (inl (i + 1, c)) else mret (inr c)) (Z.to_nat (hi - lo)) (lo, c) t)
    as (r & t' & E & -> & ->); [split_and!; done || lia| |lia|exact E].
  intros k [i c'] t' (Hi & -> & -> & ->). destruct (Z.ltb_spec i hi).
  - right. go Hb by lia. eexists _, (i + 1, c), t. split; [reflexivity|]. split; [split; [lia|done]|lia].
  - left. exists c, t. done.
Qed.

Lemma err_unopened_passes buf : passes (err_unopened buf) (line "err_unopened: PASS").
Proof.
  intros t v Hfr. unfold err_unopened.
  go (for_count_same 0 8 0) by (first [lia|intros i Hi; go (fresh_close t v i) by (done || (unfold int_range; lia)); done]).
  go (for_count_same 2 8 0) by (first [lia|intros i Hi; go (fresh_read t v i buf 31) by (done || lia || (unfold int_range; lia)); done]).
  go (for_count_same 2 8 0) by (first [lia|intros i Hi; go (fresh_write t v i buf 31) by (done || lia || (unfold int_range; lia)); done]).
  apply verdict_run; [done|in_list].
Qed.

(** The names of the tests. *)
Lemma fresh_placed t v l : fresh t v -> In l syserr_lits ->
  inside (lit l) (Z.of_nat (length (l ++ [0]))) /\ holds t (at_ (v_home v) (lit l)) (l ++ [0]) /\ 0 ∈ l ++ [0] /\
  find_dentry (v_img v) (l ++ [0]) = find_dentry (v_img v) l.
Proof.
  intros [_ _ _ Hd] Hin. unfold data in Hd. destruct (proj1 (Forall_forall _ _) Hd l Hin) as (Hi & Hh & Hz).
  split; [done|]. split; [done|]. split; [apply elem_of_app; right; by left|].
  apply (find_dentry_args _ l 1). by apply strings_nz.
Qed.

Lemma fresh_unknown t v l : fresh t v -> In l syserr_lits -> find_dentry (v_img v) l = None ->
  exists t', ece391_open (lit l) t = (Ok (-1), t') /\ fresh t' v.
Proof.
  intros Hfr Hin Hno. destruct (fresh_placed t v l Hfr Hin) as (Hi & Hh & Hz & Hf). destruct Hfr as [Hs Hfd Hn Hd].
  destruct (open_refuses t v (lit l) _ Hs Hi Hh Hz ltac:(left; by rewrite Hf)) as (t' & E & Hs' & Hk).
  exists t'. split; [exact E|]. split; [done|done|done|]. eapply data_same; [exact Hd|exact Hk|by left].
Qed.

Lemma err_open_passes : passes err_open (line "err_open: PASS").
Proof.
  intros t v Hfr. destruct (fr_names _ _ Hfr) as [_ N1 N2 N3]. unfold err_open.
  destruct (fresh_unknown t v (text "helloo") Hfr ltac:(in_list) N1) as (t1 & E1 & Hf1). go E1. go expect_run.
  destruct (fresh_unknown t1 v (text "shel") Hf1 ltac:(in_list) N2) as (t2 & E2 & Hf2). go E2. go expect_run.
  destruct (fresh_unknown t2 v (text "") Hf2 ltac:(in_list) N3) as (t3 & E3 & Hf3). go E3. go expect_run.
  apply verdict_run; [done|in_list].
Qed.

(** [j] of the six free descriptors have been opened on [s], or closed again. *)
Definition opened_fds (s : stream) (j : nat) : list stream := SKeys :: SDisplay :: replicate j s ++ replicate (6 - j) SClosed.
Definition closed_fds (s : stream) (j : nat) : list stream := SKeys :: SDisplay :: replicate j SClosed ++ replicate (6 - j) s.

Lemma opened_free s j : s <> SClosed -> (j < 6)%nat ->
  free_stream (opened_fds s j) = Some (2 + j)%nat /\ <[(2 + j)%nat := s]> (opened_fds s j) = opened_fds s (S j).
Proof. intros Hs Hj. do 6 (destruct j as [|j]; [split; [unfold free_stream; cbn; by repeat (rewrite decide_False by done; cbn)|done]|]). lia. Qed.

Lemma opened_full s : s <> SClosed -> free_stream (opened_fds s 6) = None.
Proof. intros Hs. unfold free_stream. cbn. by repeat (rewrite decide_False by done; cbn). Qed.

Lemma closed_next s j : (j < 6)%nat ->
  closed_fds s j !! (2 + j)%nat = Some s /\ <[(2 + j)%nat := SClosed]> (closed_fds s j) = closed_fds s (S j).
Proof. intros Hj. do 6 (destruct j as [|j]; [done|]). lia. Qed.

(** What the test starts from, with other descriptors. *)
Definition with_fds (t : T) (v : view) (l : list stream) : Prop :=
  sees t (v <| v_fds := l |>) /\ data (v_home v) t syserr_lits.

Lemma open_dot t v s d j :
  find_dentry (v_img v) (text ".") = Some d -> opened (v_img v) d = Some s -> s <> SClosed -> (j < 6)%nat ->
  with_fds t v (opened_fds s j) ->
  exists t', ece391_open (lit (text ".")) t = (Ok (Z.of_nat (2 + j)), t') /\ with_fds t' v (opened_fds s (S j)).
Proof.
  intros Hd Ho Hs Hj [Hse Hda]. pose proof (Hda) as Hda'. unfold data in Hda'.
  destruct (proj1 (Forall_forall _ _) Hda' (text ".") ltac:(in_list)) as (Hi & Hh & Hz).
  destruct (opened_free s j Hs Hj) as [Hfree Hins].
  assert (find_dentry (v_img v) (text "." ++ [0]) = Some d) as Hd'
    by (rewrite <- Hd; apply (find_dentry_args _ (text ".") 1); by repeat constructor).
  destruct (open_opens t (v <| v_fds := opened_fds s j |>) (lit (text ".")) (text "." ++ [0]) d s (2 + j)) as (t' & v' & E & Hs' & Hv & Hk);
    [exact Hse|exact Hi|exact Hh|apply elem_of_app; right; by left|exact Hd'|exact Ho|exact Hfree|].
  exists t'. split; [exact E|]. split; [|eapply data_same; [exact Hda|exact Hk|by left]].
  rewrite <- Hins. subst v'. exact Hs'.
Qed.

Lemma open_dot_full t v s : s <> SClosed -> with_fds t v (opened_fds s 6) ->
  exists t', ece391_open (lit (text ".")) t = (Ok (-1), t') /\ with_fds t' v (opened_fds s 6).
Proof.
  intros Hs [Hse Hda]. pose proof (Hda) as Hda'. unfold data in Hda'.
  destruct (proj1 (Forall_forall _ _) Hda' (text ".") ltac:(in_list)) as (Hi & Hh & Hz).
  destruct (open_refuses t (v <| v_fds := opened_fds s 6 |>) (lit (text ".")) (text "." ++ [0])) as (t' & E & Hs' & Hk);
    [exact Hse|exact Hi|exact Hh|apply elem_of_app; right; by left|right; by apply opened_full|].
  exists t'. split; [exact E|]. split; [exact Hs'|eapply data_same; [exact Hda|exact Hk|by left]].
Qed.

Lemma close_next t v s j :
  (match s with SFile _ _ | SDir _ => True | _ => False end) -> (j < 6)%nat -> with_fds t v (closed_fds s j) ->
  exists t', ece391_close (Z.of_nat (2 + j)) t = (Ok 0, t') /\ with_fds t' v (closed_fds s (S j)).
Proof.
  intros Hs Hj [Hse Hda]. destruct (closed_next s j Hj) as [Hl Hins].
  destruct (close_closes t (v <| v_fds := closed_fds s j |>) (Z.of_nat (2 + j)) s) as (t' & v' & E & Hs' & Hv & Hk);
    [exact Hse|lia|rewrite Nat2Z.id; exact Hl|exact Hs|].
  exists t'. split; [exact E|]. split; [|eapply data_same; [exact Hda|exact Hk|by left]].
  rewrite <- Hins. subst v'. rewrite Nat2Z.id in Hs'. exact Hs'.
Qed.

(** Seven names are opened; the last is refused. *)
Lemma open_seven t v d s :
  find_dentry (v_img v) (text ".") = Some d -> opened (v_img v) d = Some s -> s <> SClosed -> with_fds t v (opened_fds s 0) ->
  exists t', for_count 0 7 0 (fun _ cnt => r ← ece391_open (lit (text ".")); mret (if -1 =? r then cnt + 1 else cnt)) t = (Ok 1, t') /\
    with_fds t' v (opened_fds s 6).
Proof.
  intros Hd Ho Hs Hw. unfold for_count.
  destruct (while_steps (fun k '(i, c) t' => exists j, (j <= 7)%nat /\ i = Z.of_nat j /\ c = (if decide (j = 7)%nat then 1 else 0) /\
      with_fds t' v (opened_fds s (Nat.min j 6)) /\ k = (7 - j)%nat) (fun r t' => r = 1 /\ with_fds t' v (opened_fds s 6))
    (fun '(i, c) => if i <? 7 then c ← (r ← ece391_open (lit (text ".")); mret (if -1 =? r then c + 1 else c)); mret (inl (i + 1, c))
       else mret (inr c)) 7 (0, 0) t) as (r & t' & E & -> & Hw'); [| |lia|by exists t'].
  { exists 0%nat. split_and!; done || lia. }
  intros k [i c] t1 (j & Hj & -> & -> & Hw1 & ->). destruct (Z.ltb_spec (Z.of_nat j) 7).
  - right. rewrite decide_False by lia. destruct (decide (j = 6)%nat) as [->|Hne].
    + destruct (open_dot_full t1 v s Hs Hw1) as (t2 & E2 & Hw2). go E2. change (-1 =? -1) with true. cbv iota. mrun.
      eexists 0%nat, _, t2. split; [reflexivity|]. split; [exists 7%nat; split_and!; done || lia|lia].
    + rewrite Nat.min_l in Hw1 by lia.
      destruct (open_dot t1 v s d j Hd Ho Hs ltac:(lia) Hw1) as (t2 & E2 & Hw2). go E2.
      rewrite (proj2 (Z.eqb_neq (-1) _)) by lia. mrun. eexists (7 - S j)%nat, _, t2. split; [reflexivity|].
      split; [exists (S j)|lia]. rewrite decide_False, Nat.min_l by lia. split_and!; done || lia.
  - left. assert (j = 7%nat) as -> by lia. eexists _, t1. split; [reflexivity|]. by split.
Qed.

Lemma close_six t v s :
  (match s with SFile _ _ | SDir _ => True | _ => False end) -> with_fds t v (closed_fds s 0) ->
  exists t', for_range 2 8 (fun i => ece391_close i;; mret tt) t = (Ok tt, t') /\ with_fds t' v (closed_fds s 6).
Proof.
  intros Hs Hw. rewrite for_range_n by lia.
  destruct (for_n_ok (fun i t' => with_fds t' v (closed_fds s (Z.to_nat (i - 2)))) (Z.to_nat (8 - 2)) 2
    (fun i => ece391_close i;; mret tt) t) as (t' & E & Hw'); [exact Hw| |by exists t'].
  intros i t1 Hi Hw1. destruct (close_next t1 v s (Z.to_nat (i - 2)) Hs ltac:(lia) Hw1) as (t2 & E2 & Hw2).
  replace (Z.of_nat (2 + Z.to_nat (i - 2))) with i in E2 by lia. go E2. exists t2. split; [done|].
  by replace (Z.to_nat (i + 1 - 2)) with (S (Z.to_nat (i - 2))) by lia.
Qed.

Lemma err_open_lots_passes : passes err_open_lots (line "err_open_lots: PASS").
Proof.
  intros t v Hfr. pose proof Hfr as [Hs Hf Hn Hda]. destruct (tn_dot _ Hn) as (d & s & Hd & Ho). unfold err_open_lots.
  assert (match s with SFile _ _ | SDir _ => True | _ => False end) as Hk.
  { unfold opened in Ho. destruct (_ =? _); [by injection Ho as <-|]. destruct (_ =? _); [|done].
    apply fmap_Some in Ho as (c & _ & ->). done. }
  assert (s <> SClosed) as Hne by (by intros ->).
  assert (v <| v_fds := SKeys :: SDisplay :: replicate 6 SClosed |> = v) as Hv by (rewrite <- Hf; by destruct v).
  assert (with_fds t v (opened_fds s 0)) as Hw by (split; [|exact Hda]; change (opened_fds s 0) with (SKeys :: SDisplay :: replicate 6 SClosed); by rewrite Hv).
  destruct (open_seven t v d s Hd Ho Hne Hw) as (t1 & E1 & Hw1). go E1.
  change (opened_fds s 6) with (closed_fds s 0) in Hw1.
  destruct (close_six t1 v s Hk Hw1) as (t2 & E2 & [Hs2 Hd2]). go E2. change (1 =? 1) with true. cbv iota.
  change (closed_fds s 6) with (SKeys :: SDisplay :: replicate 6 SClosed) in Hs2. rewrite Hv in Hs2.
  destruct (fresh_puts t2 v (line "err_open_lots: PASS")) as (t3 & v3 & E3 & Hfr3 & Hv3); [by split|in_list|]. go E3. by exists t3, v3.
Qed.

(** All of them. *)
Lemma run_tests_pass tests : forall outs t v, Forall2 passes tests outs -> fresh t v ->
  exists t' v', run_tests tests 0 t = (Ok 0, t') /\ fresh t' v' /\ v' = v <| v_con ::= con_puts (concat outs) |>.
Proof.
  induction tests as [|test tests IH]; intros outs t v Hp Hfr.
  - inversion Hp; subst. exists t, v. split; [done|]. split; [done|]. by destruct v.
  - inversion Hp as [|? out ? outs' Ht Hp']; subst. destruct (Ht t v Hfr) as (t1 & v1 & E1 & Hfr1 & Hv1).
    destruct (IH outs' t1 v1 Hp' Hfr1) as (t2 & v2 & E2 & Hfr2 & Hv2). exists t2, v2. cbn [run_tests]. go E1. change (i32 (0 + 0)) with 0.
    split; [exact E2|]. split; [done|]. rewrite Hv2, Hv1. destruct v. cbn. by rewrite con_puts_app.
Qed.

Definition all_tests (regs : Z * Z * Z) (tbuf : Z) : list (M T Z) :=
  [err_neg_fd tbuf; err_big_fd tbuf; err_open_lots; err_open; err_unopened tbuf; err_vidmap; err_stdin_out tbuf; err_syscall_num regs].

Lemma all_tests_pass regs tbuf : Forall2 passes (all_tests regs tbuf) test_lines.
Proof.
  refine (List.Forall2_cons _ _ _ (List.Forall2_cons _ _ _ (List.Forall2_cons _ _ _ (List.Forall2_cons _ _ _ (List.Forall2_cons _ _ _
    (List.Forall2_cons _ _ _ (List.Forall2_cons _ _ _ (List.Forall2_cons _ _ _ (List.Forall2_nil _)))))))));
   [apply err_neg_fd_passes|apply err_big_fd_passes|apply err_open_lots_passes|apply err_open_passes|
    apply err_unopened_passes|apply err_vidmap_passes|apply err_stdin_out_passes|apply err_syscall_num_passes].
Qed.

Local Ltac choose k Hpass :=
  match goal with |- context [?b - 48 =? k] =>
    destruct (Z.eqb_spec (b - 48) k) as [Hk|]; [assert (b = 48 + k) as -> by lia;
      match goal with Hone : forall test out, passes test out -> _ |- _ => exact (Hone _ _ Hpass) end|]
  end.

(** What [main] does once it has the line. *)
Lemma chosen_ok regs tbuf b t v :
  fresh t v -> 0 < b < 256 ->
  exists t' v', (let select := b - 48 in
    if select =? 0 then
      fail ← run_tests (all_tests regs tbuf) 0;
      verdict fail (10 :: line "Overall Tests: FAIL") (10 :: line "Overall Tests: PASS")
    else if select =? 1 then err_neg_fd tbuf
    else if select =? 2 then err_big_fd tbuf
    else if select =? 3 then err_open_lots
    else if select =? 4 then err_open
    else if select =? 5 then err_unopened tbuf
    else if select =? 6 then err_vidmap
    else if select =? 7 then err_stdin_out tbuf
    else if select =? 8 then err_syscall_num regs
    else
      ece391_fdputs 1 (lit (line "Invalid test number. Choose from tests 1-8 or 0"));;
      mret 0) t = (Ok 0, t') /\ fresh t' v' /\ v_con v' = con_puts (syserr_spec b) (v_con v).
Proof.
  intros Hfr Hb. cbv zeta. pose proof (all_tests_pass regs tbuf) as Hall. destruct (Z.eqb_spec (b - 48) 0) as [H48|H48].
  - assert (b = 48) as -> by lia. destruct (run_tests_pass _ _ t v Hall Hfr) as (t1 & v1 & E1 & Hf1 & Hv1). go E1.
    destruct (verdict_run t1 v1 (10 :: line "Overall Tests: FAIL") (10 :: line "Overall Tests: PASS") Hf1 ltac:(in_list))
      as (t2 & v2 & E2 & Hf2 & Hv2). exists t2, v2. split; [exact E2|]. split; [done|]. rewrite Hv2, Hv1.
    change (syserr_spec 48) with (concat test_lines ++ 10 :: line "Overall Tests: PASS"). by rewrite con_puts_app.
  - unfold syserr_spec. rewrite (proj2 (Z.eqb_neq b 48)) by lia. unfold all_tests in Hall.
    assert (forall (test : M T Z) out, passes test out -> exists t' v', test t = (Ok 0, t') /\ fresh t' v' /\ v_con v' = con_puts out (v_con v)) as Hone.
    { intros test out Hp. destruct (Hp t v Hfr) as (t' & v' & E & Hf' & ->). exists t', (v <| v_con ::= con_puts out |>). by split. }
    choose 1 (err_neg_fd_passes tbuf).
    choose 2 (err_big_fd_passes tbuf).
    choose 3 (err_open_lots_passes).
    choose 4 (err_open_passes).
    choose 5 (err_unopened_passes tbuf).
    choose 6 (err_vidmap_passes).
    choose 7 (err_stdin_out_passes tbuf).
    choose 8 (err_syscall_num_passes regs).
    assert ((if 48 <? b then test_lines !! Z.to_nat (b - 49) else None) = None) as ->.
    { destruct (Z.ltb_spec 48 b); [|done]. apply lookup_ge_None_2. cbn. lia. }
    destruct (fresh_puts t v (line "Invalid test number. Choose from tests 1-8 or 0") Hfr ltac:(in_list)) as (t1 & v1 & E1 & Hf1 & Hv1).
    go E1. exists t1, v1. split; [done|]. split; [done|]. by rewrite Hv1.
Qed.

Lemma syserr_ok t v regs tbuf buf scs rest d' b l c' :
  fresh t v -> inside buf 128 -> clear_of buf 128 syserr_lits -> v_typed v = scs :: rest ->
  presses scs (Typed (v_mods v) [] (con_puts (text "Choose from tests 1-8. 0 to run all: ") (v_con v)) false) =
    Some (Typed d' (b :: l) c' false) ->
  exists t' v', syserr_main regs tbuf buf t = (Ok 0, t') /\ sees t' v' /\ v_con v' = con_puts (syserr_spec b) (con_enter c').
Proof.
  intros Hfr Hbuf Hclear Hty Hp. unfold syserr_main.
  destruct (fresh_puts t v (text "Choose from tests 1-8. 0 to run all: ") Hfr ltac:(in_list)) as (t1 & v1 & E1 & [Hs1 Hf1 Hn1 Hd1] & Hv1).
  go E1. fields Hv1 as [Hh1 _ Hi1 _ Hc1 Hm1 Ht1].
  destruct (read_keys t1 v1 0 scs rest d' (b :: l) c' buf 127 Hs1) as (t2 & v2 & E2 & Hs2 & Hv2 & Hh2 & Hb2 & Hk2);
    [lia|by rewrite Hf1|eapply inside_sub; [exact Hbuf|lia..]|congruence|by rewrite Hm1, Hc1|by right|].
  change (take (Z.to_nat 127) (b :: l)) with (b :: take 126 l) in *. set (s := b :: take 126 l) in *.
  assert (Z.of_nat (length s) <= 127) as Hls by (unfold s; cbn [length]; rewrite length_take; lia).
  go E2. rewrite (proj2 (Z.eqb_neq (-1) _)) by lia. fields Hv2 as [Hho2 _ Hi2 Hf2 Hc2 _ _].
  assert (inside buf (Z.of_nat (length s))) as Hins by (eapply inside_sub; [exact Hbuf|lia..]).
  pose proof (inside_maps t2 v2 buf _ Hs2 Hins) as Hm2. rewrite Hho2 in Hm2.
  pose proof (holds_load t2 buf (at_ (v_home v1) buf) s 0 Hm2 Hh2) as E3. rewrite Z.add_0_r in E3.
  rewrite bind_run, E3 by (unfold s; cbn [length]; lia). change (byte_at s 0) with b. cbv beta iota.
  assert (fresh t2 v2) as Hfr2.
  { split; [exact Hs2|by rewrite Hf2|by rewrite Hi2|]. rewrite Hho2. eapply data_same; [exact Hd1|exact Hk2|right].
    eapply Forall_impl; [|exact Hclear]. cbv beta. lia. }
  destruct (chosen_ok regs tbuf b t2 v2 Hfr2 (Forall_inv Hb2)) as (t3 & v3 & E4 & [Hs3 _ _ _] & Hc3).
  exists t3, v3. split; [exact E4|]. split; [exact Hs3|]. by rewrite Hc3, Hc2.
Qed.
End Passing.
