(* ===== verification/Grep.v ===== *)
(** The program [syscalls/ece391grep.c], against the interface of [Calls.v]: it looks
    for its argument in every file of the directory, through a buffer of 1024
    bytes that lines are moved to the front of. *)

From S2P Require Import Prelude Memory CLib Support Machine Rofs Screen Process Handlers Calls Programs.

Section Code.
Context {T : Type} `{Memory T} `{SysCalls T} `{Literals}.

(** [for (check = line_start; ...)]: the first place where the string occurs. *)
Definition grep_search (s fname data s_len line_start line_end : Z) : M T unit :=
  while (fun check =>
    if check <? line_end then
      c0 ← load8 s;
      c ← load8 (data + check);
      r ← (if i8 c0 =? c then ece391_strncmp (data + check) s (u32 s_len) else mret 1);
      if (i8 c0 =? c) && (0 =? r) then
        ece391_fdputs 1 fname;;
        ece391_fdputs 1 (lit (text ":"));;
        ece391_fdputs 1 (data + line_start);;
        ece391_fdputs 1 (lit [10]);;
        mret (inr tt)
      else mret (inl (check + 1))
    else mret (inr tt)) line_start.

(** [while (line_end < last && '\n' != data[line_end]) line_end++;] *)
Definition grep_line_end (data last line_start : Z) : M T Z :=
  while (fun line_end =>
    if line_end <? last then
      c ← load8 (data + line_end);
      if 10 =? c then mret (inr line_end) else mret (inl (line_end + 1))
    else mret (inr line_end)) line_start.

(** The inner loop, on the lines of a buffer: the [last] it leaves. *)
Definition grep_lines (s fname data s_len last cnt : Z) : M T Z :=
  while (fun line_start =>
    line_end ← grep_line_end data last line_start;
    c ← load8 (data + line_end);
    if negb (10 =? c) && negb (0 =? cnt) && negb (line_start =? 0) then
      store8 (data + line_end) 0;;
      ece391_strcpy data (data + line_start);;
      mret (inr (last - line_start))
    else
      store8 (data + line_end) 0;;
      grep_search s fname data s_len line_start line_end;;
      let line_start := line_end + 1 in
      if last <=? line_start then mret (inr 0) else mret (inl line_start)) 0.

(** The outer loop; it ends with false where the function returns -1. *)
Definition grep_buffers (s fname fd data s_len : Z) : M T bool :=
  while (fun last =>
    cnt ← ece391_read fd (data + last) (BUFSIZE - last);
    if -1 =? cnt then
      ece391_fdputs 1 (lit (line "file read failed"));;
      mret (inr false)
    else
      last ← grep_lines s fname data s_len (last + cnt) cnt;
      if 0 =? cnt then mret (inr true) else mret (inl last)) 0.

Definition do_one_file (s fname data : Z) : M T Z :=
  n ← ece391_strlen s;
  let s_len := i32 n in
  fd ← ece391_open fname;
  if -1 =? fd then
    ece391_fdputs 1 (lit (line "file open failed"));;
    mret (-1)
  else
    ok ← grep_buffers s fname fd data s_len;
    if ok : bool then
      r ← ece391_close fd;
      if -1 =? r then
        ece391_fdputs 1 (lit (line "file close failed"));;
        mret (-1)
      else mret 0
    else mret (-1).

Definition grep_step (fd search buf data : Z) (_ : unit) : M T (unit + Z) :=
  cnt ← ece391_read fd buf (SBUFSIZE - 1);
  if 0 =? cnt then mret (inr 0)
  else if -1 =? cnt then
    ece391_fdputs 1 (lit (line "directory entry read failed"));;
    mret (inr 3)
  else
    c ← load8 buf;
    if 46 =? c then mret (inl tt)
    else
      store8 (buf + cnt) 0;;
      r ← do_one_file search buf data;
      if negb (0 =? r) then mret (inr 3) else mret (inl tt).

Definition grep_main (search buf data : Z) : M T Z :=
  r ← ece391_getargs search BUFSIZE;
  if negb (0 =? r) then
    ece391_fdputs 1 (lit (line "could not read argument"));;
    mret 3
  else
    fd ← ece391_open (lit (text "."));
    if -1 =? fd then
      ece391_fdputs 1 (lit (line "directory open failed"));;
      mret 2
    else while (grep_step fd search buf data) tt.
End Code.

Definition grep_lits : list (list Z) :=
  [text ":"; [10]; line "file read failed"; line "file open failed"; line "file close failed";
   line "directory entry read failed"; line "could not read argument"; text "."; line "directory open failed"].

(** * What is printed *)

(** [s] occurs in [l]. *)
Fixpoint occurs (s l : list Z) : bool :=
  match l with [] => false | c :: l' => bool_decide (s `prefix_of` l) || occurs s l' end.

(** What a line adds to the output. *)
Definition hit (s name l : list Z) : list Z := if occurs s l then name ++ text ":" ++ l ++ [10] else [].

(** The contents of a file, line by line; [cur] is the line so far, and a line of more than 1024
    characters counts as several. *)
Fixpoint grep_out (s name cur l : list Z) : list Z :=
  match l with
  | [] => hit s name cur
  | c :: l' =>
      if c =? 10 then hit s name cur ++ grep_out s name [] l'
      else if (length cur =? 1023)%nat then hit s name (cur ++ [c]) ++ grep_out s name [] l'
      else grep_out s name (cur ++ [c]) l'
  end.

(** The files of the directory, up to the first empty name; names that begin with a
    dot are left out.  [None] when something else than a file would be read. *)
Fixpoint grep_files (img : image) (s : list Z) (ds : list dentry_s) : option (list Z) :=
  match ds with
  | [] => Some []
  | d :: ds' =>
      let n := name_of (d_name d) in
      match n with
      | [] => Some []
      | c :: _ =>
          if c =? 46 then grep_files img s ds'
          else
            match find_dentry img n ≫= opened img with
            | Some (SFile f _) => (app (grep_out s n [] (sanitize <$> f))) <$> grep_files img s ds'
            | _ => None
            end
      end
  end.

Definition grep_spec (v : view) : option (Z * list Z) :=
  match v_args v with
  | [] => Some (3, line "could not read argument")
  | _ =>
      match find_dentry (v_img v) (text "."), free_stream (v_fds v) with
      | Some d, Some i =>
          if d_type d =? dir then
            match free_stream (<[i := SDir 0]> (v_fds v)) with
            | Some _ => (fun out => (0, out)) <$> grep_files (v_img v) (v_args v) (im_dentries (v_img v))
            | None => None
            end
          else None
      | _, _ => Some (2, line "directory open failed")
      end
  end.

(** Facts on the output. *)
Lemma hit_nil s name : hit s name [] = [].
Proof. done. Qed.

Lemma grep_out_line s name l : forall cur l',
  Forall (fun c => c <> 10) l -> (length cur + length l <= 1023)%nat -> grep_out s name cur (l ++ l') = grep_out s name (cur ++ l) l'.
Proof.
  induction l as [|c l IH]; intros cur l' Hl Hlen; [by rewrite app_nil_r|]. inversion Hl; subst. cbn [app grep_out length] in *.
  rewrite (proj2 (Z.eqb_neq c 10)) by done. rewrite (proj2 (Nat.eqb_neq _ 1023)) by lia.
  rewrite IH by (first [done|rewrite length_app; cbn; lia]). by rewrite <- app_assoc.
Qed.

Lemma grep_out_newline s name l l' : Forall (fun c => c <> 10) l -> (length l <= 1023)%nat ->
  grep_out s name [] (l ++ 10 :: l') = hit s name l ++ grep_out s name [] l'.
Proof. intros Hl Hn. rewrite grep_out_line by done. done. Qed.

Lemma grep_out_long s name l l' : Forall (fun c => c <> 10) l -> length l = 1024%nat ->
  grep_out s name [] (l ++ l') = hit s name l ++ grep_out s name [] l'.
Proof.
  intros Hl Hn. destruct (list.last l) as [c|] eqn:E; [|by apply last_None in E; subst].
  apply last_Some in E as (l1 & ->). rewrite length_app in Hn. cbn [length] in Hn. apply Forall_app in Hl as [Hl1 Hc].
  rewrite <- app_assoc. rewrite grep_out_line by (first [done|cbn; lia]). cbn [app grep_out].
  rewrite (proj2 (Z.eqb_neq c 10)) by exact (Forall_inv Hc). by rewrite (proj2 (Nat.eqb_eq _ 1023)) by lia.
Qed.

Lemma grep_out_short s name l : Forall (fun c => c <> 10) l -> (length l <= 1024)%nat -> grep_out s name [] l = hit s name l.
Proof.
  intros Hl Hn. rewrite <- (app_nil_r l) at 1. destruct (decide (length l = 1024%nat)).
  - rewrite grep_out_long by done. cbn [grep_out]. by rewrite hit_nil, app_nil_r.
  - by rewrite grep_out_line by (first [done|cbn; lia]).
Qed.

Section Proofs.
Context {T : Type} `{SysCallsOk T} {MO : MemoryOk T} `{Literals}.
Implicit Types (t : T) (v : view).

(** A string at an address of the program. *)
Definition string_at (h : Z) t (a : Z) (l : list Z) : Prop :=
  inside a (Z.of_nat (length (l ++ [0]))) /\ holds t (at_ h a) (l ++ [0]) /\ Forall (fun c => c <> 0) l.

Lemma string_same h t t' a l k n : string_at h t a l -> same_but h k n t t' ->
  (n <= 0 \/ a + Z.of_nat (length (l ++ [0])) <= k \/ k + n <= a) -> string_at h t' a l.
Proof. intros (Hi & Hh & Hn) Hs Hd. split; [done|]. split; [|done]. by eapply same_holds. Qed.

Lemma string_puts t v a l : sees t v -> v_fds v !! 1%nat = Some SDisplay -> string_at (v_home v) t a l ->
  exists t' v', ece391_fdputs 1 a t = (Ok tt, t') /\ sees t' v' /\ v' = v <| v_con ::= con_puts l |> /\ same_but (v_home v) a 0 t t'.
Proof. intros Hs Hd (Hi & Hh & Hn). by apply fdputs_ok. Qed.

Lemma string_byte t v a l i : sees t v -> string_at (v_home v) t a l -> 0 <= i <= Z.of_nat (length l) ->
  load8 (a + i) t = (Ok (byte_at (l ++ [0]) i), t).
Proof.
  intros Hs (Hi & Hh & _) Hr. apply (holds_load t a (at_ (v_home v) a)); [by apply inside_maps|exact Hh|]. rewrite length_app. cbn. lia.
Qed.

Lemma string_drop h t a l k : string_at h t a l -> (k <= length l)%nat -> string_at h t (a + Z.of_nat k) (drop k l).
Proof.
  intros (Hi & Hh & Hn) Hk. rewrite length_app in Hi. cbn [length] in Hi. split; [|split].
  - rewrite length_app, length_drop. cbn [length]. eapply inside_sub; [exact Hi|lia..].
  - rewrite <- (take_drop k l), <- app_assoc in Hh. apply holds_app in Hh as [_ Hh]. rewrite length_take in Hh.
    rewrite at_add. by replace (Z.of_nat (k `min` length l)) with (Z.of_nat k) in Hh by lia.
  - by apply Forall_drop.
Qed.

(** The four writes of a hit. *)
Lemma print_hit t v fname ls name l : sees t v -> v_fds v !! 1%nat = Some SDisplay -> data (v_home v) t grep_lits ->
  string_at (v_home v) t fname name -> string_at (v_home v) t ls l ->
  exists t' v', (ece391_fdputs 1 fname;; ece391_fdputs 1 (lit (text ":"));; ece391_fdputs 1 ls;; ece391_fdputs 1 (lit [10]);;
      mret (inr tt : Z + unit)) t = (Ok (inr tt), t') /\
    sees t' v' /\ v' = v <| v_con ::= con_puts (name ++ text ":" ++ l ++ [10]) |> /\ same_but (v_home v) VIRTUAL_START 0 t t'.
Proof.
  intros Hs Hd Hl Hn Hls.
  destruct (string_puts t v fname name Hs Hd Hn) as (t1 & v1 & E1 & Hs1 & Hv1 & Hk1). go E1. pose proof Hv1 as Q1. fields Hv1 as [h1 a1 i1 f1 c1 m1 y1].
  assert (data (v_home v1) t1 grep_lits) as Hl1 by (rewrite h1; eapply data_same; [exact Hl|exact Hk1|by left]).
  destruct (puts_lit t1 v1 (text ":") grep_lits Hs1 ltac:(congruence) Hl1 ltac:(in_list)) as (t2 & v2 & E2 & Hs2 & Hv2 & Hk2 & Hl2). go E2.
  pose proof Hv2 as Q2. fields Hv2 as [h2 a2 i2 f2 c2 m2 y2]. rewrite h1 in *.
  assert (string_at (v_home v2) t2 ls l) as Hls2.
  { rewrite h2. eapply string_same; [|exact Hk2|by left]. eapply string_same; [exact Hls|exact Hk1|by left]. }
  destruct (string_puts t2 v2 ls l Hs2 ltac:(congruence) Hls2) as (t3 & v3 & E3 & Hs3 & Hv3 & Hk3). go E3. pose proof Hv3 as Q3. fields Hv3 as [h3 a3 i3 f3 c3 m3 y3].
  assert (data (v_home v3) t3 grep_lits) as Hl3.
  { rewrite h3, h2. eapply data_same; [exact Hl2|rewrite <- h2; exact Hk3|by left]. }
  destruct (puts_lit t3 v3 [10] grep_lits Hs3 ltac:(congruence) Hl3 ltac:(in_list)) as (t4 & v4 & E4 & Hs4 & Hv4 & Hk4 & _). go E4.
  pose proof Hv4 as Q4. fields Hv4 as [h4 a4 i4 f4 c4 m4 y4]. exists t4, v4. split; [done|]. split; [done|]. split.
  - rewrite Q4, Q3, Q2, Q1. cbn [set_field v_home v_args v_img v_fds v_con v_mods v_typed]. by rewrite !con_puts_app.
  - rewrite h3, h2 in Hk4. rewrite h2 in Hk3.
    eapply same_trans; [eapply same_mono; [exact Hk1|lia]|]. eapply same_trans; [eapply same_mono; [exact Hk2|lia]|].
    eapply same_trans; [eapply same_mono; [exact Hk3|lia]|]. eapply same_mono; [exact Hk4|lia].
Qed.

(** The search of one line. *)
Lemma grep_search_ok t v s fname data_ ls w name l :
  sees t v -> v_fds v !! 1%nat = Some SDisplay -> data (v_home v) t grep_lits ->
  string_at (v_home v) t s w -> w <> [] -> Forall is_byte w -> string_at (v_home v) t fname name ->
  string_at (v_home v) t (data_ + ls) l -> Forall (fun c => c < 128) l ->
  exists t' v', grep_search s fname data_ (i32 (Z.of_nat (length w))) ls (ls + Z.of_nat (length l)) t = (Ok tt, t') /\
    sees t' v' /\ v' = v <| v_con ::= con_puts (hit w name l) |> /\ same_but (v_home v) VIRTUAL_START 0 t t'.
Proof.
  intros Hs Hd Hlit Hw Hw0 Hwb Hn Hl Hasc. unfold grep_search.
  pose proof Hw as (Hwi & _ & Hwz). rewrite length_app in Hwi. cbn [length] in Hwi.
  pose proof Hl as (Hli & Hlh & Hlz). rewrite length_app in Hli. cbn [length] in Hli.
  assert (u32 (i32 (Z.of_nat (length w))) = Z.of_nat (length w)) as Hwl.
  { unfold inside, VIRTUAL_START, VIRTUAL_END in Hwi. rewrite i32_small, u32_small by lia. done. }
  while_by (fun check t' => t' = t /\ exists k, check = ls + Z.of_nat k /\ (k <= length l)%nat /\ occurs w l = occurs w (drop k l))
    (fun (_ : unit) t' => exists v', sees t' v' /\ v' = v <| v_con ::= con_puts (hit w name l) |> /\ same_but (v_home v) VIRTUAL_START 0 t t')
    (fun check => Z.to_nat (ls + Z.of_nat (length l) - check)) as (r & t' & E & v' & Hv').
  - split; [done|]. exists 0%nat. split; [lia|]. split; [lia|]. done.
  - intros check t' (-> & k & -> & Hk & Ho). destruct (Z.ltb_spec (ls + Z.of_nat k) (ls + Z.of_nat (length l))) as [Hlt|Hge].
    + pose proof (string_byte t v s w 0 Hs Hw ltac:(lia)) as Es. rewrite Z.add_0_r in Es. go Es.
      replace (data_ + (ls + Z.of_nat k)) with (data_ + ls + Z.of_nat k) by lia.
      go (string_byte t v (data_ + ls) l (Z.of_nat k) Hs Hl) by lia.
      destruct w as [|c0 w']; [done|]. change (byte_at ((c0 :: w') ++ [0]) 0) with c0.
      rewrite byte_at_app by lia. set (c := byte_at l (Z.of_nat k)).
      assert (drop k l = c :: drop (S k) l) as Hdk.
      { unfold c, byte_at. rewrite Nat2Z.id. apply drop_S. apply list_lookup_lookup_total_lt. lia. }
      assert (0 < c < 128 \/ c < 0) as Hc.
      { assert (c < 128) by (apply (Forall_lookup_total_1 (fun c => c < 128)); [done|lia]).
        assert (c <> 0) by (apply (Forall_lookup_total_1 (fun c => c <> 0)); [done|lia]). lia. }
      assert (is_byte c) as Hcb.
      { pose proof (holds_is_bytes _ _ _ Hlh) as Hb. apply Forall_app in Hb as [Hb _]. by apply byte_at_is_byte. }
      pose proof (Forall_inv Hwb) as Hc0. unfold is_byte in *.
      assert ((i8 c0 =? c) = (c0 =? c)) as ->.
      { destruct (Z.lt_ge_cases c0 128); [by rewrite i8_small by lia|]. assert (i8 c0 = c0 - 256) as ->.
        { unfold i8. replace (c0 + 128) with (c0 - 128 + 1 * 256) by lia. rewrite Z.mod_add by lia. rewrite Z.mod_small by lia. lia. }
        rewrite (proj2 (Z.eqb_neq (c0 - 256) c)), (proj2 (Z.eqb_neq c0 c)) by lia. done. }
      assert (exists r, (if c0 =? c then ece391_strncmp (data_ + ls + Z.of_nat k) s (u32 (i32 (Z.of_nat (length (c0 :: w'))))) else mret 1) t = (Ok r, t) /\
        (c0 =? c) && (0 =? r) = bool_decide (c0 :: w' `prefix_of` drop k l)) as (r & Er & Hr).
      { destruct (Z.eqb_spec c0 c) as [->|Hne].
        - pose proof (string_drop _ _ _ _ k Hl Hk) as (Hdi & Hdh & Hdz).
          destruct (ustrncmp_spec_prefix (c :: w') (drop k l ++ [0])) as (r & Er & Hr); [done|right; apply elem_of_app; right; by left|].
          exists r. split.
          + rewrite Hwl. apply (ece391_strncmp_ok t _ (at_ (v_home v) (data_ + ls + Z.of_nat k)) (drop k l ++ [0]) s (at_ (v_home v) s) ((c :: w') ++ [0])); try done.
            * by apply inside_maps.
            * apply inside_maps; [done|]. apply Hw.
            * apply Hw.
            * unfold inside, VIRTUAL_START, VIRTUAL_END in Hwi. lia.
          + cbn [andb]. apply eq_true_iff_eq. rewrite Z.eqb_eq, bool_decide_eq_true. split.
            * intros <-. destruct (proj1 Hr eq_refl) as [x Hx].
              assert (length (c :: w') <= length (drop k l))%nat as Hle.
              { apply (f_equal length) in Hx as Hlx. rewrite !length_app in Hlx. cbn [length] in Hlx.
                destruct (decide (length (c :: w') <= length (drop k l))%nat) as [?|Hno]; [done|].
                assert (x = []) as -> by (destruct x; [done|cbn in *; lia]). rewrite app_nil_r in Hx.
                assert (0 ∈ c :: w') as Hz by (rewrite <- Hx; apply elem_of_app; right; by left).
                apply list_elem_of_In in Hz. rewrite List.Forall_forall in Hwz. by destruct (Hwz 0 Hz). }
              exists (take (length (drop k l) - length (c :: w')) x).
              apply (f_equal (take (length (drop k l)))) in Hx. rewrite take_app_length, take_app_ge in Hx by exact Hle. exact Hx.
            * intros [x Hx]. symmetry. apply Hr. exists (x ++ [0]). by rewrite Hx, <- app_assoc.
        - exists 1. split; [done|]. cbn [andb]. symmetry. apply bool_decide_eq_false. rewrite Hdk. intros Hp.
          apply prefix_cons_inv_1 in Hp. congruence. }
      go Er. rewrite Hr. rewrite Hdk in Ho at 1. cbn [occurs] in Ho. rewrite <- Hdk in Ho.
      destruct (bool_decide _).
      * left. destruct (print_hit t v fname (data_ + ls) name l Hs Hd Hlit Hn Hl) as (t' & v' & E & Hs' & Hv' & Hk').
        exists tt, t'. split; [exact E|]. exists v'. split; [done|]. unfold hit. rewrite Ho. by split.
      * right. exists (ls + Z.of_nat k + 1), t. split; [done|]. split; [|lia]. split; [done|]. exists (S k). split; [lia|]. split; [lia|]. exact Ho.
    + left. exists tt, t. split; [done|]. exists v. split; [done|]. split; [|apply same_refl].
      assert (k = length l) as -> by lia. rewrite drop_all in Ho. unfold hit. rewrite Ho. by destruct v.
  - unfold inside, VIRTUAL_START, VIRTUAL_END in Hli. lia.
  - exists t', v'. destruct r. by split.
Qed.

(** ** A buffer *)

Fixpoint line_prefix (l : list Z) : list Z :=
  match l with [] => [] | c :: l' => if 10 =? c then [] else c :: line_prefix l' end.

Lemma line_prefix_split l : Forall (fun c => c <> 10) (line_prefix l) /\
  (l = line_prefix l \/ exists l', l = line_prefix l ++ 10 :: l').
Proof.
  induction l as [|c l [IH1 IH2]]; [split; [apply List.Forall_nil|by left]|]. cbn [line_prefix]. destruct (Z.eqb_spec 10 c) as [<-|Hne].
  - split; [apply List.Forall_nil|right; by exists l].
  - split; [apply List.Forall_cons; [congruence|exact IH1]|]. destruct IH2 as [E|[l' E]]; [left|right; exists l']; cbn; by rewrite <- E.
Qed.

Lemma line_end_ok t v a ls R : sees t v -> inside (a + ls) (Z.of_nat (length R)) -> holds t (at_ (v_home v) (a + ls)) R ->
  grep_line_end a (ls + Z.of_nat (length R)) ls t = (Ok (ls + Z.of_nat (length (line_prefix R))), t).
Proof.
  intros Hs Hi Hh. unfold grep_line_end. pose proof (inside_maps t v _ _ Hs Hi) as Hm.
  while_by (fun le t' => t' = t /\ exists k, le = ls + Z.of_nat k /\ (k <= length R)%nat /\
      length (line_prefix R) = (k + length (line_prefix (drop k R)))%nat)
    (fun r t' => t' = t /\ r = ls + Z.of_nat (length (line_prefix R)))
    (fun le => Z.to_nat (ls + Z.of_nat (length R) - le)) as (r & t' & E & -> & ->); [| | |exact E].
  - split; [done|]. exists 0%nat. split; [lia|]. split; [lia|]. done.
  - intros le t' (-> & k & -> & Hk & Hl). destruct (Z.ltb_spec (ls + Z.of_nat k) (ls + Z.of_nat (length R))) as [Hlt|Hge].
    + replace (a + (ls + Z.of_nat k)) with (a + ls + Z.of_nat k) by lia. go (holds_load t (a + ls) _ R (Z.of_nat k) Hm Hh) by lia.
      assert (drop k R = byte_at R (Z.of_nat k) :: drop (S k) R) as Hd
        by (unfold byte_at; rewrite Nat2Z.id; apply drop_S, list_lookup_lookup_total_lt; lia).
      rewrite Hd in Hl. cbn [line_prefix] in Hl. destruct (10 =? byte_at R (Z.of_nat k)).
      * left. eexists _, _. split; [reflexivity|]. split; [done|]. cbn in Hl. lia.
      * right. exists (ls + Z.of_nat k + 1), t. split; [done|]. split; [|lia]. split; [done|]. exists (S k). cbn [length] in Hl. split; [lia|]. lia.
    + left. eexists _, _. split; [reflexivity|]. split; [done|]. rewrite drop_ge in Hl by lia. cbn in Hl. lia.
  - unfold inside, VIRTUAL_START, VIRTUAL_END in Hi. lia.
Qed.

(** Characters as [read] leaves them. *)
Definition plain_char (c : Z) : Prop := 0 < c < 128.

(** What the search needs. *)
Record grep_env (h : Z) t (s fname dt : Z) (w name : list Z) : Prop := {
  ge_lits : data h t grep_lits;
  ge_clear : clear_of dt 1025 grep_lits;
  ge_inside : inside dt 1025;
  ge_word : string_at h t s w;
  ge_word_apart : s + Z.of_nat (length (w ++ [0])) <= dt \/ dt + 1025 <= s;
  ge_word_bytes : w <> [] /\ Forall is_byte w;
  ge_name : string_at h t fname name;
  ge_name_apart : fname + Z.of_nat (length (name ++ [0])) <= dt \/ dt + 1025 <= fname
}.

Lemma env_same h t t' s fname dt w name a n : grep_env h t s fname dt w name -> same_but h a n t t' ->
  n <= 0 \/ dt <= a /\ a + n <= dt + 1025 -> grep_env h t' s fname dt w name.
Proof.
  intros [G1 G2 G3 G4 G5 G6 G7 G8] Hs Hd. assert (same_but h dt 1025 t t') as Hs' by (eapply same_mono; [exact Hs|lia]).
  split; try done.
  - eapply data_same; [exact G1|exact Hs'|by right].
  - eapply string_same; [exact G4|exact Hs'|by right].
  - eapply string_same; [exact G7|exact Hs'|by right].
Qed.

(** A store of a null byte in the buffer. *)
Lemma buffer_null t v dt k : sees t v -> inside dt 1025 -> 0 <= k < 1025 ->
  exists t', store8 (dt + k) 0 t = (Ok tt, t') /\ sees t' v /\ cell t' (at_ (v_home v) dt + k) = 0 /\
    wrote (at_ (v_home v) dt + k) 1 t t' /\ same_but (v_home v) dt 1025 t t'.
Proof.
  intros Hs Hi Hk. pose proof (inside_maps t v _ _ Hs Hi) as Hm. pose proof (inside_home v _ _ Hi) as Hh.
  rewrite (store8_maps t dt _ 1025 k 0 Hm Hk). change (u8 0) with 0. eexists. split; [done|].
  assert (wrote (at_ (v_home v) dt + k) 1 t (upd t (at_ (v_home v) dt + k) 0)) as Hw by (constructor; [constructor|lia]).
  split; [eapply sees_wrote; [exact Hs|exact Hw|lia|lia]|]. split; [by rewrite cell_upd_eq|]. split; [exact Hw|].
  apply wrote_same. eapply wrote_mono; [exact Hw|lia|lia].
Qed.

(** One line at [ls], searched after its end has been marked. *)
Lemma line_ok t v s fname dt w name ls l : sees t v -> v_fds v !! 1%nat = Some SDisplay ->
  grep_env (v_home v) t s fname dt w name -> 0 <= ls -> ls + Z.of_nat (length l) <= 1024 ->
  holds t (at_ (v_home v) (dt + ls)) l -> Forall plain_char l ->
  exists t1 t' v', store8 (dt + (ls + Z.of_nat (length l))) 0 t = (Ok tt, t1) /\
    grep_search s fname dt (i32 (Z.of_nat (length w))) ls (ls + Z.of_nat (length l)) t1 = (Ok tt, t') /\
    sees t' v' /\ v' = v <| v_con ::= con_puts (hit w name l) |> /\ same_but (v_home v) dt 1025 t t' /\
    (forall q, v_home v <= q < v_home v + FOUR_MB_BLOCK -> q <> at_ (v_home v) dt + (ls + Z.of_nat (length l)) -> cell t' q = cell t q) /\
    cell t' (at_ (v_home v) dt + (ls + Z.of_nat (length l))) = 0.
Proof.
  intros Hs Hd He Hls Hlen Hh Hl. pose proof (ge_inside _ _ _ _ _ _ _ He) as Hi.
  destruct (buffer_null t v dt (ls + Z.of_nat (length l)) Hs Hi ltac:(lia)) as (t1 & E1 & Hs1 & Hc1 & Hw1 & Hk1).
  pose proof (env_same _ _ _ _ _ _ _ _ _ _ He Hk1 ltac:(lia)) as [G1 G2 G3 G4 G5 [G6 G6'] G7 G8].
  assert (string_at (v_home v) t1 (dt + ls) l) as Hstr.
  { split; [|split].
    - rewrite length_app. cbn [length]. eapply inside_sub; [exact Hi|lia..].
    - apply holds_app. split.
      + eapply holds_wrote; [exact Hw1|exact Hh|]. rewrite at_add. lia.
      + apply holds_intro. cbn [length]. intros i Hir. assert (i = 0) as -> by lia. rewrite at_add, Z.add_0_r.
        replace (at_ (v_home v) dt + ls + Z.of_nat (length l)) with (at_ (v_home v) dt + (ls + Z.of_nat (length l))) by lia. exact Hc1.
    - eapply Forall_impl; [|exact Hl]. unfold plain_char. intros c Hc. cbv beta. lia. }
  destruct (grep_search_ok t1 v s fname dt ls w name l Hs1 Hd G1 G4 G6 G6' G7 Hstr) as (t2 & v2 & E2 & Hs2 & Hv2 & Hk2).
  { eapply Forall_impl; [|exact Hl]. unfold plain_char. intros c Hc. cbv beta. lia. }
  exists t1, t2, v2. split; [exact E1|]. split; [exact E2|]. split; [done|]. split; [done|]. pose proof (inside_home v dt 1025 Hi) as Hhome.
  split; [eapply same_trans; [exact Hk1|]; eapply same_mono; [exact Hk2|lia]|]. split.
  - intros q Hq Hne. rewrite (Hk2 q Hq) by (unfold at_; lia). eapply wrote_cell; [exact Hw1|]. lia.
  - rewrite (Hk2 _) by (unfold at_ in *; unfold FOUR_MB_BLOCK in *; lia). exact Hc1.
Qed.

(** What the lines of a buffer come to: [B] are its bytes, [fut] what the file still
    holds, [R] the line that is not complete. *)
Record scanned (v v' : view) (w name B fut R : list Z) : Prop := {
  sc_out : exists out, v' = v <| v_con ::= con_puts out |> /\ out ++ grep_out w name R fut = grep_out w name [] (B ++ fut);
  sc_open : Forall (fun c => c <> 10) R;
  sc_chars : Forall plain_char R;
  sc_room : (length R <= 1023)%nat
}.

Lemma con_more v o1 o2 : (v <| v_con ::= con_puts o1 |>) <| v_con ::= con_puts o2 |> = v <| v_con ::= con_puts (o1 ++ o2) |>.
Proof. destruct v. cbn [set_field]. by rewrite con_puts_app. Qed.

Lemma view_con_id v : v <| v_con ::= con_puts [] |> = v.
Proof. by destruct v. Qed.

Lemma con_fds v out : v_fds (v <| v_con ::= con_puts out |>) = v_fds v.
Proof. done. Qed.

Lemma con_home v out : v_home (v <| v_con ::= con_puts out |>) = v_home v.
Proof. done. Qed.

(** The state in the inner loop, before the line at [ls]. *)
Definition scanning t0 v0 (s fname dt : Z) (w name B fut : list Z) (ls : Z) t : Prop :=
  exists P R0 out, B = P ++ R0 /\ ls = Z.of_nat (length P) /\ sees t (v0 <| v_con ::= con_puts out |>) /\
    grep_env (v_home v0) t s fname dt w name /\ holds t (at_ (v_home v0) (dt + ls)) R0 /\
    out ++ grep_out w name [] (R0 ++ fut) = grep_out w name [] (B ++ fut) /\
    same_but (v_home v0) dt 1025 t0 t /\ cell t (at_ (v_home v0) dt + 1024) <> 10 /\ (R0 <> [] \/ P = []).

Section Lines.
Context t0 v0 (s fname dt : Z) (w name B fut : list Z) (cnt : Z) (Hd : v_fds v0 !! 1%nat = Some SDisplay) (HB : Forall plain_char B)
  (Hlen : (length B <= 1024)%nat) (Hfut : cnt = 0 \/ (length B < 1024)%nat -> fut = []).

Definition lines_done (r : Z) t : Prop :=
  exists v' R, r = Z.of_nat (length R) /\ sees t v' /\ scanned v0 v' w name B fut R /\ (cnt = 0 -> R = []) /\
    holds t (at_ (v_home v0) dt) R /\ grep_env (v_home v0) t s fname dt w name /\ same_but (v_home v0) dt 1025 t0 t /\
    cell t (at_ (v_home v0) dt + 1024) <> 10.

Lemma scan_step ls t : scanning t0 v0 s fname dt w name B fut ls t ->
  let body :=
    line_end ← grep_line_end dt (Z.of_nat (length B)) ls;
    c ← load8 (dt + line_end);
    if negb (10 =? c) && negb (0 =? cnt) && negb (ls =? 0) then
      store8 (dt + line_end) 0;;
      ece391_strcpy dt (dt + ls);;
      mret (inr (Z.of_nat (length B) - ls))
    else
      store8 (dt + line_end) 0;;
      grep_search s fname dt (i32 (Z.of_nat (length w))) ls line_end;;
      let line_start := line_end + 1 in
      if Z.of_nat (length B) <=? line_start then mret (inr 0) else mret (inl line_start) in
  (exists r t', body t = (Ok (inr r), t') /\ lines_done r t') \/
  (exists ls' t', body t = (Ok (inl ls'), t') /\ scanning t0 v0 s fname dt w name B fut ls' t' /\ ls < ls' < Z.of_nat (length B)).
Proof.
  intros (P & R0 & out & EB & -> & Hs & He & Hh & Ho & Hk & Hz & Hne) body. set (ls := Z.of_nat (length P)) in *.
  set (v := v0 <| v_con ::= con_puts out |>) in *. assert (v_home v = v_home v0) as Hhome by done.
  pose proof (ge_inside _ _ _ _ _ _ _ He) as Hi.
  assert (Z.of_nat (length B) = ls + Z.of_nat (length R0)) as HlB by (rewrite EB, length_app; unfold ls; lia).
  assert (Forall plain_char R0) as HR0 by (rewrite EB in HB; apply Forall_app in HB; apply HB).
  assert (inside (dt + ls) (Z.of_nat (length R0))) as Hir by (eapply inside_sub; [exact Hi|lia..]).
  destruct (line_prefix_split R0) as [Hnl Hsplit]. set (l := line_prefix R0) in *.
  unfold body. rewrite HlB. go (line_end_ok t v dt ls R0 Hs Hir Hh). fold l.
  assert (Forall plain_char l /\ (length l <= length R0)%nat) as [Hlc Hll].
  { pose proof HR0 as HR. destruct Hsplit as [E|[l' E]]; pose proof (f_equal length E) as El; rewrite E in HR.
    - split; [exact HR|lia].
    - rewrite length_app in El. apply Forall_app in HR as [HR _]. split; [exact HR|lia]. }
  set (le := ls + Z.of_nat (length l)).
  pose proof (load8_maps t dt _ 1025 le (inside_maps t v dt 1025 Hs Hi) ltac:(lia)) as Ec. go Ec.
  assert (holds t (at_ (v_home v) (dt + ls)) l) as Hhl.
  { pose proof Hh as Hh'. destruct Hsplit as [E|[l' E]]; rewrite E in Hh'; [exact Hh'|]. apply holds_app in Hh'. apply Hh'. }
  destruct (line_ok t v s fname dt w name ls l Hs Hd He ltac:(lia) ltac:(lia) Hhl Hlc) as (t1 & t2 & v2 & E1 & E2 & Hs2 & Hv2 & Hk2 & Hsame2 & Hc2).
  unfold v in Hv2. rewrite con_more in Hv2. fold le in E1, E2, Hsame2, Hc2.
  assert (grep_env (v_home v0) t2 s fname dt w name) as He2 by (eapply env_same; [exact He|exact Hk2|lia]).
  assert (same_but (v_home v0) dt 1025 t0 t2) as Hk02 by (eapply same_trans; [exact Hk|exact Hk2]).
  pose proof (inside_home v0 dt 1025 Hi) as Hhm.
  assert (cell t2 (at_ (v_home v0) dt + 1024) <> 10) as Hz2.
  { destruct (decide (le = 1024)) as [Eq|Hneq].
    - rewrite <- Eq. rewrite Hhome in Hc2. rewrite Hc2. lia.
    - rewrite Hsame2; [exact Hz|rewrite Hhome; lia|rewrite Hhome; lia]. }
  destruct Hsplit as [E|[R1 E]].
  - (* the line goes on after the buffer *)
    assert (ls + Z.of_nat (length R0) = le) as HlR by (unfold le; by rewrite <- E).
    destruct (negb (10 =? _) && negb (0 =? cnt) && negb (ls =? 0)) eqn:Econd.
    + (* it is moved to the front *)
      left. apply andb_true_iff in Econd as [Econd Els]. apply andb_true_iff in Econd as [_ Ecnt].
      apply negb_true_iff, Z.eqb_neq in Els. apply negb_true_iff, Z.eqb_neq in Ecnt.
      destruct (buffer_null t v dt le Hs Hi ltac:(lia)) as (t3 & E3 & Hs3 & Hc3 & Hw3 & Hk3). go E3. rewrite Hhome in *.
      assert (holds t3 (at_ (v_home v0) dt + ls) (l ++ [0])) as Hh3.
      { rewrite <- at_add. apply holds_app. split.
        - eapply holds_wrote; [exact Hw3|exact Hhl|]. rewrite at_add. unfold le. lia.
        - apply holds_intro. cbn [length]. intros i Hix. assert (i = 0) as -> by lia. rewrite at_add, Z.add_0_r.
          replace (at_ (v_home v0) dt + ls + Z.of_nat (length l)) with (at_ (v_home v0) dt + le) by (unfold le; lia). exact Hc3. }
      assert (Z.of_nat (length (l ++ [0])) = Z.of_nat (length l) + 1) as Hl1 by (rewrite length_app; cbn; lia).
      pose proof (inside_maps t3 v dt 1025 Hs3 Hi) as Hm3. rewrite Hhome in Hm3.
      assert (ece391_strcpy dt (dt + ls) t3 = (Ok tt, upds t3 (at_ (v_home v0) dt) (l ++ [0]))) as Ecp.
      { apply (ece391_strcpy_ok t3 dt (at_ (v_home v0) dt) (dt + ls) (at_ (v_home v0) dt + ls) l).
        - eapply maps_mono; [apply maps_shift; [|exact Hm3]; lia|]. rewrite Hl1. unfold le in *. lia.
        - eapply maps_mono; [exact Hm3|]. rewrite Hl1. lia.
        - exact Hh3.
        - eapply Forall_impl; [|exact Hlc]. unfold plain_char. intros c Hcx. cbv beta. lia.
        - rewrite Hl1. lia.
        - left. lia. }
      go Ecp. set (t4 := upds t3 _ _). eexists _, t4. split; [reflexivity|].
      assert (wrote (at_ (v_home v0) dt) 1025 t3 t4) as Hw4.
      { eapply wrote_mono; [apply wrote_upds|lia|rewrite Hl1; lia]. }
      assert (same_but (v_home v0) dt 1025 t t4) as Hk4 by (eapply same_trans; [exact Hk3|by apply wrote_same]).
      exists v, l. split; [lia|]. split; [eapply sees_wrote; [exact Hs3|exact Hw4|rewrite Hhome; lia|rewrite Hhome; lia]|].
      split; [split|split; [|split; [|split; [|split]]]].
      * exists out. split; [done|]. rewrite <- Ho. f_equal. rewrite E. symmetry. apply (grep_out_line w name l []); [done|cbn; lia].
      * exact Hnl.
      * exact Hlc.
      * lia.
      * lia.
      * unfold t4. assert (holds (upds t3 (at_ (v_home v0) dt) (l ++ [0])) (at_ (v_home v0) dt) (l ++ [0])) as Hx.
        { apply holds_upds. apply (holds_is_bytes _ _ _ Hh3). }
        apply holds_app in Hx. apply Hx.
      * eapply env_same; [exact He|exact Hk4|lia].
      * eapply same_trans; [exact Hk|exact Hk4].
      * unfold t4. rewrite cell_upds_out by (rewrite Hl1; unfold ls in *; lia).
        destruct (decide (le = 1024)) as [Eq|Hneq]; [rewrite <- Eq, Hc3; lia|].
        rewrite (wrote_cell _ _ _ _ _ Hw3) by lia. exact Hz.
    + (* it is searched as it is *)
      left. go E1. go E2. rewrite (proj2 (Z.leb_le _ (le + 1))) by lia. eexists _, t2. split; [reflexivity|].
      exists v2, []. split; [done|]. split; [done|]. split; [split|split; [|split; [|split; [|split]]]].
      * exists (out ++ hit w name l). split; [done|]. rewrite <- Ho, <- app_assoc. f_equal. rewrite E.
        destruct (decide (fut = [])) as [->|Hfne].
        -- change (grep_out w name [] []) with (@nil Z). rewrite !app_nil_r. symmetry. apply grep_out_short; [done|lia].
        -- assert (cnt <> 0 /\ length B = 1024%nat) as [Hcnt HlB4].
           { split; [intros Hcz; apply Hfne, Hfut; by left|]. destruct (decide (length B = 1024%nat)) as [?|Hno]; [done|].
             destruct Hfne. apply Hfut. right. lia. }
           symmetry. apply grep_out_long; [done|]. apply andb_false_iff in Econd as [Econd|Els].
           ++ apply andb_false_iff in Econd as [Econd|Ecnt].
              ** exfalso. apply negb_false_iff, Z.eqb_eq in Econd. apply Hz. replace 1024 with le by lia. by rewrite Hhome in Econd.
              ** apply negb_false_iff, Z.eqb_eq in Ecnt. congruence.
           ++ apply negb_false_iff, Z.eqb_eq in Els. rewrite <- E. lia.
      * apply List.Forall_nil.
      * apply List.Forall_nil.
      * cbn. lia.
      * done.
      * reflexivity.
      * exact He2.
      * exact Hk02.
      * exact Hz2.
  - (* a whole line *)
    assert (byte_at R0 (Z.of_nat (length l)) = 10) as Hten by (rewrite E; apply byte_at_end).
    assert (cell t (at_ (v_home v0) dt + le) = 10) as Hcell.
    { rewrite <- Hten. rewrite <- (holds_byte t _ R0 (Z.of_nat (length l)) Hh) by (rewrite E, length_app; cbn; lia).
      f_equal. rewrite at_add. unfold le. lia. }
    rewrite Hhome, Hcell. change (negb (10 =? 10)) with false. cbn [andb]. go E1. go E2.
    assert (length R0 = length l + S (length R1))%nat as HlR by (rewrite E, length_app; done).
    assert ((out ++ hit w name l) ++ grep_out w name [] (R1 ++ fut) = grep_out w name [] (B ++ fut)) as Hout.
    { rewrite <- Ho, <- app_assoc. f_equal. rewrite E, <- app_assoc. cbn [app]. symmetry. apply grep_out_newline; [done|lia]. }
    assert (holds t2 (at_ (v_home v0) dt + (le + 1)) R1) as Hh2.
    { rewrite E in Hh. apply holds_app in Hh as [_ Hh]. change (10 :: R1) with ([10] ++ R1) in Hh. apply holds_app in Hh as [_ Hh].
      unfold holds. rewrite (cells_ext t t2).
      - etransitivity; [|exact Hh]. f_equal. rewrite at_add. cbn [length]. unfold le. lia.
      - intros q Hq. apply Hsame2; rewrite Hhome; unfold le in *; lia. }
    destruct (Z.leb_spec (ls + Z.of_nat (length R0)) (le + 1)) as [Hend|Hmore].
    + left. eexists _, t2. split; [reflexivity|]. assert (R1 = []) as -> by (destruct R1; [done|cbn in HlR; unfold le in *; lia]).
      exists v2, []. split; [done|]. split; [done|]. split; [split|split; [|split; [|split; [|split]]]].
      * exists (out ++ hit w name l). split; [done|exact Hout].
      * apply List.Forall_nil.
      * apply List.Forall_nil.
      * cbn. lia.
      * done.
      * reflexivity.
      * exact He2.
      * exact Hk02.
      * exact Hz2.
    + right. exists (le + 1), t2. split; [reflexivity|]. split; [|unfold le in *; lia].
      exists (P ++ l ++ [10]), R1, (out ++ hit w name l). split.
      { rewrite EB, E, <- !app_assoc. done. }
      split; [rewrite !length_app; cbn [length]; unfold le, ls; lia|]. split; [by rewrite <- Hv2|]. split; [exact He2|].
      split; [by rewrite at_add|]. split; [exact Hout|]. split; [exact Hk02|]. split; [exact Hz2|]. left. intros ->. cbn in HlR. unfold le in *. lia.
Qed.

Lemma grep_lines_ok t : sees t v0 -> grep_env (v_home v0) t s fname dt w name -> holds t (at_ (v_home v0) dt) B ->
  same_but (v_home v0) dt 1025 t0 t -> cell t (at_ (v_home v0) dt + 1024) <> 10 ->
  exists r t', grep_lines s fname dt (i32 (Z.of_nat (length w))) (Z.of_nat (length B)) cnt t = (Ok r, t') /\ lines_done r t'.
Proof.
  intros Hs He Hh Hk Hz. unfold grep_lines.
  apply (while_inv (scanning t0 v0 s fname dt w name B fut) lines_done (fun ls => Z.to_nat (1025 - ls))).
  - exists [], B, []. rewrite view_con_id, Z.add_0_r. split_and!; try done. by right.
  - intros ls t1 Hsc. destruct (scan_step ls t1 Hsc) as [(r & t' & E & Hd')|(ls' & t' & E & Hsc' & Hls)].
    + left. by exists r, t'.
    + right. exists ls', t'. split; [exact E|]. split; [done|]. lia.
  - lia.
Qed.
End Lines.

Lemma sanitize_plain c : plain_char (sanitize c).
Proof.
  unfold plain_char, sanitize. destruct (Z.ltb_spec c 32), (Z.ltb_spec 126 c), (Z.eqb_spec c 10), (Z.eqb_spec c 9); cbn; lia.
Qed.

(** The view of the program with the file read up to [p]. *)
Definition at_pos (v : view) (fd : nat) (c : list Z) (p : nat) (out : list Z) : view :=
  v <| v_fds ::= <[fd := SFile c (Z.of_nat p)]> |> <| v_con ::= con_puts out |>.

Definition between t0 v0 (s fname dt : Z) (w name c : list Z) (fd p : nat) (last : Z) t : Prop :=
  exists R out, last = Z.of_nat (length R) /\ sees t (at_pos v0 fd c p out) /\ (p <= length c)%nat /\
    out ++ grep_out w name R (drop p (sanitize <$> c)) = grep_out w name [] (sanitize <$> c) /\
    Forall (fun c => c <> 10) R /\ Forall plain_char R /\ (length R <= 1023)%nat /\
    holds t (at_ (v_home v0) dt) R /\ grep_env (v_home v0) t s fname dt w name /\
    same_but (v_home v0) dt 1025 t0 t /\ cell t (at_ (v_home v0) dt + 1024) <> 10.

(** One turn of the outer loop. *)
Lemma buffer_step t0 v0 s fname dt w name c fd p last t :
  (2 <= fd < length (v_fds v0))%nat -> v_fds v0 !! 1%nat = Some SDisplay -> Z.of_nat (length c) < 4294967295 ->
  between t0 v0 s fname dt w name c fd p last t ->
  let body :=
    cnt ← ece391_read (Z.of_nat fd) (dt + last) (BUFSIZE - last);
    if -1 =? cnt then
      ece391_fdputs 1 (lit (line "file read failed"));;
      mret (inr false)
    else
      last ← grep_lines s fname dt (i32 (Z.of_nat (length w))) (last + cnt) cnt;
      if 0 =? cnt then mret (inr true) else mret (inl last) in
  (exists t', body t = (Ok (inr true), t') /\ sees t' (at_pos v0 fd c (length c) (grep_out w name [] (sanitize <$> c))) /\
     grep_env (v_home v0) t' s fname dt w name /\ same_but (v_home v0) dt 1025 t0 t' /\ cell t' (at_ (v_home v0) dt + 1024) <> 10) \/
  (exists last' t' p', body t = (Ok (inl last'), t') /\ between t0 v0 s fname dt w name c fd p' last' t' /\ (p < p' <= length c)%nat).
Proof.
  intros Hfd Hd Hlc (R & out & -> & Hs & Hp & Ho & HR1 & HR2 & HR3 & Hh & He & Hk & Hz) body.
  set (v := at_pos v0 fd c p out) in *. assert (v_home v = v_home v0) as Hhome by done.
  pose proof (ge_inside _ _ _ _ _ _ _ He) as Hi.
  assert (v_fds v !! Z.to_nat (Z.of_nat fd) = Some (SFile c (Z.of_nat p))) as Hf by (rewrite Nat2Z.id; apply list_lookup_insert_eq; lia).
  assert (inside (dt + Z.of_nat (length R)) (BUFSIZE - Z.of_nat (length R))) as Hir by (unfold BUFSIZE; eapply inside_sub; [exact Hi|lia..]).
  destruct (read_file t v (Z.of_nat fd) c (Z.of_nat p) _ _ Hs ltac:(lia) Hf Hir) as (t1 & v1 & E1 & Hs1 & Hv1 & Hh1 & Hk1).
  pose proof (file_slice_length c (Z.of_nat p) (BUFSIZE - Z.of_nat (length R)) ltac:(lia) ltac:(unfold BUFSIZE; lia)) as Hsl.
  pose proof (file_slice_drop c (Z.of_nat p) (BUFSIZE - Z.of_nat (length R)) ltac:(lia) ltac:(unfold BUFSIZE; lia)) as Hsd.
  set (sl := file_slice c (Z.of_nat p) (BUFSIZE - Z.of_nat (length R))) in *. rewrite Nat2Z.id in Hsd.
  assert (v1 = at_pos v0 fd c (p + length sl) out) as Hv1'.
  { rewrite Hv1. unfold v, at_pos. rewrite Nat2Z.id. cbn [set_field v_home v_args v_img v_fds v_con v_mods v_typed].
    rewrite list_insert_insert_eq. do 3 f_equal. lia. }
  clear Hv1. subst v1. set (v1 := at_pos v0 fd c (p + length sl) out) in *.
  unfold body. go E1. rewrite (proj2 (Z.eqb_neq (-1) _)) by lia.
  set (B := R ++ (sanitize <$> sl)).
  assert (length (sanitize <$> sl) = length sl) as Hfl by apply length_fmap.
  assert (Z.of_nat (length R) + Z.of_nat (length sl) = Z.of_nat (length B)) as -> by (unfold B; rewrite length_app, Hfl; lia).
  assert (Hrd : v_home v1 = v_home v0) by done. unfold BUFSIZE in *.
  set (fut := drop (p + length sl) (sanitize <$> c)).
  assert (same_but (v_home v0) dt 1025 t t1) as Hk1'.
  { eapply same_mono; [exact Hk1|]. lia. }
  assert (drop p (sanitize <$> c) = (sanitize <$> sl) ++ fut) as Hdrop.
  { unfold fut. rewrite <- !fmap_drop, <- fmap_app. by rewrite Hsd. }
  destruct (grep_lines_ok t0 v1 s fname dt w name B fut (Z.of_nat (length sl))) with (t := t1) as (r & t2 & E2 & v2 & R2 & -> & Hs2 & [(out2 & Hv2 & Ho2) Hc1 Hc2 Hc3] & Hz2 & Hh2 & He2 & Hk2 & Hcell2).
  - change (v_fds v1) with (<[fd := SFile c (Z.of_nat (p + length sl))]> (v_fds v0)). by rewrite list_lookup_insert_ne by lia.
  - apply Forall_app. split; [exact HR2|]. apply Forall_fmap, Forall_true. intros x. apply sanitize_plain.
  - unfold B. rewrite length_app, Hfl. lia.
  - intros Hcase. unfold fut. apply drop_ge. rewrite length_fmap. unfold B in Hcase. rewrite length_app, Hfl in Hcase. lia.
  - exact Hs1.
  - rewrite Hrd. eapply env_same; [exact He|exact Hk1|]. lia.
  - rewrite Hrd. apply holds_app. rewrite at_add in Hh1. split; [|exact Hh1].
    eapply same_holds; [exact Hk1|exact Hh|eapply inside_sub; [exact Hi|lia..]|lia].
  - rewrite Hrd. eapply same_trans; [exact Hk|exact Hk1'].
  - rewrite Hrd. pose proof (inside_home v0 dt 1025 Hi). rewrite (Hk1 (at_ (v_home v0) dt + 1024)); [exact Hz|rewrite Hhome; lia|rewrite Hhome, at_add; lia].
  - go E2. rewrite Hrd in *. unfold v1, at_pos in Hv2. rewrite con_more in Hv2.
    assert ((out ++ out2) ++ grep_out w name R2 fut = grep_out w name [] (sanitize <$> c)) as Hout.
    { rewrite <- app_assoc, Ho2, <- Ho. f_equal. unfold B. rewrite <- app_assoc, <- Hdrop. by rewrite (grep_out_line w name R []) by (done || (cbn; lia)). }
    destruct (Z.eqb_spec 0 (Z.of_nat (length sl))) as [Hz0|Hz0].
    + left. exists t2. split; [done|]. specialize (Hz2 (eq_sym Hz0)). subst R2. assert (p = length c) as Hpc by lia.
      assert (fut = []) as Hfut by (unfold fut; apply drop_ge; rewrite length_fmap; lia).
      rewrite Hfut in Hout. change (grep_out w name [] []) with (@nil Z) in Hout at 1. rewrite app_nil_r in Hout.
      split; [|by split_and!]. rewrite <- Hout. replace (length c) with (p + length sl)%nat by lia. by rewrite Hv2 in Hs2.
    + right. exists (Z.of_nat (length R2)), t2, (p + length sl)%nat. split; [done|].
      rewrite Hv2 in Hs2. split; [|lia]. exists R2, (out ++ out2). split_and!; try done. lia.
Qed.

Lemma grep_buffers_ok t v s fname dt w name c fd :
  sees t v -> v_fds v !! fd = Some (SFile c 0) -> (2 <= fd)%nat -> v_fds v !! 1%nat = Some SDisplay ->
  Z.of_nat (length c) < 4294967295 -> grep_env (v_home v) t s fname dt w name -> cell t (at_ (v_home v) dt + 1024) <> 10 ->
  exists t', grep_buffers s fname (Z.of_nat fd) dt (i32 (Z.of_nat (length w))) t = (Ok true, t') /\
    sees t' (at_pos v fd c (length c) (grep_out w name [] (sanitize <$> c))) /\
    grep_env (v_home v) t' s fname dt w name /\ same_but (v_home v) dt 1025 t t' /\ cell t' (at_ (v_home v) dt + 1024) <> 10.
Proof.
  intros Hs Hf Hfd Hd Hlc He Hz. unfold grep_buffers. pose proof (lookup_lt_Some _ _ _ Hf) as Hlt.
  match goal with |- context [while ?b 0 t] => destruct (while_steps (fun k last t' => exists p, between t v s fname dt w name c fd p last t' /\ k = (length c - p)%nat)
    (fun r t' => r = true /\ sees t' (at_pos v fd c (length c) (grep_out w name [] (sanitize <$> c))) /\
      grep_env (v_home v) t' s fname dt w name /\ same_but (v_home v) dt 1025 t t' /\ cell t' (at_ (v_home v) dt + 1024) <> 10)
    b (length c - 0)%nat 0 t) as (r & t' & E & -> & Hr) end.
  - exists 0%nat. split; [|done]. exists [], []. split; [done|]. split.
    { unfold at_pos. rewrite view_con_id. assert (v <| v_fds ::= <[fd := SFile c (Z.of_nat 0)]> |> = v) as ->; [|done].
      destruct v. cbn [set_field]. by rewrite list_insert_id. }
    split; [lia|]. split; [done|]. split; [apply List.Forall_nil|]. split; [apply List.Forall_nil|]. split; [cbn; lia|]. by split.
  - intros k last t1 (p & Hb & ->). destruct (buffer_step t v s fname dt w name c fd p last t1 ltac:(lia) Hd Hlc Hb) as [(t' & E & Hr)|(last' & t' & p' & E & Hb' & Hp)].
    + left. exists true, t'. split; [exact E|]. by split.
    + right. exists (length c - p')%nat, last', t'. split; [exact E|]. split; [by exists p'|]. lia.
  - lia.
  - by exists t'.
Qed.

(** One file of the directory. *)
Lemma do_one_file_ok t v s fname dt w name d c i :
  sees t v -> v_fds v !! 1%nat = Some SDisplay -> free_stream (v_fds v) = Some i ->
  find_dentry (v_img v) name = Some d -> opened (v_img v) d = Some (SFile c 0) ->
  grep_env (v_home v) t s fname dt w name -> cell t (at_ (v_home v) dt + 1024) <> 10 ->
  exists t', do_one_file s fname dt t = (Ok 0, t') /\ sees t' (v <| v_con ::= con_puts (grep_out w name [] (sanitize <$> c)) |>) /\
    grep_env (v_home v) t' s fname dt w name /\ same_but (v_home v) dt 1025 t t' /\ cell t' (at_ (v_home v) dt + 1024) <> 10.
Proof.
  intros Hs Hd Hi Hdir Hop He Hz. pose proof He as [G1 G2 G3 G4 G5 G6 G7 G8]. unfold do_one_file.
  pose proof G4 as (Hwi & Hwh & Hwz). rewrite length_app in Hwi. cbn [length] in Hwi.
  assert (Z.of_nat (length w) < 4294967296) as Hwl by (unfold inside, VIRTUAL_START, VIRTUAL_END in Hwi; lia).
  go (ece391_strlen_ok t s (at_ (v_home v) s) w) by
    (first [done|replace (Z.of_nat (length w) + 1) with (Z.of_nat (length w + 1)) by lia; by apply inside_maps]).
  pose proof G7 as (Hni & Hnh & Hnz).
  assert (find_dentry (v_img v) (name ++ [0]) = Some d) as Hdir' by (rewrite <- Hdir; by apply (find_dentry_args _ name 1)).
  destruct (open_opens t v fname (name ++ [0]) d (SFile c 0) i Hs Hni Hnh ltac:(apply elem_of_app; right; by left) Hdir' Hop Hi)
    as (t1 & v1 & E1 & Hs1 & Hv1 & Hk1). go E1. apply free_stream_Some in Hi as [Hi2 Hic].
  rewrite (proj2 (Z.eqb_neq (-1) _)) by lia.
  assert (Z.of_nat (length c) < 4294967295) as Hlc.
  { destruct (sees_image t v Hs) as [_ Hnf]. unfold opened in Hop. destruct (d_type d =? dir); [done|]. destruct (d_type d =? file); [|done].
    apply fmap_Some in Hop as (c' & Hc' & [= <-]). specialize (Hnf _ _ Hc'). lia. }
  pose proof Hv1 as Q1. fields Hv1 as [h1 a1 i1 f1 c1 m1 y1].
  assert (v_fds v1 !! i = Some (SFile c 0)) as Hf1 by (rewrite f1; apply list_lookup_insert_eq; lia).
  destruct (grep_buffers_ok t1 v1 s fname dt w name c i Hs1 Hf1 ltac:(lia)) as (t2 & E2 & Hs2 & He2 & Hk2 & Hz2).
  - rewrite f1, list_lookup_insert_ne by lia. done.
  - exact Hlc.
  - rewrite h1. eapply env_same; [exact He|exact Hk1|by left].
  - rewrite h1. pose proof (inside_home v dt 1025 G3). rewrite (Hk1 _) by (unfold at_ in *; lia). exact Hz.
  - rewrite h1 in *. go E2. set (v2 := at_pos v1 i c (length c) _) in Hs2.
    assert (v_fds v2 !! Z.to_nat (Z.of_nat i) = Some (SFile c (Z.of_nat (length c)))) as Hf2.
    { rewrite Nat2Z.id. unfold v2, at_pos. cbn [set_field v_fds]. rewrite f1, list_insert_insert_eq. apply list_lookup_insert_eq. lia. }
    destruct (close_closes t2 v2 (Z.of_nat i) _ Hs2 ltac:(lia) Hf2 I) as (t3 & v3 & E3 & Hs3 & Hv3 & Hk3). go E3.
    change (-1 =? 0) with false. cbv iota. exists t3. split; [done|]. change (v_home v2) with (v_home v1) in Hk3. rewrite h1 in Hk3. split; [|split; [|split]].
    + assert (v3 = v <| v_con ::= con_puts (grep_out w name [] (sanitize <$> c)) |>) as <-; [|done].
      rewrite Hv3. unfold v2, at_pos. rewrite Q1, Nat2Z.id. cbn [set_field v_home v_args v_img v_fds v_con v_mods v_typed].
      rewrite !list_insert_insert_eq, list_insert_id by done. done.
    + eapply env_same; [exact He2|exact Hk3|by left].
    + eapply same_trans; [eapply same_mono; [exact Hk1|lia]|]. eapply same_trans; [exact Hk2|]. eapply same_mono; [exact Hk3|lia].
    + pose proof (inside_home v dt 1025 G3). rewrite (Hk3 _) by (unfold at_ in *; unfold VIRTUAL_START in *; lia). exact Hz2.
Qed.

(** ** The directory *)

Lemma list_find_same {A B} (P : A -> Prop) (Q : B -> Prop) `{forall x, Decision (P x), forall x, Decision (Q x)} l l' :
  Forall2 (fun x y => P x <-> Q y) l l' -> fst <$> list_find P l = fst <$> list_find Q l'.
Proof.
  induction 1 as [|x y l l' Hxy Hl IH]; [done|]. cbn [list_find]. destruct (decide (P x)), (decide (Q y)); [done|tauto|tauto|].
  destruct (list_find P l) as [[n1 x1]|], (list_find Q l') as [[n2 x2]|]; cbn in *; [|done|done|done]. injection IH as ->. done.
Qed.

Lemma free_stream_dir l i a b : free_stream (<[i := SDir a]> l) = free_stream (<[i := SDir b]> l).
Proof.
  unfold free_stream. set (f := fun x : nat => (x + 2)%nat).
  assert (forall o : option (nat * stream), ((fun x => (x.1 + 2)%nat) <$> o) = f <$> (fst <$> o)) as Hf by (by intros [[? ?]|]).
  rewrite !Hf. f_equal. apply list_find_same. apply Forall2_drop. apply Forall2_same_length_lookup.
  rewrite !length_insert. split; [done|]. intros k x y Hx Hy. destruct (decide (k = i)) as [->|Hne].
  - apply list_lookup_insert_Some in Hx as [(_ & <- & _)|[? _]]; [|done]. apply list_lookup_insert_Some in Hy as [(_ & <- & _)|[? _]]; done.
  - rewrite list_lookup_insert_ne in Hx, Hy by done. rewrite Hx in Hy. by injection Hy as ->.
Qed.

(** What the loop over the directory needs. *)
Record grep_room (h : Z) t (search buf dt : Z) (w : list Z) : Prop := {
  gr_lits : data h t grep_lits;
  gr_data : inside dt 1025 /\ clear_of dt 1025 grep_lits;
  gr_buf : inside buf SBUFSIZE /\ clear_of buf SBUFSIZE grep_lits;
  gr_apart : buf + SBUFSIZE <= dt \/ dt + 1025 <= buf;
  gr_word : string_at h t search w /\ w <> [] /\ Forall is_byte w;
  gr_word_data : search + Z.of_nat (length (w ++ [0])) <= dt \/ dt + 1025 <= search;
  gr_word_buf : search + Z.of_nat (length (w ++ [0])) <= buf \/ buf + SBUFSIZE <= search;
  gr_end : cell t (at_ h dt + 1024) <> 10
}.

Lemma room_buf h t t' search buf dt w a n : grep_room h t search buf dt w -> same_but h a n t t' ->
  n <= 0 \/ buf <= a /\ a + n <= buf + SBUFSIZE -> grep_room h t' search buf dt w.
Proof.
  intros [R1 [R2 R2'] [R3 R3'] R4 [R5 R5'] R6 R7 R8] Hs Hd. assert (same_but h buf SBUFSIZE t t') as Hs' by (eapply same_mono; [exact Hs|lia]).
  split; try done.
  - eapply data_same; [exact R1|exact Hs'|by right].
  - split; [|done]. eapply string_same; [exact R5|exact Hs'|by right].
  - unfold same_but, at_, inside in *. unfold VIRTUAL_START, VIRTUAL_END, FOUR_MB_BLOCK in *. rewrite Hs'; [exact R8|lia..].
Qed.

Lemma room_env h t search buf dt w name : grep_room h t search buf dt w -> string_at h t buf name -> (length name <= 32)%nat ->
  grep_env h t search buf dt w name.
Proof.
  intros [R1 [R2 R2'] [R3 R3'] R4 [R5 R5'] R6 R7 R8] Hn Hl. split; try done. rewrite length_app. cbn [length]. unfold SBUFSIZE in *. lia.
Qed.

Lemma env_room h t t' search buf dt w name : grep_room h t search buf dt w -> grep_env h t' search buf dt w name ->
  cell t' (at_ h dt + 1024) <> 10 -> grep_room h t' search buf dt w.
Proof. intros [R1 R2 R3 R4 R5 R6 R7 R8] [G1 G2 G3 G4 G5 G6 G7 G8] Hz. by split. Qed.

(** The name of an entry in the buffer, with its end. *)
Lemma grep_name t v buf d : sees t v -> inside buf SBUFSIZE -> holds t (at_ (v_home v) buf) (strncpy_spec 32 (d_name d)) ->
  let n := name_of (d_name d) in
  exists t', store8 (buf + Z.of_nat (length n)) 0 t = (Ok tt, t') /\ sees t' v /\ string_at (v_home v) t' buf n /\
    same_but (v_home v) buf SBUFSIZE t t'.
Proof.
  intros Hs Hi Hh n. unfold SBUFSIZE in *. destruct (name_facts d) as [Hl Hnz]. fold n in Hl, Hnz.
  unfold strncpy_spec in Hh. apply holds_app in Hh as [Hh _]. change (cprefix _ (d_name d)) with n in Hh.
  destruct (store_next t v buf n 33 0 Hs Hi Hh ltac:(lia) ltac:(done)) as (t' & E & Hs' & Hh' & Hk').
  exists t'. split; [done|]. split; [done|]. split; [|eapply same_mono; [exact Hk'|lia]]. split; [|done].
  rewrite length_app. cbn [length]. eapply inside_sub; [exact Hi|lia..].
Qed.

(** What holds at the head of the loop: entry [j] is to be read next. *)
Record at_entry (v0 : view) (img : image) (fds : list stream) (h : Z) (con : console) (i : nat) (w : list Z) (search buf dt : Z) (j : nat) (out : list Z) t v : Prop := {
  ae_sees : sees t v;
  ae_home : v_home v = h;
  ae_img : v_img v = img;
  ae_fds : v_fds v = <[i := SDir j]> fds;
  ae_con : v_con v = con_puts out con;
  ae_keys : keys_same v0 v;
  ae_room : grep_room h t search buf dt w
}.

Section Directory.
Context (v0 : view) (img : image) (fds : list stream) (h : Z) (con : console) (i k : nat) (w : list Z) (search buf dt : Z).
Hypothesis Hi : (2 <= i < length fds)%nat.
Hypothesis Hdisplay : fds !! 1%nat = Some SDisplay.
Hypothesis Hfree : free_stream (<[i := SDir 0]> fds) = Some k.
Hypothesis Hends : Forall name_ends (im_dentries img).
Let at_head := at_entry v0 img fds h con i w search buf dt.

(** An entry. *)
Lemma entry_step t v j out d rest : at_head j out t v -> im_dentries img !! j = Some d ->
  grep_files img w (drop j (im_dentries img)) = Some rest ->
  (exists t' v', grep_step (Z.of_nat i) search buf dt tt t = (Ok (inr 0), t') /\ sees t' v' /\
     v_con v' = con_puts (out ++ rest) con /\ keys_same v0 v') \/
  (exists t' v' o rest', grep_step (Z.of_nat i) search buf dt tt t = (Ok (inl tt), t') /\ at_head (S j) (out ++ o) t' v' /\
     grep_files img w (drop (S j) (im_dentries img)) = Some rest' /\ rest = o ++ rest').
Proof.
  intros [Hs Hho Him Hf Hc Hks Hroom] Ed Hg. pose proof (gr_buf _ _ _ _ _ _ Hroom) as [Hbuf _]. destruct (fds_at v _ i fds Hf Hi Hdisplay) as [Hfd _].
  assert (inside buf (SBUFSIZE - 1)) as Hbuf' by (unfold SBUFSIZE in *; eapply inside_sub; [exact Hbuf|lia..]).
  assert (name_ends d) as Hne by (eapply Forall_lookup_1; [exact Hends|exact Ed]).
  rewrite (drop_S _ _ _ Ed) in Hg. cbn [grep_files] in Hg.
  destruct (read_dir t v (Z.of_nat i) j d buf (SBUFSIZE - 1) Hs ltac:(lia) Hfd Hbuf' ltac:(by rewrite Him) Hne) as (t2 & v2 & E2 & Hs2 & Hv2 & Hh2 & Hk2).
  fields Hv2 as [h2 a2 i2 f2 c2 m2 y2]. assert (keys_same v0 v2) as Hks2 by (apply (keys_trans v0 v); [exact Hks|by split]).
  rewrite Nat2Z.id, Hf, list_insert_insert_eq in f2. rewrite Hho in *.
  change (Z.to_nat (Z.min (SBUFSIZE - 1) 32)) with 32%nat in Hh2, Hk2.
  assert (grep_room h t2 search buf dt w) as Hroom2 by (eapply room_buf; [exact Hroom|exact Hk2|unfold SBUFSIZE; lia]).
  unfold grep_step. go E2. rewrite <- h2 in Hh2. destruct (name_facts d) as [Hl Hnz].
  destruct (grep_name t2 v2 buf d Hs2 Hbuf Hh2) as (t3 & E3 & Hs3 & Hn3 & Hk3).
  assert (load8 buf t2 = (Ok (byte_at (strncpy_spec 32 (d_name d)) 0), t2)) as E0.
  { rewrite <- (Z.add_0_r buf). apply (holds_load t2 _ (at_ (v_home v2) buf)); [|exact Hh2|].
    - apply inside_maps; [done|]. unfold strncpy_spec. rewrite length_app, length_replicate. unfold SBUFSIZE in *. eapply inside_sub; [exact Hbuf|lia|lia|].
      change (cprefix 32 (d_name d)) with (name_of (d_name d)). lia.
    - unfold strncpy_spec. rewrite length_app, length_replicate. change (cprefix 32 (d_name d)) with (name_of (d_name d)). lia. }
  assert (byte_at (strncpy_spec 32 (d_name d)) 0 = byte_at (name_of (d_name d) ++ [0]) 0) as Hb0.
  { unfold strncpy_spec. change (cprefix 32 (d_name d)) with (name_of (d_name d)). by destruct (name_of (d_name d)). }
  rewrite Hb0 in E0. clear Hb0. set (n := name_of (d_name d)) in *.
  destruct n as [|c n'] eqn:En.
  - left. injection Hg as <-. exists t2, v2. split; [done|]. split; [done|]. split; [by rewrite app_nil_r, c2|exact Hks2].
  - right. rewrite (proj2 (Z.eqb_neq 0 _)), (proj2 (Z.eqb_neq (-1) _)) by (cbn [length]; lia). go E0.
    change (byte_at ((c :: n') ++ [0]) 0) with c. rewrite <- En in *. rewrite (Z.eqb_sym 46 c). destruct (Z.eqb_spec c 46) as [->|Hdot].
    + exists t2, v2, [], rest. split; [done|]. split; [|done]. rewrite app_nil_r. split; first [exact Hks2|done|congruence].
    + go E3. rewrite h2 in *. destruct (find_dentry img n ≫= opened img) as [[| | |f p|]|] eqn:Ef; try done.
      apply bind_Some in Ef as (d' & Hd' & Ho'). apply fmap_Some in Hg as (rest' & Hg & ->).
      assert (p = 0) as ->.
      { unfold opened in Ho'. destruct (_ =? _); [done|]. destruct (_ =? _); [|done]. by apply fmap_Some in Ho' as (? & _ & [= _ ->]). }
      assert (grep_room h t3 search buf dt w) as Hroom3 by (eapply room_buf; [exact Hroom2|exact Hk3|unfold SBUFSIZE; lia]).
      destruct (do_one_file_ok t3 v2 search buf dt w n d' f k Hs3) as (t4 & E4 & Hs4 & He4 & Hk4 & Hz4).
      * rewrite f2, list_lookup_insert_ne by lia. done.
      * rewrite f2. by rewrite (free_stream_dir fds i (S j) 0).
      * congruence.
      * congruence.
      * rewrite h2. by apply room_env.
      * rewrite h2. apply Hroom3.
      * rewrite h2 in *. go E4. change (negb (0 =? 0)) with false. cbv iota.
        eexists t4, _, (grep_out w n [] (sanitize <$> f)), rest'. split; [done|]. split; [|done]. split; [exact Hs4|exact h2|exact (eq_trans i2 Him)|exact f2| |exact Hks2|].
        -- cbn [set_field v_con]. by rewrite c2, Hc, con_puts_app.
        -- by eapply env_room.
Qed.

(** The end of the directory. *)
Lemma entry_end t v j out : at_head j out t v -> im_dentries img !! j = None ->
  exists t', grep_step (Z.of_nat i) search buf dt tt t = (Ok (inr 0), t') /\ sees t' v.
Proof.
  intros [Hs Hho Him Hf Hc Hks Hroom] Ed. pose proof (gr_buf _ _ _ _ _ _ Hroom) as [Hbuf _]. destruct (fds_at v _ i fds Hf Hi Hdisplay) as [Hfd _].
  assert (inside buf (SBUFSIZE - 1)) as Hbuf' by (unfold SBUFSIZE in *; eapply inside_sub; [exact Hbuf|lia..]).
  destruct (read_dir_end t v (Z.of_nat i) j buf (SBUFSIZE - 1) Hs ltac:(lia) Hfd Hbuf' ltac:(by rewrite Him)) as (t2 & E2 & Hs2 & _).
  exists t2. split; [|done]. unfold grep_step. by go E2.
Qed.

Lemma grep_dir_ok t v all : at_head 0 [] t v -> grep_files img w (im_dentries img) = Some all ->
  exists t' v', while (grep_step (Z.of_nat i) search buf dt) tt t = (Ok 0, t') /\ sees t' v' /\
    v_con v' = con_puts all con /\ keys_same v0 v'.
Proof.
  intros Hh Hall. set (ds := im_dentries img) in *.
  destruct (while_steps (fun k (_ : unit) t' => exists v' j out rest, at_head j out t' v' /\ (j <= length ds)%nat /\
      grep_files img w (drop j ds) = Some rest /\ out ++ rest = all /\ k = (length ds - j)%nat)
    (fun r t' => r = 0 /\ exists v', sees t' v' /\ v_con v' = con_puts all con /\ keys_same v0 v')
    (grep_step (Z.of_nat i) search buf dt) (length ds - 0)%nat tt t) as (r & t' & E & -> & v' & Hv'); [| | |by exists t', v'].
  - exists v, 0%nat, [], all. split; [exact Hh|]. split; [lia|]. by split.
  - intros n [] t1 (v1 & j & out & rest & Hh1 & Hj & Hr & Ho & ->). destruct (ds !! j) as [d|] eqn:Ed.
    + destruct (entry_step t1 v1 j out d rest Hh1 Ed Hr) as [(t2 & v2 & E2 & Hs2 & Hc2 & Hks2)|(t2 & v2 & o & rest' & E2 & Hh2 & Hr2 & Hrest)].
      * left. exists 0, t2. split; [exact E2|]. split; [done|]. exists v2. split; [done|]. split; [by rewrite Hc2, Ho|exact Hks2].
      * right. apply lookup_lt_Some in Ed. exists (length ds - S j)%nat, tt, t2. split; [exact E2|]. split; [|lia].
        exists v2, (S j), (out ++ o), rest'. split; [exact Hh2|]. split; [lia|]. split; [exact Hr2|]. split; [|done]. by rewrite <- app_assoc, <- Hrest.
    + left. destruct (entry_end t1 v1 j out Hh1 Ed) as (t2 & E2 & Hs2). exists 0, t2. split; [exact E2|]. split; [done|]. exists v1.
      split; [done|]. apply lookup_ge_None in Ed. rewrite drop_ge in Hr by done. injection Hr as <-. rewrite app_nil_r in Ho. subst out. destruct Hh1. by split.
  - pose proof (ae_sees _ _ _ _ _ _ _ _ _ _ _ _ _ _ Hh) as Hs. destruct (sees_image t v Hs) as [Hl _]. rewrite (ae_img _ _ _ _ _ _ _ _ _ _ _ _ _ _ Hh) in Hl. unfold ds. lia.
Qed.
End Directory.

(** The argument, as a string. *)
Lemma args_string t v a : sees t v -> v_args v <> [] -> inside a BUFSIZE ->
  exists t', ece391_getargs a BUFSIZE t = (Ok 0, t') /\ sees t' v /\ string_at (v_home v) t' a (v_args v) /\
    (length (v_args v) < 128)%nat /\ Forall is_byte (v_args v) /\ same_but (v_home v) a BUFSIZE t t'.
Proof.
  intros Hs Hne Ha. destruct (sees_args t v Hs) as [Hl Hc].
  destruct (args_name t v a Hs Hne Ha) as (t' & E & Hs' & Hh & Hk & Hi & _ & _). exists t'. split; [exact E|]. split; [done|].
  assert (Forall (fun c => c <> 0) (v_args v)) as Hnz by (by apply arg_no_null).
  split; [|split; [done|split; [|exact Hk]]].
  - destruct (128 - length (v_args v))%nat as [|m] eqn:Em; [lia|]. change (replicate (S m) 0) with ([0] ++ replicate m 0) in Hh, Hi. rewrite app_assoc in Hh, Hi.
    split; [|split; [|done]]; [|by apply holds_app in Hh as [Hh _]].
    eapply inside_sub; [exact Hi|lia|lia|]. rewrite (length_app (v_args v ++ [0])). lia.
  - pose proof (holds_is_bytes _ _ _ Hh) as Hb. by apply Forall_app in Hb as [Hb _].
Qed.

Lemma grep_main_ok t v search buf dt r out :
  sees t v -> v_fds v !! 1%nat = Some SDisplay -> data (v_home v) t grep_lits ->
  inside search BUFSIZE /\ clear_of search BUFSIZE grep_lits -> inside buf SBUFSIZE /\ clear_of buf SBUFSIZE grep_lits ->
  inside dt 1025 /\ clear_of dt 1025 grep_lits ->
  (search + BUFSIZE <= buf \/ buf + SBUFSIZE <= search) -> (search + BUFSIZE <= dt \/ dt + 1025 <= search) ->
  (buf + SBUFSIZE <= dt \/ dt + 1025 <= buf) -> cell t (at_ (v_home v) dt + 1024) <> 10 ->
  Forall name_ends (im_dentries (v_img v)) -> grep_spec v = Some (r, out) ->
  exists t' v', grep_main search buf dt t = (Ok r, t') /\ sees t' v' /\ v_con v' = con_puts out (v_con v) /\ keys_same v v'.
Proof.
  intros Hs Hd Hl [Hse Hsc] [Hbu Hbc] [Hda Hdc] A1 A2 A3 Hz Hends Hspec. unfold grep_main. unfold grep_spec in Hspec.
  destruct (decide (v_args v = [])) as [Ha|Ha].
  { rewrite Ha in Hspec. injection Hspec as <- <-. go (getargs_none t v search BUFSIZE) by done. change (negb (0 =? -1)) with true. cbv iota.
    destruct (puts_lit t v (line "could not read argument") _ Hs Hd Hl ltac:(in_list)) as (t1 & v1 & E1 & Hs1 & Hv1 & _). go E1. fields Hv1.
    exists t1, v1. split; [done|]. by repeat split. }
  destruct (args_string t v search Hs Ha Hse) as (t1 & E1 & Hs1 & Hw & Hwl & Hwb & Hk1). go E1. change (negb (0 =? 0)) with false. cbv iota.
  assert (data (v_home v) t1 grep_lits) as Hl1 by (eapply data_same; [exact Hl|exact Hk1|by right]).
  assert (placed (v_home v) t1 (text ".")) as (Hi & Hh & _) by (eapply (proj1 (List.Forall_forall _ _) Hl1); apply list_elem_of_In; unfold grep_lits; in_list).
  assert (find_dentry (v_img v) (text "." ++ [0]) = find_dentry (v_img v) (text ".")) as Hf
    by (apply (find_dentry_args _ (text ".") 1); by repeat constructor).
  assert (0 ∈ text "." ++ [0]) as Hz0 by (apply elem_of_app; right; by left).
  destruct (decide (find_dentry (v_img v) (text ".") = None \/ free_stream (v_fds v) = None)) as [Hno|Hyes].
  - assert (r = 2 /\ out = line "directory open failed") as [-> ->].
    { destruct (v_args v); [done|]. destruct (find_dentry _ (text ".")), (free_stream (v_fds v)); destruct Hno; try done; by injection Hspec. }
    destruct (open_refuses t1 v (lit (text ".")) _ Hs1 Hi Hh Hz0 ltac:(by rewrite Hf)) as (t2 & E2 & Hs2 & Hk2).
    go E2. change (-1 =? -1) with true. cbv iota.
    destruct (puts_lit t2 v (line "directory open failed") grep_lits Hs2 Hd) as (t3 & v3 & E3 & Hs3 & Hv3 & _);
      [eapply data_same; [exact Hl1|exact Hk2|by left]|in_list|]. go E3. fields Hv3. exists t3, v3. split; [done|]. by repeat split.
  - destruct (find_dentry _ (text ".")) as [d|]; [|by destruct Hyes; left].
    destruct (free_stream (v_fds v)) as [i|] eqn:Ei; [|by destruct Hyes; right].
    destruct (d_type d =? dir) eqn:Et; [|by destruct (v_args v)].
    destruct (free_stream (<[i := SDir 0]> (v_fds v))) as [k|] eqn:Ek; [|by destruct (v_args v)].
    assert (exists all, grep_files (v_img v) (v_args v) (im_dentries (v_img v)) = Some all /\ r = 0 /\ out = all) as (all & Hall & -> & ->).
    { destruct (v_args v) eqn:Ew; [done|]. rewrite <- Ew in *. apply fmap_Some in Hspec as (all & Hall & [= -> ->]). by exists all. }
    assert (opened (v_img v) d = Some (SDir 0)) as Ho by (unfold opened; by rewrite Et).
    destruct (open_opens t1 v _ _ d (SDir 0) i Hs1 Hi Hh Hz0 Hf Ho Ei) as (t2 & v2 & E2 & Hs2 & Hv2 & Hk2). go E2.
    apply free_stream_Some in Ei as [Hi2 _]. rewrite (proj2 (Z.eqb_neq (-1) _)) by lia. fields Hv2 as [h2 a2 i2 f2 c2 m2 y2].
    apply (grep_dir_ok v (v_img v) (v_fds v) (v_home v) (v_con v) i k (v_args v) search buf dt Hi2 Hd Ek Hends t2 v2 all); [|exact Hall].
    split; [exact Hs2|exact h2|exact i2|exact f2|exact c2|by split|]. split.
    + eapply data_same; [exact Hl1|exact Hk2|by left].
    + by split.
    + by split.
    + exact A3.
    + split; [|by split]. eapply string_same; [exact Hw|exact Hk2|by left].
    + rewrite length_app. cbn [length]. unfold BUFSIZE in *. lia.
    + rewrite length_app. cbn [length]. unfold BUFSIZE in *. lia.
    + assert (forall q, v_home v <= q < v_home v + FOUR_MB_BLOCK -> ~ at_ (v_home v) search <= q < at_ (v_home v) search + BUFSIZE -> cell t2 q = cell t q) as Hcells.
      { intros q Hq Hn. rewrite (Hk2 q Hq) by lia. by apply Hk1. }
      unfold at_, inside in *. unfold BUFSIZE, VIRTUAL_START, VIRTUAL_END, FOUR_MB_BLOCK in *. rewrite Hcells; [exact Hz|lia..].
Qed.
End Proofs.

Lemma grep_status v r out : grep_spec v = Some (r, out) -> 0 <= r < 256.
Proof.
  unfold grep_spec. destruct (v_args v); [injection 1; lia|]. destruct (find_dentry _ _) as [d|]; [|injection 1; lia].
  destruct (free_stream (v_fds v)); [|injection 1; lia]. destruct (_ =? _); [|discriminate]. destruct (free_stream _); [|discriminate].
  intros (? & _ & [= -> _])%fmap_Some. lia.
Qed.
