(* ===== verification/Shell.v ===== *)
(** The program [syscalls/ece391shell.c], against the interface of [Calls.v] and
    what it needs of [execute]: it reads lines, runs the programs they name and tells how
    they ended. *)

From S2P Require Import Prelude Memory CLib Support Machine Rofs Screen Process Launch Handlers Calls Programs.

Section Code.
Context {T : Type} `{Memory T} `{SysCalls T} `{Literals}.

(** What is said about the value of [execute]. *)
Definition shell_report (rval : Z) : M T unit :=
  if -1 =? rval then ece391_fdputs 1 (lit (line "no such command"))
  else if 256 =? rval then ece391_fdputs 1 (lit (line "program terminated by exception"))
  else if negb (0 =? rval) then ece391_fdputs 1 (lit (line "program terminated abnormally"))
  else mret tt.

(** From the comparison with ["exit"] on. *)
Definition shell_command (buf : Z) : M T (unit + Z) :=
  r ← ece391_strcmp buf (lit (text "exit"));
  if 0 =? r then mret (inr 0)
  else
    c ← load8 buf;
    if 0 =? c then mret (inl tt)
    else
      rval ← ece391_execute buf;
      shell_report rval;;
      mret (inl tt).

Definition shell_step (buf : Z) (_ : unit) : M T (unit + Z) :=
  ece391_fdputs 1 (lit (text "391OS> "));;
  cnt ← ece391_read 0 buf (BUFSIZE - 1);
  if -1 =? cnt then
    ece391_fdputs 1 (lit (line "read from keyboard failed"));;
    mret (inr 3)
  else
    nl ← (if 0 <? cnt then c ← load8 (buf + (cnt - 1)); mret (10 =? c) else mret false);
    let cnt := if nl : bool then cnt - 1 else cnt in
    store8 (buf + cnt) 0;;
    shell_command buf.

Definition shell_main (buf : Z) : M T Z :=
  ece391_fdputs 1 (lit (line "Starting 391 Shell"));;
  while (shell_step buf) tt.
End Code.

Definition shell_lits : list (list Z) :=
  [line "Starting 391 Shell"; text "391OS> "; line "read from keyboard failed"; text "exit"; line "no such command";
   line "program terminated by exception"; line "program terminated abnormally"].

(** * What a session is *)

(** What a program shares with the one that runs it: the screen, the modifier keys
    that are held, the lines to come. *)
Definition tty : Type := console * mods * list (list Z).
Definition tty_of (v : view) : tty := (v_con v, v_mods v, v_typed v).
Definition with_tty (st : tty) (v : view) : view := v <| v_con := st.1.1 |> <| v_mods := st.1.2 |> <| v_typed := st.2 |>.
Definition say (l : list Z) (st : tty) : tty := (con_puts l st.1.1, st.1.2, st.2).

(** The word at the head of a command, and what follows the space behind it. *)
Fixpoint split_command (l : list Z) : list Z * list Z :=
  match l with
  | [] => ([], [])
  | c :: l' => if c =? 32 then ([], l') else let '(w, words) := split_command l' in (c :: w, words)
  end.

(** The file of a program: [inl] when [execute] refuses the name. *)
Definition find_program (img : image) (w : list Z) : option (unit + list Z) :=
  match find_dentry img (w ++ [0]) with
  | None => Some (inl tt)
  | Some d =>
      (fun c => if decide (take 4 c = magic) then inr c else inl tt) <$>
        (if 0 <=? d_inode d then im_files img !! Z.to_nat (d_inode d) else None)
  end.

Definition report_line (r : Z) : list Z :=
  if r =? -1 then line "no such command"
  else if r =? 256 then line "program terminated by exception"
  else if r =? 0 then [] else line "program terminated abnormally".

(** A session of at most [fuel] lines that runs at most [room] programs, up to the line
    ["exit"].  [run] gives the status a program ends with and what it does to the
    terminal.  [None]: a line that is longer than the buffer of the kernel, a word that
    merely begins with ["exit"], a directory entry without a file, no lines any more. *)
Fixpoint shell_spec (img : image) (run : list Z -> list Z -> tty -> option (Z * tty)) (room fuel : nat) (st : tty) : option tty :=
  match fuel, st with
  | S fuel, (con, d, scs :: rest) =>
      match presses scs (Typed d [] (con_puts (text "391OS> ") con) false) with
      | Some (Typed d' l c' false) =>
          if (128 <=? Z.of_nat (length l)) || existsb (Z.eqb 10) l then None
          else
            let st := (con_enter c', d', rest) in
            if decide (l = text "exit") then Some st
            else if decide (l = []) then shell_spec img run room fuel st
            else
              let '(w, words) := split_command l in
              if decide (take 4 w = text "exit") then None
              else
                match find_program img w, room with
                | Some (inl _), _ => shell_spec img run room fuel (say (line "no such command") st)
                | Some (inr c), S room =>
                    '(r, st1) ← run c words st;
                    shell_spec img run room fuel (say (report_line r) st1)
                | _, _ => None
                end
      | _ => None
      end
  | _, _ => None
  end.

Example split_cat : split_command (text "cat frame0.txt") = (text "cat", text "frame0.txt").
Proof. reflexivity. Qed.

(** * What the shell needs of [execute] *)

(** A command in the memory of a program. *)
Definition command (l w words : list Z) : Prop :=
  split_command l = (w, words) /\ (length l < 128)%nat /\ Forall (fun b => 0 < b < 256 /\ b <> 10) l /\ take 4 w <> text "exit".

Class LauncherOk (T : Type) `{Memory T} `{SysCalls T} := {
  (** The system calls, with room for a number of programs to be run. *)
  allows : nat -> SysCallsOk T;
  (** A program with this file and these arguments ends with a status. *)
  ends : image -> list Z -> list Z -> tty -> Z -> tty -> Prop;
  execute_missing k t v a l w words :
    sees (SysCallsOk := allows k) t v -> inside a (Z.of_nat (length (l ++ [0]))) -> holds t (at_ (v_home v) a) (l ++ [0]) ->
    command l w words -> find_program (v_img v) w = Some (inl tt) ->
    exists t', ece391_execute a t = (Ok (-1), t') /\ sees (SysCallsOk := allows k) t' v /\ same_but (v_home v) a 0 t t';
  execute_runs k t v a l w words c r st :
    sees (SysCallsOk := allows (S k)) t v -> inside a (Z.of_nat (length (l ++ [0]))) -> holds t (at_ (v_home v) a) (l ++ [0]) ->
    command l w words -> find_program (v_img v) w = Some (inr c) -> ends (v_img v) c words (tty_of v) r st ->
    exists t', ece391_execute a t = (Ok r, t') /\ sees (SysCallsOk := allows k) t' (with_tty st v) /\ same_but (v_home v) a 0 t t'
}.

(** * Proofs *)

Section Line.
Context {T : Type} `{SysCallsOk T} {MO : MemoryOk T} `{Literals}.
Implicit Types (t : T) (v : view).

(** What the shell needs of its memory and its descriptors. *)
Record at_prompt (t : T) (v : view) (buf : Z) : Prop := {
  ap_keys : v_fds v !! 0%nat = Some SKeys;
  ap_display : v_fds v !! 1%nat = Some SDisplay;
  ap_lits : data (v_home v) t shell_lits;
  ap_buf : inside buf BUFSIZE /\ clear_of buf BUFSIZE shell_lits
}.

Lemma prompt_same t t' v v' buf a n : at_prompt t v buf -> v_home v' = v_home v -> v_fds v' = v_fds v ->
  same_but (v_home v) a n t t' -> n <= 0 \/ buf <= a /\ a + n <= buf + BUFSIZE -> at_prompt t' v' buf.
Proof.
  intros [P1 P2 P3 [P4 P5]] Hh Hf Hs Hd. split; [by rewrite Hf|by rewrite Hf| |by split].
  rewrite Hh. assert (same_but (v_home v) buf BUFSIZE t t') as Hs' by (eapply same_mono; [exact Hs|lia]).
  eapply data_same; [exact P3|exact Hs'|by right].
Qed.

Lemma newline_free l : existsb (Z.eqb 10) l = false -> Forall (fun b => b <> 10) l.
Proof.
  intros He. apply List.Forall_forall. intros b Hb ->. assert (existsb (Z.eqb 10) l = true); [|congruence].
  apply existsb_exists. by exists 10.
Qed.

(** The prompt, and the line. *)
Lemma line_read t v buf scs rest d' l c' :
  sees t v -> at_prompt t v buf -> v_typed v = scs :: rest ->
  presses scs (Typed (v_mods v) [] (con_puts (text "391OS> ") (v_con v)) false) = Some (Typed d' l c' false) ->
  Z.of_nat (length l) < 128 -> existsb (Z.eqb 10) l = false ->
  let v' := with_tty (con_enter c', d', rest) v in
  exists t', shell_step buf tt t = shell_command buf t' /\ sees t' v' /\ at_prompt t' v' buf /\
    inside buf (Z.of_nat (length (l ++ [0]))) /\ holds t' (at_ (v_home v') buf) (l ++ [0]) /\ Forall (fun b => 0 < b < 256 /\ b <> 10) l.
Proof.
  intros Hs Hap Hty Hp Hlen Hnl v'. pose proof Hap as [P1 P2 P3 [P4 P5]]. unfold shell_step. unfold BUFSIZE in *.
  destruct (puts_lit t v (text "391OS> ") shell_lits Hs P2 P3 ltac:(in_list)) as (t1 & v1 & E1 & Hs1 & Hv1 & Hk1 & Hl1). go E1.
  pose proof Hv1 as Q1. fields Hv1 as [h1 a1 i1 f1 c1 m1 y1].
  assert (inside buf (1024 - 1)) as Hi1 by (eapply inside_sub; [exact P4|lia..]).
  destruct (read_keys t1 v1 0 scs rest d' l c' buf (1024 - 1) Hs1) as (t2 & v2 & E2 & Hs2 & Hv2 & Hh2 & Hb2 & Hk2);
    [lia|change (Z.to_nat 0) with 0%nat; congruence|exact Hi1|congruence|congruence|by left|].
  rewrite firstn_all2 in E2, Hh2, Hb2, Hk2 by lia. go E2. pose proof Hv2 as Q2. fields Hv2 as [h2 a2 i2 f2 c2 m2 y2].
  rewrite (proj2 (Z.eqb_neq (-1) _)) by lia. rewrite h1 in *.
  assert (v2 = v') as Hvv by (rewrite Q2, Q1; reflexivity). clear Q1 Q2.
  assert ((if 0 <? Z.of_nat (length l) then c ← load8 (buf + (Z.of_nat (length l) - 1)); mret (10 =? c) else mret false) t2 = (Ok false, t2)) as Enl.
  { destruct (Z.ltb_spec 0 (Z.of_nat (length l))) as [Hpos|]; [|done].
    assert (maps t2 buf (at_ (v_home v) buf) (Z.of_nat (length l))) as Hm
      by (rewrite <- h2; apply inside_maps; [done|eapply inside_sub; [exact P4|lia..]]).
    go (holds_load t2 buf (at_ (v_home v) buf) l (Z.of_nat (length l) - 1) Hm Hh2) by lia. rewrite ret_run.
    rewrite (proj2 (Z.eqb_neq 10 _)); [done|]. intros Heq. symmetry in Heq. revert Heq. unfold byte_at.
    apply (Forall_lookup_total_1 (fun b => b <> 10)); [by apply newline_free|lia]. }
  go Enl. cbv zeta iota.
  destruct (store_next t2 v2 buf l 1024 0 Hs2 P4) as (t3 & E3 & Hs3 & Hh3 & Hk3); [by rewrite h2|lia|done|]. go E3.
  exists t3. split; [done|]. rewrite Hvv in *. split; [exact Hs3|]. split; [|split; [|split; [exact Hh3|]]].
  - apply (prompt_same t2 t3 v' v' buf buf 1024); [|done|done|exact Hk3|right; unfold BUFSIZE; lia].
    apply (prompt_same t1 t2 v v' buf buf (Z.of_nat (length l))); [|exact h2|by rewrite f2|exact Hk2|right; unfold BUFSIZE; lia].
    apply (prompt_same t t1 v v buf VIRTUAL_START 0); [exact Hap|done|done|exact Hk1|by left].
  - rewrite length_app. cbn [length]. eapply inside_sub; [exact P4|lia..].
  - pose proof (newline_free l Hnl) as Hn. rewrite List.Forall_forall in Hb2, Hn. apply List.Forall_forall. intros b Hb. split; [by apply Hb2|by apply Hn].
Qed.

(** A message, or none. *)
Lemma report_ok t v buf r : sees t v -> at_prompt t v buf ->
  exists t', shell_report r t = (Ok tt, t') /\ sees t' (with_tty (say (report_line r) (tty_of v)) v) /\ same_but (v_home v) VIRTUAL_START 0 t t'.
Proof.
  intros Hs [P1 P2 P3 [P4 P5]]. unfold shell_report, report_line. rewrite (Z.eqb_sym (-1)), (Z.eqb_sym 256), (Z.eqb_sym 0).
  assert (forall l, In l shell_lits -> exists t', ece391_fdputs 1 (lit l) t = (Ok tt, t') /\
    sees t' (with_tty (say l (tty_of v)) v) /\ same_but (v_home v) VIRTUAL_START 0 t t') as Hputs.
  { intros l Hl. destruct (puts_lit t v l shell_lits Hs P2 P3 Hl) as (t' & v' & E & Hs' & -> & Hk & _). exists t'. split; [exact E|].
    by split. }
  destruct (r =? -1); [apply Hputs; in_list|]. destruct (r =? 256); [apply Hputs; in_list|].
  destruct (r =? 0); cbn [negb]; [|apply Hputs; in_list]. exists t. split; [done|]. split; [|apply same_refl].
  assert (with_tty (say [] (tty_of v)) v = v) as ->; [|exact Hs]. by destruct v.
Qed.

(** The comparison with ["exit"], and the first character. *)
Lemma line_compared t v buf l : sees t v -> at_prompt t v buf -> inside buf (Z.of_nat (length (l ++ [0]))) ->
  holds t (at_ (v_home v) buf) (l ++ [0]) -> Forall (fun b => 0 < b < 256 /\ b <> 10) l ->
  shell_command buf t =
    if decide (l = text "exit") then (Ok (inr 0), t)
    else if decide (l = []) then (Ok (inl tt), t)
    else (rval ← ece391_execute buf; shell_report rval;; mret (inl tt)) t.
Proof.
  intros Hs [P1 P2 P3 [P4 P5]] Hi Hh Hl. unfold shell_command.
  assert (placed (v_home v) t (text "exit")) as (Hei & Heh & _) by (eapply (proj1 (List.Forall_forall _ _) P3); unfold shell_lits; in_list).
  pose proof (inside_maps t v buf _ Hs Hi) as Hm.
  destruct (strcmp_spec_strings l (text "exit")) as (r & Er & Hr).
  { eapply Forall_impl; [|exact Hl]. cbv beta. lia. } { by repeat constructor. }
  go (ece391_strcmp_ok t buf (at_ (v_home v) buf) (l ++ [0]) (lit (text "exit")) (at_ (v_home v) (lit (text "exit"))) (text "exit" ++ [0]) r Hm) by
    (first [by apply inside_maps|exact Hh|exact Heh|exact Er|unfold inside, VIRTUAL_START, VIRTUAL_END in Hi; lia]).
  destruct (Z.eqb_spec 0 r) as [Hz|Hz].
  - rewrite decide_True by (apply Hr; lia). done.
  - rewrite decide_False by (intros He; apply Hz; symmetry; by apply Hr).
    assert (load8 buf t = (Ok (byte_at (l ++ [0]) 0), t)) as Eb.
    { pose proof (holds_load t buf (at_ (v_home v) buf) (l ++ [0]) 0 Hm Hh) as E. rewrite Z.add_0_r in E. apply E.
      rewrite length_app. cbn [length]. lia. }
    go Eb. destruct l as [|c l]; [done|]. rewrite decide_False by done. change (byte_at ((c :: l) ++ [0]) 0) with c.
    pose proof (Forall_inv Hl) as [Hc _]. rewrite (proj2 (Z.eqb_neq 0 c)) by lia. done.
Qed.
End Line.

Section Session.
Context {T : Type} `{Memory T} `{SysCalls T} {LO : LauncherOk T} {MO : MemoryOk T} `{Literals}.
Implicit Types (t : T) (v : view).
Context (img : image) (run : list Z -> list Z -> tty -> option (Z * tty)) (buf : Z).
Hypothesis Hrun : forall c words st r st', run c words st = Some (r, st') -> ends img c words st r st'.

Let seen (k : nat) t v : Prop := sees (SysCallsOk := allows k) t v.

Lemma with_tty_of v : with_tty (tty_of v) v = v.
Proof. by destruct v. Qed.

Lemma tty_of_with st v : tty_of (with_tty st v) = st.
Proof. by destruct st as [[? ?] ?]. Qed.

Lemma with_with st st' v : with_tty st (with_tty st' v) = with_tty st v.
Proof. done. Qed.

(** What the shell says after a program, or in place of one. *)
Lemma reported k t v st r : seen k t (with_tty st v) -> at_prompt t (with_tty st v) buf ->
  exists t', (shell_report r;; mret (inl tt : unit + Z)) t = (Ok (inl tt), t') /\
    seen k t' (with_tty (say (report_line r) st) v) /\ at_prompt t' (with_tty (say (report_line r) st) v) buf.
Proof.
  intros Hs Hap. destruct (report_ok t (with_tty st v) buf r Hs Hap) as (t' & E & Hs' & Hk). rewrite tty_of_with, with_with in Hs'.
  exists t'. split; [by go E|]. split; [exact Hs'|].
  eapply (prompt_same t t' (with_tty st v)); [exact Hap|reflexivity|reflexivity|exact Hk|by left].
Qed.

Lemma session_iter fuel : forall room st st' t v,
  shell_spec img run room fuel st = Some st' -> seen room t (with_tty st v) -> at_prompt t (with_tty st v) buf -> v_img v = img ->
  exists t' room', iter fuel (shell_step buf) tt t = (Ok (inr 0), t') /\ seen room' t' (with_tty st' v).
Proof.
  induction fuel as [|fuel IH]; intros room st st' t v Hsp Hs Hap Him; [done|]. cbn [shell_spec] in Hsp.
  destruct st as [[con d] [|scs rest]]; [done|]. set (v0 := with_tty (con, d, scs :: rest) v) in *.
  destruct (presses scs _) as [[d' l c' []]|] eqn:Ep; [done| |done].
  destruct (Z.leb_spec 128 (Z.of_nat (length l))) as [|Hlen]; [done|]. cbn [orb] in Hsp.
  destruct (existsb (Z.eqb 10) l) eqn:Enl; [done|].
  destruct (line_read t v0 buf scs rest d' l c' Hs Hap eq_refl Ep Hlen Enl) as (t1 & E1 & Hs1 & Hap1 & Hi1 & Hh1 & Hl1).
  set (st1 := (con_enter c', d', rest)) in *. change (with_tty st1 v0) with (with_tty st1 v) in *.
  cbn [iter]. rewrite bind_run, E1. rewrite (line_compared t1 (with_tty st1 v) buf l Hs1 Hap1 Hi1 Hh1 Hl1).
  destruct (decide (l = text "exit")) as [_|_].
  { injection Hsp as <-. exists t1, room. by split. }
  destruct (decide (l = [])) as [_|Hne].
  { by apply (IH room st1 st' t1 v). }
  destruct (split_command l) as [w words] eqn:Esp. destruct (decide (take 4 w = text "exit")) as [|Hx]; [done|].
  assert (command l w words) as Hcmd by (split; [exact Esp|split; [lia|by split]]).
  destruct (find_program img w) as [[[]|c]|] eqn:Efp; [| |done].
  - destruct (execute_missing room t1 (with_tty st1 v) buf l w words Hs1 Hi1 Hh1 Hcmd) as (t2 & E2 & Hs2 & Hk2).
    { change (v_img (with_tty st1 v)) with (v_img v). by rewrite Him. }
    assert (at_prompt t2 (with_tty st1 v) buf) as Hap2
      by (eapply (prompt_same t1 t2 (with_tty st1 v)); [exact Hap1|reflexivity|reflexivity|exact Hk2|by left]).
    destruct (reported room t2 v st1 (-1) Hs2 Hap2) as (t3 & E3 & Hs3 & Hap3). go E2. rewrite E3.
    by apply (IH room (say (line "no such command") st1) st' t3 v).
  - destruct room as [|room]; [done|]. destruct (run c words st1) as [[r st2]|] eqn:Er; [|done]. cbn [mbind option_bind] in Hsp.
    destruct (execute_runs room t1 (with_tty st1 v) buf l w words c r st2 Hs1 Hi1 Hh1 Hcmd) as (t2 & E2 & Hs2 & Hk2).
    { change (v_img (with_tty st1 v)) with (v_img v). by rewrite Him. }
    { rewrite tty_of_with. change (v_img (with_tty st1 v)) with (v_img v). rewrite Him. by apply Hrun. }
    rewrite with_with in Hs2.
    assert (at_prompt t2 (with_tty st2 v) buf) as Hap2
      by (eapply (prompt_same t1 t2 (with_tty st1 v)); [exact Hap1|reflexivity|reflexivity|exact Hk2|by left]).
    destruct (reported room t2 v st2 r Hs2 Hap2) as (t3 & E3 & Hs3 & Hap3). go E2. rewrite E3.
    by apply (IH room (say (report_line r) st2) st' t3 v).
Qed.

(** The shell, from its start to the line ["exit"]. *)
Lemma shell_ok room fuel t v st' :
  seen room t v -> at_prompt t v buf -> v_img v = img -> Z.of_nat fuel <= 4294967296 ->
  shell_spec img run room fuel (say (line "Starting 391 Shell") (tty_of v)) = Some st' ->
  exists t' room', shell_main buf t = (Ok 0, t') /\ seen room' t' (with_tty st' v).
Proof.
  intros Hs Hap Him Hf Hsp. pose proof Hap as [P1 P2 P3 P4]. unfold shell_main.
  destruct (puts_lit t v (line "Starting 391 Shell") shell_lits Hs P2 P3 ltac:(in_list)) as (t1 & v1 & E1 & Hs1 & -> & Hk1 & _). go E1.
  destruct (session_iter fuel room _ st' t1 v Hsp) as (t' & room' & E & Hs').
  - exact Hs1.
  - eapply (prompt_same t t1 v); [exact Hap|reflexivity|reflexivity|exact Hk1|by left].
  - exact Him.
  - exists t', room'. split; [exact (while_ok fuel _ tt t1 0 t' Hf E)|exact Hs'].
Qed.
End Session.
