(* ===== verification/Blink.v ===== *)
(** The blinking characters of the fish: [fish/blink.S] and the memory routines of
    [fish/fish.c].

    A character that blinks is a structure of 16 bytes in an array of 2000; those in
    use form a linked list.  The code is translated over any memory; the addresses
    of the globals come from [FishData], that of the temporary structure on the
    stack is an argument.  Its proofs go in two steps: from the bytes of memory to
    the array of structures ([stored]), and from the array to the list of
    blinking characters ([blinks]). *)

From S2P Require Import Prelude Memory CLib Support.

(** [fish/blink.h] *)
Definition RTC_ADD : Z := 0.
Definition RTC_REMOVE : Z := 1.
Definition RTC_FIND : Z := 2.
Definition RTC_SYNC : Z := 3.

Definition LOCATION : Z := 0.
Definition ON_CHAR : Z := 2.
Definition OFF_CHAR : Z := 3.
Definition ON_LENGTH : Z := 4.
Definition OFF_LENGTH : Z := 6.
Definition COUNTDOWN : Z := 8.
Definition STATUS : Z := 10.
Definition NEXT : Z := 12.
Definition STRUCT_SIZE : Z := 16.

Definition i16 (z : Z) : Z := (z + 32768) mod 65536 - 32768.

(** The addresses of the globals. *)
Class FishData := { vmem_base_addr : Z; mp1_list_head : Z; blink_array : Z }.

Section Code.
Context {T : Type} `{Memory T} `{FishData}.

(** 16-bit loads, and stores of 16 and 32 bits. *)
Definition load16 (a : Z) : M T Z :=
  b0 ← load8 a; b1 ← load8 (a + 1); mret (b0 + 256 * b1).
Definition movw (a v : Z) : M T unit := store8 a v;; store8 (a + 1) (Z.shiftr v 8).
Definition movl (a v : Z) : M T unit :=
  store8 a v;; store8 (a + 1) (Z.shiftr v 8);;
  store8 (a + 2) (Z.shiftr v 16);; store8 (a + 3) (Z.shiftr v 24).

(** * [fish.c] *)

Definition ece391_memset (memory c n : Z) : M T unit :=
  for_range 0 n (fun i => store8 (memory + i) c).

Definition ece391_memcpy (dest src n : Z) : M T Z :=
  for_range 0 n (fun i => b ← load8 (src + i); store8 (dest + i) b);;
  mret 0.

(** A structure whose location is 0 is free. *)
Definition mp1_malloc (size : Z) : M T Z :=
  while (fun i =>
    if i <? 80 * 25 then
      l ← load16 (blink_array + STRUCT_SIZE * i + LOCATION);
      if l =? 0 then mret (inr (blink_array + STRUCT_SIZE * i)) else mret (inl (i + 1))
    else mret (inr 0)) 0.

Definition mp1_free (memory : Z) : M T unit := ece391_memset memory 0 STRUCT_SIZE.

(** * [blink.S] *)

Definition mp1_poke (cl eax : Z) : M T unit :=
  edx ← load32 vmem_base_addr;
  store8 (edx + eax) cl.

(** The loop body, [tasklet_loop] to [next_loop]. *)
Definition tasklet_loop (ebx : Z) : M T (Z + unit) :=
  if ebx =? 0 then mret (inr tt) else
  c ← load16 (ebx + COUNTDOWN);
  movw (ebx + COUNTDOWN) (c - 1);;
  c ← load16 (ebx + COUNTDOWN);
  (if 0 <? i16 c then mret tt else
     l ← load16 (ebx + LOCATION);
     let eax := u32 (Z.shiftl l 1) in
     s ← load16 (ebx + STATUS);
     dx ← (if Z.testbit s 0 then
             cl ← load8 (ebx + OFF_CHAR);
             mp1_poke cl eax;;
             load16 (ebx + OFF_LENGTH)
           else
             cl ← load8 (ebx + ON_CHAR);
             mp1_poke cl eax;;
             load16 (ebx + ON_LENGTH));
     movw (ebx + COUNTDOWN) dx;;
     s ← load16 (ebx + STATUS);
     movw (ebx + STATUS) (Z.lxor s 1));;
  ebx ← load32 (ebx + NEXT);
  mret (inl ebx).

Definition mp1_rtc_tasklet (trash : Z) : M T unit :=
  ebx ← load32 mp1_list_head;
  while tasklet_loop ebx.

Definition mp1_find_helper (arg : Z) : M T Z :=
  let ax := u16 arg in
  ebx ← load32 mp1_list_head;
  while (fun ebx =>
    if ebx =? 0 then mret (inr 0) else
    l ← load16 (ebx + LOCATION);
    if l =? ax then mret (inr ebx) else
    ebx ← load32 (ebx + NEXT);
    mret (inl ebx)) ebx.

(** [tmp] is the structure on the stack. *)
Definition mp1_ioctl_add (arg tmp : Z) : M T Z :=
  eax ← ece391_memcpy tmp arg STRUCT_SIZE;
  if negb (eax =? 0) then mret (-1) else
  l ← load16 (tmp + LOCATION);
  if 80 * 25 <=? l then mret (-1) else
  movw (tmp + STATUS) 1;;
  dx ← load16 (tmp + ON_LENGTH);
  movw (tmp + COUNTDOWN) dx;;
  edx ← mp1_malloc STRUCT_SIZE;
  if edx =? 0 then mret (-1) else
  ece391_memcpy edx tmp STRUCT_SIZE;;
  eax ← load32 mp1_list_head;
  movl (edx + NEXT) eax;;
  movl mp1_list_head edx;;
  l ← load16 (edx + LOCATION);
  cl ← load8 (edx + ON_CHAR);
  mp1_poke cl (u32 (Z.shiftl l 1));;
  mret 0.

Definition mp1_ioctl_remove (arg : Z) : M T Z :=
  eax ← mp1_find_helper arg;
  if eax =? 0 then mret (-1) else
  edx ← while (fun edx =>
    x ← load32 edx;
    if x =? eax then mret (inr edx) else mret (inl (x + NEXT))) mp1_list_head;
  ecx ← load32 (eax + NEXT);
  movl edx ecx;;
  mp1_free eax;;
  mret 0.

(** [cmovl] looks at the sign flag, which is bit 7 of the result of [testb], and at
    the overflow flag, which [testb] clears. *)
Definition mp1_ioctl_sync (arg : Z) : M T Z :=
  esi ← mp1_find_helper (Z.shiftr (u32 arg) 16);
  if esi =? 0 then mret (-1) else
  edi ← mp1_find_helper (Z.land (u32 arg) 0xFFFF);
  if edi =? 0 then mret (-1) else
  ax ← load16 (esi + ON_LENGTH); movw (edi + ON_LENGTH) ax;;
  ax ← load16 (esi + OFF_LENGTH); movw (edi + OFF_LENGTH) ax;;
  ax ← load16 (esi + COUNTDOWN); movw (edi + COUNTDOWN) ax;;
  ax ← load16 (esi + STATUS); movw (edi + STATUS) ax;;
  l ← load16 (edi + LOCATION);
  off ← load8 (edi + OFF_CHAR);
  on ← load8 (edi + ON_CHAR);
  s ← load8 (edi + STATUS);
  mp1_poke (if Z.testbit (Z.land 1 s) 7 then on else off) (u32 (Z.shiftl l 1));;
  mret 0.

(** [tmp] is two bytes on the stack. *)
Definition mp1_ioctl_find (arg tmp : Z) : M T Z :=
  eax ← ece391_memcpy tmp arg 2;
  if negb (eax =? 0) then mret (-1) else
  l ← load16 tmp;
  eax ← mp1_find_helper l;
  if eax =? 0 then mret (-1) else
  eax ← ece391_memcpy arg eax STRUCT_SIZE;
  if eax =? 0 then mret 0 else mret (-1).

(** The jump through [call_table]. *)
Definition mp1_ioctl (arg cmd tmp : Z) : M T Z :=
  if cmd =? RTC_ADD then mp1_ioctl_add arg tmp
  else if cmd =? RTC_REMOVE then mp1_ioctl_remove arg
  else if cmd =? RTC_FIND then mp1_ioctl_find arg tmp
  else if cmd =? RTC_SYNC then mp1_ioctl_sync arg
  else raise OutOfBounds.
End Code.

(** * The array of structures *)

Record node := Node {
  n_location : Z; n_on_char : Z; n_off_char : Z; n_on_length : Z; n_off_length : Z;
  n_countdown : Z; n_status : Z; n_next : Z
}.
#[export] Instance eta_node : Eta node := fun r =>
  Node (n_location r) (n_on_char r) (n_off_char r) (n_on_length r) (n_off_length r) (n_countdown r) (n_status r) (n_next r).

Definition bytes16 (v : Z) : list Z := [u8 v; u8 (Z.shiftr v 8)].
Definition bytes4 (v : Z) : list Z := [u8 v; u8 (Z.shiftr v 8); u8 (Z.shiftr v 16); u8 (Z.shiftr v 24)].
Definition node_bytes (n : node) : list Z :=
  bytes16 (n_location n) ++ [n_on_char n; n_off_char n] ++ bytes16 (n_on_length n) ++ bytes16 (n_off_length n) ++
  bytes16 (n_countdown n) ++ bytes16 (n_status n) ++ bytes4 (n_next n).

Definition is_word (v : Z) : Prop := 0 <= v < 65536.
Record node_ok (n : node) : Prop := {
  no_location : is_word (n_location n);
  no_on_char : is_byte (n_on_char n);
  no_off_char : is_byte (n_off_char n);
  no_on_length : is_word (n_on_length n);
  no_off_length : is_word (n_off_length n);
  no_countdown : is_word (n_countdown n);
  no_status : is_word (n_status n);
  no_next : 0 <= n_next n < 4294967296
}.

Lemma word16 v : is_word v -> u8 v + 256 * u8 (Z.shiftr v 8) = v.
Proof. unfold is_word, u8. intros Hv. rewrite Z.shiftr_div_pow2 by lia. change (2 ^ 8) with 256. Z.to_euclidean_division_equations. lia. Qed.

Lemma word32 v : 0 <= v < 4294967296 -> le32 (u8 v) (u8 (Z.shiftr v 8)) (u8 (Z.shiftr v 16)) (u8 (Z.shiftr v 24)) = v.
Proof.
  unfold u8, le32. intros Hv. rewrite !Z.shiftr_div_pow2 by lia.
  change (2 ^ 8) with 256. change (2 ^ 16) with 65536. change (2 ^ 24) with 16777216. Z.to_euclidean_division_equations. lia.
Qed.

Lemma bytes_node n : node_ok n -> Forall is_byte (node_bytes n).
Proof.
  intros [H1 H2 H3 H4 H5 H6 H7 H8]. unfold node_bytes, bytes16, bytes4. cbn [app].
  repeat (apply List.Forall_cons; [first [done|apply u8_range]|]). apply List.Forall_nil.
Qed.

Lemma length_node n : length (node_bytes n) = 16%nat.
Proof. done. Qed.

Section Words.
Context {T : Type} `{MemoryOk T}.
Implicit Types (t : T) (l : list Z).

Lemma load16_holds t a p l i :
  maps t a p (Z.of_nat (length l)) -> holds t p l -> 0 <= i -> i + 2 <= Z.of_nat (length l) ->
  load16 (a + i) t = (Ok (byte_at l i + 256 * byte_at l (i + 1)), t).
Proof.
  intros Hm Hl Hi Hi2. unfold load16. go (holds_load t a p l i) by (done || lia).
  rewrite <- Z.add_assoc. go (holds_load t a p l (i + 1)) by (done || lia). done.
Qed.

Lemma load32_holds t a p l i :
  maps t a p (Z.of_nat (length l)) -> holds t p l -> 0 <= i -> i + 4 <= Z.of_nat (length l) ->
  load32 (a + i) t = (Ok (word_at l i), t).
Proof.
  intros Hm Hl Hi Hi2. rewrite (load32_maps t a p (Z.of_nat (length l)) i) by (done || lia). do 2 f_equal.
  unfold cell32, word_at. rewrite <- !Z.add_assoc, !(holds_byte t p l) by (done || lia). done.
Qed.

(** Overwriting a part of a run. *)
Definition patch (i : nat) (l' l : list Z) : list Z := take i l ++ l' ++ drop (i + length l') l.

Lemma holds_patch t p l l' i :
  holds t p l -> Forall is_byte l' -> (i + length l' <= length l)%nat -> holds (upds t (p + Z.of_nat i) l') p (patch i l' l).
Proof.
  intros Hl Hb Hi. assert (l = take i l ++ take (length l') (drop i l) ++ drop (i + length l') l) as E.
  { rewrite <- drop_drop, !take_drop. done. }
  assert (length (take i l) = i) as Hti by (rewrite length_take; lia).
  assert (length (take (length l') (drop i l)) = length l') as Htl by (rewrite length_take, length_drop; lia).
  rewrite E in Hl. apply holds_app in Hl as [Hl1 Hl2]. apply holds_app in Hl2 as [_ Hl3]. rewrite Hti, Htl in *.
  unfold patch. apply holds_app. rewrite Hti. split; [|apply holds_app; split].
  - unfold holds. rewrite cells_upds_out by lia. exact Hl1.
  - by apply holds_upds.
  - unfold holds. rewrite cells_upds_out by lia. exact Hl3.
Qed.

Lemma upd_u8 t p v l : upds t p (v :: l) = upds (upd t p (u8 v)) (p + 1) l.
Proof. done. Qed.

Lemma movw_upds t a p n i v :
  maps t a p n -> 0 <= i -> i + 2 <= n -> movw (a + i) v t = (Ok tt, upds t (p + i) (bytes16 v)).
Proof.
  intros Hm Hi Hn. unfold movw. go (store8_maps t a p n i v) by (done || lia). rewrite <- Z.add_assoc.
  rewrite (store8_maps _ a p n (i + 1)) by (first [by apply maps_upd|lia]). unfold bytes16. rewrite !upd_u8, !u8_u8, Z.add_assoc. done.
Qed.

Lemma movl_upds t a p n i v :
  maps t a p n -> 0 <= i -> i + 4 <= n -> movl (a + i) v t = (Ok tt, upds t (p + i) (bytes4 v)).
Proof.
  intros Hm Hi Hn. unfold movl. go (store8_maps t a p n i v) by (done || lia). rewrite <- !Z.add_assoc.
  go (store8_maps _ a p n (i + 1)) by (first [by apply maps_upd|lia]).
  go (store8_maps _ a p n (i + 2)) by (first [by do 2 apply maps_upd|lia]).
  rewrite (store8_maps _ a p n (i + 3)) by (first [by do 3 apply maps_upd|lia]).
  unfold bytes4. rewrite !upd_u8, !u8_u8, !Z.add_assoc.
  replace (p + i + 1 + 1) with (p + i + 2) by lia. replace (p + i + 2 + 1) with (p + i + 3) by lia. done.
Qed.

(** [ece391_memset] and [ece391_memcpy]. *)
Lemma ece391_memset_ok t a p (n : nat) c :
  maps t a p (Z.of_nat n) -> Z.of_nat n < 4294967296 ->
  ece391_memset a c (Z.of_nat n) t = (Ok tt, upds t p (replicate n c)).
Proof.
  intros Hm Hn. unfold ece391_memset. rewrite for_range_n by lia.
  destruct (for_n_ok (fun i t' => t' = upds t p (replicate (Z.to_nat i) c)) (Z.to_nat (Z.of_nat n - 0)) 0
    (fun i => store8 (a + i) c) t) as (t' & E & ->); [done| |rewrite E; do 3 f_equal; lia].
  intros i t' Hi ->. rewrite (store8_maps _ a p (Z.of_nat n) i) by (first [by apply maps_upds|lia]). eexists. split; [done|].
  replace (Z.to_nat (i + 1)) with (Z.to_nat i + 1)%nat by lia. rewrite replicate_add, upds_app, length_replicate, Z2Nat.id by lia.
  cbn [replicate]. by rewrite upd_u8.
Qed.

Lemma ece391_memcpy_ok t d pd s ps l :
  maps t d pd (Z.of_nat (length l)) -> maps t s ps (Z.of_nat (length l)) -> holds t ps l -> Z.of_nat (length l) < 4294967296 ->
  pd + Z.of_nat (length l) <= ps \/ ps + Z.of_nat (length l) <= pd ->
  ece391_memcpy d s (Z.of_nat (length l)) t = (Ok 0, upds t pd l).
Proof.
  intros Hd Hs Hl Hn Hdis. unfold ece391_memcpy. rewrite bind_run, for_range_n by lia.
  destruct (for_n_ok (fun i t' => t' = upds t pd (take (Z.to_nat i) l)) (Z.to_nat (Z.of_nat (length l) - 0)) 0
    (fun i => b ← load8 (s + i); store8 (d + i) b) t) as (t' & E & ->); [done| |].
  - intros i t' Hi ->.
    assert (length (take (Z.to_nat i) l) = Z.to_nat i) as Ht by (rewrite length_take; lia).
    go (load8_maps _ s ps (Z.of_nat (length l)) i) by (first [by apply maps_upds|lia]).
    rewrite cell_upds_out, (holds_byte t ps l i) by (done || lia).
    rewrite (store8_maps _ d pd (Z.of_nat (length l)) i) by (first [by apply maps_upds|lia]). eexists. split; [done|].
    rewrite (take_byte l) by lia. by rewrite upds_app, Ht, Z2Nat.id by lia.
  - rewrite E, ret_run. do 3 f_equal. rewrite firstn_all2 by lia. done.
Qed.
End Words.

#[export] Instance node_inhabited : Inhabited node := populate (Node 0 0 0 0 0 0 0 0).

(** The array, the head of the list, and the characters and attributes on the screen. *)
Record arr := Arr { nodes : list node; head : Z; chars : list Z }.
#[export] Instance eta_arr : Eta arr := fun r => Arr (nodes r) (head r) (chars r).

(** Where the globals and the video memory lie; [vid] is the address of the latter
    that [vidmap] has stored in [vmem_base_addr]. *)
Record layout := Layout { pa : Z; ph : Z; pm : Z; pv : Z; vid : Z }.

Section Stored.
Context {T : Type} `{MemoryOk T} `{FishData} (L : layout).
Implicit Types (t : T) (A : arr) (n : node).

Record layout_ok : Prop := {
  lo_array : 0 < blink_array /\ blink_array + 32000 <= 4294967296;
  lo_video : 0 <= vid L /\ vid L + 4000 <= 4294967296;
  lo_head : 0 <= mp1_list_head /\ mp1_list_head + 4 <= 4294967296;
  lo_ah : pa L + 32000 <= ph L \/ ph L + 4 <= pa L;
  lo_am : pa L + 32000 <= pm L \/ pm L + 4 <= pa L;
  lo_av : pa L + 32000 <= pv L \/ pv L + 4000 <= pa L;
  lo_hm : ph L + 4 <= pm L \/ pm L + 4 <= ph L;
  lo_hv : ph L + 4 <= pv L \/ pv L + 4000 <= ph L;
  lo_mv : pm L + 4 <= pv L \/ pv L + 4000 <= pm L
}.

Definition slot (i : nat) : Z := blink_array + 16 * Z.of_nat i.

Record stored t A : Prop := {
  st_array : maps t blink_array (pa L) 32000;
  st_top : maps t mp1_list_head (ph L) 4;
  st_base : maps t vmem_base_addr (pm L) 4;
  st_video : maps t (vid L) (pv L) 4000;
  st_length : length (nodes A) = 2000%nat;
  st_size : length (chars A) = 4000%nat;
  st_node i n : nodes A !! i = Some n -> holds t (pa L + 16 * Z.of_nat i) (node_bytes n) /\ node_ok n;
  st_head : holds t (ph L) (bytes4 (head A)) /\ 0 <= head A < 4294967296;
  st_vid : holds t (pm L) (bytes4 (vid L));
  st_chars : holds t (pv L) (chars A)
}.

(** What the code of [blink.S] writes to. *)
Definition touch t t' : Prop :=
  (forall a, loc t' a = loc t a) /\
  forall q, ~ pa L <= q < pa L + 32000 -> ~ ph L <= q < ph L + 4 -> ~ pv L <= q < pv L + 4000 -> cell t' q = cell t q.

Lemma touch_refl t : touch t t.
Proof. done. Qed.

Lemma touch_trans t1 t2 t3 : touch t1 t2 -> touch t2 t3 -> touch t1 t3.
Proof. intros [Ea Eb] [Ec Ed]. split; [intros a; by rewrite Ec, Ea|]. intros q Q1 Q2 Q3. by rewrite Ed, Eb. Qed.

Context (Hlo : layout_ok).

Lemma slot_range i : (i < 2000)%nat -> 0 < slot i /\ slot i + 16 <= 4294967296.
Proof. destruct (lo_array Hlo). unfold slot. lia. Qed.

Lemma slot_inj i j : slot i = slot j -> i = j.
Proof. unfold slot. lia. Qed.

Section At.
Context t A (Hst : stored t A) i n (Hi : nodes A !! i = Some n).

Lemma at_index : (i < 2000)%nat.
Proof. apply lookup_lt_Some in Hi. by rewrite (st_length _ _ Hst) in Hi. Qed.

Lemma at_maps : maps t (slot i) (pa L + 16 * Z.of_nat i) 16.
Proof.
  pose proof at_index. eapply maps_mono; [apply maps_shift; [|exact (st_array _ _ Hst)]; lia|lia].
Qed.

Lemma ld16 k x : 0 <= k <= 14 -> byte_at (node_bytes n) k + 256 * byte_at (node_bytes n) (k + 1) = x ->
  load16 (slot i + k) t = (Ok x, t).
Proof. intros Hk <-. apply (load16_holds t _ (pa L + 16 * Z.of_nat i) (node_bytes n)); [exact at_maps|apply (st_node _ _ Hst _ _ Hi)|lia|rewrite length_node; lia]. Qed.

Lemma ld_location : load16 (slot i + LOCATION) t = (Ok (n_location n), t).
Proof. apply ld16; [unfold LOCATION; lia|]. apply word16, (st_node _ _ Hst _ _ Hi). Qed.
Lemma ld_on_length : load16 (slot i + ON_LENGTH) t = (Ok (n_on_length n), t).
Proof. apply ld16; [unfold ON_LENGTH; lia|]. apply word16, (st_node _ _ Hst _ _ Hi). Qed.
Lemma ld_off_length : load16 (slot i + OFF_LENGTH) t = (Ok (n_off_length n), t).
Proof. apply ld16; [unfold OFF_LENGTH; lia|]. apply word16, (st_node _ _ Hst _ _ Hi). Qed.
Lemma ld_countdown : load16 (slot i + COUNTDOWN) t = (Ok (n_countdown n), t).
Proof. apply ld16; [unfold COUNTDOWN; lia|]. apply word16, (st_node _ _ Hst _ _ Hi). Qed.
Lemma ld_status : load16 (slot i + STATUS) t = (Ok (n_status n), t).
Proof. apply ld16; [unfold STATUS; lia|]. apply word16, (st_node _ _ Hst _ _ Hi). Qed.

Lemma ld8 k x : 0 <= k < 16 -> byte_at (node_bytes n) k = x -> load8 (slot i + k) t = (Ok x, t).
Proof. intros Hk <-. apply (holds_load t _ (pa L + 16 * Z.of_nat i) (node_bytes n)); [exact at_maps|apply (st_node _ _ Hst _ _ Hi)|rewrite length_node; lia]. Qed.

Lemma ld_on_char : load8 (slot i + ON_CHAR) t = (Ok (n_on_char n), t).
Proof. by apply ld8. Qed.
Lemma ld_off_char : load8 (slot i + OFF_CHAR) t = (Ok (n_off_char n), t).
Proof. by apply ld8. Qed.
Lemma ld_next : load32 (slot i + NEXT) t = (Ok (n_next n), t).
Proof.
  rewrite (load32_holds t _ (pa L + 16 * Z.of_nat i) (node_bytes n)); [|exact at_maps|apply (st_node _ _ Hst _ _ Hi)|unfold NEXT; lia|rewrite length_node; unfold NEXT; lia].
  do 2 f_equal. apply (word32 (n_next n)), (st_node _ _ Hst _ _ Hi).
Qed.

(** A store to a part of the structure. *)
Lemma st_part n' (k : nat) l :
  node_bytes n' = patch k l (node_bytes n) -> node_ok n' -> Forall is_byte l -> (k + length l <= 16)%nat ->
  let t' := upds t (pa L + 16 * Z.of_nat i + Z.of_nat k) l in
  stored t' (A <| nodes ::= <[i := n']> |>) /\ touch t t'.
Proof.
  intros Hn' Hok Hl Hk t'. pose proof at_index as Hi2. destruct Hst as [S1 S2 S3 S4 S5 S6 S7 [S8 S8'] S9 S10]. destruct Hlo.
  assert (forall q (m : list Z), q + Z.of_nat (length m) <= pa L + 16 * Z.of_nat i \/ pa L + 16 * Z.of_nat i + 16 <= q -> holds t q m -> holds t' q m) as Hout.
  { intros q m Hq Hm. unfold holds, t'. rewrite cells_upds_out by lia. exact Hm. }
  split; [split; cbn [nodes head chars set_field]|split].
  - by apply maps_upds.
  - by apply maps_upds.
  - by apply maps_upds.
  - by apply maps_upds.
  - by rewrite length_insert.
  - done.
  - intros j m Hj. destruct (decide (i = j)) as [->|Hne].
    + rewrite list_lookup_insert_eq in Hj by lia. injection Hj as <-. split; [|done]. rewrite Hn'. unfold t'.
      apply holds_patch; [apply (S7 _ _ Hi)|done|rewrite length_node; lia].
    + rewrite list_lookup_insert_ne in Hj by done. destruct (S7 _ _ Hj) as [Hh Ho]. split; [|done]. apply Hout; [|done]. rewrite length_node. lia.
  - split; [|done]. apply Hout; [cbn; lia|done].
  - apply Hout; [cbn; lia|done].
  - apply Hout; [rewrite S6; lia|done].
  - intros a. apply loc_upds.
  - intros q Q1 Q2 Q3. unfold t'. apply cell_upds_out. lia.
Qed.
End At.

Lemma bytes16_u16 v : bytes16 (u16 v) = bytes16 v.
Proof.
  unfold bytes16, u8, u16. rewrite !Z.shiftr_div_pow2 by lia. change (2 ^ 8) with 256.
  f_equal; [|f_equal]; Z.to_euclidean_division_equations; lia.
Qed.

Lemma bytes16_ok v : Forall is_byte (bytes16 v).
Proof. repeat (apply List.Forall_cons; [apply u8_range|]). apply List.Forall_nil. Qed.
Lemma bytes4_ok v : Forall is_byte (bytes4 v).
Proof. repeat (apply List.Forall_cons; [apply u8_range|]). apply List.Forall_nil. Qed.

Lemma one_byte b : is_byte b -> Forall is_byte [b].
Proof. intros Hb. apply List.Forall_cons; [done|apply List.Forall_nil]. Qed.

Section Put.
Context t A (Hst : stored t A) i n (Hi : nodes A !! i = Some n).
Let put n' := A <| nodes ::= <[i := n']> |>.

Lemma put16 (k : nat) v n' :
  node_bytes n' = patch k (bytes16 (u16 v)) (node_bytes n) -> node_ok n' -> (k + 2 <= 16)%nat ->
  exists t', movw (slot i + Z.of_nat k) v t = (Ok tt, t') /\ stored t' (put n') /\ touch t t'.
Proof.
  intros Hn' Hok Hk. eexists. split; [apply movw_upds with (n := 16); [by apply (at_maps t A Hst i n)|lia|lia]|].
  rewrite <- bytes16_u16. by apply (st_part t A Hst i n Hi n' k (bytes16 (u16 v)) Hn' Hok (bytes16_ok _)).
Qed.

Lemma put_countdown v : exists t', movw (slot i + COUNTDOWN) v t = (Ok tt, t') /\ stored t' (put (n <| n_countdown := u16 v |>)) /\ touch t t'.
Proof. apply (put16 8); [done| |lia]. destruct (st_node _ _ Hst _ _ Hi) as [_ []]. split; cbn; try done; apply u16_range. Qed.
Lemma put_status v : exists t', movw (slot i + STATUS) v t = (Ok tt, t') /\ stored t' (put (n <| n_status := u16 v |>)) /\ touch t t'.
Proof. apply (put16 10); [done| |lia]. destruct (st_node _ _ Hst _ _ Hi) as [_ []]. split; cbn; try done; apply u16_range. Qed.
Lemma put_on_length v : exists t', movw (slot i + ON_LENGTH) v t = (Ok tt, t') /\ stored t' (put (n <| n_on_length := u16 v |>)) /\ touch t t'.
Proof. apply (put16 4); [done| |lia]. destruct (st_node _ _ Hst _ _ Hi) as [_ []]. split; cbn; try done; apply u16_range. Qed.
Lemma put_off_length v : exists t', movw (slot i + OFF_LENGTH) v t = (Ok tt, t') /\ stored t' (put (n <| n_off_length := u16 v |>)) /\ touch t t'.
Proof. apply (put16 6); [done| |lia]. destruct (st_node _ _ Hst _ _ Hi) as [_ []]. split; cbn; try done; apply u16_range. Qed.

Lemma put_next v : 0 <= v < 4294967296 ->
  exists t', movl (slot i + NEXT) v t = (Ok tt, t') /\ stored t' (put (n <| n_next := v |>)) /\ touch t t'.
Proof.
  intros Hv. eexists. split; [apply movl_upds with (n := 16); [by apply (at_maps t A Hst i n)|unfold NEXT; lia|unfold NEXT; lia]|].
  apply (st_part t A Hst i n Hi _ 12 (bytes4 v)); [done| |apply bytes4_ok|cbn; lia].
  destruct (st_node _ _ Hst _ _ Hi) as [_ []]. by split.
Qed.

(** A whole structure, copied to the slot. *)
Lemma put_all n' : node_ok n' ->
  let t' := upds t (pa L + 16 * Z.of_nat i) (node_bytes n') in stored t' (put n') /\ touch t t'.
Proof.
  intros Hok. pose proof (st_part t A Hst i n Hi n' 0 (node_bytes n') ltac:(reflexivity) Hok (bytes_node _ Hok) ltac:(rewrite length_node; lia)) as Hp.
  change (Z.of_nat 0) with 0 in Hp. by rewrite Z.add_0_r in Hp.
Qed.
End Put.

(** The head of the list, and the screen. *)
Lemma ld_head t A : stored t A -> load32 mp1_list_head t = (Ok (head A), t).
Proof.
  intros Hst. rewrite <- (Z.add_0_r mp1_list_head).
  rewrite (load32_holds t _ (ph L) (bytes4 (head A))); [|exact (st_top _ _ Hst)|apply (st_head _ _ Hst)|lia|cbn; lia].
  do 2 f_equal. apply (word32 (head A)), (st_head _ _ Hst).
Qed.

Lemma put_head t A v : stored t A -> 0 <= v < 4294967296 ->
  exists t', movl mp1_list_head v t = (Ok tt, t') /\ stored t' (A <| head := v |>) /\ touch t t'.
Proof.
  intros [S1 S2 S3 S4 S5 S6 S7 [S8 S8'] S9 S10] Hv. destruct Hlo. exists (upds t (ph L) (bytes4 v)).
  assert (forall q (m : list Z), q + Z.of_nat (length m) <= ph L \/ ph L + 4 <= q -> holds t q m -> holds (upds t (ph L) (bytes4 v)) q m) as Hout.
  { intros q m Hq Hm. unfold holds. rewrite cells_upds_out by (cbn; lia). exact Hm. }
  split; [|split; [split; cbn [nodes head chars set_field]|split]].
  - rewrite <- (Z.add_0_r mp1_list_head), <- (Z.add_0_r (ph L)). apply movl_upds with (n := 4); [done|lia|lia].
  - by apply maps_upds.
  - by apply maps_upds.
  - by apply maps_upds.
  - by apply maps_upds.
  - done.
  - done.
  - intros j m Hj. pose proof (lookup_lt_Some _ _ _ Hj) as Hlt. destruct (S7 _ _ Hj) as [Hh Ho]. split; [|done].
    apply Hout; [|done]. rewrite length_node. lia.
  - split; [|done]. apply holds_upds, bytes4_ok.
  - apply Hout; [cbn; lia|done].
  - apply Hout; [rewrite S6; lia|done].
  - intros a. apply loc_upds.
  - intros q Q1 Q2 Q3. apply cell_upds_out. cbn. lia.
Qed.

(** A character on the screen, at an even position. *)
Lemma poke_ok t A c (x : Z) : stored t A -> is_byte c -> 0 <= x < 2000 ->
  exists t', mp1_poke c (u32 (Z.shiftl x 1)) t = (Ok tt, t') /\ stored t' (A <| chars ::= <[Z.to_nat (2 * x) := c]> |>) /\ touch t t'.
Proof.
  intros [S1 S2 S3 S4 S5 S6 S7 [S8 S8'] S9 S10] Hc Hx. destruct Hlo as [Lo1 Lo2 Lo3 Lo4 Lo5 Lo6 Lo7 Lo8 Lo9]. unfold mp1_poke.
  rewrite Z.shiftl_mul_pow2, u32_small by lia. change (2 ^ 1) with 2. rewrite (Z.mul_comm x).
  assert (load32 vmem_base_addr t = (Ok (vid L), t)) as E.
  { rewrite <- (Z.add_0_r vmem_base_addr). rewrite (load32_holds t _ (pm L) (bytes4 (vid L))); [|done|done|lia|cbn; lia].
    do 2 f_equal. apply (word32 (vid L)). lia. }
  go E. rewrite (store8_maps t (vid L) (pv L) 4000 (2 * x) c) by (done || lia).
  rewrite u8_small by exact Hc. set (t' := upd t (pv L + 2 * x) c).
  assert (forall q (m : list Z), q + Z.of_nat (length m) <= pv L \/ pv L + 4000 <= q -> holds t q m -> holds t' q m) as Hout.
  { intros q m Hq Hm. unfold holds. rewrite (cells_ext t t'); [done|]. intros y Hy. apply cell_upd_ne. lia. }
  exists t'. split; [done|]. split; [split; cbn [nodes head chars set_field]|split].
  - by apply maps_upd.
  - by apply maps_upd.
  - by apply maps_upd.
  - by apply maps_upd.
  - done.
  - by rewrite length_insert.
  - intros j m Hj. pose proof (lookup_lt_Some _ _ _ Hj) as Hlt. destruct (S7 _ _ Hj) as [Hh Ho]. split; [|done].
    apply Hout; [|done]. rewrite length_node. lia.
  - split; [|done]. apply Hout; [cbn; lia|done].
  - apply Hout; [cbn; lia|done].
  - apply holds_intro. rewrite length_insert, S6. intros i Hi. unfold byte_at. destruct (decide (i = 2 * x)) as [->|Hne].
    + rewrite list_lookup_total_insert_eq by lia. unfold t'. rewrite cell_upd_eq. by apply u8_small.
    + rewrite list_lookup_total_insert_ne by lia. unfold t'. rewrite cell_upd_ne by lia. apply (holds_byte t (pv L) (chars A)); [done|lia].
  - intros a. apply loc_upd.
  - intros q Q1 Q2 Q3. apply cell_upd_ne. lia.
Qed.

(** * The list *)

(** A structure without the pointer that makes it a part of the list. *)
Definition bare n : node := n <| n_next := 0 |>.

Definition addr_of (l : list nat) : Z := match l with [] => 0 | i :: _ => slot i end.

Fixpoint chain (ns : list node) (l : list nat) : Prop :=
  match l with
  | [] => True
  | i :: l' => n_next (ns !!! i) = addr_of l' /\ chain ns l'
  end.

(** The structures in use are those with a location, and the list links them. *)
Record listed A (l : list nat) : Prop := {
  ls_head : head A = addr_of l;
  ls_chain : chain (nodes A) l;
  ls_nodup : NoDup l;
  ls_length : length (nodes A) = 2000%nat;
  ls_used i : (i < 2000)%nat -> (i ∈ l <-> n_location (nodes A !!! i) <> 0);
  ls_bound i : i ∈ l -> (i < 2000)%nat;
  ls_screen i : (i < 2000)%nat -> n_location (nodes A !!! i) < 2000
}.

Definition seen A (l : list nat) : list node := (fun i => bare (nodes A !!! i)) <$> l.

Lemma chain_ext ns ns' l : (forall i, i ∈ l -> n_next (ns' !!! i) = n_next (ns !!! i)) -> chain ns l -> chain ns' l.
Proof.
  induction l as [|i l IH]; [done|]. intros He [Hn Hc]. split.
  - by rewrite He by (by left).
  - apply IH; [|done]. intros j Hj. apply He. by right.
Qed.

Lemma put_lookup A i n' j : length (nodes A) = 2000%nat -> (i < 2000)%nat ->
  nodes (A <| nodes ::= <[i := n']> |>) !!! j = if decide (j = i) then n' else nodes A !!! j.
Proof.
  intros Hl Hi. cbn [nodes set_field]. destruct (decide (j = i)) as [->|Hne].
  - apply list_lookup_total_insert_eq. lia.
  - by apply list_lookup_total_insert_ne.
Qed.

(** A change to a structure that keeps its place. *)
Lemma listed_put A l i n' : listed A l -> (i < 2000)%nat ->
  n_next n' = n_next (nodes A !!! i) -> n_location n' = n_location (nodes A !!! i) -> listed (A <| nodes ::= <[i := n']> |>) l.
Proof.
  intros [L1 L2 L3 L4 L5 L6 L7] Hi Hn Hlc. split; try done.
  - apply (chain_ext (nodes A)); [|done]. intros j _. rewrite (put_lookup A) by done. by destruct (decide _) as [->|].
  - cbn [nodes set_field]. by rewrite length_insert.
  - intros j Hj. rewrite (put_lookup A) by done. destruct (decide _) as [->|]; [rewrite Hlc|]; by apply L5.
  - intros j Hj. rewrite (put_lookup A) by done. destruct (decide _) as [->|]; [rewrite Hlc|]; by apply L7.
Qed.

Lemma listed_chars A l f : listed A l -> listed (A <| chars ::= f |>) l.
Proof. by intros []. Qed.

Lemma seen_put A l1 i l2 n' : NoDup (l1 ++ i :: l2) -> length (nodes A) = 2000%nat -> (i < 2000)%nat ->
  seen (A <| nodes ::= <[i := n']> |>) (l1 ++ i :: l2) = seen A l1 ++ bare n' :: seen A l2.
Proof.
  intros Hnd Hl Hi. apply list.NoDup_app in Hnd as (_ & Hd & Hnd). apply list.NoDup_cons in Hnd as [Hni _].
  unfold seen. rewrite fmap_app, fmap_cons. f_equal; [|f_equal].
  - apply list_fmap_ext. intros k j Hj. rewrite (put_lookup A) by done. destruct (decide _) as [->|]; [|done].
    destruct (Hd i); [by eapply list_elem_of_lookup_2|by left].
  - rewrite (put_lookup A) by done. by rewrite decide_True.
  - apply list_fmap_ext. intros k j Hj. rewrite (put_lookup A) by done. destruct (decide _) as [->|]; [|done].
    destruct Hni. by eapply list_elem_of_lookup_2.
Qed.

Lemma seen_app A l1 l2 : seen A (l1 ++ l2) = seen A l1 ++ seen A l2.
Proof. apply fmap_app. Qed.

(** What the memory holds: the characters that blink, the one added last first, and
    the screen. *)
Definition blinks t (bl : list node) (scr : list Z) : Prop :=
  exists A l, stored t A /\ listed A l /\ seen A l = bl /\ chars A = scr.

Lemma stored_at t A i : stored t A -> (i < 2000)%nat -> nodes A !! i = Some (nodes A !!! i).
Proof. intros Hst Hi. apply list_lookup_lookup_total_lt. by rewrite (st_length _ _ Hst). Qed.

Lemma addr_nonzero l : (forall i, i ∈ l -> (i < 2000)%nat) -> (addr_of l = 0 <-> l = []).
Proof.
  intros Hb. destruct l as [|i l]; [done|]. cbn. split; [|done]. intros E. pose proof (slot_range i ltac:(apply Hb; by left)). lia.
Qed.

(** Different numbers below [n]. *)
Lemma length_below (n : nat) (l : list nat) : NoDup l -> (forall i, i ∈ l -> (i < n)%nat) -> (length l <= n)%nat.
Proof.
  intros Hnd Hb. rewrite <- (length_seq n 0). apply submseteq_length, NoDup_submseteq; [done|]. intros i Hi. apply elem_of_seq.
  specialize (Hb i Hi). lia.
Qed.

(** ** Searching *)

Fixpoint find_at A (x : Z) (l : list nat) : list nat :=
  match l with
  | [] => []
  | i :: l' => if n_location (nodes A !!! i) =? x then l else find_at A x l'
  end.

Lemma find_at_suffix A x l : exists l1, l = l1 ++ find_at A x l /\ Forall (fun i => n_location (nodes A !!! i) <> x) l1.
Proof.
  induction l as [|i l (l1 & E & Hf)]; [by exists []|]. cbn [find_at]. destruct (Z.eqb_spec (n_location (nodes A !!! i)) x) as [?|Hne].
  - by exists [].
  - exists (i :: l1). split; [cbn; by rewrite <- E|by constructor].
Qed.

Lemma chain_app ns l1 l2 : chain ns (l1 ++ l2) -> chain ns l2.
Proof. induction l1 as [|i l1 IH]; [done|]. intros [_ Hc]. by apply IH. Qed.

Lemma find_helper_ok t A l x : stored t A -> listed A l ->
  mp1_find_helper x t = (Ok (addr_of (find_at A (u16 x) l)), t).
Proof.
  intros Hst [L1 L2 L3 L4 L5 L6 L7]. unfold mp1_find_helper. go (ld_head t A Hst). rewrite L1.
  pose proof (length_below _ _ L3 L6) as Hlen.
  clear L1 L3.
  match goal with |- while ?b ?a0 t = _ => destruct (while_steps (fun k a s => s = t /\ exists l2, k = length l2 /\ a = addr_of l2 /\ chain (nodes A) l2 /\
      (forall i, i ∈ l2 -> (i < 2000)%nat) /\ find_at A (u16 x) l2 = find_at A (u16 x) l)
    (fun r s => s = t /\ r = addr_of (find_at A (u16 x) l)) b (length l) a0 t) as (r & s & E & -> & ->) end.
  - split; [done|]. by exists l.
  - intros k a s (-> & l2 & -> & -> & Hc & Hb & Hf). destruct l2 as [|i l2].
    + left. eexists _, _. split; [reflexivity|]. split; [done|]. rewrite <- Hf. done.
    + specialize (Hb i ltac:(by left)) as Hi. cbn [addr_of]. pose proof (slot_range i Hi). zb.
      go (ld_location t A Hst i _ (stored_at t A i Hst Hi)). cbn [find_at] in Hf.
      destruct (n_location (nodes A !!! i) =? u16 x); [left|right].
      * eexists _, _. split; [reflexivity|]. split; [done|]. by rewrite <- Hf.
      * go (ld_next t A Hst i _ (stored_at t A i Hst Hi)). destruct Hc as [-> Hc]. exists (length l2), (addr_of l2), t. split; [reflexivity|].
        split; [|cbn; lia]. split; [done|]. exists l2. split_and!; try done. intros j Hj. apply Hb. by right.
  - lia.
  - done.
Qed.

(** ** The tasklet *)

(** A tick of the clock: the countdown, and at its end the other character. *)
Definition tick_ends n : bool := negb (0 <? i16 (u16 (n_countdown n - 1))).
Definition tick_node n : node :=
  if tick_ends n then
    n <| n_countdown := if Z.testbit (n_status n) 0 then n_off_length n else n_on_length n |>
      <| n_status := u16 (Z.lxor (n_status n) 1) |>
  else n <| n_countdown := u16 (n_countdown n - 1) |>.
Definition tick_chars (scr : list Z) n : list Z :=
  if tick_ends n then <[Z.to_nat (2 * n_location n) := if Z.testbit (n_status n) 0 then n_off_char n else n_on_char n]> scr
  else scr.

Lemma arr_eta A : Arr (nodes A) (head A) (chars A) = A.
Proof. by destruct A. Qed.

Lemma tick_step t A i (n := nodes A !!! i) : stored t A -> (i < 2000)%nat -> n_location n < 2000 ->
  exists t', tasklet_loop (slot i) t = (Ok (inl (n_next n)), t') /\
    stored t' (Arr (<[i := tick_node n]> (nodes A)) (head A) (tick_chars (chars A) n)) /\ touch t t'.
Proof.
  intros Hst Hi Hx. pose proof (stored_at t A i Hst Hi) as Hn. fold n in Hn. pose proof (slot_range i Hi).
  destruct (st_node _ _ Hst _ _ Hn) as [_ [N1 N2 N3 N4 N5 N6 N7 N8]]. unfold is_word in *.
  assert (forall x A', length (nodes A') = 2000%nat -> nodes (A' <| nodes ::= <[i := x]> |>) !! i = Some x) as Hat.
  { intros x A' Hl. cbn [nodes set_field]. apply list_lookup_insert_eq. lia. }
  pose proof (st_length _ _ Hst) as Hlen. unfold tasklet_loop. zb.
  go (ld_countdown t A Hst i n Hn).
  destruct (put_countdown t A Hst i n Hn (n_countdown n - 1)) as (t1 & E1 & S1 & T1). go E1.
  set (n1 := n <| n_countdown := u16 (n_countdown n - 1) |>) in *. pose proof (Hat n1 A Hlen) as H1'.
  go (ld_countdown t1 _ S1 i n1 H1'). unfold tick_node, tick_chars, tick_ends. change (n_countdown n1) with (u16 (n_countdown n - 1)).
  destruct (0 <? i16 (u16 (n_countdown n - 1))); cbn [negb].
  - go (ret_run tt t1). go (ld_next t1 _ S1 i n1 H1'). exists t1. split; [done|]. split; [exact S1|done].
  - go (ld_location t1 _ S1 i n1 H1'). go (ld_status t1 _ S1 i n1 H1').
    change (n_status n1) with (n_status n). change (n_location n1) with (n_location n).
    remember (if Z.testbit (n_status n) 0 then n_off_char n else n_on_char n) as c eqn:Ec.
    remember (if Z.testbit (n_status n) 0 then n_off_length n else n_on_length n) as len eqn:El.
    assert (is_byte c /\ 0 <= len < 65536) as [Hc Hl] by (rewrite Ec, El; by destruct (Z.testbit (n_status n) 0)).
    destruct (poke_ok t1 _ c (n_location n) S1 Hc ltac:(lia)) as (t2 & E2 & S2 & T2).
    set (A2 := _ <| chars ::= _ |>) in S2. assert (nodes A2 !! i = Some n1) as H2' by exact H1'.
    assert (forall (k : Z -> M T (Z + unit)), ((if Z.testbit (n_status n) 0
         then cl ← load8 (slot i + OFF_CHAR); mp1_poke cl (u32 (Z.shiftl (n_location n) 1));; load16 (slot i + OFF_LENGTH)
         else cl ← load8 (slot i + ON_CHAR); mp1_poke cl (u32 (Z.shiftl (n_location n) 1));; load16 (slot i + ON_LENGTH)) ≫= k) t1 = k len t2) as Hbr.
    { intros k. destruct (Z.testbit (n_status n) 0).
      - go (ld_off_char t1 _ S1 i n1 H1'). change (n_off_char n1) with (n_off_char n). rewrite <- Ec. go E2.
        go (ld_off_length t2 A2 S2 i n1 H2'). change (n_off_length n1) with (n_off_length n). by rewrite <- El.
      - go (ld_on_char t1 _ S1 i n1 H1'). change (n_on_char n1) with (n_on_char n). rewrite <- Ec. go E2.
        go (ld_on_length t2 A2 S2 i n1 H2'). change (n_on_length n1) with (n_on_length n). by rewrite <- El. }
    rewrite ?bind_assoc, Hbr.
    destruct (put_countdown t2 A2 S2 i n1 H2' len) as (t3 & E3 & S3 & T3). go E3. rewrite (u16_small len) in S3 by lia.
    set (n3 := n1 <| n_countdown := len |>) in *. assert (length (nodes A2) = 2000%nat) as Hl2 by exact (st_length _ _ S2).
    pose proof (Hat n3 A2 Hl2) as H3'. go (ld_status t3 _ S3 i n3 H3').
    destruct (put_status t3 _ S3 i n3 H3' (Z.lxor (n_status n3) 1)) as (t4 & E4 & S4 & T4). go E4.
    go (ld_next t4 _ S4 i _ (Hat _ _ (st_length _ _ S3))). exists t4. split; [done|]. split.
    + unfold A2 in S4. cbn [set_field nodes head chars] in S4. rewrite !list_insert_insert_eq in S4. exact S4.
    + exact (touch_trans _ _ _ T1 (touch_trans _ _ _ T2 (touch_trans _ _ _ T3 T4))).
Qed.

Lemma tick_bare n : tick_node (bare n) = bare (tick_node n).
Proof. unfold tick_node, tick_ends, bare. cbn [set_field n_countdown]. by destruct (0 <? _). Qed.

Lemma tick_chars_bare scr n : tick_chars scr (bare n) = tick_chars scr n.
Proof. done. Qed.

Lemma tick_next n : n_next (tick_node n) = n_next n /\ n_location (tick_node n) = n_location n.
Proof. unfold tick_node. by destruct (tick_ends n). Qed.

Definition tick_all (bl : list node) (scr : list Z) : list node * list Z := (tick_node <$> bl, foldl tick_chars scr bl).

Lemma cons_same {B} (x y : B) l1 l2 : x :: l1 = y :: l2 -> x = y /\ l1 = l2.
Proof. by intros [= -> ->]. Qed.

Lemma tick_list t A l1 i l2 : stored t A -> listed A (l1 ++ i :: l2) ->
  exists t' A', tasklet_loop (slot i) t = (Ok (inl (addr_of l2)), t') /\ stored t' A' /\ touch t t' /\
    listed A' (l1 ++ i :: l2) /\ seen A' l1 = seen A l1 /\ seen A' l2 = seen A l2 /\
    bare (nodes A' !!! i) = tick_node (bare (nodes A !!! i)) /\
    chars A' = tick_chars (chars A) (bare (nodes A !!! i)).
Proof.
  intros Hst Hls. pose proof Hls as [L1 L2 L3 L4 L5 L6 L7].
  assert (i < 2000)%nat as Hi by (apply L6, elem_of_app; right; by left).
  destruct (tick_step t A i Hst Hi (L7 i Hi)) as (t' & E & Hs' & Ht). apply chain_app in L2 as [Hn _]. rewrite Hn in E.
  eexists t', _. split; [exact E|]. split; [exact Hs'|]. split; [exact Ht|].
  destruct (tick_next (nodes A !!! i)) as [K1 K2].
  pose proof (listed_put A _ i (tick_node (nodes A !!! i)) Hls Hi K1 K2) as Hls'.
  assert (seen (A <| nodes ::= <[i := tick_node (nodes A !!! i)]> |>) (l1 ++ i :: l2) = seen A l1 ++ bare (tick_node (nodes A !!! i)) :: seen A l2)
    as Hseen by (by apply seen_put).
  rewrite seen_app in Hseen. apply app_inj_1 in Hseen as [Hs1 Hs2]; [|by unfold seen; rewrite !length_fmap].
  apply cons_same in Hs2 as [Hs2 Hs3]. split; [by destruct Hls'|]. split; [exact Hs1|]. split; [exact Hs3|]. split; [|done].
  rewrite tick_bare. rewrite <- Hs2. done.
Qed.

Lemma tasklet_ok t bl scr x : blinks t bl scr ->
  exists t', mp1_rtc_tasklet x t = (Ok tt, t') /\ blinks t' (tick_all bl scr).1 (tick_all bl scr).2 /\ touch t t'.
Proof.
  intros (A & l & Hst & Hls & <- & <-). unfold mp1_rtc_tasklet. go (ld_head t A Hst). rewrite (ls_head _ _ Hls).
  pose proof (length_below _ _ (ls_nodup _ _ Hls) (ls_bound _ _ Hls)) as Hlen.
  destruct (while_steps (fun k a s => exists A' l1 l2, l = l1 ++ l2 /\ k = length l2 /\ a = addr_of l2 /\ stored s A' /\ touch t s /\
      listed A' l /\ seen A' l1 = tick_node <$> seen A l1 /\ seen A' l2 = seen A l2 /\ chars A' = foldl tick_chars (chars A) (seen A l1))
    (fun _ s => blinks s (tick_node <$> seen A l) (foldl tick_chars (chars A) (seen A l)) /\ touch t s)
    tasklet_loop (length l) (addr_of l) t) as (r & s & E & Hb & Ht).
  - exists A, [], l. by split_and!.
  - intros k a s (A' & l1 & l2 & El & -> & -> & Hst' & Ht & Hls' & Hs1 & Hs2 & Hch). destruct l2 as [|i l2].
    + left. exists tt, s. split; [done|]. split; [|done]. exists A', l. split; [done|]. split; [done|].
      rewrite app_nil_r in El. subst l1. done.
    + right. subst l. destruct (tick_list s A' l1 i l2 Hst' Hls') as (s2 & A2 & E2 & S2 & T2 & L2 & C1 & C2 & C3 & C4).
      exists (length l2), (addr_of l2), s2. split; [exact E2|]. split; [|cbn; lia].
      exists A2, (l1 ++ [i]), l2. rewrite <- app_assoc. 
      change (bare (nodes A' !!! i) :: seen A' l2 = bare (nodes A !!! i) :: seen A l2) in Hs2. apply cons_same in Hs2 as [Hi2 Hs2].
      split; [done|]. split; [done|]. split; [done|]. split; [done|]. split; [by eapply touch_trans|]. split; [done|].
      rewrite !seen_app, fmap_app, foldl_app, C1, C2, C4, Hs1, Hs2, Hch. split; [|split; [done|by rewrite Hi2]].
      f_equal. unfold seen. rewrite !list_fmap_singleton. by rewrite C3, Hi2.
  - lia.
  - exists s. destruct r. by split.
Qed.

(** ** Entries by location *)

Fixpoint first_at (x : Z) (bl : list node) : option node :=
  match bl with [] => None | n :: bl' => if n_location n =? x then Some n else first_at x bl' end.
Fixpoint remove_at (x : Z) (bl : list node) : list node :=
  match bl with [] => [] | n :: bl' => if n_location n =? x then bl' else n :: remove_at x bl' end.
Fixpoint change_at (x : Z) (f : node -> node) (bl : list node) : list node :=
  match bl with [] => [] | n :: bl' => if n_location n =? x then f n :: bl' else n :: change_at x f bl' end.

Lemma entry_at A x l :
  match find_at A x l with
  | [] => first_at x (seen A l) = None
  | i :: l2 => exists l1, l = l1 ++ i :: l2 /\ n_location (nodes A !!! i) = x /\
      first_at x (seen A l) = Some (bare (nodes A !!! i)) /\ remove_at x (seen A l) = seen A l1 ++ seen A l2 /\
      forall f, change_at x f (seen A l) = seen A l1 ++ f (bare (nodes A !!! i)) :: seen A l2
  end.
Proof.
  induction l as [|i l IH]; [done|]. cbn [find_at]. destruct (n_location (nodes A !!! i) =? x) eqn:E.
  - exists []. unfold seen. cbn [fmap list_fmap first_at remove_at change_at app]. change (n_location (bare ?m)) with (n_location m).
    rewrite E. split; [done|]. split; [by apply Z.eqb_eq|]. done.
  - assert (forall y, (n_location (bare (nodes A !!! i)) =? y) = (n_location (nodes A !!! i) =? y)) as Hb by done.
    destruct (find_at A x l) as [|j l2].
    + unfold seen. cbn [fmap list_fmap first_at]. rewrite Hb, E. exact IH.
    + destruct IH as (l1 & -> & Hx & Hf & Hr & Hc). exists (i :: l1). split; [done|]. split; [done|].
      change (seen A (i :: l1 ++ j :: l2)) with (bare (nodes A !!! i) :: seen A (l1 ++ j :: l2)).
      cbn [first_at remove_at change_at]. rewrite Hb, E, Hf, Hr. split; [done|]. split; [done|]. intros f. by rewrite Hc.
Qed.

(** ** Memory besides the globals *)

(** The [k] locations from [p] on are none of those. *)
Definition elsewhere (p k : Z) : Prop :=
  (p + k <= pa L \/ pa L + 32000 <= p) /\ (p + k <= ph L \/ ph L + 4 <= p) /\
  (p + k <= pm L \/ pm L + 4 <= p) /\ (p + k <= pv L \/ pv L + 4000 <= p).

Definition touch_at (p k : Z) t t' : Prop :=
  (forall a, loc t' a = loc t a) /\
  forall q, ~ pa L <= q < pa L + 32000 -> ~ ph L <= q < ph L + 4 -> ~ pv L <= q < pv L + 4000 -> ~ p <= q < p + k -> cell t' q = cell t q.

Lemma touch_touch_at p k t t' : touch t t' -> touch_at p k t t'.
Proof. intros [Ta Tb]. split; [done|]. intros q Q1 Q2 Q3 _. by apply Tb. Qed.

Lemma touch_at_refl p k t : touch_at p k t t.
Proof. done. Qed.

Lemma touch_at_trans p k t1 t2 t3 : touch_at p k t1 t2 -> touch_at p k t2 t3 -> touch_at p k t1 t3.
Proof. intros [Ta Tb] [Tc Td]. split; [intros a; by rewrite Tc, Ta|]. intros q Q1 Q2 Q3 Q4. by rewrite Td, Tb. Qed.

Lemma touch_at_upds p k t q l : p <= q -> q + Z.of_nat (length l) <= p + k -> touch_at p k t (upds t q l).
Proof. intros Hq Hl. split; [intros a; apply loc_upds|]. intros x Q1 Q2 Q3 Q4. apply cell_upds_out. lia. Qed.

Lemma stored_upds t A p k q l : stored t A -> elsewhere p k -> p <= q -> q + Z.of_nat (length l) <= p + k -> stored (upds t q l) A.
Proof.
  intros [S1 S2 S3 S4 S5 S6 S7 [S8 S8'] S9 S10] (E1 & E2 & E3 & E4) Hq Hl.
  assert (forall x (m : list Z), x + Z.of_nat (length m) <= q \/ q + Z.of_nat (length l) <= x -> holds t x m -> holds (upds t q l) x m) as Hout.
  { intros x m Hx Hm. unfold holds. rewrite cells_upds_out by lia. exact Hm. }
  split; try (by apply maps_upds); try done.
  - intros j m Hj. pose proof (lookup_lt_Some _ _ _ Hj) as Hlt. destruct (S7 _ _ Hj) as [Hh Ho]. split; [|done].
    apply Hout; [|done]. rewrite length_node. lia.
  - split; [|done]. apply Hout; [cbn; lia|done].
  - apply Hout; [cbn; lia|done].
  - apply Hout; [rewrite S6; lia|done].
Qed.

(** A structure of the caller, or on the stack. *)
Definition struct_at t (a p : Z) n : Prop := maps t a p 16 /\ holds t p (node_bytes n) /\ node_ok n /\ elsewhere p 16.

Lemma struct_load16 t a p n k x : struct_at t a p n -> 0 <= k <= 14 ->
  byte_at (node_bytes n) k + 256 * byte_at (node_bytes n) (k + 1) = x -> load16 (a + k) t = (Ok x, t).
Proof. intros (Hm & Hh & Ho & _) Hk <-. apply (load16_holds t a p (node_bytes n)); [exact Hm|exact Hh|lia|rewrite length_node; lia]. Qed.

Lemma struct_store16 t A a p n (k : nat) v n' : stored t A -> struct_at t a p n -> (k + 2 <= 16)%nat ->
  node_bytes n' = patch k (bytes16 v) (node_bytes n) -> node_ok n' ->
  exists t', movw (a + Z.of_nat k) v t = (Ok tt, t') /\ stored t' A /\ struct_at t' a p n' /\ touch_at p 16 t t'.
Proof.
  intros Hst (Hm & Hh & Ho & He) Hk Hn' Ho'. eexists. split; [apply (movw_upds t a p 16); [done|lia|lia]|].
  split; [apply (stored_upds t A p 16); [done|done|lia|cbn; lia]|]. split; [|apply touch_at_upds; cbn; lia].
  split; [by apply maps_upds|]. split; [|done]. rewrite Hn'. apply holds_patch; [done|apply bytes16_ok|rewrite length_node; cbn; lia].
Qed.

(** A copy of a structure to the stack. *)
Lemma struct_copy t A tmp ptmp arg parg n : stored t A -> struct_at t arg parg n -> maps t tmp ptmp 16 -> elsewhere ptmp 16 ->
  ptmp + 16 <= parg \/ parg + 16 <= ptmp ->
  exists t', ece391_memcpy tmp arg STRUCT_SIZE t = (Ok 0, t') /\ stored t' A /\ struct_at t' tmp ptmp n /\ touch_at ptmp 16 t t'.
Proof.
  intros Hst (Hm & Hh & Ho & He) Hmt Het Hd. exists (upds t ptmp (node_bytes n)).
  split; [apply (ece391_memcpy_ok t tmp ptmp arg parg (node_bytes n)); rewrite ?length_node; done|].
  split; [apply (stored_upds t A ptmp 16); [done|done|lia|rewrite length_node; lia]|].
  split; [|apply touch_at_upds; rewrite ?length_node; lia].
  split; [by apply maps_upds|]. split; [|done]. apply holds_upds. by apply bytes_node.
Qed.

(** ** Adding *)

Lemma malloc_ok t A : stored t A ->
  (forall size, mp1_malloc size t = (Ok 0, t)) /\ (forall i, (i < 2000)%nat -> n_location (nodes A !!! i) <> 0) \/
  exists i, (i < 2000)%nat /\ n_location (nodes A !!! i) = 0 /\ (forall j, (j < i)%nat -> n_location (nodes A !!! j) <> 0) /\
    forall size, mp1_malloc size t = (Ok (slot i), t).
Proof.
  intros Hst. unfold mp1_malloc.
  match goal with |- context [while ?b ?a0 t] => destruct (while_inv (fun i s => s = t /\ 0 <= i <= 2000 /\
      forall j, Z.of_nat j < i -> n_location (nodes A !!! j) <> 0)
    (fun r s => s = t /\ (r = 0 /\ (forall i, (i < 2000)%nat -> n_location (nodes A !!! i) <> 0) \/
      exists i, (i < 2000)%nat /\ n_location (nodes A !!! i) = 0 /\ (forall j, (j < i)%nat -> n_location (nodes A !!! j) <> 0) /\ r = slot i))
    (fun i => Z.to_nat (2000 - i)) b a0 t) as (r & s & E & -> & Hr) end.
  - split; [done|]. split; [lia|]. intros j Hj. lia.
  - intros i s (-> & Hi & Hf). change (80 * 25) with 2000. destruct (Z.ltb_spec i 2000) as [Hlt|Hge].
    + assert (blink_array + STRUCT_SIZE * i = slot (Z.to_nat i)) as -> by (unfold slot, STRUCT_SIZE; lia).
      go (ld_location t A Hst _ _ (stored_at t A (Z.to_nat i) Hst ltac:(lia))).
      destruct (Z.eqb_spec (n_location (nodes A !!! Z.to_nat i)) 0) as [E0|E0].
      * left. eexists _, _. split; [reflexivity|]. split; [done|]. right. exists (Z.to_nat i). split; [lia|]. split; [done|].
        split; [|done]. intros j Hj. apply Hf. lia.
      * right. eexists _, _. split; [reflexivity|]. split; [|lia]. split; [done|]. split; [lia|]. intros j Hj.
        destruct (decide (j = Z.to_nat i)) as [->|]; [done|]. apply Hf. lia.
    + left. eexists _, _. split; [reflexivity|]. split; [done|]. left. split; [done|]. intros j Hj. apply Hf. lia.
  - lia.
  - destruct Hr as [[-> Hr]|(i & Hi & H0' & Hm & ->)]; [left|right; exists i]; done.
Qed.

(** A new structure, as [mp1_ioctl_add] leaves it. *)
Definition started n : node := n <| n_status := 1 |> <| n_countdown := n_on_length n |>.

Lemma started_ok n : node_ok n -> node_ok (started n).
Proof. intros []. by split. Qed.

Section Add.
Context t A (Hst : stored t A) arg parg tmp ptmp n (Ha : struct_at t arg parg n) (Hm : maps t tmp ptmp 16) (He : elsewhere ptmp 16)
  (Hd : ptmp + 16 <= parg \/ parg + 16 <= ptmp).

(** What [mp1_ioctl_add] does to the array. *)
Lemma add_array :
  (2000 <= n_location n \/ (forall i, (i < 2000)%nat -> n_location (nodes A !!! i) <> 0) ->
   exists t', mp1_ioctl_add arg tmp t = (Ok (-1), t') /\ stored t' A /\ touch_at ptmp 16 t t') /\
  (n_location n < 2000 -> forall i, (i < 2000)%nat -> n_location (nodes A !!! i) = 0 ->
   (forall j, (j < i)%nat -> n_location (nodes A !!! j) <> 0) ->
   exists t', mp1_ioctl_add arg tmp t = (Ok 0, t') /\ touch_at ptmp 16 t t' /\
     stored t' (Arr (<[i := started n <| n_next := head A |>]> (nodes A)) (slot i)
       (<[Z.to_nat (2 * n_location n) := n_on_char n]> (chars A)))).
Proof.
  destruct (struct_copy t A tmp ptmp arg parg n Hst Ha Hm He Hd) as (t1 & E1 & S1 & A1 & T1).
  unfold mp1_ioctl_add. change (STRUCT_SIZE) with (Z.of_nat (length (node_bytes n))) at 1 3. fold STRUCT_SIZE.
  pose proof Ha as (_ & _ & [N1 N2 N3 N4 N5 N6 N7 N8] & _). unfold is_word in *.
  change (Z.of_nat (length (node_bytes n))) with STRUCT_SIZE.
  assert (load16 (tmp + LOCATION) t1 = (Ok (n_location n), t1)) as El by (apply (struct_load16 t1 tmp ptmp n); [done|unfold LOCATION; lia|by apply word16]).
  rewrite !(bind_run (ece391_memcpy tmp arg STRUCT_SIZE)), E1. cbv beta iota. change (negb (0 =? 0)) with false. cbv iota.
  rewrite !(bind_run (load16 (tmp + LOCATION))), El. cbv beta iota. change (80 * 25) with 2000.
  destruct (Z.leb_spec 2000 (n_location n)) as [Hbig|Hsmall].
  { split; [|lia]. intros _. exists t1. by split. }
  destruct (struct_store16 t1 A tmp ptmp n 10 1 (n <| n_status := 1 |>) S1 A1 ltac:(lia) eq_refl) as (t2 & E2 & S2 & A2 & T2); [by split|].
  rewrite !(bind_run (movw (tmp + STATUS) 1)). change (tmp + STATUS) with (tmp + Z.of_nat 10). rewrite E2. cbv beta iota.
  assert (load16 (tmp + ON_LENGTH) t2 = (Ok (n_on_length n), t2)) as El2
    by (apply (struct_load16 t2 tmp ptmp _ 4 _ A2); [lia|by apply word16]).
  rewrite !(bind_run (load16 (tmp + ON_LENGTH))), El2. cbv beta iota.
  destruct (struct_store16 t2 A tmp ptmp _ 8 (n_on_length n) (started n) S2 A2 ltac:(lia) eq_refl (started_ok n ltac:(by split))) as (t3 & E3 & S3 & A3 & T3).
  rewrite !(bind_run (movw (tmp + COUNTDOWN) (n_on_length n))). change (tmp + COUNTDOWN) with (tmp + Z.of_nat 8). rewrite E3. cbv beta iota.
  pose proof (touch_at_trans _ _ _ _ _ T1 (touch_at_trans _ _ _ _ _ T2 T3)) as T13.
  destruct (malloc_ok t3 A S3) as [[Em Hall]|(k & Hk & Hk0 & Hmin & Em)].
  { split; [|intros _ i Hi H0' _; by destruct (Hall i Hi)]. intros _. rewrite bind_run, Em. exists t3. by split. }
  split; [intros [?|Hall]; [lia|by destruct (Hall k Hk)]|]. intros _ i Hi Hi0 Himin.
  assert (i = k) as ->.
  { destruct (lt_eq_lt_dec i k) as [[Hlt| ->]|Hlt]; [by destruct (Hmin i Hlt)|done|by destruct (Himin k Hlt)]. }
  go Em. pose proof (slot_range k Hk). zb. pose proof (stored_at t3 A k S3 Hk) as Hat.
  destruct A3 as (M3 & H3' & O3 & _).
  assert (ece391_memcpy (slot k) tmp STRUCT_SIZE t3 = (Ok 0, upds t3 (pa L + 16 * Z.of_nat k) (node_bytes (started n)))) as Ec.
  { apply (ece391_memcpy_ok t3 (slot k) (pa L + 16 * Z.of_nat k) tmp ptmp (node_bytes (started n))); rewrite ?length_node; try done.
    - by apply (at_maps t3 A S3 k _ Hat).
    - destruct He as ([?|?] & _); [right|left]; lia. }
  go Ec. destruct (put_all t3 A S3 k _ Hat (started n) O3) as [S4 T4]. set (t4 := upds t3 _ _) in *.
  set (A4 := _ <| nodes ::= _ |>) in S4. go (ld_head t4 A4 S4).
  assert (length (nodes A) = 2000%nat) as Hlen by exact (st_length _ _ S3).
  assert (nodes A4 !! k = Some (started n)) as Hk4 by (apply list_lookup_insert_eq; lia).
  destruct (put_next t4 A4 S4 k _ Hk4 (head A4) (proj2 (st_head _ _ S4))) as (t5 & E5 & S5 & T5). go E5.
  destruct (put_head t5 _ (slot k) S5 ltac:(lia)) as (t6 & E6 & S6 & T6). go E6. set (A6 := _ <| head := _ |>) in S6.
  assert (nodes A6 !! k = Some (started n <| n_next := head A4 |>)) as Hk6
    by (unfold A6, A4; cbn [nodes set_field]; apply list_lookup_insert_eq; rewrite length_insert; lia).
  go (ld_location t6 A6 S6 k _ Hk6). go (ld_on_char t6 A6 S6 k _ Hk6).
  change (n_location (started n <| n_next := head A4 |>)) with (n_location n).
  change (n_on_char (started n <| n_next := head A4 |>)) with (n_on_char n).
  destruct (poke_ok t6 A6 (n_on_char n) (n_location n) S6 N2 ltac:(lia)) as (t7 & E7 & S7 & T7). go E7.
  exists t7. split; [done|]. split.
  - eapply touch_at_trans; [exact T13|]. apply touch_touch_at. eapply touch_trans; [exact T4|]. eapply touch_trans; [exact T5|]. by eapply touch_trans.
  - unfold A6, A4 in S7. cbn [nodes head chars set_field] in S7. rewrite list_insert_insert_eq in S7. exact S7.
Qed.
End Add.

(** All structures are in use when the list has 2000 entries. *)
Lemma all_used A l : listed A l -> ((forall i, (i < 2000)%nat -> n_location (nodes A !!! i) <> 0) <-> length l = 2000%nat).
Proof.
  intros [L1 L2 L3 L4 L5 L6 L7]. clear L1 L2 L7. revert L4 L5 L6. generalize 2000%nat as k. intros k L4 L5 L6. split.
  - intros Hall. apply Nat.le_antisymm; [by apply length_below|]. rewrite <- (length_seq k 0) at 1.
    apply submseteq_length, NoDup_submseteq; [apply NoDup_seq|]. intros i Hi%elem_of_seq. apply L5; [lia|]. apply Hall. lia.
  - intros Hl i Hi. apply L5; [done|]. destruct (decide (i ∈ l)) as [?|Hno]; [done|].
    assert (length (i :: l) <= k)%nat as Hbad; [|cbn in Hbad; lia]. apply length_below; [by constructor|].
    intros j [->|Hj]%elem_of_cons; [done|by apply L6].
Qed.

Definition added (bl : list node) n : list node := bare (started n) :: bl.

Lemma listed_add A l i n scr : listed A l -> (i < 2000)%nat -> n_location (nodes A !!! i) = 0 -> 0 < n_location n < 2000 ->
  let A' := Arr (<[i := started n <| n_next := head A |>]> (nodes A)) (slot i) scr in
  listed A' (i :: l) /\ seen A' (i :: l) = added (seen A l) n.
Proof.
  intros [L1 L2 L3 L4 L5 L6 L7] Hi Hi0 Hn A'.
  assert (i ∉ l) as Hni by (intros Hin; by apply (L5 i Hi) in Hin).
  assert (forall j, nodes A' !!! j = if decide (j = i) then started n <| n_next := head A |> else nodes A !!! j) as Hat
    by (intros j; by apply (put_lookup A)).
  split.
  - split; try done.
    + split; [rewrite Hat, decide_True by done; exact L1|]. apply (chain_ext (nodes A)); [|done].
      intros j Hj. rewrite Hat, decide_False by (by intros ->). done.
    + by constructor.
    + cbn [nodes A']. by rewrite length_insert.
    + intros j Hj. rewrite Hat, elem_of_cons. destruct (decide (j = i)) as [->|Hne].
      * split; [intros _; cbn; lia|by left].
      * rewrite <- (L5 j Hj). split; [by intros [?|?]|by right].
    + intros j [->|Hj]%elem_of_cons; [done|by apply L6].
    + intros j Hj. rewrite Hat. destruct (decide (j = i)); [cbn; lia|by apply L7].
  - unfold seen, added. rewrite fmap_cons. f_equal; [by rewrite Hat, decide_True|].
    apply list_fmap_ext. intros k j Hj. rewrite Hat, decide_False; [done|]. intros ->. destruct Hni. by eapply list_elem_of_lookup_2.
Qed.

Lemma add_ok t bl scr arg parg tmp ptmp n :
  blinks t bl scr -> struct_at t arg parg n -> maps t tmp ptmp 16 -> elsewhere ptmp 16 ->
  ptmp + 16 <= parg \/ parg + 16 <= ptmp -> n_location n <> 0 ->
  let fits := (n_location n <? 2000) && negb (length bl =? 2000)%nat in
  exists t', mp1_ioctl_add arg tmp t = (Ok (if fits then 0 else -1), t') /\ touch_at ptmp 16 t t' /\
    blinks t' (if fits then added bl n else bl) (if fits then <[Z.to_nat (2 * n_location n) := n_on_char n]> scr else scr).
Proof.
  intros (A & l & Hst & Hls & <- & <-) Ha Hm He Hd Hn0 fits. pose proof (all_used A l Hls) as Hall.
  destruct (add_array t A Hst arg parg tmp ptmp n Ha Hm He Hd) as [Hno Hyes].
  assert (length (seen A l) = length l) as Hls' by apply length_fmap.
  destruct fits eqn:Ef; unfold fits in Ef; rewrite Hls' in Ef.
  - apply andb_true_iff in Ef as [Ef1 Ef2]. apply Z.ltb_lt in Ef1. apply negb_true_iff, Nat.eqb_neq in Ef2.
    destruct (malloc_ok t A Hst) as [[_ Hbad]|(i & Hi & Hi0 & Hmin & _)]; [by apply Hall in Hbad|].
    destruct (Hyes Ef1 i Hi Hi0 Hmin) as (t' & E & T' & S'). exists t'. split; [done|]. split; [done|].
    destruct Ha as (_ & _ & [N1 _ _ _ _ _ _ _] & _). unfold is_word in N1.
    destruct (listed_add A l i n (<[Z.to_nat (2 * n_location n) := n_on_char n]> (chars A)) Hls Hi Hi0 ltac:(lia)) as [Hl' Hs'].
    eexists _, (i :: l). split; [exact S'|]. by split.
  - destruct Hno as (t' & E & S' & T').
    { apply andb_false_iff in Ef as [Ef|Ef]; [left; by apply Z.ltb_ge in Ef|right]. apply Hall. by apply negb_false_iff, Nat.eqb_eq in Ef. }
    exists t'. split; [done|]. split; [done|]. exists A, l. by split.
Qed.

(** ** Removing *)

(** The pointer to the structure after [l1]. *)
Definition link_to (l1 : list nat) : Z := match list.last l1 with None => mp1_list_head | Some i => slot i + NEXT end.

Lemma link_load t A l1 l2 : stored t A -> listed A (l1 ++ l2) -> load32 (link_to l1) t = (Ok (addr_of l2), t).
Proof.
  intros Hst Hls. unfold link_to. destruct (list.last l1) as [j|] eqn:El.
  - apply last_Some in El as (l1' & ->). destruct Hls as [L1 L2 L3 L4 L5 L6 L7]. rewrite <- app_assoc in *.
    apply chain_app in L2 as [Hj _]. cbn [app] in Hj. rewrite <- Hj. apply (ld_next t A Hst). apply (stored_at t A j Hst). apply L6, elem_of_app. right. by left.
  - apply last_None in El. subst l1. pose proof (ls_head _ _ Hls) as Hh. cbn [app] in Hh. by rewrite (ld_head t A Hst), Hh.
Qed.

Lemma find_prev_ok t A l1 i l2 : stored t A -> listed A (l1 ++ i :: l2) ->
  while (fun edx => x ← load32 edx; if x =? slot i then mret (inr edx) else mret (inl (x + NEXT))) mp1_list_head t = (Ok (link_to l1), t).
Proof.
  intros Hst Hls. pose proof (length_below _ _ (ls_nodup _ _ Hls) (ls_bound _ _ Hls)) as Hlen. rewrite length_app in Hlen.
  match goal with |- while ?b ?a0 t = _ => destruct (while_steps (fun k a s => s = t /\ exists l3 l4, l1 = l3 ++ l4 /\ k = length l4 /\ a = link_to l3)
    (fun r s => s = t /\ r = link_to l1) b (length l1) a0 t) as (r & s & E & -> & ->) end.
  - split; [done|]. by exists [], l1.
  - intros k a s (-> & l3 & l4 & El & -> & ->). destruct l4 as [|j l4].
    + left. rewrite app_nil_r in El. subst l3. go (link_load t A l1 (i :: l2) Hst Hls). cbn [addr_of]. rewrite Z.eqb_refl.
      eexists _, _. split; [reflexivity|]. done.
    + right. subst l1. rewrite <- app_assoc in Hls. go (link_load t A l3 _ Hst Hls). cbn [addr_of app].
      destruct (Z.eqb_spec (slot j) (slot i)) as [E|_].
      { apply slot_inj in E as ->. pose proof (ls_nodup _ _ Hls) as Hnd. apply list.NoDup_app in Hnd as (_ & _ & Hnd). cbn [app] in Hnd.
        apply list.NoDup_cons in Hnd as [Hnd _]. destruct Hnd. apply elem_of_app. right. by left. }
      exists (length l4), (slot j + NEXT), t. split; [done|]. split; [|cbn; lia]. split; [done|].
      exists (l3 ++ [j]), l4. rewrite <- app_assoc. split; [done|]. split; [done|]. unfold link_to. by rewrite last_snoc.
  - lia.
  - exact E.
Qed.

Definition relink A (l1 : list nat) (v : Z) : arr :=
  match list.last l1 with
  | None => A <| head := v |>
  | Some j => A <| nodes ::= <[j := (nodes A !!! j) <| n_next := v |>]> |>
  end.

Lemma relink_store t A l1 v : stored t A -> (forall i, i ∈ l1 -> (i < 2000)%nat) -> 0 <= v < 4294967296 ->
  exists t', movl (link_to l1) v t = (Ok tt, t') /\ stored t' (relink A l1 v) /\ touch t t'.
Proof.
  intros Hst Hb Hv. unfold link_to, relink. destruct (list.last l1) as [j|] eqn:El; [|by apply put_head].
  assert (j < 2000)%nat as Hj by (apply Hb, last_Some_elem_of, El).
  by apply (put_next t A Hst j (nodes A !!! j) (stored_at t A j Hst Hj)).
Qed.

Lemma chain_cut ns ns' l1 j i l2 :
  NoDup (l1 ++ j :: i :: l2) -> chain ns (l1 ++ j :: i :: l2) -> n_next (ns' !!! j) = addr_of l2 ->
  (forall k, k <> j -> n_next (ns' !!! k) = n_next (ns !!! k)) -> chain ns' (l1 ++ j :: l2).
Proof.
  intros Hnd Hc Hj Hk. induction l1 as [|x l1 IH].
  - split; [done|]. destruct Hc as [_ [_ Hc]]. apply (chain_ext ns); [|done]. intros y Hy. apply Hk. intros ->.
    cbn [app] in Hnd. apply list.NoDup_cons in Hnd as [Hnd _]. destruct Hnd. by right.
  - cbn [app] in Hnd. apply list.NoDup_cons in Hnd as [Hx Hnd]. destruct Hc as [Hn Hc]. split; [|by apply IH].
    rewrite Hk; [|intros ->; destruct Hx; apply elem_of_app; right; by left]. rewrite Hn. by destruct l1.
Qed.

Definition blank_node : node := Node 0 0 0 0 0 0 0 0.

Lemma listed_remove A l1 i l2 : listed A (l1 ++ i :: l2) ->
  let A' := (relink A l1 (addr_of l2)) <| nodes ::= <[i := blank_node]> |> in
  listed A' (l1 ++ l2) /\ seen A' (l1 ++ l2) = seen A l1 ++ seen A l2.
Proof.
  intros Hls A'. pose proof Hls as [L1 L2 L3 L4 L5 L6 L7].
  pose proof L3 as Hnd. apply list.NoDup_app in Hnd as (Hn1 & Hn2 & Hn3). apply list.NoDup_cons in Hn3 as [Hn4 Hn5].
  assert (i < 2000)%nat as Hi by (apply L6, elem_of_app; right; by left).
  assert (i ∉ l1) as Hi1 by (intros Hin; apply (Hn2 i Hin); by left).
  assert (i ∉ l1 ++ l2) as Hi12 by (rewrite elem_of_app; intros [?|?]; done).
  assert (forall j, j ∈ l1 ++ i :: l2 <-> j = i \/ j ∈ l1 ++ l2) as Hmem
    by (intros j; rewrite !elem_of_app, elem_of_cons; tauto).
  assert (length (nodes (relink A l1 (addr_of l2))) = 2000%nat) as Hlen
    by (unfold relink; destruct (list.last l1); [cbn [nodes set_field]; by rewrite length_insert|done]).
  assert (forall j, nodes A' !!! j = if decide (j = i) then blank_node else nodes (relink A l1 (addr_of l2)) !!! j) as Hat
    by (intros j; by apply (put_lookup (relink A l1 (addr_of l2)))).
  assert (forall j, n_location (nodes (relink A l1 (addr_of l2)) !!! j) = n_location (nodes A !!! j) /\
    bare (nodes (relink A l1 (addr_of l2)) !!! j) = bare (nodes A !!! j)) as Hsame.
  { intros j. unfold relink. destruct (list.last l1) as [k|] eqn:El; [|done].
    rewrite (put_lookup A) by (first [done|apply L6, elem_of_app; left; by apply last_Some_elem_of]). by destruct (decide (j = k)) as [->|]. }
  split; [split|].
  - cbn [A' head set_field]. unfold relink. destruct (list.last l1) as [k|] eqn:El.
    + cbn [head set_field]. rewrite L1. by destruct l1.
    + apply last_None in El. by subst l1.
  - apply (chain_ext (nodes (relink A l1 (addr_of l2)))).
    + intros j Hj. rewrite Hat, decide_False; [done|]. by intros ->.
    + unfold relink. destruct (list.last l1) as [k|] eqn:El.
      * assert (k < 2000)%nat as Hk by (apply L6, elem_of_app; left; by apply last_Some_elem_of).
        apply last_Some in El as (l1' & ->). rewrite <- !app_assoc in *. cbn [app] in *. apply (chain_cut (nodes A) _ l1' k i l2 L3 L2).
        -- rewrite (put_lookup A) by done. by rewrite decide_True.
        -- intros y Hy. rewrite (put_lookup A) by done. by rewrite decide_False.
      * apply last_None in El. subst l1. cbn [app] in *. by destruct L2.
  - apply list.NoDup_app. split; [done|]. split; [|done]. intros x Hx Hx2. apply (Hn2 x Hx). by right.
  - cbn [A' nodes set_field]. by rewrite length_insert.
  - intros j Hj. rewrite Hat. destruct (decide (j = i)) as [->|Hne].
    + split; [done|]. cbn. lia.
    + rewrite (proj1 (Hsame j)), <- (L5 j Hj), Hmem. tauto.
  - intros j Hj. apply L6, Hmem. by right.
  - intros j Hj. rewrite Hat. destruct (decide (j = i)); [cbn; lia|]. rewrite (proj1 (Hsame j)). by apply L7.
  - rewrite <- seen_app. unfold seen. apply list_fmap_ext. intros k j Hj. rewrite Hat, decide_False.
    + apply Hsame.
    + intros ->. destruct Hi12. by eapply list_elem_of_lookup_2.
Qed.

Lemma remove_ok t bl scr arg : blinks t bl scr ->
  exists t', mp1_ioctl_remove arg t = (Ok (match first_at (u16 arg) bl with Some _ => 0 | None => -1 end), t') /\
    touch t t' /\ blinks t' (remove_at (u16 arg) bl) scr.
Proof.
  intros (A & l & Hst & Hls & <- & <-). unfold mp1_ioctl_remove. go (find_helper_ok t A l arg Hst Hls).
  pose proof (entry_at A (u16 arg) l) as He. destruct (find_at A (u16 arg) l) as [|i l2] eqn:Ef.
  - cbn [addr_of]. rewrite He. exists t. split; [done|]. split; [done|]. exists A, l. split; [done|]. split; [done|]. split; [|done].
    clear Ef. revert He. generalize (seen A l) as bl. induction bl as [|n bl IH]; [done|]. cbn [first_at remove_at].
    destruct (n_location n =? u16 arg); [done|]. intros Hb. by rewrite <- IH.
  - destruct He as (l1 & -> & _ & -> & -> & _). clear Ef. pose proof Hls as [L1 L2 L3 L4 L5 L6 L7].
    assert (i < 2000)%nat as Hi by (apply L6, elem_of_app; right; by left).
    cbn [addr_of]. pose proof (slot_range i Hi). zb. go (find_prev_ok t A l1 i l2 Hst Hls).
    go (ld_next t A Hst i _ (stored_at t A i Hst Hi)). apply chain_app in L2 as [-> _].
    destruct (relink_store t A l1 (addr_of l2) Hst) as (t1 & E1 & S1 & T1).
    { intros j Hj. apply L6, elem_of_app. by left. }
    { destruct l2 as [|j l2]; [cbn; lia|]. cbn [addr_of]. assert (j < 2000)%nat as Hj; [|pose proof (slot_range j Hj); lia].
      apply L6, elem_of_app. right. right. by left. }
    go E1. pose proof (stored_at t1 _ i S1 Hi) as Hat. unfold mp1_free.
    change STRUCT_SIZE with (Z.of_nat 16).
    go (ece391_memset_ok t1 (slot i) (pa L + 16 * Z.of_nat i) 16 0 (at_maps t1 _ S1 i _ Hat)) by lia.
    destruct (put_all t1 _ S1 i _ Hat blank_node) as [S2 T2]; [by split; cbn; unfold is_word, is_byte; lia|].
    exists (upds t1 (pa L + 16 * Z.of_nat i) (node_bytes blank_node)). split; [done|]. split; [by eapply touch_trans|].
    destruct (listed_remove A l1 i l2 Hls) as [Hl' Hs']. eexists _, (l1 ++ l2). split; [exact S2|]. split; [exact Hl'|]. split; [exact Hs'|].
    unfold relink. by destruct (list.last l1).
Qed.

(** ** Synchronising *)

(** [n] with the times and the state of [m]. *)
Definition synced (m n : node) : node :=
  n <| n_on_length := n_on_length m |> <| n_off_length := n_off_length m |>
    <| n_countdown := n_countdown m |> <| n_status := n_status m |>.

Lemma testb_sign s : Z.testbit (Z.land 1 s) 7 = false.
Proof. by rewrite Z.land_spec. Qed.

(** The copies and the display, from structure [i] to structure [j]. *)
Lemma sync_array t A i j (a := nodes A !!! i) (b := nodes A !!! j) :
  stored t A -> (i < 2000)%nat -> (j < 2000)%nat -> n_location b < 2000 ->
  exists t', (
    ax ← load16 (slot i + ON_LENGTH); movw (slot j + ON_LENGTH) ax;;
    ax ← load16 (slot i + OFF_LENGTH); movw (slot j + OFF_LENGTH) ax;;
    ax ← load16 (slot i + COUNTDOWN); movw (slot j + COUNTDOWN) ax;;
    ax ← load16 (slot i + STATUS); movw (slot j + STATUS) ax;;
    l ← load16 (slot j + LOCATION);
    off ← load8 (slot j + OFF_CHAR);
    on ← load8 (slot j + ON_CHAR);
    s ← load8 (slot j + STATUS);
    mp1_poke (if Z.testbit (Z.land 1 s) 7 then on else off) (u32 (Z.shiftl l 1));;
    mret 0) t = (Ok 0, t') /\ touch t t' /\
    stored t' (Arr (<[j := synced a b]> (nodes A)) (head A) (<[Z.to_nat (2 * n_location b) := n_off_char b]> (chars A))).
Proof.
  intros Hst Hi Hj Hx. pose proof (st_length _ _ Hst) as Hlen.
  assert (forall x A', nodes A' = <[j := x]> (nodes A) -> nodes A' !! j = Some x) as Hw
    by (intros x A' ->; apply list_lookup_insert_eq; lia).
  assert (forall x A', nodes A' = <[j := x]> (nodes A) -> nodes A' !! i = Some (if decide (i = j) then x else a)) as Hr.
  { intros x A' E. destruct (decide (i = j)) as [->|Hne]; [by apply Hw|]. rewrite E, list_lookup_insert_ne by done. by apply (stored_at t). }
  assert (i = j -> a = b) as Hab by (intros E; unfold a, b; by rewrite E).
  destruct (st_node _ _ Hst _ _ (stored_at t A i Hst Hi)) as [_ [M1 M2 M3 M4 M5 M6 M7 M8]]. fold a in M1, M4, M5, M6, M7. unfold is_word in *.
  destruct (st_node _ _ Hst _ _ (stored_at t A j Hst Hj)) as [_ [N1 N2 N3 N4 N5 N6 N7 N8]]. fold b in N1, N2, N3. unfold is_word in *.
  go (ld_on_length t A Hst i a (stored_at t A i Hst Hi)).
  destruct (put_on_length t A Hst j b (stored_at t A j Hst Hj) (n_on_length a)) as (t1 & E1 & S1 & T1). go E1. rewrite u16_small in S1 by done.
  set (b1 := b <| n_on_length := n_on_length a |>) in *. set (A1 := A <| nodes ::= _ |>) in S1.
  assert (nodes A1 = <[j := b1]> (nodes A)) as Q1 by done.
  go (ld_off_length t1 A1 S1 i _ (Hr _ _ Q1)). assert (n_off_length (if decide (i = j) then b1 else a) = n_off_length a) as ->
    by (destruct (decide (i = j)) as [E|]; [by rewrite (Hab E)|done]).
  destruct (put_off_length t1 A1 S1 j b1 (Hw _ _ Q1) (n_off_length a)) as (t2 & E2 & S2 & T2). go E2. rewrite u16_small in S2 by done.
  set (b2 := b1 <| n_off_length := n_off_length a |>) in *. set (A2 := A1 <| nodes ::= _ |>) in S2.
  assert (nodes A2 = <[j := b2]> (nodes A)) as Q2 by apply list_insert_insert_eq.
  go (ld_countdown t2 A2 S2 i _ (Hr _ _ Q2)). assert (n_countdown (if decide (i = j) then b2 else a) = n_countdown a) as ->
    by (destruct (decide (i = j)) as [E|]; [by rewrite (Hab E)|done]).
  destruct (put_countdown t2 A2 S2 j b2 (Hw _ _ Q2) (n_countdown a)) as (t3 & E3 & S3 & T3). go E3. rewrite u16_small in S3 by done.
  set (b3 := b2 <| n_countdown := n_countdown a |>) in *. set (A3 := A2 <| nodes ::= _ |>) in S3.
  assert (nodes A3 = <[j := b3]> (nodes A)) as Q3 by (change (nodes A3) with (<[j := b3]> (nodes A2)); rewrite Q2; apply list_insert_insert_eq).
  go (ld_status t3 A3 S3 i _ (Hr _ _ Q3)). assert (n_status (if decide (i = j) then b3 else a) = n_status a) as ->
    by (destruct (decide (i = j)) as [E|]; [by rewrite (Hab E)|done]).
  destruct (put_status t3 A3 S3 j b3 (Hw _ _ Q3) (n_status a)) as (t4 & E4 & S4 & T4). go E4. rewrite u16_small in S4 by done.
  set (b4 := b3 <| n_status := n_status a |>) in *. set (A4 := A3 <| nodes ::= _ |>) in S4.
  assert (nodes A4 = <[j := b4]> (nodes A)) as Q4 by (change (nodes A4) with (<[j := b4]> (nodes A3)); rewrite Q3; apply list_insert_insert_eq).
  go (ld_location t4 A4 S4 j _ (Hw _ _ Q4)). go (ld_off_char t4 A4 S4 j _ (Hw _ _ Q4)). go (ld_on_char t4 A4 S4 j _ (Hw _ _ Q4)).
  go (ld8 t4 A4 S4 j _ (Hw _ _ Q4) STATUS _ ltac:(unfold STATUS; lia) eq_refl). rewrite testb_sign.
  change (n_location b4) with (n_location b). change (n_off_char b4) with (n_off_char b).
  destruct (poke_ok t4 A4 (n_off_char b) (n_location b) S4 N3 ltac:(lia)) as (t5 & E5 & S5 & T5). go E5.
  exists t5. split; [done|]. split.
  - exact (touch_trans _ _ _ T1 (touch_trans _ _ _ T2 (touch_trans _ _ _ T3 (touch_trans _ _ _ T4 T5)))).
  - replace (Arr _ _ _) with (A4 <| chars ::= <[Z.to_nat (2 * n_location b):=n_off_char b]> |>); [exact S5|].
    rewrite <- (arr_eta (A4 <| chars ::= _ |>)). change (nodes (A4 <| chars ::= _ |>)) with (nodes A4). by rewrite Q4.
Qed.

Lemma sync_ok t bl scr arg : blinks t bl scr ->
  let x := u16 (Z.shiftr (u32 arg) 16) in let y := u16 arg in
  exists t', mp1_ioctl_sync arg t = (Ok (match first_at x bl, first_at y bl with Some _, Some _ => 0 | _, _ => -1 end), t') /\
    touch t t' /\
    match first_at x bl, first_at y bl with
    | Some m, Some n => blinks t' (change_at y (synced m) bl) (<[Z.to_nat (2 * n_location n) := n_off_char n]> scr)
    | _, _ => blinks t' bl scr
    end.
Proof.
  intros (A & l & Hst & Hls & <- & <-) x y. unfold mp1_ioctl_sync.
  assert (blinks t (seen A l) (chars A)) as Hsame by (exists A, l; done).
  assert (u16 (Z.land (u32 arg) 65535) = y) as Hy.
  { unfold y. change 65535 with (Z.ones 16). rewrite Z.land_ones by lia. unfold u16, u32. change (2 ^ 16) with 65536.
    Z.to_euclidean_division_equations. lia. }
  go (find_helper_ok t A l (Z.shiftr (u32 arg) 16) Hst Hls). fold x.
  pose proof (entry_at A x l) as Hx. destruct (find_at A x l) as [|i lx] eqn:Ex.
  { rewrite Hx. exists t. by split. }
  destruct Hx as (lx1 & Elx & Hxi & Hfx & _). rewrite Hfx. pose proof Hls as [L1 L2 L3 L4 L5 L6 L7].
  assert (i < 2000)%nat as Hi by (apply L6; rewrite Elx; apply elem_of_app; right; by left).
  cbn [addr_of]. pose proof (slot_range i Hi). zb. go (find_helper_ok t A l (Z.land (u32 arg) 65535) Hst Hls). rewrite Hy.
  pose proof (entry_at A y l) as He. destruct (find_at A y l) as [|j l2] eqn:Ey.
  { rewrite He. exists t. by split. }
  destruct He as (l1 & El & Hyj & Hfy & _ & Hc). rewrite Hfy.
  assert (j < 2000)%nat as Hj by (apply L6; rewrite El; apply elem_of_app; right; by left).
  cbn [addr_of]. pose proof (slot_range j Hj). zb.
  destruct (sync_array t A i j Hst Hi Hj (L7 j Hj)) as (t' & E & T' & S'). exists t'. split; [exact E|]. split; [exact T'|].
  rewrite Hc. eexists _, l. split; [exact S'|].
  pose proof (listed_put A l j (synced (nodes A !!! i) (nodes A !!! j)) Hls Hj eq_refl eq_refl) as Hl'.
  split; [by destruct Hl'|]. split; [|done]. rewrite El in L3 |- *.
  exact (seen_put A l1 j l2 (synced (nodes A !!! i) (nodes A !!! j)) L3 L4 Hj).
Qed.

(** ** Looking up *)

Lemma find_ok t bl scr arg parg tmp ptmp n :
  blinks t bl scr -> struct_at t arg parg n -> maps t tmp ptmp 16 -> elsewhere ptmp 16 ->
  ptmp + 16 <= parg \/ parg + 16 <= ptmp ->
  exists t' n', mp1_ioctl_find arg tmp t = (Ok (match first_at (n_location n) bl with Some _ => 0 | None => -1 end), t') /\
    blinks t' bl scr /\ struct_at t' arg parg n' /\
    bare n' = default (bare n) (first_at (n_location n) bl) /\ (forall a, loc t' a = loc t a).
Proof.
  intros (A & l & Hst & Hls & <- & <-) (Hm & Hh & Ho & He) Hmt Het Hd. unfold mp1_ioctl_find.
  pose proof Ho as [N1 _ _ _ _ _ _ _]. unfold is_word in N1.
  assert (holds t parg (bytes16 (n_location n))) as Hb by (apply holds_app in Hh; apply Hh).
  go (ece391_memcpy_ok t tmp ptmp arg parg (bytes16 (n_location n))) by (first [eapply maps_mono; [eassumption|cbn; lia]|done|cbn; lia]).
  set (t1 := upds t ptmp (bytes16 (n_location n))). change (negb (0 =? 0)) with false. cbv iota.
  assert (stored t1 A) as S1 by (apply (stored_upds t A ptmp 16); [done|done|lia|cbn; lia]).
  assert (load16 tmp t1 = (Ok (n_location n), t1)) as El.
  { rewrite <- (Z.add_0_r tmp), (load16_holds t1 tmp ptmp (bytes16 (n_location n)) 0).
    - do 2 f_equal. by apply (word16 (n_location n)).
    - apply maps_upds. eapply maps_mono; [exact Hmt|cbn; lia].
    - apply holds_upds, bytes16_ok.
    - lia.
    - cbn. lia. }
  go El. go (find_helper_ok t1 A l (n_location n) S1 Hls). rewrite u16_small by done.
  assert (struct_at t1 arg parg n) as Ha.
  { split; [by apply maps_upds|]. split; [|done]. unfold holds, t1. rewrite cells_upds_out by (rewrite length_node; cbn; lia). exact Hh. }
  pose proof (entry_at A (n_location n) l) as Hx. destruct (find_at A (n_location n) l) as [|i l2].
  { rewrite Hx. exists t1, n. split; [done|]. split; [by exists A, l|]. split; [done|]. split; [done|]. intros a. apply loc_upds. }
  destruct Hx as (l1 & El1 & _ & -> & _).
  assert (i < 2000)%nat as Hi by (apply (ls_bound _ _ Hls); rewrite El1; apply elem_of_app; right; by left).
  cbn [addr_of]. pose proof (slot_range i Hi). zb. pose proof (stored_at t1 A i S1 Hi) as Hat.
  destruct (st_node _ _ S1 _ _ Hat) as [Hhi Hoi].
  assert (ece391_memcpy arg (slot i) STRUCT_SIZE t1 = (Ok 0, upds t1 parg (node_bytes (nodes A !!! i)))) as Ec.
  { apply (ece391_memcpy_ok t1 arg parg (slot i) (pa L + 16 * Z.of_nat i) (node_bytes (nodes A !!! i))); rewrite ?length_node; try done.
    - apply Ha.
    - by apply (at_maps t1 A S1 i _ Hat).
    - destruct He as ([?|?] & _); [left|right]; lia. }
  go Ec. change (0 =? 0) with true. cbv iota.
  exists (upds t1 parg (node_bytes (nodes A !!! i))), (nodes A !!! i). split; [done|]. split.
  { exists A, l. split; [apply (stored_upds t1 A parg 16); [done|done|lia|rewrite length_node; lia]|done]. }
  split; [|split; [done|intros a; unfold t1; by rewrite !loc_upds]].
  split; [by do 2 apply maps_upds|]. split; [by apply holds_upds, bytes_node|done].
Qed.
End Stored.

(** * The requests of a program *)

(** Any 16 bytes are a structure. *)
Lemma node_of_bytes l : length l = 16%nat -> Forall is_byte l -> exists n, node_bytes n = l /\ node_ok n.
Proof.
  intros Hl Hb. do 16 (destruct l as [|? l]; [done|]). destruct l; [clear Hl|done].
  repeat match goal with Hf : Forall is_byte (_ :: _) |- _ =>
    let h := fresh "B" in pose proof (Forall_inv Hf) as h; apply Forall_inv_tail in Hf end. unfold is_byte in *.
  exists (Node (z + 256 * z0) z1 z2 (z3 + 256 * z4) (z5 + 256 * z6) (z7 + 256 * z8) (z9 + 256 * z10) (le32 z11 z12 z13 z14)).
  assert (forall a b, 0 <= a < 256 -> 0 <= b < 256 -> bytes16 (a + 256 * b) = [a; b]) as H2.
  { intros a b Ha Hb2. unfold bytes16, u8. rewrite Z.shiftr_div_pow2 by lia. change (2 ^ 8) with 256.
    f_equal; [|f_equal]; Z.to_euclidean_division_equations; lia. }
  assert (bytes4 (le32 z11 z12 z13 z14) = [z11; z12; z13; z14]) as H4.
  { unfold bytes4, le32, u8. rewrite !Z.shiftr_div_pow2 by lia. change (2 ^ 8) with 256. change (2 ^ 16) with 65536. change (2 ^ 24) with 16777216.
    f_equal; [|f_equal; [|f_equal; [|f_equal]]]; Z.to_euclidean_division_equations; lia. }
  split.
  - unfold node_bytes. cbn [n_location n_on_char n_off_char n_on_length n_off_length n_countdown n_status n_next].
    rewrite !H2 by done. by rewrite H4.
  - split; cbn; unfold is_word, is_byte, le32; lia.
Qed.

Inductive request : Type :=
  | Tick                                                   (** a tick of the clock *)
  | Add (on_char off_char on_length off_length location : Z)
  | Remove (location : Z)
  | Sync (from to : Z)
  | Find (location : Z).

Section Requests.
Context {T : Type} `{Memory T} `{FishData}.

(** The program fills in its structure ([fish.c], 46 to 50) and makes the request;
    the result of the tasklet is nothing. *)
Definition fill (arg on_char off_char on_length off_length location : Z) : M T unit :=
  store8 (arg + ON_CHAR) on_char;;
  store8 (arg + OFF_CHAR) off_char;;
  movw (arg + ON_LENGTH) on_length;;
  movw (arg + OFF_LENGTH) off_length;;
  movw (arg + LOCATION) location.

Definition ask (arg tmp : Z) (r : request) : M T Z :=
  match r with
  | Tick => mp1_rtc_tasklet 0;; mret 0
  | Add c0 c1 l0 l1 x => fill arg c0 c1 l0 l1 x;; mp1_ioctl arg RTC_ADD tmp
  | Remove x => mp1_ioctl x RTC_REMOVE tmp
  | Sync x y => mp1_ioctl (Z.lor (Z.shiftl x 16) y) RTC_SYNC tmp
  | Find x => movw (arg + LOCATION) x;; mp1_ioctl arg RTC_FIND tmp
  end.

Fixpoint ask_all (arg tmp : Z) (rs : list request) : M T (list Z) :=
  match rs with
  | [] => mret []
  | r :: rs' => a ← ask arg tmp r; l ← ask_all arg tmp rs'; mret (a :: l)
  end.
End Requests.

(** What the requests mean for the characters that blink and for the screen. *)
Definition new_node (c0 c1 l0 l1 x : Z) : node := Node x c0 c1 l0 l1 l0 1 0.
Definition answer (r : request) (s : list node * list Z) : Z * (list node * list Z) :=
  let '(bl, scr) := s in
  match r with
  | Tick => (0, tick_all bl scr)
  | Add c0 c1 l0 l1 x =>
      if (x <? 2000) && negb (length bl =? 2000)%nat then (0, (new_node c0 c1 l0 l1 x :: bl, <[Z.to_nat (2 * x) := c0]> scr))
      else (-1, s)
  | Remove x => (match first_at x bl with Some _ => 0 | None => -1 end, (remove_at x bl, scr))
  | Sync x y =>
      match first_at x bl, first_at y bl with
      | Some m, Some n => (0, (change_at y (synced m) bl, <[Z.to_nat (2 * n_location n) := n_off_char n]> scr))
      | _, _ => (-1, s)
      end
  | Find x => (match first_at x bl with Some _ => 0 | None => -1 end, s)
  end.

Fixpoint answers (rs : list request) (s : list node * list Z) : list Z * (list node * list Z) :=
  match rs with
  | [] => ([], s)
  | r :: rs' => let '(a, s1) := answer r s in let '(l, s2) := answers rs' s1 in (a :: l, s2)
  end.

(** Requests for any location but the top left corner. *)
Definition request_ok (r : request) : Prop :=
  match r with
  | Tick => True
  | Add c0 c1 l0 l1 x => is_byte c0 /\ is_byte c1 /\ is_word l0 /\ is_word l1 /\ 0 < x < 65536
  | Remove x | Find x => is_word x
  | Sync x y => is_word x /\ is_word y
  end.

(** The program's structure, and the space on its stack. *)
Record client {T} `{Memory T} `{FishData} (L : layout) (t : T) (arg parg tmp ptmp : Z) : Prop := {
  cl_arg : maps t arg parg 16;
  cl_tmp : maps t tmp ptmp 16;
  cl_arg_apart : elsewhere L parg 16;
  cl_tmp_apart : elsewhere L ptmp 16;
  cl_disjoint : ptmp + 16 <= parg \/ parg + 16 <= ptmp
}.

Lemma ioctl_add {T} `{Memory T} `{FishData} arg tmp : mp1_ioctl arg RTC_ADD tmp = mp1_ioctl_add arg tmp.
Proof. reflexivity. Qed.

Section Serve.
Context {T : Type} `{MemoryOk T} `{FishData} (L : layout) (Hlo : layout_ok L) (arg parg tmp ptmp : Z).
Implicit Types (t : T).

Lemma client_loc t t' : (forall a, loc t' a = loc t a) -> client L t arg parg tmp ptmp -> client L t' arg parg tmp ptmp.
Proof. intros Hl [C1 C2 C3 C4 C5]. split; [by apply (maps_loc t)|by apply (maps_loc t)|done..]. Qed.

Lemma client_struct t : client L t arg parg tmp ptmp -> exists n, struct_at L t arg parg n.
Proof.
  intros [C1 C2 C3 C4 C5]. destruct (node_of_bytes (cells t parg 16)) as (n & Hn & Ho); [apply length_cells|apply cells_bytes|].
  exists n. split; [done|]. split; [|done]. unfold holds. by rewrite length_node, Hn.
Qed.

(** A store of the program to its structure. *)
Lemma fill_step t A n n' (k : nat) l : stored L t A -> struct_at L t arg parg n -> (k + length l <= 16)%nat -> Forall is_byte l ->
  node_bytes n' = patch k l (node_bytes n) -> node_ok n' ->
  let t' := upds t (parg + Z.of_nat k) l in stored L t' A /\ struct_at L t' arg parg n' /\ (forall a, loc t' a = loc t a).
Proof.
  intros Hst (Hm & Hh & Ho & He) Hk Hl Hn' Ho' t'. split; [apply (stored_upds L t A parg 16); [done|done|lia|lia]|].
  split; [|intros a; apply loc_upds]. split; [by apply maps_upds|]. split; [|done]. rewrite Hn'. apply holds_patch; [done|done|rewrite length_node; lia].
Qed.

Lemma fill_ok t A c0 c1 l0 l1 x : stored L t A -> client L t arg parg tmp ptmp ->
  is_byte c0 -> is_byte c1 -> is_word l0 -> is_word l1 -> is_word x ->
  exists t' n, fill arg c0 c1 l0 l1 x t = (Ok tt, t') /\ stored L t' A /\ client L t' arg parg tmp ptmp /\
    struct_at L t' arg parg n /\ n_location n = x /\ n_on_char n = c0 /\ bare (started n) = new_node c0 c1 l0 l1 x.
Proof.
  intros Hst Hc Hc0 Hc1 Hl0 Hl1 Hx. destruct (client_struct t Hc) as (n & Hn).
  pose proof Hn as (Hm & _ & Ho & _). unfold fill. pose proof Ho as [O1 O2 O3 O4 O5 O6 O7 O8].
  go (store8_maps t arg parg 16 ON_CHAR c0) by (done || (unfold ON_CHAR; lia)).
  destruct (fill_step t A n (n <| n_on_char := c0 |>) 2 [c0] Hst Hn ltac:(cbn; lia) (one_byte _ Hc0) eq_refl) as (S1 & N1 & M1); [by split|].
  change (upd t (parg + ON_CHAR) (u8 c0)) with (upds t (parg + Z.of_nat 2) [c0]). set (t1 := upds t _ [c0]) in *.
  go (store8_maps t1 arg parg 16 OFF_CHAR c1) by (first [apply N1|unfold OFF_CHAR; lia]).
  destruct (fill_step t1 A _ (n <| n_on_char := c0 |> <| n_off_char := c1 |>) 3 [c1] S1 N1 ltac:(cbn; lia) (one_byte _ Hc1) eq_refl) as (S2 & N2 & M2); [by split|].
  change (upd t1 (parg + OFF_CHAR) (u8 c1)) with (upds t1 (parg + Z.of_nat 3) [c1]). set (t2 := upds t1 _ [c1]) in *.
  go (movw_upds t2 arg parg 16 ON_LENGTH l0) by (first [apply N2|unfold ON_LENGTH; lia]).
  destruct (fill_step t2 A _ (n <| n_on_char := c0 |> <| n_off_char := c1 |> <| n_on_length := l0 |>) 4 (bytes16 l0) S2 N2 ltac:(cbn; lia) (bytes16_ok _) eq_refl) as (S3 & N3 & M3); [by split|].
  change (parg + ON_LENGTH) with (parg + Z.of_nat 4). set (t3 := upds t2 _ (bytes16 l0)) in *.
  go (movw_upds t3 arg parg 16 OFF_LENGTH l1) by (first [apply N3|unfold OFF_LENGTH; lia]).
  destruct (fill_step t3 A _ (n <| n_on_char := c0 |> <| n_off_char := c1 |> <| n_on_length := l0 |> <| n_off_length := l1 |>) 6 (bytes16 l1) S3 N3 ltac:(cbn; lia) (bytes16_ok _) eq_refl) as (S4 & N4 & M4); [by split|].
  change (parg + OFF_LENGTH) with (parg + Z.of_nat 6). set (t4 := upds t3 _ (bytes16 l1)) in *.
  rewrite (movw_upds t4 arg parg 16 LOCATION x) by (first [apply N4|unfold LOCATION; lia]).
  destruct (fill_step t4 A _ (n <| n_on_char := c0 |> <| n_off_char := c1 |> <| n_on_length := l0 |> <| n_off_length := l1 |> <| n_location := x |>) 0 (bytes16 x) S4 N4 ltac:(cbn; lia) (bytes16_ok _) eq_refl) as (S5 & N5 & M5); [by split|].
  change (parg + LOCATION) with (parg + Z.of_nat 0). eexists _, _. split; [done|]. split; [exact S5|].
  split; [|split; [exact N5|done]]. apply (client_loc t); [|done]. intros a. by rewrite M5, M4, M3, M2, M1.
Qed.

(** The addresses of locations do not change. *)
Lemma touch_locs t t' p k : touch_at L p k t t' -> forall a, loc t' a = loc t a.
Proof. by intros [Hl _]. Qed.

Lemma ask_ok t bl scr r : blinks L t bl scr -> client L t arg parg tmp ptmp -> request_ok r ->
  exists t', ask arg tmp r t = (Ok (answer r (bl, scr)).1, t') /\
    blinks L t' (answer r (bl, scr)).2.1 (answer r (bl, scr)).2.2 /\ client L t' arg parg tmp ptmp.
Proof.
  intros Hb Hc Hr. destruct r as [|c0 c1 l0 l1 x|x|x y|x]; cbn [ask answer].
  - destruct (tasklet_ok L Hlo t bl scr 0 Hb) as (t' & E & Hb' & Ht). go E. exists t'. split; [done|]. split; [done|].
    apply (client_loc t); [apply Ht|done].
  - destruct Hr as (Hc0 & Hc1 & Hl0 & Hl1 & Hx).
    destruct Hb as (A & l & HA & Hrest).
    destruct (fill_ok t A c0 c1 l0 l1 x HA Hc Hc0 Hc1 Hl0 Hl1 ltac:(unfold is_word; lia)) as (t1 & n & E1 & HA1 & C1 & Hn & Hnx & Hnc & Hst).
    assert (blinks L t1 bl scr) as Hb1 by (by exists A, l).
    go E1. destruct (add_ok L Hlo t1 bl scr arg parg tmp ptmp n Hb1 Hn (cl_tmp _ _ _ _ _ _ C1) (cl_tmp_apart _ _ _ _ _ _ C1) (cl_disjoint _ _ _ _ _ _ C1) ltac:(lia)) as (t' & E & Ht & Hb').
    rewrite Hnx, Hnc in *. unfold added in Hb'. rewrite Hst in Hb'. exists t'. unfold mp1_ioctl. change (RTC_ADD =? RTC_ADD) with true. cbv iota.
    destruct ((x <? 2000) && negb (length bl =? 2000)%nat); cbn [fst snd]; (split; [exact E|]); (split; [exact Hb'|]);
      (apply (client_loc t1); [by eapply touch_locs|done]).
  - destruct (remove_ok L Hlo t bl scr x Hb) as (t' & E & Ht & Hb'). unfold is_word in Hr. cbn [request_ok] in Hr. unfold is_word in Hr. rewrite u16_small in E, Hb' by lia.
    exists t'. split; [exact E|]. split; [exact Hb'|]. apply (client_loc t); [apply Ht|done].
  - destruct Hr as [Hx Hy]. unfold is_word in *.
    assert (Z.lor (Z.shiftl x 16) y = x * 65536 + y) as Ea.
    { rewrite Z.shiftl_mul_pow2 by lia. symmetry. apply Z.add_nocarry_lor.
      assert (y = Z.land y (Z.ones 16)) as -> by (rewrite Z.land_ones, Z.mod_small by lia; done).
      rewrite (Z.land_comm y), Z.land_assoc, Z.land_ones, Z.mod_mul by lia. done. }
    destruct (sync_ok L Hlo t bl scr (Z.lor (Z.shiftl x 16) y) Hb) as (t' & E & Ht & Hb').
    assert (u16 (Z.shiftr (u32 (Z.lor (Z.shiftl x 16) y)) 16) = x) as Hux.
    { rewrite Ea, u32_small by lia. rewrite Z.shiftr_div_pow2 by lia. change (2 ^ 16) with 65536. rewrite Z.div_add_l by lia.
      rewrite Z.div_small by lia. rewrite Z.add_0_r. by apply u16_small. }
    assert (u16 (Z.lor (Z.shiftl x 16) y) = y) as Huy.
    { rewrite Ea. unfold u16. rewrite Z.add_comm, Z.mod_add by lia. by apply Z.mod_small. }
    rewrite Hux, Huy in *. exists t'. unfold mp1_ioctl. change (RTC_SYNC =? RTC_ADD) with false. change (RTC_SYNC =? RTC_REMOVE) with false.
    change (RTC_SYNC =? RTC_FIND) with false. change (RTC_SYNC =? RTC_SYNC) with true. cbv iota.
    assert (client L t' arg parg tmp ptmp) as Hc' by (apply (client_loc t); [apply Ht|done]).
    destruct (first_at x bl); [destruct (first_at y bl)|]; by split.
  - destruct Hb as (A & l & Hst & Hrest). destruct (client_struct t Hc) as (n & Hn). pose proof Hn as (Hm & _ & [O1 O2 O3 O4 O5 O6 O7 O8] & _).
    go (movw_upds t arg parg 16 LOCATION x) by (first [apply Hn|unfold LOCATION; lia]).
    destruct (fill_step t A n (n <| n_location := x |>) 0 (bytes16 x) Hst Hn ltac:(cbn; lia) (bytes16_ok _) eq_refl) as (S1 & N1 & M1); [by split|].
    change (parg + LOCATION) with (parg + Z.of_nat 0). pose proof (client_loc _ _ M1 Hc) as C1.
    destruct (find_ok L Hlo _ bl scr arg parg tmp ptmp _ (ex_intro _ A (ex_intro _ l (conj S1 Hrest))) N1 (cl_tmp _ _ _ _ _ _ C1) (cl_tmp_apart _ _ _ _ _ _ C1) (cl_disjoint _ _ _ _ _ _ C1))
      as (t' & n' & E & Hb' & _ & _ & Hl'). exists t'. split; [exact E|]. split; [exact Hb'|]. by apply (client_loc _ _ Hl').
Qed.
End Serve.

(** A loop that goes on from every state it reaches. *)
Lemma while_diverges {S A B} (I : A -> S -> Prop) (body : A -> M S (A + B)) a s :
  I a s -> (forall a s, I a s -> exists a' s', body a s = (Ok (inl a'), s') /\ I a' s') ->
  exists s', while body a s = (Stop Diverges, s').
Proof.
  intros HI Hstep. assert (forall k a s, I a s -> exists a' s', iter k body a s = (Ok (inl a'), s') /\ I a' s') as Hl.
  { induction k as [|k IH]; intros b u Hb; [by exists b, u|]. cbn [iter].
    destruct (Hstep b u Hb) as (b1 & u1 & E1 & Hb1). go E1. by apply IH. }
  destruct (Hl (2 ^ 32)%nat a s HI) as (a' & s' & E & _). unfold while. rewrite bind_run, loop_iter, E. by exists s'.
Qed.

(** * Properties *)

(** C22. The blinking characters refine a list: whatever requests a program makes, for
    any locations but the top left corner, each is answered as the list of
    blinking characters tells, the structures in memory stay a list without
    cycles that holds exactly these characters, and the screen shows them; no
    request fails to return. *)
Theorem requests_refine {T} `{MemoryOk T} `{FishData} (L : layout) (t : T) (bl : list node) (scr : list Z)
    (arg parg tmp ptmp : Z) (rs : list request) :
  layout_ok L -> blinks L t bl scr -> client L t arg parg tmp ptmp -> Forall request_ok rs ->
  exists t', ask_all arg tmp rs t = (Ok (answers rs (bl, scr)).1, t') /\
    blinks L t' (answers rs (bl, scr)).2.1 (answers rs (bl, scr)).2.2 /\ client L t' arg parg tmp ptmp.
Proof.
  intros Hlo Hb Hc Hrs. revert t bl scr Hb Hc. induction Hrs as [|r rs Hr Hrs IH]; intros t bl scr Hb Hc.
  - exists t. by split.
  - destruct (ask_ok L Hlo arg parg tmp ptmp t bl scr r Hb Hc Hr) as (t1 & E1 & Hb1 & Hc1). cbn [ask_all answers]. go E1.
    destruct (answer r (bl, scr)) as [a [bl1 scr1]]. cbn [fst snd] in *.
    destruct (IH t1 bl1 scr1 Hb1 Hc1) as (t2 & E2 & Hb2 & Hc2). go E2. exists t2.
    destruct (answers rs (bl1, scr1)) as [l s2]. by split.
Qed.

Section Demo.
(** The globals at 0x1000, the video memory at 0xB8000, all blank. *)
Instance demo_fish : FishData := {| vmem_base_addr := 0x9000; mp1_list_head := 0x9010; blink_array := 0x1000 |}.
Definition demo_layout : layout := Layout 0x1000 0x9010 0x9000 0xB8000 0xB8000.
Definition demo_flat : flat := Flat (list_to_map [(0x9001, 0x80); (0x9002, 0x0B)]).

Lemma demo_layout_ok : layout_ok demo_layout.
Proof. split; cbn; lia. Qed.

Lemma flat_maps (t : flat) a n : 0 <= a -> a + n <= 4294967296 -> maps t a a n.
Proof. intros Ha Hn i Hi. rewrite u32_small by lia. done. Qed.

Lemma demo_cells p n : 0x9003 <= p \/ p + Z.of_nat n <= 0x9001 -> cells demo_flat p n = replicate n 0.
Proof.
  intros Hp. apply list_eq. intros i. destruct (decide (i < n)%nat) as [Hi|Hi].
  - rewrite cells_lookup, lookup_replicate_2 by done. f_equal. cbn [cell flat_memory demo_flat flat_cells].
    rewrite not_elem_of_list_to_map_1; [done|]. cbn. intros [E|[E|E%elem_of_nil]%elem_of_cons]%elem_of_cons; (lia || done).
  - rewrite !lookup_ge_None_2; [done|rewrite length_replicate; lia|rewrite length_cells; lia].
Qed.

Lemma demo_blinks : blinks demo_layout demo_flat [] (replicate 4000 0).
Proof.
  exists (Arr (replicate 2000 blank_node) 0 (replicate 4000 0)), []. split; [|split; [|done]].
  - split; cbn [pa ph pm pv vid demo_layout nodes head chars blink_array mp1_list_head vmem_base_addr demo_fish].
    + apply flat_maps; lia.
    + apply flat_maps; lia.
    + apply flat_maps; lia.
    + apply flat_maps; lia.
    + apply length_replicate.
    + apply length_replicate.
    + intros i n Hi. apply lookup_replicate in Hi as [-> Hi]. split; [|by split; cbn; unfold is_word, is_byte; lia].
      apply demo_cells. rewrite length_node. lia.
    + split; [reflexivity|lia].
    + reflexivity.
    + unfold holds. rewrite length_replicate. apply demo_cells. lia.
  - split; cbn [nodes head].
    + done.
    + done.
    + constructor.
    + apply length_replicate.
    + intros i Hi. rewrite lookup_total_replicate_2 by done. split; [by intros ?%elem_of_nil|done].
    + intros i Hi%elem_of_nil. done.
    + intros i Hi. rewrite lookup_total_replicate_2 by done. cbn. lia.
Qed.

Lemma demo_client : client demo_layout demo_flat 0xA000 0xA000 0xA100 0xA100.
Proof. split; [apply flat_maps; lia|apply flat_maps; lia| | |]; unfold elsewhere; cbn; lia. Qed.
End Demo.

(** Two characters, two ticks: the first one has changed; it is removed. *)
Lemma requests_refine_witness : let F := demo_fish in
  exists t', ask_all 0xA000 0xA100 [Add 73 77 2 6 540; Add 65 66 9 9 60; Tick; Tick; Remove 540; Remove 541] demo_flat =
      (Ok [0; 0; 0; 0; 0; -1], t') /\
    blinks demo_layout t' [Node 60 65 66 9 9 7 1 0] (<[1080%nat := 77]> (<[120%nat := 65]> (<[1080%nat := 73]> (replicate 4000 0)))).
Proof.
  intros F. destruct (requests_refine demo_layout demo_flat [] (replicate 4000 0) 0xA000 0xA000 0xA100 0xA100
    [Add 73 77 2 6 540; Add 65 66 9 9 60; Tick; Tick; Remove 540; Remove 541]) as (t' & E & Hb & _).
  - exact demo_layout_ok.
  - exact demo_blinks.
  - exact demo_client.
  - repeat (apply List.Forall_cons; [cbn; unfold is_byte, is_word; lia|]). apply List.Forall_nil.
  - exists t'. split; [exact E|exact Hb].
Defined.

(** The top left corner: a character at location 0 counts as free, so that the one
    added after it takes its place and becomes its own successor; from then on the
    tasklet does not come to an end. *)
Theorem origin_cycle {T} `{MemoryOk T} `{FishData} (L : layout) (t : T) (bl : list node) (scr : list Z)
    (arg parg tmp ptmp c0 c1 l0 l1 d0 d1 m0 m1 x : Z) :
  layout_ok L -> blinks L t bl scr -> client L t arg parg tmp ptmp -> (length bl < 2000)%nat ->
  is_byte c0 -> is_byte c1 -> is_word l0 -> is_word l1 ->
  is_byte d0 -> is_byte d1 -> is_word m0 -> is_word m1 -> 0 <= x < 2000 ->
  exists t1 t2, ask_all arg tmp [Add c0 c1 l0 l1 0; Add d0 d1 m0 m1 x] t = (Ok [0; 0], t1) /\
    mp1_rtc_tasklet 0 t1 = (Stop Diverges, t2).
Proof.
  intros Hlo (A & l & Hst & Hls & <- & _) Hc Hlen Hc0 Hc1 Hl0 Hl1 Hd0 Hd1 Hm0 Hm1 Hx.
  destruct (fill_ok L arg parg tmp ptmp t A c0 c1 l0 l1 0 Hst Hc Hc0 Hc1 Hl0 Hl1 ltac:(unfold is_word; lia))
    as (t1 & n & E1 & S1 & C1 & Hn & Hnx & _ & _).
  destruct (malloc_ok L t1 A S1) as [[_ Hbad]|(i & Hi & Hi0 & Hmin & _)].
  { apply (all_used A l Hls) in Hbad. unfold seen in Hlen. rewrite length_fmap in Hlen. lia. }
  destruct (add_array L Hlo t1 A S1 arg parg tmp ptmp n Hn (cl_tmp _ _ _ _ _ _ C1) (cl_tmp_apart _ _ _ _ _ _ C1) (cl_disjoint _ _ _ _ _ _ C1)) as [_ Hadd].
  destruct (Hadd ltac:(lia) i Hi Hi0 Hmin) as (t2 & E2 & T2 & S2). clear Hadd. set (A2 := Arr _ _ _) in S2.
  pose proof (st_length _ _ _ S1) as HlA.
  assert (forall j, nodes A2 !!! j = if decide (j = i) then started n <| n_next := head A |> else nodes A !!! j) as Hat2
    by (intros j; by apply (put_lookup A)).
  destruct (fill_ok L arg parg tmp ptmp t2 A2 d0 d1 m0 m1 x S2 (client_loc L arg parg tmp ptmp t1 t2 ltac:(by apply T2) C1) Hd0 Hd1 Hm0 Hm1 ltac:(unfold is_word; lia))
    as (t3 & n' & E3 & S3 & C3 & Hn' & Hnx' & _ & _).
  destruct (add_array L Hlo t3 A2 S3 arg parg tmp ptmp n' Hn' (cl_tmp _ _ _ _ _ _ C3) (cl_tmp_apart _ _ _ _ _ _ C3) (cl_disjoint _ _ _ _ _ _ C3)) as [_ Hadd].
  destruct (Hadd ltac:(lia) i Hi) as (t4 & E4 & T4 & S4).
  { rewrite Hat2, decide_True by done. exact Hnx. }
  { intros j Hj. rewrite Hat2, decide_False by lia. by apply Hmin. }
  clear Hadd. set (A4 := Arr _ _ _) in S4.
  assert (nodes A4 !!! i = started n' <| n_next := slot i |>) as Hat4
    by (apply (list_lookup_total_insert_eq (nodes A2)); unfold A2; cbn [nodes]; rewrite length_insert; lia).
  destruct (while_diverges (fun a s => a = slot i /\ exists A', stored L s A' /\ n_next (nodes A' !!! i) = slot i /\ n_location (nodes A' !!! i) < 2000)
    tasklet_loop (slot i) t4) as (t5 & E5).
  - split; [done|]. exists A4. rewrite Hat4. split; [exact S4|]. split; [done|]. cbn. lia.
  - intros a s (-> & A' & HA' & Hnext & Hloc). destruct (tick_step L Hlo s A' i HA' Hi Hloc) as (s' & E & HS & _).
    rewrite Hnext in E. exists (slot i), s'. split; [exact E|]. split; [done|]. eexists. split; [exact HS|].
    destruct (tick_next (nodes A' !!! i)) as [K1 K2]. cbn [nodes].
    rewrite (list_lookup_total_insert_eq (nodes A')) by (rewrite (st_length _ _ _ HA'); lia). by rewrite K1, K2.
  - exists t4, t5. split.
    + rewrite <- ioctl_add in E2, E4. cbn [ask_all ask]. go E1. go E2. go E3. go E4. done.
    + unfold mp1_rtc_tasklet. go (ld_head L t4 A4 S4). exact E5.
Qed.

Lemma origin_cycle_witness : let F := demo_fish in
  exists t1 t2, ask_all 0xA000 0xA100 [Add 73 77 7 6 0; Add 65 66 9 9 60] demo_flat = (Ok [0; 0], t1) /\
    mp1_rtc_tasklet 0 t1 = (Stop Diverges, t2).
Proof.
  intros F. apply (origin_cycle demo_layout demo_flat [] (replicate 4000 0) 0xA000 0xA000 0xA100 0xA100 73 77 7 6 65 66 9 9 60).
  - exact demo_layout_ok.
  - exact demo_blinks.
  - exact demo_client.
  - cbn. lia.
  - unfold is_byte. lia.
  - unfold is_byte. lia.
  - unfold is_word. lia.
  - unfold is_word. lia.
  - unfold is_byte. lia.
  - unfold is_byte. lia.
  - unfold is_word. lia.
  - unfold is_word. lia.
  - lia.
Defined.
