(* ===== verification/UserMode.v ===== *)
(** User mode: a program runs on the machine, its loads and stores translated as
    user accesses and its system calls trapping into the kernel; and the kernel
    implements the interface of [Calls.v]. *)

From S2P Require Import Prelude Memory CLib Support Machine I8259 Rtc Pcb Rofs Paging Screen Keyboard TermIO Files Process Launch Halt Syscalls Terminal Handlers Calls.

(** The machine as a program finds it. *)
Record user := User { sup : machine }.

Section Mode.
Context `{Platform}.

#[export] Instance user_memory : Memory user := {
  loc u a := translate_user (pg (sup u)) a;
  cell u p := cell (sup u) p;
  upd u p v := User (upd (sup u) p v)
}.

(** [int $0x80]; while the kernel waits, interrupts are served. *)
#[export] Instance user_calls : SysCalls user := {
  trap eax ebx ecx edx := fun u =>
    let '(r, m) := int80 serve eax ebx ecx edx (sup u) in (r, User m)
}.

(** A program that runs to its end, in the kernel's terms. *)
Definition in_user {A} (main : M user A) : K A := fun m =>
  let '(r, u) := main (User m) in (r, sup u).
End Mode.

#[export] Instance user_memory_ok `{Platform} : MemoryOk user.
Proof.
  split.
  - intros t p. exact (cell_range (sup t) p).
  - done.
  - intros t p v. exact (cell_upd_eq (sup t) p v).
  - intros t p q v Hq. exact (cell_upd_ne (sup t) p q v Hq).
Qed.

(** * What the view stands for *)

Section View.
Context `{PlatformOk}.

(** A descriptor of the kernel. *)
Definition stream_is (img : image) (f : file_t) (s : stream) : Prop :=
  match s with
  | SClosed => is_open f = false
  | SKeys => is_open f = true /\ fileops f = stdin_ops
  | SDisplay => is_open f = true /\ fileops f = stdout_ops
  | SFile c p => is_open f = true /\ fileops f = file_ops /\ pos f = p /\ 0 <= p <= Z.of_nat (length c) /\
      exists j, inode f = Z.of_nat j /\ im_files img !! j = Some c
  | SDir i => is_open f = true /\ fileops f = dir_ops /\ pos f = Z.of_nat i /\ (i <= 63)%nat
  end.

(** Where things are: process [ps_pid], started in the state [ps_start], on a file
    system of [ps_size] bytes at [ps_pb]; the screen at [ps_video], the line
    buffer of terminal [ps_term]; the keys that will have been typed; and the bytes of
    its kernel stack that are still free, less what a trap and a call take. *)
Record place := Place {
  ps_pid : Z; ps_start : machine; ps_pb : Z; ps_size : Z; ps_img : image;
  ps_video : Z; ps_term : nat; ps_script : list Z; ps_later : list irq; ps_room : Z
}.

Record place_ok (s : place) : Prop := {
  po_pid : 0 <= ps_pid s < 6;
  po_room : 0 <= ps_room s;
  po_feeds : feeds (ps_script s);
  po_video_low : ps_video s + 4000 <= 0x800000;
  po_video_image : ps_video s + 4000 <= ps_pb s \/ ps_pb s + ps_size s <= ps_video s
}.

(** The block and the memory of process [n] are as they were. *)
Definition untouched (m m' : machine) (n : Z) : Prop :=
  pcb_of m' (get_pcb n) = pcb_of m (get_pcb n) /\
  forall q, window n <= q < window n + FOUR_MB_BLOCK -> cell m' q = cell m q.

(** The end of the kernel stack of process [n]: above its block, and what a call takes. *)
Definition stack_low (n : Z) : Z := get_pcb n + sizeof_pcb_t + call_frames.

Lemma stack_low_above n : get_pcb n + sizeof_pcb_t + 328 <= stack_low n.
Proof. unfold stack_low. pose proof frame_locals. pose proof frame_room. lia. Qed.

(** The program of the process runs, and its view is [v]; the other processes there are
    wait in [execute]. *)
Record runs (s : place) (m : machine) (v : view) : Prop := {
  ru_kernel : kernel_ok (ps_pb s) (ps_size s) (ps_img s) m;
  ru_window : in_window m (ps_pid s);
  ru_stack : stack_low (ps_pid s) + 64 + ps_room s <= esp0 (tss m) < get_pcb (ps_pid s) + 64 + EIGHT_KB_BLOCK;
  ru_since : ran (ps_start s) (entered m) (ps_pid s);
  ru_others n : 0 <= n < 6 -> n <> ps_pid s -> Z.testbit (processes_flags (ps_start s)) n = true -> untouched (ps_start s) m n;
  ru_args : args (pcb_of (ps_start s) (get_pcb (ps_pid s))) = v_args v ++ replicate (128 - length (v_args v)) 0;
  ru_words : (length (v_args v) < 128)%nat /\ Forall arg_char (v_args v);
  ru_home : v_home v = window (ps_pid s);
  ru_img : v_img v = ps_img s;
  ru_fds : Forall2 (stream_is (ps_img s)) (files (pcb_of m (get_pcb (ps_pid s)))) (v_fds v);
  ru_typed : typed_shown (ps_video s) (ps_term s) m (Typed (v_mods v) [] (v_con v) false);
  ru_keys : to_come (ps_script s) (concat ((fun scs => scs ++ [ENTER]) <$> v_typed v)) (ps_later s) (entered m);
  ru_codes : Forall (Forall (fun sc => 0 <= sc)) (v_typed v)
}.
End View.

(** * Steps that the view survives *)

Section Steps.
Context `{PlatformOk}.

Lemma counts_num ts ts' : counts_kept ts ts' -> process_count ts' = process_count ts /\
  (Forall (fun t => 0 <= num_processes t) ts -> Forall (fun t => 0 <= num_processes t) ts').
Proof.
  intros [Hl Hc]. assert (num_processes <$> ts' = num_processes <$> ts) as He.
  { apply list_eq. intros i. rewrite !list_lookup_fmap. destruct (ts !! i) as [t|] eqn:Et.
    - destruct (Hc i t Et) as (t' & -> & Hn & _). cbn. by rewrite Hn.
    - apply lookup_ge_None in Et. by rewrite (lookup_ge_None_2 ts') by lia. }
  split.
  - transitivity (foldr Z.add 0 (num_processes <$> ts')); [unfold process_count; by rewrite foldr_fmap|].
    rewrite He. unfold process_count. by rewrite foldr_fmap.
  - intros Hf. assert (Forall (fun x => 0 <= x) (num_processes <$> ts')) as Hf' by (rewrite He; by apply (Forall_fmap num_processes)).
    by apply (Forall_fmap num_processes) in Hf'.
Qed.

(** A change that leaves the paging, the image, the accounts and the other blocks. *)
Lemma kernel_ok_calm pb size img m m' :
  kernel_ok pb size img m -> pg m' = pg m -> fs m' = fs m -> term_cur m' = term_cur m ->
  processes_flags m' = processes_flags m -> counts_kept (terminal m) (terminal m') ->
  (forall q, pb <= q < pb + size -> cell m' q = cell m q) ->
  (forall a, 0 <= a < 6 -> pcb_ok (pcb_of m' (get_pcb a))) -> kernel_ok pb size img m'.
Proof.
  intros [Hok Hr Hap Hbl Hcur [A1 A2 A3 A4]] Hpg Hfs Htc Hfl Hcnt Hcell Hpcb.
  assert (forall a, loc m' a = loc m a) as Hloc by (intros a; cbn [loc machine_memory]; by rewrite Hpg).
  destruct (counts_num _ _ Hcnt) as [Hpc Hnn]. split.
  - unfold paging_ok. by rewrite Hpg.
  - by apply (represents_ext pb size img m).
  - intros a Ha. destruct (Hap a Ha) as [I1 I2]. split; [by rewrite Hfs|done].
  - intros a Ha. split; [rewrite Hloc; by apply Hbl|by apply Hpcb].
  - by rewrite Htc.
  - split; [by rewrite Hfl|by rewrite (proj1 Hcnt)|by apply Hnn|by rewrite Hpc, Hfl].
Qed.

(** What a system call of the process may do: the machine [m1] it ends in, and the
    descriptors it leaves. *)
Record step (s : place) (m m1 : machine) (fl : list file_t) : Prop := {
  st_pg : pg m1 = pg m;
  st_fs : fs m1 = fs m;
  st_tss : tss m1 = tss m;
  st_current : term_cur m1 = term_cur m;
  st_flags : processes_flags m1 = processes_flags m;
  st_terminals : counts_kept (terminal m) (terminal m1);
  st_cells q : ~ window (ps_pid s) <= q < window (ps_pid s) + FOUR_MB_BLOCK -> ~ ps_video s <= q < ps_video s + 4000 ->
    cell m1 q = cell m q;
  st_blocks a : pcb_of m1 a = if decide (a = get_pcb (ps_pid s)) then (pcb_of m a) <| files := fl |> else pcb_of m a
}.

Lemma typed_shown_ext pv k m m' s :
  pg m' = pg m -> (forall q, pv <= q < pv + 4000 -> cell m' q = cell m q) -> scr m' = scr m -> kbd m' = kbd m ->
  terminal m' = terminal m -> typed_shown pv k m s -> typed_shown pv k m' s.
Proof.
  intros Hpg Hc Hs Hk Ht [[S1 S2 S3 S4 S5] [L1 L2 L3 L4] [] He]. split; [split|split|split|]; rewrite ?Hs, ?Hk, ?Ht; try done.
  - apply (maps_loc m); [|done]. intros x. cbn [loc machine_memory]. by rewrite Hpg.
  - intros i Hi. rewrite S3 by done. f_equal. symmetry. apply Hc. lia.
Qed.

Lemma to_come_ext script scs later m m' :
  IF (cpu m') = true -> pending m' = pending m -> key_reads (io_log m') = key_reads (io_log m) ->
  to_come script scs later m -> to_come script scs later m'.
Proof. intros H1 H2 H3 [T1 T2 T3]. split; [done|by rewrite H2|by rewrite H3]. Qed.

Lemma entered_here s m : place_ok s ->
  stack_low (ps_pid s) + 64 + ps_room s <= esp0 (tss m) < get_pcb (ps_pid s) + 64 + EIGHT_KB_BLOCK ->
  current (entered m) = get_pcb (ps_pid s).
Proof.
  intros Hp Hs. pose proof (po_room _ Hp). pose proof (stack_low_above (ps_pid s)). unfold sizeof_pcb_t, MAX_ARGS_LENGTH in *.
  apply entered_current; [exact (po_pid _ Hp)|lia].
Qed.

(** The blocks and the windows of two processes are apart. *)
Lemma windows_apart a b q : a <> b -> window a <= q < window a + FOUR_MB_BLOCK -> ~ window b <= q < window b + FOUR_MB_BLOCK.
Proof. unfold window, FOUR_MB_BLOCK, PHYSICAL_START. lia. Qed.

Lemma untouched_trans m1 m2 m3 n : untouched m1 m2 n -> untouched m2 m3 n -> untouched m1 m3 n.
Proof. intros [B1 C1] [B2 C2]. split; [congruence|]. intros q Hq. by rewrite C2, C1. Qed.

(** A call leaves the other processes, and the image. *)
Lemma step_untouched s m m1 fl n : place_ok s -> step s m m1 fl -> 0 <= n < 6 -> n <> ps_pid s -> untouched m m1 n.
Proof.
  intros Hp Hst Hn Hne. split.
  - rewrite (st_blocks _ _ _ _ Hst), decide_False; [done|]. intros He. apply Hne. by apply get_pcb_inj; [|apply Hp|].
  - intros q Hq. apply (st_cells _ _ _ _ Hst); [by apply (windows_apart n)|]. pose proof (po_video_low _ Hp).
    unfold window, PHYSICAL_START, FOUR_MB_BLOCK in Hq. lia.
Qed.

Lemma step_image s m m1 fl : place_ok s -> kernel_ok (ps_pb s) (ps_size s) (ps_img s) m -> step s m m1 fl ->
  forall q, ps_pb s <= q < ps_pb s + ps_size s -> cell m1 q = cell m q.
Proof.
  intros Hp Hk Hst q Hq. destruct (ko_apart _ _ _ _ Hk (ps_pid s) (po_pid _ Hp)) as [_ Hap]. pose proof (po_video_image _ Hp).
  apply (st_cells _ _ _ _ Hst); unfold FOUR_MB_BLOCK in *; lia.
Qed.

(** The program goes on after the call, with the view [v']. *)
Lemma runs_step s m m1 fl v v' :
  place_ok s -> runs s m v -> step s m m1 fl ->
  v_home v' = v_home v -> v_args v' = v_args v -> v_img v' = v_img v ->
  table_ok fl -> Forall2 (stream_is (ps_img s)) fl (v_fds v') ->
  typed_shown (ps_video s) (ps_term s) m1 (Typed (v_mods v') [] (v_con v') false) ->
  to_come (ps_script s) (concat ((fun scs => scs ++ [ENTER]) <$> v_typed v')) (ps_later s) (entered m1) ->
  Forall (Forall (fun sc => 0 <= sc)) (v_typed v') -> runs s (left m m1) v'.
Proof.
  intros Hp [Rk Rw Rs [G1 G2 G3 G4 G5 [G6 G6'] (B1 & B2 & B3 & B4 & B5 & B6)] Ro Ra Rws Rh Ri Rf Rt Rq Rc]
    Hst Hh Ha Hi Htab Hf Ht Hq Hc. pose proof (step_image s m m1 fl Hp Rk Hst) as Sim.
  assert (forall n, 0 <= n < 6 -> n <> ps_pid s -> untouched m (left m m1) n) as Hun
    by (intros n Hn Hne; exact (step_untouched s m m1 fl n Hp Hst Hn Hne)).
  destruct Hst as [Spg Sfs Stss Scur Sfl Sct _ Sbl].
  assert (forall a, pcb_of (left m m1) a = pcb_of m1 a) as Hpl by done.
  assert (pcb_of m1 (get_pcb (ps_pid s)) = (pcb_of m (get_pcb (ps_pid s))) <| files := fl |>) as Hb by (by rewrite Sbl, decide_True).
  assert (forall a, pcb_of (entered m) a = pcb_of m a) as Hpe by done. rewrite Hpe in *.
  assert (forall a, pcb_of (entered (left m m1)) a = pcb_of m1 a) as Hpe1 by done.
  split.
  - apply (kernel_ok_calm _ _ _ m); try done. intros a Ha6. rewrite Hpl, Sbl.
    destruct (ko_blocks _ _ _ _ Rk a Ha6) as [_ [K1 K2]]. destruct (decide _); [|by split].
    split; [exact (tb_length _ Htab)|exact K2].
  - unfold in_window. change (pg (left m m1)) with (pg m1). by rewrite Spg.
  - change (tss (left m m1)) with (tss m1). by rewrite Stss.
  - split.
    + apply entered_here; [done|]. change (tss (left m m1)) with (tss m1). by rewrite Stss.
    + cbn [loc machine_memory] in G2 |- *. change (pg (entered (left m m1))) with (pg m1). rewrite Spg. exact G2.
    + unfold paging_ok. change (pg (entered (left m m1))) with (pg m1). rewrite Spg. exact G3.
    + change (processes_flags (entered (left m m1))) with (processes_flags m1). rewrite Sfl. exact G4.
    + change (term_cur (entered (left m m1))) with (term_cur m1). rewrite Scur. exact G5.
    + apply (counts_kept_trans _ (terminal m)); [by split|exact Sct].
    + cbv zeta. rewrite Hpe1, Hb. by split_and!.
  - intros n Hn Hne Hbit. eapply untouched_trans; [by apply Ro|by apply Hun].
  - by rewrite Ha.
  - by rewrite Ha.
  - by rewrite Hh.
  - by rewrite Hi.
  - by rewrite Hpl, Hb.
  - revert Ht. by apply typed_shown_ext.
  - revert Hq. by apply to_come_ext.
  - done.
Qed.
End Steps.

(** * The kernel keeps its promises *)

Section Laws.
Context `{PlatformOk} (s : place) (Hp : place_ok s).
Implicit Types (m : machine) (v : view).

Lemma trap_run m m1 eax ebx ecx edx r :
  1 <= eax <= 10 -> syscalls serve eax ebx ecx edx (entered m) = (Ok r, m1) ->
  trap eax ebx ecx edx (User m) = (Ok r, User (left m m1)).
Proof. intros He E. cbn [trap user_calls sup]. rewrite int80_call by done. by rewrite E. Qed.

Lemma left_entered m : left m (entered m) = m.
Proof. by destruct m as [? ? ? [] ? ? ? ? ? ? ? ? ? ? ? ? ? ? ? ?]. Qed.

(** Where the memory of the process lies. *)
Lemma home_apart m v q :
  runs s m v -> v_home v <= q < v_home v + FOUR_MB_BLOCK ->
  ps_video s + 4000 <= q /\ ~ ps_pb s <= q < ps_pb s + ps_size s.
Proof.
  intros Hr Hq. pose proof (po_pid _ Hp). pose proof (po_video_low _ Hp).
  destruct (ko_apart _ _ _ _ (ru_kernel _ _ _ Hr) (ps_pid s) (po_pid _ Hp)) as [_ Hap].
  rewrite (ru_home _ _ _ Hr) in Hq. unfold window, PHYSICAL_START, FOUR_MB_BLOCK in *. lia.
Qed.

Lemma home_walk m v a :
  runs s m v -> VIRTUAL_START <= a < VIRTUAL_END -> walk (tabs (pg m)) a = Some (at_ (v_home v) a, true).
Proof.
  intros Hr Ha. rewrite (window_entry _ (ps_pid s) a (ru_window _ _ _ Hr)) by (first [exact (po_pid _ Hp)|exact Ha]).
  unfold at_. by rewrite (ru_home _ _ _ Hr).
Qed.

(** A buffer of the program, for the kernel. *)
Lemma kernel_maps m v a n : runs s m v -> inside a n -> maps m a (at_ (v_home v) a) n.
Proof.
  intros Hr (Ha & Hn & He) i Hi. rewrite u32_small by (unfold VIRTUAL_START, VIRTUAL_END in *; lia).
  cbn [loc machine_memory]. rewrite translate_ok by apply (ru_kernel _ _ _ Hr).
  rewrite (home_walk m v) by (done || lia). cbn. unfold at_. f_equal. lia.
Qed.

Lemma entered_maps m v a n : runs s m v -> inside a n -> maps (entered m) a (at_ (v_home v) a) n.
Proof. intros Hr Hi. exact (kernel_maps m v a n Hr Hi). Qed.

Lemma runs_current m v : runs s m v -> current (entered m) = get_pcb (ps_pid s).
Proof. intros Hr. apply (entered_here s); [done|apply (ru_stack _ _ _ Hr)]. Qed.

Lemma runs_fds m v : runs s m v -> fds (entered m) = files (pcb_of m (get_pcb (ps_pid s))).
Proof. intros Hr. unfold fds. by rewrite (runs_current m v). Qed.

Lemma runs_table m v : runs s m v -> table_ok (fds (entered m)).
Proof.
  intros Hr. rewrite (runs_fds m v Hr). destruct (rn_block _ _ _ (ru_since _ _ _ Hr)) as (_ & _ & _ & _ & _ & Ht). exact Ht.
Qed.

Lemma runs_has_files m v : runs s m v -> has_files (entered m).
Proof.
  intros Hr. apply table_has_files; [|by eapply runs_table].
  rewrite (runs_current m v Hr). exact (rn_mapped _ _ _ (ru_since _ _ _ Hr)).
Qed.

Lemma runs_stream m v fd st :
  runs s m v -> 0 <= fd -> v_fds v !! Z.to_nat fd = Some st ->
  fd < 8 /\ exists f, fds (entered m) !! Z.to_nat fd = Some f /\ stream_is (ps_img s) f st.
Proof.
  intros Hr Hfd Hl. pose proof (ru_fds _ _ _ Hr) as Hf. rewrite <- (runs_fds m v Hr) in Hf.
  destruct (Forall2_lookup_r _ _ _ _ _ Hf Hl) as (f & Hlf & Hs). split; [|by exists f].
  apply lookup_lt_Some in Hlf. rewrite (tb_length _ (runs_table m v Hr)) in Hlf. lia.
Qed.

Lemma runs_descriptor m v fd f : runs s m v -> 0 <= fd < 8 -> fds (entered m) !! Z.to_nat fd = Some f -> descriptor (entered m) fd f.
Proof. intros Hr Hfd Hl. split; [exact Hfd|]. destruct (runs_has_files m v Hr) as [Hm _]. by split. Qed.

(** Calls on an open descriptor go to the operation that it holds. *)
Lemma read_dispatch m v fd f buf n :
  runs s m v -> 0 <= fd < 8 -> fds (entered m) !! Z.to_nat fd = Some f -> is_open f = true -> buf <> 0 ->
  read serve fd buf n (entered m) = call_read serve (op_read (fileops f)) fd buf n (entered m).
Proof.
  intros Hr Hfd Hl Ho Hb. pose proof (runs_has_files m v Hr) as Hm. unfold read, MAX_FILES. zb.
  go get_current_pcb_run.
  go (fd_read (entered m) fd f) by (done || lia). rewrite Ho. cbn [negb]. go (fd_read (entered m) fd f) by (done || lia). done.
Qed.

Lemma write_dispatch m v fd f buf n :
  runs s m v -> 0 <= fd < 8 -> fds (entered m) !! Z.to_nat fd = Some f -> is_open f = true -> buf <> 0 ->
  write fd buf n (entered m) = call_write (op_write (fileops f)) fd buf n (entered m).
Proof.
  intros Hr Hfd Hl Ho Hb. pose proof (runs_has_files m v Hr) as Hm. unfold write, MAX_FILES. zb.
  go get_current_pcb_run.
  go (fd_read (entered m) fd f) by (done || lia). rewrite Ho. cbn [negb]. go (fd_read (entered m) fd f) by (done || lia). done.
Qed.

(** The blocks when nothing, or a descriptor, has changed. *)
Lemma same_files (p : pcb_t) : p <| files := files p |> = p.
Proof. by destruct p. Qed.

Lemma blocks_same m m1 v : runs s m v -> pcbs m1 = pcbs m ->
  forall a, pcb_of m1 a = if decide (a = get_pcb (ps_pid s)) then (pcb_of m a) <| files := fds (entered m) |> else pcb_of m a.
Proof.
  intros Hr Hpc a. unfold pcb_of at 1. rewrite Hpc. destruct (decide _) as [->|]; [|done].
  rewrite (runs_fds m v Hr). by rewrite same_files.
Qed.

Lemma blocks_put m m1 v i f : runs s m v ->
  pcbs m1 = <[current (entered m) := (pcb_of (entered m) (current (entered m))) <| files := <[i := f]> (fds (entered m)) |>]> (pcbs m) ->
  forall a, pcb_of m1 a = if decide (a = get_pcb (ps_pid s)) then (pcb_of m a) <| files := <[i := f]> (fds (entered m)) |> else pcb_of m a.
Proof.
  intros Hr Hpc a. unfold pcb_of at 1. rewrite Hpc, (runs_current m v Hr). destruct (decide _) as [->|Hne].
  - by rewrite lookup_insert_eq.
  - by rewrite lookup_insert_ne by congruence.
Qed.

(** What is on the screen, and what is being typed. *)
Lemma runs_shows m v : runs s m v -> shows (ps_video s) (entered m) (v_con v).
Proof. intros Hr. destruct (ts_shows _ _ _ _ (ru_typed _ _ _ Hr)) as [S1 S2 S3 S4 S5]. by split. Qed.

(** Calls that leave the keyboard alone. *)
Lemma runs_calm m v m1 fl v' :
  runs s m v -> step s m m1 fl ->
  v_home v' = v_home v -> v_args v' = v_args v -> v_img v' = v_img v -> v_mods v' = v_mods v -> v_typed v' = v_typed v ->
  table_ok fl -> Forall2 (stream_is (ps_img s)) fl (v_fds v') -> shows (ps_video s) m1 (v_con v') ->
  kbd m1 = kbd m -> terminal m1 = terminal m -> pending m1 = pending m -> key_reads (io_log m1) = key_reads (io_log m) ->
  runs s (left m m1) v'.
Proof.
  intros Hr Hst Hh Ha Hi Hm Hty Htab Hf Hsh Hk Ht Hpe Hl. eapply (runs_step s m m1 fl v v'); try done.
  - rewrite Hm. destruct (ru_typed _ _ _ Hr) as [_ [L1 L2 L3 L4] [] He].
    split; [done|split|split|]; rewrite ?Hk, ?Ht; done.
  - rewrite Hty. apply (to_come_ext _ _ _ (entered m)); try done. exact (ru_keys _ _ _ Hr).
  - rewrite Hty. exact (ru_codes _ _ _ Hr).
Qed.

Lemma screen_step m v m1 :
  runs s m v -> screen_only (ps_video s) (entered m) m1 -> step s m m1 (fds (entered m)).
Proof.
  intros Hr [Hf Hc _]. pose proof (po_video_image _ Hp) as Hv. split; try (rewrite Hf; done).
  - rewrite Hf. apply counts_kept_refl.
  - intros q _ Hq. rewrite Hc by (intros (i & Hi & ->); lia). done.
  - apply (blocks_same m m1 v Hr). by rewrite Hf.
Qed.

Lemma mem_same m v m1 a n : runs s m v ->
  (forall q, v_home v <= q < v_home v + FOUR_MB_BLOCK -> ~ at_ (v_home v) a <= q < at_ (v_home v) a + n -> cell m1 q = cell m q) ->
  same_but (v_home v) a n (User m) (User (left m m1)).
Proof. intros _ Hc q Hq Hn. exact (Hc q Hq Hn). Qed.

Lemma law_display m v fd a n :
  runs s m v -> 0 <= fd -> v_fds v !! Z.to_nat fd = Some SDisplay -> inside a n ->
  let l := cprefix (Z.to_nat n) (cells m (at_ (v_home v) a) (Z.to_nat n)) in
  exists m1, ece391_write fd a n (User m) = (Ok (Z.of_nat (length l)), User (left m m1)) /\
    runs s (left m m1) (v <| v_con ::= con_puts l |>) /\ same_but (v_home v) a 0 (User m) (User (left m m1)).
Proof.
  intros Hr Hfd Hl Hi l. destruct (runs_stream m v fd _ Hr Hfd Hl) as (Hfd8 & f & Hlf & Ho & Hops).
  pose proof Hi as (Ha & Hn & He). unfold VIRTUAL_START, VIRTUAL_END in Ha, He.
  pose proof (entered_maps m v a n Hr Hi) as Hm.
  assert (Hap : forall q, at_ (v_home v) a <= q < at_ (v_home v) a + n -> v_home v <= q < v_home v + FOUR_MB_BLOCK)
    by (unfold at_, VIRTUAL_START, FOUR_MB_BLOCK; lia).
  assert (Z.of_nat (Z.to_nat n) = n) as Hnn by lia.
  destruct (terminal_write_ok (ps_video s) (entered m) (v_con v) fd a (at_ (v_home v) a) (Z.to_nat n)) as (m1 & E & Hsh & Hso);
    [by apply runs_shows|by rewrite Hnn|lia| |].
  { rewrite Hnn. destruct (decide (n = 0)) as [->|]; [|right; apply (home_apart m v (at_ (v_home v) a) Hr); apply Hap; lia].
    pose proof (po_video_low _ Hp). right. rewrite (ru_home _ _ _ Hr). pose proof (po_pid _ Hp).
    unfold at_, window, PHYSICAL_START, FOUR_MB_BLOCK, VIRTUAL_START. lia. }
  rewrite Hnn in E. exists m1. split; [|split].
  - unfold ece391_write, DO_CALL, SYS_WRITE. apply trap_run; [lia|]. cbn [syscalls Z.eqb Pos.eqb].
    rewrite !i32_small, u32_small by lia. rewrite (write_dispatch m v fd f a n) by (done || lia). rewrite Hops. exact E.
  - destruct Hso as [Hf Hc Hlog] eqn:Eso. clear Eso. apply (runs_calm m v m1 (fds (entered m))); try done.
    + by apply (screen_step m v).
    + by eapply runs_table.
    + rewrite (runs_fds m v Hr). exact (ru_fds _ _ _ Hr).
    + by rewrite Hf.
    + by rewrite Hf.
    + by rewrite Hf.
    + by apply (key_reads_out (io_log (entered m))).
  - apply (mem_same m v m1 a 0 Hr). intros q Hq _. rewrite (so_cells _ _ _ Hso); [done|].
    intros (i & Hi2 & ->). pose proof (home_apart m v _ Hr Hq). lia.
Qed.

Lemma getargs_trap m v a n :
  runs s m v -> inside a n ->
  getargs a n (entered m) =
  if decide (v_args v = []) then (Ok (-1), entered m)
  else (Ok 0, upds (entered m) (at_ (v_home v) a)
    (take (Z.to_nat (Z.min n 128)) (v_args v ++ replicate (128 - length (v_args v)) 0))).
Proof.
  intros Hr Hi. pose proof Hi as (Ha & Hn & He). unfold VIRTUAL_START, VIRTUAL_END in Ha, He.
  destruct (ru_words _ _ _ Hr) as [Hl Hc]. destruct (runs_has_files m v Hr) as [Hmap _].
  apply (getargs_ok (entered m) (v_args v) a (at_ (v_home v) a) (Z.to_nat (Z.min n 128)) n); try done; try lia.
  - destruct (rn_block _ _ _ (ru_since _ _ _ Hr)) as (_ & _ & _ & _ & Hargs & _).
    rewrite (runs_current m v Hr), Hargs. exact (ru_args _ _ _ Hr).
  - eapply maps_mono; [by apply entered_maps|lia].
Qed.

Lemma law_getargs_none m v a n :
  runs s m v -> v_args v = [] -> inside a n -> ece391_getargs a n (User m) = (Ok (-1), User m).
Proof.
  intros Hr Hw Hi. pose proof Hi as (Ha & Hn & He). unfold VIRTUAL_START, VIRTUAL_END in Ha, He.
  unfold ece391_getargs, DO_CALL, SYS_GETARGS. rewrite (trap_run m (entered m) 7 a n 0 (-1)); [|lia|].
  - by rewrite left_entered.
  - cbn [syscalls Z.eqb Pos.eqb]. rewrite i32_small, u32_small by lia. rewrite (getargs_trap m v a n Hr Hi). by rewrite decide_True.
Qed.

(** Bytes stored in the memory of the program. *)
Lemma stored_step m v p l :
  runs s m v -> v_home v <= p -> p + Z.of_nat (length l) <= v_home v + FOUR_MB_BLOCK ->
  step s m (upds (entered m) p l) (fds (entered m)).
Proof.
  intros Hr Hp1 Hp2. pose proof (upds_phys (entered m) p l) as E. split; try (rewrite E; done).
  - rewrite E. apply counts_kept_refl.
  - intros q Hq _. rewrite cell_upds_out; [done|]. rewrite (ru_home _ _ _ Hr) in *. lia.
  - apply (blocks_same m _ v Hr). by rewrite E.
Qed.

Lemma shows_stored m m1 v p l c :
  runs s m v -> v_home v <= p -> p + Z.of_nat (length l) <= v_home v + FOUR_MB_BLOCK ->
  shows (ps_video s) m1 c -> shows (ps_video s) (upds m1 p l) c.
Proof.
  intros Hr Hp1 Hp2 [S1 S2 S3 S4 S5]. pose proof (upds_phys m1 p l) as E.
  split; [by apply maps_upds|done| |by rewrite E|by rewrite E].
  intros i Hi. rewrite S3 by done. f_equal. symmetry. apply cell_upds_out.
  pose proof (po_video_low _ Hp). pose proof (po_pid _ Hp). left.
  rewrite (ru_home _ _ _ Hr) in Hp1. unfold window, PHYSICAL_START, FOUR_MB_BLOCK in Hp1. lia.
Qed.

Lemma law_getargs_some m v a n :
  runs s m v -> v_args v <> [] -> inside a n ->
  let k := Z.to_nat (Z.min n 128) in
  exists m1, ece391_getargs a n (User m) = (Ok 0, User (left m m1)) /\ runs s (left m m1) v /\
    holds (User (left m m1)) (at_ (v_home v) a) (take k (v_args v ++ replicate (128 - length (v_args v)) 0)) /\
    same_but (v_home v) a (Z.of_nat k) (User m) (User (left m m1)).
Proof.
  intros Hr Hw Hi k. pose proof Hi as (Ha & Hn & He). unfold VIRTUAL_START, VIRTUAL_END in Ha, He.
  pose proof (getargs_trap m v a n Hr Hi) as E. rewrite decide_False in E by done. fold k in E.
  destruct (ru_words _ _ _ Hr) as [Hwl Hwc].
  set (l := take k (v_args v ++ replicate (128 - length (v_args v)) 0)) in *.
  assert (length l = k) as Hl by (unfold l, k; rewrite length_take, length_app, length_replicate; lia).
  assert (v_home v <= at_ (v_home v) a /\ at_ (v_home v) a + Z.of_nat (length l) <= v_home v + FOUR_MB_BLOCK) as [Hb1 Hb2]
    by (rewrite Hl; unfold at_, VIRTUAL_START, FOUR_MB_BLOCK, k; lia).
  pose proof (upds_phys (entered m) (at_ (v_home v) a) l) as Eu.
  exists (upds (entered m) (at_ (v_home v) a) l). split; [|split; [|split]].
  - unfold ece391_getargs, DO_CALL, SYS_GETARGS. apply trap_run; [lia|].
    cbn [syscalls Z.eqb Pos.eqb]. rewrite i32_small, u32_small by lia. exact E.
  - apply (runs_calm m v _ (fds (entered m))); try done; try (rewrite Eu; done).
    + by apply (stored_step m v).
    + by eapply runs_table.
    + rewrite (runs_fds m v Hr). exact (ru_fds _ _ _ Hr).
    + apply (shows_stored m _ v); try done. by apply runs_shows.
  - assert (cells (upds (entered m) (at_ (v_home v) a) l) (at_ (v_home v) a) (length l) = l) as Hc.
    { apply cells_stored; [|done]. unfold l. apply Forall_take, Forall_app. split; [by apply arg_bytes|].
      apply Forall_replicate. unfold is_byte. lia. }
    exact Hc.
  - apply (mem_same m v _ a (Z.of_nat k) Hr). intros q Hq Hno. rewrite <- Hl in Hno. rewrite cell_upds_out by lia. done.
Qed.

(** The descriptors of the kernel and those of the view are free alike. *)
Lemma stream_closed img f st : stream_is img f st -> is_open f = false <-> st = SClosed.
Proof. destruct st; cbn; intros Hs; split; intros E; try done; destruct Hs as [Ho _]; congruence. Qed.

Lemma find_free img fl sl : Forall2 (stream_is img) fl sl ->
  fst <$> list_find (fun f => is_open f = false) fl = fst <$> list_find (fun st => st = SClosed) sl.
Proof.
  induction 1 as [|f st fl sl Hs Hf IH]; [done|]. cbn. pose proof (stream_closed img f st Hs) as Hc.
  destruct (decide (is_open f = false)), (decide (st = SClosed)); try tauto.
  destruct (list_find _ fl) as [[i x]|], (list_find _ sl) as [[j y]|]; cbn in IH |- *; congruence.
Qed.

Lemma free_alike m v : runs s m v -> free_fd (fds (entered m)) = free_stream (v_fds v).
Proof.
  intros Hr. rewrite (runs_fds m v Hr). unfold free_fd, free_stream.
  pose proof (find_free _ _ _ (Forall2_drop _ _ _ 2 (ru_fds _ _ _ Hr))) as He.
  destruct (list_find _ (drop 2 (files _))) as [[i x]|], (list_find _ (drop 2 (v_fds v))) as [[j y]|]; cbn in He |- *; congruence.
Qed.

(** A name in the memory of the program. *)
Lemma name_given m v a l :
  runs s m v -> inside a (Z.of_nat (length l)) -> holds (User m) (at_ (v_home v) a) l -> 0 ∈ l ->
  names (entered m) (Raw a) l /\ is_null (Raw a) = false /\ u32 a = a.
Proof.
  intros Hr Hi Hh Hz. pose proof Hi as (Ha & Hn & He). unfold VIRTUAL_START, VIRTUAL_END in Ha, He.
  assert (cells (entered m) (at_ (v_home v) a) (length l) = l) as Hc by exact Hh.
  split; [split|split].
  - rewrite <- Hc. apply reads_maps. by apply entered_maps.
  - apply List.Forall_forall. intros b Hb. rewrite <- Hc in Hb. apply list_elem_of_In, cells_range in Hb. exact Hb.
  - by right.
  - cbn [is_null]. apply Z.eqb_neq. lia.
  - apply u32_small. lia.
Qed.

Lemma law_open_refuses m v a l :
  runs s m v -> inside a (Z.of_nat (length l)) -> holds (User m) (at_ (v_home v) a) l -> 0 ∈ l ->
  find_dentry (v_img v) l = None \/ free_stream (v_fds v) = None -> ece391_open a (User m) = (Ok (-1), User m).
Proof.
  intros Hr Hi Hh Hz Hno. destruct (name_given m v a l Hr Hi Hh Hz) as (Hn & Hnull & Ha).
  unfold ece391_open, DO_CALL, SYS_OPEN. rewrite (trap_run m (entered m) 5 a 0 0 (-1)); [by rewrite left_entered|lia|].
  cbn [syscalls Z.eqb Pos.eqb]. rewrite Ha. rewrite (ru_img _ _ _ Hr) in Hno.
  apply (open_refused (ps_pb s) (ps_size s) (ps_img s) (entered m) (Raw a) l); try done.
  - exact (represents_ext _ _ _ m (entered m) (fun _ => eq_refl) eq_refl (fun _ _ => eq_refl) (ko_image _ _ _ _ (ru_kernel _ _ _ Hr))).
  - by eapply runs_has_files.
  - by rewrite (free_alike m v Hr).
Qed.

(** The descriptor that [open] makes. *)
Lemma opened_kind m v d st fl0 :
  runs s m v -> find_dentry (v_img v) fl0 = Some d -> opened (v_img v) d = Some st ->
  exists ops, ops_of_type (d_type d) = Some ops /\ d_type d <> rtc /\ driver_ops ops /\
    forall x, Z.testbit x 0 = true -> stream_is (ps_img s) (File (i32 (d_inode d)) x 0 ops) st.
Proof.
  intros Hr Hd Ho. pose proof (ko_image _ _ _ _ (ru_kernel _ _ _ Hr)) as Hrep. rewrite (ru_img _ _ _ Hr) in *.
  unfold opened in Ho. unfold ops_of_type. destruct (Z.eqb_spec (d_type d) dir) as [Hdir|Hdir].
  - injection Ho as <-. rewrite Hdir. exists dir_ops. split; [done|]. split; [done|]. split; [by right; left|].
    intros x Hx. cbn [stream_is]. rewrite flag_bit. split; [exact Hx|]. split; [done|]. split; [done|lia].
  - destruct (Z.eqb_spec (d_type d) file) as [Hfile|]; [|done]. apply fmap_Some in Ho as (c & Hc & ->).
    rewrite Hfile. exists file_ops. split; [done|]. split; [done|]. split; [by right; right|].
    intros x Hx. cbn [stream_is]. rewrite flag_bit. split; [exact Hx|]. split; [done|]. split; [done|]. split; [lia|].
    exists (Z.to_nat (d_inode d)). split; [|done]. cbn [inode].
    assert (0 <= d_inode d) as Hnn.
    { unfold find_dentry in Hd. apply fmap_Some in Hd as ([i d'] & (Hi & _ & _)%list_find_Some & ->). cbn [snd] in *.
      destruct (rep_dentry _ _ _ _ Hrep i d' Hi) as (_ & _ & <-). apply cell32_range. }
    pose proof (lookup_lt_Some _ _ _ Hc) as Hlt. pose proof (rep_size _ _ _ _ Hrep). pose proof (rep_addr _ _ _ _ Hrep).
    rewrite i32_small by lia. lia.
Qed.

(** A descriptor is set, and memory of the program too. *)
Lemma runs_put m v m1 i f st :
  runs s m v -> step s m m1 (<[i := f]> (fds (entered m))) -> (2 <= i)%nat -> stream_is (ps_img s) f st ->
  (is_open f = true -> driver_ops (fileops f)) -> shows (ps_video s) m1 (v_con v) ->
  kbd m1 = kbd m -> terminal m1 = terminal m -> pending m1 = pending m -> io_log m1 = io_log m ->
  runs s (left m m1) (v <| v_fds ::= <[i := st]> |>).
Proof.
  intros Hr Hst Hi Hs Hd Hsh Hk Ht Hpe Hl. apply (runs_calm m v m1 (<[i := f]> (fds (entered m)))); try done.
  - apply table_ok_insert; [by eapply runs_table|done|done].
  - apply Forall2_insert; [|done]. rewrite (runs_fds m v Hr). exact (ru_fds _ _ _ Hr).
  - by rewrite Hl.
Qed.

Lemma put_step m v i f : runs s m v -> step s m (put_fd (entered m) i f) (<[i := f]> (fds (entered m))).
Proof.
  intros Hr. split; try done; [apply counts_kept_refl|]. by apply (blocks_put m _ v).
Qed.

Lemma law_open_opens m v a l d st i :
  runs s m v -> inside a (Z.of_nat (length l)) -> holds (User m) (at_ (v_home v) a) l -> 0 ∈ l ->
  find_dentry (v_img v) l = Some d -> opened (v_img v) d = Some st -> free_stream (v_fds v) = Some i ->
  exists m1, ece391_open a (User m) = (Ok (Z.of_nat i), User (left m m1)) /\
    runs s (left m m1) (v <| v_fds ::= <[i := st]> |>) /\ same_but (v_home v) a 0 (User m) (User (left m m1)).
Proof.
  intros Hr Hi Hh Hz Hd Ho Hfree. destruct (name_given m v a l Hr Hi Hh Hz) as (Hn & Hnull & Ha).
  destruct (opened_kind m v d st l Hr Hd Ho) as (ops & Hops & Hnr & Hdr & Hst).
  rewrite (ru_img _ _ _ Hr) in Hd. rewrite <- (free_alike m v Hr) in Hfree.
  destruct (open_ok (ps_pb s) (ps_size s) (ps_img s) (entered m) (Raw a) l d i ops) as (f & m1 & Hf & Hcl & Hi8 & [_ Hsame] & E); try done.
  { exact (represents_ext _ _ _ m (entered m) (fun _ => eq_refl) eq_refl (fun _ _ => eq_refl) (ko_image _ _ _ _ (ru_kernel _ _ _ Hr))). }
  { by eapply runs_has_files. }
  rewrite (Hsame Hnr) in E. set (g := File (i32 (d_inode d)) (Z.lor (flags f) FILE_OPEN) 0 ops) in *.
  assert (Z.testbit (Z.lor (flags f) FILE_OPEN) 0 = true) as Hbit by (rewrite Z.lor_spec; apply orb_true_r).
  exists (put_fd (entered m) i g). split; [|split].
  - unfold ece391_open, DO_CALL, SYS_OPEN. apply trap_run; [lia|]. cbn [syscalls Z.eqb Pos.eqb]. by rewrite Ha.
  - apply (runs_put m v _ i g st); try done; [by apply (put_step m v)|lia|by apply Hst|].
    destruct (runs_shows m v Hr) as [S1 S2 S3 S4 S5]. by split.
  - by apply (mem_same m v).
Qed.

Lemma law_close m v fd st :
  runs s m v -> 2 <= fd -> v_fds v !! Z.to_nat fd = Some st ->
  (match st with SFile _ _ | SDir _ => True | _ => False end) ->
  exists m1, ece391_close fd (User m) = (Ok 0, User (left m m1)) /\
    runs s (left m m1) (v <| v_fds ::= <[Z.to_nat fd := SClosed]> |>) /\ same_but (v_home v) VIRTUAL_START 0 (User m) (User (left m m1)).
Proof.
  intros Hr Hfd Hl Hk. destruct (runs_stream m v fd _ Hr ltac:(lia) Hl) as (Hfd8 & f & Hlf & Hs).
  assert (is_open f = true /\ closes (op_close (fileops f)) = true /\ op_close (fileops f) <> f_rtc_close) as (Ho & Hcl & Hnr).
  { destruct st; try done; destruct Hs as (Ho & -> & _); done. }
  destruct (close_ok (entered m) fd f (runs_has_files m v Hr) ltac:(lia) Hlf Ho Hcl) as (m1 & [_ Hsame] & E). rewrite (Hsame Hnr) in E.
  set (g := f <| flags ::= fun x => Z.land x (Z.lnot FILE_OPEN) |>) in *.
  exists (put_fd (entered m) (Z.to_nat fd) g). split; [|split].
  - unfold ece391_close, DO_CALL, SYS_CLOSE. apply trap_run; [lia|]. cbn [syscalls Z.eqb Pos.eqb]. by rewrite i32_small by lia.
  - apply (runs_put m v _ (Z.to_nat fd) g SClosed); try done; [by apply (put_step m v)|lia|exact (flag_closed f)| |].
    + intros Ht. unfold g in Ht. rewrite flag_closed in Ht. done.
    + destruct (runs_shows m v Hr) as [S1 S2 S3 S4 S5]. by split.
  - by apply (mem_same m v).
Qed.

(** Files and directories are on descriptors from 2 up. *)
Lemma driver_fd m v fd f :
  runs s m v -> 0 <= fd -> fds (entered m) !! Z.to_nat fd = Some f -> fileops f = file_ops \/ fileops f = dir_ops ->
  (2 <= Z.to_nat fd)%nat.
Proof.
  intros Hr Hfd Hf Hops. destruct (runs_table m v Hr) as [_ (f0 & H0' & _ & E0) (f1 & H1' & _ & E1) _].
  destruct (Z.to_nat fd) as [|[|j]]; [| |lia].
  - assert (f = f0) as -> by congruence. rewrite E0 in Hops. destruct Hops; discriminate.
  - assert (f = f1) as -> by congruence. rewrite E1 in Hops. destruct Hops; discriminate.
Qed.

(** A read of a file or a directory: the buffer and the position change. *)
Lemma read_law m v fd f st a n (k : nat) r m1 l :
  runs s m v -> 0 <= fd < 8 -> (2 <= Z.to_nat fd)%nat -> inside a n -> Z.of_nat k <= n ->
  read serve fd a n (entered m) = (Ok r, m1) -> read_effect (entered m) m1 fd f ->
  cells m1 (at_ (v_home v) a) k = l -> length l = k ->
  (forall q, ~ at_ (v_home v) a <= q < at_ (v_home v) a + Z.of_nat k -> cell m1 q = cell m q) ->
  stream_is (ps_img s) f st -> driver_ops (fileops f) ->
  ece391_read fd a n (User m) = (Ok r, User (left m m1)) /\
  runs s (left m m1) (v <| v_fds ::= <[Z.to_nat fd := st]> |>) /\
  holds (User (left m m1)) (at_ (v_home v) a) l /\ same_but (v_home v) a (Z.of_nat k) (User m) (User (left m m1)).
Proof.
  intros Hr Hfd Hfd2 Hi Hk E Heff Hc Hl Hcell Hst Hdr. pose proof Hi as (Ha & Hn & He). unfold VIRTUAL_START, VIRTUAL_END in Ha, He.
  unfold read_effect in Heff. cbv zeta in Heff.
  assert (forall q, at_ (v_home v) a <= q < at_ (v_home v) a + Z.of_nat k -> v_home v <= q < v_home v + FOUR_MB_BLOCK) as Hin
    by (unfold at_, VIRTUAL_START, FOUR_MB_BLOCK; lia).
  assert (forall q, ps_pb s <= q < ps_pb s + ps_size s \/ ps_video s <= q < ps_video s + 4000 -> cell m1 q = cell m q) as Hsafe.
  { intros q Hq. apply Hcell. intros Hq2. destruct (home_apart m v q Hr (Hin q Hq2)). lia. }
  split; [|split; [|split]].
  - unfold ece391_read, DO_CALL, SYS_READ. apply trap_run; [lia|]. cbn [syscalls Z.eqb Pos.eqb].
    rewrite !i32_small, u32_small by lia. exact E.
  - apply (runs_put m v m1 (Z.to_nat fd) f st); try done; try (rewrite Heff; done).
    + split; try (rewrite Heff; done).
      * rewrite Heff. apply counts_kept_refl.
      * intros q Hq _. apply Hcell. rewrite <- (ru_home _ _ _ Hr) in Hq. intros Hq2. apply Hq. by apply Hin.
      * apply (blocks_put m m1 v _ f Hr). by rewrite Heff.
    + destruct (runs_shows m v Hr) as [S1 S2 S3 S4 S5]. split; [|done| |by rewrite Heff|by rewrite Heff].
      * apply (maps_loc (entered m)); [|done]. intros x. by rewrite Heff.
      * intros i Hi2. rewrite S3 by done. f_equal. symmetry. apply Hsafe. lia.
  - unfold holds. rewrite Hl. exact Hc.
  - apply (mem_same m v m1 a (Z.of_nat k) Hr). intros q _ Hq. by apply Hcell.
Qed.

Lemma entered_image m v : runs s m v -> represents (ps_pb s) (ps_size s) (ps_img s) (entered m).
Proof.
  intros Hr. exact (represents_ext _ _ _ m (entered m) (fun _ => eq_refl) eq_refl (fun _ _ => eq_refl) (ko_image _ _ _ _ (ru_kernel _ _ _ Hr))).
Qed.

Lemma buffer_apart m v a n :
  runs s m v -> inside a n -> at_ (v_home v) a + n <= ps_pb s \/ ps_pb s + ps_size s <= at_ (v_home v) a.
Proof.
  intros Hr (Ha & Hn & He). destruct (ko_apart _ _ _ _ (ru_kernel _ _ _ Hr) (ps_pid s) (po_pid _ Hp)) as [_ Hap].
  rewrite (ru_home _ _ _ Hr). unfold at_, VIRTUAL_START, VIRTUAL_END, FOUR_MB_BLOCK in *. lia.
Qed.

Lemma law_read_file m v fd c p a n :
  runs s m v -> 0 <= fd -> v_fds v !! Z.to_nat fd = Some (SFile c p) -> inside a n ->
  let sl := file_slice c p n in
  exists m1, ece391_read fd a n (User m) = (Ok (Z.of_nat (length sl)), User (left m m1)) /\
    runs s (left m m1) (v <| v_fds ::= <[Z.to_nat fd := SFile c (p + Z.of_nat (length sl))]> |>) /\
    holds (User (left m m1)) (at_ (v_home v) a) (sanitize <$> sl) /\
    same_but (v_home v) a (Z.of_nat (length sl)) (User m) (User (left m m1)).
Proof.
  intros Hr Hfd Hl Hi sl. destruct (runs_stream m v fd _ Hr Hfd Hl) as (Hfd8 & f & Hlf & Hs).
  pose proof Hs as (Ho & Hops & Hpos & Hpr & j & Hj & Hc). pose proof Hi as (Ha & Hn & He). unfold VIRTUAL_START, VIRTUAL_END in Ha, He.
  pose proof (file_slice_length c p n Hpr Hn) as Hsl. fold sl in Hsl.
  assert (inside a (Z.of_nat (length sl))) as Hi' by (unfold inside, VIRTUAL_START, VIRTUAL_END; lia).
  destruct (file_read_ok (ps_pb s) (ps_size s) (ps_img s) (entered m) fd f j c a (at_ (v_home v) a) n) as (m1 & E & Heff & Hcells & Hout);
    [by apply (entered_image m v)|by apply (runs_descriptor m v)|done|done|by rewrite Hpos|lia|rewrite Hpos; by apply entered_maps|
     rewrite Hpos; by apply (buffer_apart m v)|].
  rewrite Hpos in *. fold sl in E, Heff, Hcells, Hout. exists m1.
  apply (read_law m v fd (f <| pos := p + Z.of_nat (length sl) |>) _ a n (length sl)); try done; try lia.
  - eapply driver_fd; eauto.
  - rewrite (read_dispatch m v fd f a n) by (done || lia). rewrite Hops. exact E.
  - by rewrite length_fmap.
  - cbn [stream_is]. split; [exact Ho|]. split; [exact Hops|]. split; [done|]. split; [lia|]. by exists j.
  - right; right. exact Hops.
Qed.

Lemma law_read_dir m v fd i d a n :
  runs s m v -> 0 <= fd -> v_fds v !! Z.to_nat fd = Some (SDir i) -> inside a n ->
  im_dentries (v_img v) !! i = Some d -> name_ends d ->
  let k := Z.to_nat (Z.min n 32) in
  exists m1, ece391_read fd a n (User m) = (Ok (Z.of_nat (length (name_of (d_name d)))), User (left m m1)) /\
    runs s (left m m1) (v <| v_fds ::= <[Z.to_nat fd := SDir (S i)]> |>) /\
    holds (User (left m m1)) (at_ (v_home v) a) (strncpy_spec k (d_name d)) /\
    same_but (v_home v) a (Z.of_nat k) (User m) (User (left m m1)).
Proof.
  intros Hr Hfd Hl Hi Hd Hends k. destruct (runs_stream m v fd _ Hr Hfd Hl) as (Hfd8 & f & Hlf & Hs).
  pose proof Hs as (Ho & Hops & Hpos & Hi63). pose proof Hi as (Ha & Hn & He). unfold VIRTUAL_START, VIRTUAL_END in Ha, He.
  rewrite (ru_img _ _ _ Hr) in Hd. pose proof (entered_image m v Hr) as Hrep.
  pose proof (rep_dir_max _ _ _ _ Hrep) as H63. pose proof (lookup_lt_Some _ _ _ Hd) as Hlt.
  assert (inside a (Z.of_nat k)) as Hi' by (unfold inside, VIRTUAL_START, VIRTUAL_END, k; lia).
  destruct (dir_read_ok (ps_pb s) (ps_size s) (ps_img s) (entered m) fd f i d a (at_ (v_home v) a) n) as (m1 & E & Heff & Hcells & Hout);
    [done|by apply (runs_descriptor m v)|done|done|exact Hends|lia|by apply entered_maps|by apply (buffer_apart m v)|].
  exists m1. apply (read_law m v fd (f <| pos := pos f + 1 |>) _ a n k); try done; try lia.
  - eapply driver_fd; eauto.
  - rewrite (read_dispatch m v fd f a n) by (done || lia). rewrite Hops. exact E.
  - pose proof (f_equal length Hcells) as Hlen. rewrite length_cells in Hlen. exact (eq_sym Hlen).
  - cbn [stream_is]. split; [exact Ho|]. split; [exact Hops|]. split; [|lia]. msimp. rewrite Hpos. lia.
  - right; left. exact Hops.
Qed.

Lemma law_read_dir_end m v fd i a n :
  runs s m v -> 0 <= fd -> v_fds v !! Z.to_nat fd = Some (SDir i) -> inside a n ->
  im_dentries (v_img v) !! i = None -> ece391_read fd a n (User m) = (Ok 0, User m).
Proof.
  intros Hr Hfd Hl Hi Hd. destruct (runs_stream m v fd _ Hr Hfd Hl) as (Hfd8 & f & Hlf & Ho & Hops & Hpos & Hi63).
  pose proof Hi as (Ha & Hn & He). unfold VIRTUAL_START, VIRTUAL_END in Ha, He.
  rewrite (ru_img _ _ _ Hr) in Hd. apply lookup_ge_None in Hd.
  assert (dir_read fd a n (entered m) = (Ok 0, entered m)) as E.
  { apply (dir_read_end (ps_pb s) (ps_size s) (ps_img s) (entered m) fd f a n (entered_image m v Hr));
      [by apply (runs_descriptor m v)|lia]. }
  unfold ece391_read, DO_CALL, SYS_READ. rewrite (trap_run m (entered m) 3 fd a n 0); [by rewrite left_entered|lia|].
  cbn [syscalls Z.eqb Pos.eqb]. rewrite !i32_small, u32_small by lia.
  rewrite (read_dispatch m v fd f a n) by (done || lia). rewrite Hops.
  exact E.
Qed.

(** The state after the read of a line: [mk] is the one in which it was entered. *)
Lemma line_read_step m v mk m1 a n sl l d' c' (fl := fds (entered m)) :
  runs s m v -> inside a n -> Z.of_nat (length sl) <= n ->
  typed_shown (ps_video s) (ps_term s) mk (Typed d' l (con_enter c') true) -> typing_kept (ps_video s) (entered m) mk ->
  phys m1 = phys (upds mk (at_ (v_home v) a) sl) -> scr m1 = scr mk -> counts_kept (terminal mk) (terminal m1) ->
  m1 = (entered m) <| phys := phys m1 |> <| scr := scr m1 |> <| io_log := io_log m1 |> <| kbd := kbd m1 |>
         <| terminal := terminal m1 |> <| pending := pending m1 |> ->
  step s m m1 fl /\ shows (ps_video s) m1 (con_enter c') /\
  forall q, v_home v <= q < v_home v + FOUR_MB_BLOCK -> ~ at_ (v_home v) a <= q < at_ (v_home v) a + Z.of_nat (length sl) ->
    cell m1 q = cell m q.
Proof.
  intros Hr Hi Hsl Hmk [Hkc Hkt] Hph Hsc Hct Hf. pose proof Hi as (Ha & Hn & He).
  assert (v_home v <= at_ (v_home v) a /\ at_ (v_home v) a + Z.of_nat (length sl) <= v_home v + FOUR_MB_BLOCK) as [Hb1 Hb2]
    by (unfold at_, VIRTUAL_START, VIRTUAL_END, FOUR_MB_BLOCK in *; lia).
  assert (forall q, cell m1 q = cell (upds mk (at_ (v_home v) a) sl) q) as Hcell
    by (intros q; cbn [cell machine_memory]; by rewrite Hph).
  assert (forall q, ~ at_ (v_home v) a <= q < at_ (v_home v) a + Z.of_nat (length sl) ->
    ~ ps_video s <= q < ps_video s + 4000 -> cell m1 q = cell m q) as Hsame.
  { intros q Hq Hv. rewrite Hcell, cell_upds_out by lia. by rewrite Hkc. }
  pose proof (po_video_image _ Hp) as Hvi. split; [|split].
  - split; try (rewrite Hf; done).
    + by apply (counts_kept_trans _ (terminal mk)).
    + intros q Hq Hv. apply Hsame; [|exact Hv]. rewrite <- (ru_home _ _ _ Hr) in Hq. lia.
    + apply (blocks_same m m1 v Hr). by rewrite Hf.
  - destruct (shows_stored m mk v _ sl _ Hr Hb1 Hb2 (ts_shows _ _ _ _ Hmk)) as [_ S2 S3 S4 S5].
    destruct (runs_shows m v Hr) as [M1 _ _ _ _]. split; [|exact S2| | |].
    + apply (maps_loc (entered m)); [|done]. intros x. by rewrite Hf.
    + intros i Hi2. by rewrite Hcell, S3.
    + rewrite Hsc. rewrite upds_phys in S4. exact S4.
    + rewrite Hsc. rewrite upds_phys in S5. exact S5.
  - intros q Hq Hq2. apply Hsame; [done|]. pose proof (home_apart m v q Hr Hq). lia.
Qed.

Lemma law_read_keys m v fd scs rest d' l c' a n :
  runs s m v -> 0 <= fd -> v_fds v !! Z.to_nat fd = Some SKeys -> inside a n ->
  v_typed v = scs :: rest ->
  presses scs (Typed (v_mods v) [] (v_con v) false) = Some (Typed d' l c' false) ->
  Z.of_nat (length l) < 128 \/ n < 128 ->
  let sl := take (Z.to_nat n) l in
  exists m1, ece391_read fd a n (User m) = (Ok (Z.of_nat (length sl)), User (left m m1)) /\
    runs s (left m m1) (v <| v_con := con_enter c' |> <| v_mods := d' |> <| v_typed := rest |>) /\
    holds (User (left m m1)) (at_ (v_home v) a) sl /\ Forall (fun b => 0 < b < 256) sl /\
    same_but (v_home v) a (Z.of_nat (length sl)) (User m) (User (left m m1)).
Proof.
  intros Hr Hfd Hl Hi Hty Hpr Hfit sl. destruct (runs_stream m v fd _ Hr Hfd Hl) as (Hfd8 & f & Hlf & Ho & Hops).
  pose proof Hi as (Ha & Hn & He). unfold VIRTUAL_START, VIRTUAL_END in Ha, He.
  pose proof (ru_codes _ _ _ Hr) as Hcodes. rewrite Hty in Hcodes.
  pose proof (Forall_inv Hcodes) as Hc1. pose proof (Forall_inv_tail Hcodes) as Hc2.
  pose proof (ru_keys _ _ _ Hr) as Hq. rewrite Hty in Hq. cbn [fmap list_fmap concat] in Hq. rewrite <- app_assoc in Hq. cbn [app] in Hq.
  assert (Z.of_nat (length sl) <= n) as Hsl by (unfold sl; rewrite length_take; lia).
  assert (typed_shown (ps_video s) (ps_term s) (entered m) (Typed (v_mods v) [] (v_con v) false)) as Hts
    by (exact (typed_shown_ext _ _ m (entered m) _ eq_refl (fun _ _ => eq_refl) eq_refl eq_refl eq_refl (ru_typed _ _ _ Hr))).
  destruct (read_waits_ok (ps_video s) (ps_term s) (ps_script s) scs _ (ps_later s) (entered m) (v_mods v) d' l (v_con v) c' fd a
    (at_ (v_home v) a) n (po_feeds _ Hp) Hq Hc1 Hts Hpr ltac:(lia) Hfit)
    as (mk & m1 & E & Hb & Hmk & Htk & Hph & Hce & Hln & Hent & Hmo & Hpe & Hcpu & Htc & Hsc & Hct & Hf).
  { eapply maps_mono; [apply (entered_maps m v a n Hr Hi)|exact Hsl]. }
  fold sl in E, Hph, Hce.
  destruct (line_read_step m v mk m1 a n sl l d' c' Hr Hi Hsl Hmk Htk Hph Hsc Hct Hf) as (Hst & Hsh & Hsame).
  exists m1. split; [|split; [|split; [|split]]].
  - unfold ece391_read, DO_CALL, SYS_READ. apply trap_run; [lia|]. cbn [syscalls Z.eqb Pos.eqb].
    rewrite !i32_small, u32_small by lia. rewrite (read_dispatch m v fd f a n) by (done || lia). rewrite Hops. exact E.
  - apply (runs_step s m m1 (fds (entered m)) v (v <| v_con := con_enter c' |> <| v_mods := d' |> <| v_typed := rest |>) Hp Hr Hst); [reflexivity|reflexivity|reflexivity|exact (runs_table m v Hr)| | | |exact Hc2].
    + rewrite (runs_fds m v Hr). exact (ru_fds _ _ _ Hr).
    + split; [exact Hsh|exact Hln|exact Hmo|exact Hent].
    + exact (to_come_ext _ _ _ m1 (entered m1) eq_refl eq_refl eq_refl Htc).
  - exact Hce.
  - unfold sl. by apply Forall_take.
  - by apply (mem_same m v m1 a _ Hr).
Qed.

(** Calls that are refused. *)
Lemma refused_fd m v fd (P : stream -> Prop) :
  runs s m v -> refused_by (v_fds v) fd P ->
  fd < 0 \/ 8 <= fd \/ exists f st, 0 <= fd < 8 /\ fds (entered m) !! Z.to_nat fd = Some f /\ stream_is (ps_img s) f st /\ P st.
Proof.
  intros Hr [?|Hst]; [by left|]. destruct (Z.lt_ge_cases fd 0) as [?|H0']; [by left|right].
  destruct (Z.le_gt_cases 8 fd) as [?|H8']; [by left|right].
  pose proof (ru_fds _ _ _ Hr) as Hf. rewrite <- (runs_fds m v Hr) in Hf.
  pose proof (tb_length _ (runs_table m v Hr)) as Hl.
  destruct (lookup_lt_is_Some_2 (fds (entered m)) (Z.to_nat fd)) as [f Hfd]; [lia|].
  destruct (Forall2_lookup_l _ _ _ _ _ Hf Hfd) as (st & Hs & His). rewrite Hs in Hst. by exists f, st.
Qed.

Lemma trap_same m eax ebx ecx edx r :
  1 <= eax <= 10 -> syscalls serve eax ebx ecx edx (entered m) = (Ok r, entered m) ->
  trap eax ebx ecx edx (User m) = (Ok r, User m).
Proof. intros He E. rewrite (trap_run m (entered m) eax ebx ecx edx r He E). by rewrite left_entered. Qed.

Lemma i32_int x : int_range x -> i32 x = x.
Proof. intros Hx. unfold int_range in Hx. by apply i32_small. Qed.

Lemma law_read_refuses m v fd a n :
  runs s m v -> int_range fd -> refused_by (v_fds v) fd (fun st => st = SClosed \/ st = SDisplay) ->
  ece391_read fd a n (User m) = (Ok (-1), User m).
Proof.
  intros Hr Hfd Hno. unfold ece391_read, DO_CALL, SYS_READ. apply trap_same; [lia|]. cbn [syscalls Z.eqb Pos.eqb].
  rewrite (i32_int fd Hfd). destruct (refused_fd m v fd _ Hr Hno) as [Hlo|[Hhi|(f & st & Hfd8 & Hl & Hs & Hst)]].
  - unfold read, MAX_FILES. by zb.
  - unfold read, MAX_FILES. by zb.
  - destruct (Z.eqb_spec (u32 a) 0) as [Ha|Ha]; [unfold read; rewrite Ha; by rewrite !orb_true_r|].
    destruct Hst as [-> | ->].
    + pose proof (runs_has_files m v Hr) as Hm. unfold read, MAX_FILES. zb. go get_current_pcb_run.
      go (fd_read (entered m) fd f) by (done || lia). cbn in Hs. by rewrite Hs.
    + destruct Hs as [Ho Hops]. rewrite (read_dispatch m v fd f _ _) by (done || lia). by rewrite Hops.
Qed.

Lemma law_write_refuses m v fd a n :
  runs s m v -> int_range fd -> refused_by (v_fds v) fd (fun st => st <> SDisplay) ->
  ece391_write fd a n (User m) = (Ok (-1), User m).
Proof.
  intros Hr Hfd Hno. unfold ece391_write, DO_CALL, SYS_WRITE. apply trap_same; [lia|]. cbn [syscalls Z.eqb Pos.eqb].
  rewrite (i32_int fd Hfd). destruct (refused_fd m v fd _ Hr Hno) as [Hlo|[Hhi|(f & st & Hfd8 & Hl & Hs & Hst)]].
  - unfold write, MAX_FILES. by zb.
  - unfold write, MAX_FILES. by zb.
  - destruct (Z.eqb_spec (u32 a) 0) as [Ha|Ha]; [unfold write; rewrite Ha; by rewrite !orb_true_r|].
    destruct (is_open f) eqn:Ho.
    + rewrite (write_dispatch m v fd f _ _) by (done || lia).
      destruct st; cbn in Hs; [congruence| |done| |]; destruct Hs as (_ & Hops & _) || destruct Hs as (_ & Hops); by rewrite Hops.
    + pose proof (runs_has_files m v Hr) as Hm. unfold write, MAX_FILES. zb. go get_current_pcb_run.
      go (fd_read (entered m) fd f) by (done || lia). by rewrite Ho.
Qed.

Lemma law_close_refuses m v fd :
  runs s m v -> int_range fd -> refused_by (v_fds v) fd (fun st => st = SClosed \/ st = SKeys \/ st = SDisplay) ->
  ece391_close fd (User m) = (Ok (-1), User m).
Proof.
  intros Hr Hfd Hno. unfold ece391_close, DO_CALL, SYS_CLOSE. apply trap_same; [lia|]. cbn [syscalls Z.eqb Pos.eqb].
  rewrite (i32_int fd Hfd). apply (close_refused (entered m) fd (runs_has_files m v Hr)).
  destruct (refused_fd m v fd _ Hr Hno) as [Hlo|[Hhi|(f & st & Hfd8 & Hl & Hs & Hst)]]; [by left|right; by left|right; right].
  exists f. split; [exact Hl|]. destruct Hst as [-> |[-> | ->]]; cbn in Hs; [by left|right; by destruct Hs as [_ ->]|right; by destruct Hs as [_ ->]].
Qed.

Lemma law_vidmap_refuses m a :
  0 <= a < 4294967296 -> ~ VIRTUAL_START <= a <= VIRTUAL_END -> ece391_vidmap a (User m) = (Ok (-1), User m).
Proof.
  intros Ha Hout. unfold ece391_vidmap, DO_CALL, SYS_VIDMAP. apply trap_same; [lia|]. cbn [syscalls Z.eqb Pos.eqb].
  rewrite u32_small by done. by apply vidmap_refused.
Qed.

Lemma law_unknown m eax ebx ecx edx : ~ 1 <= i32 eax <= 10 -> trap eax ebx ecx edx (User m) = (Ok (-1), User m).
Proof. intros He. cbn [trap user_calls sup]. by rewrite int80_bad. Qed.
End Laws.

(** * The interface, implemented *)

Section Implementation.
Context `{PlatformOk} (s : place) (Hp : place_ok s).

Definition sees_user (u : user) (v : view) : Prop := runs s (sup u) v.

Lemma sees_user_maps u v : sees_user u v -> maps u VIRTUAL_START (v_home v) FOUR_MB_BLOCK.
Proof.
  intros Hr i Hi. unfold FOUR_MB_BLOCK in Hi. rewrite u32_small by (unfold VIRTUAL_START; lia). cbn [loc user_memory].
  rewrite translate_user_ok by apply (ru_kernel _ _ _ Hr).
  rewrite (home_walk s Hp (sup u) v _ Hr) by (unfold VIRTUAL_START, VIRTUAL_END; lia). f_equal. unfold at_. lia.
Qed.

(** A store of the program to its own memory. *)
Lemma sees_user_upd u v p b : sees_user u v -> v_home v <= p < v_home v + FOUR_MB_BLOCK -> sees_user (upd u p b) v.
Proof.
  intros Hr Hq. destruct u as [m]. unfold sees_user in *. cbn [sup upd user_memory] in *.
  destruct (home_apart s Hp m v p Hr Hq) as [Hv Hi].
  assert (forall q, q <> p -> cell (upd m p b) q = cell m q) as Hc by (intros q Hne; apply cell_upd_ne; congruence).
  pose proof Hr as [Rk Rw Rs Rn Ro Ra Rws Rh Ri Rf Rt Rq Rc]. split; try done.
  - apply (kernel_ok_calm _ _ _ m); try done; [apply counts_kept_refl|intros q Hq2; apply Hc; congruence|].
    intros a Ha. exact (proj2 (ko_blocks _ _ _ _ Rk a Ha)).
  - destruct Rn as [G1 G2 G3 G4 G5 G6 G7]. split; try done.
  - intros n Hn Hne Hbit. eapply untouched_trans; [by apply Ro|]. split; [done|]. intros q Hq2. apply Hc. intros ->.
    rewrite Rh in Hq. by apply (windows_apart n (ps_pid s) p) in Hq2.
  - apply (typed_shown_ext _ _ m); try done. intros q Hq2. apply Hc. lia.
  - exact (to_come_ext _ _ _ (entered m) (entered (upd m p b)) eq_refl eq_refl eq_refl Rq).
Qed.

Lemma sees_user_image u v :
  sees_user u v -> (length (im_dentries (v_img v)) <= 63)%nat /\
  forall n c, im_files (v_img v) !! n = Some c -> Z.of_nat (length c) <= 1023 * 4096.
Proof.
  intros Hr. rewrite (ru_img _ _ _ Hr). pose proof (ko_image _ _ _ _ (ru_kernel _ _ _ Hr)) as Hrep.
  split; [exact (rep_dir_max _ _ _ _ Hrep)|]. intros n c Hc. exact (proj2 (rep_length _ _ _ _ Hrep n c Hc)).
Qed.
End Implementation.

(** The kernel implements the system calls. *)
Definition kernel_calls `{PlatformOk} (s : place) (Hp : place_ok s) : SysCallsOk user.
Proof.
  refine {| sees := sees_user s |}.
  - intros t v. exact (sees_user_maps s Hp t v).
  - intros t v p b. exact (sees_user_upd s Hp t v p b).
  - intros t v Hr. exact (ru_words _ _ _ Hr).
  - intros t v. exact (sees_user_image s t v).
  - intros [m] v fd a n Hr Hfd Hl Hi l. destruct (law_display s Hp m v fd a n Hr Hfd Hl Hi) as (m1 & E & Hr' & Hs).
    eexists _, _. split; [exact E|]. split; [exact Hr'|]. by split.
  - intros [m] v a n Hr. exact (law_getargs_none s Hp m v a n Hr).
  - intros [m] v a n Hr Hw Hi k. destruct (law_getargs_some s Hp m v a n Hr Hw Hi) as (m1 & E & Hr' & Hh & Hs).
    eexists. split; [exact E|]. by split.
  - intros [m] v a l Hr Hi Hh Hz Hno. exists (User m).
    split; [exact (law_open_refuses s Hp m v a l Hr Hi Hh Hz Hno)|]. split; [exact Hr|apply same_refl].
  - intros [m] v a l d st i Hr Hi Hh Hz Hd Ho Hf.
    destruct (law_open_opens s Hp m v a l d st i Hr Hi Hh Hz Hd Ho Hf) as (m1 & E & Hr' & Hs).
    eexists _, _. split; [exact E|]. split; [exact Hr'|]. by split.
  - intros [m] v fd c p a n Hr Hfd Hl Hi sl. destruct (law_read_file s Hp m v fd c p a n Hr Hfd Hl Hi) as (m1 & E & Hr' & Hh & Hs).
    eexists _, _. split; [exact E|]. split; [exact Hr'|]. by split.
  - intros [m] v fd i d a n Hr Hfd Hl Hi Hd He k.
    destruct (law_read_dir s Hp m v fd i d a n Hr Hfd Hl Hi Hd He) as (m1 & E & Hr' & Hh & Hs).
    eexists _, _. split; [exact E|]. split; [exact Hr'|]. by split.
  - intros [m] v fd i a n Hr Hfd Hl Hi Hd. exists (User m).
    split; [exact (law_read_dir_end s Hp m v fd i a n Hr Hfd Hl Hi Hd)|]. split; [exact Hr|apply same_refl].
  - intros [m] v fd scs rest d' l c' a n Hr Hfd Hl Hi Hty Hpr Hfit sl.
    destruct (law_read_keys s Hp m v fd scs rest d' l c' a n Hr Hfd Hl Hi Hty Hpr Hfit) as (m1 & E & Hr' & Hh & Hb & Hs).
    eexists _, _. split; [exact E|]. split; [exact Hr'|]. by split.
  - intros [m] v fd a n. exact (law_read_refuses s Hp m v fd a n).
  - intros [m] v fd a n. exact (law_write_refuses s Hp m v fd a n).
  - intros [m] v fd. exact (law_close_refuses s Hp m v fd).
  - intros [m] v a _. exact (law_vidmap_refuses m a).
  - intros [m] v eax ebx ecx edx _. exact (law_unknown m eax ebx ecx edx).
  - intros [m] v fd st Hr Hfd Hl Hk. destruct (law_close s Hp m v fd st Hr Hfd Hl Hk) as (m1 & E & Hr' & Hs).
    eexists _, _. split; [exact E|]. split; [exact Hr'|]. by split.
Defined.

(** * The two sides of the interface *)

(** A C function of the kernel, as the program sees it that has called it: it runs with
    interrupts on, on the kernel stack of the TSS below the sixteen words of the trap, and
    the program goes on with its stack pointer, its frame pointer and its flag. *)
Definition kernel_call `{Platform} (f : K Z) : M user Z := fun u =>
  match f (entered (sup u)) with
  | (Ok r, m') => (Ok r, User (left (sup u) m'))
  | (Stop e, m') => (Stop e, User m')
  end.

Lemma trap_call `{Platform} eax ebx ecx edx (u : user) :
  1 <= eax <= 10 -> trap eax ebx ecx edx u = kernel_call (syscalls serve eax ebx ecx edx) u.
Proof.
  intros He. cbn [trap user_calls]. rewrite int80_call by done. unfold kernel_call.
  by destruct (syscalls serve eax ebx ecx edx (entered (sup u))) as [[r|e] m'].
Qed.

Lemma i32_number v : 0 <= v < 4294967296 -> 1 <= i32 v <= 10 -> 1 <= v <= 10.
Proof.
  intros Hv. unfold i32. destruct (Z.lt_ge_cases v 2147483648).
  - rewrite Z.mod_small by lia. lia.
  - replace (v + 2147483648) with (v - 2147483648 + 1 * 4294967296) by lia. rewrite Z_mod_plus_full, Z.mod_small; lia.
Qed.

(** C39. The user side and the kernel side of the system calls agree, whatever the state and the
    arguments: each of the ten wrappers of ece391syscall.S, with the numbers of
    ece391sysnum.h, runs the function of the kernel of its name on the arguments of the
    wrapper, read at the widths of the parameters; a number that has no function gives -1 and
    changes nothing at all.  Through the sixteen words that the trap and
    handle_syscall put on the kernel stack and take off it, every register of the
    program but %eax comes back as it was, with its flag and its stack, and when the
    TSS holds a stack of process [n], the block that the call finds is that of [n]. *)
Theorem system_calls `{Platform} (u : user) (r : regs) (a b c : Z) :
  (ece391_halt a u = kernel_call (halt (u8 a)) u /\
   ece391_execute a u = kernel_call (execute (Raw (u32 a))) u /\
   ece391_read a b c u = kernel_call (read serve (i32 a) (u32 b) (i32 c)) u /\
   ece391_write a b c u = kernel_call (write (i32 a) (u32 b) (i32 c)) u /\
   ece391_open a u = kernel_call (open (Raw (u32 a))) u /\
   ece391_close a u = kernel_call (close (i32 a)) u /\
   ece391_getargs a b u = kernel_call (getargs (u32 a) (i32 b)) u /\
   ece391_vidmap a u = kernel_call (vidmap (u32 a)) u /\
   ece391_set_handler a b u = kernel_call (mret (-1)) u /\
   ece391_sigreturn u = kernel_call (mret (-1)) u) /\
  (forall eax, ~ 1 <= i32 eax <= 10 -> trap eax a b c u = (Ok (-1), u)) /\
  (forall m o m', 0 <= r_eax r < 4294967296 -> int80_regs serve r m = (Ok o, m') ->
     r_ebx o = r_ebx r /\ r_ecx o = r_ecx r /\ r_edx o = r_edx r /\ r_esi o = r_esi r /\ r_edi o = r_edi r /\
     r_eip o = r_eip r /\ cpu_esp (cpu m') = cpu_esp (cpu m) /\ cpu_ebp (cpu m') = cpu_ebp (cpu m) /\
     IF (cpu m') = IF (cpu m)) /\
  (forall n, 0 <= n < MAX_PROCESSES ->
     get_pcb n + 64 <= esp0 (tss (sup u)) < get_pcb n + 64 + EIGHT_KB_BLOCK -> current (entered (sup u)) = get_pcb n).
Proof.
  split; [|split; [|split]].
  - unfold ece391_halt, ece391_execute, ece391_read, ece391_write, ece391_open, ece391_close, ece391_getargs,
      ece391_vidmap, ece391_set_handler, ece391_sigreturn, DO_CALL, SYS_HALT, SYS_EXECUTE, SYS_READ, SYS_WRITE,
      SYS_OPEN, SYS_CLOSE, SYS_GETARGS, SYS_VIDMAP, SYS_SET_HANDLER, SYS_SIGRETURN.
    rewrite !trap_call by lia. cbn [syscalls Z.eqb Pos.eqb]. split_and!; reflexivity.
  - intros eax He. cbn [trap user_calls]. rewrite int80_bad by done. by destruct u.
  - intros m o m' Hr E. destruct (decide (1 <= i32 (r_eax r) <= 10)) as [Hs|Hs].
    + rewrite int80_regs_call in E by (by apply i32_number).
      destruct (syscalls serve (r_eax r) (r_ebx r) (r_ecx r) (r_edx r) (entered m)) as [[v|e] m1]; [|done].
      injection E as <- <-. by split_and!.
    + rewrite int80_regs_bad in E by done. injection E as <- <-. by split_and!.
  - intros n. apply entered_current.
Qed.

Lemma system_calls_witness :
  let P := plain_platform in
  let m := shell_machine <| tss := Tss 0x7FFFFC KERNEL_DS 0 |> in
  (@trap user _ 11 0 0 0 (User shell_machine) = (Ok (-1), User shell_machine)) /\
  (exists o, int80_regs serve (Regs 10 1 2 3 4 5 6) shell_machine = (Ok o, left shell_machine (entered shell_machine)) /\ r_ecx o = 2) /\
  current (entered m) = 0x7FE000.
Proof.
  intros P m.
  destruct (system_calls (User shell_machine) (Regs 10 1 2 3 4 5 6) 0 0 0) as (_ & E1 & E2 & _).
  destruct (system_calls (User m) (Regs 10 1 2 3 4 5 6) 0 0 0) as (_ & _ & _ & E3).
  split; [apply E1; vm_compute; intros [? ?]; congruence|]. split.
  - pose proof (int80_regs_call serve (Regs 10 1 2 3 4 5 6) shell_machine ltac:(cbn; lia)) as E.
    eexists. split; [exact E|]. apply (E2 shell_machine _ _ ltac:(cbn; lia) E).
  - apply (E3 0); [unfold MAX_PROCESSES; lia|change (get_pcb 0) with 0x7FE000; change (esp0 (tss (sup (User m)))) with 0x7FFFFC; unfold EIGHT_KB_BLOCK; lia].
Defined.
