(* ===== verification/Commands.v ===== *)
(** Commands, from the line to the exit status: [execute] of a program from another
    one, the program in user mode with its system calls, and [halt], for the
    programs of [Programs.v]. *)

From S2P Require Import Prelude Memory CLib Support Machine I8259 Rtc Pcb Rofs Paging Screen Keyboard TermIO Files Process Launch Halt Syscalls Terminal Handlers Calls Programs ErrorTests Grep Shell UserMode.

(** The literals of a program are in its file, which is loaded at 0x8048000. *)
Definition linked `{Literals} (c : list Z) (ls : list (list Z)) : Prop :=
  Forall (fun l => EXECUTE_START <= lit l /\
    take (length (l ++ [0])) (drop (Z.to_nat (lit l - EXECUTE_START)) c) = l ++ [0] /\
    forallb (fun c => negb (c =? 0)) l = true) ls.

(** The command [w] with arguments [words] can be executed in [m]: its file is [c],
    process [n] will run it, and terminal [t] has a program already. *)
Record commanded `{PlatformOk} (pb size : Z) (img : image) (m : machine) (p : ptr) (w words : list Z) (k : nat)
    (c : list Z) (n : Z) (t : terminal_t) : Prop := {
  cm_kernel : kernel_ok pb size img m;
  cm_start : can_start m n t;
  cm_line : command_line m p w words;
  cm_not_exit : ~ is_exit w;
  cm_program : program img w k c;
  cm_magic : take 4 c = magic;
  cm_length : Z.of_nat (length c) <= FOUR_MB_BLOCK - 0x48000;
  cm_parent : 1 <= num_processes t /\ 0 <= term_pid t < 6
}.

(** The screen at [pv] shows [con], terminal [k] has an empty line, and the lines
    [keys] will be typed. *)
Record at_terminal `{Platform} (pv : Z) (k : nat) (script : list Z) (later : list irq) (m : machine)
    (con : console) (d : mods) (keys : list (list Z)) : Prop := {
  te_feeds : feeds script;
  te_shown : typed_shown pv k m (Typed d [] con false);
  te_keys : to_come script (concat ((fun scs => scs ++ [ENTER]) <$> keys)) later m;
  te_codes : Forall (Forall (fun sc => 0 <= sc)) keys
}.

(** The video memory lies below the programs, and apart from the file system. *)
Definition video_apart (pv pb size : Z) : Prop :=
  pv + 4000 <= PHYSICAL_START /\ (pv + 4000 <= pb \/ pb + size <= pv).

(** What a program finds when it starts. *)
Definition new_view (n : Z) (words : list Z) (img : image) (con : console) (d : mods) (keys : list (list Z)) : view :=
  View (window n) words img (SKeys :: SDisplay :: replicate 6 SClosed) con d keys.

(** The kernel stack of a new process: its 8 KB, less four bytes at the top, what a trap
    and a call take, and the block of the process at the bottom. *)
Definition START_ROOM `{Platform} : Z := EIGHT_KB_BLOCK - MAGIC_SIZE - 64 - call_frames - sizeof_pcb_t.

Lemma start_room `{PlatformOk} : 3000 <= START_ROOM.
Proof. pose proof frame_room. unfold START_ROOM, EIGHT_KB_BLOCK, MAGIC_SIZE, sizeof_pcb_t, MAX_ARGS_LENGTH. lia. Qed.

(** Starting a program leaves what is typed and shown. *)
Lemma launched_typed `{PlatformOk} m n t c words q pv kt s :
  program_view m (launched m n t c words) n q c words -> 0 <= n < 6 -> pv + 4000 <= PHYSICAL_START ->
  1 <= term_cur m /\ terminal m !! Z.to_nat (term_cur m - 1) = Some t ->
  typed_shown pv kt m s -> typed_shown pv kt (launched m n t c words) s.
Proof.
  intros [_ Ho _ Hmem _ _ _ _] Hn Hv [_ Ht] [[S1 S2 S3 S4 S5] [L1 L2 L3 L4] [D1 D2 D3 D4 D5 D6 D7 D8] He].
  split; [split|split|split|]; try done.
  - intros i Hi. specialize (S1 i Hi). unfold VIDEO in *. rewrite u32_small in * by lia. cbn [loc machine_memory] in *.
    rewrite (proj2 (Ho (0xB8000 + i) ltac:(lia) ltac:(unfold VIRTUAL_START; lia))). exact S1.
  - intros i Hi. rewrite S3 by done. f_equal. symmetry. apply Hmem. unfold window, PHYSICAL_START, FOUR_MB_BLOCK in *. lia.
  - rewrite launched_terminal, <- L2. destruct (decide (kt = Z.to_nat (term_cur m - 1))) as [->|Hne].
    + rewrite list_lookup_insert_eq, Ht by (by eapply lookup_lt_Some). done.
    + by rewrite list_lookup_insert_ne by done.
Qed.

Section Start.
Context `{PlatformOk} (pb size : Z) (img : image) (m : machine) (p : ptr) (w words : list Z) (k : nat) (c : list Z)
  (n : Z) (t : terminal_t) (Hcm : commanded pb size img m p w words k c n t).
Context (pv : Z) (kt : nat) (script : list Z) (later : list irq) (con : console) (d : mods) (keys : list (list Z))
  (Hat : at_terminal pv kt script later m con d keys) (Hv : video_apart pv pb size).

Let m1 := launched m n t c words.
Let s := Place n m1 pb size img pv kt script later START_ROOM.

Lemma start_pid : 0 <= n < 6.
Proof. exact (proj1 (proj1 (free_pid_Some _ _) (cs_pid _ _ _ (cm_start _ _ _ _ _ _ _ _ _ _ _ Hcm)))). Qed.

Lemma start_place : place_ok s.
Proof. destruct Hv. split; [exact start_pid|cbn; pose proof start_room; lia|exact (te_feeds _ _ _ _ _ _ _ _ Hat)|done|done]. Qed.

Lemma start_bytes : Forall is_byte c.
Proof.
  destruct (cm_program _ _ _ _ _ _ _ _ _ _ _ Hcm) as (de & _ & _ & Hf).
  eapply image_bytes; [apply (ko_image _ _ _ _ (cm_kernel _ _ _ _ _ _ _ _ _ _ _ Hcm))|exact Hf].
Qed.

Lemma start_view : program_view m m1 n (parent_of t n) c words.
Proof.
  destruct (cm_line _ _ _ _ _ _ _ _ _ _ _ Hcm) as [_ _ _ Hw Hl _].
  apply launched_view; [apply (cm_kernel _ _ _ _ _ _ _ _ _ _ _ Hcm)|exact start_pid|exact start_bytes|exact Hw|exact Hl].
Qed.

Lemma start_kernel : kernel_ok pb size img m1.
Proof. apply launched_kernel_ok; apply Hcm. Qed.

Lemma start_stack : stack_low n + 64 + START_ROOM <= esp0 (tss m1) < get_pcb n + 64 + EIGHT_KB_BLOCK.
Proof.
  change (esp0 (tss m1)) with (PHYSICAL_START - n * EIGHT_KB_BLOCK - MAGIC_SIZE).
  unfold stack_low. rewrite (proj1 (get_pcb_range n start_pid)). pose proof start_pid. unfold stack_low, START_ROOM, PHYSICAL_START, EIGHT_KB_BLOCK, MAGIC_SIZE, sizeof_pcb_t, MAX_ARGS_LENGTH. lia.
Qed.

(** The other processes wait. *)
Lemma launched_untouched a : 0 <= a < 6 -> a <> n -> untouched m m1 a.
Proof.
  intros Ha Hne. split.
  - apply launched_pcb_ne. intros He. apply Hne. apply get_pcb_inj; [exact Ha|exact start_pid|exact He].
  - intros q Hq. apply (pv_memory _ _ _ _ _ _ start_view). pose proof (cm_length _ _ _ _ _ _ _ _ _ _ _ Hcm).
    intros Hq2. apply (windows_apart a n q Hne Hq). unfold FOUR_MB_BLOCK in *. lia.
Qed.

Lemma start_ran : ran m1 (entered m1) n.
Proof.
  apply ran_cpu; [apply entered_current; [exact start_pid|pose proof start_stack; pose proof start_room; pose proof (stack_low_above n); unfold sizeof_pcb_t, MAX_ARGS_LENGTH, EIGHT_KB_BLOCK in *; lia]|apply (ko_blocks _ _ _ _ start_kernel n start_pid)
    |apply start_kernel|apply launched_files].
Qed.

Lemma start_typed : typed_shown pv kt m1 (Typed d [] con false).
Proof.
  eapply launched_typed; [exact start_view|apply start_pid|apply Hv|apply (cs_current _ _ _ (cm_start _ _ _ _ _ _ _ _ _ _ _ Hcm))|].
  exact (te_shown _ _ _ _ _ _ _ _ Hat).
Qed.

Lemma start_runs : runs s m1 (new_view n words img con d keys).
Proof.
  destruct start_view as [_ _ _ _ _ (B1 & B2 & B3 & B4 & B5 & _) _ _].
  destruct (cm_line _ _ _ _ _ _ _ _ _ _ _ Hcm) as [_ _ _ Hw Hl _].
  split; cbn [ps_pb ps_size ps_img ps_pid ps_start ps_video ps_term ps_script ps_later ps_room s new_view v_home v_args v_img v_fds v_con v_mods v_typed].
  - exact start_kernel.
  - apply launched_in_window, (cm_kernel _ _ _ _ _ _ _ _ _ _ _ Hcm).
  - exact start_stack.
  - exact start_ran.
  - intros a _ _ _. by split.
  - exact B5.
  - by split.
  - done.
  - done.
  - unfold m1. rewrite launched_pcb. msimp. unfold new_pcb. msimp. by repeat constructor.
  - exact start_typed.
  - exact (to_come_ext _ _ _ m (entered m1) eq_refl eq_refl eq_refl (te_keys _ _ _ _ _ _ _ _ Hat)).
  - exact (te_codes _ _ _ _ _ _ _ _ Hat).
Qed.
End Start.

Section Data.
Context `{PlatformOk} `{Literals}.

Lemma cells_part {T} `{MemoryOk T} (t : T) pa (l : list Z) i k :
  cells t pa (length l) = l -> (i + k <= length l)%nat -> cells t (pa + Z.of_nat i) k = take k (drop i l).
Proof.
  intros Hl Hk. rewrite <- Hl. apply list_eq. intros j. destruct (decide (j < k)%nat).
  - rewrite lookup_take_lt, lookup_drop by done. rewrite !cells_lookup by lia. f_equal. f_equal. lia.
  - rewrite !lookup_ge_None_2; [done|rewrite length_take; lia|rewrite length_cells; lia].
Qed.

(** The literals are where the program expects them. *)
Lemma linked_data h m c ls :
  linked c ls -> Z.of_nat (length c) <= FOUR_MB_BLOCK - 0x48000 -> cells m (h + 0x48000) (length c) = c ->
  data h (User m) ls.
Proof.
  intros Hlk Hc Hm. unfold data, linked in *. rewrite Forall_forall in Hlk |- *. intros l Hl.
  destruct (Hlk l Hl) as (Ha & Ht & Hz). unfold EXECUTE_START in *.
  assert (length (take (length (l ++ [0])) (drop (Z.to_nat (lit l - 0x8048000)) c)) = length (l ++ [0])) as Hlen by (by rewrite Ht).
  rewrite length_take, length_drop in Hlen. rewrite length_app in Hlen. cbn [length] in Hlen. unfold FOUR_MB_BLOCK in Hc.
  split; [|split; [|done]].
  - unfold inside, VIRTUAL_START, VIRTUAL_END. rewrite length_app. cbn [length]. lia.
  - assert (cells m (h + 0x48000 + Z.of_nat (Z.to_nat (lit l - 0x8048000))) (length (l ++ [0])) = l ++ [0]) as E.
    { rewrite <- Ht at 2. apply cells_part; [exact Hm|]. rewrite length_app. cbn [length]. lia. }
    unfold holds, at_, VIRTUAL_START. rewrite <- E at 2.
    replace (h + (lit l - 0x8000000)) with (h + 0x48000 + Z.of_nat (Z.to_nat (lit l - 0x8048000))) by lia. done.
Qed.
End Data.

(** * A program from [execute] to [halt] *)

Section Run.
Context `{PlatformOk} `{Literals}.

(** What a program does, in the terms of its caller: when [main], on any
    implementation of the system calls, returns [r] and leaves [con'] on the screen,
    then [r] comes back to where [execute] was called, and [con'] is on the screen. *)
Lemma program_runs pb size img m p w words k c n t pv kt script later con d keys ls main r con' :
  commanded pb size img m p w words k c n t -> at_terminal pv kt script later m con d keys -> video_apart pv pb size ->
  linked c ls -> 0 <= r < 256 ->
  let m1 := launched m n t c words in
  let v := new_view n words img con d keys in
  (forall OK : SysCallsOk user, sees (User m1) v -> data (v_home v) (User m1) ls ->
     exists u v', main (User m1) = (Ok r, u) /\ sees u v' /\ v_con v' = con') ->
  execute p m = (Stop (EnterUser (entry_point c) USER_STACK), m1) /\
  exists m2, in_user (_start main) m1 = (Stop (ReturnTo r (frame_esp (cpu m)) (frame_ebp (cpu m))), m2) /\
    shows pv m2 con' /\ processes_flags m2 = processes_flags m.
Proof.
  intros Hcm Hat Hva Hlk Hr m1 v Hmain.
  pose proof (start_place _ _ _ _ _ _ _ _ _ _ _ Hcm _ _ _ _ _ _ _ Hat Hva) as Hpl. pose proof Hcm as [C1 C2 C3 C4 C5 C6 C7 [C8 C9]].
  destruct (Hmain (kernel_calls _ Hpl)) as ([mu] & v' & E & Hs & <-).
  - exact (start_runs _ _ _ _ _ _ _ _ _ _ _ Hcm _ _ _ _ _ _ _ Hat Hva).
  - apply (linked_data _ _ c ls Hlk C7). exact (pv_code _ _ _ _ _ _ (start_view _ _ _ _ _ _ _ _ _ _ _ Hcm)).
  - destruct (execute_halt_ok pb size img m p w words k c n r t (entered mu) C1 C2 C3 C4 C5 C6 C7 C8 C9 (ru_since _ _ _ Hs))
      as (Ex & m3 & t3 & Eh & Hfl & _ & _ & _ & _ & Hsh & _).
    split; [exact Ex|]. exists m3. split; [|split; [|exact Hfl]].
    + unfold in_user, _start, ece391_halt, DO_CALL, SYS_HALT. rewrite bind_run, E. cbn [trap user_calls sup].
      rewrite int80_call by lia. cbn [syscalls Z.eqb Pos.eqb]. rewrite u8_small by lia. rewrite Eh. reflexivity.
    + apply Hsh. exact (runs_shows _ mu v' Hs).
Qed.
End Run.

(** * Properties *)

(** C17. The command [cat], from the line to the exit status: the program that
    [execute] starts reads its arguments, opens the file or the directory they
    name and prints it, all by system calls of the kernel, and comes back
    to the caller of [execute] with the status; what is then on the screen is what
    was there, followed by the contents of the file, its invisible bytes as
    spaces, or by the names of the directory, or by an error message; no process
    is left behind.  It ends, however large the file is. *)
Theorem cat_runs `{PlatformOk} `{Literals} (pb size : Z) (img : image) (m : machine) (p : ptr) (words : list Z) (k : nat)
    (c : list Z) (n : Z) (t : terminal_t) (pv : Z) (kt : nat) (script : list Z) (later : list irq) (con : console)
    (d : mods) (keys : list (list Z)) (buf r : Z) (out : list Z) :
  commanded pb size img m p (text "cat") words k c n t -> at_terminal pv kt script later m con d keys ->
  video_apart pv pb size -> linked c cat_lits -> inside buf 1024 -> clear_of buf 1024 cat_lits ->
  Forall name_ends (im_dentries img) -> cat_spec (new_view n words img con d keys) = Some (r, out) ->
  let m1 := launched m n t c words in
  execute p m = (Stop (EnterUser (entry_point c) USER_STACK), m1) /\
  exists m2, in_user (_start (cat_main buf)) m1 = (Stop (ReturnTo r (frame_esp (cpu m)) (frame_ebp (cpu m))), m2) /\
    shows pv m2 (con_puts out con) /\ processes_flags m2 = processes_flags m.
Proof.
  intros Hcm Hat Hva Hlk Hbuf Hcl Hends Hspec.
  apply (program_runs _ _ _ _ _ _ _ _ _ _ _ _ _ _ _ _ d keys _ _ _ _ Hcm Hat Hva Hlk (cat_status _ _ _ Hspec)).
  intros OK Hs Hd. destruct (cat_ok _ _ buf r out Hs eq_refl Hd Hbuf Hcl Hends Hspec) as (u & v' & E & Hs' & Hc & _). by exists u, v'.
Qed.

(** The command [ls]: the names of the directory, a line each, up to the first
    empty one, or a message and status 2 when there is no directory to be opened. *)
Theorem ls_runs `{PlatformOk} `{Literals} (pb size : Z) (img : image) (m : machine) (p : ptr) (words : list Z) (k : nat)
    (c : list Z) (n : Z) (t : terminal_t) (pv : Z) (kt : nat) (script : list Z) (later : list irq) (con : console)
    (d : mods) (keys : list (list Z)) (buf r : Z) (out : list Z) :
  commanded pb size img m p (text "ls") words k c n t -> at_terminal pv kt script later m con d keys ->
  video_apart pv pb size -> linked c ls_lits -> inside buf SBUFSIZE ->
  Forall name_ends (im_dentries img) -> ls_spec (new_view n words img con d keys) = Some (r, out) ->
  let m1 := launched m n t c words in
  execute p m = (Stop (EnterUser (entry_point c) USER_STACK), m1) /\
  exists m2, in_user (_start (ls_main buf)) m1 = (Stop (ReturnTo r (frame_esp (cpu m)) (frame_ebp (cpu m))), m2) /\
    shows pv m2 (con_puts out con) /\ processes_flags m2 = processes_flags m.
Proof.
  intros Hcm Hat Hva Hlk Hbuf Hends Hspec.
  apply (program_runs _ _ _ _ _ _ _ _ _ _ _ _ _ _ _ _ d keys _ _ _ _ Hcm Hat Hva Hlk (ls_status _ _ _ Hspec)).
  intros OK Hs Hd. destruct (ls_ok _ _ buf r out Hs eq_refl Hd Hbuf Hends Hspec) as (u & v' & E & Hs' & Hc & _). by exists u, v'.
Qed.

(** C18. The command [grep], against a reference definition: every line of a file of the
    directory in which the argument occurs is printed behind the name of the
    file and a colon, in the order of the directory and of the lines, wherever the
    buffer of 1024 bytes cuts the file; a line of more than 1024 characters counts as
    several.  Names that begin with a dot are skipped, and the program ends
    with status 0 after the last one, whatever the sizes of the files.  Without an
    argument the status is 3, and without a directory to be opened it is 2, with a message.
    What lies behind the buffer in memory, which the program looks at before it has written
    it, must not be a newline. *)
Theorem grep_runs `{PlatformOk} `{Literals} (pb size : Z) (img : image) (m : machine) (p : ptr) (words : list Z) (k : nat)
    (c : list Z) (n : Z) (t : terminal_t) (pv : Z) (kt : nat) (script : list Z) (later : list irq) (con : console)
    (d : mods) (keys : list (list Z)) (search buf dt r : Z) (out : list Z) :
  commanded pb size img m p (text "grep") words k c n t -> at_terminal pv kt script later m con d keys ->
  video_apart pv pb size -> linked c grep_lits ->
  inside search BUFSIZE /\ clear_of search BUFSIZE grep_lits -> inside buf SBUFSIZE /\ clear_of buf SBUFSIZE grep_lits ->
  inside dt 1025 /\ clear_of dt 1025 grep_lits ->
  (search + BUFSIZE <= buf \/ buf + SBUFSIZE <= search) -> (search + BUFSIZE <= dt \/ dt + 1025 <= search) ->
  (buf + SBUFSIZE <= dt \/ dt + 1025 <= buf) ->
  Forall name_ends (im_dentries img) -> grep_spec (new_view n words img con d keys) = Some (r, out) ->
  let m1 := launched m n t c words in
  cell m1 (at_ (window n) dt + 1024) <> 10 ->
  execute p m = (Stop (EnterUser (entry_point c) USER_STACK), m1) /\
  exists m2, in_user (_start (grep_main search buf dt)) m1 = (Stop (ReturnTo r (frame_esp (cpu m)) (frame_ebp (cpu m))), m2) /\
    shows pv m2 (con_puts out con) /\ processes_flags m2 = processes_flags m.
Proof.
  intros Hcm Hat Hva Hlk Hse Hbu Hdt A1 A2 A3 Hends Hspec m1 Hz.
  apply (program_runs _ _ _ _ _ _ _ _ _ _ _ _ _ _ _ _ d keys _ _ _ _ Hcm Hat Hva Hlk (grep_status _ _ _ Hspec)).
  intros OK Hs Hd. destruct (grep_main_ok _ _ search buf dt r out Hs eq_refl Hd Hse Hbu Hdt A1 A2 A3 Hz Hends Hspec) as (u & v' & E & Hs' & Hc & _). by exists u, v'.
Qed.

(** C19. The command [hello]: the program waits until the line is typed, which shows as it
    is edited, and greets; the keys typed are the interrupts that the kernel serves
    while the program waits in its system call. *)
Theorem hello_runs `{PlatformOk} `{Literals} (pb size : Z) (img : image) (m : machine) (p : ptr) (words : list Z) (k : nat)
    (c : list Z) (n : Z) (t : terminal_t) (pv : Z) (kt : nat) (script : list Z) (later : list irq) (con : console)
    (d d' : mods) (scs : list Z) (rest : list (list Z)) (buf : Z) (l : list Z) (c' : console) :
  commanded pb size img m p (text "hello") words k c n t -> at_terminal pv kt script later m con d (scs :: rest) ->
  video_apart pv pb size -> linked c hello_lits -> inside buf BUFSIZE -> clear_of buf BUFSIZE hello_lits ->
  presses scs (Typed d [] (con_puts (text "Hi, what's your name? ") con) false) = Some (Typed d' l c' false) ->
  Z.of_nat (length l) < 128 ->
  let m1 := launched m n t c words in
  execute p m = (Stop (EnterUser (entry_point c) USER_STACK), m1) /\
  exists m2, in_user (_start (hello_main buf)) m1 = (Stop (ReturnTo 0 (frame_esp (cpu m)) (frame_ebp (cpu m))), m2) /\
    shows pv m2 (con_puts (text "Hello, " ++ l) (con_enter c')) /\ processes_flags m2 = processes_flags m.
Proof.
  intros Hcm Hat Hva Hlk Hbuf Hcl Hpr Hl.
  apply (program_runs _ _ _ _ _ _ _ _ _ _ _ _ _ _ _ _ d (scs :: rest) _ _ 0 _ Hcm Hat Hva Hlk ltac:(lia)).
  intros OK Hs Hd. destruct (hello_ok _ _ buf scs rest d' l c' Hs eq_refl eq_refl Hd Hbuf Hcl eq_refl Hpr Hl) as (u & v' & E & Hs' & Hc & _).
  by exists u, v'.
Qed.

(** C20. The command [counter]: a line of one digit below 3, or an empty one, makes it
    print the numbers from 1 to 100, 10000 or 100000, or none; any other line is
    refused. *)
Theorem counter_runs `{PlatformOk} `{Literals} (pb size : Z) (img : image) (m : machine) (p : ptr) (words : list Z) (k : nat)
    (c : list Z) (n : Z) (t : terminal_t) (pv : Z) (kt : nat) (script : list Z) (later : list irq) (con : console)
    (d d' : mods) (scs : list Z) (rest : list (list Z)) (buf : Z) (l : list Z) (c' : console) :
  commanded pb size img m p (text "counter") words k c n t -> at_terminal pv kt script later m con d (scs :: rest) ->
  video_apart pv pb size -> linked c counter_lits -> inside buf BUFSIZE -> clear_of buf BUFSIZE counter_lits ->
  presses scs (Typed d [] (con_puts (line "Enter the Test Number: (0): 100, (1): 10000, (2): 100000") con) false) =
    Some (Typed d' l c' false) ->
  Z.of_nat (length l) < 128 ->
  let m1 := launched m n t c words in
  execute p m = (Stop (EnterUser (entry_point c) USER_STACK), m1) /\
  exists m2, in_user (_start (counter_main buf)) m1 = (Stop (ReturnTo 0 (frame_esp (cpu m)) (frame_ebp (cpu m))), m2) /\
    shows pv m2 (con_puts (counter_spec l) (con_enter c')) /\ processes_flags m2 = processes_flags m.
Proof.
  intros Hcm Hat Hva Hlk Hbuf Hcl Hpr Hl.
  apply (program_runs _ _ _ _ _ _ _ _ _ _ _ _ _ _ _ _ d (scs :: rest) _ _ 0 _ Hcm Hat Hva Hlk ltac:(lia)).
  intros OK Hs Hd. destruct (counter_ok _ _ buf scs rest d' l c' Hs eq_refl eq_refl Hd Hbuf Hcl eq_refl Hpr Hl) as (u & v' & E & Hs' & Hc & _). by exists u, v'.
Qed.

(** C21. The command [syserr]: every error test passes on this kernel.  After the line
    [0] all eight are run and the program prints that each passed, and returns 0;
    after a digit from 1 to 8, the one; after anything else, a message.  So
    descriptors out of range or not open, reading the screen and writing the
    keyboard, names that are not there, a seventh file, pointers out of the
    program and unknown call numbers are all refused, and leave the descriptors as they were. *)
Theorem syserr_runs `{PlatformOk} `{Literals} (pb size : Z) (img : image) (m : machine) (p : ptr) (words : list Z) (k : nat)
    (c : list Z) (n : Z) (t : terminal_t) (pv : Z) (kt : nat) (script : list Z) (later : list irq) (con : console)
    (d d' : mods) (scs : list Z) (rest : list (list Z)) (regs : Z * Z * Z) (tbuf buf b : Z) (l : list Z) (c' : console) :
  commanded pb size img m p (text "syserr") words k c n t -> at_terminal pv kt script later m con d (scs :: rest) ->
  video_apart pv pb size -> linked c syserr_lits -> inside buf 128 -> clear_of buf 128 syserr_lits -> test_names img ->
  presses scs (Typed d [] (con_puts (text "Choose from tests 1-8. 0 to run all: ") con) false) = Some (Typed d' (b :: l) c' false) ->
  let m1 := launched m n t c words in
  execute p m = (Stop (EnterUser (entry_point c) USER_STACK), m1) /\
  exists m2, in_user (_start (syserr_main regs tbuf buf)) m1 = (Stop (ReturnTo 0 (frame_esp (cpu m)) (frame_ebp (cpu m))), m2) /\
    shows pv m2 (con_puts (syserr_spec b) (con_enter c')) /\ processes_flags m2 = processes_flags m.
Proof.
  intros Hcm Hat Hva Hlk Hbuf Hcl Hnames Hpr.
  apply (program_runs _ _ _ _ _ _ _ _ _ _ _ _ _ _ _ _ d (scs :: rest) _ _ 0 _ Hcm Hat Hva Hlk ltac:(lia)).
  intros OK Hs Hd. apply (syserr_ok (User (launched m n t c words)) (new_view n words img con d (scs :: rest)) regs tbuf buf scs rest d' b l c');
    [by split|exact Hbuf|exact Hcl|done|exact Hpr].
Qed.

(** * A machine with the programs

    One file serves as every program: it holds the literals of [cat], [ls], [hello],
    [counter], [syserr], [grep] and [shell]; ["frame"] is a text of two lines. *)

Definition pool : list (list Z) := hello_lits ++ cat_lits ++ ls_lits ++ counter_lits ++ syserr_lits ++ grep_lits ++ shell_lits.

Fixpoint pool_at (ls : list (list Z)) (a : Z) (l : list Z) : Z :=
  match ls with
  | [] => a
  | x :: ls => if decide (x = l) then a else pool_at ls (a + Z.of_nat (length x) + 1) l
  end.

Definition tool_literals : Literals := {| lit := pool_at pool 0x804801C |}.
Definition tool_file : list Z := magic ++ replicate 20 0 ++ [0; 0x80; 4; 8] ++ concat ((fun l => l ++ [0]) <$> pool).
Definition frame_file : list Z := line "fish" ++ line "frame".

Definition entry_of (s : string) (kind node : Z) : dentry_s := Dentry (strncpy_spec 32 (text s ++ [0])) kind node.

Definition tools_image : image := Image
  [entry_of "." 1 0; entry_of "shell" 2 0; entry_of "cat" 2 0; entry_of "ls" 2 0; entry_of "hello" 2 0;
   entry_of "counter" 2 0; entry_of "syserr" 2 0; entry_of "grep" 2 0; entry_of "frame" 2 1] [tool_file; frame_file].

(** The image in memory at 0x420000: 6 blocks, the data of the files in the last two. *)
Definition word_bytes (a v : Z) : list (Z * Z) := imap (fun i b => (a + Z.of_nat i, b)) [v mod 256; v / 256].
Definition entry_bytes (i : nat) (d : dentry_s) : list (Z * Z) :=
  let a := 0x420040 + 64 * Z.of_nat i in
  imap (fun j b => (a + Z.of_nat j, b)) (d_name d) ++ [(a + 32, d_type d); (a + 36, d_inode d)].
Definition tools_bytes : list (Z * Z) :=
  [(0x420000, 9); (0x420004, 2); (0x420008, 2)] ++ concat (imap entry_bytes (im_dentries tools_image)) ++
  word_bytes 0x421000 (Z.of_nat (length tool_file)) ++ word_bytes 0x422000 (Z.of_nat (length frame_file)) ++ [(0x422004, 1)] ++
  imap (fun i b => (0x423000 + Z.of_nat i, b)) tool_file ++ imap (fun i b => (0x424000 + Z.of_nat i, b)) frame_file.
Definition tools_phys : gmap Z Z := list_to_map tools_bytes.

Section Tools.
Context `{PlatformOk}.

(** [typed] scancodes are waiting. *)
Definition tools_machine (typed : nat) : machine := shell_machine
  <| phys := tools_phys |> <| fs := Rofs 0x420000 0x421000 0x423000 |>
  <| kbd ::= fun k => k <| key_buffer := Some 0%nat |> |> <| pending := replicate typed IrqKeyboard |>
  <| cpu ::= fun c => c <| IF := true |> |>.

(** The first shell, in the system call [execute]. *)
Definition prompt_machine (typed : nat) : machine := launched (tools_machine typed) 0 zero_terminal tool_file [].

Variable typed : nat.

Lemma tools_pg : pg (tools_machine typed) = pg shell_machine.
Proof. reflexivity. Qed.

Lemma tools_loc a : loc (tools_machine typed) a = loc shell_machine a.
Proof. reflexivity. Qed.

Lemma tools_maps a n : 0x400000 <= a -> a + n <= 0x800000 -> maps (tools_machine typed) a a n.
Proof. intros Ha Hn. apply (maps_loc shell_machine); [exact tools_loc|exact (shell_maps a n Ha Hn)]. Qed.

Lemma tools_cell q : cell (tools_machine typed) q = u8 (default 0 (tools_phys !! q)).
Proof. reflexivity. Qed.

(** Every byte of the image is in place. *)
Lemma tools_words : forallb (fun x => u8 (default 0 (tools_phys !! x.1)) =? x.2) tools_bytes = true.
Proof. vm_compute. reflexivity. Qed.

Lemma tools_byte a b : In (a, b) tools_bytes -> cell (tools_machine typed) a = b.
Proof. intros Hin. pose proof (proj1 (forallb_forall _ _) tools_words _ Hin) as E. by apply Z.eqb_eq in E. Qed.

Lemma file_byte (l : list Z) a (k : nat) b : l !! k = Some b -> In (a + Z.of_nat k, b) (imap (fun i b => (a + Z.of_nat i, b)) l).
Proof. intros Hk. apply list_elem_of_In, elem_of_lookup_imap. by exists k, b. Qed.

Lemma tools_data n f k b : im_files tools_image !! n = Some f -> f !! k = Some b ->
  cell (tools_machine typed) (0x423000 + 4096 * Z.of_nat n + Z.of_nat k) = b.
Proof.
  intros Hf Hk. apply tools_byte. unfold tools_bytes. rewrite !in_app_iff. do 5 right.
  destruct n as [|[|n]]; [injection Hf as <-; left|injection Hf as <-; right|done].
  - exact (file_byte tool_file 0x423000 k b Hk).
  - exact (file_byte frame_file 0x424000 k b Hk).
Qed.

Lemma tools_short n f : im_files tools_image !! n = Some f -> (length f < 4096)%nat /\
  cell32 (tools_machine typed) (0x420000 + 4096 + 4096 * Z.of_nat n) = Z.of_nat (length f) /\
  cell32 (tools_machine typed) (0x420000 + 4096 + 4096 * Z.of_nat n + 4) = Z.of_nat n.
Proof. destruct n as [|[|n]]; [injection 1 as <-|injection 1 as <-|done]; (split; [cbn; lia|]); vm_compute; done. Qed.

Lemma tools_represents : represents 0x420000 0x5000 tools_image (tools_machine typed).
Proof.
  split.
  - apply tools_maps; cbn; lia.
  - cbn. lia.
  - cbn. lia.
  - reflexivity.
  - reflexivity.
  - vm_compute. reflexivity.
  - vm_compute. reflexivity.
  - cbn. lia.
  - intros i d Hd. do 9 (destruct i as [|i]; [injection Hd as <-; vm_compute; done|]). done.
  - intros n f Hf. destruct (tools_short n f Hf) as (Hl & Hc & _). split; [exact Hc|lia].
  - intros n f k b Hf Hk. destruct (tools_short n f Hf) as (Hl & _ & Hc). pose proof (lookup_lt_Some _ _ _ Hk) as Hlt.
    unfold data_offset. rewrite Nat.div_small, Nat.mod_small by lia. change (4 * Z.of_nat 0) with 0. rewrite Z.add_0_r, Hc.
    pose proof (lookup_lt_Some _ _ _ Hf) as Hn. cbn [tools_image im_files length] in *. split; [lia|].
    rewrite <- (tools_data n f k b Hf Hk). f_equal. lia.
Qed.

Lemma tools_kernel_ok : kernel_ok 0x420000 0x5000 tools_image (tools_machine typed).
Proof.
  split.
  - unfold paging_ok. rewrite tools_pg. exact shell_paging_ok.
  - exact tools_represents.
  - intros n Hn. split; [left; cbn; unfold VIRTUAL_START; lia|left; unfold window, PHYSICAL_START, FOUR_MB_BLOCK; lia].
  - intros n Hn. destruct (ko_blocks _ _ _ _ shell_kernel_ok n Hn) as [Hb Hp]. split; [exact Hb|exact Hp].
  - cbn. lia.
  - destruct (ko_accounts _ _ _ _ shell_kernel_ok) as [A1 A2 A3 A4]. split; [exact A1|exact A2|exact A3|exact A4].
Qed.

Lemma tools_can_start : can_start (tools_machine typed) 0 zero_terminal.
Proof. destruct shell_can_start as [S1 S2 S3 S4 S5 S6 S7 S8]. split; [exact S1|exact S2|exact S3|exact S4|exact S5|exact S6|exact S7|exact S8]. Qed.

Lemma prompt_kernel_ok : kernel_ok 0x420000 0x5000 tools_image (prompt_machine typed).
Proof.
  unfold prompt_machine. apply launched_kernel_ok; [exact tools_kernel_ok|exact tools_can_start|].
  assert (length tool_file <= 4096)%nat by (vm_compute; lia). unfold FOUR_MB_BLOCK. lia.
Qed.

Lemma prompt_can_start : can_start (prompt_machine typed) 1 one_terminal.
Proof.
  pose proof (ko_accounts _ _ _ _ prompt_kernel_ok) as Ha. destruct (ko_blocks _ _ _ _ prompt_kernel_ok 1 ltac:(lia)) as [Hl Hp].
  split; [exact (ac_flags _ Ha)|reflexivity|exact (ac_terminals _ Ha)|by apply accounts_counts|reflexivity|by split|exact Hl|exact Hp].
Qed.

Lemma tools_shows : shows VIDEO (tools_machine typed) blank_console.
Proof.
  destruct shell_shows as [S1 S2 S3 S4 S5]. split; [exact S1|exact S2| |exact S4|exact S5].
  intros i Hi. cbn [con_text blank_console]. rewrite lookup_replicate_2 by lia. f_equal. rewrite tools_cell.
  assert (forallb (fun x => 0x420000 <=? x.1) tools_bytes = true) as Hall by (vm_compute; reflexivity).
  unfold tools_phys. rewrite not_elem_of_list_to_map_1; [done|]. intros ([a b] & Ha & Hin)%list_elem_of_fmap.
  apply list_elem_of_In in Hin. pose proof (proj1 (forallb_forall _ _) Hall _ Hin) as E. apply Z.leb_le in E. cbn in *. unfold VIDEO in Ha. lia.
Qed.

Lemma tools_typed : typed_shown VIDEO 0 (tools_machine typed) (Typed no_mods [] blank_console false).
Proof. split; [exact tools_shows|split; [reflexivity|reflexivity|cbn; lia|reflexivity]| |reflexivity]. split; cbn; done || lia. Qed.

Lemma tool_bytes : Forall is_byte tool_file.
Proof.
  apply List.Forall_forall. intros b Hb. assert (forallb (fun b => (0 <=? b) && (b <? 256)) tool_file = true) as E by (vm_compute; reflexivity).
  apply (proj1 (forallb_forall _ _) E) in Hb. apply andb_true_iff in Hb. unfold is_byte. lia.
Qed.

Lemma prompt_typed : typed_shown VIDEO 0 (prompt_machine typed) (Typed no_mods [] blank_console false).
Proof.
  unfold prompt_machine. eapply launched_typed; [|lia|unfold VIDEO, PHYSICAL_START; lia|exact (cs_current _ _ _ tools_can_start)|exact tools_typed].
  apply launched_view; [apply tools_kernel_ok|lia|exact tool_bytes|constructor|cbn; lia].
Qed.

(** A command at the prompt. *)
Lemma prompt_commanded p w words :
  command_line (prompt_machine typed) p w words -> ~ is_exit w -> program tools_image w 0 tool_file ->
  commanded 0x420000 0x5000 tools_image (prompt_machine typed) p w words 0 tool_file 1 one_terminal.
Proof.
  intros Hl Hx Hp. split; [exact prompt_kernel_ok|exact prompt_can_start|exact Hl|exact Hx|exact Hp|reflexivity| |cbn; lia].
  assert (length tool_file <= 4096)%nat by (vm_compute; lia). unfold FOUR_MB_BLOCK. lia.
Qed.
End Tools.

Lemma typist_ok script : @PlatformOk (typist script).
Proof. split; vm_compute; repeat split; done. Qed.

(** The memory of the second process, but for its program. *)
Lemma prompt_free `{PlatformOk} : cell (launched (prompt_machine 0) 1 one_terminal tool_file (text "ish")) (at_ (window 1) 0x8102000 + 1024) <> 10.
Proof.
  assert (length tool_file <= 4096)%nat as Hl by (vm_compute; lia). set (q := at_ (window 1) 0x8102000 + 1024).
  assert (q = 13640704) as Hq by reflexivity.
  rewrite launched_cells, cell_upds_out by (rewrite Hq; unfold window, PHYSICAL_START, FOUR_MB_BLOCK; lia).
  unfold prompt_machine. rewrite launched_cells, cell_upds_out by (rewrite Hq; unfold window, PHYSICAL_START, FOUR_MB_BLOCK; lia).
  rewrite tools_cell, Hq. vm_compute. discriminate.
Qed.

(** A command without arguments. *)
Lemma plain_line `{Platform} (m : machine) w : Forall word_char w -> (length w < 128)%nat -> command_line m (cstr w) w [].
Proof.
  intros Hw Hl. split; [done|exact Hw|exact Hl|constructor|cbn; lia|].
  exists 0. split; [by left|]. left. split; [done|]. apply reads_buf0.
Qed.

Lemma tool_linked : let L := tool_literals in linked tool_file cat_lits /\ linked tool_file ls_lits /\
  linked tool_file hello_lits /\ linked tool_file counter_lits /\ linked tool_file syserr_lits /\ linked tool_file grep_lits /\ linked tool_file shell_lits.
Proof.
  intros L. split_and!; unfold linked; repeat constructor; try (vm_compute; discriminate); vm_compute; reflexivity.
Qed.

Lemma tool_clear : let L := tool_literals in clear_of 0x8100000 BUFSIZE cat_lits /\ clear_of 0x8100000 BUFSIZE hello_lits /\
  clear_of 0x8100000 BUFSIZE counter_lits /\ clear_of 0x8100000 128 syserr_lits /\
  clear_of 0x8100000 BUFSIZE grep_lits /\ clear_of 0x8101000 SBUFSIZE grep_lits /\ clear_of 0x8102000 1025 grep_lits /\
  clear_of 0x8100000 BUFSIZE shell_lits.
Proof. intros L. split_and!; unfold clear_of; repeat (apply List.Forall_cons; [left; vm_compute; discriminate|]); apply List.Forall_nil. Qed.

Lemma video_below : video_apart VIDEO 0x420000 0x5000.
Proof. unfold video_apart, VIDEO, PHYSICAL_START. lia. Qed.

Lemma tools_named : Forall name_ends (im_dentries tools_image).
Proof. repeat constructor; right; reflexivity. Qed.

(** At the prompt with keys to come. *)
Lemma prompt_at keys (script := concat ((fun scs => scs ++ [ENTER]) <$> keys)) (P := typist script) :
  Forall (Forall is_byte) keys ->
  at_terminal VIDEO 0 script [] (@prompt_machine P (length script)) blank_console no_mods keys.
Proof.
  intros Hk. assert (Forall is_byte script) as Hs.
  { unfold script. apply Forall_concat, Forall_fmap. eapply Forall_impl; [|exact Hk]. intros scs Hscs. apply Forall_app. split; [exact Hscs|].
    repeat constructor. done. }
  split.
  - exact (typist_feeds script Hs).
  - exact (@prompt_typed P (typist_ok script) (length script)).
  - split; [reflexivity|cbn [pending]; by rewrite app_nil_r|exists []; by rewrite app_nil_r].
  - eapply Forall_impl; [|exact Hk]. intros scs Hscs. eapply Forall_impl; [|exact Hscs]. unfold is_byte. intros b Hb. cbv beta. lia.
Qed.

Lemma cat_runs_witness : let P := typist [] in let OK := typist_ok [] in let L := tool_literals in
  exists m2, in_user (_start (cat_main 0x8100000)) (launched (prompt_machine 0) 1 one_terminal tool_file (text "frame")) =
      (Stop (ReturnTo 0 0x7FFE8C 0x7FFFEC), m2) /\
    shows VIDEO m2 (con_puts (line "fish" ++ line "frame") blank_console).
Proof.
  intros P OK L. pose proof (prompt_at [] ltac:(constructor)) as Hat.
  destruct (cat_runs 0x420000 0x5000 tools_image (prompt_machine 0) (cstr (text "cat frame")) (text "frame") 0 tool_file 1
    one_terminal VIDEO 0 [] [] blank_console no_mods [] 0x8100000 0 (line "fish" ++ line "frame")) as (_ & m2 & E & Hs & _).
  - apply prompt_commanded; [|discriminate|eexists; split; [reflexivity|done]].
    split; [done|repeat constructor; done|cbn; lia|repeat constructor; done|cbn; lia|].
    exists 0. split; [by left|]. right. apply reads_buf0.
  - exact Hat.
  - exact video_below.
  - apply tool_linked.
  - unfold inside, VIRTUAL_START, VIRTUAL_END. lia.
  - apply tool_clear.
  - exact tools_named.
  - vm_compute. reflexivity.
  - exists m2. split; [exact E|exact Hs].
Defined.

Lemma ls_runs_witness : let P := typist [] in let OK := typist_ok [] in let L := tool_literals in
  exists m2, in_user (_start (ls_main 0x8100000)) (launched (prompt_machine 0) 1 one_terminal tool_file []) =
      (Stop (ReturnTo 0 0x7FFE8C 0x7FFFEC), m2) /\
    shows VIDEO m2 (con_puts (line "." ++ line "shell" ++ line "cat" ++ line "ls" ++ line "hello" ++ line "counter" ++ line "syserr" ++ line "grep" ++ line "frame")
      blank_console).
Proof.
  intros P OK L. pose proof (prompt_at [] ltac:(constructor)) as Hat.
  destruct (ls_runs 0x420000 0x5000 tools_image (prompt_machine 0) (cstr (text "ls")) [] 0 tool_file 1 one_terminal VIDEO 0 [] []
    blank_console no_mods [] 0x8100000 0
    (line "." ++ line "shell" ++ line "cat" ++ line "ls" ++ line "hello" ++ line "counter" ++ line "syserr" ++ line "grep" ++ line "frame")) as (_ & m2 & E & Hs & _).
  - apply prompt_commanded; [apply plain_line; [repeat constructor; done|cbn; lia]|discriminate|eexists; split; [reflexivity|done]].
  - exact Hat.
  - exact video_below.
  - apply tool_linked.
  - unfold inside, VIRTUAL_START, VIRTUAL_END, SBUFSIZE. lia.
  - exact tools_named.
  - vm_compute. reflexivity.
  - exists m2. split; [exact E|exact Hs].
Defined.

(** The word occurs in the text alone. *)
Lemma grep_runs_witness : let P := typist [] in let OK := typist_ok [] in let L := tool_literals in
  exists m2, in_user (_start (grep_main 0x8100000 0x8101000 0x8102000)) (launched (prompt_machine 0) 1 one_terminal tool_file (text "ish")) =
      (Stop (ReturnTo 0 0x7FFE8C 0x7FFFEC), m2) /\
    shows VIDEO m2 (con_puts (line "frame:fish") blank_console).
Proof.
  intros P OK L. pose proof (prompt_at [] ltac:(constructor)) as Hat. unfold BUFSIZE, SBUFSIZE.
  destruct (grep_runs 0x420000 0x5000 tools_image (prompt_machine 0) (cstr (text "grep ish")) (text "ish") 0 tool_file 1
    one_terminal VIDEO 0 [] [] blank_console no_mods [] 0x8100000 0x8101000 0x8102000 0 (line "frame:fish")) as (_ & m2 & E & Hs & _).
  - apply prompt_commanded; [|discriminate|eexists; split; [reflexivity|done]].
    split; [done|repeat constructor; done|cbn; lia|repeat constructor; done|cbn; lia|].
    exists 0. split; [by left|]. right. apply reads_buf0.
  - exact Hat.
  - exact video_below.
  - apply tool_linked.
  - split; [unfold inside, BUFSIZE, VIRTUAL_START, VIRTUAL_END; lia|apply tool_clear].
  - split; [unfold inside, SBUFSIZE, VIRTUAL_START, VIRTUAL_END; lia|apply tool_clear].
  - split; [unfold inside, VIRTUAL_START, VIRTUAL_END; lia|apply tool_clear].
  - left. vm_compute. discriminate.
  - left. vm_compute. discriminate.
  - left. vm_compute. discriminate.
  - exact tools_named.
  - vm_compute. reflexivity.
  - exact prompt_free.
  - exists m2. split; [exact E|exact Hs].
Defined.

(** [L], [s] and a backspace are typed. *)
Lemma hello_runs_witness : let script := some_keys ++ [ENTER] in
  let P := typist script in let OK := typist_ok script in let L := tool_literals in
  exists m2, in_user (_start (hello_main 0x8100000)) (launched (prompt_machine 6) 1 one_terminal tool_file []) =
      (Stop (ReturnTo 0 0x7FFE8C 0x7FFFEC), m2) /\
    shows VIDEO m2 (con_puts (text "Hello, L") (con_enter (con_backspace (con_putc 115 (con_putc 76
      (con_puts (text "Hi, what's your name? ") blank_console)))))).
Proof.
  intros script P OK L. pose proof (prompt_at [some_keys] ltac:(repeat constructor; done)) as Hat.
  destruct (hello_runs 0x420000 0x5000 tools_image (prompt_machine 6) (cstr (text "hello")) [] 0 tool_file 1 one_terminal VIDEO 0
    script [] blank_console no_mods no_mods some_keys [] 0x8100000 [76]
    (con_backspace (con_putc 115 (con_putc 76 (con_puts (text "Hi, what's your name? ") blank_console))))) as (_ & m2 & E & Hs & _).
  - apply prompt_commanded; [apply plain_line; [repeat constructor; done|cbn; lia]|discriminate|eexists; split; [reflexivity|done]].
  - exact Hat.
  - exact video_below.
  - apply tool_linked.
  - unfold inside, VIRTUAL_START, VIRTUAL_END, BUFSIZE. lia.
  - apply tool_clear.
  - vm_compute. reflexivity.
  - cbn. lia.
  - exists m2. split; [exact E|exact Hs].
Defined.

(** The digit 0 is typed. *)
Lemma counter_runs_witness : let script := [0x0B; ENTER] in
  let P := typist script in let OK := typist_ok script in let L := tool_literals in
  exists m2, in_user (_start (counter_main 0x8100000)) (launched (prompt_machine 2) 1 one_terminal tool_file []) =
      (Stop (ReturnTo 0 0x7FFE8C 0x7FFFEC), m2) /\
    shows VIDEO m2 (con_puts (count_lines 100) (con_enter (con_putc 48
      (con_puts (line "Enter the Test Number: (0): 100, (1): 10000, (2): 100000") blank_console)))).
Proof.
  intros script P OK L. pose proof (prompt_at [[0x0B]] ltac:(repeat constructor; done)) as Hat.
  destruct (counter_runs 0x420000 0x5000 tools_image (prompt_machine 2) (cstr (text "counter")) [] 0 tool_file 1 one_terminal VIDEO 0
    script [] blank_console no_mods no_mods [0x0B] [] 0x8100000 [48]
    (con_putc 48 (con_puts (line "Enter the Test Number: (0): 100, (1): 10000, (2): 100000") blank_console))) as (_ & m2 & E & Hs & _).
  - apply prompt_commanded; [apply plain_line; [repeat constructor; done|cbn; lia]|discriminate|eexists; split; [reflexivity|done]].
  - exact Hat.
  - exact video_below.
  - apply tool_linked.
  - unfold inside, VIRTUAL_START, VIRTUAL_END, BUFSIZE. lia.
  - apply tool_clear.
  - vm_compute. reflexivity.
  - cbn. lia.
  - exists m2. split; [exact E|exact Hs].
Defined.

(** The digit 0 is typed: all tests. *)
Lemma syserr_runs_witness : let script := [0x0B; ENTER] in
  let P := typist script in let OK := typist_ok script in let L := tool_literals in
  exists m2, in_user (_start (syserr_main (0, 0, 0) 0x8101000 0x8100000)) (launched (prompt_machine 2) 1 one_terminal tool_file []) =
      (Stop (ReturnTo 0 0x7FFE8C 0x7FFFEC), m2) /\
    shows VIDEO m2 (con_puts (concat test_lines ++ 10 :: line "Overall Tests: PASS") (con_enter (con_putc 48
      (con_puts (text "Choose from tests 1-8. 0 to run all: ") blank_console)))).
Proof.
  intros script P OK L. pose proof (prompt_at [[0x0B]] ltac:(repeat constructor; done)) as Hat.
  destruct (syserr_runs 0x420000 0x5000 tools_image (prompt_machine 2) (cstr (text "syserr")) [] 0 tool_file 1 one_terminal VIDEO 0
    script [] blank_console no_mods no_mods [0x0B] [] (0, 0, 0) 0x8101000 0x8100000 48 []
    (con_putc 48 (con_puts (text "Choose from tests 1-8. 0 to run all: ") blank_console))) as (_ & m2 & E & Hs & _).
  - apply prompt_commanded; [apply plain_line; [repeat constructor; done|cbn; lia]|discriminate|eexists; split; [reflexivity|done]].
  - exact Hat.
  - exact video_below.
  - apply tool_linked.
  - unfold inside, VIRTUAL_START, VIRTUAL_END. lia.
  - apply tool_clear.
  - split; [eexists _, _; split; reflexivity|reflexivity|reflexivity|reflexivity].
  - vm_compute. reflexivity.
  - exists m2. split; [exact E|exact Hs].
Defined.
