(* ===== verification/Session.v ===== *)
(** A session of the shell on the machine: the programs it starts run in the system call
    [execute], each of them with its own system calls, and come back with [halt]. *)

From S2P Require Import Prelude Memory CLib Support Machine I8259 Rtc Pcb Rofs Paging Screen Keyboard TermIO Files Process Launch Halt Syscalls Terminal Handlers Calls Programs UserMode Commands Shell.

(** * Coming back from a program *)

(** The process can start another one: it is counted, [n] is free, and it is the current
    process of the terminal in front. *)
Record can_launch (s : place) (n : Z) : Prop := {
  cl_flag : Z.testbit (processes_flags (ps_start s)) (ps_pid s) = true;
  cl_free : free_pid (processes_flags (ps_start s)) = Some n;
  cl_terminal : exists t, terminal (ps_start s) !! Z.to_nat (term_cur (ps_start s) - 1) = Some t /\
    1 <= num_processes t /\ term_pid t = ps_pid s
}.

(** The kernel stack after one more program: lower by what [execute] leaves on it. *)
Definition lower `{Platform} (s : place) : place :=
  Place (ps_pid s) (ps_start s) (ps_pb s) (ps_size s) (ps_img s) (ps_video s) (ps_term s) (ps_script s) (ps_later s) (ps_room s - RUN_STACK).

Lemma split_command_spec l : forall w words, split_command l = (w, words) ->
  Forall (fun c => c <> 32) w /\ (l = w /\ words = [] \/ l = w ++ [32] ++ words).
Proof.
  induction l as [|c l IH]; intros w words; cbn [split_command].
  - intros [= <- <-]. split; [apply List.Forall_nil|by left].
  - destruct (Z.eqb_spec c 32) as [->|Hne].
    + intros [= <- <-]. split; [apply List.Forall_nil|by right].
    + destruct (split_command l) as [w' words'] eqn:E. intros [= <- <-]. destruct (IH w' words' eq_refl) as [Hw Hl].
      split; [by apply List.Forall_cons|]. destruct Hl as [[-> ->]| ->]; [by left|by right].
Qed.

Section Child.
Context `{PlatformOk} (s : place) (Hp : place_ok s) (m : machine) (v : view) (Hr : runs s m v) (n : Z) (Hlaunch : can_launch s n).

Lemma launch_ready : exists t, can_start (entered m) n t /\ 1 <= num_processes t /\ term_pid t = ps_pid s.
Proof.
  pose proof (ru_since _ _ _ Hr) as Hran. destruct Hlaunch as [Hfl Hfree (t0 & Ht0 & Hn0 & Hp0)].
  pose proof (rn_flags _ _ _ Hran) as Hf. pose proof (rn_current _ _ _ Hran) as Hc.
  destruct (rn_terminals _ _ _ Hran) as [_ Hterm]. destruct (Hterm _ _ Ht0) as (t & Ht & Hnp & Htp).
  change (processes_flags (entered m)) with (processes_flags m) in Hf. change (term_cur (entered m)) with (term_cur m) in Hc.
  change (terminal (entered m)) with (terminal m) in Ht.
  pose proof (ru_kernel _ _ _ Hr) as Hk. pose proof (ko_accounts _ _ _ _ Hk) as Ha.
  rewrite <- Hf in Hfree. rewrite <- Hc in Ht. destruct (proj1 (free_pid_Some _ _) Hfree) as (Hn & _).
  exists t. split; [|split; [lia|congruence]]. apply can_start_cpu.
  destruct (ko_blocks _ _ _ _ Hk n Hn) as [Hl Hpok].
  split; [exact (ac_flags _ Ha)|exact Hfree|exact (ac_terminals _ Ha)|by apply accounts_counts| |split; [apply Hk|exact Ht]|exact Hl|exact Hpok].
  rewrite (ac_total _ Ha). apply live_room. by exists n.
Qed.

(** The command in the memory of the program, as [execute] reads it. *)
Lemma command_read a l w words :
  inside a (Z.of_nat (length (l ++ [0]))) -> holds (User m) (at_ (v_home v) a) (l ++ [0]) -> command l w words ->
  command_line (entered m) (Raw a) w words.
Proof.
  intros Hi Hh (Hsp & Hlen & Hl & _). destruct (split_command_spec l w words Hsp) as [Hw Hcase].
  destruct (name_given s Hp m v a (l ++ [0]) Hr Hi Hh) as (Hn & Hnull & _); [apply elem_of_app; right; by left|].
  assert (Forall (fun b => 0 < b < 256 /\ b <> 10) w /\ Forall (fun b => 0 < b < 256 /\ b <> 10) words /\
    (length w <= length l)%nat /\ (length words <= length l)%nat) as (Hwl & Hwsl & Hlw & Hlws).
  { destruct Hcase as [[<- ->]| ->]; [split_and!; [done|apply List.Forall_nil|lia|cbn; lia]|].
    apply Forall_app in Hl as [? Hl2]. apply Forall_app in Hl2 as [_ ?]. rewrite !length_app. split_and!; [done|done|lia|lia]. }
  split.
  - exact Hnull.
  - rewrite List.Forall_forall in Hw, Hwl. apply List.Forall_forall. intros b Hb. specialize (Hw b Hb). destruct (Hwl b Hb).
    split; [unfold is_byte; lia|]. split_and!; [done|lia|done].
  - lia.
  - rewrite List.Forall_forall in Hwsl. apply List.Forall_forall. intros b Hb. destruct (Hwsl b Hb).
    split; [unfold is_byte; lia|]. split; [lia|done].
  - lia.
  - exists 0. split; [by left|]. destruct Hcase as [[<- ->]| ->]; [left; split; [done|]|right; rewrite <- !app_assoc in Hn]; apply Hn.
Qed.

Lemma find_program_ok w c : find_program (v_img v) w = Some (inr c) ->
  exists k, program (ps_img s) w k c /\ take 4 c = magic.
Proof.
  rewrite (ru_img _ _ _ Hr). unfold find_program. destruct (find_dentry (ps_img s) (w ++ [0])) as [d|] eqn:Ed; [|done].
  destruct (Z.leb_spec 0 (d_inode d)); [|done]. destruct (im_files _ !! _) as [c'|] eqn:Ec; [|done]. cbn [fmap option_fmap option_map].
  destruct (decide _) as [Hm|]; [|done]. intros [= <-]. exists (Z.to_nat (d_inode d)). split; [|exact Hm].
  exists d. split; [exact Ed|]. split; [lia|exact Ec].
Qed.

Lemma child_terminal : at_terminal (ps_video s) (ps_term s) (ps_script s) (ps_later s) (entered m) (v_con v) (v_mods v) (v_typed v).
Proof.
  split; [exact (po_feeds _ Hp)| |exact (ru_keys _ _ _ Hr)|exact (ru_codes _ _ _ Hr)].
  exact (typed_shown_ext _ _ m (entered m) _ eq_refl (fun _ _ => eq_refl) eq_refl eq_refl eq_refl (ru_typed _ _ _ Hr)).
Qed.

Lemma child_video : video_apart (ps_video s) (ps_pb s) (ps_size s).
Proof. split; [exact (po_video_low _ Hp)|exact (po_video_image _ Hp)]. Qed.
End Child.

(** The descriptors of a program are not of the clock. *)
Lemma no_clock `{PlatformOk} img fl sl : Forall2 (stream_is img) fl sl -> ~ clock_open fl.
Proof.
  intros Hf (i & f & _ & Hl & Ho & Hop). destruct (Forall2_lookup_l _ _ _ _ _ Hf Hl) as (st & _ & Hs).
  destruct st; cbn in Hs; [congruence| | | |]; destruct Hs as (_ & Hops & _) || destruct Hs as (_ & Hops); by rewrite Hops in Hop.
Qed.

(** The next system call of a process that has gone on. *)
Lemma ran_on `{PlatformOk} m0 m x g n : ran m0 m n ->
  current (x <| cpu ::= g |>) = get_pcb n -> is_Some (loc x (get_pcb n)) -> paging_ok x ->
  processes_flags x = processes_flags m -> term_cur x = term_cur m -> counts_kept (terminal m) (terminal x) ->
  pcb_of x (get_pcb n) = pcb_of m (get_pcb n) -> ran m0 (x <| cpu ::= g |>) n.
Proof.
  intros [G1 G2 G3 G4 G5 G6 G7] Hc Hl Hok Hf Ht Hk Hb. split; [exact Hc|exact Hl|exact Hok|exact (eq_trans Hf G4)|exact (eq_trans Ht G5)| |].
  - exact (counts_kept_trans _ _ _ G6 Hk).
  - cbv zeta in G7 |- *. change (pcb_of (x <| cpu ::= g |>) (get_pcb n)) with (pcb_of x (get_pcb n)). rewrite Hb. exact G7.
Qed.

Lemma untouched_cpu `{PlatformOk} m x f a : untouched m x a -> untouched m (x <| cpu ::= f |>) a.
Proof. intros [U1 U2]. by split. Qed.

(** A process that goes on, one trap lower in its kernel stack, with what another one has left
    on the terminal. *)
Lemma runs_on `{PlatformOk} s (Hp : place_ok s) (Hroom : RUN_STACK <= ps_room s) m v (Hr : runs s m v) m3 con d keys (n : Z) :
  can_launch s n ->
  kernel_ok (ps_pb s) (ps_size s) (ps_img s) m3 -> in_window m3 (ps_pid s) -> esp0 (tss m3) = esp0 (tss m) - RUN_STACK ->
  processes_flags m3 = processes_flags m -> term_cur m3 = term_cur m -> counts_kept (terminal m) (terminal m3) ->
  (forall a, 0 <= a < 6 -> a <> n -> Z.testbit (processes_flags (ps_start s)) a = true -> untouched m m3 a) ->
  typed_shown (ps_video s) (ps_term s) m3 (Typed d [] con false) ->
  to_come (ps_script s) (concat ((fun scs => scs ++ [ENTER]) <$> keys)) (ps_later s) (entered m3) ->
  Forall (Forall (fun sc => 0 <= sc)) keys ->
  runs (lower s) (left m m3) (with_tty (con, d, keys) v).
Proof.
  intros Hlaunch Kk Kw Ke Kf Kc Kt Ku Ky Kq Kcodes.
  pose proof (ru_stack _ _ _ Hr) as Hst. pose proof (cl_flag _ _ Hlaunch) as Hbit. pose proof (po_pid _ Hp) as Hpid6.
  pose proof (cl_free _ _ Hlaunch) as Hfree. destruct (proj1 (free_pid_Some _ _) Hfree) as (_ & Hb0 & _).
  destruct (Ku (ps_pid s) Hpid6 ltac:(congruence) Hbit) as [Hb _].
  assert (place_ok (lower s)) as Hpl.
  { destruct Hp as [Q1 Q2 Q3 Q4 Q5]. split; [exact Q1|cbn; lia|exact Q3|exact Q4|exact Q5]. }
  pose proof run_stack as Hrs. pose proof (stack_low_above (ps_pid s)) as Hlow.
  assert (stack_low (ps_pid (lower s)) + 64 + ps_room (lower s) <= esp0 (tss m3) < get_pcb (ps_pid (lower s)) + 64 + EIGHT_KB_BLOCK) as Hst'
    by (rewrite Ke; cbn [lower ps_pid ps_room]; lia).
  pose proof (ko_blocks _ _ _ _ Kk (ps_pid s) Hpid6) as [Kmap _].
  assert (current (entered (left m m3)) = get_pcb (ps_pid s)) as Kcur by (apply (entered_here (lower s)); [exact Hpl|exact Hst']).
  split; cbn [lower ps_pid ps_start ps_pb ps_size ps_img ps_video ps_term ps_script ps_later ps_room].
  - apply kernel_ok_cpu. exact Kk.
  - exact Kw.
  - exact Hst'.
  - apply (ran_on (ps_start s) (entered m)); [exact (ru_since _ _ _ Hr)|exact Kcur|exact Kmap|exact (ko_paging _ _ _ _ Kk)|exact Kf|exact Kc|exact Kt|exact Hb].
  - intros a Ha Hnea Hba. apply (untouched_trans _ m); [by apply (ru_others _ _ _ Hr)|]. apply untouched_cpu. apply Ku; [exact Ha|congruence|exact Hba].
  - exact (ru_args _ _ _ Hr).
  - exact (ru_words _ _ _ Hr).
  - exact (ru_home _ _ _ Hr).
  - exact (ru_img _ _ _ Hr).
  - change (pcb_of (left m m3) (get_pcb (ps_pid s))) with (pcb_of m3 (get_pcb (ps_pid s))). rewrite Hb. exact (ru_fds _ _ _ Hr).
  - apply typed_shown_cpu. exact Ky.
  - exact (to_come_ext _ _ _ (entered m3) (entered (left m m3)) eq_refl eq_refl eq_refl Kq).
  - exact Kcodes.
Qed.

Section Back.
Context `{PlatformOk} (s : place) (Hp : place_ok s) (Hroom : RUN_STACK <= ps_room s) (m : machine) (v : view) (Hr : runs s m v).
Context (p : ptr) (w words : list Z) (k : nat) (c : list Z) (n : Z) (t : terminal_t) (Hlaunch : can_launch s n).
Hypothesis Hcm : commanded (ps_pb s) (ps_size s) (ps_img s) (entered m) p w words k c n t.
Hypothesis Hpid : term_pid t = ps_pid s.

Let m1 := launched (entered m) n t c words.
Let s1 := Place n m1 (ps_pb s) (ps_size s) (ps_img s) (ps_video s) (ps_term s) (ps_script s) (ps_later s) START_ROOM.
Context (mu : machine) (v1 : view) (Hc : runs s1 mu v1).

Let p2 := pcb_of mu (get_pcb n).

Lemma child_pid : 0 <= n < 6 /\ n <> ps_pid s.
Proof.
  destruct Hlaunch as [Hfl Hfree _]. destruct (proj1 (free_pid_Some _ _) Hfree) as (Hn & Hb & _). split; [exact Hn|].
  intros ->. congruence.
Qed.

(** The other processes through the life of the child. *)
Lemma child_untouched a : 0 <= a < 6 -> a <> n -> Z.testbit (processes_flags (ps_start s)) a = true -> untouched m mu a.
Proof.
  intros Ha Hne Hb. apply (untouched_trans m m1).
  - pose proof (launched_untouched _ _ _ _ _ _ _ _ _ _ _ Hcm a Ha Hne) as [U1 U2]. by split.
  - apply (ru_others _ _ _ Hc); [exact Ha|exact Hne|]. cbn [ps_start s1]. unfold m1. rewrite launched_flags.
    change (processes_flags (entered m)) with (processes_flags m). pose proof (rn_flags _ _ _ (ru_since _ _ _ Hr)) as Hf.
    change (processes_flags (entered m)) with (processes_flags m) in Hf. rewrite Hf, setbit_spec by (destruct child_pid; lia).
    rewrite Hb. apply orb_true_r.
Qed.

Lemma trap_room : RUN_STACK <= esp0 (tss m) < 4294967296.
Proof.
  pose proof (ru_stack _ _ _ Hr). pose proof (proj1 (get_pcb_range (ps_pid s) (po_pid _ Hp))). pose proof (po_pid _ Hp).
  pose proof (po_room _ Hp). pose proof frame_room. unfold stack_low, RUN_STACK, sizeof_pcb_t, MAX_ARGS_LENGTH, PHYSICAL_START, EIGHT_KB_BLOCK in *. lia.
Qed.

Lemma child_ends : exists t2, can_halt (entered mu) t2 p2 /\ num_processes t2 = num_processes t + 1 /\
  pid p2 = n /\ parent_pid p2 = ps_pid s /\ parent_esp p2 = esp0 (tss m) - RUN_STACK /\ parent_ebp p2 = esp0 (tss m) - 68 /\
  processes_flags mu = Z.lor (processes_flags m) (Z.shiftl 1 n) /\ term_cur mu = term_cur m /\
  Z.land (processes_flags mu) (Z.lnot (Z.shiftl 1 n)) = processes_flags m /\ processes_flags m <> 0.
Proof.
  pose proof Hcm as [C1 C2 C3 C4 C5 C6 C7 [C8 C9]].
  destruct (child_ready (ps_pb s) (ps_size s) (ps_img s) (entered m) p w words k c n t (entered mu) C1 C2 C3 C5 C8 C9 (ru_since _ _ _ Hc))
    as (P1 & P2 & P3 & P4 & Hfl & Htc & Hl & Hnz & t2 & Hch & Hnp).
  change (pcb_of (entered mu) (get_pcb n)) with p2 in *. exists t2. rewrite P1 in Hl.
  split; [exact Hch|]. split; [exact Hnp|]. split; [exact P1|]. split; [congruence|]. split.
  { rewrite P3. destruct (frame_entered m) as [-> _]. apply u32_small. pose proof trap_room. pose proof run_stack. lia. }
  split; [|by split_and!]. rewrite P4. destruct (frame_entered m) as (_ & -> & _). apply u32_small.
  pose proof trap_room. pose proof run_stack. lia.
Qed.

(** The state the parent goes on in: only the terminal, the window and the stacks differ. *)
Section Resumed.
Context (t2 : terminal_t) (Hch : can_halt (entered mu) t2 p2) (Hnp : num_processes t2 = num_processes t + 1).
Hypothesis Hn : pid p2 = n.
Hypothesis Hparent : parent_pid p2 = ps_pid s.
Hypothesis Hesp : parent_esp p2 = esp0 (tss m) - RUN_STACK.
Hypothesis Hcur : term_cur mu = term_cur m.
Hypothesis Hflags : processes_flags mu = Z.lor (processes_flags m) (Z.shiftl 1 n).
Hypothesis Hback : Z.land (processes_flags mu) (Z.lnot (Z.shiftl 1 n)) = processes_flags m.

Let m3 := resumed (quiet (entered mu)) t2 p2.

Lemma back_quiet : hw_only (quiet (entered mu)) (quiet (entered mu)).
Proof. exists false. by destruct mu as [? ? ? []]. Qed.

Lemma back_kernel : kernel_ok (ps_pb s) (ps_size s) (ps_img s) m3.
Proof.
  apply (resumed_kernel_ok _ _ _ (entered mu)); [apply kernel_ok_cpu; exact (ru_kernel _ _ _ Hc)|exact back_quiet|exact Hch|].
  change (processes_flags (entered mu)) with (processes_flags mu). rewrite Hflags, Hn, setbit_spec by (destruct child_pid; lia). by rewrite Z.eqb_refl.
Qed.

Lemma back_window : in_window m3 (ps_pid s).
Proof.
  destruct (ko_paging _ _ _ _ (ru_kernel _ _ _ Hc)) as ((Hl & _) & _). unfold in_window.
  change (pageDir (tabs (pg m3))) with (<[32%nat := Z.lor (window (parent_pid p2)) RW_FLAGS]> (pageDir (tabs (pg mu)))).
  rewrite Hparent. apply list_lookup_insert_eq. lia.
Qed.

Lemma back_terminals : counts_kept (terminal m) (terminal m3).
Proof.
  pose proof (rn_terminals _ _ _ (ru_since _ _ _ Hc)) as Hk. cbn [ps_start s1] in Hk. unfold m1 in Hk. rewrite launched_terminal in Hk.
  change (terminal (entered m)) with (terminal m) in Hk. change (terminal (entered mu)) with (terminal mu) in Hk.
  change (term_cur (entered m)) with (term_cur m) in Hk. destruct Hk as [Hl Hk]. rewrite length_insert in Hl.
  destruct (ch_current _ _ _ Hch) as [_ Ht2]. change (terminal (entered mu)) with (terminal mu) in Ht2.
  change (term_cur (entered mu)) with (term_cur mu) in Ht2. rewrite Hcur in Ht2.
  destruct (cs_current _ _ _ (cm_start _ _ _ _ _ _ _ _ _ _ _ Hcm)) as [_ Ht]. change (terminal (entered m)) with (terminal m) in Ht.
  change (term_cur (entered m)) with (term_cur m) in Ht.
  assert (terminal m3 = <[Z.to_nat (term_cur m - 1) := t2 <| num_processes := num_processes t2 - 1 |> <| term_pid := parent_pid p2 |>]> (terminal mu)) as Htm
    by (unfold m3; rewrite Halt.resumed_terminal; change (term_cur (quiet (entered mu))) with (term_cur mu); by rewrite Hcur).
  rewrite Htm. split; [by rewrite length_insert|]. intros i ti Hi. destruct (decide (i = Z.to_nat (term_cur m - 1))) as [->|Hne].
  - rewrite Ht in Hi. injection Hi as <-. eexists. split; [apply list_lookup_insert_eq; by eapply lookup_lt_Some|].
    split; [cbn; lia|]. cbn. congruence.
  - rewrite list_lookup_insert_ne by done. apply (Hk i ti). by rewrite list_lookup_insert_ne by done.
Qed.

Lemma back_untouched a : 0 <= a < 6 -> a <> n -> Z.testbit (processes_flags (ps_start s)) a = true -> untouched m m3 a.
Proof. intros Ha Hne Hb. destruct (child_untouched a Ha Hne Hb) as [U1 U2]. by split. Qed.

Lemma back_typed : typed_shown (ps_video s) (ps_term s) m3 (Typed (v_mods v1) [] (v_con v1) false).
Proof.
  pose proof (ru_typed _ _ _ Hc) as [Hsh [L1 L2 L3 L4] [] He]. cbn [ty_con ty_line ty_mods ty_entered ps_video ps_term s1] in *.
  assert (shows (ps_video s) m3 (v_con v1)) as Hsh3.
  { apply (resumed_screen _ (entered mu)); [apply (ru_kernel _ _ _ Hc)|exact back_quiet|rewrite Hparent; exact (po_pid _ Hp)|].
    destruct Hsh as [S1 S2 S3 S4 S5]. by split. }
  split; [exact Hsh3|split|split|]; try done.
  - unfold m3. rewrite Halt.resumed_terminal.
    change (terminal (quiet (entered mu))) with (terminal mu). change (term_cur (quiet (entered mu))) with (term_cur mu).
    destruct (ch_current _ _ _ Hch) as [_ Ht2]. change (terminal (entered mu)) with (terminal mu) in Ht2.
    change (term_cur (entered mu)) with (term_cur mu) in Ht2. refine (eq_trans _ L2).
    destruct (decide (ps_term s = Z.to_nat (term_cur mu - 1))) as [->|Hne].
    + rewrite list_lookup_insert_eq, Ht2 by (by eapply lookup_lt_Some). done.
    + by rewrite list_lookup_insert_ne by done.
Qed.

Lemma back_runs : runs (lower s) (left m m3) (with_tty (tty_of v1) v).
Proof.
  apply (runs_on s Hp Hroom m v Hr m3 _ _ _ n Hlaunch); [exact back_kernel|exact back_window|exact Hesp| |exact Hcur|
    exact back_terminals|exact back_untouched|exact back_typed| |exact (ru_codes _ _ _ Hc)].
  - unfold m3. rewrite resumed_flags, released_flags, Hn. exact Hback.
  - exact (to_come_ext _ _ _ (entered mu) (entered m3) eq_refl eq_refl eq_refl (ru_keys _ _ _ Hc)).
Qed.
End Resumed.

(** [halt] of the child, and the parent goes on. *)
Lemma child_returns r : 
  exists m3, halt r (entered mu) = (Stop (ReturnTo r (esp0 (tss m) - RUN_STACK) (esp0 (tss m) - 68)), m3) /\
    runs (lower s) (left m m3) (with_tty (tty_of v1) v) /\
    forall a, same_but (v_home v) a 0 (User m) (User (left m m3)).
Proof.
  destruct child_ends as (t2 & Hch & Hnp & Hn & Hparent & Hesp & Hebp & Hfl & Hcur & Hback & Hnz).
  assert (place_ok s1) as Hp1 by exact (start_place _ _ _ _ _ _ _ _ _ _ _ Hcm _ _ _ _ _ _ _ (child_terminal s Hp m v Hr) (child_video s Hp)).
  destruct (halt_returns_ok execute r (entered mu) t2 p2 (ko_paging _ _ _ _ (ru_kernel _ _ _ Hc)) Hch) as (m4 & [_ Hsame] & E).
  - rewrite Hnp. destruct (cm_parent _ _ _ _ _ _ _ _ _ _ _ Hcm). lia.
  - rewrite Hn. change (processes_flags (entered mu)) with (processes_flags mu). by rewrite Hback.
  - rewrite Hsame in E; [|rewrite (runs_fds s1 Hp1 mu v1 Hc); exact (no_clock _ _ _ (ru_fds _ _ _ Hc))].
    rewrite Hesp, Hebp in E. exists (resumed (quiet (entered mu)) t2 p2). split; [rewrite halt_unfold; exact E|].
    split; [by apply back_runs|]. intros a q Hq _. rewrite (ru_home _ _ _ Hr) in Hq.
    destruct child_pid as [_ Hne].
    destruct (child_untouched (ps_pid s) (po_pid _ Hp) ltac:(congruence) (cl_flag _ _ Hlaunch)) as [_ Hcells]. exact (Hcells q Hq).
Qed.
End Back.

(** * Programs in programs *)

Section Levels.
Context `{PlatformOk} `{Literals}.

(** What the processor does in user mode from an entry point on, with the system calls
    as given: the machine code of the files. *)
Variable code : SysCalls user -> Z -> M user Z.

(** The system calls of a program that may be followed by [d] levels of others.  One that
    [execute] starts runs until it is ended; [halt] then switches to the frame of
    [execute], whose [leave] and [ret] bring the status to the system call of the parent. *)
Fixpoint calls_at (d : nat) : SysCalls user :=
  match d with
  | O => user_calls
  | S d => {| trap eax ebx ecx edx := fun u =>
      match trap (SysCalls := user_calls) eax ebx ecx edx u with
      | (Stop (EnterUser entry esp), u1) =>
          if eax =? SYS_EXECUTE then
            match code (calls_at d) entry u1 with
            | (Stop (ReturnTo r esp ebp), u2) =>
                if leave ebp =? cpu_esp (cpu (entered (sup u))) then (Ok r, User (left (sup u) (sup u2)))
                else (Stop (ReturnTo r esp ebp), u2)
            | other => other
            end
          else (Stop (EnterUser entry esp), u1)
      | other => other
      end |}
  end.

(** Calls that come back do so at every level; so do the ends of programs. *)
Lemma trap_at d eax ebx ecx edx u r u' :
  trap (SysCalls := user_calls) eax ebx ecx edx u = (Ok r, u') -> trap (SysCalls := calls_at d) eax ebx ecx edx u = (Ok r, u').
Proof. destruct d; [done|]. cbn [calls_at trap]. by intros ->. Qed.

Lemma halt_at d r m r' esp ebp m' : 0 <= r < 256 ->
  halt r (entered m) = (Stop (ReturnTo r' esp ebp), m') ->
  @ece391_halt user (calls_at d) r (User m) = (Stop (ReturnTo r' esp ebp), User m').
Proof.
  intros Hr E. assert (trap (SysCalls := user_calls) 1 r 0 0 (User m) = (Stop (ReturnTo r' esp ebp), User m')) as E'.
  { cbn [trap user_calls sup]. rewrite int80_call by lia. cbn [syscalls Z.eqb Pos.eqb]. rewrite u8_small by lia. by rewrite E. }
  unfold ece391_halt, DO_CALL, SYS_HALT. destruct d; [exact E'|]. cbn [calls_at trap]. by rewrite E'.
Qed.

Ltac lift_one L := intros; apply trap_at; eapply L; eassumption.
Ltac lift_ex1 L := intros; edestruct L as (t' & E & R); [eassumption..|]; exists t'; split; [apply trap_at; exact E|exact R].
Ltac lift_ex2 L := intros; edestruct L as (t' & v' & E & R); [eassumption..|]; exists t', v'; split; [apply trap_at; exact E|exact R].

(** The kernel keeps its promises at every level. *)
Definition calls_ok (d : nat) (s : place) (Hp : place_ok s) : @SysCallsOk user user_memory (calls_at d).
Proof.
  set (OK := kernel_calls s Hp).
  refine (@Build_SysCallsOk user user_memory (calls_at d) (sees_user s) _ _ _ _ _ _ _ _ _ _ _ _ _ _ _ _ _ _ _).
  - exact (@sees_maps _ _ _ OK).
  - exact (@sees_upd _ _ _ OK).
  - exact (@sees_args _ _ _ OK).
  - exact (@sees_image _ _ _ OK).
  - lift_ex2 (@write_display _ _ _ OK).
  - lift_one (@getargs_none _ _ _ OK).
  - lift_ex1 (@getargs_some _ _ _ OK).
  - lift_ex1 (@open_refuses _ _ _ OK).
  - lift_ex2 (@open_opens _ _ _ OK).
  - lift_ex2 (@read_file _ _ _ OK).
  - lift_ex2 (@read_dir _ _ _ OK).
  - lift_ex1 (@read_dir_end _ _ _ OK).
  - lift_ex2 (@read_keys _ _ _ OK).
  - lift_one (@read_refuses _ _ _ OK).
  - lift_one (@write_refuses _ _ _ OK).
  - lift_one (@close_refuses _ _ _ OK).
  - lift_one (@vidmap_refuses _ _ _ OK).
  - lift_one (@unknown_refused _ _ _ OK).
  - lift_ex2 (@close_closes _ _ _ OK).
Defined.

(** What a program in the memory of a process does: the code of file [c] is that of
    [main]. *)
Definition compiled (c : list Z) (main : SysCalls user -> M user Z) : Prop :=
  forall (C : SysCalls user) (u : user) (k : Z),
    0 <= k < 6 -> in_window (sup u) k -> cells (sup u) (window k + 0x48000) (length c) = c ->
    code C (entry_point c) u = @_start user C (main C) u.

(** A program ends with status [r] and leaves [st'], on any implementation of the calls. *)
Definition ends_as (d : nat) (img : image) (c words : list Z) (st : tty) (r : Z) (st' : tty) : Prop :=
  Z.of_nat (length c) <= FOUR_MB_BLOCK - 0x48000 /\ 0 <= r < 256 /\
  exists main ls, compiled c main /\ linked c ls /\
    forall (OK : @SysCallsOk user user_memory (calls_at d)) (u : user) (k : Z),
      let v := new_view k words img st.1.1 st.1.2 st.2 in
      @sees _ _ _ OK u v -> data (v_home v) u ls ->
      exists u' v', main (calls_at d) u = (Ok r, u') /\ @sees _ _ _ OK u' v' /\ tty_of v' = st'.

(** The place of a process whose kernel stack has room for [k] programs. *)
Definition at_room (s : place) (k : nat) : place :=
  Place (ps_pid s) (ps_start s) (ps_pb s) (ps_size s) (ps_img s) (ps_video s) (ps_term s) (ps_script s) (ps_later s) (RUN_STACK * Z.of_nat k).

Lemma at_room_ok s k : place_ok s -> place_ok (at_room s k).
Proof. intros [Q1 Q2 Q3 Q4 Q5]. pose proof run_stack. split; [exact Q1|cbn; lia|exact Q3|exact Q4|exact Q5]. Qed.

Lemma lower_room s k : lower (at_room s (S k)) = at_room s k.
Proof. unfold lower, at_room. cbn [ps_pid ps_start ps_pb ps_size ps_img ps_video ps_term ps_script ps_later ps_room]. f_equal. lia. Qed.

Section Launcher.
Context (d : nat) (s : place) (Hp : place_ok s) (n : Z) (Hlaunch : can_launch s n).

Lemma trap_execute m a : 0 <= a < 4294967296 ->
  trap (SysCalls := user_calls) SYS_EXECUTE a 0 0 (User m) =
    (let '(o, m') := execute (Raw a) (entered m) in (match o with Ok r => Ok r | Stop e => Stop e end, User (match o with Ok _ => left m m' | Stop _ => m' end))).
Proof.
  intros Ha. cbn [trap user_calls sup]. unfold SYS_EXECUTE. rewrite int80_call by lia. cbn [syscalls Z.eqb Pos.eqb].
  rewrite u32_small by done. by destruct (execute (Raw a) (entered m)) as [[r|e] m'].
Qed.

Lemma left_quiet m : left m (quiet (entered m)) = m.
Proof. by destruct m as [? ? ? [] ? ? ? ? ? ? ? ? ? ? ? ? ? ? ? ?]. Qed.

Lemma law_missing k m v a l w words : runs (at_room s k) m v ->
  inside a (Z.of_nat (length (l ++ [0]))) -> holds (User m) (at_ (v_home v) a) (l ++ [0]) ->
  command l w words -> find_program (v_img v) w = Some (inl tt) ->
  @ece391_execute user (calls_at (S d)) a (User m) = (Ok (-1), User m).
Proof.
  intros Hr Hi Hh Hcmd Hfp. unfold ece391_execute, DO_CALL. apply trap_at.
  pose proof (command_read (at_room s k) (at_room_ok s k Hp) m v Hr a l w words Hi Hh Hcmd) as Hcl.
  pose proof Hi as (Ha & _ & He). rewrite length_app in He. cbn [length] in He. unfold VIRTUAL_START, VIRTUAL_END in Ha, He.
  rewrite trap_execute by lia. rewrite (execute_run _ _ _ _ Hcl), decide_False by apply Hcmd.
  pose proof (ko_image _ _ _ _ (ru_kernel _ _ _ Hr)) as Hrep0. rewrite (ru_img _ _ _ Hr) in Hfp. cbn [at_room ps_img ps_pb ps_size] in *.
  pose proof (quiet_represents _ _ _ _ (entered_image (at_room s k) m v Hr)) as Hrep. cbn [at_room ps_img ps_pb ps_size] in *.
  assert (execute_program (Raw a) (Z.of_nat (length w)) (word_buf w) (Buf (replicate 128 0) 0) (quiet (entered m)) = (Ok (-1), quiet (entered m))) as E.
  { pose proof (cl_word _ _ _ _ Hcl) as Hw. pose proof (cl_length _ _ _ _ Hcl) as Hwl.
    unfold find_program in Hfp. destruct (find_dentry (ps_img s) (w ++ [0])) as [de|] eqn:Ed.
    - destruct (Z.leb_spec 0 (d_inode de)); [|done]. destruct (im_files _ !! _) as [c|] eqn:Ec; [|done]. cbn [fmap option_fmap option_map] in Hfp.
      destruct (decide _) as [|Hm]; [done|].
      apply (execute_program_checks (ps_pb s) (ps_size s) (ps_img s) (quiet (entered m)) (Raw a) (Z.of_nat (length w)) w (Buf (replicate 128 0) 0) (Z.to_nat (d_inode de)) c); try done.
      + exists de. split; [exact Ed|]. split; [lia|exact Ec].
      + pose proof (ko_accounts _ _ _ _ (ru_kernel _ _ _ Hr)) as Hac. exact (ac_terminals _ Hac).
      + pose proof (ko_accounts _ _ _ _ (ru_kernel _ _ _ Hr)) as Hac. exact (accounts_counts _ Hac).
    - by apply (execute_program_missing (ps_pb s) (ps_size s) (ps_img s)). }
  rewrite E. by rewrite left_quiet.
Qed.

Lemma law_runs k m v a l w words c r st : runs (at_room s (S k)) m v ->
  inside a (Z.of_nat (length (l ++ [0]))) -> holds (User m) (at_ (v_home v) a) (l ++ [0]) ->
  command l w words -> find_program (v_img v) w = Some (inr c) -> ends_as d (v_img v) c words (tty_of v) r st ->
  exists m', @ece391_execute user (calls_at (S d)) a (User m) = (Ok r, User m') /\ runs (at_room s k) m' (with_tty st v) /\
    same_but (v_home v) a 0 (User m) (User m').
Proof.
  intros Hr Hi Hh Hcmd Hfp (Hlen & Hr256 & main & ls & Hcomp & Hlk & Hmain). set (s' := at_room s (S k)) in *.
  assert (place_ok s') as Hp' by (by apply at_room_ok).
  assert (can_launch s' n) as Hl' by (destruct Hlaunch as [L1 L2 L3]; by split).
  pose proof Hi as (Ha & _ & He). rewrite length_app in He. cbn [length] in He. unfold VIRTUAL_START, VIRTUAL_END in Ha, He.
  destruct (launch_ready s' m v Hr n Hl') as (t & Hcs & Hnp & Htp).
  pose proof (command_read s' Hp' m v Hr a l w words Hi Hh Hcmd) as Hcl.
  destruct (find_program_ok s' m v Hr w c Hfp) as (j & Hprog & Hmag).
  assert (commanded (ps_pb s') (ps_size s') (ps_img s') (entered m) (Raw a) w words j c n t) as Hcm.
  { split; [apply kernel_ok_cpu; exact (ru_kernel _ _ _ Hr)|exact Hcs|exact Hcl|apply Hcmd|exact Hprog|exact Hmag|exact Hlen|].
    split; [exact Hnp|]. rewrite Htp. exact (po_pid _ Hp'). }
  pose proof (child_terminal s' Hp' m v Hr) as Hat. pose proof (child_video s' Hp') as Hv.
  set (m1 := launched (entered m) n t c words).
  set (s1 := Place n m1 (ps_pb s') (ps_size s') (ps_img s') (ps_video s') (ps_term s') (ps_script s') (ps_later s') START_ROOM).
  assert (place_ok s1) as Hp1 by exact (start_place _ _ _ _ _ _ _ _ _ _ _ Hcm _ _ _ _ _ _ _ Hat Hv).
  pose proof (start_runs _ _ _ _ _ _ _ _ _ _ _ Hcm _ _ _ _ _ _ _ Hat Hv) as Hs1. fold m1 s1 in Hs1.
  pose proof (start_view _ _ _ _ _ _ _ _ _ _ _ Hcm) as Hview. fold m1 in Hview.
  rewrite <- (ru_img _ _ _ Hr) in Hs1.
  assert (data (window n) (User m1) ls) as Hdata by exact (linked_data _ _ c ls Hlk Hlen (pv_code _ _ _ _ _ _ Hview)).
  destruct (Hmain (calls_ok d s1 Hp1) (User m1) n) as ([mu] & v1 & E1 & Hc & Hst); [exact Hs1|exact Hdata|].
  assert (runs s1 mu v1) as Hc' by exact Hc.
  assert (RUN_STACK <= ps_room s') as Hroom by (pose proof run_stack; unfold s', at_room; cbn [ps_room]; lia).
  destruct (child_returns s' Hp' Hroom m v Hr (Raw a) w words j c n t Hl' Hcm Htp mu v1 Hc' r) as (m3 & E3 & Hback & Hsame).
  exists (left m m3). split; [|split; [|exact (Hsame a)]].
  - pose proof (start_pid _ _ _ _ _ _ _ _ _ _ _ Hcm) as Hn6.
    assert (execute (Raw a) (entered m) = (Stop (EnterUser (entry_point c) USER_STACK), m1)) as Ex.
    { apply (execute_ok (ps_pb s') (ps_size s') (ps_img s') (entered m) (Raw a) w words j c n t); try done; try apply Hcmd.
      - apply (ko_paging _ _ _ _ (cm_kernel _ _ _ _ _ _ _ _ _ _ _ Hcm)).
      - apply (ko_image _ _ _ _ (cm_kernel _ _ _ _ _ _ _ _ _ _ _ Hcm)).
      - by apply (ko_apart _ _ _ _ (cm_kernel _ _ _ _ _ _ _ _ _ _ _ Hcm)). }
    pose proof (trap_execute m a ltac:(lia)) as Et. rewrite Ex in Et. cbv beta iota in Et.
    assert (code (calls_at d) (entry_point c) (User m1) = (Stop (ReturnTo r (esp0 (tss m) - RUN_STACK) (esp0 (tss m) - 68)), User m3)) as Ec.
    { rewrite (Hcomp (calls_at d) (User m1) n Hn6); [|exact (ru_window _ _ _ Hs1)|exact (pv_code _ _ _ _ _ _ Hview)].
      unfold _start. rewrite bind_run, E1. cbv beta iota. exact (halt_at d r mu r _ _ m3 Hr256 E3). }
    unfold ece391_execute, DO_CALL. cbn [calls_at trap]. cbn [trap] in Et. rewrite Et. change (SYS_EXECUTE =? SYS_EXECUTE) with true. cbv iota.
    rewrite Ec. cbn [sup].
    destruct (frame_entered m) as (_ & F2 & F3). pose proof (trap_room s' Hp' m v Hr). pose proof run_stack.
    rewrite u32_small in F2 by lia. rewrite F2 in F3. rewrite F3. by rewrite Z.eqb_refl.
  - rewrite <- Hst. rewrite <- (lower_room s k). exact Hback.
Qed.

(** The machine as a launcher of programs. *)
Definition kernel_launches : @LauncherOk user user_memory (calls_at (S d)).
Proof.
  refine (@Build_LauncherOk user user_memory (calls_at (S d)) (fun k => calls_ok (S d) (at_room s k) (at_room_ok s k Hp)) (ends_as d) _ _).
  - intros k [m] v a l w words Hr Hi Hh Hcmd Hfp. exists (User m).
    split; [exact (law_missing k m v a l w words Hr Hi Hh Hcmd Hfp)|]. split; [exact Hr|apply same_refl].
  - intros k [m] v a l w words c r st Hr Hi Hh Hcmd Hfp Hends.
    destruct (law_runs k m v a l w words c r st Hr Hi Hh Hcmd Hfp Hends) as (m' & E & Hr' & Hs'). exists (User m'). by split.
Defined.
End Launcher.
End Levels.

(** * The shell *)

(** The shell in a process that can start others. *)
Lemma shell_session `{PlatformOk} `{Literals} code d s (Hp : place_ok s) n run room fuel m buf st' words con dm keys :
  can_launch s n -> runs (at_room s room) m (new_view (ps_pid s) words (ps_img s) con dm keys) ->
  data (window (ps_pid s)) (User m) shell_lits -> inside buf BUFSIZE -> clear_of buf BUFSIZE shell_lits ->
  (forall c words st r st1, run c words st = Some (r, st1) -> ends_as code d (ps_img s) c words st r st1) ->
  Z.of_nat fuel <= 4294967296 ->
  shell_spec (ps_img s) run room fuel (say (line "Starting 391 Shell") (con, dm, keys)) = Some st' ->
  exists m2 room' v', @shell_main user _ (calls_at code (S d)) _ buf (User m) = (Ok 0, User m2) /\
    runs (at_room s room') m2 v' /\ tty_of v' = st'.
Proof.
  intros Hl Hr Hd Hb Hc Hrun Hfuel Hsp. set (L := kernel_launches code d s Hp n Hl).
  destruct (@shell_ok user _ (calls_at code (S d)) L _ _ (ps_img s) run buf Hrun room fuel (User m)
    (new_view (ps_pid s) words (ps_img s) con dm keys) st' Hr) as ([m2] & room' & E & Hs).
  - split; [reflexivity|reflexivity|exact Hd|by split].
  - reflexivity.
  - exact Hfuel.
  - exact Hsp.
  - exists m2, room', (with_tty st' (new_view (ps_pid s) words (ps_img s) con dm keys)). split; [exact E|]. split; [exact Hs|].
    by destruct st' as [[? ?] ?].
Qed.

(** C2. A session of the command [shell]: every line that is typed shows as it is edited; the
    programs that the lines name are started, run to their end in the system call
    [execute] of the shell and come back to it, with what they have printed and the
    lines they have read; names that are refused and statuses other than 0 are reported;
    and the line ["exit"] ends the shell, which comes back to the caller of [execute] in its
    turn.  That holds for all sessions whose programs fit on the kernel stack of the
    shell: each takes a trap and the frame of [execute], 392 bytes or more, for good, and what a
    call needs and the block at the bottom stay free.  It holds whatever the programs do
    that keep to the system calls of [Calls.v].  [code] is what the processor does with the machine
    code of the programs, [run] what each of them does to the terminal. *)
Theorem shell_runs `{PlatformOk} `{Literals} (code : SysCalls user -> Z -> M user Z) (depth : nat) (pb size : Z) (img : image)
    (m : machine) (p : ptr) (words : list Z) (k : nat) (c : list Z) (n n2 : Z) (t : terminal_t) (pv : Z) (kt : nat)
    (script : list Z) (later : list irq) (con : console) (d : mods) (keys : list (list Z)) (buf : Z)
    (run : list Z -> list Z -> tty -> option (Z * tty)) (room fuel : nat) (st : tty) :
  commanded pb size img m p (text "shell") words k c n t -> at_terminal pv kt script later m con d keys ->
  video_apart pv pb size -> linked c shell_lits -> inside buf BUFSIZE -> clear_of buf BUFSIZE shell_lits ->
  free_pid (Z.lor (processes_flags m) (Z.shiftl 1 n)) = Some n2 ->
  (forall c words st r st1, run c words st = Some (r, st1) -> ends_as code depth img c words st r st1) ->
  Z.of_nat room * RUN_STACK <= START_ROOM -> Z.of_nat fuel <= 4294967296 ->
  shell_spec img run room fuel (say (line "Starting 391 Shell") (con, d, keys)) = Some st ->
  let m1 := launched m n t c words in
  execute p m = (Stop (EnterUser (entry_point c) USER_STACK), m1) /\
  exists m2, @_start user (calls_at code (S depth)) (@shell_main user _ (calls_at code (S depth)) _ buf) (User m1) =
      (Stop (ReturnTo 0 (frame_esp (cpu m)) (frame_ebp (cpu m))), User m2) /\
    shows pv m2 st.1.1 /\ processes_flags m2 = processes_flags m.
Proof.
  intros Hcm Hat Hva Hlk Hb Hc Hfree Hrun Hroom Hfuel Hsp m1.
  pose proof (start_place _ _ _ _ _ _ _ _ _ _ _ Hcm _ _ _ _ _ _ _ Hat Hva) as Hp.
  pose proof (start_runs _ _ _ _ _ _ _ _ _ _ _ Hcm _ _ _ _ _ _ _ Hat Hva) as Hr. fold m1 in Hp, Hr.
  set (s := Place n m1 pb size img pv kt script later START_ROOM) in *.
  pose proof Hcm as [C1 C2 C3 C4 C5 C6 C7 [C8 C9]]. pose proof (start_pid _ _ _ _ _ _ _ _ _ _ _ Hcm) as Hn.
  assert (can_launch s n2) as Hl.
  { split.
    - cbn [ps_start ps_pid s]. unfold m1. rewrite launched_flags, setbit_spec by lia. by rewrite Z.eqb_refl.
    - exact Hfree.
    - exists (t <| num_processes := num_processes t + 1 |> <| term_pid := n |>). split; [|split; [|reflexivity]].
      + cbn [ps_start s]. unfold m1. rewrite launched_terminal. change (term_cur (launched m n t c words)) with (term_cur m).
        apply list_lookup_insert_eq. destruct (cs_current _ _ _ C2) as [_ Ht]. by eapply lookup_lt_Some.
      + cbn. lia. }
  assert (runs (at_room s room) m1 (new_view n words img con d keys)) as Hr'.
  { destruct Hr as [R1 R2 R3 R4 R5 R6 R7 R8 R9 R10 R11 R12 R13]. split; try done. cbn [at_room ps_room ps_pid s] in *.
    lia. }
  destruct (shell_session code depth s Hp n2 run room fuel m1 buf st words con d keys Hl Hr') as (m2 & room' & v' & E & Hr2 & Hst);
    [|exact Hb|exact Hc|exact Hrun|exact Hfuel|exact Hsp|].
  { apply (linked_data _ _ c shell_lits Hlk C7). exact (pv_code _ _ _ _ _ _ (start_view _ _ _ _ _ _ _ _ _ _ _ Hcm)). }
  destruct (execute_halt_ok pb size img m p (text "shell") words k c n 0 t (entered m2) C1 C2 C3 C4 C5 C6 C7 C8 C9 (ru_since _ _ _ Hr2))
    as (Ex & m3 & t3 & Eh & Hfl & _ & _ & _ & _ & Hsh & _).
  split; [exact Ex|]. exists m3. split; [|split; [|exact Hfl]].
  - unfold _start. rewrite bind_run, E. cbv beta iota. exact (halt_at code (S depth) 0 m2 0 _ _ m3 ltac:(lia) Eh).
  - apply Hsh. rewrite <- Hst. exact (runs_shows (at_room s room') m2 v' Hr2).
Qed.

(** * A session on the machine of [Commands.v]

    Three lines are typed: [cat frame], [dog] and [exit]. *)

Definition cat_run (c words : list Z) (st : tty) : option (Z * tty) :=
  if decide (c = tool_file) then
    '(r, out) ← cat_spec (new_view 0 words tools_image st.1.1 st.1.2 st.2);
    Some (r, say out st)
  else None.

Definition session_keys : list (list Z) :=
  [[0x2E; 0x1E; 0x14; 0x39; 0x21; 0x13; 0x1E; 0x32; 0x12]; [0x20; 0x18; 0x22]; [0x12; 0x2D; 0x17; 0x14]].

(** The processor runs [cat], whatever program is started. *)
Definition cat_code `{Platform} `{Literals} (C : SysCalls user) (_ : Z) : M user Z := @_start user C (@cat_main user _ C _ 0x8100000).

(** The characters of row [i] up to the first empty cell. *)
Definition row (c : console) (i : nat) : list Z := cprefix 80 (take 80 (drop (80 * i) (con_text c))).

Lemma cat_run_ends `{PlatformOk} d c words st r st1 : let L := tool_literals in
  cat_run c words st = Some (r, st1) -> ends_as cat_code d tools_image c words st r st1.
Proof.
  intros L. unfold cat_run. destruct (decide (c = tool_file)) as [->|]; [|done].
  destruct (cat_spec _) as [[r' out]|] eqn:Esp; [|done]. cbn [mbind option_bind]. intros [= <- <-].
  split; [|split; [exact (cat_status _ _ _ Esp)|]].
  { assert (length tool_file <= 4096)%nat by (vm_compute; lia). unfold FOUR_MB_BLOCK. lia. }
  exists (fun C => @cat_main user _ C _ 0x8100000), cat_lits. split; [|split; [apply tool_linked|]].
  - intros C u k _ _ _. reflexivity.
  - intros OK u k v Hs Hd.
    destruct (@cat_ok user _ (calls_at cat_code d) OK _ u v 0x8100000 r' out Hs eq_refl Hd) as (u' & v' & E & Hs' & Hc & Hm & Hk).
    + unfold inside, VIRTUAL_START, VIRTUAL_END. lia.
    + apply tool_clear.
    + exact tools_named.
    + exact Esp.
    + exists u', v'. split; [exact E|]. split; [exact Hs'|]. unfold tty_of, say. rewrite Hc, Hm, Hk. by destruct st as [[? ?] ?].
Qed.

Definition session_start : tty := say (line "Starting 391 Shell") (blank_console, no_mods, session_keys).
Definition session_end : tty := default session_start (shell_spec tools_image cat_run 15 3 session_start).

Lemma session_spec : shell_spec tools_image cat_run 15 3 session_start = Some session_end.
Proof. vm_compute. reflexivity. Qed.

Lemma session_screen : row session_end.1.1 <$> seq 0 8 = [text "Starting 391 Shell"; text "391OS> cat frame"; text "fish"; text "frame";
  text "391OS> dog"; text "no such command"; text "391OS> exit"; []].
Proof. vm_compute. reflexivity. Qed.

Lemma shell_runs_witness :
  let script := concat ((fun scs => scs ++ [ENTER]) <$> session_keys) in
  let P := typist script in let OK := typist_ok script in let L := tool_literals in
  exists m2 con, @_start user (calls_at cat_code 1) (@shell_main user _ (calls_at cat_code 1) _ 0x8100000)
        (User (launched (prompt_machine (length script)) 1 one_terminal tool_file [])) = (Stop (ReturnTo 0 0x7FFE8C 0x7FFFEC), User m2) /\
    shows VIDEO m2 con /\
    row con <$> seq 0 8 = [text "Starting 391 Shell"; text "391OS> cat frame"; text "fish"; text "frame";
      text "391OS> dog"; text "no such command"; text "391OS> exit"; []].
Proof.
  intros script P OK L. pose proof (prompt_at session_keys ltac:(repeat constructor; done)) as Hat.
  destruct (shell_runs cat_code 0 0x420000 0x5000 tools_image (prompt_machine (length script)) (cstr (text "shell")) [] 0 tool_file 1 2
    one_terminal VIDEO 0 script [] blank_console no_mods session_keys 0x8100000 cat_run 15 3 session_end) as (_ & m2 & E & Hs & _).
  - apply prompt_commanded; [apply plain_line; [repeat constructor; done|cbn; lia]|discriminate|eexists; split; [reflexivity|done]].
  - exact Hat.
  - exact video_below.
  - apply tool_linked.
  - unfold inside, BUFSIZE, VIRTUAL_START, VIRTUAL_END. lia.
  - apply tool_clear.
  - reflexivity.
  - intros c words st0 r st1. apply cat_run_ends.
  - vm_compute. discriminate.
  - lia.
  - exact session_spec.
  - exists m2, session_end.1.1. split; [exact E|]. split; [exact Hs|exact session_screen].
Defined.
